(* ===== verification/_CoqProject ===== *)
-Q . S2P
Prelude.v
Resilience.v
Str.v
F64.v
F64Facts.v
Chat.v
Config.v
ModelPools.v
Provider.v
Admission.v
Metrics.v
Lru.v
RateLimit.v
Redis.v
RequestLog.v
Health.v
Keys.v
Cache.v
MemoryCache.v
Middleware.v
PrefixFingerprint.v
PrefixAffinity.v
RuntimeSignals.v
Strategy.v
Models.v
Fallback.v
Rounds.v
ChatRoute.v
Responses.v
Sse.v
Upstream.v
OpenAi.v
Anthropic.v
Mock.v
Adapters.v
Snapshot.v
Sqlite.v
Prometheus.v
Stats.v
Build.v
Semantic.v
Compat.v
Admin.v
Benchmark.v
Server.v
F64Real.v
RateBound.v
Gateway.v
