(* ===== verification/Prelude.v ===== *)
(** * RustyGate: a verification development

    RustyGate is an HTTP gateway in front of chat-completion providers.  A
    request passes the middleware (request id, global rate limit, key
    authentication and role, quota, key rate limit), is validated and admitted,
    may be answered from the response cache, and is otherwise routed: a strategy
    orders the providers that can serve its model, and the fallback loop calls
    them one after the other, with retries and backoff, skipping those whose
    circuit breaker or admission limit refuses.  Every outcome is counted and
    logged.  This library models these parts from the sources and proves what
    makes them correct.

    ** Files

    - Prelude.v: machine-width integers (release-build wrap-around, saturating
      operations), results, mutexes, time, counters kept in maps, tactics and
      shared lemmas.  Str.v: Rust string methods on UTF-8 bytes.  F64.v,
      F64Facts.v: IEEE-754 binary64 and binary32 arithmetic ([SpecFloat]) and
      the facts the rate limiter and the ordering of scores need.  Lru.v: the
      interface of the [lru] crate as a class of operations with laws, the sizes
      there is room for included, and a reference implementation.
    - Config.v (config.rs): every configuration record with its defaults, and
      validation; [validate_config_accepts_iff] says exactly which
      configurations pass.  ModelPools.v (routing/model_pools.rs): the index
      from public model IDs to pools.
    - Chat.v (models/chat.rs, error.rs, token_estimator.rs, compat.rs): requests,
      responses, chunks, validation, client-facing errors.  Provider.v
      (providers/provider.rs): errors, stream events and pricing.
    - Resilience.v (routing/resilience.rs): circuit breakers; any history of
      timed operations refines an abstract breaker, and a provider whose calls
      report their results is tried again after its cooldown.
    - Admission.v (routing/admission.rs): token budgets, in-flight limits and
      the guards that hold slots.  Limits are never exceeded and the counters
      are the slots of live guards.
    - Metrics.v (telemetry/metrics.rs): the registry, its guards and snapshot.
      RequestLog.v (telemetry/request_log.rs): log entries.
    - RateLimit.v, Redis.v (rate_limit.rs): token buckets in floating point, the
      local limiter, and the Redis one with the Lua script it runs; both admit a
      burst exactly.  F64Real.v: the value of a double as a real number and the
      error of one operation; RateBound.v: over any run of checks the global
      bucket admits at most its burst plus its rate times the time.
      [LimiterLaws] is what both limiters promise the gateway.  Keys.v
      (auth/keys.rs): roles, key stores and quotas over explicit tables.  Middleware.v (app/middleware.rs,
      app/router.rs): the layers in their order and the route table.
    - PrefixFingerprint.v, PrefixAffinity.v, RuntimeSignals.v, Strategy.v
      (routing/*.rs): candidate selection.  Under every policy the candidates
      are the eligible providers, each once, in an order that does not depend
      on the configuration's: by cost or latency score where the policy asks for
      it, then priority, then name.
    - Fallback.v (routing/fallback.rs): the loop over candidates and retries,
      which returns every admission slot.  Rounds.v: an abstract account of the
      loop, round by round, which both of its forms follow: who is called, how
      often and when, what the breakers are told, and which outcome and attempts
      the caller gets.
    - Cache.v, MemoryCache.v (cache/response.rs; the memory cache over an
      interface of the [moka] crate), Models.v (routes/models.rs), Health.v
      (routing/health.rs, routes/health.rs): the response cache, the model list,
      provider health and readiness.
    - ChatRoute.v (routes/chat.rs, routes/shared.rs): the chat endpoint from
      the body to the end of the event stream; every request is counted and
      logged once and gives back what it took.
    - Responses.v (models/responses.rs, routes/compat.rs): the responses
      endpoint, streamed and not; the text sent is the text completed with.
      Compat.v (routes/compat.rs, app/router.rs): the placeholder endpoints,
      and what they answer on every route opened for them.
    - Sse.v (providers/sse.rs), Upstream.v, OpenAi.v, Anthropic.v, Mock.v
      (providers/*.rs): event decoding and the provider adapters.  How the
      network cuts a stream does not matter (at character boundaries), and the
      chunks an adapter yields carry the text and tool calls the service sent.
      Anthropic.v includes the derived decoder of stream events, which the
      documented end of a message does not pass.  Adapters.v
      composes an adapter with the chat endpoint's event stream.
    - Sqlite.v (storage/sqlite.rs): the request log over explicit tables, which
      hold, row for row, the requests accepted and not pruned with all their
      attempts, and the statistics computed from it.  Snapshot.v: updates of a metrics snapshot.  Stats.v (routes/stats.rs):
      the statistics endpoints, which answer the same with and without a log.
      Prometheus.v (telemetry/prometheus.rs): the exposition format, with the
      reader that gets the samples back.
    - Build.v (app/build.rs, app/state.rs): the application state from the
      configuration; what a validated configuration needs of the outside to
      start, which ones panic ([Build.roomy]), and what the state then holds.
    - Semantic.v (cache/semantic.rs): the semantic cache, which answers from
      the nearest stored prompt.
    - Gateway.v (app/router.rs, with the handlers of routes/chat.rs and
      routes/compat.rs): the middleware, the two handlers and the state of
      Build.v put together with either rate limiter, and runs of requests:
      a gateway started from a validated configuration keeps serving, its books
      agree with its replies, and no more requests get through than its local
      limiter's rate allows.
    - Server.v (server.rs, main.rs, telemetry/tracing.rs): the steps of the
      process, signals, graceful shutdown, which ends within the grace period,
      trace headers, and the retention of the log, which keeps exactly the
      recent requests.  Admin.v (bin/rustygate_admin.rs): the key commands; what a
      rotation replaces and when it loses a key.  Benchmark.v
      (bin/rustygate_benchmark.rs): the load generator's report, which does not
      depend on how its tasks interleave.

    ** Conventions

    A component is a [Module] with a [Record] for its state, a definition per
    function and the source's names.  Traits are classes ([LruOps],
    [Keys.KeyStore], [RateLimit.RateLimitBackend], [Cache.ResponseCache],
    [MemoryCache.MokaOps]); the client's theorems hold for every instance.  An
    operation that can panic returns an option, [None] being the panic; a mutex is [Poisoned] after its
    holder panicked.  [Instant]s and [Duration]s are nanoseconds as integers,
    and each operation takes the time it reads as an argument, so histories are
    lists of timed operations.  Unsigned arithmetic wraps as in a release build
    wherever the code does not saturate.  Hash maps are [gmap]s; where the code
    iterates over one, it sorts or counts, and the model uses the sorted list.

    Code outside the sources is an argument: what providers answer and what
    else happens to the shared state while the gateway waits for them, the JSON
    parser and encoder, SHA-256, Argon2, random identifiers.  The database is an explicit
    table with the migrations' constraints.  What a theorem needs of an argument
    is a hypothesis of it, with a witness on a concrete instance.

    ** Bounds

    Retry loops recurse on the retries left, so no fuel is needed; the
    candidate loop recurses on the list.  The event stream recurses on the items
    that arrive.  The registry keeps 1024 samples; that the floating-point
    percentile index is the exact nearest rank is checked by evaluation for
    every count up to that.  [provider_load_exact] is for fewer than 2^40 guard
    operations, far from the 64-bit wrap.  The token buckets' arithmetic is
    exact for a burst because integers up to 2^32 are exact in binary64.  In the
    long run each refill and each token taken may round up: a bucket of at most
    2^32 tokens gains less than 2^-18 of a token per check, and the refilled
    amount is off by a factor of at most 1 + 2^-48 (time differences below 2^52
    seconds).  [Gateway.run] takes the requests one after another; what other
    requests do meanwhile is left out there, while RateBound.v takes the checks
    of any interleaving in the order they hold the lock.  Theorems about requests
    take no backoff jitter to be [u64::MAX], at which the backoff panics
    ([Fallback.max_jitter_has_no_backoff]); those that count admissions and
    bookings exactly take the request to run alone.  The [lru] and [moka]
    constructors panic on tables beyond the address space and on a time to live
    of more than 1000 years; what validation lets through of these is
    [Build.roomy]'s complement.
    Stored and live statistics agree while the latencies sum to less than 2^53,
    where the floating-point sum the log query keeps is still exact; the
    benchmark's percentiles are in range for fewer than 2^53 requests.  The reader
    of the exposition format has as fuel the length of the line it reads.

    ** Not modelled

    Sockets, command line parsing and tracing output; serde's derived encoders
    and decoders, which are arguments (but for the Anthropic stream events); the database driver and its migrations.
    A database transaction is one step, and its tables are lists in insertion
    order; a handler that awaits the key store or the log is not interleaved
    with others at that point. *)
From Stdlib Require Export ZArith Lia.
From stdpp Require Export base tactics option list list_numbers gmap strings fin_maps sorting.

Global Open Scope Z_scope.

(* ------------------------------------------------------------------ *)
(** ** Machine-width integers *)

Definition u32_max : Z := 2 ^ 32 - 1.
Definition u64_max : Z := 2 ^ 64 - 1.
Definition i64_max : Z := 2 ^ 63 - 1.

(** [x + y] on [u32]/[u64] with the wrap-around of a release build. *)
Definition u32_add (x y : Z) : Z := (x + y) mod 2 ^ 32.
Definition u64_add (x y : Z) : Z := (x + y) mod 2 ^ 64.

(** The [saturating_*] methods. *)
Definition u32_sat_add (x y : Z) : Z := Z.min u32_max (x + y).
Definition u64_sat_add (x y : Z) : Z := Z.min u64_max (x + y).
Definition u64_sat_mul (x y : Z) : Z := Z.min u64_max (x * y).
Definition u64_sat_pow (x y : Z) : Z := Z.min u64_max (x ^ y).
Definition sat_sub (x y : Z) : Z := Z.max 0 (x - y).

(** Membership in a width. *)
Definition is_u32 (x : Z) : Prop := 0 <= x <= u32_max.
Definition is_u64 (x : Z) : Prop := 0 <= x <= u64_max.

(* ------------------------------------------------------------------ *)
(** ** Results, mutexes, time *)

Inductive result (A E : Type) : Type :=
| Ok (a : A)
| Err (e : E).
Arguments Ok {A E} a.
Arguments Err {A E} e.

(** [std::sync::Mutex]: [Poisoned] once a holder has panicked; every use in
    the sources goes through [lock()] and never recovers a poisoned value. *)
Inductive mutex (A : Type) : Type :=
| Unpoisoned (a : A)
| Poisoned.
Arguments Unpoisoned {A} a.
Arguments Poisoned {A}.

Definition lock {A : Type} (m : mutex A) : option A :=
  match m with
  | Unpoisoned a => Some a
  | Poisoned => None
  end.

(** [std::time::Instant] and [Duration], in nanoseconds. *)
Definition from_millis (ms : Z) : Z := ms * 1000000.
Definition from_secs (s : Z) : Z := s * 1000000000.
Definition as_millis (d : Z) : Z := d / 1000000.
Definition as_secs (d : Z) : Z := d / 1000000000.
Definition duration_since (now earlier : Z) : Z := Z.max 0 (now - earlier).

(* ------------------------------------------------------------------ *)
(** ** Options: the std combinators used by the sources *)

Definition is_some_and {A : Type} (o : option A) (f : A -> bool) : bool :=
  match o with Some a => f a | None => false end.
Definition is_none_or {A : Type} (o : option A) (f : A -> bool) : bool :=
  match o with Some a => f a | None => true end.
Definition is_some {A : Type} (o : option A) : bool :=
  match o with Some _ => true | None => false end.
Definition or_else {A : Type} (o o' : option A) : option A :=
  match o with Some a => Some a | None => o' end.
Definition opt_filter {A : Type} (f : A -> bool) (o : option A) : option A :=
  match o with Some a => if f a then Some a else None | None => None end.

(* ------------------------------------------------------------------ *)
(** ** Comparators and the stable [sort_by] *)

Definition then_with {A : Type} (c1 c2 : A -> A -> comparison) (x y : A) : comparison :=
  match c1 x y with Eq => c2 x y | c => c end.

Definition cmp_on {A B : Type} (f : A -> B) (c : B -> B -> comparison) (x y : A) : comparison :=
  c (f x) (f y).

Definition cmp_flip {A : Type} (c : A -> A -> comparison) (x y : A) : comparison := c y x.

(** [bool]'s [Ord]: [false < true]. *)
Definition bool_compare (x y : bool) : comparison :=
  match x, y with
  | false, true => Lt
  | true, false => Gt
  | _, _ => Eq
  end.

Global Typeclasses Opaque then_with cmp_on cmp_flip bool_compare.

(** What a comparator passed to [sort_by] has to promise. *)
Class TotalCmp {A : Type} (c : A -> A -> comparison) : Prop := {
  cmp_opp : forall x y, c y x = CompOpp (c x y);
  cmp_trans : forall x y z, c x y <> Gt -> c y z <> Gt -> c x z <> Gt
}.
Arguments cmp_opp {A} c {_} x y.
Arguments cmp_trans {A} c {_} x y z.

Section SortBy.
Context {A : Type} (c : A -> A -> comparison).

Fixpoint insert_by (x : A) (l : list A) : list A :=
  match l with
  | [] => [x]
  | y :: l' => match c x y with Gt => y :: insert_by x l' | _ => x :: l end
  end.

(** [slice::sort_by]: a stable sort. *)
Definition sort_by (l : list A) : list A := foldr insert_by [] l.

(** [Iterator::max_by]: the last of several maximal elements. *)
Fixpoint max_by_from (best : A) (l : list A) : A :=
  match l with
  | [] => best
  | y :: l' => max_by_from (match c best y with Gt => best | _ => y end) l'
  end.

Definition max_by (l : list A) : option A :=
  match l with [] => None | x :: l' => Some (max_by_from x l') end.

End SortBy.

(** [Iterator::min] on unsigned integers. *)
Definition min_list (l : list Z) : option Z :=
  match l with [] => None | x :: l' => Some (foldl Z.min x l') end.

(** [BTreeMap] iteration: ascending key order. *)
Definition btree_items {V : Type} (m : gmap string V) : list (string * V) :=
  sort_by (cmp_on fst String.compare) (map_to_list m).

(** [*map.entry(k).or_default() += n] on a [BTreeMap<String, u64>]. *)
Definition count_add (k : string) (n : Z) (m : gmap string Z) : gmap string Z :=
  <[k := u64_add (default 0 (m !! k)) n]> m.

(** [decrement_or_remove]'s map update, shared by two source files. *)
Definition sub_or_remove (k : string) (n : Z) (m : gmap string Z) : gmap string Z :=
  match m !! k with
  | Some v => if sat_sub v n =? 0 then delete k m else <[k := sat_sub v n]> m
  | None => m
  end.

(* ------------------------------------------------------------------ *)
(** ** Tactics and hint databases *)

(** [rg]: the facts about widths, comparators and sorting that the component
    files close goals with; [rg_rw]: rewrites that simplify counters. *)
Create HintDb rg.

(** Split every [if] and [match] of the goal, keeping the equations. *)
Ltac case_all := repeat (case_match; simplify_eq/=; try done).

(** [r] with the field [proj] replaced by [x]; [eta] rebuilds a record from its
    fields. *)
Ltac set_field eta proj x r :=
  let e := eval unfold eta in (eta r) in
  let e := eval pattern (proj r) in e in
  match e with
  | ?f _ => let e := eval cbv beta in (f x) in exact e
  end.

(** Reflect boolean integer tests into propositions. *)
Ltac zbool :=
  repeat match goal with
  | H : (_ =? _) = true |- _ => apply Z.eqb_eq in H
  | H : (_ =? _) = false |- _ => apply Z.eqb_neq in H
  | H : (_ <=? _) = true |- _ => apply Z.leb_le in H
  | H : (_ <=? _) = false |- _ => apply Z.leb_gt in H
  | H : (_ <? _) = true |- _ => apply Z.ltb_lt in H
  | H : (_ <? _) = false |- _ => apply Z.ltb_ge in H
  | H : (_ >=? _) = true |- _ => rewrite Z.geb_leb in H
  | H : (_ >=? _) = false |- _ => rewrite Z.geb_leb in H
  | H : (_ >? _) = true |- _ => rewrite Z.gtb_ltb in H
  | H : (_ >? _) = false |- _ => rewrite Z.gtb_ltb in H
  end.

(** Unfold the width arithmetic and finish with [lia]. *)
Ltac width :=
  unfold u32_sat_add, u64_sat_add, u64_sat_mul, u64_sat_pow, sat_sub,
    is_u32, is_u64 in *; zbool;
  change u32_max with 4294967295 in *; change u64_max with 18446744073709551615 in *; lia.

(* ------------------------------------------------------------------ *)
(** ** Width lemmas *)

Lemma u32_add_small x y : 0 <= x + y <= u32_max -> u32_add x y = x + y.
Proof. unfold u32_add, u32_max. intros. apply Z.mod_small. lia. Qed.

Lemma u64_add_small x y : 0 <= x + y <= u64_max -> u64_add x y = x + y.
Proof. unfold u64_add, u64_max. intros. apply Z.mod_small. lia. Qed.

Lemma u64_add_range x y : is_u64 (u64_add x y).
Proof. unfold is_u64, u64_add, u64_max. pose proof (Z.mod_pos_bound (x + y) (2 ^ 64)). lia. Qed.

Lemma u64_sat_add_range x y : 0 <= x -> 0 <= y -> is_u64 (u64_sat_add x y).
Proof. intros. width. Qed.

Lemma u64_sat_mul_range x y : 0 <= x -> 0 <= y -> is_u64 (u64_sat_mul x y).
Proof. intros. assert (0 <= x * y) by nia. width. Qed.

#[export] Hint Resolve u64_add_range u64_sat_add_range u64_sat_mul_range : rg.

(* ------------------------------------------------------------------ *)
(** ** Comparators *)

Section CmpFacts.
Context {A : Type} (c : A -> A -> comparison) `{!TotalCmp c}.

Lemma cmp_refl x : c x x = Eq.
Proof. pose proof (cmp_opp c x x). by destruct (c x x). Qed.

Lemma cmp_Gt_Lt x y : c x y = Gt <-> c y x = Lt.
Proof. rewrite (cmp_opp c x y). by destruct (c x y). Qed.

Lemma cmp_Eq_sym x y : c x y = Eq <-> c y x = Eq.
Proof. rewrite (cmp_opp c x y). by destruct (c x y). Qed.

Lemma cmp_not_Gt x y : c x y <> Gt <-> c y x <> Lt.
Proof. by rewrite cmp_Gt_Lt. Qed.

Lemma cmp_Lt_le_trans x y z : c x y = Lt -> c y z <> Gt -> c x z = Lt.
Proof.
  intros Hxy Hyz. destruct (c x z) eqn:Hxz; [|done|].
  - exfalso. apply cmp_Gt_Lt in Hxy. assert (c y x <> Gt); [|done].
    eapply (cmp_trans c); [exact Hyz|]. by rewrite (cmp_opp c x z), Hxz.
  - exfalso. assert (c x z <> Gt); [|done]. eapply (cmp_trans c); [by rewrite Hxy|done].
Qed.

Lemma cmp_le_Lt_trans x y z : c x y <> Gt -> c y z = Lt -> c x z = Lt.
Proof.
  intros Hxy Hyz. destruct (c x z) eqn:Hxz; [|done|].
  - exfalso. apply cmp_Gt_Lt in Hyz. assert (c z y <> Gt); [|done].
    eapply (cmp_trans c); [|exact Hxy]. by rewrite (cmp_opp c x z), Hxz.
  - exfalso. assert (c x z <> Gt); [|done]. eapply (cmp_trans c); [done|by rewrite Hyz].
Qed.

Lemma cmp_Eq_l x y z : c x y = Eq -> c x z = c y z.
Proof.
  intros Hxy. assert (c y x = Eq) as Hyx by by apply cmp_Eq_sym.
  destruct (c y z) eqn:Hyz.
  - assert (c x z <> Gt) by by eapply (cmp_trans c); [rewrite Hxy|rewrite Hyz].
    assert (c z x <> Gt).
    { apply cmp_Eq_sym in Hyz. by eapply (cmp_trans c); [rewrite Hyz|rewrite Hyx]. }
    rewrite (cmp_opp c x z) in *. by destruct (c x z).
  - by eapply cmp_le_Lt_trans; [rewrite Hxy|].
  - apply cmp_Gt_Lt. apply cmp_Gt_Lt in Hyz. eapply cmp_Lt_le_trans; [done|]. by rewrite Hyx.
Qed.

End CmpFacts.

#[export] Instance Zcompare_total : TotalCmp Z.compare.
Proof.
  split; [intros; apply Z.compare_antisym|].
  intros x y z. rewrite !Z.compare_le_iff. lia.
Qed.

#[export] Instance natcompare_total : TotalCmp Nat.compare.
Proof.
  split; [intros; apply Nat.compare_antisym|].
  intros x y z. rewrite !Nat.compare_le_iff. lia.
Qed.

#[export] Instance bool_compare_total : TotalCmp bool_compare.
Proof. split; [by intros [] []|by intros [] [] []]. Qed.

Lemma string_compare_le x y : String.compare x y <> Gt <-> String.le x y.
Proof. unfold String.le, String.leb. by destruct (String.compare x y). Qed.

#[export] Instance string_compare_total : TotalCmp String.compare.
Proof.
  split; [intros; apply String.compare_antisym|].
  intros x y z. rewrite !string_compare_le. apply String.le_po.
Qed.

#[export] Instance cmp_on_total {A B : Type} (f : A -> B) c `{!TotalCmp c} :
  TotalCmp (cmp_on f c).
Proof. split; unfold cmp_on; intros; [apply (cmp_opp c)|by eapply (cmp_trans c)]. Qed.

#[export] Instance cmp_flip_total {A : Type} (c : A -> A -> comparison) `{!TotalCmp c} :
  TotalCmp (cmp_flip c).
Proof. split; unfold cmp_flip; intros; [apply (cmp_opp c)|by eapply (cmp_trans c)]. Qed.

#[export] Instance then_with_total {A : Type} (c1 c2 : A -> A -> comparison)
  `{!TotalCmp c1, !TotalCmp c2} : TotalCmp (then_with c1 c2).
Proof.
  split; unfold then_with.
  - intros x y. rewrite (cmp_opp c1 x y). destruct (c1 x y); simpl; [apply (cmp_opp c2)|done..].
  - intros x y z Hxy Hyz. destruct (c1 x y) eqn:E1.
    + rewrite (cmp_Eq_l c1 x y z) by done.
      destruct (c1 y z); [|done..]. by eapply (cmp_trans c2).
    + rewrite (cmp_Lt_le_trans c1 x y z); [done..|]. by destruct (c1 y z).
    + done.
Qed.

(* ------------------------------------------------------------------ *)
(** ** [sort_by] is a stable sort, and the only one *)

Section SortFacts.
Context {A : Type} (c : A -> A -> comparison).

Lemma insert_by_perm x l : insert_by c x l ≡ₚ x :: l.
Proof. induction l as [|y l IH]; simpl; [done|]. case_match; [done..|]. rewrite IH. apply perm_swap. Qed.

Lemma sort_by_perm l : sort_by c l ≡ₚ l.
Proof. induction l as [|x l IH]; simpl; [done|]. by rewrite insert_by_perm, IH. Qed.

Lemma sort_by_elem_of x l : x ∈ sort_by c l <-> x ∈ l.
Proof. by rewrite sort_by_perm. Qed.

Lemma sort_by_length l : length (sort_by c l) = length l.
Proof. by rewrite sort_by_perm. Qed.

Lemma sort_by_nil_iff l : sort_by c l = [] <-> l = [].
Proof. rewrite <-!length_zero_iff_nil. by rewrite sort_by_length. Qed.

Context `{!TotalCmp c}.

Lemma insert_by_sorted x l :
  StronglySorted (fun a b => c a b <> Gt) l ->
  StronglySorted (fun a b => c a b <> Gt) (insert_by c x l).
Proof.
  induction 1 as [|y l Hs IH Hall]; simpl; [by repeat constructor|].
  destruct (c x y) eqn:E.
  - constructor; [by constructor|]. constructor; [by rewrite E|].
    eapply Forall_impl; [done|]. intros z Hz. eapply (cmp_trans c); [by rewrite E|done].
  - constructor; [by constructor|]. constructor; [by rewrite E|].
    eapply Forall_impl; [done|]. intros z Hz. eapply (cmp_trans c); [by rewrite E|done].
  - constructor; [done|]. rewrite insert_by_perm. constructor; [|done].
    apply (cmp_Gt_Lt c) in E. by rewrite E.
Qed.

Lemma sort_by_sorted l : StronglySorted (fun a b => c a b <> Gt) (sort_by c l).
Proof. induction l; simpl; [constructor|]. by apply insert_by_sorted. Qed.

(** The elements that compare [Eq] to [k], in list order. *)
Definition eq_class (k : A) (l : list A) : list A := filter (fun y => c k y = Eq) l.

Lemma insert_by_class k x l :
  StronglySorted (fun a b => c a b <> Gt) l ->
  eq_class k (insert_by c x l) = eq_class k (x :: l).
Proof.
  induction 1 as [|y l Hs IH Hall]; simpl; [done|].
  destruct (c x y) eqn:E; [done..|]. unfold eq_class in *. rewrite !filter_cons, IH, !filter_cons.
  destruct (decide (c k y = Eq)) as [Hy|]; destruct (decide (c k x = Eq)) as [Hx|]; try done.
  exfalso. rewrite <-(cmp_Eq_l c k x y Hx) in E. congruence.
Qed.

(** Stability: equal elements keep their relative order. *)
Lemma sort_by_stable k l : eq_class k (sort_by c l) = eq_class k l.
Proof.
  induction l as [|x l IH]; [done|]. cbn [sort_by foldr].
  fold (sort_by c l). rewrite insert_by_class by apply sort_by_sorted.
  unfold eq_class in *. by rewrite !filter_cons, IH.
Qed.

(** Two sorted lists with the same equality classes are the same list. *)
Lemma stable_sort_unique l1 l2 :
  StronglySorted (fun a b => c a b <> Gt) l1 ->
  StronglySorted (fun a b => c a b <> Gt) l2 ->
  (forall k, eq_class k l1 = eq_class k l2) -> l1 = l2.
Proof.
  intros Hs1. revert l2.
  induction Hs1 as [|x l1 Hs1 IH Hall1]; intros l2 Hs2 Hcl.
  - destruct l2 as [|y l2]; [done|]. specialize (Hcl y). unfold eq_class in Hcl. rewrite filter_cons in Hcl.
    by rewrite decide_True in Hcl by apply (cmp_refl c).
  - destruct Hs2 as [|y l2 Hs2 Hall2].
    { specialize (Hcl x). unfold eq_class in Hcl. rewrite filter_cons in Hcl.
      by rewrite decide_True in Hcl by apply (cmp_refl c). }
    assert (x = y) as <-; [|f_equal; apply IH; [done|]].
    2:{ intros k. specialize (Hcl k). unfold eq_class in *. rewrite !filter_cons in Hcl.
        case_decide; by simplify_eq. }
    assert (forall a b la lb, Forall (fun z => c a z <> Gt) la ->
      (forall k, eq_class k (a :: la) = eq_class k (b :: lb)) -> c a b <> Gt) as Hle.
    { intros a b la lb Hall Hc. assert (b ∈ eq_class b (a :: la)) as Hb.
      { rewrite Hc. unfold eq_class. apply list_elem_of_filter. split; [apply (cmp_refl c)|left]. }
      apply list_elem_of_filter in Hb as [_ Hb]. apply elem_of_cons in Hb as [->|Hb].
      - by rewrite (cmp_refl c).
      - rewrite Forall_forall in Hall. auto. }
    assert (c x y = Eq) as Hxy.
    { assert (c x y <> Gt) by by eapply Hle. assert (c y x <> Gt) by by eapply Hle.
      rewrite (cmp_opp c x y) in *. by destruct (c x y). }
    specialize (Hcl x). unfold eq_class in Hcl. rewrite !filter_cons in Hcl.
    rewrite !decide_True in Hcl by (done || apply (cmp_refl c)). by simplify_eq.
Qed.

Lemma sort_by_lookup l i j x y :
  (i < j)%nat -> sort_by c l !! i = Some x -> sort_by c l !! j = Some y -> c x y <> Gt.
Proof.
  pose proof (sort_by_sorted l) as Hs. revert i j. induction Hs as [|a s Hs IH Ha]; intros i j Hij; [done|].
  destruct j as [|j]; [lia|]. destruct i as [|i]; simpl; [|apply IH; lia].
  intros [= ->] Hy. rewrite Forall_forall in Ha. apply Ha. by apply list_elem_of_lookup_2 in Hy.
Qed.

Lemma sort_by_head x l l' : sort_by c l = x :: l' -> x ∈ l /\ forall y, y ∈ l -> c x y <> Gt.
Proof.
  intros E. pose proof (sort_by_sorted l) as Hs. rewrite E in Hs.
  split; [apply sort_by_elem_of; rewrite E; left|].
  intros y Hy. apply sort_by_elem_of in Hy. rewrite E in Hy.
  apply elem_of_cons in Hy as [->|Hy]; [by rewrite (cmp_refl c)|].
  apply StronglySorted_inv in Hs as [_ Hs]. rewrite Forall_forall in Hs. auto.
Qed.

(** Sorted permutations are equal when only equal elements compare [Eq]. *)
Lemma sorted_perm_unique l1 l2 :
  StronglySorted (fun a b => c a b <> Gt) l1 -> StronglySorted (fun a b => c a b <> Gt) l2 ->
  l1 ≡ₚ l2 -> (forall x y, x ∈ l1 -> y ∈ l1 -> c x y = Eq -> x = y) -> l1 = l2.
Proof.
  intros Hs1. revert l2. induction Hs1 as [|x l1 Hs1 IH Hall1]; intros l2 Hs2 Hp Heq.
  - by apply Permutation_nil_l in Hp.
  - destruct Hs2 as [|y l2 Hs2 Hall2]; [by apply Permutation_nil_r in Hp|].
    assert (forall a b la, Forall (fun z => c a z <> Gt) la -> b ∈ a :: la -> c a b <> Gt) as Hle.
    { intros a b la Hall Hb. apply elem_of_cons in Hb as [->|Hb]; [by rewrite (cmp_refl c)|].
      rewrite Forall_forall in Hall. auto. }
    assert (y ∈ x :: l1) as Hy by (rewrite Hp; left). assert (x ∈ y :: l2) as Hx by (rewrite <-Hp; left).
    assert (x = y) as <-.
    { apply Heq; [left|done|]. pose proof (Hle _ _ _ Hall1 Hy) as Hxy.
      pose proof (Hle _ _ _ Hall2 Hx) as Hyx. rewrite (cmp_opp c x y) in Hyx. by destruct (c x y). }
    f_equal. apply IH; [done|by apply Permutation_cons_inv in Hp|].
    intros a b Ha Hb. apply Heq; by right.
Qed.

Lemma sort_by_perm_eq l1 l2 :
  l1 ≡ₚ l2 -> (forall x y, x ∈ l1 -> y ∈ l1 -> c x y = Eq -> x = y) -> sort_by c l1 = sort_by c l2.
Proof.
  intros Hp Heq. apply sorted_perm_unique; [apply sort_by_sorted..| |].
  - by rewrite !sort_by_perm.
  - intros x y Hx Hy. apply Heq; by apply sort_by_elem_of.
Qed.

Lemma max_by_from_spec best l :
  (max_by_from c best l = best \/ max_by_from c best l ∈ l) /\
  c best (max_by_from c best l) <> Gt /\
  (forall y, y ∈ l -> c y (max_by_from c best l) <> Gt).
Proof.
  revert best. induction l as [|y l IH]; intros best; simpl.
  - split; [by left|]. split; [by rewrite (cmp_refl c)|]. intros y Hy. by apply elem_of_nil in Hy.
  - destruct (IH (match c best y with Gt => best | _ => y end)) as (Hin & Hb & Hl).
    split; [|split].
    + destruct Hin as [Hin|Hin]; [|by right; right]. rewrite Hin.
      destruct (c best y); [right; left|right; left|by left].
    + destruct (c best y) eqn:E; [| |done].
      * eapply (cmp_trans c); [|exact Hb]. by rewrite E.
      * eapply (cmp_trans c); [|exact Hb]. by rewrite E.
    + intros z Hz. apply elem_of_cons in Hz as [->|Hz]; [|by apply Hl].
      destruct (c best y) eqn:E; [done..|]. eapply (cmp_trans c); [|exact Hb].
      apply (cmp_Gt_Lt c) in E. by rewrite E.
Qed.

Lemma max_by_spec l x : max_by c l = Some x -> x ∈ l /\ forall y, y ∈ l -> c y x <> Gt.
Proof.
  destruct l as [|a l]; simpl; [done|]. intros [= <-].
  destruct (max_by_from_spec a l) as (Hin & Ha & Hl). split.
  - destruct Hin as [->|Hin]; [left|by right].
  - intros y Hy. apply elem_of_cons in Hy as [->|Hy]; auto.
Qed.

Lemma max_by_is_some l : l <> [] -> is_Some (max_by c l).
Proof. destruct l; [done|by eexists]. Qed.

End SortFacts.

#[export] Hint Resolve sort_by_perm sort_by_sorted : rg.

(* ------------------------------------------------------------------ *)
(** ** Counter maps: an entry exists exactly while its count is positive *)

Definition tallies (m : gmap string Z) (f : string -> Z) : Prop :=
  forall k, m !! k = if f k =? 0 then None else Some (f k).

Lemma tallies_default m f k : tallies m f -> default 0 (m !! k) = f k.
Proof. intros H. rewrite H. destruct (f k =? 0) eqn:E; zbool; simpl; lia. Qed.

Lemma tallies_ext m f g : tallies m f -> (forall k, f k = g k) -> tallies m g.
Proof. intros H Heq k. by rewrite <-Heq. Qed.

Lemma tallies_empty : tallies ∅ (fun _ => 0).
Proof. intros k. by rewrite lookup_empty. Qed.

Lemma tallies_zero m f : tallies m f -> (forall k, f k = 0) -> m = ∅.
Proof. intros H H0. apply map_eq. intros k. by rewrite H, H0, lookup_empty. Qed.

Lemma tallies_add m f f' k n :
  tallies m f -> 0 <= f k -> 0 < n -> f k + n <= u64_max ->
  f' k = f k + n -> (forall j, j <> k -> f' j = f j) -> tallies (count_add k n m) f'.
Proof.
  intros Hm Hk Hn Hmax Hf Hother j. unfold count_add. rewrite (tallies_default m f) by done.
  rewrite u64_add_small by lia. destruct (decide (j = k)) as [->|Hne].
  - rewrite lookup_insert_eq, Hf. destruct (_ =? 0) eqn:E; zbool; [lia|done].
  - rewrite lookup_insert_ne by done. rewrite Hother by done. apply Hm.
Qed.

Lemma tallies_sub m f f' k n :
  tallies m f -> 0 <= n <= f k ->
  f' k = f k - n -> (forall j, j <> k -> f' j = f j) -> tallies (sub_or_remove k n m) f'.
Proof.
  intros Hm Hn Hf Hother j. unfold sub_or_remove. rewrite (Hm k).
  assert (j <> k -> m !! j = if f' j =? 0 then None else Some (f' j)) as Hne.
  { intros ?. rewrite Hother by done. apply Hm. }
  destruct (f k =? 0) eqn:E; zbool.
  - destruct (decide (j = k)) as [->|]; [|auto]. rewrite Hm, Hf. by replace (f k - n) with (f k) by lia.
  - unfold sat_sub. rewrite Z.max_r by lia. destruct (decide (j = k)) as [->|].
    + rewrite Hf. destruct (f k - n =? 0); [by rewrite lookup_delete_eq|by rewrite lookup_insert_eq].
    + destruct (f k - n =? 0); [rewrite lookup_delete_ne by done|rewrite lookup_insert_ne by done]; auto.
Qed.

(* ------------------------------------------------------------------ *)
(** ** [BTreeMap] iteration *)

Lemma nodup_map_eq {A B} (f : A -> B) (l : list A) x y : NoDup (map f l) -> x ∈ l -> y ∈ l -> f x = f y -> x = y.
Proof.
  intros Hnd Hx Hy E. apply list_elem_of_lookup in Hx as [i Hi]. apply list_elem_of_lookup in Hy as [j Hj].
  assert (i = j) as ->; [|congruence].
  eapply (NoDup_lookup _ i j (f y) Hnd); change (map f l) with (f <$> l); rewrite list_lookup_fmap; [by rewrite Hi, <-E|by rewrite Hj].
Qed.

Lemma filter_ext_elem {A} (P Q : A -> Prop) `{!forall x, Decision (P x), !forall x, Decision (Q x)} (l : list A) :
  (forall x, x ∈ l -> P x <-> Q x) -> filter P l = filter Q l.
Proof.
  induction l as [|a l IH]; intros Heq; [done|]. rewrite !filter_cons.
  assert (P a <-> Q a) as Ha by (apply Heq; left). rewrite IH by (intros x Hx; apply Heq; by right).
  repeat case_decide; tauto || done.
Qed.

Lemma btree_keys {V : Type} (m : gmap string V) : NoDup (map fst (btree_items m)).
Proof.
  assert (map fst (btree_items m) ≡ₚ map fst (map_to_list m)) as -> by apply Permutation_map, sort_by_perm.
  apply NoDup_fst_map_to_list.
Qed.

Lemma btree_elem {V : Type} (m : gmap string V) e : e ∈ btree_items m <-> m !! e.1 = Some e.2.
Proof. destruct e as [k v]. unfold btree_items. rewrite sort_by_elem_of. apply elem_of_map_to_list. Qed.
