(* ===== verification/Resilience.v ===== *)
(** * Circuit breakers and retry policies (src/src/routing/resilience.rs)

    The registry of per-provider circuit breakers.  [Instant]s are integers in
    nanoseconds; every operation takes the value [Instant::now()] returns as an
    argument, so a run of the breaker is a list of timed operations. *)
From S2P Require Import Prelude.

Module Resilience.

Inductive CircuitState := Closed | Open | HalfOpen.

#[export] Instance CircuitState_eq_dec : EqDecision CircuitState.
Proof. solve_decision. Defined.

Definition CircuitState_as_str (s : CircuitState) : string :=
  match s with
  | Closed => "closed"
  | Open => "open"
  | HalfOpen => "half_open"
  end.

Record RetryPolicy := {
  max_retries : Z;
  initial_backoff_ms : Z;
  max_backoff_ms : Z;
  jitter_ms : Z
}.

Definition RetryPolicy_default : RetryPolicy :=
  {| max_retries := 0; initial_backoff_ms := 100; max_backoff_ms := 2000; jitter_ms := 50 |}.

Record CircuitBreakerPolicy := {
  failure_threshold : Z;
  open_duration_ms : Z;
  half_open_max_probes : Z
}.

Definition CircuitBreakerPolicy_default : CircuitBreakerPolicy :=
  {| failure_threshold := 3; open_duration_ms := 5000; half_open_max_probes := 1 |}.

Record ProviderResiliencePolicy := {
  timeout_ms : option Z;
  retry : RetryPolicy;
  breaker : CircuitBreakerPolicy
}.

Definition ProviderResiliencePolicy_default : ProviderResiliencePolicy :=
  {| timeout_ms := None; retry := RetryPolicy_default; breaker := CircuitBreakerPolicy_default |}.

Record ProviderCircuitState := {
  state : CircuitState;
  consecutive_failures : Z;
  opened_at : option Z;
  half_open_probes_used : Z
}.

Definition ProviderCircuitState_default : ProviderCircuitState :=
  {| state := Closed; consecutive_failures := 0; opened_at := None; half_open_probes_used := 0 |}.

Record ResilienceRegistry := {
  default_policy : ProviderResiliencePolicy;
  provider_policies : gmap string ProviderResiliencePolicy;
  circuits : mutex (gmap string ProviderCircuitState)
}.

Definition set_circuits (r : ResilienceRegistry) (c : gmap string ProviderCircuitState) :
  ResilienceRegistry :=
  {| default_policy := default_policy r; provider_policies := provider_policies r;
     circuits := Unpoisoned c |}.

(** [ResilienceRegistry::new] *)
Definition new (default_policy : ProviderResiliencePolicy)
  (provider_policies : gmap string ProviderResiliencePolicy)
  (provider_names : list string) : ResilienceRegistry :=
  {| default_policy := default_policy;
     provider_policies := provider_policies;
     circuits := Unpoisoned
       (foldl (fun m provider => <[provider := ProviderCircuitState_default]> m) ∅ provider_names) |}.

Definition policy_for (r : ResilienceRegistry) (provider_name : string) :
  ProviderResiliencePolicy :=
  default (default_policy r) (provider_policies r !! provider_name).

(** [circuits.entry(name).or_insert_with(default)] *)
Definition entry_or_default (c : gmap string ProviderCircuitState) (name : string) :
  ProviderCircuitState := default ProviderCircuitState_default (c !! name).

(** The [match state.state] of [allow_provider_call] on one breaker. *)
Definition allow_circuit (policy : CircuitBreakerPolicy) (now : Z) (st : ProviderCircuitState) :
  bool * ProviderCircuitState :=
  match state st with
  | Closed => (true, st)
  | Open =>
      let ready_for_probe := is_none_or (opened_at st) (fun opened =>
        from_millis (open_duration_ms policy) <=? duration_since now opened) in
      if ready_for_probe
      then (true, {| state := HalfOpen; consecutive_failures := consecutive_failures st;
                     opened_at := opened_at st; half_open_probes_used := 1 |})
      else (false, st)
  | HalfOpen =>
      let max_probes := Z.max (half_open_max_probes policy) 1 in
      if half_open_probes_used st <? max_probes
      then (true, {| state := HalfOpen; consecutive_failures := consecutive_failures st;
                     opened_at := opened_at st;
                     half_open_probes_used := u32_add (half_open_probes_used st) 1 |})
      else (false, st)
  end.

Definition allow_provider_call (now : Z) (provider_name : string) (r : ResilienceRegistry) :
  bool * ResilienceRegistry :=
  let policy := policy_for r provider_name in
  match lock (circuits r) with
  | None => (true, r)
  | Some c =>
      let st := entry_or_default c provider_name in
      let '(allowed, st') := allow_circuit (breaker policy) now st in
      (allowed, set_circuits r (<[provider_name := st']> c))
  end.

Definition record_success (provider_name : string) (r : ResilienceRegistry) :
  ResilienceRegistry :=
  match lock (circuits r) with
  | None => r
  | Some c =>
      set_circuits r (<[provider_name :=
        {| state := Closed; consecutive_failures := 0; opened_at := None;
           half_open_probes_used := 0 |}]> c)
  end.

(** The [match state.state] of [record_failure] on one breaker. *)
Definition fail_circuit (policy : CircuitBreakerPolicy) (now : Z) (st : ProviderCircuitState) :
  ProviderCircuitState :=
  let threshold := Z.max (failure_threshold policy) 1 in
  match state st with
  | Closed =>
      let failures := u32_sat_add (consecutive_failures st) 1 in
      if threshold <=? failures
      then {| state := Open; consecutive_failures := failures; opened_at := Some now;
              half_open_probes_used := 0 |}
      else {| state := Closed; consecutive_failures := failures; opened_at := opened_at st;
              half_open_probes_used := half_open_probes_used st |}
  | HalfOpen =>
      {| state := Open; consecutive_failures := consecutive_failures st; opened_at := Some now;
         half_open_probes_used := 0 |}
  | Open => st
  end.

Definition record_failure (now : Z) (provider_name : string) (r : ResilienceRegistry) :
  ResilienceRegistry :=
  let policy := policy_for r provider_name in
  match lock (circuits r) with
  | None => r
  | Some c =>
      let st := entry_or_default c provider_name in
      set_circuits r (<[provider_name := fail_circuit (breaker policy) now st]> c)
  end.

Definition circuit_state (r : ResilienceRegistry) (provider_name : string) : CircuitState :=
  state (default ProviderCircuitState_default
    (lock (circuits r) ≫= fun c => c !! provider_name)).

(* ------------------------------------------------------------------ *)
(** ** Runs of the registry *)

Inductive op :=
| OpAllow (name : string)
| OpSuccess (name : string)
| OpFailure (name : string).

(** One timed operation on the registry. *)
Definition step (r : ResilienceRegistry) (ev : Z * op) : ResilienceRegistry :=
  match ev with
  | (now, OpAllow p) => snd (allow_provider_call now p r)
  | (_, OpSuccess p) => record_success p r
  | (now, OpFailure p) => record_failure now p r
  end.

Definition run (r : ResilienceRegistry) (evs : list (Z * op)) : ResilienceRegistry :=
  foldl step r evs.

(** Everything the breakers of a registry go through. *)
Inductive reachable (d : ProviderResiliencePolicy)
  (ps : gmap string ProviderResiliencePolicy) (names : list string) :
  ResilienceRegistry -> Prop :=
| reach_new : reachable d ps names (new d ps names)
| reach_step r ev : reachable d ps names r -> reachable d ps names (step r ev).

Definition policy_ok (p : ProviderResiliencePolicy) : Prop :=
  is_u32 (failure_threshold (breaker p)) /\ is_u32 (half_open_max_probes (breaker p)).

(** The breaker invariant: the failure count stays below the threshold exactly
    while the circuit is closed, an open or half-open circuit carries the time
    it opened at, and the probes in use never exceed the configured maximum. *)
Definition circuit_inv (policy : CircuitBreakerPolicy) (st : ProviderCircuitState) : Prop :=
  let threshold := Z.max (failure_threshold policy) 1 in
  let max_probes := Z.max (half_open_max_probes policy) 1 in
  match state st with
  | Closed => 0 <= consecutive_failures st < threshold /\ opened_at st = None /\
              half_open_probes_used st = 0
  | Open => consecutive_failures st = threshold /\ is_Some (opened_at st) /\
            half_open_probes_used st = 0
  | HalfOpen => consecutive_failures st = threshold /\ is_Some (opened_at st) /\
                1 <= half_open_probes_used st <= max_probes
  end.

Definition registry_inv (r : ResilienceRegistry) : Prop :=
  forall c p, lock (circuits r) = Some c ->
    circuit_inv (breaker (policy_for r p)) (entry_or_default c p).

(* ------------------------------------------------------------------ *)
(** ** The abstract breaker

    What the breaker promises, without the counters: it is closed with a number
    of failures since the last success, open since some instant, or half open
    with a number of probes that may still start. *)

Inductive abstract_breaker :=
| AClosed (failures_since_success : Z)
| AOpen (since : Z)
| AHalfOpen (probes_left : Z).

Definition abs_allow (policy : CircuitBreakerPolicy) (now : Z) (a : abstract_breaker) :
  bool * abstract_breaker :=
  match a with
  | AClosed n => (true, AClosed n)
  | AOpen since =>
      if from_millis (open_duration_ms policy) <=? duration_since now since
      then (true, AHalfOpen (Z.max (half_open_max_probes policy) 1 - 1))
      else (false, AOpen since)
  | AHalfOpen n => if 0 <? n then (true, AHalfOpen (n - 1)) else (false, AHalfOpen n)
  end.

Definition abs_fail (policy : CircuitBreakerPolicy) (now : Z) (a : abstract_breaker) :
  abstract_breaker :=
  match a with
  | AClosed n => if n + 1 <? Z.max (failure_threshold policy) 1 then AClosed (n + 1) else AOpen now
  | AOpen since => AOpen since
  | AHalfOpen _ => AOpen now
  end.

Definition abs_success (a : abstract_breaker) : abstract_breaker := AClosed 0.

(** The refinement map from the counters of the code. *)
Definition abstract (policy : CircuitBreakerPolicy) (st : ProviderCircuitState) :
  abstract_breaker :=
  match state st with
  | Closed => AClosed (consecutive_failures st)
  | Open => AOpen (default 0 (opened_at st))
  | HalfOpen => AHalfOpen (Z.max (half_open_max_probes policy) 1 - half_open_probes_used st)
  end.

(** [n] calls of [allow_provider_call] at the given instants, with their answers. *)
Fixpoint allow_all (policy : CircuitBreakerPolicy) (times : list Z) (st : ProviderCircuitState) :
  list bool * ProviderCircuitState :=
  match times with
  | [] => ([], st)
  | now :: rest =>
      let '(b, st') := allow_circuit policy now st in
      let '(bs, st'') := allow_all policy rest st' in (b :: bs, st'')
  end.

(** The abstract breaker of provider [p] after a run, other providers ignored. *)
Definition abs_step (policy : CircuitBreakerPolicy) (p : string) (a : abstract_breaker)
  (ev : Z * op) : abstract_breaker :=
  match ev with
  | (now, OpAllow q) => if decide (p = q) then snd (abs_allow policy now a) else a
  | (_, OpSuccess q) => if decide (p = q) then abs_success a else a
  | (now, OpFailure q) => if decide (p = q) then abs_fail policy now a else a
  end.

Definition abs_run (policy : CircuitBreakerPolicy) (p : string) (evs : list (Z * op)) :
  abstract_breaker := foldl (abs_step policy p) (AClosed 0) evs.

(** The breaker of [p] as the registry holds it. *)
Definition breaker_of (r : ResilienceRegistry) (p : string) : ProviderCircuitState :=
  default ProviderCircuitState_default (lock (circuits r) ≫= fun c => c !! p).

(* ------------------------------------------------------------------ *)
(** ** One breaker *)

Lemma circuit_inv_default pol : circuit_inv pol ProviderCircuitState_default.
Proof. repeat split; simpl; lia. Qed.

Lemma allow_circuit_inv pol now st :
  is_u32 (half_open_max_probes pol) -> circuit_inv pol st ->
  circuit_inv pol (snd (allow_circuit pol now st)).
Proof.
  intros Hpol Hinv. unfold allow_circuit, circuit_inv in *.
  destruct (state st) eqn:E; simpl.
  - by rewrite E.
  - destruct (is_none_or _ _); simpl; [|by rewrite E].
    destruct Hinv as (? & ? & ?). repeat split; [done..|lia|lia].
  - destruct (_ <? _) eqn:?; simpl; [|by rewrite E]. destruct Hinv as (? & ? & ?). zbool.
    rewrite u32_add_small by width. repeat split; [done..|lia|lia].
Qed.

Lemma fail_circuit_inv pol now st :
  is_u32 (failure_threshold pol) -> circuit_inv pol st -> circuit_inv pol (fail_circuit pol now st).
Proof.
  intros Hpol Hinv. unfold fail_circuit, circuit_inv in *.
  destruct (state st) eqn:E; simpl.
  - destruct Hinv as (? & ? & ?). destruct (_ <=? _) eqn:?; simpl; repeat split; try done; width.
  - by rewrite E.
  - destruct Hinv as (? & ? & ?). repeat split; [done|eauto].
Qed.

#[local] Hint Resolve circuit_inv_default allow_circuit_inv fail_circuit_inv : rg.

Lemma allow_refines pol now st :
  is_u32 (half_open_max_probes pol) -> circuit_inv pol st ->
  abs_allow pol now (abstract pol st) =
    (fst (allow_circuit pol now st), abstract pol (snd (allow_circuit pol now st))).
Proof.
  intros Hpol Hinv. unfold abs_allow, abstract, allow_circuit, circuit_inv in *.
  destruct (state st) eqn:E; simpl; [by rewrite E| |].
  - destruct Hinv as (? & [o Ho] & ?). rewrite Ho. simpl.
    by destruct (_ <=? _); simpl; rewrite ?E, ?Ho.
  - destruct Hinv as (? & ? & ?).
    destruct (_ <? Z.max _ _) eqn:E1; zbool.
    + rewrite (proj2 (Z.ltb_lt _ _)) by lia. simpl. rewrite u32_add_small by width. do 2 f_equal. lia.
    + rewrite (proj2 (Z.ltb_ge _ _)) by lia. simpl. by rewrite E.
Qed.

Lemma fail_refines pol now st :
  is_u32 (failure_threshold pol) -> circuit_inv pol st ->
  abs_fail pol now (abstract pol st) = abstract pol (fail_circuit pol now st).
Proof.
  intros Hpol Hinv. unfold abs_fail, abstract, fail_circuit, circuit_inv in *.
  destruct (state st) eqn:E; simpl; [|by rewrite E|done].
  destruct Hinv as (Hn & ? & ?).
  assert (u32_sat_add (consecutive_failures st) 1 = consecutive_failures st + 1) as -> by width.
  rewrite Z.ltb_antisym. by destruct (_ <=? _).
Qed.

(* ------------------------------------------------------------------ *)
(** ** The registry *)

Lemma step_policy r ev p : policy_for (step r ev) p = policy_for r p.
Proof.
  destruct ev as [now [q|q|q]]; simpl; unfold allow_provider_call, record_success, record_failure;
    by repeat case_match.
Qed.

Lemma breaker_of_lock r c p : lock (circuits r) = Some c -> breaker_of r p = entry_or_default c p.
Proof. unfold breaker_of. by intros ->. Qed.

Lemma breaker_of_set r c p q st :
  breaker_of (set_circuits r (<[q := st]> c)) p = if decide (p = q) then st else entry_or_default c p.
Proof.
  unfold breaker_of, entry_or_default. simpl. rewrite lookup_insert.
  case_decide; case_decide; by simplify_eq.
Qed.

Lemma new_breaker_of d ps names p : breaker_of (new d ps names) p = ProviderCircuitState_default.
Proof.
  unfold breaker_of, new. simpl.
  assert (forall m : gmap string ProviderCircuitState,
    default ProviderCircuitState_default (m !! p) = ProviderCircuitState_default ->
    default ProviderCircuitState_default
      (foldl (fun m provider => <[provider := ProviderCircuitState_default]> m) m names !! p)
    = ProviderCircuitState_default) as Hgen; [|by apply Hgen].
  induction names as [|q names IH]; intros m Hm; simpl; [done|].
  apply IH. rewrite lookup_insert. by case_decide.
Qed.

(** How one timed operation acts on the breaker of one provider. *)
Definition circuit_step (pol : CircuitBreakerPolicy) (p : string) (st : ProviderCircuitState)
  (ev : Z * op) : ProviderCircuitState :=
  match ev with
  | (now, OpAllow q) => if decide (p = q) then snd (allow_circuit pol now st) else st
  | (_, OpSuccess q) => if decide (p = q) then ProviderCircuitState_default else st
  | (now, OpFailure q) => if decide (p = q) then fail_circuit pol now st else st
  end.

Lemma step_breaker_of r ev p :
  is_Some (lock (circuits r)) ->
  breaker_of (step r ev) p = circuit_step (breaker (policy_for r p)) p (breaker_of r p) ev.
Proof.
  intros [c Hc]. rewrite (breaker_of_lock r c p Hc).
  destruct ev as [now [q|q|q]]; simpl;
    unfold allow_provider_call, record_success, record_failure; rewrite Hc.
  - destruct (allow_circuit _ now (entry_or_default c q)) as [b st'] eqn:E. simpl.
    rewrite breaker_of_set. case_decide; [subst|done]. by rewrite E.
  - rewrite breaker_of_set. by case_decide.
  - rewrite breaker_of_set. by case_decide; subst.
Qed.

Lemma step_unpoisoned r ev : is_Some (lock (circuits r)) -> is_Some (lock (circuits (step r ev))).
Proof.
  intros [c Hc]. destruct ev as [now [q|q|q]]; simpl;
    unfold allow_provider_call, record_success, record_failure; rewrite Hc;
    [destruct (allow_circuit _ _ _)|..]; simpl; by eexists.
Qed.

Lemma circuit_step_inv pol p st ev :
  is_u32 (failure_threshold pol) -> is_u32 (half_open_max_probes pol) ->
  circuit_inv pol st -> circuit_inv pol (circuit_step pol p st ev).
Proof. intros. destruct ev as [now [q|q|q]]; simpl; case_decide; auto with rg. Qed.

Lemma circuit_step_refines pol p st ev :
  is_u32 (failure_threshold pol) -> is_u32 (half_open_max_probes pol) ->
  circuit_inv pol st ->
  abs_step pol p (abstract pol st) ev = abstract pol (circuit_step pol p st ev).
Proof.
  intros. destruct ev as [now [q|q|q]]; simpl; case_decide; try done.
  - by rewrite allow_refines.
  - by apply fail_refines.
Qed.

Lemma reachable_facts d ps names r :
  reachable d ps names r ->
  is_Some (lock (circuits r)) /\ (forall p, policy_for r p = policy_for (new d ps names) p) /\
  (forall p, policy_ok (policy_for r p) -> circuit_inv (breaker (policy_for r p)) (breaker_of r p)).
Proof.
  induction 1 as [|r ev Hr (Hl & Hp & Hinv)].
  - split; [by eexists|]. split; [done|]. intros p _. rewrite new_breaker_of. auto with rg.
  - split; [by apply step_unpoisoned|]. split; [intros p; by rewrite step_policy|].
    intros p Hok. rewrite step_policy in *. rewrite step_breaker_of by done.
    destruct Hok. apply circuit_step_inv; [done..|]. by apply Hinv.
Qed.

Lemma run_snoc r evs ev : run r (evs ++ [ev]) = step (run r evs) ev.
Proof. unfold run. by rewrite foldl_app. Qed.

Lemma run_reachable d ps names evs : reachable d ps names (run (new d ps names) evs).
Proof.
  induction evs as [|ev evs IH] using rev_ind; [constructor|]. rewrite run_snoc. by constructor.
Qed.

Lemma run_abstract d ps names p evs :
  let r := run (new d ps names) evs in
  let pol := policy_for (new d ps names) p in
  policy_ok pol ->
  abstract (breaker pol) (breaker_of r p) = abs_run (breaker pol) p evs.
Proof.
  cbn zeta. intros Hok. induction evs as [|ev evs IH] using rev_ind.
  - unfold run. simpl. by rewrite new_breaker_of.
  - rewrite run_snoc. unfold abs_run in *. rewrite foldl_app. simpl. rewrite <-IH.
    destruct (reachable_facts _ _ _ _ (run_reachable d ps names evs)) as (Hl & Hp & Hinv).
    rewrite step_breaker_of, Hp by done. symmetry. destruct Hok.
    apply circuit_step_refines; [done..|]. rewrite <-Hp. apply Hinv. by rewrite Hp.
Qed.

Lemma allow_provider_call_fst r now p :
  is_Some (lock (circuits r)) ->
  fst (allow_provider_call now p r) = fst (allow_circuit (breaker (policy_for r p)) now (breaker_of r p)).
Proof.
  intros [c Hc]. unfold allow_provider_call. rewrite Hc, (breaker_of_lock _ _ _ Hc).
  by destruct (allow_circuit _ _ _).
Qed.

(** A half-open breaker with its probes in use answers [false] for ever. *)
Lemma allow_all_exhausted pol times st :
  state st = HalfOpen -> Z.max (half_open_max_probes pol) 1 <= half_open_probes_used st ->
  allow_all pol times st = (replicate (length times) false, st).
Proof.
  intros Hs Hp. induction times as [|t times IH]; simpl; [done|].
  unfold allow_circuit. rewrite Hs. rewrite (proj2 (Z.ltb_ge _ _)) by lia. by rewrite IH.
Qed.

(** From a half-open breaker with [k] probes left exactly the next [k] calls pass. *)
Lemma allow_all_half_open pol times st :
  is_u32 (half_open_max_probes pol) ->
  state st = HalfOpen -> 0 <= half_open_probes_used st <= Z.max (half_open_max_probes pol) 1 ->
  fst (allow_all pol times st) =
    let k := Z.to_nat (Z.max (half_open_max_probes pol) 1 - half_open_probes_used st) in
    replicate (length times `min` k) true ++ replicate (length times - k) false.
Proof.
  intros Hpol. revert st. induction times as [|t times IH]; intros st Hs Hp; [done|].
  cbn [allow_all]. unfold allow_circuit at 1. rewrite Hs.
  destruct (half_open_probes_used st <? _) eqn:E; zbool.
  - specialize (IH {| state := HalfOpen; consecutive_failures := consecutive_failures st;
      opened_at := opened_at st; half_open_probes_used := u32_add (half_open_probes_used st) 1 |}
      eq_refl).
    simpl in IH. rewrite u32_add_small in * by width. specialize (IH ltac:(lia)).
    destruct (allow_all _ times _) as [bs st''] eqn:Ea. simpl in *. rewrite IH.
    replace (Z.to_nat (Z.max (half_open_max_probes pol) 1 - half_open_probes_used st))
      with (S (Z.to_nat (Z.max (half_open_max_probes pol) 1 - (half_open_probes_used st + 1)))) by lia.
    done.
  - rewrite allow_all_exhausted by (done || lia). simpl.
    by replace (Z.to_nat (Z.max (half_open_max_probes pol) 1 - half_open_probes_used st)) with 0%nat by lia.
Qed.

Lemma failures_only_closed pol p ts k :
  is_u32 (failure_threshold pol) -> 0 <= k ->
  k + Z.of_nat (length ts) < Z.max (failure_threshold pol) 1 ->
  foldl (abs_step pol p) (AClosed k) (map (fun t => (t, OpFailure p)) ts)
  = AClosed (k + Z.of_nat (length ts)).
Proof.
  intros Hp. revert k. induction ts as [|t ts IH]; intros k Hk Hlt; simpl in *; [f_equal; lia|].
  rewrite decide_True by done. rewrite (proj2 (Z.ltb_lt _ _)) by lia.
  rewrite IH by lia. f_equal. lia.
Qed.

Lemma failures_keep_open pol p ts o :
  foldl (abs_step pol p) (AOpen o) (map (fun t => (t, OpFailure p)) ts) = AOpen o.
Proof. induction ts; simpl; [done|]. by rewrite decide_True. Qed.

Lemma failures_only_trip pol p ts k :
  0 <= k < Z.max (failure_threshold pol) 1 ->
  Z.max (failure_threshold pol) 1 <= k + Z.of_nat (length ts) ->
  exists o, foldl (abs_step pol p) (AClosed k) (map (fun t => (t, OpFailure p)) ts) = AOpen o.
Proof.
  revert k. induction ts as [|t ts IH]; intros k Hk Hle; simpl in *; [lia|].
  rewrite decide_True by done. destruct (_ <? _) eqn:E; zbool.
  - apply IH; lia.
  - rewrite failures_keep_open. eauto.
Qed.

(* ------------------------------------------------------------------ *)
(** ** Calls that are answered *)

(** A call to a provider: when it is asked for, and, if it is let through, when
    and how it ends. *)
Record Call := { call_name : string; call_start : Z; call_end : Z; call_ok : bool }.

(** One call as the fallback loop makes it: ask, then report the result. *)
Definition make_call (r : ResilienceRegistry) (c : Call) : ResilienceRegistry :=
  let '(allowed, r) := allow_provider_call (call_start c) (call_name c) r in
  if allowed
  then if call_ok c then record_success (call_name c) r else record_failure (call_end c) (call_name c) r
  else r.

Definition make_calls (r : ResilienceRegistry) (cs : list Call) : ResilienceRegistry := foldl make_call r cs.

(** Between answered calls the breaker is never half open, and if it is open it
    opened when one of the calls ended. *)
Definition answered_by (T : Z) (st : ProviderCircuitState) : Prop :=
  match state st with
  | Closed => True
  | Open => exists t, opened_at st = Some t /\ t <= T
  | HalfOpen => False
  end.

Lemma allow_answered pol T now st : answered_by T st -> T + from_millis (open_duration_ms pol) <= now ->
  fst (allow_circuit pol now st) = true.
Proof.
  unfold answered_by, allow_circuit. destruct (state st); [done| |done]. intros (t & -> & Ht) Hn. cbn [is_none_or].
  by rewrite (proj2 (Z.leb_le _ _)) by (unfold duration_since; lia).
Qed.

Lemma fail_answered pol T now st0 st : answered_by T st0 -> fst (allow_circuit pol now st0) = true ->
  st = snd (allow_circuit pol now st0) -> forall e, answered_by e (fail_circuit pol e st).
Proof.
  intros H0 Ha -> e. unfold answered_by, allow_circuit, fail_circuit in *. destruct (state st0) eqn:E; [| |done].
  - cbn. rewrite E. destruct (_ <=? _); cbn; [|done]. exists e. split; [done|lia].
  - destruct (is_none_or _ _); [|done]. cbn. exists e. split; [done|lia].
Qed.

Lemma refuse_answered pol now st : fst (allow_circuit pol now st) = false -> snd (allow_circuit pol now st) = st.
Proof. unfold allow_circuit. by repeat case_match. Qed.

Lemma answered_mono T T' st : T <= T' -> answered_by T st -> answered_by T' st.
Proof. unfold answered_by. destruct (state st); try done. intros HT (t & Ht & Hle). exists t. split; [done|lia]. Qed.

Lemma make_call_answered r c p T : is_Some (lock (circuits r)) -> answered_by T (breaker_of r p) ->
  is_Some (lock (circuits (make_call r c))) /\ policy_for (make_call r c) p = policy_for r p /\
  answered_by (Z.max T (call_end c)) (breaker_of (make_call r c) p).
Proof.
  intros Hl Ha. unfold make_call. pose proof (allow_provider_call_fst r (call_start c) (call_name c) Hl) as Hf.
  pose proof (step_breaker_of r (call_start c, OpAllow (call_name c)) p Hl) as Hb.
  pose proof (step_policy r (call_start c, OpAllow (call_name c)) p) as Hp.
  pose proof (step_unpoisoned r (call_start c, OpAllow (call_name c)) Hl) as Hl1. cbn [step] in *.
  destruct (allow_provider_call _ _ r) as [allowed r1]. cbn [fst snd] in *. cbn [circuit_step] in Hb.
  destruct allowed; [destruct (call_ok c)|].
  - pose proof (step_breaker_of r1 (0, OpSuccess (call_name c)) p Hl1) as Hb2. cbn [step circuit_step] in Hb2.
    split; [exact (step_unpoisoned r1 (0, OpSuccess (call_name c)) Hl1)|].
    split; [rewrite <-Hp; exact (step_policy r1 (0, OpSuccess (call_name c)) p)|].
    rewrite Hb2, Hb. case_decide; [done|]. apply answered_mono with T; [lia|done].
  - pose proof (step_breaker_of r1 (call_end c, OpFailure (call_name c)) p Hl1) as Hb2. cbn [step circuit_step] in Hb2.
    split; [exact (step_unpoisoned r1 (call_end c, OpFailure (call_name c)) Hl1)|].
    split; [rewrite <-Hp; exact (step_policy r1 (call_end c, OpFailure (call_name c)) p)|].
    rewrite Hb2, Hb, Hp. case_decide as E; [|apply answered_mono with T; [lia|done]]. rewrite <-E in Hf.
    apply answered_mono with (call_end c); [lia|]. by eapply fail_answered; [exact Ha|symmetry; exact Hf|].
  - split; [done|]. split; [done|]. apply answered_mono with T; [lia|]. rewrite Hb. case_decide as E; [|done].
    rewrite <-E in Hf. by rewrite refuse_answered.
Qed.

Lemma make_calls_answered d ps names p cs T : Forall (fun c => call_end c <= T) cs ->
  let r := make_calls (new d ps names) cs in
  is_Some (lock (circuits r)) /\ policy_for r p = policy_for (new d ps names) p /\ answered_by T (breaker_of r p).
Proof.
  intros Hcs. unfold make_calls. induction cs as [|c cs IH] using rev_ind.
  { cbn [foldl]. split; [by eexists|]. split; [done|]. by rewrite new_breaker_of. }
  apply Forall_app in Hcs as [Hcs Hc]. apply Forall_cons_1 in Hc as [Hc _]. specialize (IH Hcs). cbv zeta in *.
  rewrite foldl_app. cbn [foldl]. destruct IH as (Hl & Hp & Ha). destruct (make_call_answered _ c p T Hl Ha) as (Hl' & Hp' & Ha').
  split; [done|]. split; [by rewrite Hp'|]. by replace (Z.max T (call_end c)) with T in Ha' by lia.
Qed.

(* ------------------------------------------------------------------ *)
(** ** Properties *)

(** Every state a registry reaches through its operations keeps, for each
    provider whose policy holds [u32] values, the breaker invariant: failures
    below the threshold exactly while closed, an opening time whenever open or
    half open, and between one and [max(half_open_max_probes, 1)] probes in use
    while half open. *)
Theorem breaker_invariant d ps names r p :
  reachable d ps names r -> policy_ok (policy_for r p) ->
  circuit_inv (breaker (policy_for r p)) (breaker_of r p).
Proof. intros Hr Hok. by apply (reachable_facts d ps names r). Qed.

(** C7: the counter-based breaker implements the abstract one: after any run of
    timed operations on a fresh registry, the answer of [allow_provider_call]
    for a provider, and the breaker it leaves behind, are those of the abstract
    breaker driven by that provider's own operations. *)
Theorem breaker_refines_abstract d ps names evs now p :
  let r := run (new d ps names) evs in
  let pol := policy_for (new d ps names) p in
  policy_ok pol ->
  fst (allow_provider_call now p r) = fst (abs_allow (breaker pol) now (abs_run (breaker pol) p evs)) /\
  abstract (breaker pol) (breaker_of (snd (allow_provider_call now p r)) p)
    = abs_run (breaker pol) p (evs ++ [(now, OpAllow p)]).
Proof.
  intros r pol Hok. subst r pol.
  destruct (reachable_facts _ _ _ _ (run_reachable d ps names evs)) as (Hl & Hp & Hinv).
  split.
  - rewrite allow_provider_call_fst, <-(run_abstract d ps names p evs), Hp by done.
    destruct Hok. rewrite allow_refines; [done..|]. rewrite <-Hp. apply Hinv. by rewrite Hp.
  - rewrite <-(run_abstract d ps names p (evs ++ [_])) by done. by rewrite run_snoc.
Qed.

(** A closed breaker trips on exactly the configured number of consecutive
    failures: on a fresh registry, [n] failures of a provider in a row leave its
    circuit closed while [n] is below the threshold and open from then on. *)
Theorem breaker_trips_at_threshold d ps names p ts :
  let r := run (new d ps names) (map (fun t => (t, OpFailure p)) ts) in
  let threshold := Z.max (failure_threshold (breaker (policy_for (new d ps names) p))) 1 in
  policy_ok (policy_for (new d ps names) p) ->
  circuit_state r p = if Z.of_nat (length ts) <? threshold then Closed else Open.
Proof.
  intros r threshold Hok. subst r threshold.
  pose proof (run_abstract d ps names p (map (fun t => (t, OpFailure p)) ts) Hok) as Habs.
  cbn zeta in Habs. change (circuit_state ?r p) with (state (breaker_of r p)).
  set (pol := breaker (policy_for (new d ps names) p)) in *.
  destruct (_ <? _) eqn:E; zbool.
  - unfold abs_run in Habs. rewrite failures_only_closed in Habs by (destruct Hok; done || lia).
    unfold abstract in Habs. by destruct (state _).
  - destruct (failures_only_trip pol p ts 0) as [o Hopen]; [lia..|].
    unfold abs_run in Habs. rewrite Hopen in Habs.
    unfold abstract in Habs. by destruct (state _).
Qed.

(** The half-open probe budget: once the cooldown of an open breaker has
    passed, of the following calls to [allow_provider_call] exactly the first
    [max(half_open_max_probes, 1)] are allowed, however many calls come and at
    whatever times, until one of the probes reports back. *)
Theorem half_open_probe_budget pol st opened now times :
  is_u32 (half_open_max_probes pol) -> state st = Open -> opened_at st = Some opened ->
  from_millis (open_duration_ms pol) <= now - opened -> 0 <= open_duration_ms pol ->
  let budget := Z.to_nat (Z.max (half_open_max_probes pol) 1) in
  fst (allow_all pol (now :: times) st) =
    replicate (S (length times) `min` budget) true ++ replicate (S (length times) - budget) false.
Proof.
  intros Hpol Hs Ho Hd Hnn budget. subst budget. cbn [allow_all]. unfold allow_circuit at 1.
  rewrite Hs, Ho. simpl is_none_or. unfold duration_since.
  rewrite (proj2 (Z.leb_le _ _)) by lia.
  match goal with |- context [allow_all pol times ?st'] =>
    pose proof (allow_all_half_open pol times st' Hpol eq_refl) as Hh;
    destruct (allow_all pol times st') as [bs st''] end.
  simpl in Hh. specialize (Hh ltac:(lia)). simpl. rewrite Hh.
  replace (Z.to_nat (Z.max (half_open_max_probes pol) 1))
    with (S (Z.to_nat (Z.max (half_open_max_probes pol) 1 - 1))) by lia.
  done.
Qed.

(** A half-open breaker whose probes are all in use stays so whatever the
    clock shows: every further [allow_provider_call] answers [false] and
    changes nothing, so only a report of an outstanding probe can move it. *)
Theorem half_open_exhausted_stays pol st times :
  state st = HalfOpen -> Z.max (half_open_max_probes pol) 1 <= half_open_probes_used st ->
  allow_all pol times st = (replicate (length times) false, st).
Proof. apply allow_all_exhausted. Qed.

(* ------------------------------------------------------------------ *)
(** ** Witnesses *)

(** C8: a provider that recovers is used again: whatever calls were made to the
    providers before, as long as every call that was let through reported its
    result, a call to the provider is let through once the cooldown has passed
    since the last call ended, and if it succeeds the circuit is closed, and
    the next call is let through at once. *)
Theorem recovered_provider_returns d ps names p cs last now done_at :
  Forall (fun c => call_end c <= last) cs ->
  last + from_millis (open_duration_ms (breaker (policy_for (new d ps names) p))) <= now ->
  let r := make_calls (new d ps names) cs in
  fst (allow_provider_call now p r) = true /\
  let r' := make_call r {| call_name := p; call_start := now; call_end := done_at; call_ok := true |} in
  circuit_state r' p = Closed /\ forall t, fst (allow_provider_call t p r') = true.
Proof.
  intros Hcs Hn r. destruct (make_calls_answered d ps names p cs last Hcs) as (Hl & Hp & Ha). fold r in Hl, Hp, Ha.
  assert (fst (allow_provider_call now p r) = true) as Hallow.
  { rewrite allow_provider_call_fst, Hp by done. by eapply allow_answered. }
  split; [done|]. unfold make_call. cbn [call_name call_start call_ok].
  pose proof (step_unpoisoned r (now, OpAllow p) Hl) as Hl1. cbn [step] in Hl1.
  destruct (allow_provider_call now p r) as [allowed r1]. cbn [fst snd] in *. subst allowed.
  pose proof (step_breaker_of r1 (0, OpSuccess p) p Hl1) as Hb. cbn [step circuit_step] in Hb. rewrite decide_True in Hb by done.
  pose proof (step_unpoisoned r1 (0, OpSuccess p) Hl1) as Hl2. cbn [step] in Hl2.
  split; [exact (f_equal state Hb)|]. intros t. by rewrite allow_provider_call_fst, Hb.
Qed.

Definition demo_policy : ProviderResiliencePolicy :=
  {| timeout_ms := None; retry := RetryPolicy_default;
     breaker := {| failure_threshold := 2; open_duration_ms := 10; half_open_max_probes := 2 |} |}.

Lemma breaker_invariant_witness :
  let r := step (new demo_policy ∅ ["a"]) (5, OpFailure "a") in
  consecutive_failures (breaker_of r "a") = 1 /\
  circuit_inv (breaker (policy_for r "a")) (breaker_of r "a").
Proof.
  split; [reflexivity|].
  apply (breaker_invariant demo_policy ∅ ["a"]
    (step (new demo_policy ∅ ["a"]) (5, OpFailure "a")) "a"); [repeat constructor|].
  split; split; vm_compute; discriminate.
Defined.

Lemma breaker_refines_abstract_witness :
  let evs := [(1, OpFailure "a"); (2, OpFailure "a"); (20000000, OpAllow "a")] in
  fst (allow_provider_call 20000001 "a" (run (new demo_policy ∅ ["a"]) evs)) = true /\
  abs_run (breaker demo_policy) "a" (evs ++ [(20000001, OpAllow "a")]) = AHalfOpen 0.
Proof.
  assert (policy_ok (policy_for (new demo_policy ∅ ["a"]) "a")) as Hok
    by (split; split; vm_compute; discriminate).
  destruct (breaker_refines_abstract demo_policy ∅ ["a"]
    [(1, OpFailure "a"); (2, OpFailure "a"); (20000000, OpAllow "a")] 20000001 "a" Hok) as [H1 H2].
  split; [exact (eq_trans H1 eq_refl)|exact (eq_trans (eq_sym H2) eq_refl)].
Defined.

Lemma breaker_trips_at_threshold_witness :
  circuit_state (run (new demo_policy ∅ []) [(7, OpFailure "a")]) "a" = Closed /\
  circuit_state (run (new demo_policy ∅ []) [(7, OpFailure "a"); (8, OpFailure "a")]) "a" = Open.
Proof.
  assert (policy_ok (policy_for (new demo_policy ∅ []) "a")) as Hok
    by (split; split; vm_compute; discriminate).
  split.
  - exact (breaker_trips_at_threshold demo_policy ∅ [] "a" [7] Hok).
  - exact (breaker_trips_at_threshold demo_policy ∅ [] "a" [7; 8] Hok).
Defined.

Lemma half_open_probe_budget_witness :
  fst (allow_all (breaker demo_policy) [10000001; 10000002; 10000003]
    {| state := Open; consecutive_failures := 2; opened_at := Some 1; half_open_probes_used := 0 |})
  = [true; true; false].
Proof.
  refine (half_open_probe_budget (breaker demo_policy)
    {| state := Open; consecutive_failures := 2; opened_at := Some 1; half_open_probes_used := 0 |}
    1 10000001 [10000002; 10000003] _ eq_refl eq_refl _ _).
  - split; vm_compute; discriminate.
  - vm_compute; discriminate.
  - vm_compute; discriminate.
Defined.

Lemma half_open_exhausted_stays_witness :
  fst (allow_all (breaker demo_policy) [3; 10 ^ 18]
    {| state := HalfOpen; consecutive_failures := 2; opened_at := Some 1; half_open_probes_used := 2 |})
  = [false; false].
Proof.
  rewrite (half_open_exhausted_stays (breaker demo_policy)
    {| state := HalfOpen; consecutive_failures := 2; opened_at := Some 1; half_open_probes_used := 2 |}
    [3; 10 ^ 18] eq_refl); [reflexivity|]. vm_compute; discriminate.
Defined.

Lemma recovered_provider_returns_witness :
  let trip := [{| call_name := "a"; call_start := 1; call_end := 2; call_ok := false |};
               {| call_name := "a"; call_start := 3; call_end := 4; call_ok := false |}] in
  let r := make_calls (new demo_policy ∅ ["a"]) trip in
  circuit_state r "a" = Open /\ fst (allow_provider_call 5 "a" r) = false /\
  fst (allow_provider_call 10000004 "a" r) = true.
Proof.
  split; [reflexivity|]. split; [reflexivity|].
  refine (proj1 (recovered_provider_returns demo_policy ∅ ["a"] "a" _ 4 10000004 10000005 _ _)).
  - repeat constructor; vm_compute; discriminate.
  - vm_compute. discriminate.
Defined.

End Resilience.
