(* ===== verification/Str.v ===== *)
(** * Rust strings

    A Rust [str] is a sequence of UTF-8 bytes; here it is a [string] whose
    characters are those bytes.  The functions below are the [str] methods the
    gateway uses.  Whitespace is the Unicode property [White_Space], matched on
    its UTF-8 encodings; the lead bytes of those encodings never occur inside
    another character, so matching byte by byte finds exactly the characters. *)
From S2P Require Import Prelude.
From Stdlib Require Import Ascii String.

Open Scope string_scope.
Open Scope list_scope.
Open Scope Z_scope.

Module Str.

Definition is_empty (s : string) : bool := match s with EmptyString => true | _ => false end.

(** [str::len], in bytes. *)
Definition len (s : string) : Z := Z.of_nat (String.length s).

Definition byte (c : ascii) : Z := Z.of_N (N_of_ascii c).

Definition bytes (s : string) : list Z := map byte (list_ascii_of_string s).

(** The one-, two- and three-byte encodings of whitespace characters. *)
Definition is_ws1 (a : ascii) : bool :=
  ((9 <=? byte a) && (byte a <=? 13)) || (byte a =? 32).
Definition is_ws2 (a b : ascii) : bool :=
  (byte a =? 194) && ((byte b =? 133) || (byte b =? 160)).
Definition is_ws3 (a b c : ascii) : bool :=
  ((byte a =? 225) && (byte b =? 154) && (byte c =? 128)) ||
  ((byte a =? 226) && (byte b =? 128) &&
     (((128 <=? byte c) && (byte c <=? 138)) || (byte c =? 168) || (byte c =? 169) ||
      (byte c =? 175))) ||
  ((byte a =? 226) && (byte b =? 129) && (byte c =? 159)) ||
  ((byte a =? 227) && (byte b =? 128) && (byte c =? 128)).

Fixpoint trim_start (s : string) : string :=
  match s with
  | EmptyString => EmptyString
  | String a s1 =>
      if is_ws1 a then trim_start s1 else
      match s1 with
      | String b s2 =>
          if is_ws2 a b then trim_start s2 else
          match s2 with
          | String c s3 => if is_ws3 a b c then trim_start s3 else s
          | EmptyString => s
          end
      | EmptyString => s
      end
  end.

Definition is_blank (s : string) : bool := is_empty (trim_start s).

Fixpoint trim_end (s : string) : string :=
  if is_blank s then EmptyString else
  match s with
  | EmptyString => EmptyString
  | String a s' => String a (trim_end s')
  end.

Definition trim (s : string) : string := trim_end (trim_start s).

Definition flush (cur : string) : list string := if is_empty cur then [] else [cur].

Definition snoc (s : string) (c : ascii) : string := (s ++ String c EmptyString)%string.

(** [cur] is the word read so far. *)
Fixpoint words_from (cur : string) (s : string) : list string :=
  match s with
  | EmptyString => flush cur
  | String a s1 =>
      if is_ws1 a then flush cur ++ words_from EmptyString s1 else
      match s1 with
      | String b s2 =>
          if is_ws2 a b then flush cur ++ words_from EmptyString s2 else
          match s2 with
          | String c s3 =>
              if is_ws3 a b c then flush cur ++ words_from EmptyString s3
              else words_from (snoc cur a) s1
          | EmptyString => words_from (snoc cur a) s1
          end
      | EmptyString => words_from (snoc cur a) s1
      end
  end.

(** [str::split_whitespace] *)
Definition split_whitespace (s : string) : list string := words_from EmptyString s.

(** [str::chars().count()]: the bytes that start a character. *)
Fixpoint chars_count (s : string) : Z :=
  match s with
  | EmptyString => 0
  | String a s' =>
      (if (128 <=? byte a) && (byte a <=? 191) then 0 else 1) + chars_count s'
  end.

(** [std::str::from_utf8] succeeds: well-formed UTF-8, without overlong forms,
    surrogates and code points above U+10FFFF. *)
Definition in_range (lo hi : Z) (c : ascii) : bool := (lo <=? byte c) && (byte c <=? hi).
Definition cont (c : ascii) : bool := in_range 128 191 c.
Definition utf8_2 (a b : ascii) : bool := in_range 194 223 a && cont b.
Definition utf8_3 (a b c : ascii) : bool :=
  (((byte a =? 224) && in_range 160 191 b) || (in_range 225 236 a && cont b) ||
   ((byte a =? 237) && in_range 128 159 b) || (in_range 238 239 a && cont b)) && cont c.
Definition utf8_4 (a b c d : ascii) : bool :=
  (((byte a =? 240) && in_range 144 191 b) || (in_range 241 243 a && cont b) ||
   ((byte a =? 244) && in_range 128 143 b)) && cont c && cont d.

Fixpoint utf8 (s : string) : bool :=
  match s with
  | EmptyString => true
  | String a s1 =>
      if byte a <? 128 then utf8 s1 else
      match s1 with
      | EmptyString => false
      | String b s2 =>
          if utf8_2 a b then utf8 s2 else
          match s2 with
          | EmptyString => false
          | String c s3 =>
              if utf8_3 a b c then utf8 s3 else
              match s3 with
              | EmptyString => false
              | String d s4 => if utf8_4 a b c d then utf8 s4 else false
              end
          end
      end
  end.

(** [[&str]::join] *)
Definition join (sep : string) (l : list string) : string := String.concat sep l.

Fixpoint strip_prefix (p s : string) : option string :=
  match p with
  | EmptyString => Some s
  | String a p' =>
      match s with
      | String b s' => if Ascii.eqb a b then strip_prefix p' s' else None
      | EmptyString => None
      end
  end.

(** [str::find] of a pattern: the text before the first occurrence and the
    text after it. *)
Fixpoint split_once (p s : string) : option (string * string) :=
  match strip_prefix p s with
  | Some rest => Some (EmptyString, rest)
  | None =>
      match s with
      | EmptyString => None
      | String a s' =>
          match split_once p s' with
          | Some (before, after) => Some (String a before, after)
          | None => None
          end
      end
  end.

(** [str::splitn(n, c)] *)
Fixpoint splitn (n : nat) (sep s : string) : list string :=
  match n with
  | O => []
  | S O => [s]
  | S n' =>
      match split_once sep s with
      | Some (before, after) => before :: splitn n' sep after
      | None => [s]
      end
  end.

Definition newline : string := String "010"%char EmptyString.
Definition carriage_return : ascii := "013"%char.

(** Drop one trailing carriage return. *)
Fixpoint strip_cr (s : string) : string :=
  match s with
  | EmptyString => EmptyString
  | String a EmptyString => if Ascii.eqb a carriage_return then EmptyString else s
  | String a s' => String a (strip_cr s')
  end.

(** [str::lines]: a line ends at a newline, an optional carriage return before
    it is dropped, and the empty rest after a final newline is no line. *)
Fixpoint lines_from (cur s : string) : list string :=
  match s with
  | EmptyString => flush cur
  | String a s' =>
      if Ascii.eqb a "010"%char then strip_cr cur :: lines_from EmptyString s'
      else lines_from (snoc cur a) s'
  end.
Definition lines (s : string) : list string := lines_from EmptyString s.

(** [str::replace] of a one-byte character. *)
Fixpoint replace (c : ascii) (by_ s : string) : string :=
  match s with
  | EmptyString => EmptyString
  | String a s' => ((if Ascii.eqb a c then by_ else String a EmptyString) ++ replace c by_ s')%string
  end.

(** Decimal rendering of an unsigned integer. *)
Definition digit (n : Z) : ascii := ascii_of_N (Z.to_N (48 + n)).
Fixpoint decimal_from (fuel : nat) (n : Z) (acc : string) : string :=
  match fuel with
  | O => acc
  | S fuel' =>
      let acc' := String (digit (n mod 10)) acc in
      if n / 10 =? 0 then acc' else decimal_from fuel' (n / 10) acc'
  end.
(** [Z.log2 n + 2] decimal digits are always enough. *)
Definition decimal (n : Z) : string := decimal_from (Z.to_nat (Z.log2 n) + 2) n EmptyString.

(** Two lower-case hexadecimal digits of a byte: [{byte:02x}]. *)
Definition hex_digit (n : Z) : ascii :=
  if n <? 10 then ascii_of_N (Z.to_N (48 + n)) else ascii_of_N (Z.to_N (87 + n)).
Definition hex_byte (b : Z) : string :=
  String (hex_digit (b / 16)) (String (hex_digit (b mod 16)) EmptyString).
Definition hex (bs : list Z) : string := String.concat EmptyString (map hex_byte bs).

(* ------------------------------------------------------------------ *)
(** ** [split_whitespace] and [join] *)

#[local] Arguments String.append : simpl nomatch.

Lemma app_empty_r s : (s ++ "")%string = s.
Proof. induction s as [|a s IH]; simpl; [done|]. by rewrite IH. Qed.

Lemma app_assoc a b c : ((a ++ b) ++ c)%string = (a ++ b ++ c)%string.
Proof. induction a as [|x a IH]; simpl; [done|]. by rewrite IH. Qed.

Lemma length_app a b : String.length (a ++ b) = (String.length a + String.length b)%nat.
Proof. induction a as [|c a IH]; cbn; [done|]. by rewrite IH. Qed.

Lemma chars_count_app a b : chars_count (a ++ b) = chars_count a + chars_count b.
Proof. induction a as [|c a IH]; [done|]. cbn [String.append chars_count]. rewrite IH. lia. Qed.

Lemma chars_count_nonneg a : 0 <= chars_count a.
Proof. induction a as [|c a IH]; cbn [chars_count]; [lia|]. destruct (_ && _); lia. Qed.

Lemma snoc_app s a t : (snoc s a ++ t)%string = (s ++ String a t)%string.
Proof. unfold snoc. by rewrite app_assoc. Qed.

(** Does a whitespace character start here? *)
Definition starts_ws (s : string) : bool :=
  match s with
  | EmptyString => false
  | String a s1 =>
      is_ws1 a ||
      match s1 with
      | EmptyString => false
      | String b s2 =>
          is_ws2 a b ||
          match s2 with EmptyString => false | String c _ => is_ws3 a b c end
      end
  end.

(** No whitespace character starts in [w] when [s] follows it. *)
Fixpoint no_ws_before (w s : string) : Prop :=
  match w with
  | EmptyString => True
  | String _ w' => starts_ws (w ++ s) = false /\ no_ws_before w' s
  end.

Definition word (w : string) : Prop := w <> "" /\ no_ws_before w "".

Lemma starts_ws_app s t : starts_ws s = true -> starts_ws (s ++ t) = true.
Proof.
  destruct s as [|a [|b [|c s]]]; simpl; [done|..]; rewrite ?orb_true_iff, ?orb_false_r;
    [|destruct t|]; intuition congruence.
Qed.

Lemma no_ws_before_shrink w s : no_ws_before w s -> no_ws_before w "".
Proof.
  induction w as [|a w IH]; [done|]. cbn [no_ws_before]. intros [H1 H2]. split; [|auto].
  rewrite app_empty_r. destruct (starts_ws (String a w)) eqn:E; [|done].
  by rewrite starts_ws_app in H1.
Qed.

Lemma no_ws_before_snoc w a s :
  no_ws_before w (String a s) -> starts_ws (String a s) = false -> no_ws_before (snoc w a) s.
Proof.
  induction w as [|b w IH]; intros Hw Ha; [by split|].
  destruct Hw as [H1 H2]. change (snoc (String b w) a) with (String b (snoc w a)). split; [|by apply IH].
  simpl in H1 |- *. by rewrite snoc_app.
Qed.

(** A word followed by nothing or a space stays a word. *)
Lemma starts_ws_space s t : starts_ws s = false -> s <> "" -> starts_ws (s ++ " " ++ t) = false.
Proof.
  destruct s as [|a [|b [|c s]]]; [done| | |done]; simpl; rewrite ?orb_false_r; intros H _.
  - rewrite H. simpl. unfold is_ws2, is_ws3. simpl. rewrite andb_false_r. destruct t as [|c t]; [done|].
    by rewrite !andb_false_r.
  - apply orb_false_iff in H as [-> ->]. simpl. unfold is_ws3. simpl. by rewrite !andb_false_r.
Qed.

Lemma words_from_step cur a s :
  (starts_ws (String a s) = true /\ exists r, (String.length r <= String.length s)%nat /\
     words_from cur (String a s) = flush cur ++ words_from "" r) \/
  (starts_ws (String a s) = false /\ words_from cur (String a s) = words_from (snoc cur a) s).
Proof.
  cbn [words_from starts_ws]. destruct (is_ws1 a); cbn [orb]; [left; by eauto|].
  destruct s as [|b s]; [by right|]. destruct (is_ws2 a b); cbn [orb].
  { left. split; [done|]. exists s. split; [simpl; lia|done]. }
  destruct s as [|c s]; [by right|]. destruct (is_ws3 a b c); [|by right].
  left. split; [done|]. exists s. split; [simpl; lia|done].
Qed.

Lemma words_from_words n cur s :
  (String.length s <= n)%nat -> no_ws_before cur s -> Forall word (words_from cur s).
Proof.
  revert cur s. induction n as [n IH] using lt_wf_ind. intros cur s Hlen Hcur.
  assert (no_ws_before cur "") as Hcur' by by eapply no_ws_before_shrink.
  assert (Forall word (flush cur)) as Hflush.
  { destruct cur as [|b cur]; [apply Forall_nil_2|]. apply Forall_singleton. by split. }
  destruct s as [|a s]; [done|]. simpl in Hlen.
  destruct (words_from_step cur a s) as [(_ & r & Hr & ->)|[Ha ->]].
  - apply Forall_app. split; [done|]. by apply (IH (String.length r)); [lia|lia|].
  - apply (IH (String.length s)); [lia|lia|]. by apply no_ws_before_snoc.
Qed.

Lemma split_whitespace_words s : Forall word (split_whitespace s).
Proof. by eapply words_from_words. Qed.

Lemma words_from_word cur w rest :
  no_ws_before w "" -> (rest = "" \/ exists t, rest = (" " ++ t)%string) ->
  words_from cur (w ++ rest) = words_from (cur ++ w) rest.
Proof.
  revert cur. induction w as [|a w IH]; intros cur Hw Hrest; [by rewrite app_empty_r|].
  destruct Hw as [H1 H2]. rewrite app_empty_r in H1.
  assert (starts_ws (String a w ++ rest) = false) as Hs.
  { destruct Hrest as [->|[t ->]]; [by rewrite app_empty_r|by apply starts_ws_space]. }
  cbn [String.append] in Hs |- *. destruct (words_from_step cur a (w ++ rest)) as [[? _]|[_ ->]]; [congruence|].
  rewrite IH by done. by rewrite snoc_app.
Qed.

Lemma flush_word w : w <> "" -> flush w = [w].
Proof. by destruct w. Qed.

Lemma words_space cur t : words_from cur (" " ++ t) = flush cur ++ words_from "" t.
Proof. done. Qed.

(** Joining words with spaces and splitting again gives the words back. *)
Lemma split_join ws : Forall word ws -> split_whitespace (join " " ws) = ws.
Proof.
  unfold split_whitespace, join. induction 1 as [|w ws [Hne Hw] Hws IH]; [done|].
  destruct ws as [|w' ws]; cbn [String.concat] in *.
  - rewrite <-(app_empty_r w) at 1. rewrite words_from_word; [|done|by left].
    simpl. by apply flush_word.
  - rewrite words_from_word; [|done|right; by eexists].
    rewrite words_space. change ("" ++ w)%string with w. rewrite flush_word by done.
    cbn [app]. f_equal. exact IH.
Qed.

End Str.
