(* ===== verification/F64.v ===== *)
(** * IEEE-754 binary64 and binary32

    [f64] and [f32] values are the Standard Library's [spec_float], the
    mathematical specification of IEEE-754 with round-to-nearest-even, at
    precision 53/1024 and 24/128.  It has a single NaN; [total_cmp] orders it
    above every number, as Rust orders the positive quiet NaN. *)
From S2P Require Import Prelude.
From Stdlib Require Import SpecFloat.

Module F64.

Definition t : Type := spec_float.

Definition add : t -> t -> t := SFadd 53 1024.
Definition sub : t -> t -> t := SFsub 53 1024.
Definition mul : t -> t -> t := SFmul 53 1024.
Definition div : t -> t -> t := SFdiv 53 1024.

(** [n as f64], for an integer of any width. *)
Definition of_Z (n : Z) : t := binary_normalize 53 1024 n 0 false.

Definition zero : t := S754_zero false.
Definition one : t := of_Z 1.
Definition infinity : t := S754_infinity false.

(** A decimal literal [n / 10^k]: one correctly rounded division. *)
Definition literal (n : Z) (k : Z) : t := div (of_Z n) (of_Z (10 ^ k)).

Definition is_nan (x : t) : bool := match x with S754_nan => true | _ => false end.

Definition ltb (x y : t) : bool := SFltb x y.
Definition leb (x y : t) : bool := SFleb x y.
Definition eqb (x y : t) : bool := SFeqb x y.

(** [f64::max], [f64::min]: a NaN operand is ignored. *)
Definition max (x y : t) : t :=
  if is_nan x then y else if is_nan y then x else if ltb x y then y else x.
Definition min (x y : t) : t :=
  if is_nan x then y else if is_nan y then x else if ltb y x then y else x.
Definition clamp (x lo hi : t) : t :=
  if ltb x lo then lo else if ltb hi x then hi else x.

(** The magnitude bits of the interchange encoding, and [f64::total_cmp], which
    compares the encodings as sign-magnitude integers. *)
Definition magnitude (x : t) : Z :=
  match x with
  | S754_zero _ => 0
  | S754_finite _ m e => (e + 1074) * 2 ^ 52 + Zpos m
  | S754_infinity _ => 2047 * 2 ^ 52
  | S754_nan => 2047 * 2 ^ 52 + 2 ^ 51
  end.
Definition sign_bit (x : t) : bool :=
  match x with
  | S754_zero s | S754_finite s _ _ | S754_infinity s => s
  | S754_nan => false
  end.
Definition total_key (x : t) : Z := if sign_bit x then -1 - magnitude x else magnitude x.
Definition total_cmp (x y : t) : comparison := Z.compare (total_key x) (total_key y).

(** [x.ceil() as u64]: the cast saturates and sends NaN to 0. *)
Definition ceil_as_u64 (x : t) : Z :=
  match x with
  | S754_zero _ | S754_nan => 0
  | S754_infinity s => if s then 0 else u64_max
  | S754_finite s m e =>
      if s then 0
      else Z.min u64_max
             (if 0 <=? e then Zpos m * 2 ^ e else - ((- Zpos m) / 2 ^ (- e)))
  end.

(** [f64 > 0.0] etc. in source order. *)
Definition gtb (x y : t) : bool := ltb y x.
Definition geb (x y : t) : bool := leb y x.

(** [Duration::as_secs_f64] of a duration in nanoseconds. *)
Definition as_secs_f64 (d : Z) : t :=
  add (of_Z (d / 1000000000)) (div (of_Z (d mod 1000000000)) (of_Z 1000000000)).

(** Round to nearest, ties to even, of the quotient of two positive integers. *)
Definition div_round_even (a b : Z) : Z :=
  let q := a / b in let r := a mod b in
  match Z.compare (2 * r) b with
  | Lt => q
  | Gt => q + 1
  | Eq => if Z.even q then q else q + 1
  end.

(** [Duration::from_secs_f64], in nanoseconds; [None] where it panics (a
    negative, overflowing or non-finite argument). *)
Definition from_secs_f64 (x : t) : option Z :=
  match x with
  | S754_zero _ => Some 0
  | S754_nan | S754_infinity _ => None
  | S754_finite true _ _ => None
  | S754_finite false m e =>
      let ns := if 0 <=? e then Zpos m * 2 ^ e * 1000000000
                else div_round_even (Zpos m * 1000000000) (2 ^ (- e)) in
      if ns <? 2 ^ 64 * 1000000000 then Some ns else None
  end.

(** Ordered values: everything but NaN, with the sign reading of [0 <= x]. *)
Definition nonneg (x : t) : Prop :=
  match x with
  | S754_zero _ => True
  | S754_finite s _ _ | S754_infinity s => s = false
  | S754_nan => False
  end.
Definition finite (x : t) : Prop :=
  match x with S754_zero _ | S754_finite _ _ _ => True | _ => False end.

#[global] Instance total_cmp_total : TotalCmp total_cmp.
Proof. exact (cmp_on_total total_key Z.compare). Qed.

End F64.

Module F32.

Definition t : Type := spec_float.
Definition zero : t := S754_zero false.
Definition of_Z (n : Z) : t := binary_normalize 24 128 n 0 false.
Definition div : t -> t -> t := SFdiv 24 128.
Definition literal (n : Z) (k : Z) : t := div (of_Z n) (of_Z (10 ^ k)).
Definition ltb (x y : t) : bool := SFltb x y.
Definition leb (x y : t) : bool := SFleb x y.
Definition gtb (x y : t) : bool := ltb y x.
Definition one : t := of_Z 1.
Definition add : t -> t -> t := SFadd 24 128.
Definition mul : t -> t -> t := SFmul 24 128.
Definition sqrt : t -> t := SFsqrt 24 128.
Definition eqb (x y : t) : bool := SFeqb x y.

(** [f32::total_cmp], as for [f64]. *)
Definition magnitude (x : t) : Z :=
  match x with
  | S754_zero _ => 0
  | S754_finite _ m e => (e + 149) * 2 ^ 23 + Zpos m
  | S754_infinity _ => 255 * 2 ^ 23
  | S754_nan => 255 * 2 ^ 23 + 2 ^ 22
  end.
Definition total_key (x : t) : Z := if F64.sign_bit x then -1 - magnitude x else magnitude x.
Definition total_cmp (x y : t) : comparison := Z.compare (total_key x) (total_key y).

(** [x as f64], which is exact. *)
Definition to_f64 (x : t) : F64.t :=
  match x with
  | S754_finite s m e => binary_normalize 53 1024 (if s then Zneg m else Zpos m) e s
  | x => x
  end.

#[global] Instance total_cmp_total : TotalCmp total_cmp.
Proof. exact (cmp_on_total total_key Z.compare). Qed.

End F32.
