(* ===== verification/F64Facts.v ===== *)
(** * Facts about IEEE-754 arithmetic

    What the rate limiter's proofs need of [spec_float] arithmetic: operations
    on non-negative numbers stay non-negative, the comparison-based [min] and
    [max] do what they say, a bound on the magnitude of quotients, and that
    integers below 2^53 are represented and subtracted exactly. *)
From S2P Require Import Prelude F64.
From Stdlib Require Import SpecFloat.

Open Scope Z_scope.

Module F64Facts.
Import F64.

(* ------------------------------------------------------------------ *)
(** ** Binary digits and shifts *)

Lemma digits2_log2 p : Zpos (digits2_pos p) = Z.log2 (Zpos p) + 1.
Proof.
  induction p as [p IH|p IH|]; [| |done]; cbn [digits2_pos]; rewrite Pos2Z.inj_succ, IH.
  - change (Zpos p~1) with (2 * Zpos p + 1). rewrite Z.log2_succ_double by lia. lia.
  - change (Zpos p~0) with (2 * Zpos p). rewrite Z.log2_double by lia. lia.
Qed.

Lemma Zdigits2_log2 m : 0 < m -> Zdigits2 m = Z.log2 m + 1.
Proof. destruct m as [|p|p]; [lia|intros _; apply digits2_log2|lia]. Qed.

Lemma Zdigits2_nonneg m : 0 <= Zdigits2 m.
Proof. destruct m; simpl; lia. Qed.

Lemma Zdigits2_le m d : 0 <= m -> 0 <= d -> Zdigits2 m <= d <-> m < 2 ^ d.
Proof.
  intros Hm Hd. destruct (decide (m = 0)) as [->|Hne].
  - simpl. split; [intros _; by apply Z.pow_pos_nonneg|lia].
  - rewrite Zdigits2_log2, Z.log2_lt_pow2 by lia. lia.
Qed.

Lemma Zdigits2_mul_pow n j : 0 < n -> 0 <= j -> Zdigits2 (n * 2 ^ j) = Zdigits2 n + j.
Proof.
  intros Hn Hj. assert (0 < 2 ^ j) by (by apply Z.pow_pos_nonneg).
  rewrite !Zdigits2_log2 by nia. rewrite Z.log2_mul_pow2 by lia. lia.
Qed.

Lemma iter_pos_nat {A : Type} (f : A -> A) p x : iter_pos f p x = Nat.iter (Pos.to_nat p) f x.
Proof.
  revert x. induction p as [p IH|p IH|]; intros x; cbn [iter_pos]; [| |done]; rewrite !IH.
  - rewrite Pos2Nat.inj_xI, Nat.iter_succ_r. replace (2 * Pos.to_nat p)%nat with (Pos.to_nat p + Pos.to_nat p)%nat by lia.
    by rewrite Nat.iter_add.
  - rewrite Pos2Nat.inj_xO. replace (2 * Pos.to_nat p)%nat with (Pos.to_nat p + Pos.to_nat p)%nat by lia.
    by rewrite Nat.iter_add.
Qed.

Lemma shr_1_half mrs : 0 <= shr_m mrs -> shr_m (shr_1 mrs) = shr_m mrs / 2.
Proof.
  destruct mrs as [m r s]. simpl. intros Hm. destruct m as [|[p|p|]|p]; simpl; try done; try lia.
  - change (Zpos p~1) with (2 * Zpos p + 1). by rewrite Z.add_comm, Z.mul_comm, Z.div_add by lia.
  - change (Zpos p~0) with (2 * Zpos p). by rewrite Z.mul_comm, Z.div_mul by lia.
Qed.

Lemma shr_iter_div n mrs : 0 <= shr_m mrs ->
  shr_m (Nat.iter n shr_1 mrs) = shr_m mrs / 2 ^ Z.of_nat n.
Proof.
  intros Hm. induction n as [|n IH]; [by rewrite Z.div_1_r|].
  rewrite Nat.iter_succ, shr_1_half, IH.
  - rewrite Zdiv.Zdiv_Zdiv by lia. f_equal. rewrite Nat2Z.inj_succ, Z.pow_succ_r by lia. lia.
  - rewrite IH. by apply Z.div_pos, Z.pow_pos_nonneg; lia.
Qed.

Lemma shr_1_exact m : shr_1 (Build_shr_record (2 * m) false false) = Build_shr_record m false false.
Proof. by destruct m. Qed.

Lemma shr_iter_exact n m :
  Nat.iter n shr_1 (Build_shr_record (m * 2 ^ Z.of_nat n) false false) = Build_shr_record m false false.
Proof.
  revert m. induction n as [|n IH]; intros m; [simpl; by rewrite Z.mul_1_r|].
  rewrite Nat.iter_succ_r, Nat2Z.inj_succ, Z.pow_succ_r by lia.
  replace (m * (2 * 2 ^ Z.of_nat n)) with (2 * (m * 2 ^ Z.of_nat n)) by lia. by rewrite shr_1_exact.
Qed.

(** [shr] by [n]: the mantissa is divided, the exponent grows. *)
Lemma shr_spec mrs e n : 0 <= shr_m mrs ->
  shr_m (fst (shr mrs e n)) = shr_m mrs / 2 ^ Z.max n 0 /\ snd (shr mrs e n) = e + Z.max n 0.
Proof.
  intros Hm. destruct n as [|p|p]; simpl; [by rewrite Z.div_1_r, Z.add_0_r| |by rewrite Z.div_1_r, Z.add_0_r].
  rewrite iter_pos_nat, shr_iter_div by done. by rewrite positive_nat_Z.
Qed.

Lemma shr_exact m e n : 0 <= n ->
  shr (Build_shr_record (m * 2 ^ n) false false) e n = (Build_shr_record m false false, e + n).
Proof.
  intros Hn. destruct n as [|p|p]; [|simpl|lia].
  - by rewrite Z.pow_0_r, Z.mul_1_r, Z.add_0_r.
  - rewrite iter_pos_nat, <-(positive_nat_Z p). by rewrite shr_iter_exact.
Qed.

Lemma shr_record_of_loc_m m l : shr_m (shr_record_of_loc m l) = m.
Proof. by destruct l as [|[]]. Qed.

Lemma round_nearest_even_range m l : m <= round_nearest_even m l <= m + 1.
Proof. destruct l as [|[]]; simpl; try case_match; lia. Qed.

Lemma iter_xO_value m p : Zpos (Pos.iter xO m p) = Zpos m * 2 ^ Zpos p.
Proof.
  induction p as [|p IH] using Pos.peano_ind; [simpl; lia|].
  rewrite Pos.iter_succ, Pos2Z.inj_succ, Z.pow_succ_r, (Pos2Z.inj_xO (Pos.iter _ _ _)), IH by lia. lia.
Qed.

Lemma shl_align_value m e e' : e' <= e ->
  shl_align m e e' = (Z.to_pos (Zpos m * 2 ^ (e - e')), e').
Proof.
  intros He. unfold shl_align. destruct (e' - e) as [|p|p] eqn:E; [|lia|].
  - replace (e - e') with 0 by lia. rewrite Z.mul_1_r. simpl. f_equal. lia.
  - replace (e - e') with (Zpos p) by lia. by rewrite <-iter_xO_value.
Qed.

(* ------------------------------------------------------------------ *)
(** ** Signs *)

(** The shift that brings a mantissa to 53 digits. *)
Definition excess (m e : Z) : Z := Z.max (fexp 53 1024 (Zdigits2 m + e) - e) 0.

Lemma shr_fexp_spec m e l : 0 <= m -> exists r,
  shr_fexp 53 1024 m e l = (r, e + excess m e) /\ shr_m r = m / 2 ^ excess m e.
Proof.
  intros Hm. unfold shr_fexp. destruct (shr_spec (shr_record_of_loc m l) e (fexp 53 1024 (Zdigits2 m + e) - e)) as [H1 H2].
  { by rewrite shr_record_of_loc_m. }
  destruct (shr _ _ _) as [r e']. simpl in *. rewrite shr_record_of_loc_m in H1. exists r.
  by rewrite H1, H2.
Qed.

(** Rounding a non-negative mantissa: shift, round up by at most one, shift. *)
Lemma round_shape m e l : 0 <= m -> exists m1,
  m / 2 ^ excess m e <= m1 <= m / 2 ^ excess m e + 1 /\
  let e1 := e + excess m e in let e2 := e1 + excess m1 e1 in
  binary_round_aux 53 1024 false m e l =
  match m1 / 2 ^ excess m1 e1 with
  | Z0 => S754_zero false
  | Zpos m2 => if e2 <=? 971 then S754_finite false m2 e2 else S754_infinity false
  | Zneg _ => S754_nan
  end.
Proof.
  intros Hm. unfold binary_round_aux. destruct (shr_fexp_spec m e l Hm) as (r1 & -> & H1).
  exists (round_nearest_even (shr_m r1) (loc_of_shr_record r1)). rewrite <-H1.
  pose proof (round_nearest_even_range (shr_m r1) (loc_of_shr_record r1)) as Hr. split; [done|].
  assert (0 <= shr_m r1) by (rewrite H1; apply Z.div_pos; [done|]; apply Z.pow_pos_nonneg; unfold excess; lia).
  destruct (shr_fexp_spec (round_nearest_even (shr_m r1) (loc_of_shr_record r1)) (e + excess m e) loc_Exact)
    as (r2 & -> & H2); [lia|]. by rewrite H2.
Qed.

Lemma div_pow2_nonneg m n : 0 <= m -> 0 <= m / 2 ^ Z.max n 0.
Proof. intros Hm. apply Z.div_pos; [done|]. apply Z.pow_pos_nonneg; lia. Qed.

Lemma round_nonneg m e l : 0 <= m -> nonneg (binary_round_aux 53 1024 false m e l).
Proof.
  intros Hm. destruct (round_shape m e l Hm) as (m1 & H1 & Heq). cbv zeta in Heq. rewrite Heq.
  pose proof (div_pow2_nonneg m (fexp 53 1024 (Zdigits2 m + e) - e) Hm). fold (excess m e) in *.
  assert (0 <= m1) as Hm1 by lia.
  pose proof (div_pow2_nonneg m1 (fexp 53 1024 (Zdigits2 m1 + (e + excess m e)) - (e + excess m e)) Hm1).
  fold (excess m1 (e + excess m e)) in *. destruct (m1 / _); [done| |lia]. by case_match.
Qed.

Lemma normalize_nonneg m e : 0 <= m -> nonneg (binary_normalize 53 1024 m e false).
Proof.
  intros Hm. destruct m as [|p|p]; [done| |lia]. simpl. unfold binary_round.
  destruct (shl_align _ _ _). by apply round_nonneg.
Qed.

Lemma of_Z_nonneg n : 0 <= n -> nonneg (of_Z n).
Proof. apply normalize_nonneg. Qed.

Lemma add_nonneg x y : nonneg x -> nonneg y -> nonneg (add x y).
Proof.
  destruct x as [sx|sx| |sx mx ex], y as [sy|sy| |sy my ey]; simpl; intros; subst; try done.
  - by destruct sx, sy.
  - apply normalize_nonneg. simpl. lia.
Qed.

Lemma add_nan_r x : add x S754_nan = S754_nan.
Proof. by destruct x. Qed.

(** A product or quotient of non-negative numbers is non-negative, or NaN
    (zero times infinity, zero over zero, ...). *)
Definition nonneg_or_nan (x : t) : Prop := nonneg x \/ x = S754_nan.

Lemma mul_nonneg x y : nonneg x -> nonneg y -> nonneg_or_nan (mul x y).
Proof.
  unfold nonneg_or_nan.
  destruct x as [sx|sx| |sx mx ex], y as [sy|sy| |sy my ey]; simpl; intros; subst; try done; try (by right); try (by left).
  left. by apply round_nonneg.
Qed.

(** The quotient the division rounds, and the exponent range it lies in. *)
Lemma div_core m1 e1 m2 e2 : exists q e l,
  SFdiv_core_binary 53 1024 (Zpos m1) e1 (Zpos m2) e2 = (q, e, l) /\ 0 <= q /\
  Zdigits2 q + e <= Z.max (Zdigits2 (Zpos m1) + e1 - (Zdigits2 (Zpos m2) + e2) + 1) (-1074).
Proof.
  unfold SFdiv_core_binary. set (d1 := Zdigits2 (Zpos m1)). set (d2 := Zdigits2 (Zpos m2)).
  set (e := Z.min _ _). set (s := e1 - e2 - e). assert (0 <= s) as Hs by lia.
  assert (match s with Zpos _ => Z.shiftl (Zpos m1) s | Z0 => Zpos m1 | Zneg _ => 0 end = Zpos m1 * 2 ^ s) as ->.
  { destruct s eqn:E; [lia| |lia]. by rewrite Z.shiftl_mul_pow2 by lia. }
  destruct (Z.div_eucl (Zpos m1 * 2 ^ s) (Zpos m2)) as [q r] eqn:Eq.
  exists q, e, (new_location (Zpos m2) r). split; [done|].
  assert (q = Zpos m1 * 2 ^ s / Zpos m2) as Hq by (unfold Z.div; by rewrite Eq).
  assert (0 < 2 ^ s) as Hpow by (by apply Z.pow_pos_nonneg).
  assert (0 <= q) as Hq0 by (rewrite Hq; apply Z.div_pos; lia). split; [done|].
  assert (Zpos m1 < 2 ^ d1) as H1 by (apply Zdigits2_le; unfold d1; [lia|apply Zdigits2_nonneg|lia]).
  assert (0 < d2) as Hd2 by (unfold d2; simpl; lia).
  assert (2 ^ (d2 - 1) <= Zpos m2) as H2.
  { apply Z.nlt_ge. rewrite <-Zdigits2_le by lia. fold d2. lia. }
  destruct (decide (0 <= d1 + s - d2 + 1)) as [Hb|Hb].
  - assert (Zdigits2 q <= d1 + s - d2 + 1); [|lia]. apply Zdigits2_le; [done..|]. rewrite Hq.
    apply Z.div_lt_upper_bound; [lia|].
    assert (Zpos m1 * 2 ^ s < 2 ^ (d2 - 1) * 2 ^ (d1 + s - d2 + 1)); [|nia].
    rewrite <-Z.pow_add_r by lia. replace (d2 - 1 + (d1 + s - d2 + 1)) with (d1 + s) by lia.
    rewrite Z.pow_add_r by (unfold d1; simpl; lia). nia.
  - assert (q = 0) as ->; [|unfold e, fexp, emin in *; simpl; lia].
    rewrite Hq. apply Z.div_small. split; [lia|].
    apply Z.lt_le_trans with (2 ^ (d1 + s)); [rewrite Z.pow_add_r by (unfold d1; simpl; lia); nia|].
    etrans; [|exact H2]. apply Z.pow_le_mono_r; lia.
Qed.

Lemma div_nonneg x y : nonneg x -> ltb zero y = true -> nonneg_or_nan (div x y).
Proof.
  unfold nonneg_or_nan, div.
  destruct x as [sx|sx| |sx mx ex], y as [sy|[]| |[] my ey]; cbn [nonneg SFdiv]; intros; subst; try done;
    try (by right); try (by left).
  left. destruct (div_core mx ex my ey) as (q & e & l & -> & Hq & _). by apply round_nonneg.
Qed.

(* ------------------------------------------------------------------ *)
(** ** Comparisons *)

Lemma compare_pos_swap m n : Pos.compare_cont Eq m n = CompOpp (Pos.compare_cont Eq n m).
Proof. exact (Pos.compare_antisym n m). Qed.

Lemma compare_swap x y : SFcompare x y = CompOpp <$> SFcompare y x.
Proof.
  destruct x as [sx|sx| |sx mx ex], y as [sy|sy| |sy my ey]; simpl; try done; try (by destruct sx); try (by destruct sy);
    try (by destruct sx, sy).
  f_equal. rewrite (Z.compare_antisym ey ex), (compare_pos_swap mx my).
  by destruct sx, sy; simpl; try done; destruct (ey ?= ex); simpl; rewrite ?CompOpp_involutive.
Qed.

Lemma compare_refl x : x <> S754_nan -> SFcompare x x = Some Eq.
Proof.
  destruct x as [|[]| |[] m e]; simpl; try done;
    by rewrite Z.compare_refl, (Pos.compare_cont_refl m Eq).
Qed.

Lemma leb_refl x : x <> S754_nan -> leb x x = true.
Proof. intros Hx. unfold leb, SFleb. by rewrite compare_refl. Qed.

Lemma compare_some x y : x <> S754_nan -> y <> S754_nan -> is_Some (SFcompare x y).
Proof. destruct x, y; simpl; done. Qed.

Lemma not_ltb_leb x y : x <> S754_nan -> y <> S754_nan -> ltb x y = false -> leb y x = true.
Proof.
  intros Hx Hy. unfold ltb, leb, SFltb, SFleb. rewrite (compare_swap y x).
  destruct (compare_some x y Hx Hy) as [c ->]. by destruct c.
Qed.

Lemma ltb_leb x y : ltb x y = true -> leb x y = true.
Proof. unfold ltb, leb, SFltb, SFleb. by destruct (SFcompare x y) as [[]|]. Qed.

Lemma nonneg_not_nan x : nonneg x -> x <> S754_nan.
Proof. by destruct x. Qed.

Lemma leb_not_nan x y : leb x y = true -> x <> S754_nan /\ y <> S754_nan.
Proof. by destruct x, y. Qed.

(** A value at or above a non-negative one is non-negative. *)
Lemma leb_nonneg x y : nonneg x -> leb x y = true -> nonneg y.
Proof.
  destruct x as [sx|sx| |sx mx ex], y as [sy|sy| |sy my ey]; simpl; intros ? Hl; subst; try done;
    unfold leb, SFleb in Hl; simpl in Hl; by destruct sy.
Qed.

Lemma is_nan_false x : x <> S754_nan -> is_nan x = false.
Proof. by destruct x. Qed.

Lemma max_lower x lo : nonneg lo -> leb lo (max x lo) = true.
Proof.
  intros Hlo. apply nonneg_not_nan in Hlo. unfold max. destruct (is_nan x) eqn:Ex; [by apply leb_refl|].
  rewrite (is_nan_false lo) by done. destruct (ltb x lo) eqn:E; [by apply leb_refl|].
  apply not_ltb_leb; [by destruct x|done|done].
Qed.

(** [x.min(cap)] for a value that may be NaN: between zero and [cap]. *)
Lemma min_bounded x cap : nonneg_or_nan x -> nonneg cap ->
  nonneg (min x cap) /\ leb (min x cap) cap = true.
Proof.
  intros [Hx| ->] Hcap; unfold min; [|split; [done|]; apply leb_refl; by apply nonneg_not_nan].
  rewrite !is_nan_false by by apply nonneg_not_nan.
  pose proof (nonneg_not_nan _ Hx). pose proof (nonneg_not_nan _ Hcap).
  destruct (ltb cap x) eqn:E; split; try done; [by apply leb_refl|by apply not_ltb_leb].
Qed.

(* ------------------------------------------------------------------ *)
(** ** Magnitudes *)

(** [x] is finite and less than [2 ^ k]. *)
Definition below (k : Z) (x : t) : Prop :=
  match x with
  | S754_zero _ => True
  | S754_finite _ m e => Zdigits2 (Zpos m) + e <= k
  | _ => False
  end.

Lemma below_mono k k' x : k <= k' -> below k x -> below k' x.
Proof. destruct x; simpl; try done. lia. Qed.

Lemma below_finite k x : below k x -> finite x.
Proof. by destruct x. Qed.

Lemma digits_shift m e k : 0 <= m -> 0 <= k -> Zdigits2 m + e <= k ->
  let n := excess m e in Zdigits2 (m / 2 ^ n) + (e + n) <= k /\ e + n <= k.
Proof.
  intros Hm Hk Hd. cbv zeta. pose proof (Zdigits2_nonneg m) as Hdm.
  assert (0 <= excess m e) as Hn by (unfold excess; lia).
  assert (e + excess m e <= k) as He by (unfold excess, fexp, emin; lia). split; [|done].
  assert (Zdigits2 (m / 2 ^ excess m e) <= Z.max (Zdigits2 m - excess m e) 0); [|lia].
  assert (0 < 2 ^ excess m e) by (by apply Z.pow_pos_nonneg).
  apply Zdigits2_le; [apply Z.div_pos; lia|lia|]. apply Z.div_lt_upper_bound; [done|].
  rewrite <-Z.pow_add_r by lia. apply Z.lt_le_trans with (2 ^ Zdigits2 m); [by apply Zdigits2_le|].
  apply Z.pow_le_mono_r; lia.
Qed.

Lemma Zdigits2_succ m m' : 0 <= m -> m <= m' <= m + 1 -> Zdigits2 m' <= Zdigits2 m + 1.
Proof.
  intros Hm Hm'. pose proof (Zdigits2_nonneg m) as Hd. apply Zdigits2_le; [lia..|].
  assert (m < 2 ^ Zdigits2 m) by (by apply Zdigits2_le).
  rewrite Z.pow_add_r by lia. lia.
Qed.

Lemma round_below m e l k : 0 <= m -> 0 <= k < 971 -> Zdigits2 m + e <= k ->
  below (k + 1) (binary_round_aux 53 1024 false m e l).
Proof.
  intros Hm Hk Hd. destruct (round_shape m e l Hm) as (m1 & H1 & Heq). cbv zeta in Heq. rewrite Heq.
  destruct (digits_shift m e k) as [H2 H3]; [lia..|]. set (e1 := e + excess m e) in *.
  pose proof (div_pow2_nonneg m (fexp 53 1024 (Zdigits2 m + e) - e) Hm) as H0. fold (excess m e) in H0.
  pose proof (Zdigits2_succ _ m1 H0 H1) as H4.
  destruct (digits_shift m1 e1 (k + 1)) as [H5 H6]; [lia..|].
  pose proof (div_pow2_nonneg m1 (fexp 53 1024 (Zdigits2 m1 + e1) - e1) ltac:(lia)) as H7. fold (excess m1 e1) in H7.
  destruct (m1 / 2 ^ excess m1 e1) as [|p|p]; [done| |lia].
  rewrite (proj2 (Z.leb_le _ _)) by lia. simpl in *. lia.
Qed.

(** Dividing by a number that is at least [2 ^ (-j)]. *)
Definition at_least (j : Z) (y : t) : Prop :=
  match y with
  | S754_infinity false => True
  | S754_finite false m e => - j <= Zdigits2 (Zpos m) + e
  | _ => False
  end.

Lemma div_below k j x y : nonneg x -> below k x -> at_least j y -> 0 <= k + j + 1 < 971 ->
  below (k + j + 2) (div x y).
Proof.
  unfold div. destruct x as [sx|sx| |sx mx ex], y as [sy|[]| |[] my ey]; cbn [nonneg below at_least SFdiv];
    intros Hx Hk Hj Hkj; subst; try done.
  destruct (div_core mx ex my ey) as (q & e & l & -> & Hq & He).
  replace (k + j + 2) with (k + j + 1 + 1) by lia. apply round_below; lia.
Qed.

Lemma below_from_secs k x : nonneg x -> below k x -> 0 <= k < 64 ->
  exists d, from_secs_f64 x = Some d /\ 0 <= d.
Proof.
  destruct x as [sx|sx| |sx m e]; cbn [nonneg below]; intros Hx Hb Hk; subst; try done; [by exists 0|].
  assert (0 < 2 ^ (k - e)) as Hpk by (apply Z.pow_pos_nonneg; pose proof (digits2_log2 m); pose proof (Z.log2_nonneg (Zpos m)); cbn [Zdigits2] in Hb; lia).
  assert (Zpos m < 2 ^ (k - e)) as Hm.
  { pose proof (Zdigits2_nonneg (Zpos m)). apply Zdigits2_le; lia. }
  unfold from_secs_f64. destruct (0 <=? e) eqn:Ee; zbool.
  - assert (Zpos m * 2 ^ e < 2 ^ k).
    { replace k with (k - e + e) by lia. rewrite Z.pow_add_r by (try lia; apply Z.nlt_ge; intros ?; rewrite Z.pow_neg_r in Hpk; lia).
      assert (0 < 2 ^ e) by (by apply Z.pow_pos_nonneg). nia. }
    assert (2 ^ k <= 2 ^ 64) by (apply Z.pow_le_mono_r; lia).
    rewrite (proj2 (Z.ltb_lt _ _)) by nia. eexists. split; [done|]. assert (0 <= 2 ^ e) by (by apply Z.pow_nonneg). nia.
  - set (b := 2 ^ (- e)). assert (0 < b) as Hb0 by (apply Z.pow_pos_nonneg; lia).
    assert (Zpos m < 2 ^ k * b) as Hmb.
    { unfold b. rewrite <-Z.pow_add_r by lia. by replace (k + - e) with (k - e) by lia. }
    assert (2 ^ k <= 2 ^ 63) as Hk63 by (apply Z.pow_le_mono_r; lia).
    assert (Zpos m * 1000000000 / b < 2 ^ 63 * 1000000000) as Hq by (apply Z.div_lt_upper_bound; [done|]; nia).
    assert (0 <= Zpos m * 1000000000 / b) by (apply Z.div_pos; lia).
    assert (Zpos m * 1000000000 / b <= div_round_even (Zpos m * 1000000000) b <= Zpos m * 1000000000 / b + 1).
    { unfold div_round_even. repeat case_match; lia. }
    rewrite (proj2 (Z.ltb_lt _ _)) by lia. eexists. split; [done|lia].
Qed.

(** Rounding a negative number mirrors rounding its opposite. *)
Definition negative (x : t) : Prop :=
  match x with
  | S754_zero s | S754_infinity s | S754_finite s _ _ => s = true
  | S754_nan => False
  end.

Lemma round_negative m e l : 0 <= m -> negative (binary_round_aux 53 1024 true m e l).
Proof.
  intros Hm. pose proof (round_nonneg m e l Hm) as Hr. unfold binary_round_aux in *.
  destruct (shr_fexp 53 1024 m e l) as [r1 e1].
  destruct (shr_fexp 53 1024 (round_nearest_even (shr_m r1) (loc_of_shr_record r1)) e1 loc_Exact) as [r2 e2].
  destruct (shr_m r2); [done|by case_match|done].
Qed.

(** What is missing to one: at most one, or negative. *)
Lemma one_minus x : nonneg x ->
  (nonneg (sub one x) /\ below 2 (sub one x)) \/ negative (sub one x).
Proof.
  change one with (S754_finite false 4503599627370496 (-52)). unfold sub.
  destruct x as [sx|sx| |sx m e]; cbn [nonneg SFsub]; intros Hx; subst; try done; [left; done|by right|].
  set (ez := Z.min (-52) e). rewrite !shl_align_value by lia. cbn [fst cond_Zopp].
  assert (0 < 2 ^ (-52 - ez)) as H1 by (apply Z.pow_pos_nonneg; lia).
  assert (0 < 2 ^ (e - ez)) as H2 by (apply Z.pow_pos_nonneg; lia).
  rewrite !Z2Pos.id by nia. set (d := _ - _). destruct d as [|p|p] eqn:Ed; [by left| |].
  - left. split; [by apply normalize_nonneg|]. unfold binary_normalize, binary_round.
    assert (Zpos p < 2 ^ (1 - ez)) as Hp.
    { replace (1 - ez) with (53 + (-52 - ez)) by lia. rewrite Z.pow_add_r by lia. nia. }
    pose proof (proj2 (Zdigits2_le (Zpos p) (1 - ez) ltac:(lia) ltac:(lia)) Hp) as Hd.
    change (Zpos (digits2_pos p)) with (Zdigits2 (Zpos p)).
    destruct (decide (fexp 53 1024 (Zdigits2 (Zpos p) + ez) <= ez)) as [Hle|Hgt].
    + rewrite shl_align_value by done. apply (round_below _ _ _ 1); [lia..|].
      assert (0 < 2 ^ (ez - fexp 53 1024 (Zdigits2 (Zpos p) + ez))) by (apply Z.pow_pos_nonneg; lia).
      rewrite Z2Pos.id, Zdigits2_mul_pow by nia. lia.
    + assert (shl_align p ez (fexp 53 1024 (Zdigits2 (Zpos p) + ez)) = (p, ez)) as ->.
      { unfold shl_align. by destruct (fexp _ _ _ - ez) eqn:E; [..|lia]. }
      apply (round_below _ _ _ 1); lia.
  - right. unfold binary_normalize, binary_round. destruct (shl_align _ _ _). by apply round_negative.
Qed.

Lemma div_negative x y : negative x -> ltb zero y = true ->
  negative (div x y) \/ div x y = S754_nan.
Proof.
  unfold div. destruct x as [sx|sx| |sx mx ex], y as [sy|[]| |[] my ey]; cbn [negative SFdiv]; intros; subst;
    try done; try (by left); try (by right).
  left. destruct (div_core mx ex my ey) as (q & e & l & -> & Hq & _). by apply round_negative.
Qed.

Lemma negative_max x y : negative x \/ x = S754_nan -> ltb zero y = true -> max x y = y.
Proof.
  intros [Hx| ->]; [|done]. destruct x as [sx|sx| |sx m e], y as [sy|[]| |[] my ey]; simpl in *; subst; done.
Qed.

Lemma max_cases x y : max x y = x \/ max x y = y.
Proof. unfold max. repeat case_match; auto. Qed.

Lemma min_cases x y : min x y = x \/ min x y = y.
Proof. unfold min. destruct (is_nan x), (is_nan y), (ltb y x); auto. Qed.

Lemma div_small_nonneg x y k j : nonneg x -> ltb zero y = true -> below k x -> at_least j y ->
  0 <= k + j + 1 < 971 -> nonneg (div x y).
Proof.
  intros Hx Hy Hk Hj Hb. destruct (div_nonneg x y Hx Hy) as [Hd|Hd]; [done|].
  pose proof (div_below k j x y Hx Hk Hj Hb) as Hc. by rewrite Hd in Hc.
Qed.

(* ------------------------------------------------------------------ *)
(** ** Integers *)

(** The representation of [n], [0 < n < 2 ^ 53], with a full mantissa. *)
Definition int_f64 (n : Z) : t :=
  S754_finite false (Z.to_pos (n * 2 ^ (53 - Zdigits2 n))) (Zdigits2 n - 53).

Lemma Zdigits2_pos n : 0 < n -> 0 < Zdigits2 n.
Proof. destruct n; simpl; lia. Qed.

Lemma Zdigits2_small n : 0 < n < 2 ^ 53 -> 0 < Zdigits2 n <= 53.
Proof. intros Hn. split; [apply Zdigits2_pos; lia|]. apply Zdigits2_le; lia. Qed.

Lemma mul_pow_split n a b : 0 <= a -> 0 <= b -> n * 2 ^ (a + b) = n * 2 ^ a * 2 ^ b.
Proof. intros. rewrite Z.pow_add_r by lia. lia. Qed.

Lemma round_exact n j : 0 < n < 2 ^ 53 -> 53 - Zdigits2 n <= j ->
  binary_round_aux 53 1024 false (n * 2 ^ j) (- j) loc_Exact = int_f64 n.
Proof.
  intros Hn Hj. pose proof (Zdigits2_small n Hn) as Hd. unfold binary_round_aux, shr_fexp.
  rewrite (Zdigits2_mul_pow n j) by lia. cbn [shr_record_of_loc].
  replace (fexp 53 1024 (Zdigits2 n + j + - j) - - j) with (j - (53 - Zdigits2 n)) by (unfold fexp, emin; lia).
  replace j with (53 - Zdigits2 n + (j - (53 - Zdigits2 n))) at 1 by lia.
  rewrite mul_pow_split, shr_exact by lia. cbn [shr_m loc_of_shr_record round_nearest_even shr_record_of_loc].
  rewrite Zdigits2_mul_pow by lia.
  replace (fexp 53 1024 _ - _) with 0 by (unfold fexp, emin; lia). cbn [shr shr_m].
  assert (0 < n * 2 ^ (53 - Zdigits2 n)) as Hm by (assert (0 < 2 ^ (53 - Zdigits2 n)) by (apply Z.pow_pos_nonneg; lia); nia).
  unfold int_f64. destruct (n * 2 ^ (53 - Zdigits2 n)) as [|p|p] eqn:E; [lia| |lia].
  rewrite (proj2 (Z.leb_le _ _)) by lia. cbn [Z.to_pos]. f_equal. lia.
Qed.

Lemma normalize_exact n j : 0 < n < 2 ^ 53 -> 0 <= j ->
  binary_normalize 53 1024 (n * 2 ^ j) (- j) false = int_f64 n.
Proof.
  intros Hn Hj. pose proof (Zdigits2_small n Hn) as Hd.
  assert (0 < 2 ^ j) as Hp by (by apply Z.pow_pos_nonneg).
  destruct (n * 2 ^ j) as [|p|p] eqn:E; [lia| |lia]. unfold binary_normalize, binary_round.
  change (Zpos (digits2_pos p)) with (Zdigits2 (Zpos p)). rewrite <-E, Zdigits2_mul_pow by lia.
  replace (fexp 53 1024 (Zdigits2 n + j + - j)) with (Zdigits2 n - 53) by (unfold fexp, emin; lia).
  destruct (decide (53 - Zdigits2 n <= j)) as [Hle|Hgt].
  - assert (shl_align p (- j) (Zdigits2 n - 53) = (p, - j)) as ->.
    { unfold shl_align. destruct (Zdigits2 n - 53 - - j) eqn:E2; try done. lia. }
    rewrite <-E. apply round_exact; lia.
  - rewrite shl_align_value, <-E by lia. rewrite <-(mul_pow_split n j) by lia.
    replace (j + (- j - (Zdigits2 n - 53))) with (53 - Zdigits2 n) by lia.
    rewrite Z2Pos.id by (assert (0 < 2 ^ (53 - Zdigits2 n)) by (apply Z.pow_pos_nonneg; lia); nia).
    replace (Zdigits2 n - 53) with (- (53 - Zdigits2 n)) by lia. apply round_exact; lia.
Qed.

Lemma of_Z_int n : 0 < n < 2 ^ 53 -> of_Z n = int_f64 n.
Proof. intros Hn. rewrite <-(normalize_exact n 0) by lia. unfold of_Z. by rewrite Z.mul_1_r. Qed.

(** Counting down is exact. *)
Lemma sub_one n : 0 <= n < 2 ^ 53 - 1 -> sub (of_Z (n + 1)) one = of_Z n.
Proof.
  intros Hn. rewrite of_Z_int by lia. pose proof (Zdigits2_small (n + 1) ltac:(lia)) as Hd.
  unfold sub, int_f64. change one with (S754_finite false 4503599627370496 (-52)). cbn [SFsub].
  rewrite Z.min_r by lia. rewrite !shl_align_value by lia. cbn [fst cond_Zopp].
  assert (0 < 2 ^ (53 - Zdigits2 (n + 1))) by (apply Z.pow_pos_nonneg; lia).
  rewrite !Z2Pos.id by (try apply Z.mul_pos_pos; try apply Z.pow_pos_nonneg; nia).
  rewrite <-mul_pow_split by lia.
  replace (53 - Zdigits2 (n + 1) + (Zdigits2 (n + 1) - 53 - -52)) with 52 by lia.
  replace ((n + 1) * 2 ^ 52 - 4503599627370496 * 2 ^ (-52 - -52)) with (n * 2 ^ 52) by (simpl; lia).
  destruct (decide (n = 0)) as [->|Hne]; [done|]. rewrite of_Z_int by lia. apply normalize_exact; lia.
Qed.

Lemma Zdigits2_mono a b : 0 < a -> a <= b -> Zdigits2 a <= Zdigits2 b.
Proof. intros Ha Hb. rewrite !Zdigits2_log2 by lia. pose proof (Z.log2_le_mono a b Hb). lia. Qed.

(** Integers compare as integers. *)
Lemma of_Z_compare a b : 0 <= a <= b -> b < 2 ^ 53 -> SFcompare (of_Z a) (of_Z b) = Some (Z.compare a b).
Proof.
  intros Ha Hb. destruct (decide (a = 0)) as [->|Ha0].
  { destruct (decide (b = 0)) as [->|]; [done|]. rewrite (of_Z_int b) by lia. cbn [of_Z int_f64 SFcompare].
    change (Some Lt = Some (Z.compare 0 b)). f_equal. symmetry. apply Z.compare_lt_iff. lia. }
  rewrite !of_Z_int by lia. unfold int_f64. cbn [SFcompare].
  pose proof (Zdigits2_mono a b ltac:(lia) ltac:(lia)) as Hd. pose proof (Zdigits2_small b ltac:(lia)) as Hd2.
  destruct (Z.compare_spec (Zdigits2 a - 53) (Zdigits2 b - 53)) as [He|He|He]; [| |lia].
  - assert (0 < 2 ^ (53 - Zdigits2 b)) by (apply Z.pow_pos_nonneg; lia).
    replace (Zdigits2 a) with (Zdigits2 b) by lia. change (Pos.compare_cont Eq ?x ?y) with (Pos.compare x y). f_equal.
    change (Pos.compare ?x ?y) with (Z.compare (Zpos x) (Zpos y)). rewrite !Z2Pos.id by nia.
    destruct (Z.compare_spec (a * 2 ^ (53 - Zdigits2 b)) (b * 2 ^ (53 - Zdigits2 b))), (Z.compare_spec a b); (done || nia).
  - f_equal. symmetry. apply Z.compare_lt_iff. apply Z.nle_gt. intros Hle. pose proof (Zdigits2_mono b a ltac:(lia) Hle). lia.
Qed.

Lemma of_Z_leb a b : 0 <= a <= b -> b < 2 ^ 53 -> leb (of_Z a) (of_Z b) = true.
Proof.
  intros Ha Hb. unfold leb, SFleb. rewrite of_Z_compare by done. by destruct (Z.compare_spec a b); [| |lia].
Qed.

Lemma of_Z_ltb a b : 0 <= a < b -> b < 2 ^ 53 -> ltb (of_Z a) (of_Z b) = true.
Proof. intros Ha Hb. unfold ltb, SFltb. rewrite of_Z_compare by lia. by rewrite (proj2 (Z.compare_lt_iff a b)) by lia. Qed.

Lemma leb_not_ltb x y : leb x y = true -> ltb y x = false.
Proof.
  unfold ltb, leb, SFltb, SFleb. rewrite (compare_swap y x). by destruct (SFcompare x y) as [[]|].
Qed.

Lemma of_Z_below n k : 0 <= n < 2 ^ k -> 0 <= k < 53 -> below k (of_Z n).
Proof.
  intros Hn Hk. destruct (decide (n = 0)) as [->|Hne]; [done|].
  assert (2 ^ k < 2 ^ 53) by (apply Z.pow_lt_mono_r; lia). rewrite of_Z_int by lia. unfold int_f64, below.
  pose proof (Zdigits2_small n ltac:(lia)) as Hd.
  assert (0 < 2 ^ (53 - Zdigits2 n)) by (apply Z.pow_pos_nonneg; lia).
  rewrite Z2Pos.id by nia. rewrite Zdigits2_mul_pow by lia.
  assert (Zdigits2 n <= k) by (apply Zdigits2_le; lia). lia.
Qed.

Lemma of_Z_not_nan n : 0 <= n -> of_Z n <> S754_nan.
Proof. intros Hn. apply nonneg_not_nan, of_Z_nonneg, Hn. Qed.

Lemma max_of_Z a b : 0 <= a < 2 ^ 53 -> 0 <= b < 2 ^ 53 ->
  (a < b -> ltb (of_Z a) (of_Z b) = true) -> max (of_Z a) (of_Z b) = of_Z (Z.max a b).
Proof.
  intros Ha Hb Hlt. unfold max. rewrite !is_nan_false by (apply of_Z_not_nan; lia).
  destruct (Z.lt_ge_cases a b) as [H|H].
  - rewrite Hlt, Z.max_r by lia. done.
  - rewrite Z.max_l by lia. by rewrite (leb_not_ltb _ _ (of_Z_leb b a ltac:(lia) ltac:(lia))).
Qed.

Lemma min_of_Z a b : 0 <= a <= b -> b < 2 ^ 53 -> min (of_Z a) (of_Z b) = of_Z a.
Proof.
  intros Ha Hb. unfold min. rewrite !is_nan_false by (apply of_Z_not_nan; lia).
  by rewrite (leb_not_ltb _ _ (of_Z_leb a b ltac:(lia) ltac:(lia))).
Qed.

Lemma add_zero_r n : 0 <= n < 2 ^ 53 -> add (of_Z n) zero = of_Z n.
Proof. intros Hn. destruct (decide (n = 0)) as [->|Hne]; [done|]. by rewrite of_Z_int by lia. Qed.

Lemma mul_zero_l x : nonneg x -> finite x -> sign_bit x = false -> mul zero x = zero.
Proof. destruct x as [s|s| |s m e]; simpl; intros; subst; done. Qed.

Lemma as_secs_f64_nonneg d : 0 <= d -> nonneg (as_secs_f64 d).
Proof.
  intros Hd. unfold as_secs_f64. apply add_nonneg; [apply of_Z_nonneg, Z.div_pos; lia|].
  pose proof (Z.mod_pos_bound d 1000000000) as Hm.
  apply (div_small_nonneg _ _ 30 0); [apply of_Z_nonneg; lia|done|apply of_Z_below; lia|done|done].
Qed.

(** Sums of integers are exact. *)
Lemma add_of_Z a b : 0 <= a -> 0 <= b -> a + b < 2 ^ 53 -> add (of_Z a) (of_Z b) = of_Z (a + b).
Proof.
  intros Ha Hb Hab. destruct (decide (a = 0)) as [->|Ha0].
  { destruct (decide (b = 0)) as [->|Hb0]; [done|]. by rewrite Z.add_0_l, (of_Z_int b) by lia. }
  destruct (decide (b = 0)) as [->|Hb0]; [rewrite Z.add_0_r; apply add_zero_r; lia|].
  rewrite (of_Z_int a), (of_Z_int b), (of_Z_int (a + b)) by lia.
  pose proof (Zdigits2_small a ltac:(lia)) as Hda. pose proof (Zdigits2_small b ltac:(lia)) as Hdb.
  unfold add, int_f64 at 1 2. cbn [SFadd]. set (ez := Z.min (Zdigits2 a - 53) (Zdigits2 b - 53)).
  rewrite !shl_align_value by lia. cbn [fst cond_Zopp].
  assert (forall n, 0 < n -> Zdigits2 n <= 53 -> ez <= Zdigits2 n - 53 ->
    Z.pos (Z.to_pos (Z.pos (Z.to_pos (n * 2 ^ (53 - Zdigits2 n))) * 2 ^ (Zdigits2 n - 53 - ez))) = n * 2 ^ (- ez)) as Hal.
  { intros n Hn Hd Hez. assert (0 < 2 ^ (53 - Zdigits2 n)) by (apply Z.pow_pos_nonneg; lia).
    assert (0 < 2 ^ (Zdigits2 n - 53 - ez)) by (apply Z.pow_pos_nonneg; lia).
    rewrite !Z2Pos.id by (rewrite ?Z2Pos.id; nia). rewrite <-mul_pow_split by lia. f_equal. f_equal. lia. }
  rewrite !Hal by lia. rewrite <-Z.mul_add_distr_r. replace ez with (- - ez) at 2 by lia.
  rewrite normalize_exact by lia. done.
Qed.

(** Adding zero to anything but the negative zero changes nothing. *)
Lemma add_zero_id x : x <> S754_zero true -> add x zero = x.
Proof. by destruct x as [[]|[]| |[] m e]. Qed.

Lemma round_sign m e l s : 0 <= m -> binary_round_aux 53 1024 false m e l = S754_zero s -> s = false.
Proof.
  intros Hm. destruct (round_shape m e l Hm) as (m1 & _ & Heq). cbv zeta in Heq. rewrite Heq.
  destruct (m1 / _); [by intros [= <-]|by case_match|done].
Qed.

Lemma add_not_negative_zero x y : nonneg x -> nonneg y -> x <> S754_zero true -> add x y <> S754_zero true.
Proof.
  destruct x as [[]|[]| |[] m e], y as [[]|[]| |[] m' e']; cbn [nonneg]; try done. intros _ _ _ H.
  unfold add in H. cbn [SFadd cond_Zopp] in H. unfold binary_normalize in H.
  destruct (_ + _)%Z as [|p|p] eqn:E; [done| |lia]. unfold binary_round in H.
  destruct (shl_align p _ _) as [q e2]. by apply round_sign in H.
Qed.

(** Scaling an integer by a factor of at most [1 - 2^-52] and rounding up to an
    integer never exceeds the integer. *)
Lemma ceil_scaled_le k M : 0 <= k < 2 ^ 53 -> 2 ^ 52 <= Zpos M <= 2 ^ 53 - 2 ->
  ceil_as_u64 (mul (of_Z k) (S754_finite false M (-53))) <= k.
Proof.
  intros Hk HM. destruct (decide (k = 0)) as [->|Hk0]; [done|]. rewrite of_Z_int by lia.
  pose proof (Zdigits2_small k ltac:(lia)) as Hd. unfold mul, int_f64. cbn [SFmul xorb].
  set (d := Zdigits2 k) in *. set (A := k * 2 ^ (53 - d)).
  assert (0 < 2 ^ (53 - d)) as Hp by (apply Z.pow_pos_nonneg; lia). assert (0 < A) as HA0 by (unfold A; nia).
  assert (Zdigits2 A = 53) as HdA by (unfold A, d; rewrite Zdigits2_mul_pow by lia; fold d; lia).
  assert (2 ^ 52 <= A) as HA.
  { apply Z.nlt_ge. intros Hlt. apply (Zdigits2_le A 52) in Hlt; lia. }
  assert (A < 2 ^ 53) as HA' by (apply Zdigits2_le; lia).
  rewrite Pos2Z.inj_mul, Z2Pos.id by done. set (P := A * Z.pos M). assert (0 < P) as HP by (unfold P; nia).
  assert (Zdigits2 P <= 106) as H106 by (apply Zdigits2_le; [lia..|]; change (2 ^ 106) with (2 ^ 53 * 2 ^ 53); unfold P; nia).
  assert (104 < Zdigits2 P) as H105.
  { apply Z.nle_gt. intros Hle. apply Zdigits2_le in Hle; [|lia..]. change (2 ^ 104) with (2 ^ 52 * 2 ^ 52) in Hle. unfold P in Hle. nia. }
  destruct (round_shape P (d - 53 + -53) loc_Exact ltac:(lia)) as (m1 & Hm1 & Heq). cbv zeta in Heq. rewrite Heq. clear Heq.
  assert (excess P (d - 53 + -53) = Zdigits2 P - 53) as Hex by (unfold excess, fexp, emin; lia). rewrite Hex in *.
  set (e1 := d - 53 + -53 + (Zdigits2 P - 53)) in *.
  assert (0 <= m1 <= k * 2 ^ (- e1)) as Hm1k.
  { pose proof (div_pow2_nonneg P (Zdigits2 P - 53) ltac:(lia)) as H0. rewrite Z.max_l in H0 by lia. split; [lia|].
    assert (- e1 = 53 - d + (106 - Zdigits2 P)) as -> by (unfold e1; lia). rewrite mul_pow_split by lia. fold A.
    assert (Zdigits2 P = 105 \/ Zdigits2 P = 106) as [E|E] by lia; rewrite E in *.
    - change (2 ^ (106 - 105)) with 2. change (2 ^ (105 - 53)) with (2 ^ 52) in *.
      assert (P / 2 ^ 52 < 2 * A); [|lia]. apply Z.div_lt_upper_bound; [done|]. unfold P. change (2 ^ 53) with (2 * 2 ^ 52) in *. nia.
    - change (2 ^ (106 - 106)) with 1. change (2 ^ (106 - 53)) with (2 ^ 53) in *.
      assert (P / 2 ^ 53 < A); [|lia]. apply Z.div_lt_upper_bound; [done|]. unfold P. nia. }
  set (x2 := excess m1 e1) in *. assert (0 <= x2) as Hx2 by (unfold x2, excess; lia).
  assert (0 < 2 ^ x2) as Hpx by (by apply Z.pow_pos_nonneg). assert (e1 <= 0) as He1 by (unfold e1; lia).
  assert (0 < 2 ^ (- e1)) as Hpe by (apply Z.pow_pos_nonneg; lia).
  pose proof (Z.mul_div_le m1 (2 ^ x2) Hpx) as Hm2.
  destruct (m1 / 2 ^ x2) as [|m2|m2] eqn:E2; [cbn; lia| |cbn; lia].
  destruct (e1 + x2 <=? 971) eqn:E971; [|exfalso].
  - cbn [ceil_as_u64]. etransitivity; [apply Z.le_min_r|]. destruct (0 <=? e1 + x2) eqn:Es; zbool.
    + assert (2 ^ x2 = 2 ^ (e1 + x2) * 2 ^ (- e1)) as Ex by (rewrite <-Z.pow_add_r by lia; f_equal; lia). nia.
    + assert (2 ^ (- e1) = 2 ^ (- (e1 + x2)) * 2 ^ x2) as Ex by (rewrite <-Z.pow_add_r by lia; f_equal; lia).
      assert (0 < 2 ^ (- (e1 + x2))) as Hq by (apply Z.pow_pos_nonneg; lia).
      enough (- k <= - Z.pos m2 / 2 ^ (- (e1 + x2))) by lia. apply Z.div_le_lower_bound; [done|].
      assert (Z.pos m2 * 2 ^ x2 <= k * 2 ^ (- (e1 + x2)) * 2 ^ x2) by nia. nia.
  - zbool. unfold x2, excess, fexp, emin in E971. pose proof (Zdigits2_nonneg m1).
    assert (Zdigits2 m1 <= 53 + 54); [|lia]. apply Zdigits2_le; [lia..|].
    apply Z.le_lt_trans with (k * 2 ^ (- e1)); [lia|]. rewrite Z.pow_add_r by lia.
    assert (2 ^ (- e1) <= 2 ^ 54) by (apply Z.pow_le_mono_r; unfold e1; lia). nia.
Qed.

(** Rounding a mantissa of at least 53 digits does not flush it to zero. *)
Lemma round_positive m e l : 53 <= Zdigits2 m -> 0 < m -> -1074 <= e ->
  1 <= ceil_as_u64 (binary_round_aux 53 1024 false m e l).
Proof.
  intros Hd Hm He. destruct (round_shape m e l ltac:(lia)) as (m1 & Hm1 & Heq). cbv zeta in Heq. rewrite Heq. clear Heq.
  assert (excess m e = Zdigits2 m - 53) as Hx by (unfold excess, fexp, emin; lia). rewrite Hx in *. set (e1 := e + _) in *.
  assert (2 ^ 52 <= m1) as H52.
  { etransitivity; [|apply Hm1]. apply Z.div_le_lower_bound; [apply Z.pow_pos_nonneg; lia|].
    rewrite <-Z.pow_add_r by lia. rewrite (Zdigits2_log2 m) in * by done.
    replace (Z.log2 m + 1 - 53 + 52) with (Z.log2 m) by lia. by apply Z.log2_spec. }
  assert (m1 <= 2 ^ 53) as H53.
  { transitivity (m / 2 ^ (Zdigits2 m - 53) + 1); [lia|]. assert (m / 2 ^ (Zdigits2 m - 53) < 2 ^ 53); [|lia].
    apply Z.div_lt_upper_bound; [apply Z.pow_pos_nonneg; lia|]. rewrite <-Z.pow_add_r by lia.
    replace (Zdigits2 m - 53 + 53) with (Zdigits2 m) by lia. apply Zdigits2_le; lia. }
  assert (53 <= Zdigits2 m1 <= 54) as Hd1.
  { split; [|apply Zdigits2_le; lia]. apply Z.nlt_ge. intros Hlt. assert (m1 < 2 ^ 52); [|lia]. apply Zdigits2_le; lia. }
  assert (excess m1 e1 = Zdigits2 m1 - 53) as Hx1 by (unfold excess, fexp, emin, e1; lia). rewrite Hx1.
  assert (0 < m1 / 2 ^ (Zdigits2 m1 - 53)) as Hp.
  { apply Z.div_str_pos. split; [apply Z.pow_pos_nonneg; lia|]. transitivity (2 ^ 1); [apply Z.pow_le_mono_r; lia|lia]. }
  destruct (m1 / _) as [|m2|m2]; [lia| |lia]. destruct (_ <=? 971); cbn [ceil_as_u64]; [|unfold u64_max; lia].
  apply Z.min_glb; [unfold u64_max; lia|]. destruct (Z.leb_spec 0 (e1 + (Zdigits2 m1 - 53))).
  - pose proof (Z.pow_pos_nonneg 2 (e1 + (Zdigits2 m1 - 53))). nia.
  - pose proof (Z.div_lt_upper_bound (- Z.pos m2) (2 ^ (- (e1 + (Zdigits2 m1 - 53)))) 0). pose proof (Z.pow_pos_nonneg 2 (- (e1 + (Zdigits2 m1 - 53)))). lia.
Qed.

(** The same for a scaled positive integer: the index it rounds up to is at least one. *)
Lemma ceil_scaled_pos k M : 0 < k < 2 ^ 53 -> 2 ^ 52 <= Zpos M ->
  1 <= ceil_as_u64 (mul (of_Z k) (S754_finite false M (-53))).
Proof.
  intros Hk HM. rewrite of_Z_int by lia. pose proof (Zdigits2_small k Hk) as Hd. unfold mul, int_f64. cbn [SFmul xorb].
  set (d := Zdigits2 k) in *. assert (0 < 2 ^ (53 - d)) by (apply Z.pow_pos_nonneg; lia).
  apply round_positive; [|lia|lia]. rewrite Pos2Z.inj_mul, Z2Pos.id by nia.
  assert (0 < k * 2 ^ (53 - d)) by (apply Z.mul_pos_pos; lia).
  transitivity (Zdigits2 (Zpos M)); [|apply Zdigits2_mono; [lia|]; nia].
  apply Z.nlt_ge. intros Hlt. assert (Zpos M < 2 ^ 52); [|lia]. apply Zdigits2_le; lia.
Qed.

(** The quotient of two numbers that are not far apart has all the digits the
    format keeps; it is the rounded-down quotient of the mantissas. *)
Lemma div_normal m1 e1 m2 e2 :
  -900 <= Zdigits2 (Zpos m1) + e1 - (Zdigits2 (Zpos m2) + e2) -> -1074 <= e1 - e2 ->
  exists q s l, SFdiv_core_binary 53 1024 (Zpos m1) e1 (Zpos m2) e2 = (q, e1 - e2 - s, l) /\
    2 ^ 52 <= q /\ 53 <= Zdigits2 q /\ -1074 <= e1 - e2 - s /\ 0 <= s /\ q * Zpos m2 <= Zpos m1 * 2 ^ s.
Proof.
  intros HD He. unfold SFdiv_core_binary.
  set (d1 := Zdigits2 (Zpos m1)) in *. set (d2 := Zdigits2 (Zpos m2)) in *.
  set (e := Z.min _ _). set (s := e1 - e2 - e). assert (0 <= s) as Hs by lia.
  assert (e <= d1 + e1 - (d2 + e2) - 53 /\ -1074 <= e) as [Hlo Hhi] by (unfold e, fexp, emin; lia).
  assert (match s with Zpos _ => Z.shiftl (Zpos m1) s | Z0 => Zpos m1 | Zneg _ => 0 end = Zpos m1 * 2 ^ s) as ->.
  { destruct s eqn:E; [lia| |lia]. by rewrite Z.shiftl_mul_pow2 by lia. }
  destruct (Z.div_eucl (Zpos m1 * 2 ^ s) (Zpos m2)) as [q r] eqn:Eq.
  assert (q = Zpos m1 * 2 ^ s / Zpos m2) as Hq by (unfold Z.div; by rewrite Eq).
  assert (0 < d1) as Hd1 by (unfold d1; simpl; lia). assert (0 < d2) as Hd2 by (unfold d2; simpl; lia).
  assert (2 ^ (d1 - 1) <= Zpos m1) as H1.
  { apply Z.nlt_ge. rewrite <-Zdigits2_le by lia. fold d1. lia. }
  assert (Zpos m2 < 2 ^ d2) as H2 by (apply Zdigits2_le; unfold d2; lia).
  assert (2 ^ 52 <= q) as Hq52.
  { rewrite Hq. apply Z.div_le_lower_bound; [lia|]. transitivity (2 ^ (d2 + 52)); [rewrite Z.pow_add_r by lia; nia|].
    transitivity (2 ^ (d1 - 1 + s)); [apply Z.pow_le_mono_r; lia|]. rewrite Z.pow_add_r by lia.
    apply Z.mul_le_mono_nonneg_r; [apply Z.pow_nonneg; lia|done]. }
  exists q, s, (new_location (Zpos m2) r). replace (e1 - e2 - s) with e by lia. split; [done|]. split; [done|]. split; [|split; [done|split; [done|]]].
  - apply Z.nlt_ge. intros Hlt. assert (q < 2 ^ 52); [|lia]. apply Zdigits2_le; lia.
  - rewrite Hq, Z.mul_comm. apply Z.mul_div_le. lia.
Qed.

(** A quotient that is not tiny is not flushed to zero either. *)
Lemma div_ceil_pos m1 e1 m2 e2 :
  -900 <= Zdigits2 (Zpos m1) + e1 - (Zdigits2 (Zpos m2) + e2) -> -1074 <= e1 - e2 ->
  1 <= ceil_as_u64 (div (S754_finite false m1 e1) (S754_finite false m2 e2)).
Proof.
  intros HD He. unfold div. cbn [SFdiv xorb].
  destruct (div_normal m1 e1 m2 e2 HD He) as (q & s & l & -> & Hq & Hd & He' & _). apply round_positive; lia.
Qed.

Lemma sub_self x : finite x -> sub x x = zero.
Proof.
  destruct x as [[]|s| |s m e]; try done. intros _. unfold sub. cbn [SFsub]. rewrite Z.min_id, shl_align_value by lia.
  rewrite Z.sub_diag. by destruct s; cbn; rewrite ?Z.sub_diag, ?Pos.sub_diag, ?Z.pos_sub_diag.
Qed.

(* ------------------------------------------------------------------ *)
(** ** The total order of the encodings *)

(** A binary64 value: what a variable of type [f64] can hold. *)
Definition is_f64 (x : t) : Prop := valid_binary 53 1024 x = true.

Lemma is_f64_finite s m e : is_f64 (S754_finite s m e) ->
  Zpos m < 2 ^ 53 /\ -1074 <= e <= 971 /\ (2 ^ 52 <= Zpos m \/ e = -1074).
Proof.
  unfold is_f64, valid_binary, bounded, canonical_mantissa. rewrite andb_true_iff.
  intros [Hc He]. apply Z.eqb_eq in Hc. apply Z.leb_le in He. unfold fexp in Hc.
  change (Zpos (digits2_pos m)) with (Zdigits2 (Zpos m)) in Hc. change (emin 53 1024) with (-1074) in Hc.
  change (1024 - 53) with 971 in He. split; [apply Zdigits2_le; lia|]. split; [lia|].
  destruct (decide (e = -1074)) as [|Hne]; [by right|left].
  apply Z.nlt_ge. rewrite <-Zdigits2_le by lia. lia.
Qed.

Lemma magnitude_range x : is_f64 x ->
  match x with S754_finite _ _ _ => 0 < magnitude x < 2047 * 2 ^ 52 | _ => 0 <= magnitude x end.
Proof. destruct x as [s|s| |s m e]; intros Hx; cbn [magnitude]; try lia. apply is_f64_finite in Hx. lia. Qed.

Lemma magnitude_lt s s' m m' e e' :
  is_f64 (S754_finite s m e) -> is_f64 (S754_finite s' m' e') ->
  e < e' \/ e = e' /\ Zpos m < Zpos m' ->
  magnitude (S754_finite s m e) < magnitude (S754_finite s' m' e').
Proof. intros Hx%is_f64_finite Hy%is_f64_finite H. cbn [magnitude]. nia. Qed.

(** [total_cmp] never puts a larger number first. *)
Lemma ltb_total_key x y : is_f64 x -> is_f64 y -> ltb x y = true -> total_key x < total_key y.
Proof.
  intros Hx Hy. pose proof (magnitude_range x Hx) as Rx. pose proof (magnitude_range y Hy) as Ry.
  unfold ltb, SFltb.
  destruct x as [[]|[]| |[] m e], y as [[]|[]| |[] m' e']; cbn [SFcompare]; try done; intros H;
    unfold total_key; cbn [sign_bit] in *; try (cbn [magnitude] in *; lia).
  - assert (e' < e \/ e' = e /\ Zpos m' < Zpos m); [|by pose proof (magnitude_lt _ _ _ _ _ _ Hy Hx H0); lia].
    destruct (Z.compare_spec e e'); try done; [right|by left]. split; [done|].
    change (Pos.compare_cont Eq m m') with (m ?= m')%positive in H. by destruct (Pos.compare_spec m m').
  - assert (e < e' \/ e = e' /\ Zpos m < Zpos m'); [|by apply (magnitude_lt _ _ _ _ _ _ Hx Hy)].
    destruct (Z.compare_spec e e'); try done; [right|by left]. split; [done|].
    change (Pos.compare_cont Eq m m') with (m ?= m')%positive in H. by destruct (Pos.compare_spec m m').
Qed.

Lemma total_cmp_ltb x y : is_f64 x -> is_f64 y -> total_cmp x y <> Gt -> ltb y x = false.
Proof.
  intros Hx Hy Hc. destruct (ltb y x) eqn:E; [|done]. apply (ltb_total_key y x Hy Hx) in E.
  destruct Hc. by apply Z.compare_gt_iff.
Qed.

End F64Facts.
