(* ===== verification/Chat.v ===== *)
(** * Chat requests and responses (src/src/models/chat.rs), the token
    estimator (src/src/telemetry/token_estimator.rs) and client-facing errors
    (src/src/error.rs)

    A [Uuid] is its 128-bit value.  [serde_json]'s printer is an argument of
    the one function that calls it. *)
From S2P Require Import Prelude Str F64.

Open Scope string_scope.
Open Scope list_scope.
Open Scope Z_scope.

Module Chat.

Definition Uuid : Type := Z.

(** [serde_json::Value] *)
Inductive Number := PosInt (n : Z) | NegInt (n : Z) | Float (x : F64.t).
#[warnings="-register-all"]
Inductive Value :=
| Null
| Bool (b : bool)
| Num (n : Number)
| Str_ (s : string)
| Array (l : list Value)
| Object (fields : list (string * Value)).

Record ChatValidationLimits := {
  max_messages_per_request : Z;
  max_message_content_chars : Z
}.

Definition ChatValidationLimits_default : ChatValidationLimits :=
  {| max_messages_per_request := 64; max_message_content_chars := 8000 |}.

Record ToolFunction := {
  tf_name : string;
  tf_description : option string;
  tf_parameters : Value;
  tf_strict : option bool
}.

Record Tool := {
  tool_kind : string;
  tool_function : ToolFunction
}.

Inductive ToolChoiceMode := Auto | None_ | Required.

Record ToolChoiceFunction := { tcf_name : string }.

Inductive ToolChoice :=
| Mode (m : ToolChoiceMode)
| Function_ (kind : string) (function : ToolChoiceFunction).

Record ToolCallFunction := { call_fn_name : string; call_fn_arguments : string }.

Record ToolCall := {
  call_id : string;
  call_kind : string;
  call_function : ToolCallFunction
}.

Inductive ChatRole := Developer | System | User | Assistant | ToolRole.

#[global] Instance ChatRole_eq_dec : EqDecision ChatRole.
Proof. solve_decision. Defined.

Record ChatMessage := {
  role : ChatRole;
  content : string;
  tool_calls : option (list ToolCall);
  tool_call_id : option string
}.

Record ChatCompletionRequest := {
  req_model : option string;
  messages : list ChatMessage;
  temperature : option F32.t;
  max_tokens : option Z;
  stream : option bool;
  tools : option (list Tool);
  tool_choice : option ToolChoice;
  parallel_tool_calls : option bool;
  response_format : option Value
}.

Record TokenUsage := {
  prompt_tokens : Z;
  completion_tokens : Z;
  total_tokens : Z
}.

Definition TokenUsage_default : TokenUsage :=
  {| prompt_tokens := 0; completion_tokens := 0; total_tokens := 0 |}.

Record ChatChoice := {
  choice_index : Z;
  choice_message : ChatMessage;
  choice_finish_reason : string
}.

Record ChatCompletionResponse := {
  resp_id : string;
  resp_object : string;
  resp_created : Z;
  resp_model : string;
  resp_provider : string;
  resp_choices : list ChatChoice;
  resp_usage : TokenUsage
}.

Record ToolCallDeltaFunction := { delta_fn_name : option string; delta_fn_arguments : option string }.

Record ToolCallDelta := {
  tcd_index : Z;
  tcd_id : option string;
  tcd_kind : option string;
  tcd_function : option ToolCallDeltaFunction
}.

Record ChatDelta := {
  delta_role : option ChatRole;
  delta_content : option string;
  delta_tool_calls : option (list ToolCallDelta)
}.

Definition ChatDelta_default : ChatDelta :=
  {| delta_role := None; delta_content := None; delta_tool_calls := None |}.

Record ChatChunkChoice := {
  chunk_index : Z;
  chunk_delta : ChatDelta;
  chunk_finish_reason : option string
}.

Record ChatCompletionChunkResponse := {
  chunk_id : string;
  chunk_object : string;
  chunk_created : Z;
  chunk_model : string;
  chunk_provider : string;
  chunk_choices : list ChatChunkChoice
}.

(** [openai_id] of src/src/compat.rs: [prefix-<32 hex digits>]. *)
Definition uuid_bytes (u : Uuid) : list Z :=
  map (fun i => (u / 256 ^ (15 - Z.of_nat i)) mod 256) (seq 0 16).
Definition openai_id (prefix : string) (request_id : Uuid) : string :=
  (prefix ++ "-" ++ Str.hex (uuid_bytes request_id))%string.

(* ------------------------------------------------------------------ *)
(** ** Errors shown to clients *)

Inductive AppError :=
| InvalidRequest (message : string) (request_id : option Uuid)
| Unauthorized (message : string) (request_id : option Uuid)
| Forbidden (message : string) (request_id : option Uuid)
| GatewayRateLimited (request_id : option Uuid) (retry_after_seconds : Z)
| AdmissionRejected (message : string) (request_id : option Uuid) (retry_after_seconds : Z)
| NoProviderAvailable (request_id : option Uuid)
| ProviderRateLimited (request_id : option Uuid)
| ProviderTimeout (request_id : option Uuid)
| ProviderFailure (request_id : option Uuid)
| Internal (request_id : option Uuid).

Definition status_code (e : AppError) : Z :=
  match e with
  | InvalidRequest _ _ => 400
  | Unauthorized _ _ => 401
  | Forbidden _ _ => 403
  | GatewayRateLimited _ _ => 429
  | AdmissionRejected _ _ _ => 503
  | NoProviderAvailable _ => 503
  | ProviderRateLimited _ => 429
  | ProviderTimeout _ => 504
  | ProviderFailure _ => 502
  | Internal _ => 500
  end.

Definition code (e : AppError) : string :=
  match e with
  | InvalidRequest _ _ => "invalid_request"
  | Unauthorized _ _ => "unauthorized"
  | Forbidden _ _ => "forbidden"
  | GatewayRateLimited _ _ => "gateway_rate_limited"
  | AdmissionRejected _ _ _ => "admission_rejected"
  | NoProviderAvailable _ => "no_provider_available"
  | ProviderRateLimited _ => "provider_rate_limited"
  | ProviderTimeout _ => "provider_timeout"
  | ProviderFailure _ => "provider_failure"
  | Internal _ => "internal"
  end.

Definition error_request_id (e : AppError) : option Uuid :=
  match e with
  | InvalidRequest _ r | Unauthorized _ r | Forbidden _ r | GatewayRateLimited r _
  | AdmissionRejected _ r _ | NoProviderAvailable r | ProviderRateLimited r
  | ProviderTimeout r | ProviderFailure r | Internal r => r
  end.

Definition public_message (e : AppError) : string :=
  match e with
  | InvalidRequest m _ => m
  | Unauthorized m _ | Forbidden m _ => m
  | GatewayRateLimited _ _ => "request rate limit exceeded, retry later"
  | AdmissionRejected m _ _ => m
  | NoProviderAvailable _ => "no provider is available for this request"
  | ProviderRateLimited _ => "provider rate limited this request"
  | ProviderTimeout _ => "provider timed out while handling this request"
  | ProviderFailure _ => "provider failed to process this request"
  | Internal _ => "an internal error occurred"
  end.

Record ErrorBody := { body_code : string; body_message : string; body_request_id : option Uuid }.

Record ErrorHttpResponse := {
  http_status : Z;
  http_body : ErrorBody;
  http_retry_after : option string
}.

(** [impl IntoResponse for AppError] *)
Definition into_response (e : AppError) : ErrorHttpResponse :=
  let retry_after := match e with
    | GatewayRateLimited _ retry_after_seconds => Some retry_after_seconds
    | AdmissionRejected _ _ retry_after_seconds => Some retry_after_seconds
    | _ => None
    end in
  {| http_status := status_code e;
     http_body := {| body_code := code e; body_message := public_message e;
                     body_request_id := error_request_id e |};
     http_retry_after := (fun s => Str.decimal (Z.max s 1)) <$> retry_after |}.

(* ------------------------------------------------------------------ *)
(** ** Token estimates *)

(** [text.split_whitespace().count() as u32] *)
Definition estimate_tokens_for_text (text : string) : Z :=
  Z.of_nat (length (Str.split_whitespace text)) mod 2 ^ 32.

(** The [u32] sum over the messages. *)
Definition estimate_tokens_for_messages (ms : list ChatMessage) : Z :=
  foldl (fun acc m => u32_add acc (estimate_tokens_for_text (content m))) 0 ms.

(* ------------------------------------------------------------------ *)
(** ** Validation *)

Definition stream_enabled (r : ChatCompletionRequest) : bool := default false (stream r).

Section Validate.
(** [serde_json::to_string] *)
Variable json_to_string : Value -> option string.

(** The loop over the tools: the first offending tool decides the message. *)
Fixpoint validate_tools (ts : list Tool) : option string :=
  match ts with
  | [] => None
  | tool :: rest =>
      if negb (String.eqb (tool_kind tool) "function")
         || Str.is_empty (Str.trim (tf_name (tool_function tool)))
      then Some "each tool must be a named function tool"
      else if match json_to_string (tf_parameters (tool_function tool)) with
              | Some value => 8192 <? Str.len value
              | None => true
              end
      then Some "tool parameter schemas must be at most 8192 bytes"
      else validate_tools rest
  end.

(** The message of the first failed check, in source order. *)
Definition validation_error (r : ChatCompletionRequest) (limits : ChatValidationLimits) :
  option string :=
  if Str.is_empty (default "" (Str.trim <$> req_model r)) then Some "model must be provided"
  else if match messages r with [] => true | _ => false end
  then Some "messages must contain at least one item"
  else if max_messages_per_request limits <? Z.of_nat (length (messages r))
  then Some ("messages must contain at most " ++ Str.decimal (max_messages_per_request limits)
             ++ " items")%string
  else if existsb (fun m => Str.is_empty (Str.trim (content m))) (messages r)
  then Some "message content must not be empty"
  else if existsb (fun m => max_message_content_chars limits <? Str.chars_count (content m))
            (messages r)
  then Some ("message content must be at most "
             ++ Str.decimal (max_message_content_chars limits) ++ " characters")%string
  else
    let tools_error := match tools r with
      | Some ts =>
          if 128 <? Z.of_nat (length ts) then Some "tools must contain at most 128 entries"
          else validate_tools ts
      | None => None
      end in
    match tools_error with
    | Some e => Some e
    | None =>
        match tool_choice r with
        | Some (Function_ kind function) =>
            if negb (String.eqb kind "function")
            then Some "tool_choice function selectors must use type `function`"
            else if existsb (fun tool => String.eqb (tf_name (tool_function tool)) (tcf_name function))
                      (default [] (tools r))
            then None
            else Some ("tool_choice references undefined tool `" ++ tcf_name function ++ "`")%string
        | _ => None
        end
    end.

(** [ChatCompletionRequest::validate] *)
Definition validate (r : ChatCompletionRequest) (request_id : option Uuid)
  (limits : ChatValidationLimits) : result unit AppError :=
  match validation_error r limits with
  | None => Ok tt
  | Some message => Err (InvalidRequest message request_id)
  end.

End Validate.

(** [ChatCompletionResponse::placeholder]; the clock is an argument. *)
Definition placeholder (now_unix : Z) (request_id : Uuid) (model provider : string) :
  ChatCompletionResponse :=
  {| resp_id := openai_id "chatcmpl" request_id; resp_object := "chat.completion";
     resp_created := now_unix; resp_model := model; resp_provider := provider;
     resp_choices := []; resp_usage := TokenUsage_default |}.

(** [ChatCompletionChunkResponse::from_delta] *)
Definition from_delta (id : Uuid) (created : Z) (model provider : string) (index : Z)
  (delta : ChatDelta) (finish_reason : option string) : ChatCompletionChunkResponse :=
  {| chunk_id := openai_id "chatcmpl" id; chunk_object := "chat.completion.chunk";
     chunk_created := created; chunk_model := model; chunk_provider := provider;
     chunk_choices := [{| chunk_index := index; chunk_delta := delta;
                          chunk_finish_reason := finish_reason |}] |}.

(* ------------------------------------------------------------------ *)
(** ** What validation accepts *)

Definition blank (s : string) : Prop := Str.trim s = "".

Definition tool_ok (json_to_string : Value -> option string) (tool : Tool) : Prop :=
  tool_kind tool = "function" /\ ~ blank (tf_name (tool_function tool)) /\
  exists text, json_to_string (tf_parameters (tool_function tool)) = Some text /\
               Str.len text <= 8192.

Definition tool_choice_ok (r : ChatCompletionRequest) : Prop :=
  forall kind function, tool_choice r = Some (Function_ kind function) ->
    kind = "function" /\
    exists tool, tool ∈ default [] (tools r) /\ tf_name (tool_function tool) = tcf_name function.

Definition valid_request (json_to_string : Value -> option string) (r : ChatCompletionRequest)
  (limits : ChatValidationLimits) : Prop :=
  (exists m, req_model r = Some m /\ ~ blank m) /\
  messages r <> [] /\
  Z.of_nat (length (messages r)) <= max_messages_per_request limits /\
  Forall (fun m => ~ blank (content m) /\
                   Str.chars_count (content m) <= max_message_content_chars limits) (messages r) /\
  (forall ts, tools r = Some ts ->
     Z.of_nat (length ts) <= 128 /\ Forall (tool_ok json_to_string) ts) /\
  tool_choice_ok r.

Lemma is_empty_true s : Str.is_empty s = true <-> s = "".
Proof. by destruct s. Qed.

Lemma is_empty_false s : Str.is_empty s = false <-> s <> "".
Proof. by destruct s. Qed.

Lemma existsb_false {A} (f : A -> bool) l :
  existsb f l = false <-> Forall (fun x => f x = false) l.
Proof.
  induction l as [|x l IH]; simpl; [done|].
  rewrite orb_false_iff, Forall_cons, IH. done.
Qed.

Lemma existsb_true {A} (f : A -> bool) l :
  existsb f l = true <-> exists x, x ∈ l /\ f x = true.
Proof.
  rewrite existsb_exists. by setoid_rewrite list_elem_of_In.
Qed.

Lemma validate_tools_ok json ts : validate_tools json ts = None <-> Forall (tool_ok json) ts.
Proof.
  induction ts as [|tool ts IH]; simpl; [done|]. rewrite Forall_cons.
  unfold tool_ok at 1, blank. destruct (String.eqb_spec (tool_kind tool) "function") as [Hk|Hk]; simpl.
  2:{ split; [done|]. naive_solver. }
  destruct (Str.is_empty _) eqn:En.
  { apply is_empty_true in En. split; [done|]. naive_solver. }
  apply is_empty_false in En. destruct (json _) as [text|] eqn:Ej; [|split; naive_solver].
  destruct (8192 <? Str.len text) eqn:El; zbool.
  - split; [done|]. intros [(_ & _ & t & [= <-] & ?) _]. lia.
  - rewrite IH. naive_solver.
Qed.

Lemma tools_error_ok json r :
  match tools r with
  | Some ts => if 128 <? Z.of_nat (length ts) then Some "tools must contain at most 128 entries"
               else validate_tools json ts
  | None => None
  end = None <->
  (forall ts, tools r = Some ts -> Z.of_nat (length ts) <= 128 /\ Forall (tool_ok json) ts).
Proof.
  destruct (tools r) as [ts|]; [|naive_solver]. destruct (128 <? _) eqn:E; zbool.
  - split; [done|]. intros H. destruct (H ts eq_refl). lia.
  - rewrite validate_tools_ok. split; [by intros ? ? [= <-]|]. intros H. by destruct (H ts eq_refl).
Qed.

Lemma tool_choice_error_ok r :
  match tool_choice r with
  | Some (Function_ kind function) =>
      if negb (String.eqb kind "function")
      then Some "tool_choice function selectors must use type `function`"
      else if existsb (fun tool => String.eqb (tf_name (tool_function tool)) (tcf_name function))
                (default [] (tools r))
      then None
      else Some ("tool_choice references undefined tool `" ++ tcf_name function ++ "`")%string
  | _ => None
  end = None <-> tool_choice_ok r.
Proof.
  unfold tool_choice_ok. destruct (tool_choice r) as [[m|kind function]|]; [naive_solver| |naive_solver].
  destruct (String.eqb_spec kind "function") as [->|Hk]; simpl; [|split; naive_solver].
  destruct (existsb _ _) eqn:E.
  - apply existsb_true in E as (tool & Hin & Ht). apply String.eqb_eq in Ht. split; [|done].
    intros _ k f [= <- <-]. eauto.
  - split; [done|]. intros H. destruct (H _ _ eq_refl) as (_ & tool & Hin & Ht).
    rewrite existsb_false, Forall_forall in E. specialize (E tool Hin).
    by apply String.eqb_neq in E.
Qed.

Lemma validation_error_none json r limits :
  validation_error json r limits = None <-> valid_request json r limits.
Proof.
  unfold validation_error, valid_request, blank.
  destruct (req_model r) as [m|]; simpl; [|split; [done|naive_solver]].
  destruct (Str.is_empty (Str.trim m)) eqn:Em; simpl.
  { apply is_empty_true in Em. split; [done|]. naive_solver. }
  apply is_empty_false in Em. destruct (messages r) as [|m0 ms] eqn:Ems; [naive_solver|].
  destruct (max_messages_per_request limits <? _) eqn:El; zbool; [split; [done|lia]|].
  destruct (existsb _ (m0 :: ms)) eqn:Eb.
  { split; [done|]. intros (_ & _ & _ & Hall & _). apply existsb_true in Eb as (x & Hx & Hb).
    apply is_empty_true in Hb. rewrite Forall_forall in Hall. by destruct (Hall x Hx). }
  destruct (existsb (fun m => max_message_content_chars limits <? _) (m0 :: ms)) eqn:Ec.
  { split; [done|]. intros (_ & _ & _ & Hall & _). apply existsb_true in Ec as (x & Hx & Hc).
    zbool. rewrite Forall_forall in Hall. destruct (Hall x Hx). lia. }
  assert (Forall (fun m => Str.trim (content m) <> "" /\
    Str.chars_count (content m) <= max_message_content_chars limits) (m0 :: ms)) as Hall.
  { rewrite existsb_false, Forall_forall in Eb, Ec. apply Forall_forall. intros x Hx.
    specialize (Eb x Hx). specialize (Ec x Hx). simpl in *. zbool.
    by apply is_empty_false in Eb. }
  rewrite <-tools_error_ok, <-tool_choice_error_ok.
  destruct (match tools r with Some _ => _ | None => None end); naive_solver.
Qed.

(* ------------------------------------------------------------------ *)
(** ** Properties *)

(** C33: [validate] accepts exactly the well-formed requests: a non-blank model,
    between one and the maximum number of messages, none blank or over the
    character limit, at most 128 named function tools whose printed schema fits
    8192 bytes, and a forced tool choice only of a declared tool. *)
Theorem validate_accepts_iff json r request_id limits :
  validate json r request_id limits = Ok tt <-> valid_request json r limits.
Proof.
  rewrite <-validation_error_none. unfold validate. by destruct (validation_error _ _ _).
Qed.

(** A rejected request is always reported as [InvalidRequest] under the
    caller's request id, that is as HTTP 400 with code [invalid_request] and no
    [Retry-After] header. *)
Theorem validate_rejects_with_400 json r request_id limits e :
  validate json r request_id limits = Err e ->
  http_status (into_response e) = 400 /\
  body_code (http_body (into_response e)) = "invalid_request" /\
  body_request_id (http_body (into_response e)) = request_id /\
  http_retry_after (into_response e) = None.
Proof. unfold validate. destruct (validation_error _ _ _); by intros [= <-]. Qed.

Lemma validate_rejects_with_400_witness :
  http_status (into_response (InvalidRequest "model must be provided" (Some 7))) = 400.
Proof.
  apply (validate_rejects_with_400 (fun _ => None)
    {| req_model := Some "  "; messages := []; temperature := None; max_tokens := None;
       stream := None; tools := None; tool_choice := None; parallel_tool_calls := None;
       response_format := None |} (Some 7) ChatValidationLimits_default).
  reflexivity.
Defined.

End Chat.
