(* ===== verification/Config.v ===== *)
(** * Configuration (src/src/config.rs)

    The configuration records with the defaults their [serde] attributes name,
    and [AppConfig::validate], which collects every error before it reports.
    Reading the file and the TOML parser are not modelled: the model starts
    from the parsed record. *)
From S2P Require Import Prelude Str F64.

Open Scope string_scope.
Open Scope list_scope.
Open Scope Z_scope.

Module Config.

Inductive IpAddr := V4 (bits : Z) | V6 (bits : Z).

Inductive RoutingPolicy := Priority | Cost | Latency | PrefixAffinity.

#[global] Instance RoutingPolicy_eq_dec : EqDecision RoutingPolicy.
Proof. solve_decision. Defined.

Definition RoutingPolicy_default : RoutingPolicy := Priority.

Definition RoutingPolicy_as_str (p : RoutingPolicy) : string :=
  match p with
  | Priority => "priority"
  | Cost => "cost"
  | Latency => "latency"
  | PrefixAffinity => "prefix_affinity"
  end.

Inductive CacheBackendConfig := Memory | Sqlite.
Inductive RateLimitBackendConfig := Local_ | Redis.
Inductive ProviderKind := Mock | OpenaiCompatible | Anthropic.

(** ** The [serde] defaults *)

Definition default_database_url : string := "sqlite://rustygate.db".
Definition default_retention_days : Z := 30.
Definition default_shutdown_grace_period_ms : Z := 10000.
Definition default_failure_rate : F64.t := F64.zero.
Definition default_service_name : string := "rustygate".
Definition default_sample_ratio : F64.t := F64.one.
Definition default_cache_default_ttl_seconds : Z := 600.
Definition default_cache_max_entries : Z := 10000.
Definition default_semantic_similarity_threshold : F32.t := F32.literal 95 2.
Definition default_semantic_index_capacity : Z := 10000.
Definition default_prefix_affinity_ttl_seconds : Z := 300.
Definition default_placeholder_compat_routes : bool := true.
Definition default_prefix_affinity_max_entries : Z := 10000.
Definition default_prefix_affinity_load_imbalance_threshold : Z := 2.
Definition default_prefix_affinity_fallback_policy : RoutingPolicy := Latency.
Definition default_retry_initial_backoff_ms : Z := 100.
Definition default_health_check_interval_ms : Z := 30000.
Definition default_stream_idle_timeout_ms : Z := 30000.
Definition default_retry_max_backoff_ms : Z := 2000.
Definition default_retry_jitter_ms : Z := 50.
Definition default_breaker_failure_threshold : Z := 3.
Definition default_breaker_open_duration_ms : Z := 5000.
Definition default_breaker_half_open_max_probes : Z := 1.
Definition default_global_requests_per_minute : Z := 120.
Definition default_global_burst_size : Z := 30.
Definition default_per_key_requests_per_minute : Z := 60.
Definition default_per_key_burst_size : Z := 20.
Definition default_max_tracked_keys : Z := 10000.
Definition default_redis_fallback_to_local : bool := true.
Definition default_max_chat_body_bytes : Z := 65536.
Definition default_max_messages_per_request : Z := 64.
Definition default_max_message_content_chars : Z := 8000.
Definition default_admission_retry_after_seconds : Z := 1.

(** ** The records *)

Record ServerConfig := {
  host : IpAddr;
  port : Z;
  shutdown_grace_period_ms : Z
}.

Record TelemetryConfig := {
  service_name : string;
  otlp_endpoint : option string;
  sample_ratio : F64.t
}.

Definition TelemetryConfig_default : TelemetryConfig :=
  {| service_name := default_service_name; otlp_endpoint := None;
     sample_ratio := default_sample_ratio |}.

Record SemanticCacheConfig := {
  semantic_enabled : bool;
  embedding_provider : option string;
  similarity_threshold : F32.t;
  index_capacity : Z
}.

Definition SemanticCacheConfig_default : SemanticCacheConfig :=
  {| semantic_enabled := false; embedding_provider := None;
     similarity_threshold := default_semantic_similarity_threshold;
     index_capacity := default_semantic_index_capacity |}.

Record CacheConfig := {
  cache_enabled : bool;
  cache_backend : CacheBackendConfig;
  default_ttl_seconds : Z;
  cache_max_entries : Z;
  semantic : SemanticCacheConfig
}.

Definition CacheConfig_default : CacheConfig :=
  {| cache_enabled := false; cache_backend := Memory;
     default_ttl_seconds := default_cache_default_ttl_seconds;
     cache_max_entries := default_cache_max_entries;
     semantic := SemanticCacheConfig_default |}.

Record RouteExposureConfig := { placeholder_compat_routes : bool }.

Definition RouteExposureConfig_default : RouteExposureConfig :=
  {| placeholder_compat_routes := default_placeholder_compat_routes |}.

Record PrefixAffinityConfig := {
  ttl_seconds : Z;
  affinity_max_entries : Z;
  load_imbalance_threshold : Z;
  fallback_policy : RoutingPolicy
}.

Definition PrefixAffinityConfig_default : PrefixAffinityConfig :=
  {| ttl_seconds := default_prefix_affinity_ttl_seconds;
     affinity_max_entries := default_prefix_affinity_max_entries;
     load_imbalance_threshold := default_prefix_affinity_load_imbalance_threshold;
     fallback_policy := default_prefix_affinity_fallback_policy |}.

Record ModelPoolConfig := {
  pool_name : string;
  pool_aliases : list string;
  pool_routing_policy : option RoutingPolicy;
  pool_members : list string;
  pool_max_in_flight : option Z
}.

Record GatewayRetryConfig := {
  initial_backoff_ms : Z;
  max_backoff_ms : Z;
  jitter_ms : Z
}.

Definition GatewayRetryConfig_default : GatewayRetryConfig :=
  {| initial_backoff_ms := default_retry_initial_backoff_ms;
     max_backoff_ms := default_retry_max_backoff_ms;
     jitter_ms := default_retry_jitter_ms |}.

Record GatewayCircuitBreakerConfig := {
  failure_threshold : Z;
  open_duration_ms : Z;
  half_open_max_probes : Z
}.

Definition GatewayCircuitBreakerConfig_default : GatewayCircuitBreakerConfig :=
  {| failure_threshold := default_breaker_failure_threshold;
     open_duration_ms := default_breaker_open_duration_ms;
     half_open_max_probes := default_breaker_half_open_max_probes |}.

Record RateLimitConfig := {
  rate_limit_backend : RateLimitBackendConfig;
  global_requests_per_minute : Z;
  global_burst_size : Z;
  per_key_requests_per_minute : Z;
  per_key_burst_size : Z;
  max_tracked_keys : Z;
  redis_url_env : option string;
  redis_fallback_to_local : bool
}.

Definition RateLimitConfig_default : RateLimitConfig :=
  {| rate_limit_backend := Local_;
     global_requests_per_minute := default_global_requests_per_minute;
     global_burst_size := default_global_burst_size;
     per_key_requests_per_minute := default_per_key_requests_per_minute;
     per_key_burst_size := default_per_key_burst_size;
     max_tracked_keys := default_max_tracked_keys;
     redis_url_env := None;
     redis_fallback_to_local := default_redis_fallback_to_local |}.

Record RequestLimitsConfig := {
  max_chat_body_bytes : Z;
  limit_messages_per_request : Z;
  limit_message_content_chars : Z
}.

Definition RequestLimitsConfig_default : RequestLimitsConfig :=
  {| max_chat_body_bytes := default_max_chat_body_bytes;
     limit_messages_per_request := default_max_messages_per_request;
     limit_message_content_chars := default_max_message_content_chars |}.

Record AdmissionConfig := {
  max_global_in_flight : option Z;
  max_estimated_prompt_tokens : option Z;
  max_estimated_total_tokens : option Z;
  retry_after_seconds : Z
}.

Definition AdmissionConfig_default : AdmissionConfig :=
  {| max_global_in_flight := None; max_estimated_prompt_tokens := None;
     max_estimated_total_tokens := None;
     retry_after_seconds := default_admission_retry_after_seconds |}.

Record StorageConfig := {
  storage_enabled : bool;
  database_url : string;
  retention_days : Z
}.

Definition StorageConfig_default : StorageConfig :=
  {| storage_enabled := false; database_url := default_database_url;
     retention_days := default_retention_days |}.

Record ProviderConfig := {
  prov_name : string;
  prov_kind : ProviderKind;
  prov_model : string;
  prov_priority : Z;
  failure_rate : F64.t;
  base_latency_ms : Z;
  base_url : option string;
  prov_api_key_env : option string;
  timeout_ms : option Z;
  prov_max_retries : option Z;
  retry_initial_backoff_ms : option Z;
  retry_max_backoff_ms : option Z;
  retry_jitter_ms : option Z;
  circuit_breaker_failure_threshold : option Z;
  circuit_breaker_open_duration_ms : option Z;
  circuit_breaker_half_open_max_probes : option Z;
  prov_max_in_flight : option Z;
  cost_per_1k_input_tokens : F64.t;
  cost_per_1k_output_tokens : F64.t
}.

Record GatewayConfig := {
  default_timeout_ms : Z;
  stream_idle_timeout_ms : Z;
  max_retries : Z;
  health_check_interval_ms : Z;
  routing_policy : RoutingPolicy;
  prefix_affinity : PrefixAffinityConfig;
  route_exposure : RouteExposureConfig;
  model_aliases : gmap string string;
  retry : GatewayRetryConfig;
  circuit_breaker : GatewayCircuitBreakerConfig;
  enable_request_logging : bool;
  log_prompt_content : bool;
  api_key_env : string;
  rate_limit : RateLimitConfig;
  request_limits : RequestLimitsConfig;
  admission : AdmissionConfig
}.

Record AppConfig := {
  server : ServerConfig;
  gateway : GatewayConfig;
  telemetry : TelemetryConfig;
  cache : CacheConfig;
  storage : StorageConfig;
  providers : list ProviderConfig;
  model_pools : list ModelPoolConfig
}.

(** ** Validation *)

(** The texts of the I/O and TOML errors are what their libraries report. *)
Inductive ConfigError := Read (error : string) | Parse (error : string) | Validation (message : string).

Definition blank (s : string) : bool := Str.is_empty (Str.trim s).
Definition opt_is_zero (o : option Z) : bool := match o with Some n => n =? 0 | None => false end.

(** [if b { errors.push(message) }], appended to the errors so far. *)
Definition push_if (b : bool) (message : string) (errors : list string) : list string :=
  if b then errors ++ [message] else errors.

(** [(0.0..=1.0).contains(&x)] *)
Definition in_unit_f64 (x : F64.t) : bool := F64.leb F64.zero x && F64.leb x F64.one.
Definition in_unit_f32 (x : F32.t) : bool := F32.leb F32.zero x && F32.leb x F32.one.

Definition validate_cache_config (c : CacheConfig) (errors : list string) : list string :=
  let errors := push_if (cache_enabled c && (default_ttl_seconds c =? 0))
    "cache.default_ttl_seconds must be greater than 0 when cache is enabled" errors in
  let errors := push_if (cache_enabled c && (cache_max_entries c =? 0))
    "cache.max_entries must be greater than 0 when cache is enabled" errors in
  let errors := push_if (semantic_enabled (semantic c)
                         && negb (is_some (embedding_provider (semantic c))))
    "cache.semantic.embedding_provider must be set when semantic cache is enabled" errors in
  let errors := push_if (negb (in_unit_f32 (similarity_threshold (semantic c))))
    "cache.semantic.similarity_threshold must be between 0.0 and 1.0" errors in
  push_if (semantic_enabled (semantic c) && (index_capacity (semantic c) =? 0))
    "cache.semantic.index_capacity must be greater than 0 when semantic cache is enabled" errors.

Definition validate_telemetry_config (t : TelemetryConfig) (errors : list string) : list string :=
  let errors := push_if (blank (service_name t)) "telemetry.service_name must not be empty" errors in
  let errors := push_if (negb (in_unit_f64 (sample_ratio t)))
    "telemetry.sample_ratio must be between 0.0 and 1.0" errors in
  push_if (is_some_and (otlp_endpoint t) blank)
    "telemetry.otlp_endpoint must not be empty when set" errors.

Definition is_redis (b : RateLimitBackendConfig) : bool :=
  match b with Redis => true | Local_ => false end.
Definition bad_fallback_policy (p : RoutingPolicy) : bool :=
  match p with Cost | PrefixAffinity => true | Priority | Latency => false end.

(** The loop over [model_aliases], in key order. *)
Definition validate_alias_entry (errors : list string) (entry : string * string) : list string :=
  let '(alias, target) := entry in
  let errors := push_if (blank alias)
    "gateway.model_aliases must not contain empty alias names" errors in
  push_if (blank target)
    ("gateway.model_aliases entry `" ++ alias ++ "` must not have an empty target")%string errors.

Definition validate_gateway_config (g : GatewayConfig) (errors : list string) : list string :=
  let errors := push_if (default_timeout_ms g =? 0)
    "gateway.default_timeout_ms must be greater than 0" errors in
  let errors := push_if (stream_idle_timeout_ms g =? 0)
    "gateway.stream_idle_timeout_ms must be greater than 0" errors in
  let errors := push_if (health_check_interval_ms g =? 0)
    "gateway.health_check_interval_ms must be greater than 0" errors in
  let errors := push_if (blank (api_key_env g)) "gateway.api_key_env must not be empty" errors in
  let errors := push_if (initial_backoff_ms (retry g) =? 0)
    "gateway.retry.initial_backoff_ms must be greater than 0" errors in
  let errors := push_if (max_backoff_ms (retry g) =? 0)
    "gateway.retry.max_backoff_ms must be greater than 0" errors in
  let errors := push_if (max_backoff_ms (retry g) <? initial_backoff_ms (retry g))
    "gateway.retry.max_backoff_ms must be greater than or equal to initial_backoff_ms" errors in
  let errors := push_if (failure_threshold (circuit_breaker g) =? 0)
    "gateway.circuit_breaker.failure_threshold must be greater than 0" errors in
  let errors := push_if (open_duration_ms (circuit_breaker g) =? 0)
    "gateway.circuit_breaker.open_duration_ms must be greater than 0" errors in
  let errors := push_if (half_open_max_probes (circuit_breaker g) =? 0)
    "gateway.circuit_breaker.half_open_max_probes must be greater than 0" errors in
  let errors := push_if (global_requests_per_minute (rate_limit g) =? 0)
    "gateway.rate_limit.global_requests_per_minute must be greater than 0" errors in
  let errors := push_if (global_burst_size (rate_limit g) =? 0)
    "gateway.rate_limit.global_burst_size must be greater than 0" errors in
  let errors := push_if (per_key_requests_per_minute (rate_limit g) =? 0)
    "gateway.rate_limit.per_key_requests_per_minute must be greater than 0" errors in
  let errors := push_if (per_key_burst_size (rate_limit g) =? 0)
    "gateway.rate_limit.per_key_burst_size must be greater than 0" errors in
  let errors := push_if (max_tracked_keys (rate_limit g) =? 0)
    "gateway.rate_limit.max_tracked_keys must be greater than 0" errors in
  let errors := push_if (is_redis (rate_limit_backend (rate_limit g))
                         && blank (default "" (redis_url_env (rate_limit g))))
    "gateway.rate_limit.redis_url_env must be set when backend is redis" errors in
  let errors := push_if (max_chat_body_bytes (request_limits g) =? 0)
    "gateway.request_limits.max_chat_body_bytes must be greater than 0" errors in
  let errors := push_if (limit_messages_per_request (request_limits g) =? 0)
    "gateway.request_limits.max_messages_per_request must be greater than 0" errors in
  let errors := push_if (limit_message_content_chars (request_limits g) =? 0)
    "gateway.request_limits.max_message_content_chars must be greater than 0" errors in
  let errors := push_if (ttl_seconds (prefix_affinity g) =? 0)
    "gateway.prefix_affinity.ttl_seconds must be greater than 0" errors in
  let errors := push_if (affinity_max_entries (prefix_affinity g) =? 0)
    "gateway.prefix_affinity.max_entries must be greater than 0" errors in
  let errors := push_if (bad_fallback_policy (fallback_policy (prefix_affinity g)))
    "gateway.prefix_affinity.fallback_policy must be either priority or latency" errors in
  let errors := push_if (opt_is_zero (max_global_in_flight (admission g)))
    "gateway.admission.max_global_in_flight must be greater than 0" errors in
  let errors := push_if (opt_is_zero (max_estimated_prompt_tokens (admission g)))
    "gateway.admission.max_estimated_prompt_tokens must be greater than 0" errors in
  let errors := push_if (opt_is_zero (max_estimated_total_tokens (admission g)))
    "gateway.admission.max_estimated_total_tokens must be greater than 0" errors in
  let errors := push_if (retry_after_seconds (admission g) =? 0)
    "gateway.admission.retry_after_seconds must be greater than 0" errors in
  foldl validate_alias_entry errors (btree_items (model_aliases g)).

Definition validate_storage_config (s : StorageConfig) (errors : list string) : list string :=
  let errors := push_if (storage_enabled s && blank (database_url s))
    "storage.database_url must not be empty when storage is enabled" errors in
  push_if (storage_enabled s && (retention_days s =? 0))
    "storage.retention_days must be greater than 0 when storage is enabled" errors.

(** ["provider `<name>` <rest>"] *)
Definition prov_msg (p : ProviderConfig) (rest : string) : string :=
  ("provider `" ++ prov_name p ++ "` " ++ rest)%string.
Definition pool_msg (pool_name rest : string) : string :=
  ("model pool `" ++ pool_name ++ "` " ++ rest)%string.
Definition defined_twice (id : string) : string :=
  ("model pool public model ID `" ++ id ++ "` is defined more than once")%string.

Definition validate_provider_auth (p : ProviderConfig) (errors : list string) : list string :=
  match prov_kind p with
  | Mock => errors
  | OpenaiCompatible | Anthropic =>
      push_if (is_none_or (prov_api_key_env p) blank)
        (prov_msg p "api_key_env is required for real providers") errors
  end.

Definition validate_provider_retry (p : ProviderConfig) (g : GatewayConfig)
  (errors : list string) : list string :=
  let initial := default (initial_backoff_ms (retry g)) (retry_initial_backoff_ms p) in
  let max := default (max_backoff_ms (retry g)) (retry_max_backoff_ms p) in
  let errors := push_if (opt_is_zero (retry_initial_backoff_ms p))
    (prov_msg p "retry_initial_backoff_ms must be greater than 0") errors in
  let errors := push_if (opt_is_zero (retry_max_backoff_ms p))
    (prov_msg p "retry_max_backoff_ms must be greater than 0") errors in
  push_if (max <? initial)
    (prov_msg p "retry_max_backoff_ms must be greater than or equal to retry_initial_backoff_ms")
    errors.

Definition validate_provider_breaker (p : ProviderConfig) (g : GatewayConfig)
  (errors : list string) : list string :=
  let errors := push_if (opt_is_zero (circuit_breaker_failure_threshold p))
    (prov_msg p "circuit_breaker_failure_threshold must be greater than 0") errors in
  let errors := push_if (opt_is_zero (circuit_breaker_open_duration_ms p))
    (prov_msg p "circuit_breaker_open_duration_ms must be greater than 0") errors in
  let errors := push_if (opt_is_zero (circuit_breaker_half_open_max_probes p))
    (prov_msg p "circuit_breaker_half_open_max_probes must be greater than 0") errors in
  let threshold := default (failure_threshold (circuit_breaker g))
                     (circuit_breaker_failure_threshold p) in
  let open_duration := default (open_duration_ms (circuit_breaker g))
                         (circuit_breaker_open_duration_ms p) in
  let half_open_probes := default (half_open_max_probes (circuit_breaker g))
                            (circuit_breaker_half_open_max_probes p) in
  let errors := push_if (threshold =? 0)
    (prov_msg p "effective circuit breaker failure threshold must be greater than 0") errors in
  let errors := push_if (open_duration =? 0)
    (prov_msg p "effective circuit breaker open duration must be greater than 0") errors in
  push_if (half_open_probes =? 0)
    (prov_msg p "effective circuit breaker half-open probes must be greater than 0") errors.

(** *** Model pools *)

(** The [HashSet]s of the loop and the errors. *)
Record PoolScan := {
  seen_pool_names : gset string;
  seen_public_models : gset string;
  public_models : gset string;
  scan_errors : list string
}.

Definition set_errors (errors : list string) (s : PoolScan) : PoolScan :=
  {| seen_pool_names := seen_pool_names s; seen_public_models := seen_public_models s;
     public_models := public_models s; scan_errors := errors |}.

(** [if !seen_public_models.insert(id) { errors.push(..) }; public_models.insert(id)] *)
Definition claim_public_model (id : string) (s : PoolScan) : PoolScan :=
  {| seen_pool_names := seen_pool_names s;
     seen_public_models := {[ id ]} ∪ seen_public_models s;
     public_models := {[ id ]} ∪ public_models s;
     scan_errors := push_if (bool_decide (id ∈ seen_public_models s)) (defined_twice id)
                      (scan_errors s) |}.

(** One iteration of the loop over [pool.members]. *)
Definition validate_member (name : string) (provider_names : gset string)
  (errors : list string) (member : string) : list string :=
  let member_name := Str.trim member in
  if Str.is_empty member_name
  then errors ++ [pool_msg name "must not contain empty member names"]
  else push_if (bool_decide (member_name ∉ provider_names))
         (pool_msg name ("member `" ++ member_name ++ "` must reference a configured provider")%string)
         errors.

Definition conflict_model (id : string) : string :=
  ("conflicts with configured provider model `" ++ id ++ "`")%string.
Definition conflict_alias (id : string) : string :=
  ("conflicts with gateway.model_aliases key `" ++ id ++ "`")%string.

(** One iteration of the loop over [pool.aliases]. *)
Definition validate_pool_alias (name : string) (provider_models : gset string)
  (aliases : gmap string string) (s : PoolScan) (alias : string) : PoolScan :=
  let alias_name := Str.trim alias in
  if Str.is_empty alias_name
  then set_errors (scan_errors s ++ [pool_msg name "must not contain empty aliases"]) s
  else
    let errors := push_if (bool_decide (alias_name ∈ provider_models))
      (pool_msg name ("alias `" ++ alias_name ++ "` " ++ conflict_model alias_name)%string)
      (scan_errors s) in
    let errors := push_if (is_some (aliases !! alias_name))
      (pool_msg name ("alias `" ++ alias_name ++ "` " ++ conflict_alias alias_name)%string)
      errors in
    claim_public_model alias_name (set_errors errors s).

(** One iteration of the loop over the pools. *)
Definition validate_pool (provider_names provider_models : gset string)
  (aliases : gmap string string) (s : PoolScan) (pool : ModelPoolConfig) : PoolScan :=
  let name := Str.trim (pool_name pool) in
  if Str.is_empty name
  then set_errors (scan_errors s ++ ["model_pools entries must have a non-empty name"]) s
  else if bool_decide (name ∈ seen_pool_names s)
  then set_errors (scan_errors s ++ [("duplicate model pool name `" ++ name ++ "`")%string]) s
  else
    let errors := push_if (bool_decide (name ∈ provider_models))
      (pool_msg name (conflict_model name)) (scan_errors s) in
    let errors := push_if (is_some (aliases !! name))
      (pool_msg name (conflict_alias name)) errors in
    let s := claim_public_model name
      {| seen_pool_names := {[ name ]} ∪ seen_pool_names s;
         seen_public_models := seen_public_models s; public_models := public_models s;
         scan_errors := errors |} in
    let errors := push_if (match pool_members pool with [] => true | _ => false end)
      (pool_msg name "must include at least one member provider") (scan_errors s) in
    let errors := push_if (opt_is_zero (pool_max_in_flight pool))
      (pool_msg name "max_in_flight must be greater than 0") errors in
    let errors := foldl (validate_member name provider_names) errors (pool_members pool) in
    foldl (validate_pool_alias name provider_models aliases) (set_errors errors s)
      (pool_aliases pool).

Definition validate_model_pools (pools : list ModelPoolConfig)
  (provider_names provider_models : gset string) (aliases : gmap string string)
  (errors : list string) : PoolScan :=
  foldl (validate_pool provider_names provider_models aliases)
    {| seen_pool_names := ∅; seen_public_models := ∅; public_models := ∅;
       scan_errors := errors |} pools.

(** *** Providers *)

(** One iteration of the loop over the providers; the first component is the
    [HashSet] of names. *)
Definition validate_provider (g : GatewayConfig) (s : gset string * list string)
  (p : ProviderConfig) : gset string * list string :=
  let '(names, errors) := s in
  let '(names, errors) :=
    if blank (prov_name p) then (names, errors ++ ["provider name must not be empty"])
    else ({[ prov_name p ]} ∪ names,
          push_if (bool_decide (prov_name p ∈ names))
            ("duplicate provider name `" ++ prov_name p ++ "`")%string errors) in
  let errors := push_if (blank (prov_model p)) (prov_msg p "model must not be empty") errors in
  let errors := push_if (prov_priority p =? 0)
    (prov_msg p "priority must be greater than 0") errors in
  let errors := push_if (negb (in_unit_f64 (failure_rate p)))
    (prov_msg p "failure_rate must be between 0.0 and 1.0") errors in
  let errors := push_if (F64.ltb (cost_per_1k_input_tokens p) F64.zero)
    (prov_msg p "cost_per_1k_input_tokens must not be negative") errors in
  let errors := push_if (F64.ltb (cost_per_1k_output_tokens p) F64.zero)
    (prov_msg p "cost_per_1k_output_tokens must not be negative") errors in
  let errors := push_if (is_some_and (base_url p) blank)
    (prov_msg p "base_url must not be empty") errors in
  let errors := push_if (opt_is_zero (timeout_ms p))
    (prov_msg p "timeout_ms must be greater than 0") errors in
  let errors := push_if (opt_is_zero (prov_max_in_flight p))
    (prov_msg p "max_in_flight must be greater than 0") errors in
  let errors := validate_provider_auth p errors in
  let errors := validate_provider_retry p g errors in
  let errors := validate_provider_breaker p g errors in
  (names, errors).

(** One iteration of the loop over the alias targets. *)
Definition validate_alias_target (valid_targets : gset string) (errors : list string)
  (entry : string * string) : list string :=
  let target := entry.2 in
  push_if (negb (blank target) && bool_decide (target ∉ valid_targets))
    ("gateway.model_aliases target `" ++ target
       ++ "` must match a configured provider model or model pool")%string errors.

Definition validate_providers (ps : list ProviderConfig) (g : GatewayConfig)
  (pools : list ModelPoolConfig) (errors : list string) : list string :=
  let errors := push_if (match ps with [] => true | _ => false end)
    "at least one provider must be configured" errors in
  let provider_models : gset string := list_to_set (map prov_model ps) in
  let provider_names : gset string := list_to_set (map prov_name ps) in
  let scan := validate_model_pools pools provider_names provider_models (model_aliases g) errors in
  let valid_alias_targets := provider_models ∪ public_models scan in
  let errors := foldl (validate_alias_target valid_alias_targets) (scan_errors scan)
                  (btree_items (model_aliases g)) in
  (foldl (validate_provider g) (∅, errors) ps).2.

(** Every error of the configuration, in the order they are pushed. *)
Definition validation_errors (c : AppConfig) : list string :=
  let errors := push_if (port (server c) =? 0) "server.port must be greater than 0" [] in
  let errors := push_if (shutdown_grace_period_ms (server c) =? 0)
    "server.shutdown_grace_period_ms must be greater than 0" errors in
  let errors := validate_gateway_config (gateway c) errors in
  let errors := validate_telemetry_config (telemetry c) errors in
  let errors := validate_cache_config (cache c) errors in
  let errors := validate_storage_config (storage c) errors in
  validate_providers (providers c) (gateway c) (model_pools c) errors.

(** [AppConfig::validate] *)
Definition validate_config (c : AppConfig) : result unit ConfigError :=
  match validation_errors c with
  | [] => Ok tt
  | errors => Err (Validation (Str.join "; " errors))
  end.

(** Loading: [read_to_string] and [toml::from_str] are arguments, as is the
    environment. *)
Section Load.
Variable read_to_string : string -> result string string.
Variable from_str : string -> result AppConfig string.
Variable var : string -> option string.

Definition from_file (path : string) : result AppConfig ConfigError :=
  match read_to_string path with
  | Err e => Err (Read e)
  | Ok contents =>
      match from_str contents with
      | Err e => Err (Parse e)
      | Ok config => match validate_config config with Err e => Err e | Ok _ => Ok config end
      end
  end.

Definition from_env : result AppConfig ConfigError :=
  from_file (default "config/gateway.example.toml" (var "RUSTYGATE_CONFIG")).

(** Whatever is loaded has passed validation. *)
Lemma loaded_is_valid config : from_env = Ok config -> validate_config config = Ok tt.
Proof.
  unfold from_env, from_file. destruct (read_to_string _) as [contents|]; [|done]. destruct (from_str contents) as [c|]; [|done].
  destruct (validate_config c) as [[]|] eqn:E; [|done]. by intros [= <-].
Qed.

End Load.

(* ------------------------------------------------------------------ *)
(** ** What validation guarantees *)

Definition is_blank (s : string) : Prop := Str.trim s = "".
Definition unit_interval (x : F64.t) : Prop := F64.leb F64.zero x = true /\ F64.leb x F64.one = true.

(** The public model IDs of a pool, as validation reads them. *)
Definition pool_ids (pool : ModelPoolConfig) : list string :=
  Str.trim (pool_name pool) :: map Str.trim (pool_aliases pool).

Definition pool_ids_of (pools : list ModelPoolConfig) : list string := mbind pool_ids pools.

(** An ID that may name a pool: not blank, no provider model, no gateway alias. *)
Definition free_id (models : gset string) (aliases : gmap string string) (id : string) : Prop :=
  id <> "" /\ id ∉ models /\ aliases !! id = None.

Definition pool_valid (names models : gset string) (aliases : gmap string string)
  (pool : ModelPoolConfig) : Prop :=
  Forall (free_id models aliases) (pool_ids pool) /\
  pool_members pool <> [] /\ pool_max_in_flight pool <> Some 0 /\
  Forall (fun m => ~ is_blank m /\ Str.trim m ∈ names) (pool_members pool).

Definition gateway_retry_valid (g : GatewayConfig) : Prop :=
  initial_backoff_ms (retry g) <> 0 /\ max_backoff_ms (retry g) <> 0 /\
  initial_backoff_ms (retry g) <= max_backoff_ms (retry g).

(** A provider with the resilience settings in force for it. *)
Definition provider_valid (g : GatewayConfig) (p : ProviderConfig) : Prop :=
  ~ is_blank (prov_name p) /\ ~ is_blank (prov_model p) /\ prov_priority p <> 0 /\
  unit_interval (failure_rate p) /\
  F64.ltb (cost_per_1k_input_tokens p) F64.zero = false /\
  F64.ltb (cost_per_1k_output_tokens p) F64.zero = false /\
  (forall u, base_url p = Some u -> ~ is_blank u) /\
  timeout_ms p <> Some 0 /\ prov_max_in_flight p <> Some 0 /\
  (prov_kind p <> Mock -> exists k, prov_api_key_env p = Some k /\ ~ is_blank k) /\
  retry_initial_backoff_ms p <> Some 0 /\ retry_max_backoff_ms p <> Some 0 /\
  default (initial_backoff_ms (retry g)) (retry_initial_backoff_ms p)
    <= default (max_backoff_ms (retry g)) (retry_max_backoff_ms p) /\
  default (failure_threshold (circuit_breaker g)) (circuit_breaker_failure_threshold p) <> 0 /\
  default (open_duration_ms (circuit_breaker g)) (circuit_breaker_open_duration_ms p) <> 0 /\
  default (half_open_max_probes (circuit_breaker g)) (circuit_breaker_half_open_max_probes p) <> 0.

Definition providers_valid (c : AppConfig) : Prop :=
  let models : gset string := list_to_set (map prov_model (providers c)) in
  let names : gset string := list_to_set (map prov_name (providers c)) in
  providers c <> [] /\ NoDup (map prov_name (providers c)) /\
  Forall (provider_valid (gateway c)) (providers c) /\
  NoDup (pool_ids_of (model_pools c)) /\
  Forall (pool_valid names models (model_aliases (gateway c))) (model_pools c) /\
  (forall alias target, model_aliases (gateway c) !! alias = Some target ->
     is_blank target \/ target ∈ models \/ target ∈ pool_ids_of (model_pools c)).

Definition server_valid (s : ServerConfig) : Prop :=
  port s <> 0 /\ shutdown_grace_period_ms s <> 0.

Definition telemetry_valid (t : TelemetryConfig) : Prop :=
  ~ is_blank (service_name t) /\ unit_interval (sample_ratio t) /\
  (forall e, otlp_endpoint t = Some e -> ~ is_blank e).

Definition cache_valid (c : CacheConfig) : Prop :=
  (cache_enabled c = true -> default_ttl_seconds c <> 0 /\ cache_max_entries c <> 0) /\
  (semantic_enabled (semantic c) = true ->
     embedding_provider (semantic c) <> None /\ index_capacity (semantic c) <> 0) /\
  in_unit_f32 (similarity_threshold (semantic c)) = true.

Definition storage_valid (s : StorageConfig) : Prop :=
  storage_enabled s = true -> ~ is_blank (database_url s) /\ retention_days s <> 0.

Definition rate_limit_valid (r : RateLimitConfig) : Prop :=
  global_requests_per_minute r <> 0 /\ global_burst_size r <> 0 /\
  per_key_requests_per_minute r <> 0 /\ per_key_burst_size r <> 0 /\ max_tracked_keys r <> 0 /\
  (rate_limit_backend r = Redis -> exists e, redis_url_env r = Some e /\ ~ is_blank e).

Definition admission_valid (a : AdmissionConfig) : Prop :=
  max_global_in_flight a <> Some 0 /\ max_estimated_prompt_tokens a <> Some 0 /\
  max_estimated_total_tokens a <> Some 0 /\ retry_after_seconds a <> 0.

Definition gateway_valid (g : GatewayConfig) : Prop :=
  (default_timeout_ms g <> 0 /\ stream_idle_timeout_ms g <> 0 /\ health_check_interval_ms g <> 0 /\
   ~ is_blank (api_key_env g)) /\
  gateway_retry_valid g /\
  (failure_threshold (circuit_breaker g) <> 0 /\ open_duration_ms (circuit_breaker g) <> 0 /\
   half_open_max_probes (circuit_breaker g) <> 0) /\
  rate_limit_valid (rate_limit g) /\
  (max_chat_body_bytes (request_limits g) <> 0 /\ limit_messages_per_request (request_limits g) <> 0 /\
   limit_message_content_chars (request_limits g) <> 0) /\
  (ttl_seconds (prefix_affinity g) <> 0 /\ affinity_max_entries (prefix_affinity g) <> 0 /\
   (fallback_policy (prefix_affinity g) = Priority \/ fallback_policy (prefix_affinity g) = Latency)) /\
  admission_valid (admission g) /\
  (forall alias target, model_aliases g !! alias = Some target ->
     ~ is_blank alias /\ ~ is_blank target).

(** *** Reflection of the individual tests *)

Lemma push_if_nil b m errors : push_if b m errors = [] <-> b = false /\ errors = [].
Proof. destruct b, errors; simpl; naive_solver. Qed.

Lemma app_one_nil (errors : list string) m : errors ++ [m] = [] <-> False.
Proof. by destruct errors. Qed.

Lemma blank_false s : blank s = false <-> ~ is_blank s.
Proof. unfold blank, is_blank. by destruct (Str.trim s). Qed.

Lemma blank_true s : blank s = true <-> is_blank s.
Proof. unfold blank, is_blank. by destruct (Str.trim s). Qed.

Lemma opt_is_zero_false o : opt_is_zero o = false <-> o <> Some 0.
Proof. destruct o as [n|]; simpl; [|done]. rewrite Z.eqb_neq. naive_solver. Qed.

Lemma unit_reflect x : negb (in_unit_f64 x) = false <-> unit_interval x.
Proof. unfold in_unit_f64, unit_interval. by rewrite negb_false_iff, andb_true_iff. Qed.

Lemma is_some_false {A} (o : option A) : is_some o = false <-> o = None.
Proof. by destruct o. Qed.

Lemma is_empty_iff s : Str.is_empty s = true <-> s = "".
Proof. by destruct s. Qed.

(** *** The provider loop *)

Lemma validate_provider_auth_nil p errors :
  validate_provider_auth p errors = [] <->
  (prov_kind p <> Mock -> exists k, prov_api_key_env p = Some k /\ ~ is_blank k) /\ errors = [].
Proof.
  unfold validate_provider_auth. destruct (prov_kind p); [naive_solver|..];
    rewrite push_if_nil; destruct (prov_api_key_env p) as [k|]; simpl;
    try rewrite blank_false; naive_solver.
Qed.

Lemma validate_provider_retry_nil p g errors :
  validate_provider_retry p g errors = [] <->
  (retry_initial_backoff_ms p <> Some 0 /\ retry_max_backoff_ms p <> Some 0 /\
   default (initial_backoff_ms (retry g)) (retry_initial_backoff_ms p)
     <= default (max_backoff_ms (retry g)) (retry_max_backoff_ms p)) /\ errors = [].
Proof.
  unfold validate_provider_retry. rewrite !push_if_nil, !opt_is_zero_false, Z.ltb_ge. naive_solver.
Qed.

Lemma default_zero o d : default d o <> 0 -> o <> Some 0.
Proof. by destruct o as [n|]; simpl; [intros ? [= ->]|]. Qed.

Lemma validate_provider_breaker_nil p g errors :
  validate_provider_breaker p g errors = [] <->
  (default (failure_threshold (circuit_breaker g)) (circuit_breaker_failure_threshold p) <> 0 /\
   default (open_duration_ms (circuit_breaker g)) (circuit_breaker_open_duration_ms p) <> 0 /\
   default (half_open_max_probes (circuit_breaker g)) (circuit_breaker_half_open_max_probes p) <> 0)
  /\ errors = [].
Proof.
  unfold validate_provider_breaker. rewrite !push_if_nil, !opt_is_zero_false, !Z.eqb_neq.
  pose proof default_zero. naive_solver.
Qed.

Lemma base_url_ok o : is_some_and o blank = false <-> (forall u, o = Some u -> ~ is_blank u).
Proof. destruct o as [u|]; simpl; [rewrite blank_false|]; naive_solver. Qed.

Lemma validate_provider_nil g names errors p :
  (validate_provider g (names, errors) p).2 = [] <->
  provider_valid g p /\ prov_name p ∉ names /\ errors = [].
Proof.
  unfold validate_provider, provider_valid.
  destruct (blank (prov_name p)) eqn:Eb; cbn [snd].
  all: rewrite validate_provider_breaker_nil, validate_provider_retry_nil,
    validate_provider_auth_nil, !push_if_nil, blank_false, !opt_is_zero_false, base_url_ok,
    unit_reflect, Z.eqb_neq.
  - rewrite app_one_nil. apply blank_true in Eb. tauto.
  - rewrite bool_decide_eq_false. apply blank_false in Eb. tauto.
Qed.

Lemma validate_provider_names g names p errors :
  (validate_provider g (names, errors) p).2 = [] ->
  (validate_provider g (names, errors) p).1 = {[ prov_name p ]} ∪ names.
Proof.
  rewrite validate_provider_nil. intros [[Hn _] _]. unfold validate_provider.
  by apply blank_false in Hn as ->.
Qed.

Lemma validate_provider_fold g ps names errors :
  (foldl (validate_provider g) (names, errors) ps).2 = [] <->
  errors = [] /\ Forall (provider_valid g) ps /\ NoDup (map prov_name ps) /\
  Forall (fun p => prov_name p ∉ names) ps.
Proof.
  revert names errors. induction ps as [|p ps IH]; intros names errors; cbn [foldl map].
  { simpl. split; [intros ->; repeat constructor|naive_solver]. }
  destruct (validate_provider g (names, errors) p) as [names' errors'] eqn:E.
  rewrite IH, !Forall_cons, NoDup_cons.
  pose proof (validate_provider_nil g names errors p) as Hnil.
  pose proof (validate_provider_names g names p errors) as Hnames.
  rewrite E in Hnil, Hnames. cbn [fst snd] in *.
  assert (forall q, Forall (fun p' => prov_name p' ∉ {[prov_name q]} ∪ names) ps <->
    prov_name q ∉ map prov_name ps /\ Forall (fun p' => prov_name p' ∉ names) ps) as Hsplit.
  { intros q. rewrite !Forall_forall, list_elem_of_fmap. set_solver. }
  split.
  - intros (He & Hv & Hnd & Hall). apply Hnil in He as Hp.
    rewrite (Hnames He), Hsplit in Hall. naive_solver.
  - intros (He & (Hp & Hv) & (Hni & Hnd) & Hn & Hall).
    assert (errors' = []) as He' by by apply Hnil.
    rewrite (Hnames He'), Hsplit. done.
Qed.

(** *** The pool loop *)

Lemma validate_member_fold name names errors ms :
  foldl (validate_member name names) errors ms = [] <->
  errors = [] /\ Forall (fun m => ~ is_blank m /\ Str.trim m ∈ names) ms.
Proof.
  revert errors. induction ms as [|m ms IH]; intros errors; simpl; [naive_solver|].
  rewrite IH, Forall_cons. unfold validate_member, is_blank.
  destruct (Str.is_empty (Str.trim m)) eqn:E.
  - apply is_empty_iff in E. rewrite app_one_nil. naive_solver.
  - assert (Str.trim m <> "") by by destruct (Str.trim m).
    rewrite push_if_nil, bool_decide_eq_false.
    destruct (decide (Str.trim m ∈ names)); naive_solver.
Qed.

Lemma fresh_union (ids l : list string) (X : gset string) :
  Forall (fun id => id ∉ list_to_set ids ∪ X) l <->
  (forall x, x ∈ ids -> x ∉ l) /\ Forall (fun id => id ∉ X) l.
Proof. rewrite !Forall_forall. set_solver. Qed.

(** The sets of the scan after claiming [ids]. *)
Definition claimed (ids : list string) (s s' : PoolScan) : Prop :=
  seen_pool_names s' = seen_pool_names s /\
  seen_public_models s' = list_to_set ids ∪ seen_public_models s /\
  public_models s' = list_to_set ids ∪ public_models s.

Lemma validate_pool_alias_nil name models aliases s a :
  let s' := validate_pool_alias name models aliases s a in
  (scan_errors s' = [] <->
   scan_errors s = [] /\ free_id models aliases (Str.trim a) /\
   Str.trim a ∉ seen_public_models s) /\
  (scan_errors s' = [] -> claimed [Str.trim a] s s').
Proof.
  unfold validate_pool_alias, free_id, claimed. destruct (Str.is_empty (Str.trim a)) eqn:E; simpl.
  - apply is_empty_iff in E. rewrite app_one_nil. naive_solver.
  - assert (Str.trim a <> "") by by destruct (Str.trim a).
    rewrite !push_if_nil, !bool_decide_eq_false, is_some_false.
    split; [tauto|]. intros _. split_and!; [done|set_solver..].
Qed.

Lemma validate_pool_alias_fold name models aliases s al :
  let s' := foldl (validate_pool_alias name models aliases) s al in
  (scan_errors s' = [] <->
   scan_errors s = [] /\ Forall (free_id models aliases) (map Str.trim al) /\
   NoDup (map Str.trim al) /\ Forall (fun id => id ∉ seen_public_models s) (map Str.trim al)) /\
  (scan_errors s' = [] -> claimed (map Str.trim al) s s').
Proof.
  revert s. induction al as [|a al IH]; intros s; simpl.
  { split; [split; [intros ->; repeat constructor|naive_solver]|].
    intros _. split_and!; [done|set_solver..]. }
  destruct (validate_pool_alias_nil name models aliases s a) as [Hnil Hset].
  set (s1 := validate_pool_alias name models aliases s a) in *.
  destruct (IH s1) as [IHnil IHset]. rewrite !Forall_cons, NoDup_cons.
  assert (claimed [Str.trim a] s s1 ->
    (Forall (fun id => id ∉ seen_public_models s1) (map Str.trim al) <->
     Str.trim a ∉ map Str.trim al /\
     Forall (fun id => id ∉ seen_public_models s) (map Str.trim al))) as Hsplit.
  { intros (_ & -> & _). rewrite !Forall_forall. set_solver. }
  split; [split|].
  - intros H. apply IHnil in H as (H1 & H2 & H3 & H4). apply Hset in H1 as Hc.
    apply Hnil in H1. apply Hsplit in H4; [|done]. tauto.
  - intros (H1 & (H2 & H3) & (H4 & H5) & H6 & H7).
    assert (scan_errors s1 = []) as H1' by by apply Hnil.
    apply IHnil. rewrite Hsplit by by apply Hset. tauto.
  - intros H. apply IHnil in H as H'. destruct H' as (H1 & _).
    destruct (Hset H1) as (Ha & Hb & Hc). destruct (IHset H) as (Ha' & Hb' & Hc').
    split_and!; [by rewrite Ha', Ha|rewrite Hb', Hb; set_solver|rewrite Hc', Hc; set_solver].
Qed.

(** The scan before a pool: pool names seen are public models seen. *)
Definition names_are_public (s : PoolScan) : Prop := seen_pool_names s ⊆ seen_public_models s.

(** What a pool without errors leaves behind. *)
Definition pool_claimed (pool : ModelPoolConfig) (s s' : PoolScan) : Prop :=
  seen_pool_names s' = {[ Str.trim (pool_name pool) ]} ∪ seen_pool_names s /\
  seen_public_models s' = list_to_set (pool_ids pool) ∪ seen_public_models s /\
  public_models s' = list_to_set (pool_ids pool) ∪ public_models s.

Lemma validate_pool_nil names models aliases s pool :
  names_are_public s ->
  let s' := validate_pool names models aliases s pool in
  (scan_errors s' = [] <->
   scan_errors s = [] /\ pool_valid names models aliases pool /\ NoDup (pool_ids pool) /\
   Forall (fun id => id ∉ seen_public_models s) (pool_ids pool)) /\
  (scan_errors s' = [] -> pool_claimed pool s s').
Proof.
  intros Hpub. unfold validate_pool, pool_valid, pool_claimed, pool_ids, free_id at 1.
  destruct (Str.is_empty (Str.trim (pool_name pool))) eqn:E.
  { apply is_empty_iff in E. simpl. rewrite app_one_nil, Forall_cons. naive_solver. }
  assert (Str.trim (pool_name pool) <> "") by by destruct (Str.trim (pool_name pool)).
  destruct (bool_decide_reflect (Str.trim (pool_name pool) ∈ seen_pool_names s)) as [Hin|Hnin].
  { simpl. rewrite app_one_nil, !Forall_cons. unfold names_are_public in Hpub. set_solver. }
  set (al := map Str.trim (pool_aliases pool)).
  match goal with |- context [foldl _ ?s0 (pool_aliases pool)] => set (s1 := s0) end.
  destruct (validate_pool_alias_fold (Str.trim (pool_name pool)) models aliases s1
    (pool_aliases pool)) as [Hnil Hset].
  cbv zeta. fold al in Hnil, Hset.
  assert (Forall (fun id => id ∉ seen_public_models s1) al <->
    Str.trim (pool_name pool) ∉ al /\ Forall (fun id => id ∉ seen_public_models s) al) as Hsplit.
  { simpl. rewrite !Forall_forall. set_solver. }
  split.
  - rewrite Hnil, Hsplit. subst s1. cbn [scan_errors set_errors claim_public_model].
    rewrite validate_member_fold, !push_if_nil, opt_is_zero_false, !bool_decide_eq_false, is_some_false, !Forall_cons, NoDup_cons.
    assert ((match pool_members pool with [] => true | _ => false end = false) <->
      pool_members pool <> []) as -> by by destruct (pool_members pool).
    cbn [seen_public_models]. fold (free_id models aliases). unfold free_id. tauto.
  - intros H1. destruct (Hset H1) as (Ha & Hb & Hc). rewrite Ha, Hb, Hc. simpl.
    split_and!; [done|set_solver..].
Qed.

Lemma validate_pools_mono names models aliases s pools :
  scan_errors s <> [] -> scan_errors (foldl (validate_pool names models aliases) s pools) <> [].
Proof.
  revert s. induction pools as [|q pools IHp]; intros s H; cbn [foldl]; [done|].
  apply IHp. unfold validate_pool. intros Hc.
  destruct (Str.is_empty _); [by apply app_one_nil in Hc|].
  destruct (bool_decide (_ ∈ seen_pool_names s)); [by apply app_one_nil in Hc|].
  apply (proj1 (validate_pool_alias_fold _ _ _ _ _)) in Hc as [Hc _]. cbn [scan_errors set_errors claim_public_model] in Hc.
  rewrite validate_member_fold, !push_if_nil in Hc. naive_solver.
Qed.

Lemma validate_pools_fold names models aliases s pools :
  names_are_public s ->
  let s' := foldl (validate_pool names models aliases) s pools in
  (scan_errors s' = [] <->
   scan_errors s = [] /\ Forall (pool_valid names models aliases) pools /\
   NoDup (pool_ids_of pools) /\
   Forall (fun id => id ∉ seen_public_models s) (pool_ids_of pools)) /\
  (scan_errors s' = [] -> public_models s' = list_to_set (pool_ids_of pools) ∪ public_models s).
Proof.
  revert s. induction pools as [|pool pools IH]; intros s Hpub; cbn [foldl].
  { unfold pool_ids_of. simpl. split; [split; [intros ->; repeat constructor|naive_solver]|set_solver]. }
  destruct (validate_pool_nil names models aliases s pool Hpub) as [Hnil Hset].
  set (s1 := validate_pool names models aliases s pool) in *.
  assert (scan_errors s1 = [] -> names_are_public s1) as Hpub1.
  { intros H. destruct (Hset H) as (H1 & H2 & _). unfold names_are_public in *. rewrite H1, H2.
    unfold pool_ids. set_solver. }
  pose proof (validate_pools_mono names models aliases s1 pools) as Hmono.
  cbn [pool_ids_of mbind list_bind]. fold (pool_ids_of pools).
  rewrite Forall_cons, NoDup_app, Forall_app.
  destruct (decide (scan_errors s1 = [])) as [He|He].
  2:{ split; [|naive_solver]. split; [naive_solver|]. intros (H1 & (H2 & _) & (H3 & _) & H4 & _).
      by destruct He; apply Hnil. }
  destruct (IH s1 (Hpub1 He)) as [IHnil IHset]. apply Hnil in He as Hp. destruct (Hset He) as (_ & Hb & Hc).
  assert (Forall (fun id => id ∉ seen_public_models s1) (pool_ids_of pools) <->
    (forall x, x ∈ pool_ids pool -> x ∉ pool_ids_of pools) /\
    Forall (fun id => id ∉ seen_public_models s) (pool_ids_of pools)) as Hsplit.
  { rewrite Hb. apply fresh_union. }
  split.
  - rewrite IHnil, Hsplit. tauto.
  - intros H. rewrite (IHset H), Hc, list_to_set_app_L. by rewrite assoc_L, (comm_L (∪) (list_to_set (pool_ids pool))) by apply _.
Qed.

(** *** Aliases and the gateway section *)

Lemma elem_of_btree_items {V} (m : gmap string V) k v : (k, v) ∈ btree_items m <-> m !! k = Some v.
Proof. unfold btree_items. by rewrite sort_by_elem_of, elem_of_map_to_list. Qed.

Lemma Forall_btree_items {V} (m : gmap string V) (P : string * V -> Prop) :
  Forall P (btree_items m) <-> (forall k v, m !! k = Some v -> P (k, v)).
Proof.
  rewrite Forall_forall. setoid_rewrite <-elem_of_btree_items. split; [naive_solver|].
  intros H [k v]. apply H.
Qed.

Lemma foldl_push_nil {A} (f : list string -> A -> list string) (P : A -> Prop) l errors :
  (forall errors x, f errors x = [] <-> P x /\ errors = []) ->
  foldl f errors l = [] <-> Forall P l /\ errors = [].
Proof.
  intros Hf. revert errors. induction l as [|x l IH]; intros errors; simpl; [naive_solver|].
  rewrite IH, Hf, Forall_cons. tauto.
Qed.

Lemma alias_entries_nil g errors :
  foldl validate_alias_entry errors (btree_items (model_aliases g)) = [] <->
  (forall alias target, model_aliases g !! alias = Some target ->
     ~ is_blank alias /\ ~ is_blank target) /\ errors = [].
Proof.
  rewrite (foldl_push_nil _ (fun e => ~ is_blank e.1 /\ ~ is_blank e.2)).
  - by rewrite Forall_btree_items.
  - intros es [a t]. simpl. rewrite !push_if_nil, !blank_false. tauto.
Qed.

Lemma alias_targets_nil g (valid : gset string) errors :
  foldl (validate_alias_target valid) errors (btree_items (model_aliases g)) = [] <->
  (forall alias target, model_aliases g !! alias = Some target ->
     is_blank target \/ target ∈ valid) /\ errors = [].
Proof.
  rewrite (foldl_push_nil _ (fun e => is_blank e.2 \/ e.2 ∈ valid)).
  - by rewrite Forall_btree_items.
  - intros es [a t]. unfold validate_alias_target. simpl.
    rewrite push_if_nil, andb_false_iff, negb_false_iff, blank_true, bool_decide_eq_false.
    destruct (decide (t ∈ valid)); tauto.
Qed.

Lemma redis_url_ok r :
  is_redis (rate_limit_backend r) && blank (default "" (redis_url_env r)) = false <->
  (rate_limit_backend r = Redis -> exists e, redis_url_env r = Some e /\ ~ is_blank e).
Proof.
  rewrite andb_false_iff, blank_false. destruct (rate_limit_backend r); simpl; [naive_solver|].
  destruct (redis_url_env r) as [e|]; simpl; [naive_solver|]. split.
  - intros [?|H]; [done|]. by destruct H.
  - intros H. by destruct (H eq_refl) as (? & ? & ?).
Qed.

Lemma fallback_policy_ok p : bad_fallback_policy p = false <-> p = Priority \/ p = Latency.
Proof. destruct p; naive_solver. Qed.

Lemma validate_gateway_config_nil g errors :
  validate_gateway_config g errors = [] <-> gateway_valid g /\ errors = [].
Proof.
  unfold validate_gateway_config, gateway_valid, gateway_retry_valid, rate_limit_valid, admission_valid.
  rewrite alias_entries_nil, !push_if_nil, !Z.eqb_neq, blank_false, Z.ltb_ge, !opt_is_zero_false,
    redis_url_ok, fallback_policy_ok. tauto.
Qed.

Lemma validate_cache_config_nil c errors :
  validate_cache_config c errors = [] <-> cache_valid c /\ errors = [].
Proof.
  unfold validate_cache_config, cache_valid. rewrite !push_if_nil, negb_false_iff.
  destruct (cache_enabled c), (semantic_enabled (semantic c)), (embedding_provider (semantic c));
    simpl; rewrite ?Z.eqb_neq; naive_solver.
Qed.

Lemma validate_telemetry_config_nil t errors :
  validate_telemetry_config t errors = [] <-> telemetry_valid t /\ errors = [].
Proof.
  unfold validate_telemetry_config, telemetry_valid.
  rewrite !push_if_nil, blank_false, unit_reflect, base_url_ok. tauto.
Qed.

Lemma validate_storage_config_nil s errors :
  validate_storage_config s errors = [] <-> storage_valid s /\ errors = [].
Proof.
  unfold validate_storage_config, storage_valid. rewrite !push_if_nil.
  destruct (storage_enabled s); simpl.
  - rewrite blank_false, Z.eqb_neq. split; [tauto|]. intros [H ->]. by destruct (H eq_refl).
  - split; [by intros (_ & _ & ->)|by intros [_ ->]].
Qed.

Lemma validate_providers_nil c errors :
  validate_providers (providers c) (gateway c) (model_pools c) errors = [] <->
  providers_valid c /\ errors = [].
Proof.
  unfold validate_providers, providers_valid, validate_model_pools.
  set (models := list_to_set (map prov_model (providers c)) : gset string).
  set (names := list_to_set (map prov_name (providers c)) : gset string).
  match goal with |- context [foldl (validate_pool _ _ _) ?s0 _] => set (s := s0) end.
  destruct (validate_pools_fold names models (model_aliases (gateway c)) s (model_pools c))
    as [Hnil Hset]; [done|].
  rewrite validate_provider_fold, alias_targets_nil.
  assert (Forall (fun p => prov_name p ∉ (∅ : gset string)) (providers c)) by
    (apply Forall_forall; intros; apply not_elem_of_empty).
  assert (scan_errors s = [] <-> providers c <> [] /\ errors = []) as Hs.
  { subst s. simpl. rewrite push_if_nil. clear. destruct (providers c); naive_solver. }
  assert (Forall (fun id => id ∉ seen_public_models s) (pool_ids_of (model_pools c))) by
    (apply Forall_forall; intros; apply not_elem_of_empty).
  assert (scan_errors (foldl (validate_pool names models (model_aliases (gateway c))) s (model_pools c)) = [] ->
    forall t, t ∈ models ∪ public_models
        (foldl (validate_pool names models (model_aliases (gateway c))) s (model_pools c)) <->
      t ∈ models \/ t ∈ pool_ids_of (model_pools c)) as Hin.
  { intros He t. rewrite (Hset He), !elem_of_union, elem_of_list_to_set. set_solver. }
  split.
  - intros ((Ht & He) & Hv & Hnd & _). setoid_rewrite (Hin He) in Ht.
    apply Hnil in He as (He & Hp & Hn & _). apply Hs in He. tauto.
  - intros ((Hne & Hnd & Hv & Hn & Hp & Ht) & He).
    assert (scan_errors (foldl (validate_pool names models (model_aliases (gateway c))) s (model_pools c)) = [])
      as Hscan by (apply Hnil; tauto).
    setoid_rewrite (Hin Hscan). tauto.
Qed.

Lemma validation_errors_nil c :
  validation_errors c = [] <->
  server_valid (server c) /\ gateway_valid (gateway c) /\ telemetry_valid (telemetry c) /\
  cache_valid (cache c) /\ storage_valid (storage c) /\ providers_valid c.
Proof.
  unfold validation_errors, server_valid.
  rewrite validate_providers_nil, validate_storage_config_nil, validate_cache_config_nil,
    validate_telemetry_config_nil, validate_gateway_config_nil, !push_if_nil, !Z.eqb_neq. tauto.
Qed.

Lemma validate_config_ok c : validate_config c = Ok tt <-> validation_errors c = [].
Proof. unfold validate_config. by destruct (validation_errors c). Qed.

Lemma validate_config_ok_providers c : validate_config c = Ok tt -> providers_valid c.
Proof. rewrite validate_config_ok, validation_errors_nil. tauto. Qed.

Lemma validate_config_ok_gateway c : validate_config c = Ok tt -> gateway_valid (gateway c).
Proof. rewrite validate_config_ok, validation_errors_nil. tauto. Qed.

(** ** A concrete configuration: one mock provider behind one pool *)

Definition example_provider : ProviderConfig :=
  {| prov_name := "mock"; prov_kind := Mock; prov_model := "mock-model"; prov_priority := 1;
     failure_rate := default_failure_rate; base_latency_ms := 0; base_url := None;
     prov_api_key_env := None; timeout_ms := None; prov_max_retries := None;
     retry_initial_backoff_ms := None; retry_max_backoff_ms := None; retry_jitter_ms := None;
     circuit_breaker_failure_threshold := None; circuit_breaker_open_duration_ms := None;
     circuit_breaker_half_open_max_probes := None; prov_max_in_flight := None;
     cost_per_1k_input_tokens := F64.zero; cost_per_1k_output_tokens := F64.zero |}.

Definition example_gateway : GatewayConfig :=
  {| default_timeout_ms := 30000; stream_idle_timeout_ms := default_stream_idle_timeout_ms;
     max_retries := 2; health_check_interval_ms := default_health_check_interval_ms;
     routing_policy := RoutingPolicy_default; prefix_affinity := PrefixAffinityConfig_default;
     route_exposure := RouteExposureConfig_default; model_aliases := {[ "fast" := "team-pool" ]};
     retry := GatewayRetryConfig_default; circuit_breaker := GatewayCircuitBreakerConfig_default;
     enable_request_logging := true; log_prompt_content := false;
     api_key_env := "RUSTYGATE_API_KEY"; rate_limit := RateLimitConfig_default;
     request_limits := RequestLimitsConfig_default; admission := AdmissionConfig_default |}.

Definition example_config (members : list string) : AppConfig :=
  {| server := {| host := V4 2130706433; port := 8080;
                  shutdown_grace_period_ms := default_shutdown_grace_period_ms |};
     gateway := example_gateway; telemetry := TelemetryConfig_default;
     cache := CacheConfig_default; storage := StorageConfig_default;
     providers := [example_provider];
     model_pools := [{| pool_name := "team-pool"; pool_aliases := ["team"];
                        pool_routing_policy := Some Latency; pool_members := members;
                        pool_max_in_flight := None |}] |}.

(** ** Properties *)

(** C32: validation accepts a configuration exactly when every section is
    valid: all limits, timeouts and thresholds non-zero, backoffs ordered,
    providers present with distinct non-blank names and an effective breaker
    policy, pool IDs globally distinct, pool members configured, and alias
    targets resolvable; one violated condition anywhere rejects it. *)
Theorem validate_config_accepts_iff c :
  validate_config c = Ok tt <->
  server_valid (server c) /\ gateway_valid (gateway c) /\ telemetry_valid (telemetry c) /\
  cache_valid (cache c) /\ storage_valid (storage c) /\ providers_valid c.
Proof. by rewrite validate_config_ok, validation_errors_nil. Qed.

End Config.
