(* ===== verification/ModelPools.v ===== *)
(** * Model pools (src/src/routing/model_pools.rs)

    A pool groups providers behind one or more public model IDs.  The index is
    built from the configuration and answers by public model ID. *)
From S2P Require Import Prelude Str F64 Config.

Open Scope string_scope.
Open Scope list_scope.
Open Scope Z_scope.

Module ModelPools.
Import Config.

Record ModelPool := {
  name : string;
  public_ids : list string;
  policy : option RoutingPolicy;
  members : gset string
}.

Record ModelPoolIndex := {
  pools_by_name : gmap string ModelPool;
  pool_by_public_model_id : gmap string string
}.

Definition ModelPoolIndex_default : ModelPoolIndex :=
  {| pools_by_name := ∅; pool_by_public_model_id := ∅ |}.

(** [Vec::dedup]: drop repetitions of the previous element kept. *)
Fixpoint dedup_from (last : string) (l : list string) : list string :=
  match l with
  | [] => []
  | x :: l' => if String.eqb last x then dedup_from last l' else x :: dedup_from x l'
  end.
Definition dedup (l : list string) : list string :=
  match l with [] => [] | x :: l' => x :: dedup_from x l' end.

(** The public IDs of one configured pool: its name and its other aliases,
    sorted and without repetitions. *)
Definition public_model_ids_of (config : ModelPoolConfig) : list string :=
  dedup (sort_by String.compare
    (pool_name config :: filter (fun alias => alias <> pool_name config) (pool_aliases config))).

(** One iteration of the loop over the configurations. *)
Definition add_config (idx : ModelPoolIndex) (config : ModelPoolConfig) : ModelPoolIndex :=
  let public_model_ids := public_model_ids_of config in
  let pool := {| name := pool_name config; public_ids := public_model_ids;
                 policy := pool_routing_policy config;
                 members := list_to_set (pool_members config) |} in
  {| pools_by_name := <[ pool_name config := pool ]> (pools_by_name idx);
     pool_by_public_model_id :=
       foldl (fun m id => <[ id := pool_name config ]> m) (pool_by_public_model_id idx)
         public_model_ids |}.

Definition from_configs (configs : list ModelPoolConfig) : ModelPoolIndex :=
  foldl add_config ModelPoolIndex_default configs.

Definition pool_for_public_model (idx : ModelPoolIndex) (model : string) : option ModelPool :=
  match pool_by_public_model_id idx !! model with
  | Some pool_name => pools_by_name idx !! pool_name
  | None => None
  end.

Definition members_for_public_model (idx : ModelPoolIndex) (model : string) :
  option (gset string) := members <$> pool_for_public_model idx model.

(** The members as a sorted vector. *)
Definition providers_for_model_id (idx : ModelPoolIndex) (model : string) :
  option (list string) :=
  (fun ms => sort_by String.compare (elements ms)) <$> members_for_public_model idx model.

Definition public_model_ids (idx : ModelPoolIndex) : list string :=
  map fst (btree_items (pool_by_public_model_id idx)).

Definition is_provider_in_any_pool (idx : ModelPoolIndex) (provider_name : string) : bool :=
  existsb (fun entry => bool_decide (provider_name ∈ members entry.2))
    (btree_items (pools_by_name idx)).

Definition is_empty (idx : ModelPoolIndex) : bool := bool_decide (pools_by_name idx = ∅).

(* ------------------------------------------------------------------ *)
(** ** Lemmas *)

(** The public IDs as written in the configuration. *)
Definition raw_ids (config : ModelPoolConfig) : list string :=
  pool_name config :: pool_aliases config.

(** A configured pool as the index stores it. *)
Definition stored (config : ModelPoolConfig) : ModelPool :=
  {| name := pool_name config; public_ids := public_model_ids_of config;
     policy := pool_routing_policy config; members := list_to_set (pool_members config) |}.

Lemma dedup_from_elem last l x : x ∈ dedup_from last l \/ x = last <-> x ∈ l \/ x = last.
Proof.
  revert last. induction l as [|y l IH]; intros last; simpl; [done|].
  destruct (String.eqb_spec last y) as [->|Hne].
  - rewrite IH. set_solver.
  - specialize (IH y). set_solver.
Qed.

Lemma dedup_elem l x : x ∈ dedup l <-> x ∈ l.
Proof.
  destruct l as [|y l]; simpl; [done|]. rewrite !elem_of_cons.
  pose proof (dedup_from_elem y l x). tauto.
Qed.

Lemma public_model_ids_of_elem config id :
  id ∈ public_model_ids_of config <-> id ∈ raw_ids config.
Proof.
  unfold public_model_ids_of, raw_ids. rewrite dedup_elem, sort_by_elem_of, !elem_of_cons.
  rewrite list_elem_of_filter. destruct (decide (id = pool_name config)); tauto.
Qed.

Lemma insert_ids_lookup (m : gmap string string) ids v id :
  foldl (fun m i => <[ i := v ]> m) m ids !! id =
  if bool_decide (id ∈ ids) then Some v else m !! id.
Proof.
  revert m. induction ids as [|i ids IH]; intros m; simpl; [done|]. rewrite IH.
  destruct (decide (id = i)) as [->|Hne].
  - rewrite lookup_insert_eq, (bool_decide_eq_true_2 (i ∈ i :: ids)) by set_solver. by case_bool_decide.
  - rewrite lookup_insert_ne by done.
    rewrite (bool_decide_ext (id ∈ i :: ids) (id ∈ ids)); [done|set_solver].
Qed.

(** What the index answers after building it in order: the last configuration
    that lists the ID decides the pool name, and the last one with that name
    decides the pool. *)
Lemma from_configs_snoc configs config :
  from_configs (configs ++ [config]) = add_config (from_configs configs) config.
Proof. unfold from_configs. by rewrite foldl_app. Qed.

Lemma from_configs_ids configs id n :
  pool_by_public_model_id (from_configs configs) !! id = Some n ->
  exists config, config ∈ configs /\ pool_name config = n /\ id ∈ raw_ids config.
Proof.
  induction configs as [|config configs IH] using rev_ind.
  { unfold from_configs. simpl. by rewrite lookup_empty. }
  rewrite from_configs_snoc. simpl. rewrite insert_ids_lookup. case_bool_decide as Hin.
  - intros [= <-]. exists config. rewrite <-public_model_ids_of_elem. set_solver.
  - intros H. destruct (IH H) as (c & ? & ? & ?). exists c. set_solver.
Qed.

Lemma from_configs_ids_some configs config id :
  config ∈ configs -> id ∈ raw_ids config ->
  is_Some (pool_by_public_model_id (from_configs configs) !! id).
Proof.
  induction configs as [|c configs IH] using rev_ind; [set_solver|].
  intros Hin Hid. rewrite from_configs_snoc. simpl. rewrite insert_ids_lookup.
  case_bool_decide as Hc; [by eexists|]. apply elem_of_app in Hin as [Hin|Hin]; [auto|].
  apply list_elem_of_singleton in Hin as ->. by rewrite public_model_ids_of_elem in Hc.
Qed.

Lemma from_configs_pool configs config :
  NoDup (map pool_name configs) -> config ∈ configs ->
  pools_by_name (from_configs configs) !! pool_name config = Some (stored config).
Proof.
  induction configs as [|c configs IH] using rev_ind; [set_solver|].
  rewrite map_app, NoDup_app. intros (Hnd & Hdis & _) Hin. rewrite from_configs_snoc. simpl.
  apply elem_of_app in Hin as [Hin|Hin].
  - rewrite lookup_insert_ne; [by apply IH|]. intros Heq.
    apply (Hdis (pool_name config)); [by apply list_elem_of_fmap_2|]. rewrite <-Heq. set_solver.
  - apply list_elem_of_singleton in Hin as ->. by rewrite lookup_insert_eq.
Qed.

(** Membership of an ID in two pools makes them the same configuration. *)
Lemma concat_nodup_owner {A} (f : A -> list string) l a b id :
  NoDup (mbind f l) -> a ∈ l -> b ∈ l -> id ∈ f a -> id ∈ f b -> a = b.
Proof.
  induction l as [|x l IH]; [set_solver|]. cbn [mbind list_bind]. rewrite NoDup_app.
  intros (_ & Hdis & Hnd) Ha Hb Hia Hib. specialize (IH Hnd).
  assert (forall y, y ∈ l -> id ∈ f y -> id ∈ mbind f l) as Hbind.
  { intros y Hy Hi. apply list_elem_of_bind. eauto. }
  apply elem_of_cons in Ha as [->|Ha]; apply elem_of_cons in Hb as [->|Hb]; auto.
  - destruct (Hdis id Hia). eauto.
  - destruct (Hdis id Hib). eauto.
Qed.

Lemma raw_nodup_names configs : NoDup (mbind raw_ids configs) -> NoDup (map pool_name configs).
Proof.
  induction configs as [|c configs IH]; [constructor|]. cbn [mbind list_bind]. rewrite NoDup_app.
  intros (_ & Hdis & Hnd). simpl. apply NoDup_cons. split; [|auto].
  rewrite list_elem_of_fmap. intros (c' & Hn & Hc'). apply (Hdis (pool_name c)); [by left|].
  apply list_elem_of_bind. exists c'. split; [rewrite Hn; by left|done].
Qed.

(** Pools whose names and aliases carry no surrounding whitespace: validation
    reads the same IDs as the index. *)
Definition pools_trimmed (pools : list ModelPoolConfig) : Prop :=
  Forall (fun pool => Forall (fun id => Str.trim id = id) (raw_ids pool)) pools.

Lemma trimmed_ids pools : pools_trimmed pools -> pool_ids_of pools = mbind raw_ids pools.
Proof.
  unfold pool_ids_of. induction 1 as [|pool pools Hp _ IH]; [done|].
  cbn [mbind list_bind] in *. rewrite IH. f_equal. unfold pool_ids, raw_ids in *.
  apply Forall_cons in Hp as [-> Hp]. f_equal.
  induction Hp as [|a al Ha _ IHa]; simpl; [done|]. by rewrite Ha, IHa.
Qed.

Lemma lookup_distinct configs id pool :
  NoDup (mbind raw_ids configs) ->
  pool_for_public_model (from_configs configs) id = Some pool <->
  exists config, config ∈ configs /\ id ∈ raw_ids config /\ pool = stored config.
Proof.
  intros Hnd. pose proof (raw_nodup_names configs Hnd) as Hnames. unfold pool_for_public_model. split.
  - destruct (pool_by_public_model_id _ !! id) as [n|] eqn:E; [|done]. intros Hp.
    apply from_configs_ids in E as (config & Hc & <- & Hid). exists config.
    rewrite (from_configs_pool configs config Hnames Hc) in Hp. by simplify_eq.
  - intros (config & Hc & Hid & ->).
    destruct (from_configs_ids_some configs config id Hc Hid) as [n E]. rewrite E.
    apply from_configs_ids in E as (config' & Hc' & <- & Hid').
    rewrite (concat_nodup_owner raw_ids configs config config' id Hnd) by done.
    by apply from_configs_pool.
Qed.

(* ------------------------------------------------------------------ *)
(** ** Properties *)

(** On a validated configuration whose pool names and aliases carry no
    surrounding whitespace, a public model ID resolves to a pool exactly when
    some configured pool lists it as its name or alias, and the pool found is
    that one, with its members, policy and sorted IDs; no other pool can shadow
    it. *)
Theorem pool_lookup_iff c id pool :
  validate_config c = Ok tt -> pools_trimmed (model_pools c) ->
  pool_for_public_model (from_configs (model_pools c)) id = Some pool <->
  exists config, config ∈ model_pools c /\ id ∈ raw_ids config /\ pool = stored config.
Proof.
  intros Hv Ht. apply lookup_distinct. rewrite <-trimmed_ids by done.
  apply validate_config_ok_providers in Hv as (_ & _ & _ & Hnd & _). done.
Qed.

Lemma pool_lookup_iff_witness :
  is_Some (pool_for_public_model (from_configs (model_pools (example_config ["mock"]))) "team").
Proof.
  eexists. apply (pool_lookup_iff (example_config ["mock"])).
  - vm_compute. reflexivity.
  - repeat constructor.
  - eexists. split; [by left|]. split; [right; by left|reflexivity].
Defined.

(** Validation compares pool members after trimming them, the index does
    not trim: a configuration whose member is written with a blank in front
    passes validation, yet its pool contains no configured provider. *)
Theorem padded_member_passes_validation :
  exists c pool, validate_config c = Ok tt /\
    pool_for_public_model (from_configs (model_pools c)) "team-pool" = Some pool /\
    members pool <> ∅ /\
    Forall (fun p => prov_name p ∉ members pool) (providers c).
Proof.
  exists (example_config [" mock"]). eexists. split; [vm_compute; reflexivity|].
  split; [reflexivity|]. split; [vm_compute; discriminate|].
  repeat constructor. by vm_compute.
Qed.

End ModelPools.
