(* ===== verification/Provider.v ===== *)
(** * The provider interface (src/src/providers/provider.rs)

    Errors, stream events, pricing and the [ChatProvider] trait.  A provider is
    reached over the network: its answers are supplied to the operations that
    call it, and only its name and models are fields here. *)
From S2P Require Import Prelude Str F64 Chat.

Open Scope string_scope.
Open Scope list_scope.
Open Scope Z_scope.

Module Provider.

Inductive ProviderError :=
| Timeout
| RateLimited
| AuthenticationFailed
| ProviderUnavailable
| ProviderBadResponse.

#[global] Instance ProviderError_eq_dec : EqDecision ProviderError.
Proof. solve_decision. Defined.

Inductive ProviderStreamError :=
| BeforeFirstChunk (e : ProviderError)
| MidStream (e : ProviderError).

Definition into_provider_error (e : ProviderStreamError) : ProviderError :=
  match e with BeforeFirstChunk error | MidStream error => error end.

Inductive ProviderStreamEvent :=
| Chunk (c : Chat.ChatCompletionChunkResponse)
| Completed (usage : Chat.TokenUsage).

Record ProviderStreamContext := {
  response_id : Chat.Uuid;
  ctx_created : Z;
  ctx_model : string
}.

Record ProviderPricing := {
  cost_per_1k_input_tokens : F64.t;
  cost_per_1k_output_tokens : F64.t
}.

Record CostEstimate := {
  input_cost_usd : F64.t;
  output_cost_usd : F64.t;
  total_cost_usd : F64.t
}.

Definition estimate_cost (p : ProviderPricing) (prompt_tokens completion_tokens : Z) :
  CostEstimate :=
  let input := F64.mul (F64.div (F64.of_Z prompt_tokens) (F64.of_Z 1000))
                 (cost_per_1k_input_tokens p) in
  let output := F64.mul (F64.div (F64.of_Z completion_tokens) (F64.of_Z 1000))
                  (cost_per_1k_output_tokens p) in
  {| input_cost_usd := input; output_cost_usd := output; total_cost_usd := F64.add input output |}.

Definition estimate_cost_usd (p : ProviderPricing) (prompt_tokens completion_tokens : Z) : F64.t :=
  total_cost_usd (estimate_cost p prompt_tokens completion_tokens).

(** The pure methods of [ChatProvider]. *)
Record ChatProvider := {
  name : string;
  model : string;
  supports_model : string -> bool
}.

Record ProviderEntry := {
  priority : Z;
  provider : ChatProvider;
  pricing : ProviderPricing
}.

(** [AppError::from_provider_error] (src/src/error.rs) *)
Definition from_provider_error (error : ProviderError) (request_id : option Chat.Uuid) :
  Chat.AppError :=
  match error with
  | RateLimited => Chat.ProviderRateLimited request_id
  | Timeout => Chat.ProviderTimeout request_id
  | AuthenticationFailed | ProviderUnavailable | ProviderBadResponse =>
      Chat.ProviderFailure request_id
  end.

End Provider.
