(* ===== verification/Admission.v ===== *)
(** * Admission control (src/src/routing/admission.rs)

    Token budgets and in-flight limits.  A successful acquisition returns a
    guard that owns slots; finishing or dropping the guard releases them once. *)
From S2P Require Import Prelude Str F64 Chat Config.

Open Scope string_scope.
Open Scope list_scope.
Open Scope Z_scope.

Module Admission.

Inductive AdmissionRejectionReason :=
| GlobalInFlightLimit
| PoolInFlightLimit
| ProviderInFlightLimit
| MaxEstimatedPromptTokens
| MaxEstimatedTotalTokens.

Definition AdmissionRejectionReason_as_str (r : AdmissionRejectionReason) : string :=
  match r with
  | GlobalInFlightLimit => "global_in_flight_limit"
  | PoolInFlightLimit => "pool_in_flight_limit"
  | ProviderInFlightLimit => "provider_in_flight_limit"
  | MaxEstimatedPromptTokens => "max_estimated_prompt_tokens"
  | MaxEstimatedTotalTokens => "max_estimated_total_tokens"
  end.

Definition reason_public_message (r : AdmissionRejectionReason) : string :=
  match r with
  | GlobalInFlightLimit => "gateway global in-flight limit exceeded"
  | PoolInFlightLimit => "model pool in-flight limit exceeded"
  | ProviderInFlightLimit => "provider in-flight limit exceeded"
  | MaxEstimatedPromptTokens => "estimated prompt token limit exceeded"
  | MaxEstimatedTotalTokens => "estimated total token limit exceeded"
  end.

Record AdmissionRejection := {
  reason : AdmissionRejectionReason;
  rejection_retry_after_seconds : Z
}.

Definition into_app_error (r : AdmissionRejection) (request_id : option Chat.Uuid) :
  Chat.AppError :=
  Chat.AdmissionRejected (reason_public_message (reason r)) request_id
    (rejection_retry_after_seconds r).

Record AdmissionLimits := {
  max_global_in_flight : option Z;
  max_estimated_prompt_tokens : option Z;
  max_estimated_total_tokens : option Z;
  limits_retry_after_seconds : Z;
  pool_max_in_flight : gmap string Z;
  provider_max_in_flight : gmap string Z
}.

(** [iter().filter_map(..).collect::<BTreeMap<_, _>>()]: a later entry of the
    same name replaces an earlier one. *)
Definition collect_limits {A : Type} (name : A -> string) (limit : A -> option Z) (l : list A) :
  gmap string Z :=
  foldl (fun m x => match limit x with Some n => <[ name x := n ]> m | None => m end) ∅ l.

Definition from_config (admission : Config.AdmissionConfig)
  (providers : list Config.ProviderConfig) (model_pools : list Config.ModelPoolConfig) :
  AdmissionLimits :=
  {| max_global_in_flight := Config.max_global_in_flight admission;
     max_estimated_prompt_tokens := Config.max_estimated_prompt_tokens admission;
     max_estimated_total_tokens := Config.max_estimated_total_tokens admission;
     limits_retry_after_seconds := Config.retry_after_seconds admission;
     pool_max_in_flight := collect_limits Config.pool_name Config.pool_max_in_flight model_pools;
     provider_max_in_flight := collect_limits Config.prov_name Config.prov_max_in_flight providers |}.

Definition retry_after_seconds (l : AdmissionLimits) : Z := Z.max (limits_retry_after_seconds l) 1.

Record AdmissionCounters := {
  global_in_flight : Z;
  pool_in_flight : gmap string Z;
  provider_in_flight : gmap string Z
}.

Definition AdmissionCounters_default : AdmissionCounters :=
  {| global_in_flight := 0; pool_in_flight := ∅; provider_in_flight := ∅ |}.

Record AdmissionController := {
  limits : AdmissionLimits;
  counters : mutex AdmissionCounters
}.

Definition new (l : AdmissionLimits) : AdmissionController :=
  {| limits := l; counters := Unpoisoned AdmissionCounters_default |}.

Definition disabled : AdmissionController :=
  new {| max_global_in_flight := None; max_estimated_prompt_tokens := None;
         max_estimated_total_tokens := None; limits_retry_after_seconds := 1;
         pool_max_in_flight := ∅; provider_max_in_flight := ∅ |}.

Inductive AdmissionSlot := Global | Pool (n : string) | Prov (n : string).

(** The controller a guard points to is the one it is used with. *)
Record AdmissionGuard := { slots : list AdmissionSlot; active : bool }.

Definition guard_new (s : list AdmissionSlot) : AdmissionGuard := {| slots := s; active := true |}.

Definition set_counters (c : AdmissionController) (k : AdmissionCounters) : AdmissionController :=
  {| limits := limits c; counters := Unpoisoned k |}.

Definition rejection (c : AdmissionController) (r : AdmissionRejectionReason) :
  AdmissionRejection :=
  {| reason := r; rejection_retry_after_seconds := retry_after_seconds (limits c) |}.

Definition check_token_budget (c : AdmissionController) (request : Chat.ChatCompletionRequest) :
  result unit AdmissionRejectionReason :=
  let prompt_tokens := Chat.estimate_tokens_for_messages (Chat.messages request) in
  if is_some_and (max_estimated_prompt_tokens (limits c)) (fun limit => limit <? prompt_tokens)
  then Err MaxEstimatedPromptTokens
  else
    let total_tokens := u32_sat_add prompt_tokens (default 0 (Chat.max_tokens request)) in
    if is_some_and (max_estimated_total_tokens (limits c)) (fun limit => limit <? total_tokens)
    then Err MaxEstimatedTotalTokens
    else Ok tt.

(** The pool check of [try_acquire_request]: is the pool at its limit? *)
Definition pool_full (c : AdmissionController) (k : AdmissionCounters) (pool_name : option string) :
  bool :=
  match pool_name with
  | Some p =>
      match pool_max_in_flight (limits c) !! p with
      | Some limit => limit <=? default 0 (pool_in_flight k !! p)
      | None => false
      end
  | None => false
  end.

(** The global and pool counts taken once both checks have passed. *)
Definition take_global (c : AdmissionController) (k : AdmissionCounters) :
  AdmissionCounters * list AdmissionSlot :=
  if is_some (max_global_in_flight (limits c))
  then ({| global_in_flight := u64_sat_add (global_in_flight k) 1;
           pool_in_flight := pool_in_flight k;
           provider_in_flight := provider_in_flight k |}, [Global])
  else (k, []).

Definition take_pool (c : AdmissionController) (k : AdmissionCounters)
  (pool_name : option string) : AdmissionCounters * list AdmissionSlot :=
  match pool_name with
  | Some p =>
      if is_some (pool_max_in_flight (limits c) !! p)
      then ({| global_in_flight := global_in_flight k;
               pool_in_flight := count_add p 1 (pool_in_flight k);
               provider_in_flight := provider_in_flight k |}, [Pool p])
      else (k, [])
  | None => (k, [])
  end.

Definition try_acquire_request (c : AdmissionController) (pool_name : option string) :
  AdmissionController * result AdmissionGuard AdmissionRejection :=
  match lock (counters c) with
  | None => (c, Err (rejection c GlobalInFlightLimit))
  | Some k =>
      if is_some_and (max_global_in_flight (limits c)) (fun limit => limit <=? global_in_flight k)
      then (c, Err (rejection c GlobalInFlightLimit))
      else if pool_full c k pool_name then (c, Err (rejection c PoolInFlightLimit))
      else
        let '(k, slots1) := take_global c k in
        let '(k, slots2) := take_pool c k pool_name in
        (set_counters c k, Ok (guard_new (slots1 ++ slots2)))
  end.

Definition try_acquire_provider (c : AdmissionController) (provider_name : string) :
  AdmissionController * result AdmissionGuard AdmissionRejection :=
  match provider_max_in_flight (limits c) !! provider_name with
  | None => (c, Ok (guard_new []))
  | Some limit =>
      match lock (counters c) with
      | None => (c, Err (rejection c ProviderInFlightLimit))
      | Some k =>
          let current := default 0 (provider_in_flight k !! provider_name) in
          if limit <=? current then (c, Err (rejection c ProviderInFlightLimit))
          else
            (set_counters c
               {| global_in_flight := global_in_flight k;
                  pool_in_flight := pool_in_flight k;
                  provider_in_flight := count_add provider_name 1 (provider_in_flight k) |},
             Ok (guard_new [Prov provider_name]))
      end
  end.

Definition decrement_or_remove (m : gmap string Z) (key : string) : gmap string Z :=
  sub_or_remove key 1 m.

Definition release_slot (k : AdmissionCounters) (slot : AdmissionSlot) : AdmissionCounters :=
  match slot with
  | Global =>
      {| global_in_flight := sat_sub (global_in_flight k) 1;
         pool_in_flight := pool_in_flight k; provider_in_flight := provider_in_flight k |}
  | Pool p =>
      {| global_in_flight := global_in_flight k;
         pool_in_flight := decrement_or_remove (pool_in_flight k) p;
         provider_in_flight := provider_in_flight k |}
  | Prov p =>
      {| global_in_flight := global_in_flight k; pool_in_flight := pool_in_flight k;
         provider_in_flight := decrement_or_remove (provider_in_flight k) p |}
  end.

Definition release (c : AdmissionController) (s : list AdmissionSlot) : AdmissionController :=
  match lock (counters c) with
  | None => c
  | Some k => set_counters c (foldl release_slot k s)
  end.

(** [AdmissionGuard::finish] *)
Definition finish (c : AdmissionController) (g : AdmissionGuard) :
  AdmissionController * AdmissionGuard :=
  if active g then (release c (slots g), {| slots := slots g; active := false |}) else (c, g).

(** [Drop for AdmissionGuard] *)
Definition drop_guard (c : AdmissionController) (g : AdmissionGuard) : AdmissionController :=
  fst (finish c g).

(* ------------------------------------------------------------------ *)
(** ** Requests in flight: the controller with the guards it handed out *)

#[export] Instance AdmissionSlot_eq_dec : EqDecision AdmissionSlot.
Proof. solve_decision. Defined.

Record Gate := { controller : AdmissionController; guards : list AdmissionGuard }.

(** What requests do with the controller, in any interleaving. *)
Inductive op :=
| AcquireRequest (pool_name : option string)
| AcquireProvider (provider_name : string)
| Finish (i : nat)
| DropGuard (i : nat).

Definition hand_out (gate : Gate)
  (r : AdmissionController * result AdmissionGuard AdmissionRejection) : Gate :=
  match r with
  | (c, Ok g) => {| controller := c; guards := g :: guards gate |}
  | (c, Err _) => {| controller := c; guards := guards gate |}
  end.

Definition step (gate : Gate) (o : op) : Gate :=
  match o with
  | AcquireRequest p => hand_out gate (try_acquire_request (controller gate) p)
  | AcquireProvider n => hand_out gate (try_acquire_provider (controller gate) n)
  | Finish i =>
      match guards gate !! i with
      | Some g => let '(c, g') := finish (controller gate) g in
                  {| controller := c; guards := <[ i := g' ]> (guards gate) |}
      | None => gate
      end
  | DropGuard i =>
      match guards gate !! i with
      | Some g => {| controller := drop_guard (controller gate) g;
                     guards := delete i (guards gate) |}
      | None => gate
      end
  end.

Definition run (l : AdmissionLimits) (ops : list op) : Gate :=
  foldl step {| controller := new l; guards := [] |} ops.

(** How often a slot is held by the guards still active. *)
Definition slot_count (s : AdmissionSlot) (l : list AdmissionSlot) : Z :=
  Z.of_nat (length (filter (fun s' => s' = s) l)).
Definition held_slots (gs : list AdmissionGuard) : list AdmissionSlot :=
  gs ≫= (fun g => if active g then slots g else []).
Definition held (gate : Gate) (s : AdmissionSlot) : Z := slot_count s (held_slots (guards gate)).

(** The limit that applies to a slot. *)
Definition limit_of (l : AdmissionLimits) (s : AdmissionSlot) : option Z :=
  match s with
  | Global => max_global_in_flight l
  | Pool p => pool_max_in_flight l !! p
  | Prov p => provider_max_in_flight l !! p
  end.

(** Limits are [u64] values. *)
Definition limits_in_width (l : AdmissionLimits) : Prop :=
  forall s n, limit_of l s = Some n -> is_u64 n.

(** The counters are exact: they count the slots the live guards hold. *)
Definition counts (k : AdmissionCounters) (f : AdmissionSlot -> Z) : Prop :=
  global_in_flight k = f Global /\
  tallies (pool_in_flight k) (fun p => f (Pool p)) /\
  tallies (provider_in_flight k) (fun p => f (Prov p)).

Definition gate_inv (l : AdmissionLimits) (gate : Gate) : Prop :=
  limits (controller gate) = l /\
  (exists k, counters (controller gate) = Unpoisoned k /\ counts k (held gate)) /\
  (forall s, 0 < held gate s -> exists n, limit_of l s = Some n /\ held gate s <= n).

Lemma slot_count_nonneg s l : 0 <= slot_count s l.
Proof. unfold slot_count. lia. Qed.

Lemma slot_count_app s l1 l2 : slot_count s (l1 ++ l2) = slot_count s l1 + slot_count s l2.
Proof. unfold slot_count. rewrite filter_app, length_app. lia. Qed.

Lemma slot_count_cons s a l : slot_count s (a :: l) = (if decide (a = s) then 1 else 0) + slot_count s l.
Proof. unfold slot_count. rewrite filter_cons. case_decide; simpl length; lia. Qed.

Lemma slot_count_nil s : slot_count s [] = 0.
Proof. done. Qed.

Hint Rewrite slot_count_app slot_count_cons slot_count_nil : slots.

(** Releasing slots subtracts exactly their counts. *)
Lemma release_slot_counts k f a :
  counts k f -> 1 <= f a ->
  counts (release_slot k a) (fun s => f s - (if decide (a = s) then 1 else 0)).
Proof.
  intros (Hg & Hp & Hv) Hf.
  assert (forall b, a <> b -> f b = f b - (if decide (a = b) then 1 else 0)) as Hne.
  { intros b Hb. rewrite decide_False by done. lia. }
  assert (f a - (if decide (a = a) then 1 else 0) = f a - 1) as Heq by by rewrite decide_True.
  unfold counts. destruct a as [|p|p]; cbn [release_slot global_in_flight pool_in_flight provider_in_flight];
    split_and!; try (rewrite Hg; by apply Hne);
    try (eapply tallies_ext; [eassumption|intros q; by apply Hne]);
    try (eapply tallies_sub; [eassumption|lia|exact Heq|intros j Hj; symmetry; apply Hne; congruence]).
  rewrite Heq, Hg. unfold sat_sub. lia.
Qed.

Lemma counts_ext k f g : counts k f -> (forall s, f s = g s) -> counts k g.
Proof.
  intros (Hg & Hp & Hv) Heq. split_and!; [by rewrite Hg|..];
    (eapply tallies_ext; [eassumption|intros q; apply Heq]).
Qed.

Lemma release_counts l k f :
  counts k f -> (forall s, slot_count s l <= f s) ->
  counts (foldl release_slot k l) (fun s => f s - slot_count s l).
Proof.
  revert k f. induction l as [|a l IH]; intros k f Hk Hle; cbn [foldl].
  - eapply counts_ext; [exact Hk|]. intros s. rewrite slot_count_nil. lia.
  - eapply counts_ext.
    + apply (IH (release_slot k a) (fun s => f s - (if decide (a = s) then 1 else 0))).
      * apply release_slot_counts; [done|]. specialize (Hle a). rewrite slot_count_cons in Hle.
        rewrite decide_True in Hle by done. pose proof (slot_count_nonneg a l). lia.
      * intros s. specialize (Hle s). rewrite slot_count_cons in Hle. lia.
    + intros s. simpl. rewrite slot_count_cons. lia.
Qed.

Lemma held_cons c g gs s :
  held {| controller := c; guards := g :: gs |} s =
  (if active g then slot_count s (slots g) else 0) + slot_count s (held_slots gs).
Proof.
  unfold held, held_slots. cbn [guards mbind list_bind]. rewrite slot_count_app.
  by destruct (active g).
Qed.

(** Splitting off the guard at a position. *)
Lemma held_slots_at gs i g :
  gs !! i = Some g -> forall s,
  slot_count s (held_slots gs) =
  (if active g then slot_count s (slots g) else 0) + slot_count s (held_slots (delete i gs)).
Proof.
  revert i. induction gs as [|g0 gs IH]; intros [|i] Hi s; simplify_eq/=.
  - unfold held_slots. cbn [mbind list_bind]. rewrite slot_count_app. by destruct (active g).
  - unfold held_slots in *. cbn [mbind list_bind]. rewrite !slot_count_app, (IH i Hi s). lia.
Qed.

Lemma held_slots_insert gs i g g' :
  gs !! i = Some g -> active g' = false -> forall s,
  slot_count s (held_slots (<[ i := g' ]> gs)) = slot_count s (held_slots (delete i gs)).
Proof.
  revert i. induction gs as [|g0 gs IH]; intros [|i] Hi Ha s; simplify_eq/=.
  - unfold held_slots. cbn [mbind list_bind]. by rewrite Ha.
  - unfold held_slots in *. cbn [mbind list_bind]. by rewrite !slot_count_app, (IH i).
Qed.

(** ** The invariant is kept by every operation *)

(** Adding a guard whose slots were counted below their limits. *)
Lemma hand_out_inv l gate k k' s :
  gate_inv l gate -> counters (controller gate) = Unpoisoned k ->
  counts k' (fun a => slot_count a s + held gate a) ->
  (forall a, 0 < slot_count a s ->
     exists n, limit_of l a = Some n /\ slot_count a s + held gate a <= n) ->
  gate_inv l (hand_out gate (set_counters (controller gate) k', Ok (guard_new s))).
Proof.
  intros (Hl & _ & Hlim) _ Hk Hs. unfold gate_inv, hand_out, guard_new.
  cbn [controller set_counters limits counters]. split; [done|]. split.
  - exists k'. split; [done|]. eapply counts_ext; [exact Hk|]. intros a. by rewrite held_cons.
  - intros a. rewrite held_cons. cbn [active slots]. fold (held gate a). intros Ha.
    destruct (decide (0 < slot_count a s)) as [H0|H0]; [by apply Hs|].
    pose proof (slot_count_nonneg a s). replace (slot_count a s) with 0 in * by lia. by apply Hlim.
Qed.

(** Removing a guard, or marking it inactive, after releasing its slots. *)
Lemma release_inv l gate i g gs' :
  gate_inv l gate -> guards gate !! i = Some g ->
  (forall s, slot_count s (held_slots gs') = slot_count s (held_slots (delete i (guards gate)))) ->
  gate_inv l {| controller := fst (finish (controller gate) g); guards := gs' |}.
Proof.
  intros (Hl & (k & Hk & Hc) & Hlim) Hi Hgs.
  pose proof (held_slots_at _ _ _ Hi) as Hat. unfold held in Hc, Hlim.
  assert (forall s, held {| controller := fst (finish (controller gate) g); guards := gs' |} s =
    slot_count s (held_slots (delete i (guards gate)))) as Hheld by (intros; apply Hgs).
  unfold gate_inv. setoid_rewrite Hheld. cbn [controller]. unfold finish.
  assert (forall s, 0 <= slot_count s (slots g)) by (intros; apply slot_count_nonneg).
  assert (forall s, 0 <= slot_count s (held_slots (delete i (guards gate))))
    by (intros; apply slot_count_nonneg).
  assert (forall s, 0 < slot_count s (held_slots (delete i (guards gate))) ->
    exists n, limit_of l s = Some n /\ slot_count s (held_slots (delete i (guards gate))) <= n) as Hlim'.
  { intros s Hs. specialize (Hat s). destruct (Hlim s) as (n & ? & ?); [destruct (active g); specialize (H s); lia|].
    exists n. split; [done|]. destruct (active g); specialize (H s); lia. }
  destruct (active g); cbn [fst]; split_and!; try done.
  - unfold release. by rewrite Hk.
  - unfold release. rewrite Hk. eexists. split; [done|].
    eapply counts_ext; [apply (release_counts (slots g) k _ Hc)|].
    + intros s. specialize (Hat s). specialize (H0 s). lia.
    + intros s. specialize (Hat s). unfold held. cbn [guards]. rewrite Hgs. lia.
  - exists k. split; [done|]. eapply counts_ext; [exact Hc|]. intros s. specialize (Hat s). unfold held. cbn [guards]. rewrite Hgs. lia.
Qed.

(** Counting one more slot. *)
Lemma count_one k k' f a :
  counts k f -> 0 <= f a < u64_max ->
  k' = match a with
       | Global => {| global_in_flight := u64_sat_add (global_in_flight k) 1;
                      pool_in_flight := pool_in_flight k;
                      provider_in_flight := provider_in_flight k |}
       | Pool p => {| global_in_flight := global_in_flight k;
                      pool_in_flight := count_add p 1 (pool_in_flight k);
                      provider_in_flight := provider_in_flight k |}
       | Prov p => {| global_in_flight := global_in_flight k;
                      pool_in_flight := pool_in_flight k;
                      provider_in_flight := count_add p 1 (provider_in_flight k) |}
       end ->
  counts k' (fun s => slot_count s [a] + f s).
Proof.
  intros (Hg & Hp & Hv) Hf ->.
  assert (forall b, a <> b -> slot_count b [a] + f b = f b) as Hne.
  { intros b Hb. rewrite slot_count_cons, slot_count_nil, decide_False by done. lia. }
  assert (slot_count a [a] + f a = f a + 1) as Heq.
  { rewrite slot_count_cons, slot_count_nil, decide_True by done. lia. }
  unfold counts. destruct a as [|p|p]; cbn [global_in_flight pool_in_flight provider_in_flight];
    split_and!; try (rewrite Hg; symmetry; by apply Hne);
    try (eapply tallies_ext; [eassumption|intros q; symmetry; by apply Hne]);
    try (eapply tallies_add; [eassumption|lia|lia|width|exact Heq|intros j Hj; apply Hne; congruence]).
  rewrite Heq, Hg. width.
Qed.

(** A limit check that passed leaves room in the width. *)
Lemma below_limit l gate s n :
  limits_in_width l -> gate_inv l gate -> limit_of l s = Some n -> held gate s < n ->
  0 <= held gate s < u64_max.
Proof.
  intros Hw _ Hn Hlt. specialize (Hw s n Hn). unfold held in *.
  pose proof (slot_count_nonneg s (held_slots (guards gate))). width.
Qed.

Lemma single_slot_limit l gate a n :
  limit_of l a = Some n -> held gate a < n -> forall b,
  0 < slot_count b [a] -> exists n, limit_of l b = Some n /\ slot_count b [a] + held gate b <= n.
Proof.
  intros Hn Hlt b. rewrite slot_count_cons, slot_count_nil. case_decide as Hab; [subst b|lia].
  exists n. split; [done|lia].
Qed.

Lemma acquire_provider_inv l gate n :
  limits_in_width l -> gate_inv l gate ->
  gate_inv l (hand_out gate (try_acquire_provider (controller gate) n)).
Proof.
  intros Hw Hinv. pose proof Hinv as (Hl & (k & Hk & Hc) & Hlim). unfold try_acquire_provider. rewrite Hl.
  destruct (provider_max_in_flight l !! n) as [limit|] eqn:El.
  2:{ replace (controller gate) with (set_counters (controller gate) k) at 1
        by (unfold set_counters; rewrite <-Hk; by destruct (controller gate)).
      eapply hand_out_inv; [done|done|by eapply counts_ext|]. intros a. rewrite slot_count_nil. lia. }
  rewrite Hk. cbn [lock]. pose proof Hc as (_ & _ & Hv).
  rewrite (tallies_default _ _ n Hv). destruct (limit <=? _) eqn:E; [by destruct gate|]. zbool.
  eapply hand_out_inv; [done..| |].
  - eapply count_one; [exact Hc|by eapply (below_limit l gate (Prov n))|done].
  - by eapply single_slot_limit.
Qed.

(** The two halves of a request's acquisition. *)
Lemma take_global_counts l gate k :
  limits_in_width l -> gate_inv l gate -> counters (controller gate) = Unpoisoned k ->
  counts k (held gate) ->
  is_some_and (max_global_in_flight l) (fun limit => limit <=? global_in_flight k) = false ->
  exists k' s, take_global (controller gate) k = (k', s) /\
    counts k' (fun a => slot_count a s + held gate a) /\
    (forall a, 0 < slot_count a s -> a = Global /\
       exists n, limit_of l a = Some n /\ slot_count a s + held gate a <= n).
Proof.
  intros Hw Hinv Hk Hc Hchk. pose proof Hinv as (Hl & _ & _). unfold take_global. rewrite Hl.
  destruct (max_global_in_flight l) as [limit|] eqn:El; simpl in *.
  - zbool. pose proof Hc as (Hg & _). rewrite Hg in Hchk.
    eexists _, _. split; [done|]. split.
    + eapply count_one; [exact Hc|by eapply (below_limit l gate Global)|done].
    + intros a. rewrite slot_count_cons, slot_count_nil. case_decide as Ha; [subst a|lia].
      intros _. split; [done|]. exists limit. split; [done|lia].
  - eexists _, _. split; [done|]. split; [by eapply counts_ext|]. intros a. rewrite slot_count_nil. lia.
Qed.

Lemma take_pool_counts l gate k k' f p :
  limits_in_width l -> gate_inv l gate -> counts k (held gate) -> counts k' f ->
  (forall q, f (Pool q) = held gate (Pool q)) ->
  pool_full (controller gate) k p = false ->
  exists k'' s, take_pool (controller gate) k' p = (k'', s) /\
    counts k'' (fun a => slot_count a s + f a) /\
    (forall a, 0 < slot_count a s -> (exists q, a = Pool q) /\
       exists n, limit_of l a = Some n /\ slot_count a s + held gate a <= n).
Proof.
  intros Hw Hinv Hc Hc' Hf Hfull. pose proof Hinv as (Hl & _ & _). unfold pool_full, take_pool in *. rewrite Hl in *.
  destruct p as [p|]; [destruct (pool_max_in_flight l !! p) as [limit|] eqn:El|]; simpl.
  - pose proof Hc as (_ & Hp & _). rewrite (tallies_default _ _ p Hp) in Hfull. zbool.
    eexists _, _. split; [done|]. split.
    + eapply count_one; [exact Hc'| |done]. rewrite Hf. by eapply (below_limit l gate (Pool p)).
    + intros a. rewrite slot_count_cons, slot_count_nil. case_decide as Ha; [subst a|lia].
      intros _. split; [by eexists|]. exists limit. split; [done|lia].
  - eexists _, _. split; [done|]. split; [by eapply counts_ext|]. intros a. rewrite slot_count_nil. lia.
  - eexists _, _. split; [done|]. split; [by eapply counts_ext|]. intros a. rewrite slot_count_nil. lia.
Qed.

Lemma taken_slots c k k1 k2 s1 s2 p :
  take_global c k = (k1, s1) -> take_pool c k1 p = (k2, s2) ->
  s1 ++ s2 = filter (fun s => is_Some (limit_of (limits c) s)) (Global :: option_list (Pool <$> p)).
Proof.
  unfold take_global, take_pool. rewrite filter_cons.
  intros H1 H2. cbn [limit_of]. destruct (max_global_in_flight (limits c)); simplify_eq/=;
    (destruct p as [q|]; simplify_eq/=; [|done]; rewrite filter_cons; cbn [limit_of];
     destruct (pool_max_in_flight (limits c) !! q); by simplify_eq/=).
Qed.

Lemma acquire_request_inv l gate p :
  limits_in_width l -> gate_inv l gate ->
  gate_inv l (hand_out gate (try_acquire_request (controller gate) p)).
Proof.
  intros Hw Hinv. pose proof Hinv as (Hl & (k & Hk & Hc) & Hlim). unfold try_acquire_request.
  rewrite Hk. cbn [lock]. rewrite Hl at 1.
  destruct (is_some_and _ _) eqn:Eg; [by destruct gate|].
  destruct (pool_full _ k p) eqn:Ep; [by destruct gate|].
  destruct (take_global_counts l gate k) as (k1 & s1 & -> & Hc1 & Hs1); [done..|].
  assert (forall q, slot_count (Pool q) s1 = 0) as Hq.
  { intros q. pose proof (slot_count_nonneg (Pool q) s1).
    destruct (decide (0 < slot_count (Pool q) s1)) as [H0|]; [by destruct (Hs1 _ H0)|lia]. }
  destruct (take_pool_counts l gate k k1 (fun a => slot_count a s1 + held gate a) p)
    as (k2 & s2 & -> & Hc2 & Hs2); [done..|intros q; rewrite Hq; lia|done|].
  eapply hand_out_inv; [done..| |].
  - eapply counts_ext; [exact Hc2|]. intros a. cbv beta. rewrite slot_count_app. lia.
  - intros a. rewrite slot_count_app. pose proof (slot_count_nonneg a s1). pose proof (slot_count_nonneg a s2).
    destruct (decide (0 < slot_count a s2)) as [H2|H2].
    + intros _. destruct (Hs2 a H2) as ((q & ->) & n & Hn & Hle). exists n. rewrite Hq. split; [done|lia].
    + intros H1. destruct (Hs1 a) as (_ & n & Hn & Hle); [lia|]. exists n. split; [done|lia].
Qed.

Lemma step_inv l gate o : limits_in_width l -> gate_inv l gate -> gate_inv l (step gate o).
Proof.
  intros Hw Hinv. destruct o as [p|n|i|i]; simpl.
  - by apply acquire_request_inv.
  - by apply acquire_provider_inv.
  - destruct (guards gate !! i) as [g|] eqn:Hi; [|done].
    pose proof (release_inv l gate i g (<[ i := snd (finish (controller gate) g) ]> (guards gate)) Hinv Hi) as H.
    destruct (finish (controller gate) g) as [c g'] eqn:Ef. apply H. intros s.
    eapply held_slots_insert; [done|]. unfold finish in Ef. destruct (active g) eqn:Ea; by simplify_eq.
  - destruct (guards gate !! i) as [g|] eqn:Hi; [|done]. by eapply release_inv.
Qed.

Lemma init_inv l : gate_inv l {| controller := new l; guards := [] |}.
Proof.
  split; [done|]. split.
  - eexists. split; [done|]. split_and!; [done|exact tallies_empty..].
  - intros s. unfold held, held_slots. simpl. rewrite slot_count_nil. lia.
Qed.

Lemma run_inv l ops : limits_in_width l -> gate_inv l (run l ops).
Proof.
  intros Hw. unfold run. induction ops as [|o ops IH] using rev_ind; [apply init_inv|].
  rewrite foldl_app. by apply step_inv.
Qed.

Lemma no_active_held gs s : Forall (fun g => active g = false) gs -> slot_count s (held_slots gs) = 0.
Proof.
  induction 1 as [|g gs Hg _ IH]; [done|]. unfold held_slots in *. cbn [mbind list_bind].
  by rewrite slot_count_app, Hg, IH.
Qed.

(** ** Properties *)

(** C9: whatever sequence of acquisitions, finishes and drops is run, the
    global, pool and provider limits are never exceeded by the guards in
    flight, and the counters are exactly the slots those guards hold. *)
Theorem in_flight_within_limits l ops s n :
  limits_in_width l -> limit_of l s = Some n -> 0 <= n ->
  held (run l ops) s <= n /\
  exists k, counters (controller (run l ops)) = Unpoisoned k /\ counts k (held (run l ops)).
Proof.
  intros Hw Hn H0. destruct (run_inv l ops Hw) as (_ & Hk & Hlim). split; [|done].
  destruct (decide (0 < held (run l ops) s)) as [Hs|Hs]; [|lia].
  destruct (Hlim s Hs) as (n' & Hn' & Hle). congruence.
Qed.

(** An acquisition is granted exactly when there is room: a request gets
    its guard iff the gate and its pool are below their limits (the global
    limit is the one reported when both are exhausted), and the guard takes
    precisely the limited slots. *)
Theorem acquire_request_iff_room l ops p :
  limits_in_width l ->
  let gate := run l ops in
  let room s := forall n, limit_of l s = Some n -> held gate s < n in
  match snd (try_acquire_request (controller gate) p) with
  | Ok g => room Global /\ (forall q, p = Some q -> room (Pool q)) /\ active g = true /\
            slots g = filter (fun s => is_Some (limit_of l s)) (Global :: option_list (Pool <$> p))
  | Err r => rejection_retry_after_seconds r >= 1 /\
      ((reason r = GlobalInFlightLimit /\ ~ room Global) \/
       (reason r = PoolInFlightLimit /\ room Global /\ exists q, p = Some q /\ ~ room (Pool q)))
  end.
Proof.
  intros Hw gate room. destruct (run_inv l ops Hw) as (Hl & (k & Hk & Hg & Hp & Hv) & _). fold gate in Hl, Hk, Hg, Hp.
  assert (retry_after_seconds (limits (controller gate)) >= 1) as Hra by (unfold retry_after_seconds; lia).
  unfold try_acquire_request. rewrite Hk. cbn [lock].
  assert (is_some_and (max_global_in_flight (limits (controller gate))) (fun limit => limit <=? global_in_flight k) = false <->
    room Global) as Hglobal.
  { rewrite Hl. unfold room. simpl. destruct (max_global_in_flight l) as [m|]; simpl; [|naive_solver].
    rewrite Z.leb_gt, Hg. naive_solver. }
  destruct (is_some_and _ _) eqn:E; cbn [snd].
  { split; [done|]. left. split; [done|]. rewrite <-Hglobal. done. }
  assert (room Global) by by apply Hglobal.
  assert (pool_full (controller gate) k p = false <-> (forall q, p = Some q -> room (Pool q))) as Hpool.
  { unfold pool_full, room. rewrite Hl. destruct p as [q|]; [|naive_solver]. simpl.
    rewrite (tallies_default _ _ q Hp). destruct (pool_max_in_flight l !! q) as [m|] eqn:Em; [rewrite Z.leb_gt|];
    split; naive_solver. }
  destruct (pool_full (controller gate) k p) eqn:Ep.
  - cbn [snd]. split; [done|]. right. split; [done|]. split; [done|].
    destruct p as [q|]; [|done]. exists q. split; [done|]. intros Hr.
    assert (true = false); [|done]. apply Hpool. by intros ? [= <-].
  - destruct (take_global _ k) as [k1 s1] eqn:E1, (take_pool _ k1 p) as [k2 s2] eqn:E2. cbn [snd].
    split; [done|]. split; [by apply Hpool|]. split; [done|]. cbn [guard_new slots].
    rewrite <-Hl. by apply (taken_slots _ k k1 k2).
Qed.

(** No slot leaks: once every guard handed out has been finished or
    dropped, the counters are back to the idle state of a new controller. *)
Theorem idle_after_all_released l ops :
  limits_in_width l -> Forall (fun g => active g = false) (guards (run l ops)) ->
  controller (run l ops) = new l.
Proof.
  intros Hw Hall. destruct (run_inv l ops Hw) as (Hl & (k & Hk & Hg & Hp & Hv) & _).
  assert (forall s, held (run l ops) s = 0) as H0 by (intros s; by apply no_active_held).
  rewrite (H0 Global) in Hg. apply tallies_zero in Hp; [|intros; apply H0].
  apply tallies_zero in Hv; [|intros; apply H0].
  destruct (controller (run l ops)) as [ls cs]. simpl in *. subst ls cs.
  destruct k as [g ps vs]. simpl in *. by subst.
Qed.

(** ** Witnesses: a gate for one request at a time, in a pool of two *)

Definition example_limits : AdmissionLimits :=
  {| max_global_in_flight := Some 1; max_estimated_prompt_tokens := None;
     max_estimated_total_tokens := None; limits_retry_after_seconds := 0;
     pool_max_in_flight := {[ "p" := 2 ]}; provider_max_in_flight := ∅ |}.

Lemma example_limits_in_width : limits_in_width example_limits.
Proof.
  intros [|q|q] n; cbn [limit_of example_limits max_global_in_flight pool_max_in_flight provider_max_in_flight].
  - intros [= <-]. split; vm_compute; discriminate.
  - intros H. apply lookup_singleton_Some in H as [_ <-]. split; vm_compute; discriminate.
  - by rewrite lookup_empty.
Qed.

Lemma in_flight_within_limits_witness :
  held (run example_limits [AcquireRequest (Some "p"); AcquireRequest (Some "p")]) Global <= 1.
Proof.
  apply (in_flight_within_limits example_limits _ Global 1).
  - exact example_limits_in_width.
  - reflexivity.
  - lia.
Defined.

Lemma acquire_request_iff_room_witness :
  match snd (try_acquire_request
          (controller (run example_limits [AcquireRequest None])) (Some "p")) with
  | Ok _ => False
  | Err r => rejection_retry_after_seconds r >= 1
  end.
Proof.
  pose proof (acquire_request_iff_room example_limits [AcquireRequest None] (Some "p")
    example_limits_in_width) as H.
  vm_compute in H |- *. exact (proj1 H).
Defined.

Lemma idle_after_all_released_witness :
  controller (run example_limits [AcquireRequest (Some "p"); Finish 0]) = new example_limits.
Proof.
  apply idle_after_all_released; [exact example_limits_in_width|].
  repeat constructor.
Defined.

End Admission.
