(* ===== verification/Metrics.v ===== *)
(** * Metrics (src/src/telemetry/metrics.rs)

    The in-memory registry behind one mutex: request and attempt counters,
    bounded latency and error samples, per-provider load, and the snapshot that
    routing and the exporters read.  [provider_error_category] and
    [ProviderAttempt] come from src/src/routing/fallback.rs, where the sources
    declare them.  An index out of range panics; the functions that index are
    options, [None] being the panic. *)
From S2P Require Import Prelude Str F64 Chat Provider.

Open Scope string_scope.
Open Scope list_scope.
Open Scope Z_scope.

Module Metrics.

(** ** Attempts (src/src/routing/fallback.rs) *)

Inductive ProviderErrorCategory :=
| CatTimeout
| CatRateLimited
| CatAuthenticationFailed
| CatProviderUnavailable
| CatProviderBadResponse.

Definition ProviderErrorCategory_as_str (c : ProviderErrorCategory) : string :=
  match c with
  | CatTimeout => "timeout"
  | CatRateLimited => "rate_limited"
  | CatAuthenticationFailed => "authentication_failed"
  | CatProviderUnavailable => "provider_unavailable"
  | CatProviderBadResponse => "provider_bad_response"
  end.

Definition provider_error_category (e : Provider.ProviderError) : ProviderErrorCategory :=
  match e with
  | Provider.Timeout => CatTimeout
  | Provider.RateLimited => CatRateLimited
  | Provider.AuthenticationFailed => CatAuthenticationFailed
  | Provider.ProviderUnavailable => CatProviderUnavailable
  | Provider.ProviderBadResponse => CatProviderBadResponse
  end.

Record ProviderAttempt := {
  att_provider_name : string;
  attempt_order : Z;
  att_latency_ms : Z;
  success : bool;
  is_fallback : bool;
  error_category : option ProviderErrorCategory
}.

(** ** Load estimates *)

Definition MAX_LATENCY_SAMPLES : Z := 1024.
Definition MAX_ERROR_SAMPLES : Z := 1024.
Definition QUEUE_PRESSURE_TOKEN_UNIT : Z := 1024.

Record ProviderLoadEstimate := {
  load_prompt_tokens : Z;
  max_completion_tokens : option Z
}.

(** [div_ceil] rounds up. *)
Definition queue_pressure_units (l : ProviderLoadEstimate) : Z :=
  let estimated_tokens := u32_sat_add (load_prompt_tokens l) (default 0 (max_completion_tokens l)) in
  1 + (estimated_tokens + QUEUE_PRESSURE_TOKEN_UNIT - 1) / QUEUE_PRESSURE_TOKEN_UNIT.

Inductive StreamOutcome := Completed | MidStreamFailure | IdleTimeout | Incomplete | Cancelled.

Definition StreamOutcome_as_str (o : StreamOutcome) : string :=
  match o with
  | Completed => "completed"
  | MidStreamFailure => "mid_stream_failure"
  | IdleTimeout => "idle_timeout"
  | Incomplete => "incomplete"
  | Cancelled => "cancelled"
  end.

(** ** The registry and its snapshot *)

Record MetricsSnapshot := {
  snap_total_requests : Z;
  snap_successful_requests : Z;
  snap_failed_requests : Z;
  snap_in_flight_requests : Z;
  snap_total_provider_attempts : Z;
  snap_fallback_attempts : Z;
  snap_error_rate : F64.t;
  snap_avg_latency_ms : F64.t;
  snap_p95_latency_ms : F64.t;
  snap_estimated_prompt_tokens : Z;
  snap_estimated_completion_tokens : Z;
  snap_estimated_total_tokens : Z;
  snap_estimated_input_cost_usd : F64.t;
  snap_estimated_output_cost_usd : F64.t;
  snap_estimated_total_cost_usd : F64.t;
  snap_requests_by_provider : gmap string Z;
  snap_successes_by_provider : gmap string Z;
  snap_errors_by_provider : gmap string Z;
  snap_fallback_attempts_by_provider : gmap string Z;
  snap_request_errors_by_category : gmap string Z;
  snap_provider_errors_by_provider_and_category : gmap string (gmap string Z);
  snap_recent_provider_errors_by_provider_and_category : gmap string (gmap string Z);
  snap_admission_rejections_by_reason : gmap string Z;
  snap_avg_latency_ms_by_provider : gmap string F64.t;
  snap_p95_latency_ms_by_provider : gmap string F64.t;
  snap_in_flight_requests_by_provider : gmap string Z;
  snap_p50_ttft_ms_by_provider : gmap string F64.t;
  snap_p95_ttft_ms_by_provider : gmap string F64.t;
  snap_queue_pressure_by_provider : gmap string F64.t;
  snap_routing_decisions_by_policy_and_reason : gmap string (gmap string Z);
  snap_prefix_fingerprints_by_outcome : gmap string Z;
  snap_cache_lookups_by_outcome : gmap string Z;
  snap_cache_hit_ratio : F64.t;
  snap_stream_outcomes_by_outcome : gmap string Z;
  snap_p95_stream_duration_ms : F64.t
}.

Record MetricsRegistry := {
  total_requests : Z;
  successful_requests : Z;
  failed_requests : Z;
  in_flight_requests : Z;
  total_provider_attempts : Z;
  fallback_attempts : Z;
  estimated_prompt_tokens : Z;
  estimated_completion_tokens : Z;
  estimated_total_tokens : Z;
  estimated_input_cost_usd : F64.t;
  estimated_output_cost_usd : F64.t;
  estimated_total_cost_usd : F64.t;
  requests_by_provider : gmap string Z;
  successes_by_provider : gmap string Z;
  errors_by_provider : gmap string Z;
  fallback_attempts_by_provider : gmap string Z;
  request_errors_by_category : gmap string Z;
  provider_errors_by_provider_and_category : gmap string (gmap string Z);
  provider_error_samples : gmap string (list string);
  admission_rejections_by_reason : gmap string Z;
  provider_latency_samples_ms : gmap string (list Z);
  provider_ttft_samples_ms : gmap string (list Z);
  provider_total_latency_ms : gmap string Z;
  in_flight_requests_by_provider : gmap string Z;
  provider_queue_pressure_units : gmap string Z;
  routing_decisions_by_policy_and_reason : gmap string (gmap string Z);
  prefix_fingerprints_by_outcome : gmap string Z;
  latency_samples_ms : list Z;
  total_latency_ms : Z;
  cache_lookups_by_outcome : gmap string Z;
  stream_outcomes_by_outcome : gmap string Z;
  stream_duration_samples_ms : list Z
}.

Definition MetricsRegistry_default : MetricsRegistry :=
  {| total_requests := 0; successful_requests := 0; failed_requests := 0;
     in_flight_requests := 0; total_provider_attempts := 0; fallback_attempts := 0;
     estimated_prompt_tokens := 0; estimated_completion_tokens := 0;
     estimated_total_tokens := 0; estimated_input_cost_usd := F64.zero;
     estimated_output_cost_usd := F64.zero; estimated_total_cost_usd := F64.zero;
     requests_by_provider := ∅; successes_by_provider := ∅; errors_by_provider := ∅;
     fallback_attempts_by_provider := ∅; request_errors_by_category := ∅;
     provider_errors_by_provider_and_category := ∅; provider_error_samples := ∅;
     admission_rejections_by_reason := ∅; provider_latency_samples_ms := ∅;
     provider_ttft_samples_ms := ∅; provider_total_latency_ms := ∅;
     in_flight_requests_by_provider := ∅; provider_queue_pressure_units := ∅;
     routing_decisions_by_policy_and_reason := ∅; prefix_fingerprints_by_outcome := ∅;
     latency_samples_ms := []; total_latency_ms := 0; cache_lookups_by_outcome := ∅;
     stream_outcomes_by_outcome := ∅; stream_duration_samples_ms := [] |}.

(** Assignments to a field of the registry. *)

Definition eta_registry (m : MetricsRegistry) : MetricsRegistry :=
  {| total_requests := total_requests m; successful_requests := successful_requests m;
     failed_requests := failed_requests m; in_flight_requests := in_flight_requests m;
     total_provider_attempts := total_provider_attempts m;
     fallback_attempts := fallback_attempts m;
     estimated_prompt_tokens := estimated_prompt_tokens m;
     estimated_completion_tokens := estimated_completion_tokens m;
     estimated_total_tokens := estimated_total_tokens m;
     estimated_input_cost_usd := estimated_input_cost_usd m;
     estimated_output_cost_usd := estimated_output_cost_usd m;
     estimated_total_cost_usd := estimated_total_cost_usd m;
     requests_by_provider := requests_by_provider m;
     successes_by_provider := successes_by_provider m;
     errors_by_provider := errors_by_provider m;
     fallback_attempts_by_provider := fallback_attempts_by_provider m;
     request_errors_by_category := request_errors_by_category m;
     provider_errors_by_provider_and_category := provider_errors_by_provider_and_category m;
     provider_error_samples := provider_error_samples m;
     admission_rejections_by_reason := admission_rejections_by_reason m;
     provider_latency_samples_ms := provider_latency_samples_ms m;
     provider_ttft_samples_ms := provider_ttft_samples_ms m;
     provider_total_latency_ms := provider_total_latency_ms m;
     in_flight_requests_by_provider := in_flight_requests_by_provider m;
     provider_queue_pressure_units := provider_queue_pressure_units m;
     routing_decisions_by_policy_and_reason := routing_decisions_by_policy_and_reason m;
     prefix_fingerprints_by_outcome := prefix_fingerprints_by_outcome m;
     latency_samples_ms := latency_samples_ms m; total_latency_ms := total_latency_ms m;
     cache_lookups_by_outcome := cache_lookups_by_outcome m;
     stream_outcomes_by_outcome := stream_outcomes_by_outcome m;
     stream_duration_samples_ms := stream_duration_samples_ms m |}.

Definition set_total_requests (x : Z) (m : MetricsRegistry) :
  MetricsRegistry := ltac:(set_field eta_registry total_requests x m).
Definition set_successful_requests (x : Z) (m : MetricsRegistry) :
  MetricsRegistry := ltac:(set_field eta_registry successful_requests x m).
Definition set_failed_requests (x : Z) (m : MetricsRegistry) :
  MetricsRegistry := ltac:(set_field eta_registry failed_requests x m).
Definition set_in_flight_requests (x : Z) (m : MetricsRegistry) :
  MetricsRegistry := ltac:(set_field eta_registry in_flight_requests x m).
Definition set_total_provider_attempts (x : Z) (m : MetricsRegistry) :
  MetricsRegistry := ltac:(set_field eta_registry total_provider_attempts x m).
Definition set_fallback_attempts (x : Z) (m : MetricsRegistry) :
  MetricsRegistry := ltac:(set_field eta_registry fallback_attempts x m).
Definition set_estimated_prompt_tokens (x : Z) (m : MetricsRegistry) :
  MetricsRegistry := ltac:(set_field eta_registry estimated_prompt_tokens x m).
Definition set_estimated_completion_tokens (x : Z) (m : MetricsRegistry) :
  MetricsRegistry := ltac:(set_field eta_registry estimated_completion_tokens x m).
Definition set_estimated_total_tokens (x : Z) (m : MetricsRegistry) :
  MetricsRegistry := ltac:(set_field eta_registry estimated_total_tokens x m).
Definition set_estimated_input_cost_usd (x : F64.t) (m : MetricsRegistry) :
  MetricsRegistry := ltac:(set_field eta_registry estimated_input_cost_usd x m).
Definition set_estimated_output_cost_usd (x : F64.t) (m : MetricsRegistry) :
  MetricsRegistry := ltac:(set_field eta_registry estimated_output_cost_usd x m).
Definition set_estimated_total_cost_usd (x : F64.t) (m : MetricsRegistry) :
  MetricsRegistry := ltac:(set_field eta_registry estimated_total_cost_usd x m).
Definition set_requests_by_provider (x : gmap string Z) (m : MetricsRegistry) :
  MetricsRegistry := ltac:(set_field eta_registry requests_by_provider x m).
Definition set_successes_by_provider (x : gmap string Z) (m : MetricsRegistry) :
  MetricsRegistry := ltac:(set_field eta_registry successes_by_provider x m).
Definition set_errors_by_provider (x : gmap string Z) (m : MetricsRegistry) :
  MetricsRegistry := ltac:(set_field eta_registry errors_by_provider x m).
Definition set_fallback_attempts_by_provider (x : gmap string Z) (m : MetricsRegistry) :
  MetricsRegistry := ltac:(set_field eta_registry fallback_attempts_by_provider x m).
Definition set_request_errors_by_category (x : gmap string Z) (m : MetricsRegistry) :
  MetricsRegistry := ltac:(set_field eta_registry request_errors_by_category x m).
Definition set_provider_errors_by_provider_and_category (x : gmap string (gmap string Z)) (m : MetricsRegistry) :
  MetricsRegistry := ltac:(set_field eta_registry provider_errors_by_provider_and_category x m).
Definition set_provider_error_samples (x : gmap string (list string)) (m : MetricsRegistry) :
  MetricsRegistry := ltac:(set_field eta_registry provider_error_samples x m).
Definition set_admission_rejections_by_reason (x : gmap string Z) (m : MetricsRegistry) :
  MetricsRegistry := ltac:(set_field eta_registry admission_rejections_by_reason x m).
Definition set_provider_latency_samples_ms (x : gmap string (list Z)) (m : MetricsRegistry) :
  MetricsRegistry := ltac:(set_field eta_registry provider_latency_samples_ms x m).
Definition set_provider_ttft_samples_ms (x : gmap string (list Z)) (m : MetricsRegistry) :
  MetricsRegistry := ltac:(set_field eta_registry provider_ttft_samples_ms x m).
Definition set_provider_total_latency_ms (x : gmap string Z) (m : MetricsRegistry) :
  MetricsRegistry := ltac:(set_field eta_registry provider_total_latency_ms x m).
Definition set_in_flight_requests_by_provider (x : gmap string Z) (m : MetricsRegistry) :
  MetricsRegistry := ltac:(set_field eta_registry in_flight_requests_by_provider x m).
Definition set_provider_queue_pressure_units (x : gmap string Z) (m : MetricsRegistry) :
  MetricsRegistry := ltac:(set_field eta_registry provider_queue_pressure_units x m).
Definition set_routing_decisions_by_policy_and_reason (x : gmap string (gmap string Z)) (m : MetricsRegistry) :
  MetricsRegistry := ltac:(set_field eta_registry routing_decisions_by_policy_and_reason x m).
Definition set_prefix_fingerprints_by_outcome (x : gmap string Z) (m : MetricsRegistry) :
  MetricsRegistry := ltac:(set_field eta_registry prefix_fingerprints_by_outcome x m).
Definition set_latency_samples_ms (x : list Z) (m : MetricsRegistry) :
  MetricsRegistry := ltac:(set_field eta_registry latency_samples_ms x m).
Definition set_total_latency_ms (x : Z) (m : MetricsRegistry) :
  MetricsRegistry := ltac:(set_field eta_registry total_latency_ms x m).
Definition set_cache_lookups_by_outcome (x : gmap string Z) (m : MetricsRegistry) :
  MetricsRegistry := ltac:(set_field eta_registry cache_lookups_by_outcome x m).
Definition set_stream_outcomes_by_outcome (x : gmap string Z) (m : MetricsRegistry) :
  MetricsRegistry := ltac:(set_field eta_registry stream_outcomes_by_outcome x m).
Definition set_stream_duration_samples_ms (x : list Z) (m : MetricsRegistry) :
  MetricsRegistry := ltac:(set_field eta_registry stream_duration_samples_ms x m).

(** [map.entry(k).or_default().entry(k').or_default() += 1] *)
Definition count_add2 (k k' : string) (m : gmap string (gmap string Z)) :
  gmap string (gmap string Z) :=
  <[ k := count_add k' 1 (default ∅ (m !! k)) ]> m.

(** [if v.len() == MAX { v.remove(0) }; v.push(x)] *)
Definition push_bounded {A : Type} (bound : Z) (x : A) (l : list A) : list A :=
  (if Z.of_nat (length l) =? bound then tail l else l) ++ [x].

Definition push_sample {A : Type} (bound : Z) (k : string) (x : A) (m : gmap string (list A)) :
  gmap string (list A) :=
  <[ k := push_bounded bound x (default [] (m !! k)) ]> m.

(** [u128] addition. *)
Definition u128_add (x y : Z) : Z := (x + y) mod 2 ^ 128.

Definition begin_request (m : MetricsRegistry) : MetricsRegistry :=
  set_in_flight_requests (u64_sat_add (in_flight_requests m) 1) m.

Definition end_request (m : MetricsRegistry) : MetricsRegistry :=
  set_in_flight_requests (sat_sub (in_flight_requests m) 1) m.

Definition begin_provider_request (provider_name : string) (units : Z) (m : MetricsRegistry) :
  MetricsRegistry :=
  let m := set_in_flight_requests_by_provider
             (count_add provider_name 1 (in_flight_requests_by_provider m)) m in
  set_provider_queue_pressure_units
    (count_add provider_name units (provider_queue_pressure_units m)) m.

Definition decrement_or_remove (m : gmap string Z) (key : string) (amount : Z) : gmap string Z :=
  sub_or_remove key amount m.

Definition end_provider_request (provider_name : string) (units : Z) (m : MetricsRegistry) :
  MetricsRegistry :=
  let m := set_in_flight_requests_by_provider
             (decrement_or_remove (in_flight_requests_by_provider m) provider_name 1) m in
  set_provider_queue_pressure_units
    (decrement_or_remove (provider_queue_pressure_units m) provider_name units) m.

Definition record_provider_ttft (provider_name : string) (ttft_ms : Z) (m : MetricsRegistry) :
  MetricsRegistry :=
  set_provider_ttft_samples_ms
    (push_sample MAX_LATENCY_SAMPLES provider_name ttft_ms (provider_ttft_samples_ms m)) m.

Definition record_routing_decision (policy reason : string) (m : MetricsRegistry) :
  MetricsRegistry :=
  set_routing_decisions_by_policy_and_reason
    (count_add2 policy reason (routing_decisions_by_policy_and_reason m)) m.

Definition record_prefix_fingerprint (outcome : string) (m : MetricsRegistry) : MetricsRegistry :=
  set_prefix_fingerprints_by_outcome (count_add outcome 1 (prefix_fingerprints_by_outcome m)) m.

Definition record_admission_rejection (reason : string) (m : MetricsRegistry) : MetricsRegistry :=
  set_admission_rejections_by_reason (count_add reason 1 (admission_rejections_by_reason m)) m.

Definition record_cache_lookup (outcome : string) (m : MetricsRegistry) : MetricsRegistry :=
  set_cache_lookups_by_outcome (count_add outcome 1 (cache_lookups_by_outcome m)) m.

Definition record_stream_outcome (outcome : string) (duration_ms : Z) (m : MetricsRegistry) :
  MetricsRegistry :=
  let m := set_stream_outcomes_by_outcome
             (count_add outcome 1 (stream_outcomes_by_outcome m)) m in
  set_stream_duration_samples_ms
    (push_bounded MAX_LATENCY_SAMPLES duration_ms (stream_duration_samples_ms m)) m.

Definition record_latency_sample (latency_ms : Z) (m : MetricsRegistry) : MetricsRegistry :=
  set_latency_samples_ms (push_bounded MAX_LATENCY_SAMPLES latency_ms (latency_samples_ms m)) m.

Definition record_provider_latency_sample (provider_name : string) (latency_ms : Z)
  (m : MetricsRegistry) : MetricsRegistry :=
  set_provider_latency_samples_ms
    (push_sample MAX_LATENCY_SAMPLES provider_name latency_ms (provider_latency_samples_ms m)) m.

Definition record_provider_error_sample (provider_name category : string) (m : MetricsRegistry) :
  MetricsRegistry :=
  set_provider_error_samples
    (push_sample MAX_ERROR_SAMPLES provider_name category (provider_error_samples m)) m.

(** [*map.entry(k).or_default() += n] on a map of [u128] values. *)
Definition count_add_u128 (k : string) (n : Z) (m : gmap string Z) : gmap string Z :=
  <[ k := u128_add (default 0 (m !! k)) n ]> m.

(** One iteration of [record_provider_attempts]. *)
Definition record_provider_attempt (m : MetricsRegistry) (a : ProviderAttempt) : MetricsRegistry :=
  let name := att_provider_name a in
  let m := set_total_provider_attempts (u64_add (total_provider_attempts m) 1) m in
  let m := set_requests_by_provider (count_add name 1 (requests_by_provider m)) m in
  let m := set_provider_total_latency_ms
             (count_add_u128 name (att_latency_ms a) (provider_total_latency_ms m)) m in
  let m := record_provider_latency_sample name (att_latency_ms a) m in
  let m :=
    if success a
    then set_successes_by_provider (count_add name 1 (successes_by_provider m)) m
    else
      let m := set_errors_by_provider (count_add name 1 (errors_by_provider m)) m in
      match error_category a with
      | Some c =>
          let m := record_provider_error_sample name (ProviderErrorCategory_as_str c) m in
          set_provider_errors_by_provider_and_category
            (count_add2 name (ProviderErrorCategory_as_str c)
               (provider_errors_by_provider_and_category m)) m
      | None => m
      end in
  if is_fallback a
  then
    let m := set_fallback_attempts (u64_add (fallback_attempts m) 1) m in
    set_fallback_attempts_by_provider (count_add name 1 (fallback_attempts_by_provider m)) m
  else m.

Definition record_provider_attempts (attempts : list ProviderAttempt) (m : MetricsRegistry) :
  MetricsRegistry := foldl record_provider_attempt m attempts.

Definition record_chat_success (usage : Chat.TokenUsage) (cost : Provider.CostEstimate)
  (latency_ms : Z) (attempts : list ProviderAttempt) (m : MetricsRegistry) : MetricsRegistry :=
  let m := set_total_requests (u64_add (total_requests m) 1) m in
  let m := set_successful_requests (u64_add (successful_requests m) 1) m in
  let m := set_estimated_prompt_tokens
             (u64_add (estimated_prompt_tokens m) (Chat.prompt_tokens usage)) m in
  let m := set_estimated_completion_tokens
             (u64_add (estimated_completion_tokens m) (Chat.completion_tokens usage)) m in
  let m := set_estimated_total_tokens
             (u64_add (estimated_total_tokens m) (Chat.total_tokens usage)) m in
  let m := set_estimated_input_cost_usd
             (F64.add (estimated_input_cost_usd m) (Provider.input_cost_usd cost)) m in
  let m := set_estimated_output_cost_usd
             (F64.add (estimated_output_cost_usd m) (Provider.output_cost_usd cost)) m in
  let m := set_estimated_total_cost_usd
             (F64.add (estimated_total_cost_usd m) (Provider.total_cost_usd cost)) m in
  let m := set_total_latency_ms (u128_add (total_latency_ms m) latency_ms) m in
  record_provider_attempts attempts (record_latency_sample latency_ms m).

Definition record_chat_failure_with_category (latency_ms : Z) (attempts : list ProviderAttempt)
  (category : option string) (m : MetricsRegistry) : MetricsRegistry :=
  let m := set_total_requests (u64_add (total_requests m) 1) m in
  let m := set_failed_requests (u64_add (failed_requests m) 1) m in
  let m := match category with
    | Some c => set_request_errors_by_category (count_add c 1 (request_errors_by_category m)) m
    | None => m
    end in
  let m := set_total_latency_ms (u128_add (total_latency_ms m) latency_ms) m in
  record_provider_attempts attempts (record_latency_sample latency_ms m).

Definition record_chat_failure (latency_ms : Z) (attempts : list ProviderAttempt)
  (m : MetricsRegistry) : MetricsRegistry :=
  record_chat_failure_with_category latency_ms attempts None m.

Definition single_attempt (provider_name : string) (latency_ms : Z) (ok : bool) :
  list ProviderAttempt :=
  [{| att_provider_name := provider_name; attempt_order := 1; att_latency_ms := latency_ms;
      success := ok; is_fallback := false; error_category := None |}].

Definition record_success (provider_name : string) (usage : Chat.TokenUsage)
  (cost : Provider.CostEstimate) (latency_ms : Z) (m : MetricsRegistry) : MetricsRegistry :=
  record_chat_success usage cost latency_ms (single_attempt provider_name latency_ms true) m.

Definition record_failure (provider_name : string) (latency_ms : Z) (m : MetricsRegistry) :
  MetricsRegistry :=
  record_chat_failure latency_ms (single_attempt provider_name latency_ms false) m.

(** ** Derived figures *)

Definition error_rate (m : MetricsRegistry) : F64.t :=
  if total_requests m =? 0 then F64.zero
  else F64.div (F64.of_Z (failed_requests m)) (F64.of_Z (total_requests m)).

Definition avg_latency_ms (m : MetricsRegistry) : F64.t :=
  if total_requests m =? 0 then F64.zero
  else F64.div (F64.of_Z (total_latency_ms m)) (F64.of_Z (total_requests m)).

Definition p95 : F64.t := F64.literal 95 2.
Definition p50 : F64.t := F64.literal 50 2.

(** [(len as f64 * percentile).ceil() as usize - 1]; [None] where the
    subtraction would underflow. *)
Definition percentile_index (len : nat) (percentile : F64.t) : option nat :=
  let rank := F64.ceil_as_u64 (F64.mul (F64.of_Z (Z.of_nat len)) percentile) in
  if rank =? 0 then None else Some (Z.to_nat (rank - 1)).

Definition percentile_latency (samples : list Z) (percentile : F64.t) : option F64.t :=
  match samples with
  | [] => Some F64.zero
  | _ =>
      let sorted := sort_by Z.compare samples in
      match percentile_index (length sorted) percentile with
      | Some i => F64.of_Z <$> sorted !! i
      | None => None
      end
  end.

(** [iter().map(f).collect()] over a map, where [f] may panic. *)
Definition map_values {V W : Type} (f : V -> option W) (m : gmap string V) :
  option (gmap string W) :=
  if bool_decide (map_Forall (fun _ v => is_Some (f v)) m) then Some (omap f m) else None.

Definition p95_latency_ms (m : MetricsRegistry) : option F64.t :=
  percentile_latency (latency_samples_ms m) p95.

Definition avg_latency_ms_by_provider (m : MetricsRegistry) : gmap string F64.t :=
  map_imap (fun name requests =>
    let total := default 0 (provider_total_latency_ms m !! name) in
    Some (if requests =? 0 then F64.zero else F64.div (F64.of_Z total) (F64.of_Z requests)))
    (requests_by_provider m).

Definition p95_latency_ms_by_provider (m : MetricsRegistry) : option (gmap string F64.t) :=
  map_values (fun samples => percentile_latency samples p95) (provider_latency_samples_ms m).

Definition p95_ttft_ms_by_provider (m : MetricsRegistry) : option (gmap string F64.t) :=
  map_values (fun samples => percentile_latency samples p95) (provider_ttft_samples_ms m).

Definition p50_ttft_ms_by_provider (m : MetricsRegistry) : option (gmap string F64.t) :=
  map_values (fun samples => percentile_latency samples p50) (provider_ttft_samples_ms m).

Definition p95_stream_duration_ms (m : MetricsRegistry) : option F64.t :=
  percentile_latency (stream_duration_samples_ms m) p95.

Definition queue_pressure_by_provider (m : MetricsRegistry) : gmap string F64.t :=
  F64.of_Z <$> provider_queue_pressure_units m.

Definition recent_provider_errors_by_provider_and_category (m : MetricsRegistry) :
  gmap string (gmap string Z) :=
  (foldl (fun categories category => count_add category 1 categories) ∅)
    <$> provider_error_samples m.

Definition cache_hit_ratio (m : MetricsRegistry) : F64.t :=
  let hits := default 0 (cache_lookups_by_outcome m !! "hit") in
  let misses := default 0 (cache_lookups_by_outcome m !! "miss") in
  let total := u64_add hits misses in
  if total =? 0 then F64.zero else F64.div (F64.of_Z hits) (F64.of_Z total).


Definition snapshot (m : MetricsRegistry) : option MetricsSnapshot :=
  p95_latency ← p95_latency_ms m;
  p95_by_provider ← p95_latency_ms_by_provider m;
  p50_ttft ← p50_ttft_ms_by_provider m;
  p95_ttft ← p95_ttft_ms_by_provider m;
  p95_stream ← p95_stream_duration_ms m;
  Some
  {| snap_total_requests := total_requests m;
     snap_successful_requests := successful_requests m;
     snap_failed_requests := failed_requests m;
     snap_in_flight_requests := in_flight_requests m;
     snap_total_provider_attempts := total_provider_attempts m;
     snap_fallback_attempts := fallback_attempts m; snap_error_rate := error_rate m;
     snap_avg_latency_ms := avg_latency_ms m; snap_p95_latency_ms := p95_latency;
     snap_estimated_prompt_tokens := estimated_prompt_tokens m;
     snap_estimated_completion_tokens := estimated_completion_tokens m;
     snap_estimated_total_tokens := estimated_total_tokens m;
     snap_estimated_input_cost_usd := estimated_input_cost_usd m;
     snap_estimated_output_cost_usd := estimated_output_cost_usd m;
     snap_estimated_total_cost_usd := estimated_total_cost_usd m;
     snap_requests_by_provider := requests_by_provider m;
     snap_successes_by_provider := successes_by_provider m;
     snap_errors_by_provider := errors_by_provider m;
     snap_fallback_attempts_by_provider := fallback_attempts_by_provider m;
     snap_request_errors_by_category := request_errors_by_category m;
     snap_provider_errors_by_provider_and_category := provider_errors_by_provider_and_category m;
     snap_recent_provider_errors_by_provider_and_category := recent_provider_errors_by_provider_and_category m;
     snap_admission_rejections_by_reason := admission_rejections_by_reason m;
     snap_avg_latency_ms_by_provider := avg_latency_ms_by_provider m;
     snap_p95_latency_ms_by_provider := p95_by_provider;
     snap_in_flight_requests_by_provider := in_flight_requests_by_provider m;
     snap_p50_ttft_ms_by_provider := p50_ttft; snap_p95_ttft_ms_by_provider := p95_ttft;
     snap_queue_pressure_by_provider := queue_pressure_by_provider m;
     snap_routing_decisions_by_policy_and_reason := routing_decisions_by_policy_and_reason m;
     snap_prefix_fingerprints_by_outcome := prefix_fingerprints_by_outcome m;
     snap_cache_lookups_by_outcome := cache_lookups_by_outcome m;
     snap_cache_hit_ratio := cache_hit_ratio m;
     snap_stream_outcomes_by_outcome := stream_outcomes_by_outcome m;
     snap_p95_stream_duration_ms := p95_stream |}.


(** ** Guards *)

(** A guard refers to the registry it was created on. *)
Record ProviderInFlightGuard := {
  guard_provider_name : string;
  guard_units : Z;
  guard_active : bool
}.

Definition in_flight_guard_new (metrics : mutex MetricsRegistry) (provider_name : string)
  (load : ProviderLoadEstimate) : mutex MetricsRegistry * ProviderInFlightGuard :=
  let units := queue_pressure_units load in
  (match metrics with
   | Unpoisoned m => Unpoisoned (begin_provider_request provider_name units m)
   | Poisoned => Poisoned
   end,
   {| guard_provider_name := provider_name; guard_units := units; guard_active := true |}).

Definition in_flight_guard_finish (metrics : mutex MetricsRegistry) (g : ProviderInFlightGuard) :
  mutex MetricsRegistry * ProviderInFlightGuard :=
  if guard_active g
  then
    (match metrics with
     | Unpoisoned m =>
         Unpoisoned (end_provider_request (guard_provider_name g) (guard_units g) m)
     | Poisoned => Poisoned
     end,
     {| guard_provider_name := guard_provider_name g; guard_units := guard_units g;
        guard_active := false |})
  else (metrics, g).

Definition in_flight_guard_drop (metrics : mutex MetricsRegistry) (g : ProviderInFlightGuard) :
  mutex MetricsRegistry := fst (in_flight_guard_finish metrics g).

Record StreamMetricsGuard := { stream_started : Z; stream_active : bool }.

Definition stream_guard_new (now : Z) : StreamMetricsGuard :=
  {| stream_started := now; stream_active := true |}.

(** [elapsed().as_millis() as u64] *)
Definition elapsed_ms (now started : Z) : Z := as_millis (duration_since now started) mod 2 ^ 64.

Definition stream_guard_finish (now : Z) (outcome : StreamOutcome)
  (metrics : mutex MetricsRegistry) (g : StreamMetricsGuard) :
  mutex MetricsRegistry * StreamMetricsGuard :=
  if stream_active g
  then
    (match metrics with
     | Unpoisoned m =>
         Unpoisoned (record_stream_outcome (StreamOutcome_as_str outcome)
                       (elapsed_ms now (stream_started g)) m)
     | Poisoned => Poisoned
     end,
     {| stream_started := stream_started g; stream_active := false |})
  else (metrics, g).

Definition stream_guard_drop (now : Z) (metrics : mutex MetricsRegistry) (g : StreamMetricsGuard) :
  mutex MetricsRegistry := fst (stream_guard_finish now Cancelled metrics g).

(* ------------------------------------------------------------------ *)
(** ** Nearest-rank percentiles *)

(** The exact rank of the [num]-th percentile: the ceiling of [num * n / 100]. *)
Definition nearest_rank (num : Z) (n : nat) : nat := Z.to_nat ((num * Z.of_nat n + 99) / 100 - 1).

(** The floating-point index agrees with the exact one for every sample count
    the registry can hold; decided by evaluation. *)
Definition index_agrees (num : Z) (p : F64.t) : bool :=
  forallb (fun n => match percentile_index n p with
                    | Some i => (i =? nearest_rank num n)%nat
                    | None => false
                    end) (seq 1 (Z.to_nat MAX_LATENCY_SAMPLES)).

Lemma index_agrees_p95 : index_agrees 95 p95 = true.
Proof. vm_compute. reflexivity. Qed.

Lemma index_agrees_p50 : index_agrees 50 p50 = true.
Proof. vm_compute. reflexivity. Qed.

Lemma index_agrees_at num p n :
  index_agrees num p = true -> (1 <= n)%nat -> Z.of_nat n <= MAX_LATENCY_SAMPLES ->
  percentile_index n p = Some (nearest_rank num n).
Proof.
  unfold index_agrees. rewrite forallb_forall. intros H Hn Hmax.
  specialize (H n). rewrite in_seq in H. destruct (percentile_index n p) as [i|].
  - f_equal. apply Nat.eqb_eq. apply H. lia.
  - assert (false = true); [apply H; lia|done].
Qed.

Lemma nearest_rank_lt num n : 0 <= num <= 100 -> (1 <= n)%nat -> (nearest_rank num n < n)%nat.
Proof.
  unfold nearest_rank. intros Hnum Hn.
  assert ((num * Z.of_nat n + 99) / 100 < Z.of_nat n + 1); [|lia].
  apply Z.div_lt_upper_bound; nia.
Qed.

Lemma percentile_latency_rank num p samples :
  index_agrees num p = true -> samples <> [] -> Z.of_nat (length samples) <= MAX_LATENCY_SAMPLES ->
  percentile_latency samples p =
  F64.of_Z <$> sort_by Z.compare samples !! nearest_rank num (length samples).
Proof.
  intros Hp Hne Hlen. unfold percentile_latency. destruct samples as [|x l] eqn:E; [done|].
  rewrite <-E in *. rewrite sort_by_length.
  assert (1 <= length samples)%nat by (rewrite E; simpl; lia).
  by rewrite (index_agrees_at num p _ Hp) by done.
Qed.

Lemma percentile_latency_some num p samples :
  index_agrees num p = true -> 0 <= num <= 100 -> Z.of_nat (length samples) <= MAX_LATENCY_SAMPLES ->
  is_Some (percentile_latency samples p).
Proof.
  intros Hp Hnum Hlen. destruct (decide (samples = [])) as [->|Hne]; [by eexists|].
  rewrite (percentile_latency_rank num p _ Hp Hne Hlen). apply fmap_is_Some, lookup_lt_is_Some.
  rewrite sort_by_length. apply nearest_rank_lt; [done|]. destruct samples; simpl; [done|lia].
Qed.

(* ------------------------------------------------------------------ *)
(** ** The registry invariant *)

(** Every mutation of the registry that the gateway performs. *)
Inductive op :=
| BeginRequest | EndRequest
| BeginProvider (n : string) (units : Z) | EndProvider (n : string) (units : Z)
| Ttft (n : string) (ms : Z) | Routing (policy reason : string) | Fingerprint (outcome : string)
| AdmissionRejection (reason : string) | CacheLookup (outcome : string)
| StreamDone (outcome : string) (ms : Z)
| ChatSuccess (usage : Chat.TokenUsage) (cost : Provider.CostEstimate) (ms : Z)
    (attempts : list ProviderAttempt)
| ChatFailure (ms : Z) (attempts : list ProviderAttempt) (category : option string).

Definition apply_op (m : MetricsRegistry) (o : op) : MetricsRegistry :=
  match o with
  | BeginRequest => begin_request m
  | EndRequest => end_request m
  | BeginProvider n u => begin_provider_request n u m
  | EndProvider n u => end_provider_request n u m
  | Ttft n ms => record_provider_ttft n ms m
  | Routing p r => record_routing_decision p r m
  | Fingerprint out => record_prefix_fingerprint out m
  | AdmissionRejection r => record_admission_rejection r m
  | CacheLookup out => record_cache_lookup out m
  | StreamDone out ms => record_stream_outcome out ms m
  | ChatSuccess u c ms a => record_chat_success u c ms a m
  | ChatFailure ms a c => record_chat_failure_with_category ms a c m
  end.

Definition run (ops : list op) : MetricsRegistry := foldl apply_op MetricsRegistry_default ops.

Definition bounded {A : Type} (m : gmap string (list A)) : Prop :=
  map_Forall (fun _ l => Z.of_nat (length l) <= 1024) m.

(** A provider's count in a counter map. *)
Definition count_of (m : gmap string Z) (n : string) : Z := default 0 (m !! n).

Record registry_ok (m : MetricsRegistry) : Prop := {
  ok_latency : Z.of_nat (length (latency_samples_ms m)) <= 1024;
  ok_stream : Z.of_nat (length (stream_duration_samples_ms m)) <= 1024;
  ok_provider_latency : bounded (provider_latency_samples_ms m);
  ok_ttft : bounded (provider_ttft_samples_ms m);
  ok_errors : bounded (provider_error_samples m);
  ok_total : total_requests m = u64_add (successful_requests m) (failed_requests m);
  ok_by_provider : forall n, count_of (requests_by_provider m) n =
    u64_add (count_of (successes_by_provider m) n) (count_of (errors_by_provider m) n)
}.

Lemma push_bounded_length {A} (x : A) l :
  Z.of_nat (length l) <= 1024 -> Z.of_nat (length (push_bounded MAX_LATENCY_SAMPLES x l)) <= 1024.
Proof.
  unfold push_bounded, MAX_LATENCY_SAMPLES. intros Hl. rewrite length_app.
  destruct (Z.eqb_spec (Z.of_nat (length l)) 1024).
  - destruct l; [done|]. cbn [length tail] in *. lia.
  - cbn [length]. lia.
Qed.

Lemma push_sample_bounded {A} k (x : A) m : bounded m -> bounded (push_sample MAX_LATENCY_SAMPLES k x m).
Proof.
  intros Hm. apply map_Forall_insert_2; [|done]. apply push_bounded_length.
  destruct (m !! k) as [l|] eqn:E; simpl; [by apply (Hm k)|lia].
Qed.

Lemma count_of_add k n m j : count_of (count_add k n m) j = if decide (j = k) then u64_add (count_of m k) n else count_of m j.
Proof.
  unfold count_of, count_add. case_decide as H; [subst; by rewrite lookup_insert_eq|].
  by rewrite lookup_insert_ne.
Qed.

(** Adding one on either side of a modular sum. *)
Lemma u64_add_swap a b : u64_add (u64_add a b) 1 = u64_add (u64_add a 1) b.
Proof. unfold u64_add. rewrite !Zplus_mod_idemp_l. f_equal. lia. Qed.

Lemma u64_add_assoc1 a b : u64_add (u64_add a b) 1 = u64_add a (u64_add b 1).
Proof. unfold u64_add. rewrite Zplus_mod_idemp_l, Zplus_mod_idemp_r. f_equal. lia. Qed.

Create HintDb metrics.
#[export] Hint Resolve push_bounded_length push_sample_bounded : metrics.

Lemma record_provider_attempt_ok m a : registry_ok m -> registry_ok (record_provider_attempt m a).
Proof.
  intros [H1 H2 H3 H4 H5 H6 H7]. unfold record_provider_attempt.
  assert (forall (f g : gmap string Z -> gmap string Z),
    (forall n, count_of (f (successes_by_provider m)) n = if decide (n = att_provider_name a) then
        if success a then u64_add (count_of (successes_by_provider m) n) 1 else count_of (successes_by_provider m) n
      else count_of (successes_by_provider m) n) ->
    (forall n, count_of (g (errors_by_provider m)) n = if decide (n = att_provider_name a) then
        if success a then count_of (errors_by_provider m) n else u64_add (count_of (errors_by_provider m) n) 1
      else count_of (errors_by_provider m) n) ->
    forall n, count_of (count_add (att_provider_name a) 1 (requests_by_provider m)) n =
      u64_add (count_of (f (successes_by_provider m)) n) (count_of (g (errors_by_provider m)) n)) as Hcount.
  { intros f g Hf Hg n. rewrite count_of_add, Hf, Hg. case_decide as Hn; [subst n|by rewrite H7].
    rewrite H7. destruct (success a); [apply u64_add_swap|apply u64_add_assoc1]. }
  destruct (success a) eqn:Es, (is_fallback a), (error_category a);
    constructor; cbn -[push_sample push_bounded count_add]; auto with metrics.
  all: try apply push_sample_bounded; auto.
  all: try (apply (Hcount (count_add _ 1) id); intros n; rewrite ?count_of_add; case_decide; by subst).
  all: try (apply (Hcount id (count_add _ 1)); intros n; rewrite ?count_of_add; case_decide; by subst).
Qed.

Lemma record_provider_attempts_ok attempts m :
  registry_ok m -> registry_ok (record_provider_attempts attempts m).
Proof.
  unfold record_provider_attempts. revert m. induction attempts as [|a l IH]; intros m Hm; simpl; [done|].
  by apply IH, record_provider_attempt_ok.
Qed.

Lemma apply_op_ok m o : registry_ok m -> registry_ok (apply_op m o).
Proof.
  intros Hm. destruct o; simpl.
  all: try (destruct Hm; constructor; cbn -[push_sample push_bounded count_add]; auto with metrics; fail).
  - apply record_provider_attempts_ok. destruct Hm as [? ? ? ? ? Ht ?].
    constructor; cbn -[push_bounded]; auto with metrics. by rewrite Ht, u64_add_swap.
  - apply record_provider_attempts_ok. destruct Hm as [? ? ? ? ? Ht ?].
    destruct category; constructor; cbn -[push_bounded count_add]; auto with metrics;
      by rewrite Ht, u64_add_assoc1.
Qed.

Lemma run_ok ops : registry_ok (run ops).
Proof.
  unfold run. induction ops as [|o ops IH] using rev_ind.
  - simpl. constructor; simpl; try lia; try done; intros; apply map_Forall_empty.
  - rewrite foldl_app. by apply apply_op_ok.
Qed.

Lemma map_values_some {V W} (f : V -> option W) m :
  map_Forall (fun _ v => is_Some (f v)) m -> map_values f m = Some (omap f m).
Proof. intros H. unfold map_values. by rewrite bool_decide_eq_true_2. Qed.

Lemma bounded_percentiles num p (m : gmap string (list Z)) :
  index_agrees num p = true -> 0 <= num <= 100 -> bounded m ->
  map_values (fun l => percentile_latency l p) m = Some (omap (fun l => percentile_latency l p) m).
Proof.
  intros Hp Hn Hm. apply map_values_some. intros k l Hl. by apply (percentile_latency_some num), (Hm k).
Qed.

Lemma snapshot_of_ok m : registry_ok m -> is_Some (snapshot m).
Proof.
  intros [H1 H2 H3 H4 _ _ _]. unfold snapshot.
  destruct (percentile_latency_some 95 p95 _ index_agrees_p95 ltac:(lia) H1) as [x1 E1].
  destruct (percentile_latency_some 95 p95 _ index_agrees_p95 ltac:(lia) H2) as [x2 E2].
  unfold p95_latency_ms, p95_stream_duration_ms, p95_latency_ms_by_provider, p50_ttft_ms_by_provider,
    p95_ttft_ms_by_provider. rewrite E1, E2.
  rewrite (bounded_percentiles 95 p95 _ index_agrees_p95 ltac:(lia) H3),
    (bounded_percentiles 50 p50 _ index_agrees_p50 ltac:(lia) H4),
    (bounded_percentiles 95 p95 _ index_agrees_p95 ltac:(lia) H4). by eexists.
Qed.

(* ------------------------------------------------------------------ *)
(** ** Provider load: what the live guards add up to *)

Record Load := { registry : mutex MetricsRegistry; live : list ProviderInFlightGuard }.

Inductive guard_op :=
| NewGuard (n : string) (load : ProviderLoadEstimate)
| FinishGuard (i : nat)
| DropGuard (i : nat).

Definition guard_step (s : Load) (o : guard_op) : Load :=
  match o with
  | NewGuard n load =>
      let '(r, g) := in_flight_guard_new (registry s) n load in
      {| registry := r; live := g :: live s |}
  | FinishGuard i =>
      match live s !! i with
      | Some g => let '(r, g') := in_flight_guard_finish (registry s) g in
                  {| registry := r; live := <[ i := g' ]> (live s) |}
      | None => s
      end
  | DropGuard i =>
      match live s !! i with
      | Some g => {| registry := in_flight_guard_drop (registry s) g; live := delete i (live s) |}
      | None => s
      end
  end.

(** The sum of a weight over the active guards of a provider. *)
Definition weight (w : ProviderInFlightGuard -> Z) (n : string) (g : ProviderInFlightGuard) : Z :=
  if guard_active g && String.eqb (guard_provider_name g) n then w g else 0.
Definition total (w : ProviderInFlightGuard -> Z) (n : string) (gs : list ProviderInFlightGuard) : Z :=
  foldr (fun g acc => weight w n g + acc) 0 gs.

(** The largest pressure one request can add: [u32::MAX] tokens. *)
Definition max_units : Z := 2 ^ 22 + 1.

Definition load_inv (s : Load) : Prop :=
  Forall (fun g => 1 <= guard_units g <= max_units) (live s) /\
  exists m, registry s = Unpoisoned m /\
    tallies (in_flight_requests_by_provider m) (fun n => total (fun _ => 1) n (live s)) /\
    tallies (provider_queue_pressure_units m) (fun n => total guard_units n (live s)).

Definition load_run (ops : list guard_op) : Load :=
  foldl guard_step {| registry := Unpoisoned MetricsRegistry_default; live := [] |} ops.

(** Token estimates are unsigned. *)
Definition load_ok (l : ProviderLoadEstimate) : Prop :=
  0 <= load_prompt_tokens l /\ (forall n, max_completion_tokens l = Some n -> 0 <= n).
Definition op_ok (o : guard_op) : Prop := match o with NewGuard _ l => load_ok l | _ => True end.

Lemma queue_pressure_units_range l : load_ok l -> 1 <= queue_pressure_units l <= max_units.
Proof.
  intros [Hp Hm]. unfold queue_pressure_units, QUEUE_PRESSURE_TOKEN_UNIT, max_units.
  assert (0 <= u32_sat_add (load_prompt_tokens l) (default 0 (max_completion_tokens l)) <= u32_max) as H0.
  { destruct (max_completion_tokens l) as [n|]; simpl; [specialize (Hm n eq_refl)|]; width. }
  change u32_max with 4294967295 in H0.
  match goal with |- context [?x / 1024] => pose proof (Z.div_pos x 1024);
    assert (x / 1024 < 2 ^ 22 + 1) by (apply Z.div_lt_upper_bound; lia) end. lia.
Qed.

Lemma weight_nonneg w n gs :
  Forall (fun g => 0 <= w g) gs -> 0 <= total w n gs.
Proof.
  induction 1 as [|g gs Hg _ IH]; simpl; [lia|]. unfold weight. destruct (_ && _); lia.
Qed.

Lemma total_at w n gs i g :
  gs !! i = Some g -> total w n gs = weight w n g + total w n (delete i gs).
Proof.
  revert i. induction gs as [|g0 gs IH]; intros [|i] Hi; simplify_eq/=; [done|].
  rewrite (IH i Hi). lia.
Qed.

Lemma total_insert_inactive w n gs i g g' :
  gs !! i = Some g -> guard_active g' = false -> total w n (<[ i := g' ]> gs) = total w n (delete i gs).
Proof.
  revert i. induction gs as [|g0 gs IH]; intros [|i] Hi Ha; simplify_eq/=.
  - unfold weight. by rewrite Ha.
  - by rewrite (IH i).
Qed.

(** Ending an active guard's request subtracts its weight from its provider. *)
Lemma tallies_release w (m : gmap string Z) gs gs' i g :
  Forall (fun g => 0 <= w g) gs -> gs !! i = Some g -> guard_active g = true ->
  (forall n, total w n gs' = total w n (delete i gs)) ->
  tallies m (fun n => total w n gs) ->
  tallies (sub_or_remove (guard_provider_name g) (w g) m) (fun n => total w n gs').
Proof.
  intros Hw Hi Ha Hgs Hm. pose proof (fun n => total_at w n gs i g Hi) as Hat. unfold weight in Hat.
  rewrite Ha in Hat. eapply tallies_sub; [exact Hm|..]; cbv beta.
  - rewrite Hat, String.eqb_refl. simpl.
    pose proof (weight_nonneg w (guard_provider_name g) (delete i gs)) as H0.
    rewrite Forall_lookup in Hw. pose proof (Hw _ _ Hi).
    assert (Forall (fun g => 0 <= w g) (delete i gs)) as Hd.
    { by apply Forall_delete, Forall_lookup. }
    specialize (H0 Hd). lia.
  - rewrite Hgs, Hat, String.eqb_refl. simpl. lia.
  - intros j Hj. rewrite Hgs, Hat. destruct (String.eqb_spec (guard_provider_name g) j); [congruence|].
    simpl. lia.
Qed.

Lemma total_cons w n g gs : total w n (g :: gs) = weight w n g + total w n gs.
Proof. done. Qed.

Arguments total : simpl never.

Lemma total_le w n gs c :
  0 <= c -> Forall (fun g => 0 <= w g <= c) gs -> total w n gs <= c * Z.of_nat (length gs).
Proof.
  intros Hc. induction 1 as [|g gs Hg _ IH]; [unfold total; simpl; lia|]. rewrite total_cons. unfold weight.
  simpl length. destruct (_ && _); lia.
Qed.

Lemma units_weights s :
  load_inv s -> Forall (fun g => 0 <= guard_units g) (live s) /\
                Forall (fun g => 0 <= (fun _ : ProviderInFlightGuard => 1) g) (live s).
Proof.
  intros [Hf _]. split; (eapply Forall_impl; [exact Hf|]); simpl; lia.
Qed.

Lemma release_load s i g gs' :
  load_inv s -> live s !! i = Some g ->
  Forall (fun g => 1 <= guard_units g <= max_units) gs' ->
  (forall w n, total w n gs' = total w n (delete i (live s))) ->
  load_inv {| registry := fst (in_flight_guard_finish (registry s) g); live := gs' |}.
Proof.
  intros Hinv Hi Hf Hgs. destruct (units_weights s Hinv) as [Hu H1].
  destruct Hinv as (_ & m & Hm & Ht1 & Htu). split; [done|].
  unfold in_flight_guard_finish. rewrite Hm. destruct (guard_active g) eqn:Ha; cbn [fst].
  - eexists. split; [done|]. split.
    + apply (tallies_release (fun _ => 1) _ (live s) gs' i g); auto.
    + apply (tallies_release guard_units _ (live s) gs' i g); auto.
  - exists m. split; [done|]. split; (eapply tallies_ext; [eassumption|]); intros n; cbv beta;
      rewrite Hgs, (total_at _ n _ i g Hi); unfold weight; rewrite Ha; simpl; lia.
Qed.

Lemma new_guard_load s n l :
  load_inv s -> load_ok l -> Z.of_nat (length (live s)) <= 2 ^ 40 ->
  load_inv (guard_step s (NewGuard n l)).
Proof.
  intros Hinv Hl Hlen. pose proof (queue_pressure_units_range l Hl) as Hq.
  destruct (units_weights s Hinv) as [Hu H1]. destruct Hinv as (Hf & m & Hm & Ht1 & Htu).
  pose proof (total_le guard_units n (live s) max_units) as Hbu.
  pose proof (total_le (fun _ => 1) n (live s) 1) as Hb1.
  pose proof (weight_nonneg guard_units n _ Hu). pose proof (weight_nonneg (fun _ => 1) n _ H1).
  assert (total guard_units n (live s) <= max_units * 2 ^ 40).
  { etrans; [apply Hbu|]; [done| |unfold max_units; lia]. eapply Forall_impl; [exact Hf|]. simpl. lia. }
  assert (total (fun _ => 1) n (live s) <= 2 ^ 40).
  { etrans; [apply Hb1|]; [done| |lia]. eapply Forall_impl; [exact Hf|]. simpl. lia. }
  simpl. rewrite Hm. split; [by constructor|]. eexists. split; [done|].
  cbn -[count_add]. split.
  - eapply tallies_add; [exact Ht1|lia|lia|..]; cbv beta; rewrite ?total_cons; unfold weight; simpl.
    + unfold u64_max. lia.
    + rewrite String.eqb_refl. lia.
    + intros j Hj. rewrite total_cons. unfold weight. simpl.
      destruct (String.eqb_spec n j); [congruence|done].
  - eapply tallies_add; [exact Htu|lia|apply (Z.lt_le_trans _ 1); [lia|apply Hq]|..]; cbv beta;
      rewrite ?total_cons; unfold weight; simpl.
    + unfold u64_max, max_units in *. lia.
    + rewrite String.eqb_refl. lia.
    + intros j Hj. rewrite total_cons. unfold weight. simpl.
      destruct (String.eqb_spec n j); [congruence|done].
Qed.

Lemma guard_step_load s o :
  load_inv s -> op_ok o -> Z.of_nat (length (live s)) <= 2 ^ 40 -> load_inv (guard_step s o).
Proof.
  intros Hinv Hok Hlen. destruct o as [n l|i|i]; [by apply new_guard_load|..]; simpl;
    (destruct (live s !! i) as [g|] eqn:Hi; [|done]).
  - pose proof (release_load s i g (<[ i := snd (in_flight_guard_finish (registry s) g) ]> (live s)) Hinv Hi) as H.
    destruct Hinv as [Hf _]. destruct (in_flight_guard_finish (registry s) g) as [r g'] eqn:E. apply H; simpl.
    + apply Forall_insert; [done|]. rewrite Forall_lookup in Hf. specialize (Hf i g Hi).
      unfold in_flight_guard_finish in E. destruct (guard_active g); by simplify_eq/=.
    + intros w n. eapply total_insert_inactive; [done|].
      unfold in_flight_guard_finish in E. destruct (guard_active g) eqn:Ea; by simplify_eq/=.
  - apply (release_load s i g); [done..| |done]. by apply Forall_delete, Hinv.
Qed.

Lemma guard_step_length s o : (length (live (guard_step s o)) <= S (length (live s)))%nat.
Proof.
  destruct o as [n l|i|i]; simpl; [done|..]; (destruct (live s !! i) as [g|] eqn:E; simpl; [|lia]).
  - destruct (in_flight_guard_finish (registry s) g). simpl. rewrite length_insert. lia.
  - rewrite length_delete by by eexists. lia.
Qed.

Lemma load_run_length ops : (length (live (load_run ops)) <= length ops)%nat.
Proof.
  unfold load_run. induction ops as [|o ops IH] using rev_ind; [done|].
  rewrite foldl_app, length_app. simpl. pose proof (guard_step_length (foldl guard_step
    {| registry := Unpoisoned MetricsRegistry_default; live := [] |} ops) o). lia.
Qed.

Lemma load_run_inv ops :
  Forall op_ok ops -> Z.of_nat (length ops) <= 2 ^ 40 -> load_inv (load_run ops).
Proof.
  induction ops as [|o ops IH] using rev_ind.
  - intros _ _. split; [constructor|]. eexists. split; [done|]. split; exact tallies_empty.
  - rewrite Forall_app, Forall_singleton, length_app. simpl length. intros [Hops Ho] Hlen.
    unfold load_run. rewrite foldl_app. simpl. fold (load_run ops).
    pose proof (load_run_length ops). apply guard_step_load; [apply IH; [done|lia]|done|lia].
Qed.

(* ------------------------------------------------------------------ *)
(** ** Properties *)

(** The p95 figures are exact nearest-rank percentiles: on at most 1024
    samples, the index computed in floating point is the exact
    [ceil(95 n / 100) - 1], it is in range, and the figure is the sample at
    that place of the sorted samples. *)
Theorem p95_is_nearest_rank samples :
  samples <> [] -> Z.of_nat (length samples) <= MAX_LATENCY_SAMPLES ->
  exists x, sort_by Z.compare samples !! nearest_rank 95 (length samples) = Some x /\
    x ∈ samples /\ percentile_latency samples p95 = Some (F64.of_Z x).
Proof.
  intros Hne Hlen. rewrite (percentile_latency_rank 95 p95 _ index_agrees_p95 Hne Hlen).
  destruct (lookup_lt_is_Some_2 (sort_by Z.compare samples) (nearest_rank 95 (length samples))) as [x Hx].
  { rewrite sort_by_length. apply nearest_rank_lt; [lia|]. destruct samples; simpl; [done|lia]. }
  exists x. rewrite Hx. split; [done|]. split; [|done].
  by eapply (sort_by_elem_of Z.compare), list_elem_of_lookup_2.
Qed.

Lemma p95_is_nearest_rank_witness : percentile_latency [30; 10; 20] p95 = Some (F64.of_Z 30).
Proof.
  destruct (p95_is_nearest_rank [30; 10; 20]) as (x & Hx & _ & H); [done|vm_compute; discriminate|].
  rewrite H. vm_compute in Hx. injection Hx as <-. reflexivity.
Defined.

(** C38: whatever the gateway records, in any order, the samples stay within
    1024 entries, total requests are successes plus failures and, per
    provider, requests are successes plus errors (modulo 2^64), and taking a
    snapshot never panics, so the mutex around the registry is never poisoned
    by it. *)
Theorem registry_consistent ops :
  registry_ok (run ops) /\ is_Some (snapshot (run ops)).
Proof. split; [apply run_ok|apply snapshot_of_ok, run_ok]. Qed.

(** C37: the per-provider load that routing reads is exact: after any sequence
    of guard creations, finishes and drops, a provider's in-flight count and
    queue pressure are the number and the summed pressure of its active guards,
    and a provider without active guards has no entry. *)
Theorem provider_load_exact ops :
  Forall op_ok ops -> Z.of_nat (length ops) <= 2 ^ 40 ->
  exists m, registry (load_run ops) = Unpoisoned m /\
    tallies (in_flight_requests_by_provider m) (fun n => total (fun _ => 1) n (live (load_run ops))) /\
    tallies (provider_queue_pressure_units m) (fun n => total guard_units n (live (load_run ops))).
Proof. intros Hok Hlen. by destruct (load_run_inv ops Hok Hlen) as [_ H]. Qed.

Definition example_load : ProviderLoadEstimate :=
  {| load_prompt_tokens := 2000; max_completion_tokens := Some 100 |}.

Lemma provider_load_exact_witness :
  exists m, registry (load_run [NewGuard "a" example_load; NewGuard "a" example_load; DropGuard 0])
            = Unpoisoned m /\ in_flight_requests_by_provider m !! "a" = Some 1.
Proof.
  destruct (provider_load_exact [NewGuard "a" example_load; NewGuard "a" example_load; DropGuard 0])
    as (m & Hm & H & _).
  - repeat constructor; try done; simpl; intros; simplify_eq; lia.
  - vm_compute. discriminate.
  - exists m. split; [exact Hm|]. exact (eq_trans (H "a") eq_refl).
Defined.

End Metrics.
