(* ===== verification/Lru.v ===== *)
(** * The interface of the [lru] crate

    The prefix-affinity index and the rate limiter keep their entries in an
    [lru::LruCache<String, V>], which is not part of the sources.  [LruOps]
    has the operations they call, [LruLaws] the documented behaviour they rely
    on, stated through [lru_lookup], what the cache holds for a key.  The
    components are parametrised by an instance.  Creating a cache panics
    when its table would not fit into memory; [lru_fits] says which sizes do.
    The components' theorems hold for any instance; [ref_lru], an association list
    in recency order, shows the laws can be met. *)
From S2P Require Import Prelude.

Class LruOps (C : Type -> Type) := {
  lru_new : forall V, Z -> C V;
  (** whether the table for that many entries can be allocated, which [new]
      does at once: it panics if not (capacity overflow) *)
  lru_fits : Z -> bool;
  lru_cap : forall V, C V -> Z;
  lru_len : forall V, C V -> Z;
  (** the entry for a key, without touching the recency order *)
  lru_lookup : forall V, C V -> string -> option V;
  lru_contains : forall V, C V -> string -> bool;
  (** [get]: the entry becomes the most recent *)
  lru_get : forall V, string -> C V -> option V * C V;
  (** [put]: the least recent entry makes room when a new key meets the bound *)
  lru_put : forall V, string -> V -> C V -> C V;
  lru_pop : forall V, string -> C V -> C V;
  (** [get_or_insert_mut]: the entry found or made, and the cache after it *)
  lru_get_or_insert : forall V, string -> V -> C V -> V * C V;
  (** assignment through the reference [get_mut]/[get_or_insert_mut] returned *)
  lru_write : forall V, string -> V -> C V -> C V
}.
Arguments lru_new {C _ V} _.
Arguments lru_cap {C _ V} _.
Arguments lru_len {C _ V} _.
Arguments lru_lookup {C _ V} _ _.
Arguments lru_contains {C _ V} _ _.
Arguments lru_get {C _ V} _ _.
Arguments lru_put {C _ V} _ _ _.
Arguments lru_pop {C _ V} _ _.
Arguments lru_get_or_insert {C _ V} _ _ _.
Arguments lru_write {C _ V} _ _ _.

Class LruLaws (C : Type -> Type) `{LruOps C} := {
  lru_new_lookup : forall V n k, lru_lookup (lru_new (V:=V) n) k = None;
  lru_contains_lookup : forall V (c : C V) k, lru_contains c k = is_some (lru_lookup c k);
  lru_get_value : forall V k (c : C V), fst (lru_get k c) = lru_lookup c k;
  lru_get_lookup : forall V k (c : C V) j, lru_lookup (snd (lru_get k c)) j = lru_lookup c j;
  lru_put_same : forall V k v (c : C V), 1 <= lru_cap c -> lru_lookup (lru_put k v c) k = Some v;
  lru_put_other : forall V k v (c : C V) j w,
    j <> k -> lru_lookup (lru_put k v c) j = Some w -> lru_lookup c j = Some w;
  lru_pop_same : forall V k (c : C V), lru_lookup (lru_pop k c) k = None;
  lru_pop_other : forall V k (c : C V) j, j <> k -> lru_lookup (lru_pop k c) j = lru_lookup c j;
  lru_goi_found : forall V k v w (c : C V), lru_lookup c k = Some w ->
    fst (lru_get_or_insert k v c) = w /\
    forall j, lru_lookup (snd (lru_get_or_insert k v c)) j = lru_lookup c j;
  lru_goi_new : forall V k v (c : C V), 1 <= lru_cap c -> lru_lookup c k = None ->
    fst (lru_get_or_insert k v c) = v /\
    lru_lookup (snd (lru_get_or_insert k v c)) k = Some v /\
    forall j w, j <> k -> lru_lookup (snd (lru_get_or_insert k v c)) j = Some w ->
      lru_lookup c j = Some w;
  lru_write_lookup : forall V k v (c : C V) j, lru_lookup (lru_write k v c) j =
    if decide (j = k) then (fun _ => v) <$> lru_lookup c k else lru_lookup c j;
  lru_cap_new : forall V n, lru_cap (lru_new (V:=V) n) = n;
  lru_cap_get : forall V k (c : C V), lru_cap (snd (lru_get k c)) = lru_cap c;
  lru_cap_put : forall V k v (c : C V), lru_cap (lru_put k v c) = lru_cap c;
  lru_cap_pop : forall V k (c : C V), lru_cap (lru_pop k c) = lru_cap c;
  lru_cap_goi : forall V k v (c : C V), lru_cap (snd (lru_get_or_insert k v c)) = lru_cap c;
  lru_cap_write : forall V k v (c : C V), lru_cap (lru_write k v c) = lru_cap c
}.

(* ------------------------------------------------------------------ *)
(** ** A reference implementation: entries in recency order *)

Record ref_lru (V : Type) := { ref_cap : Z; ref_entries : list (string * V) }.
Arguments ref_cap {V} _.
Arguments ref_entries {V} _.
Arguments Build_ref_lru {V} _ _.

Fixpoint assoc {V : Type} (k : string) (l : list (string * V)) : option V :=
  match l with
  | [] => None
  | (j, v) :: l' => if String.eqb k j then Some v else assoc k l'
  end.

Definition remove_key {V : Type} (k : string) (l : list (string * V)) : list (string * V) :=
  filter (fun e => e.1 <> k) l.

(** Put the entry first and cut to the capacity. *)
Definition to_front {V : Type} (k : string) (v : V) (c : ref_lru V) : ref_lru V :=
  Build_ref_lru (ref_cap c) (take (Z.to_nat (ref_cap c)) ((k, v) :: remove_key k (ref_entries c))).

#[export] Instance ref_lru_ops : LruOps ref_lru := {|
  lru_new V n := Build_ref_lru n [];
  lru_fits n := n <? 2 ^ 58;
  lru_cap V c := ref_cap c;
  lru_len V c := Z.of_nat (length (ref_entries c));
  lru_lookup V c k := assoc k (ref_entries c);
  lru_contains V c k := is_some (assoc k (ref_entries c));
  lru_get V k c :=
    match assoc k (ref_entries c) with
    | Some v => (Some v, Build_ref_lru (ref_cap c) ((k, v) :: remove_key k (ref_entries c)))
    | None => (None, c)
    end;
  lru_put V k v c := to_front k v c;
  lru_pop V k c := Build_ref_lru (ref_cap c) (remove_key k (ref_entries c));
  lru_get_or_insert V k v c :=
    match assoc k (ref_entries c) with
    | Some w => (w, Build_ref_lru (ref_cap c) ((k, w) :: remove_key k (ref_entries c)))
    | None => (v, to_front k v c)
    end;
  lru_write V k v c :=
    Build_ref_lru (ref_cap c)
      (map (fun e => if String.eqb k e.1 then (e.1, v) else e) (ref_entries c))
|}.

Section RefFacts.
Context {V : Type}.
Implicit Types (l : list (string * V)).

Lemma assoc_remove_same k l : assoc k (remove_key k l) = None.
Proof.
  unfold remove_key. induction l as [|[j v] l IH]; [done|]. rewrite filter_cons. simpl.
  case_decide as Hj; [|done]. simpl. by destruct (String.eqb_spec k j); [congruence|].
Qed.

Lemma assoc_remove_other k j l : j <> k -> assoc j (remove_key k l) = assoc j l.
Proof.
  unfold remove_key. intros Hne. induction l as [|[i v] l IH]; [done|]. rewrite filter_cons. simpl.
  case_decide as Hi; simpl; [by rewrite IH|]. rewrite IH. destruct (String.eqb_spec j i); [|done].
  destruct Hi. congruence.
Qed.

Lemma assoc_front k v l j :
  assoc j ((k, v) :: remove_key k l) = if decide (j = k) then Some v else assoc j l.
Proof.
  cbn [assoc]. destruct (String.eqb_spec j k) as [->|Hne]; [by rewrite decide_True|].
  rewrite decide_False by done. by apply assoc_remove_other.
Qed.

Lemma assoc_take n l j w : assoc j (take n l) = Some w -> assoc j l = Some w.
Proof.
  revert n. induction l as [|[i v] l IH]; intros [|n]; simpl; [done..|].
  destruct (String.eqb j i); [done|]. apply IH.
Qed.

Lemma assoc_write k v l j :
  assoc j (map (fun e => if String.eqb k e.1 then (e.1, v) else e) l) =
  if decide (j = k) then (fun _ => v) <$> assoc k l else assoc j l.
Proof.
  induction l as [|[i u] l IH]; simpl; [by case_decide|].
  destruct (String.eqb_spec k i) as [->|Hki]; simpl.
  - destruct (String.eqb_spec j i) as [->|Hji]; [by rewrite decide_True|].
    rewrite IH. by rewrite !decide_False by done.
  - destruct (String.eqb_spec j i) as [->|Hji]; [by rewrite decide_False by congruence|]. apply IH.
Qed.

Lemma to_front_same k v (c : ref_lru V) : 1 <= ref_cap c -> assoc k (ref_entries (to_front k v c)) = Some v.
Proof.
  intros Hc. unfold to_front. simpl. destruct (Z.to_nat (ref_cap c)) eqn:E; [lia|]. simpl.
  by rewrite String.eqb_refl.
Qed.

Lemma to_front_other k v (c : ref_lru V) j w :
  j <> k -> assoc j (ref_entries (to_front k v c)) = Some w -> assoc j (ref_entries c) = Some w.
Proof.
  intros Hne H. apply assoc_take in H. by rewrite assoc_front, decide_False in H.
Qed.

End RefFacts.

#[local] Arguments assoc : simpl never.
#[local] Arguments to_front : simpl never.

#[export] Instance ref_lru_laws : LruLaws ref_lru.
Proof.
  split; simpl; intros.
  all: try (match goal with |- context [match assoc ?k ?l with _ => _ end] => destruct (assoc k l) eqn:E end).
  all: simpl; try done.
  all: try (rewrite assoc_front; case_decide; by subst).
  all: try (by apply to_front_same); try (by eapply (to_front_other k v)).
  all: try (apply assoc_remove_same); try (by apply assoc_remove_other); try apply assoc_write.
  - simplify_eq. split; [done|]. intros j. rewrite assoc_front. case_decide; by subst.
  - split; [done|]. split; [by apply to_front_same|]. intros. by eapply (to_front_other k v).
Qed.
