(* ===== verification/RateLimit.v ===== *)
(** * Rate limiting (src/src/rate_limit.rs)

    Token buckets in [f64] arithmetic, the process-local limiter (one global
    bucket, one bucket per API key in an LRU cache) and the backend trait.
    [Instant::now()] is an argument of every operation: it is read before the
    mutex is taken, so successive operations on the state may carry decreasing
    instants.  An answer [None] is a panic, which poisons the mutex if it is
    held. *)
From S2P Require Import Prelude Str F64 F64Facts Lru Config.
From Stdlib Require Import SpecFloat.

Open Scope string_scope.
Open Scope Z_scope.

Module RateLimit.

(* ------------------------------------------------------------------ *)
(** ** Token buckets *)

Record TokenBucket := {
  capacity : F64.t;
  tokens : F64.t;
  refill_per_second : F64.t;
  last_refill : Z
}.

Definition bucket_new (cap rate : F64.t) (now : Z) : TokenBucket :=
  {| capacity := F64.max cap F64.one; tokens := F64.max cap F64.one;
     refill_per_second := F64.max rate (F64.literal 1 1); last_refill := now |}.

Definition refill (now : Z) (b : TokenBucket) : TokenBucket :=
  let elapsed_seconds := F64.as_secs_f64 (duration_since now (last_refill b)) in
  {| capacity := capacity b;
     tokens := F64.min (F64.add (tokens b) (F64.mul elapsed_seconds (refill_per_second b)))
                 (capacity b);
     refill_per_second := refill_per_second b; last_refill := now |}.

(** The wait, or [None] where [Duration::from_secs_f64] panics. *)
Definition wait_duration (now : Z) (b : TokenBucket) : TokenBucket * option (option Z) :=
  let b := refill now b in
  if F64.geb (tokens b) F64.one then (b, Some None)
  else
    let deficit := F64.sub F64.one (tokens b) in
    (b, Some <$> F64.from_secs_f64
                   (F64.max (F64.div deficit (refill_per_second b)) (F64.literal 1 3))).

Definition consume_one (now : Z) (b : TokenBucket) : TokenBucket :=
  let b := refill now b in
  {| capacity := capacity b; tokens := F64.max (F64.sub (tokens b) F64.one) F64.zero;
     refill_per_second := refill_per_second b; last_refill := last_refill b |}.

Definition requests_per_minute_to_refill_rate (requests_per_minute : Z) : F64.t :=
  F64.div (F64.of_Z (Z.max requests_per_minute 1)) (F64.of_Z 60).

Definition max_wait (left right : option Z) : option Z :=
  match left, right with
  | Some l, Some r => Some (Z.max l r)
  | Some l, None => Some l
  | None, Some r => Some r
  | None, None => None
  end.

(** [Err(retry_after.as_secs().max(1))] *)
Definition retry_in (d : Z) : result unit Z := Err (Z.max (as_secs d) 1).

(* ------------------------------------------------------------------ *)
(** ** The process-local limiter *)

Section Limiter.
Context (C : Type -> Type) `{!LruOps C}.

Record RateLimiterState := {
  global_bucket : TokenBucket;
  per_key_buckets : C TokenBucket;
  per_key_capacity : F64.t;
  per_key_refill_per_second : F64.t;
  per_key_evictions : Z
}.

Record RateLimiter := { state : mutex RateLimiterState }.

(** [None]: the [expect] on a zero [max_tracked_keys], or the panic of an
    allocation that is too large. *)
Definition new (config : Config.RateLimitConfig) (now : Z) : option RateLimiter :=
  if (Config.max_tracked_keys config =? 0) || negb (lru_fits (Config.max_tracked_keys config)) then None
  else Some {| state := Unpoisoned
    {| global_bucket := bucket_new (F64.of_Z (Config.global_burst_size config))
         (requests_per_minute_to_refill_rate (Config.global_requests_per_minute config)) now;
       per_key_buckets := lru_new (Config.max_tracked_keys config);
       per_key_capacity := F64.of_Z (Config.per_key_burst_size config);
       per_key_refill_per_second :=
         requests_per_minute_to_refill_rate (Config.per_key_requests_per_minute config);
       per_key_evictions := 0 |} |}.

Definition set_global (b : TokenBucket) (g : RateLimiterState) : RateLimiterState :=
  {| global_bucket := b; per_key_buckets := per_key_buckets g;
     per_key_capacity := per_key_capacity g;
     per_key_refill_per_second := per_key_refill_per_second g;
     per_key_evictions := per_key_evictions g |}.

Definition set_buckets (c : C TokenBucket) (g : RateLimiterState) : RateLimiterState :=
  {| global_bucket := global_bucket g; per_key_buckets := c;
     per_key_capacity := per_key_capacity g;
     per_key_refill_per_second := per_key_refill_per_second g;
     per_key_evictions := per_key_evictions g |}.

(** The eviction count that precedes [get_or_insert_mut]. *)
Definition count_eviction (api_key : string) (g : RateLimiterState) : RateLimiterState :=
  {| global_bucket := global_bucket g; per_key_buckets := per_key_buckets g;
     per_key_capacity := per_key_capacity g;
     per_key_refill_per_second := per_key_refill_per_second g;
     per_key_evictions :=
       if negb (lru_contains (per_key_buckets g) api_key)
          && (lru_len (per_key_buckets g) =? lru_cap (per_key_buckets g))
       then u64_sat_add (per_key_evictions g) 1 else per_key_evictions g |}.

Definition answer (o : option RateLimiterState) (r : option (result unit Z)) :
  RateLimiter * option (result unit Z) :=
  ({| state := match o with Some g => Unpoisoned g | None => Poisoned end |}, r).

Definition check_global (now : Z) (l : RateLimiter) : RateLimiter * option (result unit Z) :=
  match lock (state l) with
  | None => (l, Some (Err 1))
  | Some g =>
      match wait_duration now (global_bucket g) with
      | (_, None) => answer None None
      | (b, Some (Some retry_after)) => answer (Some (set_global b g)) (Some (retry_in retry_after))
      | (b, Some None) => answer (Some (set_global (consume_one now b) g)) (Some (Ok tt))
      end
  end.

Definition evictions (l : RateLimiter) : Z :=
  match lock (state l) with Some g => per_key_evictions g | None => 0 end.

Definition check_key_with_override (now : Z) (api_key : string)
  (requests_per_minute burst_size : option Z) (l : RateLimiter) :
  RateLimiter * option (result unit Z) :=
  match lock (state l) with
  | None => (l, Some (Err 1))
  | Some g =>
      let cap := F64.max (default (per_key_capacity g) (F64.of_Z <$> burst_size)) F64.one in
      let rate := default (per_key_refill_per_second g)
                    (requests_per_minute_to_refill_rate <$> requests_per_minute) in
      let g := count_eviction api_key g in
      let '(bucket, c) := lru_get_or_insert api_key (bucket_new cap rate now) (per_key_buckets g) in
      match wait_duration now bucket with
      | (_, None) => answer None None
      | (b, Some (Some retry_after)) =>
          answer (Some (set_buckets (lru_write api_key b c) g)) (Some (retry_in retry_after))
      | (b, Some None) =>
          answer (Some (set_buckets (lru_write api_key (consume_one now b) c) g)) (Some (Ok tt))
      end
  end.

Definition check_key (now : Z) (api_key : string) (l : RateLimiter) :
  RateLimiter * option (result unit Z) :=
  check_key_with_override now api_key None None l.

Definition check (now : Z) (api_key : string) (l : RateLimiter) :
  RateLimiter * option (result unit Z) :=
  match lock (state l) with
  | None => (l, Some (Err 1))
  | Some g =>
      let fresh := bucket_new (per_key_capacity g) (per_key_refill_per_second g) now in
      let g := count_eviction api_key g in
      let '(bucket, c) := lru_get_or_insert api_key fresh (per_key_buckets g) in
      match wait_duration now bucket with
      | (_, None) => answer None None
      | (b, Some key_wait) =>
          let g := set_buckets (lru_write api_key b c) g in
          match wait_duration now (global_bucket g) with
          | (_, None) => answer None None
          | (gb, Some global_wait) =>
              let g := set_global gb g in
              match max_wait global_wait key_wait with
              | Some retry_after => answer (Some g) (Some (retry_in retry_after))
              | None =>
                  let g := set_global (consume_one now (global_bucket g)) g in
                  let '(found, c) := lru_get api_key (per_key_buckets g) in
                  let g := match found with
                    | Some b => set_buckets (lru_write api_key (consume_one now b) c) g
                    | None => set_buckets c g
                    end in
                  answer (Some g) (Some (Ok tt))
              end
          end
      end
  end.

End Limiter.

Arguments global_bucket {C} _.
Arguments per_key_buckets {C} _.
Arguments per_key_capacity {C} _.
Arguments per_key_refill_per_second {C} _.
Arguments per_key_evictions {C} _.
Arguments state {C} _.
Arguments Build_RateLimiter {C} _.
Arguments new {C _} _ _.
Arguments set_global {C} _ _.
Arguments set_buckets {C} _ _.
Arguments count_eviction {C _} _ _.
Arguments answer {C} _ _.
Arguments check_global {C} _ _.
Arguments evictions {C} _.
Arguments check_key_with_override {C _} _ _ _ _ _.
Arguments check_key {C _} _ _ _.
Arguments check {C _} _ _ _.

(* ------------------------------------------------------------------ *)
(** ** The backend trait *)

(** [trait RateLimitBackend] *)
Class RateLimitBackend (B : Type) := {
  backend_check_global : Z -> B -> B * option (result unit Z);
  backend_check_key : Z -> string -> option Z -> option Z -> B -> B * option (result unit Z)
}.

#[global] Instance RateLimiter_backend (C : Type -> Type) `{!LruOps C} : RateLimitBackend (RateLimiter C) := {|
  backend_check_global := check_global;
  backend_check_key := check_key_with_override
|}.

(* ------------------------------------------------------------------ *)
(** ** Buckets: invariant and totality *)

Import F64Facts.

Definition bucket_ok (b : TokenBucket) : Prop :=
  F64.leb F64.one (capacity b) = true /\ F64.nonneg (tokens b) /\
  F64.leb (F64.literal 1 1) (refill_per_second b) = true.

(** [tokens] as a check reads them: within the capacity. *)
Definition within_capacity (b : TokenBucket) : Prop :=
  F64.nonneg (tokens b) /\ F64.leb (tokens b) (capacity b) = true.

(** The literals 1.0, 0.1 and 0.001. *)
Lemma one_nonneg : F64.nonneg F64.one.
Proof. vm_compute. reflexivity. Qed.
Lemma tenth_facts : F64.nonneg (F64.literal 1 1) /\
  F64.literal 1 1 = S754_finite false 7205759403792794 (-56).
Proof. vm_compute. done. Qed.
Lemma milli_facts : F64.nonneg (F64.literal 1 3) /\ F64.ltb F64.zero (F64.literal 1 3) = true /\
  below 59 (F64.literal 1 3).
Proof. vm_compute. done. Qed.
Lemma zero_nonneg : F64.nonneg F64.zero.
Proof. done. Qed.

#[local] Opaque F64.literal F64.one F64.of_Z F64.add F64.sub F64.mul F64.div F64.max F64.min
  F64.leb F64.ltb F64.geb F64.zero.
#[local] Hint Resolve one_nonneg zero_nonneg max_lower : core.

Lemma bucket_new_ok cap rate now : bucket_ok (bucket_new cap rate now).
Proof.
  assert (F64.leb F64.one (F64.max cap F64.one) = true) as Hc by auto.
  split; [exact Hc|]. split; [exact (leb_nonneg _ _ one_nonneg Hc)|]. apply max_lower, tenth_facts.
Qed.

Lemma rate_positive r : F64.leb (F64.literal 1 1) r = true ->
  F64.nonneg r /\ F64.ltb F64.zero r = true /\ at_least 55 r.
Proof.
  intros Hr. destruct tenth_facts as [Ht Heq].
  pose proof (leb_nonneg _ _ Ht Hr) as Hn. rewrite Heq in Hr. clear Ht Heq. split; [exact Hn|].
  destruct r as [s|s| |s m e]; simpl in Hn; [done|subst s|done|subst s]; [by split|].
  split; [reflexivity|]. cbn [at_least Zdigits2].
  change (SFleb (S754_finite false 7205759403792794 (-56)) (S754_finite false m e) = true) in Hr.
  unfold SFleb in Hr. cbn [SFcompare] in Hr.
  destruct (Z.compare_spec (-56) e); [clear Hr; lia..|discriminate Hr].
Qed.

Lemma refill_ok now b : bucket_ok b -> bucket_ok (refill now b) /\ within_capacity (refill now b).
Proof.
  intros (Hc & Ht & Hr). destruct (rate_positive _ Hr) as (Hrn & _ & _).
  pose proof (leb_nonneg _ _ one_nonneg Hc) as Hcap.
  assert (F64.nonneg (F64.as_secs_f64 (duration_since now (last_refill b)))) as He
    by (apply as_secs_f64_nonneg; unfold duration_since; lia).
  unfold refill. set (el := F64.as_secs_f64 _) in *.
  assert (nonneg_or_nan (F64.add (tokens b) (F64.mul el (refill_per_second b)))) as Hx.
  { destruct (mul_nonneg _ _ He Hrn) as [Hm|Hm]; [left; by apply add_nonneg|].
    right. rewrite Hm. apply add_nan_r. }
  destruct (min_bounded _ (capacity b) Hx Hcap) as [H1 H2].
  repeat split; done.
Qed.

Lemma wait_seconds x r : F64.nonneg x -> F64.leb (F64.literal 1 1) r = true ->
  let w := F64.max (F64.div (F64.sub F64.one x) r) (F64.literal 1 3) in
  F64.nonneg w /\ below 59 w.
Proof.
  intros Hx Hr w. destruct (rate_positive _ Hr) as (_ & Hr1 & Hr2). destruct milli_facts as (M1 & M2 & M3).
  unfold w. destruct (one_minus _ Hx) as [[Hd1 Hd2]|Hd].
  - destruct (max_cases (F64.div (F64.sub F64.one x) r) (F64.literal 1 3)) as [->| ->]; [|by split].
    split; [apply (div_small_nonneg _ _ 2 55)|apply (div_below 2 55)]; (assumption || lia).
  - rewrite negative_max; [by split| |exact M2]. by apply div_negative.
Qed.

(** A check never panics: the wait fits a [Duration]. *)
Lemma wait_cases now b : bucket_ok b ->
  (F64.geb (tokens (refill now b)) F64.one = true /\ wait_duration now b = (refill now b, Some None)) \/
  (F64.geb (tokens (refill now b)) F64.one = false /\
   exists d, wait_duration now b = (refill now b, Some (Some d)) /\ 0 <= d).
Proof.
  intros Hb. destruct (refill_ok now b Hb) as [(_ & Ht & Hr) _]. unfold wait_duration.
  destruct (F64.geb _ _) eqn:E; [by left|]. right. split; [done|].
  destruct (wait_seconds _ _ Ht Hr) as [H1 H2].
  destruct (below_from_secs 59 _ H1 H2) as (d & -> & Hd0); [lia|]. by exists d.
Qed.

Lemma consume_ok now b : bucket_ok b -> bucket_ok (consume_one now b).
Proof.
  intros Hb. destruct (refill_ok now b Hb) as [(Hc & Ht & Hr) _]. split; [done|]. split; [|done].
  unfold consume_one. cbn [tokens]. apply leb_nonneg with F64.zero; auto.
Qed.

(* ------------------------------------------------------------------ *)
(** ** The limiter *)

Section LimiterFacts.
Context (C : Type -> Type) `{!LruOps C, !LruLaws C}.

Definition guard_ok (g : RateLimiterState C) : Prop :=
  bucket_ok (global_bucket g) /\ 1 <= lru_cap (per_key_buckets g) /\
  forall k b, lru_lookup (per_key_buckets g) k = Some b -> bucket_ok b.

Definition limiter_ok (l : RateLimiter C) : Prop :=
  exists g, state l = Unpoisoned g /\ guard_ok g.

Definition answer_ok (r : option (result unit Z)) : Prop :=
  match r with Some (Ok _) => True | Some (Err n) => 1 <= n | None => False end.

Inductive op :=
| CheckGlobal
| CheckKey (api_key : string) (requests_per_minute burst_size : option Z)
| Check (api_key : string).

Definition step (now : Z) (o : op) (l : RateLimiter C) : RateLimiter C * option (result unit Z) :=
  match o with
  | CheckGlobal => check_global now l
  | CheckKey k rpm burst => check_key_with_override now k rpm burst l
  | Check k => check now k l
  end.

(** A run of operations, each at its instant, with the answers. *)
Fixpoint run (ops : list (Z * op)) (l : RateLimiter C) : RateLimiter C * list (option (result unit Z)) :=
  match ops with
  | [] => (l, [])
  | (now, o) :: ops =>
      let '(l, a) := step now o l in
      let '(l, rest) := run ops l in (l, a :: rest)
  end.

(** The bucket a key's check works on: the one stored, or a new one. *)
Definition bucket_for (g : RateLimiterState C) (api_key : string) (fresh : TokenBucket) : TokenBucket :=
  default fresh (lru_lookup (per_key_buckets g) api_key).

Lemma goi_spec g api_key fresh : 1 <= lru_cap (per_key_buckets g) ->
  exists c, lru_get_or_insert api_key fresh (per_key_buckets g) = (bucket_for g api_key fresh, c) /\
    lru_cap c = lru_cap (per_key_buckets g) /\
    lru_lookup c api_key = Some (bucket_for g api_key fresh) /\
    forall j b, j <> api_key -> lru_lookup c j = Some b -> lru_lookup (per_key_buckets g) j = Some b.
Proof.
  intros Hcap. unfold bucket_for.
  pose proof (lru_cap_goi _ api_key fresh (per_key_buckets g)) as Hc.
  destruct (lru_lookup (per_key_buckets g) api_key) as [b|] eqn:E; simpl.
  - destruct (lru_goi_found _ api_key fresh b _ E) as [H1 H2].
    destruct (lru_get_or_insert _ _ _) as [b' c]. simpl in *. subst b'. exists c.
    split; [done|]. split; [done|]. split; [by rewrite H2|]. intros j b' _. by rewrite H2.
  - destruct (lru_goi_new _ api_key fresh _ Hcap E) as (H1 & H2 & H3).
    destruct (lru_get_or_insert _ _ _) as [b' c]. simpl in *. subst b'. by exists c.
Qed.

Lemma write_ok g c api_key b0 b : guard_ok g -> bucket_ok b ->
  lru_cap c = lru_cap (per_key_buckets g) -> lru_lookup c api_key = Some b0 ->
  (forall j b, j <> api_key -> lru_lookup c j = Some b -> lru_lookup (per_key_buckets g) j = Some b) ->
  guard_ok (set_buckets (lru_write api_key b c) g).
Proof.
  intros (Hg & Hcap & Hall) Hb Hc Hk Hj. split; [done|]. cbn [per_key_buckets set_buckets].
  rewrite lru_cap_write, Hc. split; [done|]. intros k b' Hl. rewrite lru_write_lookup in Hl.
  case_decide; [rewrite Hk in Hl; by injection Hl as <-|]. by eapply Hall, Hj.
Qed.

Lemma count_eviction_ok g k : guard_ok g -> guard_ok (count_eviction k g).
Proof. done. Qed.

Lemma retry_in_ok d : answer_ok (Some (retry_in d)).
Proof. cbn [retry_in answer_ok]. lia. Qed.

Lemma check_global_ok now l : limiter_ok l ->
  limiter_ok (fst (check_global now l)) /\ answer_ok (snd (check_global now l)).
Proof.
  intros (g & Hl & Hg & Hrest). unfold check_global. rewrite Hl. cbn [lock].
  destruct (refill_ok now _ Hg) as [Hr _].
  destruct (wait_cases now _ Hg) as [[_ ->]|(_ & d & -> & _)].
  - split; [|exact I]. eexists. split; [reflexivity|]. split; [by apply consume_ok|exact Hrest].
  - split; [|apply retry_in_ok]. eexists. split; [reflexivity|]. split; [exact Hr|exact Hrest].
Qed.

(** What a key's check does: the refilled bucket decides, and only that bucket
    changes (another key may be evicted). *)
Definition default_bucket (now : Z) (rpm burst : option Z) (g : RateLimiterState C) : TokenBucket :=
  bucket_new (F64.max (default (per_key_capacity g) (F64.of_Z <$> burst)) F64.one)
    (default (per_key_refill_per_second g) (requests_per_minute_to_refill_rate <$> rpm)) now.

Definition key_effect (k : string) (b : TokenBucket) (g g' : RateLimiterState C) : Prop :=
  global_bucket g' = global_bucket g /\ per_key_capacity g' = per_key_capacity g /\
  per_key_refill_per_second g' = per_key_refill_per_second g /\
  lru_lookup (per_key_buckets g') k = Some b /\
  forall j b, j <> k -> lru_lookup (per_key_buckets g') j = Some b ->
    lru_lookup (per_key_buckets g) j = Some b.

Lemma write_effect g c k b0 b : lru_lookup c k = Some b0 ->
  (forall j b, j <> k -> lru_lookup c j = Some b -> lru_lookup (per_key_buckets g) j = Some b) ->
  key_effect k b g (set_buckets (lru_write k b c) (count_eviction k g)).
Proof.
  intros Hk Hj. repeat split; cbn [set_buckets per_key_buckets].
  - by rewrite lru_write_lookup, decide_True, Hk.
  - intros j b' Hne. rewrite lru_write_lookup, decide_False by done. by apply Hj.
Qed.

Lemma check_key_spec now k rpm burst g : guard_ok g ->
  let b := refill now (bucket_for g k (default_bucket now rpm burst g)) in
  exists g' r, check_key_with_override now k rpm burst (Build_RateLimiter (Unpoisoned g)) =
      (Build_RateLimiter (Unpoisoned g'), Some r) /\ guard_ok g' /\
    if F64.geb (tokens b) F64.one
    then r = Ok tt /\ key_effect k (consume_one now b) g g'
    else (exists n, r = Err n /\ 1 <= n) /\ key_effect k b g g'.
Proof.
  intros Hok b. pose proof Hok as (Hg & Hcap & Hall).
  unfold check_key_with_override. cbn [lock state]. fold (default_bucket now rpm burst g).
  set (fresh := default_bucket now rpm burst g) in *.
  change (bucket_new _ _ now) with fresh.
  destruct (goi_spec (count_eviction k g) k fresh Hcap) as (c & Heq & Hc & Hk & Hj).
  rewrite Heq. change (bucket_for (count_eviction k g) k fresh) with (bucket_for g k fresh) in *.
  assert (bucket_ok (bucket_for g k fresh)) as Hb.
  { unfold bucket_for. destruct (lru_lookup (per_key_buckets g) k) eqn:E; [by eapply Hall|apply bucket_new_ok]. }
  destruct (refill_ok now _ Hb) as [Hr _]. fold b in Hr.
  destruct (wait_cases now _ Hb) as [[Ht ->]|(Ht & d & -> & _)]; fold b in Ht; fold b; rewrite Ht.
  - eexists _, _. split; [reflexivity|]. split; [by eapply write_ok, Hj; [exact Hok|by apply consume_ok|exact Hc|exact Hk]|].
    split; [reflexivity|]. by eapply write_effect.
  - eexists _, _. split; [reflexivity|]. split; [by eapply write_ok, Hj; [exact Hok|exact Hr|exact Hc|exact Hk]|].
    split; [eexists; split; [reflexivity|]; lia|]. by eapply write_effect.
Qed.

(** The same for [check], which needs a token from both buckets. *)
Definition both_effect (k : string) (gb b : TokenBucket) (g g' : RateLimiterState C) : Prop :=
  global_bucket g' = gb /\ per_key_capacity g' = per_key_capacity g /\
  per_key_refill_per_second g' = per_key_refill_per_second g /\
  lru_lookup (per_key_buckets g') k = Some b /\
  forall j b, j <> k -> lru_lookup (per_key_buckets g') j = Some b ->
    lru_lookup (per_key_buckets g) j = Some b.

Lemma guard_bucket_ok g k fresh : guard_ok g -> bucket_ok fresh -> bucket_ok (bucket_for g k fresh).
Proof.
  intros (_ & _ & Hall) Hf. unfold bucket_for.
  destruct (lru_lookup (per_key_buckets g) k) eqn:E; [by eapply Hall|exact Hf].
Qed.

Lemma set_global_ok b g : bucket_ok b -> guard_ok g -> guard_ok (set_global b g).
Proof. intros Hb (_ & H). by split. Qed.

Lemma effect_of_write k b gb g g' : key_effect k b g g' -> both_effect k gb b g (set_global gb g').
Proof. intros (_ & H1 & H2 & H3 & H4). by repeat split. Qed.

Lemma both_again k gb gb' b b' g g' : both_effect k gb b g g' ->
  both_effect k gb' b' g (set_buckets (lru_write k b' (snd (lru_get k (per_key_buckets g')))) (set_global gb' g')).
Proof.
  intros (_ & H1 & H2 & H3 & H4). split; [done|]. split; [done|]. split; [done|]. cbn [set_buckets per_key_buckets].
  split; [by rewrite lru_write_lookup, decide_True, lru_get_lookup, H3|].
  intros j b0 Hne. rewrite lru_write_lookup, decide_False, lru_get_lookup by done. by apply H4.
Qed.

Lemma both_guard_ok k gb b g g' : both_effect k gb b g g' -> guard_ok g -> bucket_ok gb -> bucket_ok b ->
  1 <= lru_cap (per_key_buckets g') -> guard_ok g'.
Proof.
  intros (Hg & _ & _ & H3 & H4) (_ & _ & Hall) Hgb Hb Hcap. split; [by rewrite Hg|]. split; [done|].
  intros j b' Hl. destruct (decide (j = k)) as [->|Hne]; [rewrite H3 in Hl; by injection Hl as <-|].
  by eapply Hall, H4.
Qed.

Lemma check_spec now k g : guard_ok g ->
  let b := refill now (bucket_for g k
    (bucket_new (per_key_capacity g) (per_key_refill_per_second g) now)) in
  let gb := refill now (global_bucket g) in
  exists g' r, check now k (Build_RateLimiter (Unpoisoned g)) =
      (Build_RateLimiter (Unpoisoned g'), Some r) /\ guard_ok g' /\
    if F64.geb (tokens gb) F64.one && F64.geb (tokens b) F64.one
    then r = Ok tt /\ both_effect k (consume_one now gb) (consume_one now b) g g'
    else (exists n, r = Err n /\ 1 <= n) /\ both_effect k gb b g g'.
Proof.
  intros Hok b gb. pose proof Hok as (Hg & Hcap & _). unfold check. cbn [lock state].
  set (fresh := bucket_new _ _ now) in *.
  destruct (goi_spec (count_eviction k g) k fresh Hcap) as (c & Heq & Hc & Hk & Hj). rewrite Heq.
  change (bucket_for (count_eviction k g) k fresh) with (bucket_for g k fresh) in *.
  pose proof (guard_bucket_ok g k fresh Hok (bucket_new_ok _ _ _)) as Hb.
  destruct (refill_ok now _ Hb) as [Hr _]. fold b in Hr. destruct (refill_ok now _ Hg) as [Hgr _]. fold gb in Hgr.
  pose proof (write_effect g c k _ b Hk Hj) as He. pose proof (effect_of_write _ _ gb _ _ He) as Hbe.
  set (g1 := set_buckets (lru_write k b c) (count_eviction k g)) in *.
  assert (1 <= lru_cap (per_key_buckets (set_global gb g1))) as Hcap1
    by (cbn [per_key_buckets set_global g1 set_buckets]; rewrite lru_cap_write, Hc; exact Hcap).
  pose proof (both_guard_ok _ _ _ _ _ Hbe Hok Hgr Hr Hcap1) as Hok1.
  assert (exists g', guard_ok g' /\ both_effect k gb b g g' /\ g' = set_global gb g1) as (g' & Hrej) by eauto.
  destruct (wait_cases now _ Hb) as [[Ht ->]|(Ht & d & -> & _)]; fold b in Ht; fold b; rewrite Ht;
    fold g1; change (global_bucket g1) with (global_bucket g);
    (destruct (wait_cases now _ Hg) as [[Hgt ->]|(Hgt & d' & -> & _)]; fold gb in Hgt; fold gb; rewrite Hgt);
    cbn [max_wait andb].
  2-4: exists (set_global gb g1); eexists; split; [reflexivity|]; split; [exact Hok1|];
       split; [eexists; split; [reflexivity|lia]|exact Hbe].
  pose proof (both_again k gb (consume_one now gb) b (consume_one now b) g _ Hbe) as Hfin.
  cbn [set_global global_bucket per_key_buckets] in *.
  pose proof (lru_get_value _ k (per_key_buckets g1)) as Hv.
  destruct Hbe as (_ & _ & _ & Hbk & _). cbn [set_global per_key_buckets] in Hbk. rewrite Hbk in Hv.
  pose proof (lru_cap_get _ k (per_key_buckets g1)) as Hcg.
  destruct (lru_get k (per_key_buckets g1)) as [found c2]. cbn [fst snd] in *. subst found.
  eexists _, _. split; [reflexivity|]. split; [|by split].
  eapply both_guard_ok; [exact Hfin|exact Hok|by apply consume_ok|by apply consume_ok|].
  cbn [set_buckets per_key_buckets]. rewrite lru_cap_write, Hcg. exact Hcap1.
Qed.

Lemma step_ok now o l : limiter_ok l -> limiter_ok (fst (step now o l)) /\ answer_ok (snd (step now o l)).
Proof.
  intros Hl. destruct o as [|k rpm burst|k]; [by apply check_global_ok|..];
    destruct Hl as (g & Hs & Hok); destruct l as [m]; cbn [state] in Hs; subst m; cbn [step].
  - destruct (check_key_spec now k rpm burst g Hok) as (g' & r & -> & Hok' & Hr). split; [by exists g'|].
    destruct (F64.geb _ _); [by destruct Hr as [-> _]|]. by destruct Hr as [(n & -> & Hn) _].
  - destruct (check_spec now k g Hok) as (g' & r & -> & Hok' & Hr). split; [by exists g'|].
    destruct (_ && _); [by destruct Hr as [-> _]|]. by destruct Hr as [(n & -> & Hn) _].
Qed.

Lemma run_limiter_ok ops l : limiter_ok l -> limiter_ok (fst (run ops l)) /\ Forall answer_ok (snd (run ops l)).
Proof.
  revert l. induction ops as [|[now o] ops IH]; intros l Hl; [by split; [|constructor]|].
  cbn [run]. destruct (step_ok now o l Hl) as [H1 H2]. destruct (step now o l) as [l1 a]. cbn [fst snd] in *.
  destruct (IH l1 H1) as [H3 H4]. destruct (run ops l1) as [l2 rest]. split; [exact H3|]. by constructor.
Qed.

Lemma new_some config now : 1 <= Config.max_tracked_keys config -> lru_fits (Config.max_tracked_keys config) = true ->
  exists l, new (C:=C) config now = Some l.
Proof. intros Hm Hf. unfold new. rewrite (proj2 (Z.eqb_neq _ _)), Hf by lia. by eexists. Qed.

Lemma new_ok config now l : 1 <= Config.max_tracked_keys config -> new (C:=C) config now = Some l -> limiter_ok l.
Proof.
  intros Hm. unfold new. destruct (_ || _); [done|]. intros [= <-].
  eexists. split; [reflexivity|]. split; [apply bucket_new_ok|]. cbn [per_key_buckets].
  rewrite lru_cap_new. split; [exact Hm|]. intros k b. by rewrite lru_new_lookup.
Qed.

(* ------------------------------------------------------------------ *)
(** ** Bursts *)

(** A bucket that holds [m] whole tokens, last refilled at [now]. *)
Definition holds (m cap now : Z) (b : TokenBucket) : Prop :=
  0 <= m <= cap /\ capacity b = F64.of_Z cap /\ tokens b = F64.of_Z m /\ last_refill b = now /\
  F64.nonneg (refill_per_second b) /\ F64.finite (refill_per_second b) /\
  F64.sign_bit (refill_per_second b) = false.

Lemma holds_refill m cap now b : cap < 2 ^ 52 -> holds m cap now b -> refill now b = b.
Proof.
  intros Hcap (Hm & Hc & Ht & Hl & Hn & Hf & Hs). unfold refill. destruct b as [c t r last]. cbn in *.
  subst. f_equal. unfold duration_since. rewrite Z.sub_diag.
  replace (F64.as_secs_f64 (Z.max 0 0)) with F64.zero by (vm_compute; reflexivity).
  rewrite mul_zero_l, add_zero_r, min_of_Z by (assumption || lia). reflexivity.
Qed.

Lemma one_of_Z : F64.one = F64.of_Z 1.
Proof. reflexivity. Qed.

Lemma zero_of_Z : F64.zero = F64.of_Z 0.
Proof. vm_compute. reflexivity. Qed.

Lemma holds_token m cap now b : cap < 2 ^ 52 -> holds m cap now b -> F64.geb (tokens b) F64.one = (1 <=? m).
Proof.
  intros Hcap (Hm & _ & Ht & _). rewrite Ht, one_of_Z. destruct (Z.leb_spec 1 m) as [H|H].
  - change (F64.leb (F64.of_Z 1) (F64.of_Z m) = true). apply of_Z_leb; lia.
  - replace m with 0 by lia. vm_compute. reflexivity.
Qed.

Lemma holds_consume m cap now b : cap < 2 ^ 52 -> holds (m + 1) cap now b -> 0 <= m ->
  holds m cap now (consume_one now b).
Proof.
  intros Hcap Hb Hm. pose proof Hb as (Hm1 & Hc & Ht & Hl & Hrest). unfold consume_one.
  rewrite (holds_refill _ _ _ _ Hcap Hb). split; [lia|]. cbn [capacity tokens last_refill refill_per_second].
  split; [exact Hc|]. split; [|by split]. rewrite Ht, sub_one, zero_of_Z, max_of_Z by lia. f_equal. lia.
Qed.

Lemma rate_finite r : is_u32 r ->
  let x := F64.max (requests_per_minute_to_refill_rate r) (F64.literal 1 1) in
  F64.nonneg x /\ F64.finite x /\ F64.sign_bit x = false.
Proof.
  intros Hr x. destruct tenth_facts as [Ht Heq]. pose proof (max_lower (requests_per_minute_to_refill_rate r) _ Ht) as Hle.
  fold x in Hle. destruct (rate_positive _ Hle) as (Hn & Hp & _). split; [exact Hn|].
  assert (F64.finite x) as Hf.
  { unfold x. destruct (max_cases (requests_per_minute_to_refill_rate r) (F64.literal 1 1)) as [->| ->]; [|by rewrite Heq].
    apply below_finite with (32 + 0 + 2). unfold requests_per_minute_to_refill_rate, is_u32, u32_max in *.
    apply div_below; [apply of_Z_nonneg; lia|apply of_Z_below; lia|vm_compute; discriminate|lia]. }
  split; [exact Hf|]. by destruct x as [s|s| |[] m e].
Qed.

Lemma new_bucket_holds n r now : is_u32 n -> is_u32 r ->
  holds (Z.max n 1) (Z.max n 1) now
    (bucket_new (F64.max (F64.of_Z n) F64.one) (requests_per_minute_to_refill_rate r) now).
Proof.
  unfold is_u32, u32_max. intros Hn Hr.
  assert (forall a, 0 <= a < 2 ^ 53 -> F64.max (F64.of_Z a) F64.one = F64.of_Z (Z.max a 1)) as Hmax.
  { intros a Ha. rewrite one_of_Z. apply max_of_Z; [lia..|]. intros Ha1. replace a with 0 by lia. vm_compute. reflexivity. }
  unfold bucket_new. rewrite !Hmax by lia. replace (Z.max (Z.max n 1) 1) with (Z.max n 1) by lia.
  split; [lia|]. do 3 (split; [reflexivity|]). apply rate_finite. unfold is_u32, u32_max. lia.
Qed.

Definition is_err (a : option (result unit Z)) : Prop := exists n, a = Some (Err n).

(** Repeated checks of one key at one instant. *)
Lemma burst_run now k rpm burst cap n m b g : cap < 2 ^ 52 -> guard_ok g ->
  bucket_for g k (default_bucket now rpm burst g) = b -> holds (Z.of_nat m) cap now b ->
  let answers := snd (run (repeat (now, CheckKey k rpm burst) n) (Build_RateLimiter (Unpoisoned g))) in
  take m answers = repeat (Some (Ok tt)) (Nat.min n m) /\ Forall is_err (drop m answers).
Proof.
  intros Hcap. revert m b g. induction n as [|n IH]; intros m b g Hok Hb Hh answers;
    [unfold answers; cbn [repeat run snd]; rewrite take_nil, drop_nil; by split; [|constructor]|].
  unfold answers. clear answers. cbn [repeat run step].
  destruct (check_key_spec now k rpm burst g Hok) as (g' & r & -> & Hok' & Hr). rewrite Hb in Hr.
  rewrite (holds_refill _ _ _ _ Hcap Hh), (holds_token _ _ _ _ Hcap Hh) in Hr.
  destruct m as [|m].
  - destruct Hr as [(e & -> & _) (_ & _ & _ & Hk & _)].
    destruct (IH O b g' Hok') as [_ Hd]; [unfold bucket_for; by rewrite Hk|exact Hh|]. rewrite drop_0 in Hd.
    destruct (run _ _) as [l2 rest]. cbn [snd] in *. rewrite Nat.min_0_r, drop_0. split; [done|].
    constructor; [by exists e|exact Hd].
  - rewrite (proj2 (Z.leb_le _ _)) in Hr by lia. destruct Hr as [-> (_ & _ & _ & Hk & _)].
    replace (Z.of_nat (S m)) with (Z.of_nat m + 1) in Hh by lia.
    destruct (IH m (consume_one now b) g' Hok') as [Ht Hd];
      [unfold bucket_for; by rewrite Hk|apply holds_consume; [exact Hcap|exact Hh|lia]|].
    destruct (run _ _) as [l2 rest]. cbn [snd take drop Nat.min repeat] in *. by rewrite Ht.
Qed.

(** The configured defaults do not change. *)
Lemma step_defaults now o g : guard_ok g -> exists g' r,
  step now o (Build_RateLimiter (Unpoisoned g)) = (Build_RateLimiter (Unpoisoned g'), Some r) /\ guard_ok g' /\
  per_key_capacity g' = per_key_capacity g /\ per_key_refill_per_second g' = per_key_refill_per_second g.
Proof.
  intros Hok. destruct o as [|k rpm burst|k]; cbn [step].
  - destruct (check_global_ok now (Build_RateLimiter (Unpoisoned g))) as [(g' & Hg' & Hok') _]; [by exists g|].
    revert Hg'. unfold check_global. cbn [lock state]. destruct Hok as [Hg _].
    destruct (wait_cases now _ Hg) as [[_ ->]|(_ & d & -> & _)]; cbn [answer fst state]; intros [= <-];
      eexists _, _; (split; [reflexivity|]); (split; [exact Hok'|]); by split.
  - destruct (check_key_spec now k rpm burst g Hok) as (g' & r & -> & Hok' & Hr). exists g', r.
    split; [reflexivity|]. split; [exact Hok'|]. destruct (F64.geb _ _); destruct Hr as [_ (_ & H1 & H2 & _)]; by split.
  - destruct (check_spec now k g Hok) as (g' & r & -> & Hok' & Hr). exists g', r.
    split; [reflexivity|]. split; [exact Hok'|]. destruct (_ && _); destruct Hr as [_ (_ & H1 & H2 & _)]; by split.
Qed.

Lemma run_defaults ops g : guard_ok g -> exists g',
  fst (run ops (Build_RateLimiter (Unpoisoned g))) = Build_RateLimiter (Unpoisoned g') /\ guard_ok g' /\
  per_key_capacity g' = per_key_capacity g /\ per_key_refill_per_second g' = per_key_refill_per_second g.
Proof.
  revert g. induction ops as [|[now o] ops IH]; intros g Hok; [by exists g|]. cbn [run].
  destruct (step_defaults now o g Hok) as (g1 & r & -> & Hok1 & H1 & H2).
  destruct (IH g1 Hok1) as (g2 & Hr & Hok2 & H3 & H4). destruct (run ops _) as [l2 rest]. cbn [fst] in *.
  exists g2. rewrite <-H1, <-H2. exact (conj Hr (conj Hok2 (conj H3 H4))).
Qed.

End LimiterFacts.

(** What the middleware relies on of any backend: in a sound state every check
    answers and leaves a sound state. *)
Class LimiterLaws (B : Type) `{!RateLimitBackend B} := {
  backend_ok : B -> Prop;
  global_answers : forall now b, backend_ok b -> exists b' a, backend_check_global now b = (b', Some a) /\ backend_ok b';
  key_answers : forall now k rpm burst b, backend_ok b ->
    exists b' a, backend_check_key now k rpm burst b = (b', Some a) /\ backend_ok b'
}.

#[global] Instance RateLimiter_laws (C : Type -> Type) `{!LruOps C, !LruLaws C} : LimiterLaws (RateLimiter C).
Proof.
  refine {| backend_ok := limiter_ok C |}.
  - intros now l Hl. destruct (step_ok C now CheckGlobal l Hl) as [H1 H2]. cbn in *.
    destruct (check_global now l) as [l' [a|]]; [|done]. by exists l', a.
  - intros now k rpm burst l Hl. destruct (step_ok C now (CheckKey k rpm burst) l Hl) as [H1 H2]. cbn in *.
    destruct (check_key_with_override now k rpm burst l) as [l' [a|]]; [|done]. by exists l', a.
Defined.

(* ------------------------------------------------------------------ *)
(** ** The properties *)

Definition config_in_width (config : Config.RateLimitConfig) : Prop :=
  is_u32 (Config.per_key_burst_size config) /\ is_u32 (Config.per_key_requests_per_minute config) /\
  1 <= Config.max_tracked_keys config.

Definition opt_u32 (o : option Z) : Prop := forall n, o = Some n -> is_u32 n.

(** A small configuration and a history for the examples. *)
Definition example_config (rpm burst : Z) : Config.RateLimitConfig :=
  {| Config.rate_limit_backend := Config.Local_; Config.global_requests_per_minute := 600;
     Config.global_burst_size := 10; Config.per_key_requests_per_minute := rpm;
     Config.per_key_burst_size := burst; Config.max_tracked_keys := 2;
     Config.redis_url_env := None; Config.redis_fallback_to_local := true |}.
Definition example_ops : list (Z * op) :=
  [(1, CheckGlobal); (2, CheckKey "a" None (Some 3)); (1, Check "b"); (3, CheckKey "c" (Some 5) None)].

(** C26: the limiter never fails: for a configuration that tracks at least one
    key and no more than there is room for, whatever checks run, at whatever
    instants (also out of order), no check panics or poisons the mutex, every
    refusal asks to wait at least one second, and every bucket keeps a capacity
    and refill rate of at least 1 and 0.1 and a non-negative number of tokens,
    within the capacity once refilled. *)
Theorem limiter_never_panics C `{!LruOps C, !LruLaws C} config start ops now :
  1 <= Config.max_tracked_keys config -> lru_fits (Config.max_tracked_keys config) = true ->
  exists l g, new (C:=C) config start = Some l /\ Forall answer_ok (snd (run C ops l)) /\
    state (fst (run C ops l)) = Unpoisoned g /\
    forall b, b = global_bucket g \/ (exists k, lru_lookup (per_key_buckets g) k = Some b) ->
      bucket_ok b /\ within_capacity (refill now b).
Proof.
  intros Hm Hf. destruct (new_some C config start Hm Hf) as (l & Hl). pose proof (new_ok C config start l Hm Hl) as Hok.
  destruct (run_limiter_ok C ops l Hok) as [(g & Hg & Hgb & _ & Hall) Ha].
  exists l, g. split; [exact Hl|]. split; [exact Ha|]. split; [exact Hg|].
  intros b Hb. assert (bucket_ok b) as Hbok by (destruct Hb as [->|[k Hk]]; [exact Hgb|by eapply Hall]).
  split; [exact Hbok|]. by apply refill_ok.
Qed.

(** [check] takes a token from the global bucket and from the key's bucket,
    or from neither: it answers Ok exactly when both, refilled, hold a token,
    and on a refusal neither loses one; no other key gains or loses anything,
    though it may be evicted. *)
Theorem check_takes_both_or_none C `{!LruOps C, !LruLaws C} now k g :
  guard_ok C g ->
  let b := refill now (bucket_for C g k
    (bucket_new (per_key_capacity g) (per_key_refill_per_second g) now)) in
  let gb := refill now (global_bucket g) in
  exists g' r, check now k (Build_RateLimiter (Unpoisoned g)) =
      (Build_RateLimiter (Unpoisoned g'), Some r) /\
    (r = Ok tt <-> F64.geb (tokens gb) F64.one = true /\ F64.geb (tokens b) F64.one = true) /\
    (r = Ok tt -> both_effect C k (consume_one now gb) (consume_one now b) g g') /\
    (r <> Ok tt -> both_effect C k gb b g g').
Proof.
  intros Hok b gb. destruct (check_spec C now k g Hok) as (g' & r & Heq & _ & Hr). fold b gb in Hr.
  exists g', r. split; [exact Heq|]. rewrite <-andb_true_iff. destruct (_ && _).
  - destruct Hr as [-> He]. by split.
  - destruct Hr as [(n & -> & _) He]. by split.
Qed.

(** C28: a burst is exact: a key without a bucket that is checked [n] times at
    one instant is admitted exactly [max burst 1] times, in any limiter reached
    from a configuration, and refused after that (until time passes). *)
Theorem burst_is_exact C `{!LruOps C, !LruLaws C} config start ops l g now k rpm burst n :
  config_in_width config -> opt_u32 rpm -> opt_u32 burst ->
  new (C:=C) config start = Some l -> state (fst (run C ops l)) = Unpoisoned g ->
  lru_lookup (per_key_buckets g) k = None ->
  let b := Z.to_nat (Z.max (default (Config.per_key_burst_size config) burst) 1) in
  let answers := snd (run C (repeat (now, CheckKey k rpm burst) n) (fst (run C ops l))) in
  take b answers = repeat (Some (Ok tt)) (Nat.min n b) /\ Forall is_err (drop b answers).
Proof.
  intros (Hb & Hr & Hm) Hrpm Hburst Hl Hg Hk b answers. subst answers.
  destruct (new_ok C config start l Hm Hl) as (g0 & Hg0 & Hok0).
  assert (per_key_capacity g0 = F64.of_Z (Config.per_key_burst_size config) /\
    per_key_refill_per_second g0 = requests_per_minute_to_refill_rate (Config.per_key_requests_per_minute config)) as [Hc0 Hr0].
  { revert Hl Hg0. unfold new. case_match; [discriminate|]. intros [= <-] [= <-]. by split. }
  destruct (run_defaults C ops g0 Hok0) as (g1 & Hg1 & Hok1 & H1 & H2).
  destruct l as [m]. cbn [state] in Hg0. subst m. rewrite Hg1 in Hg |- *. injection Hg as <-.
  assert (is_u32 (default (Config.per_key_burst_size config) burst)) as Hcap by (destruct burst; simpl; auto).
  apply burst_run with (cap := Z.of_nat b) (b := default_bucket C now rpm burst g1);
    [exact _|unfold b, is_u32, u32_max in *; lia|exact Hok1|unfold bucket_for; by rewrite Hk|].
  unfold default_bucket, b. rewrite H1, H2, Hc0, Hr0.
  replace (default (F64.of_Z (Config.per_key_burst_size config)) (F64.of_Z <$> burst))
    with (F64.of_Z (default (Config.per_key_burst_size config) burst)) by (by destruct burst).
  replace (default (requests_per_minute_to_refill_rate _) _) with
    (requests_per_minute_to_refill_rate (default (Config.per_key_requests_per_minute config) rpm)) by (by destruct rpm).
  rewrite Z2Nat.id by lia. apply new_bucket_holds; [exact Hcap|destruct rpm; simpl; auto].
Qed.

(** Retry-After can be too short: the wait is truncated to whole seconds, so
    a client refused half a second after its only token was taken is told to
    come back in 1 second, does so, and is refused again (the token needs 2
    seconds). *)
Theorem retry_after_too_early :
  exists config l, new (C:=ref_lru) config 0 = Some l /\
    snd (run ref_lru [(from_millis 0, CheckKey "k" None None);
                      (from_millis 500, CheckKey "k" None None);
                      (from_millis 500 + from_secs 1, CheckKey "k" None None)] l)
    = [Some (Ok tt); Some (Err 1); Some (Err 1)].
Proof.
  exists (example_config 30 1). eexists. split; [reflexivity|]. vm_compute. reflexivity.
Qed.

(** An instant read before the lock can be applied after a later one: the
    bucket's clock then moves back and the time in between is credited twice.
    Two requests are admitted at second 1 although the burst is one. *)
Theorem stale_instant_overcredits :
  exists config l, new (C:=ref_lru) config (from_secs 1) = Some l /\
    Config.per_key_burst_size config = 1 /\
    snd (run ref_lru [(from_secs 1, CheckKey "k" None None); (0, CheckKey "k" None None);
                      (from_secs 1, CheckKey "k" None None)] l)
    = [Some (Ok tt); Some (Err 1); Some (Ok tt)].
Proof.
  exists (example_config 60 1). eexists. split; [reflexivity|]. split; [reflexivity|].
  vm_compute. reflexivity.
Qed.

Lemma limiter_never_panics_witness :
  exists l g, new (C:=ref_lru) (example_config 30 1) 0 = Some l /\
    Forall answer_ok (snd (run ref_lru example_ops l)) /\
    state (fst (run ref_lru example_ops l)) = Unpoisoned g /\ within_capacity (refill 7 (global_bucket g)).
Proof.
  destruct (limiter_never_panics ref_lru (example_config 30 1) 0 example_ops 7) as (l & g & H1 & H2 & H3 & H4);
    [vm_compute; discriminate|reflexivity|].
  exists l, g. split; [exact H1|]. split; [exact H2|]. split; [exact H3|]. apply H4. by left.
Defined.

Lemma check_takes_both_or_none_witness :
  exists g g', new (C:=ref_lru) (example_config 30 1) 0 = Some (Build_RateLimiter (Unpoisoned g)) /\
    check 0 "k" (Build_RateLimiter (Unpoisoned g)) = (Build_RateLimiter (Unpoisoned g'), Some (Ok tt)).
Proof.
  destruct (new_some ref_lru (example_config 30 1) 0) as (l & Hl); [vm_compute; discriminate|reflexivity|].
  destruct (new_ok ref_lru (example_config 30 1) 0 l ltac:(vm_compute; discriminate) Hl) as (g & Hg & Hok).
  destruct l as [m]. cbn [state] in Hg. subst m.
  destruct (check_takes_both_or_none ref_lru 0 "k" g Hok) as (g' & r & Hc & Hi & _).
  exists g, g'. split; [exact Hl|]. rewrite Hc. f_equal. f_equal. apply Hi.
  injection Hl as <-. split; vm_compute; reflexivity.
Defined.

Lemma burst_is_exact_witness :
  exists l g, new (C:=ref_lru) (example_config 30 2) 0 = Some l /\
    state (fst (run ref_lru example_ops l)) = Unpoisoned g /\
    take 2 (snd (run ref_lru (repeat (9, CheckKey "new" None None) 5) (fst (run ref_lru example_ops l))))
    = [Some (Ok tt); Some (Ok tt)].
Proof.
  destruct (new_some ref_lru (example_config 30 2) 0) as (l & Hl); [vm_compute; discriminate|reflexivity|].
  pose proof (new_ok ref_lru (example_config 30 2) 0 l ltac:(vm_compute; discriminate) Hl) as Hok.
  destruct (run_limiter_ok ref_lru example_ops l Hok) as [(g & Hg & _) _].
  destruct (burst_is_exact ref_lru (example_config 30 2) 0 example_ops l g 9 "new" None None 5) as [Ht _].
  - vm_compute. repeat split; discriminate.
  - intros ? [=].
  - intros ? [=].
  - exact Hl.
  - exact Hg.
  - injection Hl as <-. vm_compute in Hg. injection Hg as <-. vm_compute. reflexivity.
  - exists l, g. split; [exact Hl|]. split; [exact Hg|]. exact Ht.
Defined.

End RateLimit.
