(* ===== verification/Redis.v ===== *)
(** * The Redis rate limiter (src/src/rate_limit.rs, module redis_backend)

    The limiter whose buckets are kept by a Redis server: the Lua script that
    takes a token, on an explicit table of buckets with their expiry, and the
    backend with its local fallback.  Lua numbers are binary64; the server
    stores them with 17 digits and the client sends them in the shortest exact
    form, so that they come back as they were.  The server's clock and whether
    it answers at an instant are part of the server. *)
From S2P Require Import Prelude Str F64 F64Facts Lru Config RateLimit.
From Stdlib Require Import SpecFloat.

Open Scope string_scope.
Open Scope Z_scope.

Module Redis.
Import RateLimit.

(* ------------------------------------------------------------------ *)
(** ** The server and the script *)

(** The hash at a key, its two fields and the time it expires. *)
Record RedisBucket := { rb_tokens : F64.t; rb_ts : Z; rb_expires : Z }.

Record RedisServer := {
  answers_at : Z -> bool;
  server_ms : Z -> Z;
  buckets : gmap string RedisBucket
}.

(** The hash as [HMGET] sees it: nothing once it has expired. *)
Definition live (at_ms : Z) (b : option RedisBucket) : option RedisBucket :=
  b ≫= fun b => if at_ms <? rb_expires b then Some b else None.

(** [math.min] *)
Definition lua_min (x y : F64.t) : F64.t := if F64.ltb y x then y else x.

(** One run of the script on the hash at its key: the hash it leaves and the
    integer it returns.  [ARGV] is [now], [cap], [refill] and [ttl]. *)
Definition token_bucket_script (at_ms : Z) (stored : option RedisBucket) (now cap : Z) (refill : F64.t) (ttl : Z) :
  RedisBucket * Z :=
  let bucket := live at_ms stored in
  let tokens := default (F64.of_Z cap) (rb_tokens <$> bucket) in
  let last := default (F64.of_Z now) ((fun b => F64.of_Z (rb_ts b)) <$> bucket) in
  let refilled := F64.mul (F64.sub (F64.of_Z now) last) refill in
  let tokens := lua_min (F64.of_Z cap) (F64.add tokens refilled) in
  if F64.ltb tokens F64.one
  then
    let deficit := F64.sub F64.one tokens in
    ({| rb_tokens := tokens; rb_ts := now; rb_expires := at_ms + ttl |},
     Z.min i64_max (F64.ceil_as_u64 (F64.div deficit refill)))
  else ({| rb_tokens := F64.sub tokens F64.one; rb_ts := now; rb_expires := at_ms + ttl |}, 0).

(** Running it on the server at an instant; [None] is a Redis error. *)
Definition invoke_script (at_ : Z) (key : string) (now cap : Z) (refill : F64.t) (ttl : Z) (s : RedisServer) :
  RedisServer * option Z :=
  if answers_at s at_
  then
    let '(b, retry) := token_bucket_script (server_ms s at_) (buckets s !! key) now cap refill ttl in
    ({| answers_at := answers_at s; server_ms := server_ms s; buckets := <[key := b]> (buckets s) |}, Some retry)
  else (s, None).

(* ------------------------------------------------------------------ *)
(** ** The backend *)

Section Backend.
Context (C : Type -> Type) `{!LruOps C}.

Record RedisRateLimitBackend := {
  server : RedisServer;
  local_fallback : option (RateLimiter C);
  global_capacity : Z;
  global_refill_per_ms : F64.t;
  redis_per_key_capacity : Z;
  per_key_refill_per_ms : F64.t;
  key_prefix : string
}.

Definition refill_per_ms_of (rpm : Z) : F64.t := F64.div (requests_per_minute_to_refill_rate rpm) (F64.of_Z 1000).

Definition connect (s : RedisServer) (config : Config.RateLimitConfig) (fallback : option (RateLimiter C)) :
  RedisRateLimitBackend :=
  {| server := s; local_fallback := fallback;
     global_capacity := Config.global_burst_size config;
     global_refill_per_ms := refill_per_ms_of (Config.global_requests_per_minute config);
     redis_per_key_capacity := Config.per_key_burst_size config;
     per_key_refill_per_ms := refill_per_ms_of (Config.per_key_requests_per_minute config);
     key_prefix := "rg:rl" |}.

Definition set_server (s : RedisServer) (r : RedisRateLimitBackend) : RedisRateLimitBackend :=
  {| server := s; local_fallback := local_fallback r; global_capacity := global_capacity r;
     global_refill_per_ms := global_refill_per_ms r; redis_per_key_capacity := redis_per_key_capacity r;
     per_key_refill_per_ms := per_key_refill_per_ms r; key_prefix := key_prefix r |}.
Definition set_fallback (l : RateLimiter C) (r : RedisRateLimitBackend) : RedisRateLimitBackend :=
  {| server := server r; local_fallback := Some l; global_capacity := global_capacity r;
     global_refill_per_ms := global_refill_per_ms r; redis_per_key_capacity := redis_per_key_capacity r;
     per_key_refill_per_ms := per_key_refill_per_ms r; key_prefix := key_prefix r |}.

(** [x as i64] of a [u64] *)
Definition u64_as_i64 (x : Z) : Z := if x <=? i64_max then x else x - 2 ^ 64.

(** [refill_per_ms.max(0.000001)] *)
Definition refill_floor : F64.t := F64.literal 1 6.

Definition check_bucket (at_ now_ms : Z) (key : string) (cap : Z) (refill_per_ms : F64.t) (r : RedisRateLimitBackend) :
  RedisRateLimitBackend * option (result unit Z) :=
  let '(s, reply) := invoke_script at_ key (u64_as_i64 now_ms) (Z.max cap 1) (F64.max refill_per_ms refill_floor) 120000
                       (server r) in
  (set_server s r,
   (fun retry_after_ms => if retry_after_ms <=? 0 then Ok tt else Err (Z.max (retry_after_ms / 1000) 1)) <$> reply).

Definition with_fallback (r : RedisRateLimitBackend) (f : RateLimiter C -> RateLimiter C * option (result unit Z)) :
  RedisRateLimitBackend * option (result unit Z) :=
  match local_fallback r with
  | Some l => let '(l, a) := f l in (set_fallback l r, a)
  | None => (r, Some (Ok tt))
  end.

Definition fallback_global (now : Z) (r : RedisRateLimitBackend) :=
  with_fallback r (check_global now).
Definition fallback_key (now : Z) (api_key : string) (requests_per_minute burst_size : option Z)
  (r : RedisRateLimitBackend) :=
  with_fallback r (check_key_with_override now api_key requests_per_minute burst_size).

(** The wall clock [now_ms] is a function of the instant. *)
Definition redis_check_global (now_ms : Z -> Z) (now : Z) (r : RedisRateLimitBackend) :
  RedisRateLimitBackend * option (result unit Z) :=
  match check_bucket now (now_ms now) (key_prefix r ++ ":global") (global_capacity r) (global_refill_per_ms r) r with
  | (r, Some result) => (r, Some result)
  | (r, None) => fallback_global now r
  end.

Definition redis_check_key (now_ms : Z -> Z) (now : Z) (api_key : string)
  (requests_per_minute burst_size : option Z) (r : RedisRateLimitBackend) :
  RedisRateLimitBackend * option (result unit Z) :=
  let cap := default (redis_per_key_capacity r) burst_size in
  let refill_per_ms := default (per_key_refill_per_ms r) (refill_per_ms_of <$> requests_per_minute) in
  match check_bucket now (now_ms now) (key_prefix r ++ ":key:" ++ api_key) cap refill_per_ms r with
  | (r, Some result) => (r, Some result)
  | (r, None) => fallback_key now api_key requests_per_minute burst_size r
  end.

End Backend.

#[global] Instance Redis_backend (C : Type -> Type) `{!LruOps C} (now_ms : Z -> Z) :
  RateLimitBackend (RedisRateLimitBackend C) := {|
  backend_check_global := redis_check_global C now_ms;
  backend_check_key := redis_check_key C now_ms
|}.

(** A check answers whether or not the server does, if the limiter it falls
    back on is sound; without one the request is let through. *)
#[global] Instance Redis_laws (C : Type -> Type) `{!LruOps C, !LruLaws C} (now_ms : Z -> Z) :
  LimiterLaws (RedisRateLimitBackend C) (RateLimitBackend0 := Redis_backend C now_ms).
Proof.
  assert (forall f (r : RedisRateLimitBackend C), (forall l, limiter_ok C l -> exists l' a, f l = (l', Some a) /\ limiter_ok C l') ->
    (forall l, local_fallback C r = Some l -> limiter_ok C l) ->
    exists r' a, with_fallback C r f = (r', Some a) /\ forall l, local_fallback C r' = Some l -> limiter_ok C l) as Hfall.
  { intros f r Hf Hr. unfold with_fallback. destruct (local_fallback C r) as [l|] eqn:E.
    - destruct (Hf l (Hr l eq_refl)) as (l' & a & -> & Hl'). eexists _, a. split; [done|]. by intros l2 [= <-].
    - eexists _, _. split; [done|]. intros l. by rewrite E. }
  refine {| backend_ok := fun r => forall l, local_fallback C r = Some l -> limiter_ok C l |}.
  - intros now r Hr. cbn. unfold redis_check_global, check_bucket, fallback_global.
    destruct (invoke_script _ _ _ _ _ _ _) as [s [reply|]]; cbn [fmap option_fmap option_map].
    + eexists _, _. split; [done|]. exact Hr.
    + apply Hfall; [|exact Hr]. intros l. exact (global_answers now l).
  - intros now k rpm burst r Hr. cbn. unfold redis_check_key, check_bucket, fallback_key. cbv zeta.
    destruct (invoke_script _ _ _ _ _ _ _) as [s [reply|]]; cbn [fmap option_fmap option_map].
    + eexists _, _. split; [done|]. exact Hr.
    + apply Hfall; [|exact Hr]. intros l. exact (key_answers now k rpm burst l).
Defined.

(* ------------------------------------------------------------------ *)
(** ** Bursts *)

Import F64Facts.

(** A refill rate the script can divide by: positive and not huge. *)
Definition usable (x : F64.t) : Prop := exists m e, x = S754_finite false m e /\ Zdigits2 (Zpos m) + e <= 900.

Lemma floor_value : refill_floor = S754_finite false 4722366482869645 (-72).
Proof. vm_compute. reflexivity. Qed.

Lemma refill_usable rpm : is_u32 rpm -> usable (F64.max (refill_per_ms_of rpm) refill_floor).
Proof.
  intros Hr. assert (F64.nonneg refill_floor) as Hn by (vm_compute; reflexivity).
  pose proof (max_lower (refill_per_ms_of rpm) refill_floor Hn) as Hle. set (x := F64.max _ _) in *.
  assert (below 900 x) as Hb.
  { unfold x. destruct (max_cases (refill_per_ms_of rpm) refill_floor) as [-> | ->]; [|vm_compute; discriminate].
    unfold refill_per_ms_of, requests_per_minute_to_refill_rate, is_u32, u32_max in *.
    apply below_mono with (32 + 0 + 2 + 0 + 2); [lia|]. assert (F64.nonneg (F64.of_Z (Z.max rpm 1))) by (apply of_Z_nonneg; lia).
    assert (below 32 (F64.of_Z (Z.max rpm 1))) by (apply of_Z_below; lia).
    assert (at_least 0 (F64.of_Z 60) /\ at_least 0 (F64.of_Z 1000)) as [H60 H1000] by (vm_compute; split; discriminate).
    apply (div_below (32 + 0 + 2) 0); [|apply (div_below 32 0); [assumption..|lia]|assumption|lia].
    apply (div_small_nonneg _ _ 32 0); [assumption|vm_compute; reflexivity|assumption|assumption|lia]. }
  rewrite floor_value in Hle. clearbody x. clear Hn Hr. destruct x as [s|[]| |[] m e]; try discriminate Hle; [contradiction Hb|].
  exists m, e. split; [reflexivity|exact Hb].
Qed.

Lemma min_cap a b : 0 <= a <= b -> b < 2 ^ 53 -> lua_min (F64.of_Z b) (F64.of_Z a) = F64.of_Z a.
Proof.
  intros Ha Hb. unfold lua_min. destruct (decide (a = b)) as [-> |Hne]; [by destruct (F64.ltb _ _)|].
  by rewrite of_Z_ltb by lia.
Qed.

(** A bucket read at its own time stamp with [m] tokens, or none and a full one. *)
Definition tokens_at (cap now m : Z) (b : option RedisBucket) : Prop :=
  default (F64.of_Z cap) (rb_tokens <$> b) = F64.of_Z m /\ default now (rb_ts <$> b) = now.

Lemma add_zero_of_Z m : 0 <= m < 2 ^ 53 -> F64.add (F64.of_Z m) F64.zero = F64.of_Z m.
Proof. apply add_zero_r. Qed.

Lemma mul_zero_usable x : usable x -> F64.mul F64.zero x = F64.zero.
Proof. intros (m & e & -> & _). reflexivity. Qed.

Lemma wait_positive x : usable x -> 1 <= F64.ceil_as_u64 (F64.div (F64.sub F64.one (F64.of_Z 0)) x).
Proof.
  intros (m & e & -> & He). replace (F64.sub F64.one (F64.of_Z 0)) with (S754_finite false 4503599627370496 (-52)) by (vm_compute; reflexivity).
  pose proof (Zdigits2_pos (Zpos m) ltac:(lia)). apply div_ceil_pos; [|lia].
  change (Zdigits2 4503599627370496) with 53. lia.
Qed.

(** The script on such a bucket: a token if there is one, a wait if not. *)
Lemma script_takes at_ms stored now cap m refill ttl : usable refill -> 0 <= now < 2 ^ 52 -> 0 <= m <= cap -> cap < 2 ^ 53 - 1 ->
  tokens_at cap now m (live at_ms stored) -> 0 < ttl ->
  exists b r, token_bucket_script at_ms stored now cap refill ttl = (b, r) /\
    tokens_at cap now (Z.max 0 (m - 1)) (live at_ms (Some b)) /\ (if 1 <=? m then r = 0 else 1 <= r).
Proof.
  intros Hu Hn Hm Hc [Ht Hts] Httl. unfold token_bucket_script. cbv zeta. set (bucket := live at_ms stored) in *.
  assert (default (F64.of_Z now) ((fun b => F64.of_Z (rb_ts b)) <$> bucket) = F64.of_Z now) as ->.
  { destruct bucket as [b|]; [|reflexivity]. cbn in *. by rewrite Hts. }
  rewrite Ht, sub_self by (apply below_finite with 52; apply of_Z_below; lia).
  rewrite mul_zero_usable, add_zero_of_Z, min_cap by (done || lia).
  assert (forall tk, live at_ms (Some {| rb_tokens := tk; rb_ts := now; rb_expires := at_ms + ttl |})
    = Some {| rb_tokens := tk; rb_ts := now; rb_expires := at_ms + ttl |}) as Hlive.
  { intros tk. unfold live. cbn. by rewrite (proj2 (Z.ltb_lt _ _)) by lia. }
  destruct (Z.leb_spec 1 m) as [H1|H1].
  - assert (F64.ltb (F64.of_Z m) F64.one = false) as -> by (apply leb_not_ltb; change F64.one with (F64.of_Z 1); apply of_Z_leb; lia).
    eexists _, _. split; [reflexivity|]. rewrite Hlive. split; [|reflexivity]. split; [|reflexivity]. cbn [rb_tokens default fmap option_fmap option_map].
    pose proof (sub_one (m - 1) ltac:(lia)) as Hs. replace (m - 1 + 1) with m in Hs by lia. by rewrite Hs, Z.max_r by lia.
  - assert (m = 0) as -> by lia. assert (F64.ltb (F64.of_Z 0) F64.one = true) as -> by (vm_compute; reflexivity).
    eexists _, _. split; [reflexivity|]. rewrite Hlive. split; [by split|].
    pose proof (wait_positive refill Hu). apply Z.min_glb; [unfold i64_max; lia|done].
Qed.

(** Repeated checks of one key at one instant. *)
Fixpoint check_times {C : Type -> Type} `{!LruOps C} (now_ms : Z -> Z) (now : Z) (k : string) (rpm burst : option Z) (n : nat)
  (r : RedisRateLimitBackend C) : list (option (result unit Z)) :=
  match n with
  | O => []
  | S n => let '(r, a) := redis_check_key C now_ms now k rpm burst r in a :: check_times now_ms now k rpm burst n r
  end.

Section Burst.
Context {C : Type -> Type} `{!LruOps C}.
Variables (now_ms : Z -> Z) (now : Z) (k : string) (rpm burst : option Z).
Hypothesis Hnow : 0 <= now_ms now < 2 ^ 52.

(** The capacity and rate a check of the key uses. *)
Definition cap_of (r : RedisRateLimitBackend C) : Z := Z.max (default (redis_per_key_capacity C r) burst) 1.
Definition rate_of (r : RedisRateLimitBackend C) : F64.t :=
  F64.max (default (per_key_refill_per_ms C r) (refill_per_ms_of <$> rpm)) refill_floor.
Definition stored_in (r : RedisRateLimitBackend C) : option RedisBucket :=
  live (server_ms (server C r) now) (buckets (server C r) !! (key_prefix C r ++ ":key:" ++ k)%string).

Lemma check_takes r m : answers_at (server C r) now = true -> usable (rate_of r) -> cap_of r < 2 ^ 53 - 1 ->
  0 <= m <= cap_of r -> tokens_at (cap_of r) (now_ms now) m (stored_in r) ->
  exists r' a, redis_check_key C now_ms now k rpm burst r = (r', a) /\
    answers_at (server C r') now = true /\ rate_of r' = rate_of r /\ cap_of r' = cap_of r /\
    tokens_at (cap_of r) (now_ms now) (Z.max 0 (m - 1)) (stored_in r') /\
    (if 1 <=? m then a = Some (Ok tt) else is_err a).
Proof using Hnow.
  intros Hans Hu Hc Hm Ht. unfold redis_check_key, check_bucket, invoke_script. cbv zeta. rewrite Hans.
  assert (u64_as_i64 (now_ms now) = now_ms now) as -> by (unfold u64_as_i64, i64_max; rewrite (proj2 (Z.leb_le _ _)) by lia; done).
  fold (cap_of r) (rate_of r). set (key := (key_prefix C r ++ _)%string) in *.
  destruct (script_takes (server_ms (server C r) now) (buckets (server C r) !! key) (now_ms now) (cap_of r) m (rate_of r) 120000
    Hu Hnow Hm Hc Ht ltac:(lia)) as (b & ret & -> & Hb & Hr).
  cbn [fmap option_fmap option_map]. eexists _, _. split; [reflexivity|]. split; [exact Hans|]. split; [reflexivity|].
  split; [reflexivity|]. split; [unfold stored_in; cbn; by rewrite lookup_insert_eq|].
  destruct (1 <=? m); [by subst ret|]. rewrite (proj2 (Z.leb_gt ret 0)) by lia. by eexists.
Qed.

Lemma burst_from n r m : answers_at (server C r) now = true -> usable (rate_of r) -> cap_of r < 2 ^ 53 - 1 ->
  Z.of_nat m <= cap_of r -> tokens_at (cap_of r) (now_ms now) (Z.of_nat m) (stored_in r) ->
  let answers := check_times now_ms now k rpm burst n r in
  take m answers = repeat (Some (Ok tt)) (Nat.min n m) /\ Forall is_err (drop m answers).
Proof using Hnow.
  revert r m. induction n as [|n IH]; intros r m Ha Hu Hc Hm Ht; cbn [check_times Nat.min repeat]; [rewrite take_nil, drop_nil; by split|].
  destruct (check_takes r (Z.of_nat m) Ha Hu Hc ltac:(lia) Ht) as (r' & a & -> & Ha' & Er & Ec & Ht' & Hr).
  rewrite <-Er in Hu. rewrite <-Ec in Hc, Hm, Ht'. cbv zeta. destruct m as [|m].
  - destruct (IH r' O Ha' Hu Hc Hm Ht') as [_ Hd]. rewrite drop_0 in Hd |- *. split; [done|]. by constructor.
  - rewrite (proj2 (Z.leb_le _ _)) in Hr by lia. subst a. replace (Z.max 0 (Z.of_nat (S m) - 1)) with (Z.of_nat m) in Ht' by lia.
    destruct (IH r' m Ha' Hu Hc ltac:(lia) Ht') as [Htake Hd]. cbn [take drop Nat.min repeat]. by rewrite Htake.
Qed.

End Burst.

(** C29: bursts against Redis are exact: on any server that answers, a key whose
    bucket is missing or has expired and that is checked [n] times at one
    instant is admitted exactly [max burst 1] times and refused after that. *)
Theorem redis_burst_exact {C : Type -> Type} `{!LruOps C} config s fallback now_ms now k rpm burst n :
  config_in_width config -> opt_u32 rpm -> opt_u32 burst -> answers_at s now = true -> 0 <= now_ms now < 2 ^ 52 ->
  live (server_ms s now) (buckets s !! ("rg:rl:key:" ++ k)%string) = None ->
  let b := Z.to_nat (Z.max (default (Config.per_key_burst_size config) burst) 1) in
  let answers := check_times now_ms now k rpm burst n (connect C s config fallback) in
  take b answers = repeat (Some (Ok tt)) (Nat.min n b) /\ Forall is_err (drop b answers).
Proof.
  intros (Hb & Hr & _) Hrpm Hburst Hans Hnow Hfresh b. set (r := connect C s config fallback).
  assert (is_u32 (default (Config.per_key_burst_size config) burst)) as Hcap by (destruct burst; simpl; auto).
  assert (cap_of burst r = Z.of_nat b) as Ec by (unfold cap_of, r, b; cbn [connect redis_per_key_capacity]; lia).
  apply (burst_from now_ms now k rpm burst Hnow n r b); rewrite ?Ec; [exact Hans| |unfold b, is_u32, u32_max in *; lia|lia|].
  - unfold rate_of, r. cbn [connect per_key_refill_per_ms].
    replace (default (refill_per_ms_of (Config.per_key_requests_per_minute config)) (refill_per_ms_of <$> rpm))
      with (refill_per_ms_of (default (Config.per_key_requests_per_minute config) rpm)) by (by destruct rpm).
    apply refill_usable. destruct rpm; simpl; auto.
  - unfold stored_in, r. cbn [connect server key_prefix]. change ("rg:rl" ++ ":key:" ++ k)%string with ("rg:rl:key:" ++ k)%string.
    rewrite Hfresh. by split.
Qed.

(** ** An idle bucket comes back full *)

(** Checks of one key at the given instants: how many of them are admitted. *)
Fixpoint admitted_at {C : Type -> Type} `{!LruOps C} (now_ms : Z -> Z) (k : string) (instants : list Z)
  (r : RedisRateLimitBackend C) : nat :=
  match instants with
  | [] => 0
  | now :: rest =>
      let '(r, a) := redis_check_key C now_ms now k None None r in
      (match a with Some (Ok _) => 1 | _ => 0 end + admitted_at now_ms k rest r)%nat
  end.

Definition demo_server : RedisServer := {| answers_at := fun _ => true; server_ms := fun now => now; buckets := ∅ |}.
Definition demo_backend : RedisRateLimitBackend ref_lru := connect ref_lru demo_server (example_config 1 10) None.

(** The time to live of two minutes does not depend on the rate: a key of one
    request a minute that has used its burst of 10 has earned one more token
    just before two idle minutes are over, and ten once its bucket has expired. *)
Lemma expired_bucket_is_full :
  admitted_at (fun now => now) "k" (repeat 0 10) demo_backend = 10%nat /\
  admitted_at (fun now => now) "k" (repeat 0 10 ++ repeat 119999 10) demo_backend = 11%nat /\
  admitted_at (fun now => now) "k" (repeat 0 10 ++ repeat 120000 10) demo_backend = 20%nat.
Proof. vm_compute. split; [reflexivity|split; reflexivity]. Qed.

Lemma redis_burst_exact_witness :
  take 10 (check_times (fun now => now) 5 "k" None None 12 demo_backend) = repeat (Some (Ok tt)) 10.
Proof.
  destruct (redis_burst_exact (C:=ref_lru) (example_config 1 10) demo_server None (fun now => now) 5 "k" None None 12) as [H _].
  - vm_compute. repeat split; discriminate.
  - intros ? [=].
  - intros ? [=].
  - reflexivity.
  - lia.
  - reflexivity.
  - exact H.
Defined.

End Redis.
