(* ===== verification/RequestLog.v ===== *)
(** * Request log entries (src/src/telemetry/request_log.rs) *)
From S2P Require Import Prelude Str F64 Chat Provider Metrics.

Open Scope string_scope.
Open Scope list_scope.
Open Scope Z_scope.

Module RequestLog.

Record RequestLoggingConfig := { enabled : bool; log_prompt_content : bool }.
Definition RequestLoggingConfig_default : RequestLoggingConfig :=
  {| enabled := true; log_prompt_content := false |}.

Inductive RequestLogStatus := Success | Failure.
Definition RequestLogStatus_as_str (s : RequestLogStatus) : string :=
  match s with Success => "success" | Failure => "failure" end.

Inductive RequestErrorCategory :=
| InvalidRequest
| AdmissionRejected
| NoProviderAvailable
| Timeout
| RateLimited
| AuthenticationFailed
| ProviderUnavailable
| ProviderBadResponse.

Definition RequestErrorCategory_as_str (c : RequestErrorCategory) : string :=
  match c with
  | InvalidRequest => "invalid_request"
  | AdmissionRejected => "admission_rejected"
  | NoProviderAvailable => "no_provider_available"
  | Timeout => "timeout"
  | RateLimited => "rate_limited"
  | AuthenticationFailed => "authentication_failed"
  | ProviderUnavailable => "provider_unavailable"
  | ProviderBadResponse => "provider_bad_response"
  end.

Definition from_provider_category (c : Metrics.ProviderErrorCategory) : RequestErrorCategory :=
  match c with
  | Metrics.CatTimeout => Timeout
  | Metrics.CatRateLimited => RateLimited
  | Metrics.CatAuthenticationFailed => AuthenticationFailed
  | Metrics.CatProviderUnavailable => ProviderUnavailable
  | Metrics.CatProviderBadResponse => ProviderBadResponse
  end.

Record RequestCostEstimate := { input_cost_usd : F64.t; output_cost_usd : F64.t; total_cost_usd : F64.t }.
Definition from_cost (c : Provider.CostEstimate) : RequestCostEstimate :=
  {| input_cost_usd := Provider.input_cost_usd c; output_cost_usd := Provider.output_cost_usd c;
     total_cost_usd := Provider.total_cost_usd c |}.

Record RequestProviderAttempt := {
  provider_name : string;
  attempt_order : Z;
  att_latency_ms : Z;
  success : bool;
  is_fallback : bool;
  att_error_category : option RequestErrorCategory
}.
Definition from_attempt (a : Metrics.ProviderAttempt) : RequestProviderAttempt :=
  {| provider_name := Metrics.att_provider_name a; attempt_order := Metrics.attempt_order a;
     att_latency_ms := Metrics.att_latency_ms a; success := Metrics.success a;
     is_fallback := Metrics.is_fallback a;
     att_error_category := from_provider_category <$> Metrics.error_category a |}.

Record RequestLogEntry := {
  request_id : Chat.Uuid;
  route : string;
  created_at_unix_seconds : Z;
  requested_model : option string;
  stream : bool;
  final_provider : option string;
  status : RequestLogStatus;
  latency_ms : Z;
  usage : option Chat.TokenUsage;
  cost_estimate : option RequestCostEstimate;
  error_category : option RequestErrorCategory;
  provider_attempts : list RequestProviderAttempt;
  prompt_messages : option (list Chat.ChatMessage)
}.

Definition prompt_messages_of (request : option Chat.ChatCompletionRequest) (config : RequestLoggingConfig) :
  option (list Chat.ChatMessage) :=
  if log_prompt_content config then Chat.messages <$> request else None.

(** [RequestLogEntry::new]; [now] is the wall clock. *)
Definition new (now : Z) (rid : Chat.Uuid) (r : string) (request : option Chat.ChatCompletionRequest)
  (provider : option string) (s : RequestLogStatus) (latency : Z) (u : option Chat.TokenUsage)
  (cost : option Provider.CostEstimate) (category : option RequestErrorCategory)
  (attempts : list Metrics.ProviderAttempt) (config : RequestLoggingConfig) : RequestLogEntry :=
  {| request_id := rid; route := r; created_at_unix_seconds := now;
     requested_model := request ≫= Chat.req_model;
     stream := default false (Chat.stream_enabled <$> request);
     final_provider := provider; status := s; latency_ms := latency; usage := u;
     cost_estimate := from_cost <$> cost; error_category := category;
     provider_attempts := map from_attempt attempts;
     prompt_messages := prompt_messages_of request config |}.

Definition fallback_attempt_count (e : RequestLogEntry) : Z :=
  Z.of_nat (length (filter (fun a => is_fallback a = true) (provider_attempts e))).

End RequestLog.
