(* ===== verification/Health.v ===== *)
(** * Provider health (src/src/routing/health.rs, src/src/routes/health.rs)

    The registry of health probes, one round of probing, and the readiness
    endpoint.  What each provider's health check answers and the wall clock are
    arguments; the endless probing loop is a repetition of [probe_once]. *)
From S2P Require Import Prelude Str F64 Chat Provider Metrics.

Open Scope string_scope.
Open Scope list_scope.
Open Scope Z_scope.

Module Health.

Inductive ProviderHealthStatus := Unknown | Healthy | Unhealthy.
#[global] Instance status_eq_dec : EqDecision ProviderHealthStatus.
Proof. solve_decision. Defined.

Record ProviderHealthSnapshot := {
  status : ProviderHealthStatus;
  checked_at_unix_seconds : option Z;
  error_category : option Metrics.ProviderErrorCategory
}.

Definition ProviderHealthSnapshot_default : ProviderHealthSnapshot :=
  {| status := Unknown; checked_at_unix_seconds := None; error_category := None |}.

(** The [RwLock] is poisoned like a mutex. *)
Record ProviderHealthRegistry := { providers : mutex (gmap string ProviderHealthSnapshot) }.

Definition new (provider_names : list string) : ProviderHealthRegistry :=
  {| providers := Unpoisoned
       (list_to_map (map (fun n => (n, ProviderHealthSnapshot_default)) provider_names)) |}.

Definition record (now : Z) (provider : string) (s : ProviderHealthStatus)
  (category : option Metrics.ProviderErrorCategory) (h : ProviderHealthRegistry) : ProviderHealthRegistry :=
  match lock (providers h) with
  | Some m => {| providers := Unpoisoned
      (<[provider := {| status := s; checked_at_unix_seconds := Some now; error_category := category |}]> m) |}
  | None => h
  end.

Definition record_success (now : Z) (provider : string) : ProviderHealthRegistry -> ProviderHealthRegistry :=
  record now provider Healthy None.

Definition record_failure (now : Z) (provider : string) (error : Provider.ProviderError) :
  ProviderHealthRegistry -> ProviderHealthRegistry :=
  record now provider Unhealthy (Some (Metrics.provider_error_category error)).

Definition snapshot (h : ProviderHealthRegistry) : gmap string ProviderHealthSnapshot :=
  default ∅ (lock (providers h)).

Definition any_provider_ready (h : ProviderHealthRegistry) : bool :=
  let items := btree_items (snapshot h) in
  match items with [] => false | _ => true end
  && existsb (fun e => negb (bool_decide (status e.2 = Unhealthy))) items.

(** One round: [answers] pairs each provider with its health check's result and
    the second at which it came back. *)
Definition probe_once (answers : list (Provider.ProviderEntry * result unit Provider.ProviderError * Z))
  (h : ProviderHealthRegistry) : ProviderHealthRegistry :=
  foldl (fun h '(entry, answer, now) =>
    let provider_name := Provider.name (Provider.provider entry) in
    match answer with
    | Ok _ => record_success now provider_name h
    | Err error => record_failure now provider_name error h
    end) h answers.

(** The probing task: one round after the other, an interval apart. *)
Definition spawn_provider_health_probes
  (rounds : list (list (Provider.ProviderEntry * result unit Provider.ProviderError * Z)))
  (h : ProviderHealthRegistry) : ProviderHealthRegistry :=
  foldl (fun h round => probe_once round h) h rounds.

(* ------------------------------------------------------------------ *)
(** ** The endpoints *)

Record ProviderHealthResponse := {
  resp_status : string;
  resp_checked_at : option Z;
  resp_error_category : option string
}.

Record ReadyResponse := {
  ready_status : string;
  service : string;
  ready_providers : option (gmap string ProviderHealthResponse)
}.

Record HealthResponse := { health_status : string; health_service : string }.

Definition health : HealthResponse := {| health_status := "ok"; health_service := "rustygate" |}.

Definition from_snapshot (s : ProviderHealthSnapshot) : ProviderHealthResponse :=
  {| resp_status := match status s with
       | Unknown => "unknown" | Healthy => "healthy" | Unhealthy => "unhealthy" end;
     resp_checked_at := checked_at_unix_seconds s;
     resp_error_category := Metrics.ProviderErrorCategory_as_str <$> error_category s |}.

Definition ready (h : ProviderHealthRegistry) (detail : bool) : Z * ReadyResponse :=
  let is_ready := any_provider_ready h in
  ((if is_ready then 200 else 503),
   {| ready_status := if is_ready then "ready" else "not_ready"; service := "rustygate";
      ready_providers := if detail then Some (from_snapshot <$> snapshot h) else None |}).

(* ------------------------------------------------------------------ *)
(** ** Reports and what they leave *)

(** A report: provider, result of the check, second. *)
Definition report : Type := string * result unit Provider.ProviderError * Z.

Definition apply_report (h : ProviderHealthRegistry) (r : report) : ProviderHealthRegistry :=
  let '(p, a, now) := r in
  match a with Ok _ => record_success now p h | Err e => record_failure now p e h end.

Definition run (names : list string) (reports : list report) : ProviderHealthRegistry :=
  foldl apply_report (new names) reports.

(** The probing task is a run of reports. *)
Lemma probes_are_reports rounds h :
  spawn_provider_health_probes rounds h =
  foldl apply_report h (map (fun '(e, a, now) => (Provider.name (Provider.provider e), a, now)) (concat rounds)).
Proof.
  revert h. unfold spawn_provider_health_probes. induction rounds as [|round rounds IH]; intros h; [done|]. cbn [foldl concat].
  rewrite map_app, foldl_app, IH. f_equal. unfold probe_once. revert h. induction round as [|[[e a] now] round IH']; intros h; [done|].
  cbn [foldl map]. by rewrite IH'.
Qed.

(** What the last report about a provider says. *)
Definition last_report (p : string) (reports : list report) : option (result unit Provider.ProviderError * Z) :=
  foldl (fun acc '(q, a, now) => if String.eqb q p then Some (a, now) else acc) None reports.

Definition expected (names : list string) (reports : list report) (p : string) : option ProviderHealthSnapshot :=
  match last_report p reports with
  | Some (Ok _, now) => Some {| status := Healthy; checked_at_unix_seconds := Some now; error_category := None |}
  | Some (Err e, now) => Some {| status := Unhealthy; checked_at_unix_seconds := Some now;
                                 error_category := Some (Metrics.provider_error_category e) |}
  | None => if bool_decide (p ∈ names) then Some ProviderHealthSnapshot_default else None
  end.

Lemma new_lookup names p : list_to_map (M:=gmap string ProviderHealthSnapshot)
    (map (fun n => (n, ProviderHealthSnapshot_default)) names) !! p
  = if bool_decide (p ∈ names) then Some ProviderHealthSnapshot_default else None.
Proof.
  induction names as [|n names IH]; [done|]. simpl. destruct (decide (p = n)) as [->|Hne].
  - rewrite lookup_insert, decide_True by done. by rewrite bool_decide_true by left.
  - rewrite lookup_insert_ne, IH by done. case_bool_decide as H1; case_bool_decide as H2; try done.
    + destruct H2. by right.
    + apply elem_of_cons in H2. naive_solver.
Qed.

Lemma run_map names reports : exists m, providers (run names reports) = Unpoisoned m /\
  forall p, m !! p = expected names reports p.
Proof.
  unfold run. induction reports as [|[[q a] now] reports IH] using rev_ind.
  - eexists. split; [done|]. intros p. apply new_lookup.
  - rewrite foldl_app. cbn [foldl]. destruct IH as (m & Hm & Hl).
    assert (forall s c, exists m', providers (record now q s c (foldl apply_report (new names) reports)) = Unpoisoned m' /\
      m' = <[q := {| status := s; checked_at_unix_seconds := Some now; error_category := c |}]> m) as Hrec.
    { intros s c. unfold record. rewrite Hm. eauto. }
    assert (forall s c, (match a with Ok _ => s = Healthy /\ c = None
      | Err e => s = Unhealthy /\ c = Some (Metrics.provider_error_category e) end) -> forall p,
      <[q := {| status := s; checked_at_unix_seconds := Some now; error_category := c |}]> m !! p
      = expected names (reports ++ [(q, a, now)]) p) as Hexp.
    { intros s c Hsc p. unfold expected, last_report. rewrite foldl_app. cbn [foldl].
      destruct (String.eqb_spec q p) as [->|Hne].
      - rewrite lookup_insert, decide_True by done. by destruct a; destruct Hsc as [-> ->].
      - rewrite lookup_insert_ne by done. apply Hl. }
    cbn [apply_report]. destruct a as [u|e]; unfold record_success, record_failure.
    + destruct (Hrec Healthy None) as (m' & -> & ->). eexists. split; [done|]. by apply Hexp.
    + destruct (Hrec Unhealthy (Some (Metrics.provider_error_category e))) as (m' & -> & ->). eexists. split; [done|].
      by apply Hexp.
Qed.

Lemma ready_iff h m : providers h = Unpoisoned m ->
  any_provider_ready h = true <-> exists p s, m !! p = Some s /\ status s <> Unhealthy.
Proof.
  intros Hm. unfold any_provider_ready, snapshot. rewrite Hm. cbn [lock default].
  rewrite andb_true_iff, existsb_exists. split.
  - intros [_ ([p s] & Hin & Hs)]. exists p, s. apply list_elem_of_In in Hin. unfold btree_items in Hin.
    rewrite sort_by_elem_of, elem_of_map_to_list in Hin. by rewrite negb_true_iff, bool_decide_eq_false in Hs.
  - intros (p & s & Hl & Hs). assert ((p, s) ∈ btree_items m) as Hin
      by (unfold btree_items; by rewrite sort_by_elem_of, elem_of_map_to_list).
    split; [simpl; destruct (btree_items m); [by apply elem_of_nil in Hin|done]|]. exists (p, s).
    split; [by apply list_elem_of_In|]. by rewrite negb_true_iff, bool_decide_eq_false.
Qed.

(** Readiness follows the last report of each provider: after any sequence
    of health reports, the endpoint answers 200 exactly when some configured or
    reported provider's last report is a success, or has not come yet, and 503
    otherwise; the detail shows for each provider the outcome, time and error
    category of its last report. *)
Theorem ready_follows_last_reports names reports :
  let h := run names reports in
  (fst (ready h true) = 200 <-> exists p s, expected names reports p = Some s /\ status s <> Unhealthy) /\
  (fst (ready h true) <> 200 -> fst (ready h true) = 503) /\
  exists m, ready_providers (snd (ready h true)) = Some m /\
    forall p, m !! p = from_snapshot <$> expected names reports p.
Proof.
  intros h. destruct (run_map names reports) as (m & Hm & Hl). fold h in Hm.
  pose proof (ready_iff h m Hm) as Hr. unfold ready. cbn [fst snd ready_providers].
  split; [|split].
  - destruct (any_provider_ready h); split; intros Hx; try done.
    + destruct Hr as [Hr _]. destruct (Hr eq_refl) as (p & s & H1 & H2). exists p, s. by rewrite <-Hl.
    + destruct Hr as [_ Hr]. destruct Hx as (p & s & H1 & H2). rewrite <-Hl in H1.
      by discriminate (Hr (ex_intro _ p (ex_intro _ s (conj H1 H2)))).
  - by destruct (any_provider_ready h).
  - eexists. split; [done|]. intros p. unfold snapshot. rewrite Hm. cbn [lock default].
    by rewrite lookup_fmap, Hl.
Qed.

End Health.
