(* ===== verification/Keys.v ===== *)
(** * API keys and quotas (src/src/auth/keys.rs)

    Roles, the static key store, and the SQLite key store over an explicit
    database: the rows of [api_keys] in insertion order and the rows of
    [api_key_usage_daily], with the constraints of migrations/0002_api_keys.sql
    (primary keys, the unique prefix index, the foreign key, which sqlx
    enforces).  A database that is not [online] fails every query.

    Arguments of the model: Argon2 ([hash_password], [verify_password]), the
    random identifiers, and the wall clock in seconds. *)
From S2P Require Import Prelude Str F64.

Open Scope string_scope.
Open Scope list_scope.
Open Scope Z_scope.

Module Keys.

Inductive KeyRole := Admin | Inference | Observability.

Definition KeyRole_as_str (r : KeyRole) : string :=
  match r with
  | Admin => "admin"
  | Inference => "inference"
  | Observability => "observability"
  end.

Definition allows_inference (r : KeyRole) : bool :=
  match r with Admin | Inference => true | Observability => false end.
Definition allows_observability (r : KeyRole) : bool :=
  match r with Admin | Observability => true | Inference => false end.

Inductive AuthError :=
| InvalidRole (role : string)
| InvalidKeyFormat
| Hash
| Storage
| Migration.

Definition KeyRole_from_str (value : string) : result KeyRole AuthError :=
  if String.eqb value "admin" then Ok Admin
  else if String.eqb value "inference" then Ok Inference
  else if String.eqb value "observability" then Ok Observability
  else Err (InvalidRole value).

Record KeyLimits := {
  requests_per_minute : option Z;
  daily_token_quota : option Z;
  daily_cost_quota_usd : option F64.t
}.
Definition KeyLimits_default : KeyLimits :=
  {| requests_per_minute := None; daily_token_quota := None; daily_cost_quota_usd := None |}.

Record AuthenticatedKey := {
  key_id : string;
  prefix : string;
  label : string;
  role : KeyRole;
  limits : KeyLimits;
  cache_enabled : bool
}.

Record GeneratedApiKey := { gen_id : string; gen_prefix : string; raw_key : string }.

Record QuotaRejection := { retry_after_seconds : Z }.

(* ------------------------------------------------------------------ *)
(** ** The trait and the static store *)

(** [trait KeyStore] over a store [S], at a wall-clock time. *)
Class KeyStore (S : Type) := {
  authenticate : S -> string -> result (option AuthenticatedKey) AuthError;
  check_quota : Z -> S -> AuthenticatedKey -> result unit QuotaRejection;
  record_usage : Z -> string -> Z -> F64.t -> S -> S * result unit AuthError
}.

(** [StaticKeyStore]; [ct_eq] on byte slices is equality. *)
Record StaticKeyStore := { static_raw_key : string }.

Definition static_authenticate (s : StaticKeyStore) (raw : string) :
  result (option AuthenticatedKey) AuthError :=
  if String.eqb raw (static_raw_key s)
  then Ok (Some {| key_id := "env-default"; prefix := "env"; label := "environment default key";
                   role := Admin; limits := KeyLimits_default; cache_enabled := true |})
  else Ok None.

(** The trait's default methods. *)
#[global] Instance StaticKeyStore_KeyStore : KeyStore StaticKeyStore := {|
  authenticate := static_authenticate;
  check_quota _ _ _ := Ok tt;
  record_usage _ _ _ _ s := (s, Ok tt)
|}.

(* ------------------------------------------------------------------ *)
(** ** The database *)

(** Casts between integer widths ([as]). *)
Definition as_i64 (x : Z) : Z := (x + 2 ^ 63) mod 2 ^ 64 - 2 ^ 63.
Definition as_u64 (x : Z) : Z := x mod 2 ^ 64.
Definition as_u32 (x : Z) : Z := x mod 2 ^ 32.

(** A numeric cell: SQLite's [+] on integers yields a real on overflow. *)
Inductive SqlNum := SInt (n : Z) | SReal (x : F64.t).

Definition in_i64 (n : Z) : bool := (- 2 ^ 63 <=? n) && (n <=? i64_max).

Definition sql_real (x : SqlNum) : F64.t :=
  match x with SInt n => F64.of_Z n | SReal r => r end.
Definition sql_add (x y : SqlNum) : SqlNum :=
  match x, y with
  | SInt a, SInt b => if in_i64 (a + b) then SInt (a + b) else SReal (F64.add (F64.of_Z a) (F64.of_Z b))
  | _, _ => SReal (F64.add (sql_real x) (sql_real y))
  end.

(** Binding an [f64]: SQLite stores NaN as NULL. *)
Definition bind_real (x : F64.t) : option F64.t := if F64.is_nan x then None else Some x.

Record ApiKeyRow := {
  row_id : string;
  row_prefix : string;
  row_hash : string;
  row_label : string;
  row_role : string;
  row_rpm : option Z;
  row_token_quota : option Z;
  row_cost_quota : option F64.t;
  row_cache_enabled : Z;
  row_created_at : Z;
  row_revoked_at : option Z
}.

Record UsageRow := { request_count : SqlNum; total_tokens : SqlNum; total_cost_usd : F64.t }.

Record SqliteKeyStore := {
  online : bool;
  api_keys : list ApiKeyRow;
  usage : gmap (string * Z) UsageRow
}.

(** The options of a connection, and the database driver: how a URL is parsed,
    what a pool of so many connections finds in the database, and what the
    migrations make of it. *)
Record SqliteConnectOptions := { filename : string; create_if_missing : bool }.

Record Sqlx (Pool : Type) := {
  parse_options : string -> option SqliteConnectOptions;
  connect_with : Z -> SqliteConnectOptions -> option Pool;
  migrate : Pool -> option Pool
}.
Arguments parse_options {Pool} _ _.
Arguments connect_with {Pool} _ _ _.
Arguments migrate {Pool} _ _.

Definition connect (driver : Sqlx SqliteKeyStore) (database_url : string) : result SqliteKeyStore AuthError :=
  match parse_options driver database_url with
  | None => Err Storage
  | Some options =>
      match connect_with driver 5 {| filename := filename options; create_if_missing := true |} with
      | None => Err Storage
      | Some pool =>
          match migrate driver pool with
          | None => Err Migration
          | Some pool => Ok pool
          end
      end
  end.

(** A driver that refuses every URL. *)
Definition no_driver {Pool} : Sqlx Pool :=
  {| parse_options := fun _ => None; connect_with := fun _ _ => None; migrate := Some |}.

Definition set_keys (db : SqliteKeyStore) (rows : list ApiKeyRow) : SqliteKeyStore :=
  {| online := online db; api_keys := rows; usage := usage db |}.
Definition set_usage (db : SqliteKeyStore) (u : gmap (string * Z) UsageRow) : SqliteKeyStore :=
  {| online := online db; api_keys := api_keys db; usage := u |}.

Definition active_row (r : ApiKeyRow) : bool := negb (is_some (row_revoked_at r)).

Definition row_to_key (r : ApiKeyRow) : result AuthenticatedKey AuthError :=
  match KeyRole_from_str (row_role r) with
  | Err e => Err e
  | Ok role =>
      Ok {| key_id := row_id r; prefix := row_prefix r; label := row_label r; role := role;
            limits := {| requests_per_minute := as_u32 <$> row_rpm r;
                         daily_token_quota := as_u64 <$> row_token_quota r;
                         daily_cost_quota_usd := row_cost_quota r |};
            cache_enabled := negb (row_cache_enabled r =? 0) |}
  end.

Definition parse_key_prefix (raw : string) : result string AuthError :=
  match Str.splitn 3 "_" raw with
  | p0 :: p1 :: p2 :: _ =>
      if String.eqb p0 "rgk" && negb (Str.is_empty p1) && negb (Str.is_empty p2)
      then Ok p1 else Err InvalidKeyFormat
  | _ => Err InvalidKeyFormat
  end.

Definition current_day_unix (now : Z) : Z := now / 86400.
Definition seconds_until_next_day (now : Z) : Z := 86400 - now mod 86400.

Section Store.
(** [Argon2::hash_password] with the salt drawn ([None]: it fails), and
    [PasswordHash::new] with [verify_password] ([None]: the hash is malformed). *)
Variable hash_password : string -> option string.
Variable verify_password : string -> string -> option bool.

Definition hash_key (raw : string) : result string AuthError :=
  match hash_password raw with Some h => Ok h | None => Err Hash end.
Definition verify_key (raw hash : string) : result bool AuthError :=
  match verify_password raw hash with Some b => Ok b | None => Err Hash end.

(** [uuid] is the new row's id, [simple] the hexadecimal digits the prefix is
    taken from, [secret] the two UUIDs of the secret. *)
Definition create_key (now : Z) (uuid simple secret lbl : string) (r : KeyRole) (l : KeyLimits)
  (cache : bool) (db : SqliteKeyStore) : SqliteKeyStore * result GeneratedApiKey AuthError :=
  let pfx := String.substring 0 8 simple in
  let raw := ("rgk_" ++ pfx ++ "_" ++ secret)%string in
  match hash_key raw with
  | Err e => (db, Err e)
  | Ok h =>
      if online db && forallb (fun row => negb (String.eqb (row_id row) uuid) &&
                                          negb (String.eqb (row_prefix row) pfx)) (api_keys db)
      then (set_keys db (api_keys db ++
              [{| row_id := uuid; row_prefix := pfx; row_hash := h; row_label := lbl;
                  row_role := KeyRole_as_str r; row_rpm := requests_per_minute l;
                  row_token_quota := as_i64 <$> daily_token_quota l;
                  row_cost_quota := daily_cost_quota_usd l ≫= bind_real;
                  row_cache_enabled := if cache then 1 else 0;
                  row_created_at := as_i64 now; row_revoked_at := None |}]),
            Ok {| gen_id := uuid; gen_prefix := pfx; raw_key := raw |})
      else (db, Err Storage)
  end.

Fixpoint collect_keys (rows : list ApiKeyRow) : result (list AuthenticatedKey) AuthError :=
  match rows with
  | [] => Ok []
  | r :: rows =>
      match row_to_key r with
      | Err e => Err e
      | Ok k => match collect_keys rows with Ok ks => Ok (k :: ks) | Err e => Err e end
      end
  end.

(** [ORDER BY created_at_unix_seconds DESC]; rows created in the same second
    keep their insertion order. *)
Definition list_keys (db : SqliteKeyStore) : result (list AuthenticatedKey) AuthError :=
  if online db
  then collect_keys (sort_by (cmp_flip (cmp_on row_created_at Z.compare))
                       (filter (fun r => active_row r = true) (api_keys db)))
  else Err Storage.

Definition first_row (f : ApiKeyRow -> bool) (db : SqliteKeyStore) : option ApiKeyRow :=
  List.find (fun r => f r && active_row r) (api_keys db).

Definition get_key (id : string) (db : SqliteKeyStore) : result (option AuthenticatedKey) AuthError :=
  if online db
  then match first_row (fun r => String.eqb (row_id r) id) db with
       | None => Ok None
       | Some row => match row_to_key row with Ok k => Ok (Some k) | Err e => Err e end
       end
  else Err Storage.

Definition revoke_row (now : Z) (id : string) (r : ApiKeyRow) : ApiKeyRow :=
  if String.eqb (row_id r) id
  then {| row_id := row_id r; row_prefix := row_prefix r; row_hash := row_hash r;
          row_label := row_label r; row_role := row_role r; row_rpm := row_rpm r;
          row_token_quota := row_token_quota r; row_cost_quota := row_cost_quota r;
          row_cache_enabled := row_cache_enabled r; row_created_at := row_created_at r;
          row_revoked_at := Some (as_i64 now) |}
  else r.

Definition revoke_key (now : Z) (id : string) (db : SqliteKeyStore) :
  SqliteKeyStore * result unit AuthError :=
  if online db
  then (set_keys db (map (revoke_row now id) (api_keys db)), Ok tt)
  else (db, Err Storage).

Definition sqlite_authenticate (db : SqliteKeyStore) (raw : string) :
  result (option AuthenticatedKey) AuthError :=
  match parse_key_prefix raw with
  | Err e => Err e
  | Ok pfx =>
      if online db
      then
        match first_row (fun r => String.eqb (row_prefix r) pfx) db with
        | None => Ok None
        | Some row =>
            match verify_key raw (row_hash row) with
            | Err e => Err e
            | Ok false => Ok None
            | Ok true => match row_to_key row with Ok k => Ok (Some k) | Err e => Err e end
            end
        end
      else Err Storage
  end.

Definition sqlite_check_quota (now : Z) (db : SqliteKeyStore) (key : AuthenticatedKey) :
  result unit QuotaRejection :=
  let rejection := Err {| retry_after_seconds := seconds_until_next_day now |} in
  match daily_token_quota (limits key), daily_cost_quota_usd (limits key) with
  | None, None => Ok tt
  | tq, cq =>
      if online db
      then
        let row := usage db !! (key_id key, as_i64 (current_day_unix now)) in
        let tokens := as_u64 (default 0 (row ≫= fun r =>
          match total_tokens r with SInt n => Some n | SReal _ => None end)) in
        let cost := default F64.zero (total_cost_usd <$> row) in
        if is_some_and tq (fun quota => quota <=? tokens)
           || is_some_and cq (fun quota => F64.geb cost quota)
        then rejection else Ok tt
      else rejection
  end.

(** The foreign key wants the id among the keys; a NaN cost is a NULL, which the
    column does not take. *)
Definition sqlite_record_usage (now : Z) (id : string) (tokens : Z) (cost : F64.t)
  (db : SqliteKeyStore) : SqliteKeyStore * result unit AuthError :=
  let k := (id, as_i64 (current_day_unix now)) in
  let added := SInt (Z.min tokens i64_max) in
  let row := match usage db !! k with
    | None => {| request_count := SInt 1; total_tokens := added; total_cost_usd := cost |}
    | Some u => {| request_count := sql_add (request_count u) (SInt 1);
                   total_tokens := sql_add (total_tokens u) added;
                   total_cost_usd := F64.add (total_cost_usd u) cost |}
    end in
  if online db && existsb (fun r => String.eqb (row_id r) id) (api_keys db)
     && is_some (bind_real cost) && is_some (bind_real (total_cost_usd row))
  then (set_usage db (<[k := row]> (usage db)), Ok tt)
  else (db, Err Storage).

End Store.

#[global] Instance SqliteKeyStore_KeyStore (verify_password : string -> string -> option bool) :
  KeyStore SqliteKeyStore := {|
  authenticate := sqlite_authenticate verify_password;
  check_quota := sqlite_check_quota;
  record_usage := sqlite_record_usage
|}.

(* ------------------------------------------------------------------ *)
(** ** Key syntax and rows *)

Lemma split_once_here p rest : Str.split_once "_" p = None ->
  Str.split_once "_" (p ++ "_" ++ rest) = Some (p, rest).
Proof.
  induction p as [|a p IH]; intros Hp; [done|].
  change (String a p ++ "_" ++ rest)%string with (String a (p ++ "_" ++ rest)%string).
  cbn [Str.split_once Str.strip_prefix] in Hp |- *.
  destruct (Ascii.eqb _ a); [done|]. destruct (Str.split_once "_" p) as [[b c]|]; [done|].
  by rewrite IH.
Qed.

Lemma parse_generated p secret : Str.split_once "_" p = None -> p <> "" -> secret <> "" ->
  parse_key_prefix ("rgk_" ++ p ++ "_" ++ secret)%string = Ok p.
Proof.
  intros Hp Hne Hs. unfold parse_key_prefix.
  change ("rgk_" ++ p ++ "_" ++ secret)%string with ("rgk" ++ "_" ++ (p ++ "_" ++ secret))%string.
  cbn [Str.splitn]. rewrite (split_once_here "rgk") by done. rewrite (split_once_here p) by done.
  by destruct p, secret.
Qed.

Lemma as_i64_roundtrip n : is_u64 n -> as_u64 (as_i64 n) = n.
Proof.
  unfold is_u64, u64_max, as_u64, as_i64. intros Hn.
  destruct (Z.lt_ge_cases n (2 ^ 63)).
  - rewrite (Z.mod_small (n + 2 ^ 63)) by lia. rewrite Z.mod_small; lia.
  - replace (n + 2 ^ 63) with (n - 2 ^ 63 + 1 * 2 ^ 64) by lia. rewrite Z.mod_add by lia.
    rewrite (Z.mod_small (n - 2 ^ 63)) by lia.
    replace (n - 2 ^ 63 - 2 ^ 63) with (n + (-1) * 2 ^ 64) by lia. rewrite Z.mod_add by lia. apply Z.mod_small; lia.
Qed.

Lemma role_roundtrip r : KeyRole_from_str (KeyRole_as_str r) = Ok r.
Proof. by destruct r. Qed.

Definition limits_ok (l : KeyLimits) : Prop :=
  (forall n, requests_per_minute l = Some n -> is_u32 n) /\
  (forall n, daily_token_quota l = Some n -> is_u64 n) /\
  (forall x, daily_cost_quota_usd l = Some x -> F64.is_nan x = false).

Lemma limits_roundtrip l : limits_ok l ->
  {| requests_per_minute := as_u32 <$> requests_per_minute l;
     daily_token_quota := as_u64 <$> (as_i64 <$> daily_token_quota l);
     daily_cost_quota_usd := daily_cost_quota_usd l ≫= bind_real |} = l.
Proof.
  intros (H1 & H2 & H3). destruct l as [rpm tq cq]. cbn in *. f_equal.
  - destruct rpm as [n|]; [|done]. cbn. f_equal. specialize (H1 n eq_refl). unfold is_u32, u32_max in H1.
    apply Z.mod_small. lia.
  - destruct tq as [n|]; [|done]. cbn. f_equal. by apply as_i64_roundtrip, H2.
  - destruct cq as [x|]; [|done]. cbn. unfold bind_real. by rewrite H3.
Qed.

(* ------------------------------------------------------------------ *)
(** ** Histories of the key store *)

Section Histories.
Variable hash_password : string -> option string.
Variable verify_password : string -> string -> option bool.

Inductive op :=
| Create (now : Z) (uuid simple secret lbl : string) (r : KeyRole) (l : KeyLimits) (cache : bool)
| Revoke (now : Z) (id : string)
| Usage (now : Z) (id : string) (tokens : Z) (cost : F64.t)
| SetOnline (b : bool).

Definition step (db : SqliteKeyStore) (o : op) : SqliteKeyStore :=
  match o with
  | Create now uuid simple secret lbl r l cache =>
      fst (create_key hash_password now uuid simple secret lbl r l cache db)
  | Revoke now id => fst (revoke_key now id db)
  | Usage now id tokens cost => fst (sqlite_record_usage now id tokens cost db)
  | SetOnline b => {| online := b; api_keys := api_keys db; usage := usage db |}
  end.

Definition run (ops : list op) (db : SqliteKeyStore) : SqliteKeyStore := foldl step db ops.

Definition empty_db : SqliteKeyStore := {| online := true; api_keys := []; usage := ∅ |}.

Definition ids (db : SqliteKeyStore) : list string := map row_id (api_keys db).

(** [id] is taken by a revoked row. *)
Definition revoked (id : string) (db : SqliteKeyStore) : Prop :=
  exists row, row ∈ api_keys db /\ row_id row = id /\ is_Some (row_revoked_at row).

Lemma revoke_row_id now id r : row_id (revoke_row now id r) = row_id r.
Proof. unfold revoke_row. by case_match. Qed.

Lemma revoke_row_keeps now id r : is_Some (row_revoked_at r) -> is_Some (row_revoked_at (revoke_row now id r)).
Proof. unfold revoke_row. case_match; [by eexists|done]. Qed.

Lemma usage_keys now id tokens cost db :
  api_keys (fst (sqlite_record_usage now id tokens cost db)) = api_keys db.
Proof. unfold sqlite_record_usage. by case_match. Qed.

(** The rows a step leaves: the old ones, possibly revoked further, and at most
    one more, with a new id. *)
Lemma step_rows db o : exists f extra,
  api_keys (step db o) = map f (api_keys db) ++ extra /\
  (forall r, row_id (f r) = row_id r) /\
  (forall r, is_Some (row_revoked_at r) -> is_Some (row_revoked_at (f r))) /\
  (extra = [] \/ exists r, extra = [r] /\ row_id r ∉ ids db).
Proof.
  assert (forall db' : SqliteKeyStore, api_keys db' = api_keys db -> exists f extra,
    api_keys db' = map f (api_keys db) ++ extra /\ (forall r, row_id (f r) = row_id r) /\
    (forall r, is_Some (row_revoked_at r) -> is_Some (row_revoked_at (f r))) /\
    (extra = [] \/ exists r, extra = [r] /\ row_id r ∉ ids db)) as Hsame.
  { intros db' ->. exists id, []. rewrite map_id, app_nil_r. by auto. }
  destruct o as [now uuid simple secret lbl r l cache|now id|now id tokens cost|b]; cbn [step].
  - unfold create_key. destruct (hash_key _ _); [|by apply Hsame].
    destruct (online db && _) eqn:E; [|by apply Hsame]. cbn [fst set_keys api_keys].
    exists id. eexists. rewrite map_id. split; [reflexivity|]. split; [done|]. split; [done|]. right.
    eexists. split; [done|]. cbn [row_id]. apply andb_true_iff in E as [_ E]. rewrite forallb_forall in E.
    intros (row & Hid & Hin)%list_elem_of_fmap. apply list_elem_of_In, E, andb_true_iff in Hin as [Hin _].
    by rewrite Hid, String.eqb_refl in Hin.
  - unfold revoke_key. destruct (online db); [|by apply Hsame]. cbn [fst set_keys api_keys].
    exists (revoke_row now id), []. rewrite app_nil_r.
    split; [done|]. split; [apply revoke_row_id|]. split; [apply revoke_row_keeps|by left].
  - apply Hsame, usage_keys.
  - by apply Hsame.
Qed.

Lemma step_ids db o : NoDup (ids db) -> NoDup (ids (step db o)).
Proof.
  intros Hn. destruct (step_rows db o) as (f & extra & Hk & Hf & _ & He). unfold ids in *.
  rewrite Hk, map_app, map_map, (map_ext _ row_id) by done.
  destruct He as [->|(r & -> & Hr)]; [by rewrite app_nil_r|]. apply NoDup_app. split; [done|].
  split; [|apply NoDup_singleton]. intros x Hx [= ->]%list_elem_of_singleton. done.
Qed.

Lemma step_revoked id db o : revoked id db -> revoked id (step db o).
Proof.
  intros (row & Hin & Hid & Hr). destruct (step_rows db o) as (f & extra & Hk & Hf & Hkeep & _).
  exists (f row). rewrite Hk, Hf. split; [|by auto]. apply elem_of_app. left.
  by apply list_elem_of_fmap_2.
Qed.

Lemma run_keeps id ops db : NoDup (ids db) -> revoked id db ->
  NoDup (ids (run ops db)) /\ revoked id (run ops db).
Proof.
  unfold run. revert db. induction ops as [|o ops IH]; intros db Hn Hr; [done|].
  cbn [foldl]. apply IH; [by apply step_ids|by apply step_revoked].
Qed.

Lemma run_ids ops db : NoDup (ids db) -> NoDup (ids (run ops db)).
Proof. unfold run. revert db. induction ops as [|o ops IH]; intros db Hn; [done|]. by apply IH, step_ids. Qed.

Lemma first_row_spec f db row : first_row f db = Some row ->
  row ∈ api_keys db /\ f row = true /\ row_revoked_at row = None.
Proof.
  unfold first_row. intros [Hin Hf]%List.find_some. apply andb_true_iff in Hf as [Hf Ha].
  split; [by apply list_elem_of_In|]. split; [done|]. unfold active_row, is_some in Ha. by destruct (row_revoked_at row).
Qed.

(** What [authenticate] promises about a key it returns. *)
Lemma authenticate_row db raw key : sqlite_authenticate verify_password db raw = Ok (Some key) ->
  exists row, row ∈ api_keys db /\ row_revoked_at row = None /\ parse_key_prefix raw = Ok (row_prefix row) /\
    verify_password raw (row_hash row) = Some true /\ row_to_key row = Ok key.
Proof.
  unfold sqlite_authenticate. destruct (parse_key_prefix raw) as [pfx|] eqn:Ep; [|done].
  destruct (online db); [|done]. destruct (first_row _ db) as [row|] eqn:E; [|done].
  apply first_row_spec in E as (Hin & Hp & Hr). apply String.eqb_eq in Hp. subst pfx.
  unfold verify_key. destruct (verify_password raw (row_hash row)) as [[]|] eqn:Ev; [|done|done].
  destruct (row_to_key row) as [k|] eqn:Ek; [|done]. intros [= <-]. by exists row.
Qed.

Lemma row_to_key_id row key : row_to_key row = Ok key -> key_id key = row_id row.
Proof. unfold row_to_key. destruct (KeyRole_from_str _); [|done]. by intros [= <-]. Qed.

Lemma nodup_rows db r1 r2 : NoDup (ids db) -> r1 ∈ api_keys db -> r2 ∈ api_keys db ->
  row_id r1 = row_id r2 -> r1 = r2.
Proof.
  unfold ids. intros Hn [i Hi]%list_elem_of_lookup [j Hj]%list_elem_of_lookup Heq.
  assert (i = j) as ->; [|congruence].
  apply (NoDup_lookup (map row_id (api_keys db)) i j (row_id r1)); [done|..].
  - by rewrite list_lookup_fmap, Hi.
  - by rewrite list_lookup_fmap, Hj, Heq.
Qed.

Lemma revoked_not_authenticated id db raw key : NoDup (ids db) -> revoked id db ->
  sqlite_authenticate verify_password db raw = Ok (Some key) -> key_id key <> id.
Proof.
  intros Hn (row & Hin & Hid & Hr) (row' & Hin' & Hr' & _ & _ & Hk)%authenticate_row Heq.
  rewrite (row_to_key_id _ _ Hk) in Heq. rewrite (nodup_rows db row row' Hn Hin Hin') in Hr by congruence.
  rewrite Hr' in Hr. by destruct Hr.
Qed.

Lemma revoke_key_revokes now id db : online db = true -> id ∈ ids db -> revoked id (fst (revoke_key now id db)).
Proof.
  intros Hon Hid. unfold revoke_key. rewrite Hon. cbn [fst]. apply list_elem_of_fmap in Hid as (row & -> & Hin).
  exists (revoke_row now (row_id row) row). split; [by apply list_elem_of_fmap_2|].
  rewrite revoke_row_id. split; [done|]. unfold revoke_row. rewrite String.eqb_refl. by eexists.
Qed.

(** ** Usage *)

(** The tokens an operation adds to a key's day, as the database accepted it. *)
Definition spends (db : SqliteKeyStore) (id : string) (day : Z) (o : op) : Z :=
  match o with
  | Usage now id' tokens cost =>
      match snd (sqlite_record_usage now id' tokens cost db) with
      | Ok _ => if bool_decide ((id', as_i64 (current_day_unix now)) = (id, day))
                then Z.min tokens i64_max else 0
      | Err _ => 0
      end
  | _ => 0
  end.

Fixpoint spent (db : SqliteKeyStore) (ops : list op) (id : string) (day : Z) : Z :=
  match ops with
  | [] => 0
  | o :: ops => spends db id day o + spent (step db o) ops id day
  end.

Definition tokens_nonneg (o : op) : Prop :=
  match o with Usage _ _ tokens _ => 0 <= tokens | _ => True end.

Definition used (db : SqliteKeyStore) (id : string) (day : Z) (n : Z) : Prop :=
  default (SInt 0) (total_tokens <$> usage db !! (id, day)) = SInt n.

Lemma spends_nonneg db id day o : tokens_nonneg o -> 0 <= spends db id day o.
Proof.
  destruct o as [| |now id' tokens cost|]; intros Ht; [done|done| |done]. cbn [spends tokens_nonneg] in *.
  assert (0 <= i64_max) by done. destruct (snd (sqlite_record_usage now id' tokens cost db)); [|done].
  case_bool_decide; [|done]. lia.
Qed.

Lemma spent_nonneg db ops id day : Forall tokens_nonneg ops -> 0 <= spent db ops id day.
Proof.
  revert db. induction ops as [|o ops IH]; intros db Hall; cbn [spent]; [lia|].
  inversion Hall as [|? ? Ho Hops]; subst. pose proof (spends_nonneg db id day o Ho).
  specialize (IH (step db o) Hops). lia.
Qed.

Lemma step_used db id day o n : tokens_nonneg o -> 0 <= n -> n + spends db id day o <= i64_max ->
  used db id day n -> used (step db o) id day (n + spends db id day o).
Proof.
  intros Ht Hn Hb Hu. destruct o as [now uuid simple secret lbl r l cache|now id'|now id' tokens cost|b];
    cbn [step spends] in *; [..|by rewrite Z.add_0_r]; try rewrite Z.add_0_r.
  - unfold create_key. destruct (hash_key _ _); [|done]. by destruct (online db && _).
  - unfold revoke_key. by destruct (online db).
  - revert Hb. unfold sqlite_record_usage. destruct (online db && _ && _ && _); cbn [fst snd];
      [|by rewrite Z.add_0_r].
    set (k := (id', as_i64 (current_day_unix now))). case_bool_decide as Hk; intros Hb.
    + unfold used in *. cbn [set_usage usage]. rewrite Hk, lookup_insert, decide_True by done.
      destruct (usage db !! (id, day)) as [u|]; simpl in *.
      * rewrite Hu. cbn [sql_add]. unfold in_i64. rewrite (proj2 (andb_true_iff _ _)); [done|].
        split; apply Z.leb_le; unfold i64_max in *; lia.
      * injection Hu as <-. done.
    + unfold used in *. cbn [set_usage usage]. rewrite lookup_insert_ne, Z.add_0_r by done. done.
Qed.

Lemma run_used ops db id day n : Forall tokens_nonneg ops -> 0 <= n -> n + spent db ops id day <= i64_max ->
  used db id day n -> used (run ops db) id day (n + spent db ops id day).
Proof.
  unfold run. revert db n. induction ops as [|o ops IH]; intros db n Hall Hn Hb Hu; cbn [spent foldl] in *.
  - by rewrite Z.add_0_r.
  - inversion Hall as [|? ? Ho Hops]; subst. pose proof (spends_nonneg db id day o Ho).
    pose proof (spent_nonneg (step db o) ops id day Hops). rewrite Z.add_assoc.
    apply IH; [done|lia|lia|]. apply step_used; [done|done|lia|done].
Qed.

End Histories.

(* ------------------------------------------------------------------ *)
(** ** The properties *)

Lemma find_appended {A : Type} (f : A -> bool) l x :
  f x = true -> Forall (fun y => f y = false) l -> List.find f (l ++ [x]) = Some x.
Proof.
  intros Hx. induction 1 as [|y l Hy Hl IH]; cbn [app List.find]; [by rewrite Hx|by rewrite Hy].
Qed.

(** The row [create_key] inserts. *)
Definition new_row (now : Z) (uuid pfx h lbl : string) (r : KeyRole) (l : KeyLimits) (cache : bool) : ApiKeyRow :=
  {| row_id := uuid; row_prefix := pfx; row_hash := h; row_label := lbl; row_role := KeyRole_as_str r;
     row_rpm := requests_per_minute l; row_token_quota := as_i64 <$> daily_token_quota l;
     row_cost_quota := daily_cost_quota_usd l ≫= bind_real; row_cache_enabled := if cache then 1 else 0;
     row_created_at := as_i64 now; row_revoked_at := None |}.

Lemma create_key_stores hash now uuid simple secret lbl r l cache db h :
  let pfx := String.substring 0 8 simple in
  hash ("rgk_" ++ pfx ++ "_" ++ secret)%string = Some h -> online db = true ->
  Forall (fun row => row_id row <> uuid /\ row_prefix row <> pfx) (api_keys db) ->
  create_key hash now uuid simple secret lbl r l cache db =
    (set_keys db (api_keys db ++ [new_row now uuid pfx h lbl r l cache]),
     Ok {| gen_id := uuid; gen_prefix := pfx; raw_key := ("rgk_" ++ pfx ++ "_" ++ secret)%string |}).
Proof.
  intros pfx Hh Hon Hfresh. unfold create_key, hash_key. fold pfx. rewrite Hh, Hon.
  rewrite (proj2 (forallb_forall _ _)); [done|]. intros row Hin%list_elem_of_In.
  rewrite Forall_forall in Hfresh. destruct (Hfresh row Hin) as [H1 H2].
  apply andb_true_iff. by split; apply negb_true_iff, String.eqb_neq.
Qed.

Lemma new_row_to_key now uuid pfx h lbl r l cache : limits_ok l ->
  row_to_key (new_row now uuid pfx h lbl r l cache) =
    Ok {| key_id := uuid; prefix := pfx; label := lbl; role := r; limits := l; cache_enabled := cache |}.
Proof.
  intros Hl. unfold row_to_key, new_row. cbn [row_role]. rewrite role_roundtrip.
  do 2 f_equal; [by apply limits_roundtrip|by destruct cache].
Qed.

(** An active row appended to rows with other ids and prefixes is the one a
    lookup by prefix or id finds. *)
Lemma appended_found verify db row raw key :
  online db = true -> row_revoked_at row = None -> row_to_key row = Ok key ->
  parse_key_prefix raw = Ok (row_prefix row) -> verify raw (row_hash row) = Some true ->
  Forall (fun x => row_id x <> row_id row /\ row_prefix x <> row_prefix row) (api_keys db) ->
  let db' := set_keys db (api_keys db ++ [row]) in
  sqlite_authenticate verify db' raw = Ok (Some key) /\ get_key (row_id row) db' = Ok (Some key).
Proof.
  intros Hon Hact Hkey Hparse Hv Hfresh db'.
  assert (forall f, f row = true -> Forall (fun x => f x = false) (api_keys db) -> first_row f db' = Some row) as Hfirst.
  { intros f Hf Hall. apply find_appended; [unfold active_row; by rewrite Hf, Hact|]. eapply Forall_impl; [exact Hall|]. by intros x ->. }
  unfold sqlite_authenticate, get_key. rewrite Hparse. cbn [db' set_keys online]. rewrite Hon. fold db'.
  split.
  - rewrite Hfirst; [|by apply String.eqb_eq|].
    + unfold verify_key. by rewrite Hv, Hkey.
    + eapply Forall_impl; [exact Hfresh|]. intros x [_ Hx]. by apply String.eqb_neq.
  - rewrite Hfirst; [by rewrite Hkey|by apply String.eqb_eq|].
    eapply Forall_impl; [exact Hfresh|]. intros x [Hx _]. by apply String.eqb_neq.
Qed.

(** C34: a generated key works: creating a key in a database where its id and
    prefix are free stores it, and authenticating with the raw key handed out
    gives back the same id, label, role, limits and cache flag, whatever the
    quotas (also above the signed range), as does looking it up by id. *)
Theorem create_then_authenticate hash verify now uuid simple secret lbl r l cache db h :
  let pfx := String.substring 0 8 simple in
  (forall raw h, hash raw = Some h -> verify raw h = Some true) ->
  hash ("rgk_" ++ pfx ++ "_" ++ secret)%string = Some h ->
  online db = true -> pfx <> "" -> Str.split_once "_" pfx = None -> secret <> "" -> limits_ok l ->
  Forall (fun row => row_id row <> uuid /\ row_prefix row <> pfx) (api_keys db) ->
  let key := {| key_id := uuid; prefix := pfx; label := lbl; role := r; limits := l;
                cache_enabled := cache |} in
  exists db' g, create_key hash now uuid simple secret lbl r l cache db = (db', Ok g) /\
    sqlite_authenticate verify db' (raw_key g) = Ok (Some key) /\
    get_key uuid db' = Ok (Some key).
Proof.
  intros pfx Hlaw Hh Hon Hne Hus Hs Hl Hfresh key. eexists _, _. split; [by apply create_key_stores|].
  apply (appended_found verify db (new_row now uuid pfx h lbl r l cache)); try done.
  - by apply new_row_to_key.
  - by apply parse_generated.
  - by apply Hlaw.
Qed.

(** C30: a revoked key stays out: once the key with an id is revoked, no raw key
    authenticates as that id again, whatever keys are created, revoked or used
    and whenever the database is unavailable later; and a key that does
    authenticate belongs to an unrevoked row whose stored hash the raw key
    verifies against. *)
Theorem revoked_key_stays_out hash verify ops now id later raw key :
  let db := run hash ops empty_db in
  online db = true -> id ∈ ids db ->
  sqlite_authenticate verify (run hash later (fst (revoke_key now id db))) raw = Ok (Some key) ->
  key_id key <> id /\
  exists row, row ∈ api_keys (run hash later (fst (revoke_key now id db))) /\ row_revoked_at row = None /\
    verify raw (row_hash row) = Some true /\ row_to_key row = Ok key.
Proof.
  intros db Hon Hid Ha. assert (NoDup (ids db)) as Hn by (apply run_ids; constructor).
  pose proof (revoke_key_revokes now id db Hon Hid) as Hr.
  assert (NoDup (ids (fst (revoke_key now id db)))) as Hn' by exact (step_ids hash db (Revoke now id) Hn).
  destruct (run_keeps hash id later _ Hn' Hr) as [Hn2 Hr2].
  split; [by eapply revoked_not_authenticated|].
  apply authenticate_row in Ha as (row & H1 & H2 & _ & H3 & H4). by exists row.
Qed.

(** C35: the daily token quota is exact: after any history in which a key spent
    (as accepted by the database) a total that fits the signed 64-bit column,
    a key with a token quota and no cost quota is refused exactly from the
    moment the day's total reaches the quota, and told to retry after between
    1 second and a day. *)
Theorem token_quota_exact hash ops now key quota :
  let db := run hash ops empty_db in
  let total := spent hash empty_db ops (key_id key) (as_i64 (current_day_unix now)) in
  Forall tokens_nonneg ops -> online db = true -> 0 <= now ->
  daily_token_quota (limits key) = Some quota -> daily_cost_quota_usd (limits key) = None ->
  total <= i64_max ->
  sqlite_check_quota now db key =
    (if quota <=? total then Err {| retry_after_seconds := seconds_until_next_day now |} else Ok tt) /\
  1 <= seconds_until_next_day now <= 86400.
Proof.
  intros db total Hall Hon Hnow Hq Hc Hb.
  pose proof (spent_nonneg hash empty_db ops (key_id key) (as_i64 (current_day_unix now)) Hall) as H0. fold total in H0.
  pose proof (run_used hash ops empty_db (key_id key) (as_i64 (current_day_unix now)) 0 Hall) as Hu.
  specialize (Hu ltac:(lia) Hb eq_refl). fold total in Hu. rewrite Z.add_0_l in Hu. fold db in Hu.
  unfold sqlite_check_quota. rewrite Hq, Hc, Hon. cbn [is_some_and]. rewrite orb_false_r.
  unfold seconds_until_next_day. split; [|pose proof (Z.mod_pos_bound now 86400 ltac:(lia)); lia].
  replace (as_u64 _) with total; [done|]. unfold used in Hu. clearbody total.
  destruct (usage db !! _) as [u|]; simpl in Hu |- *.
  - rewrite Hu. unfold as_u64, i64_max in *. symmetry. apply Z.mod_small. lia.
  - injection Hu as <-. done.
Qed.

(** A toy hash for the examples: the key itself, marked. *)
Definition toy_hash (raw : string) : option string := Some ("h" ++ raw)%string.
Definition toy_verify (raw hash : string) : option bool := Some (String.eqb hash ("h" ++ raw)%string).

Lemma toy_law raw h : toy_hash raw = Some h -> toy_verify raw h = Some true.
Proof. intros [= <-]. unfold toy_verify. by rewrite String.eqb_refl. Qed.

Definition example_limits : KeyLimits :=
  {| requests_per_minute := Some 60; daily_token_quota := Some u64_max; daily_cost_quota_usd := None |}.

Definition example_ops : list op :=
  [Create 5 "id1" "abcdef0123456789" "s1" "first" Inference example_limits true;
   Usage 7 "id1" 40 F64.zero; Usage 8 "id1" 2 F64.zero; Usage 9 "unknown" 100 F64.zero].

Lemma create_then_authenticate_witness :
  exists db' g, create_key toy_hash 9 "id2" "0123456789abcdef" "s" "l" Admin example_limits false
      (run toy_hash example_ops empty_db) = (db', Ok g) /\
    get_key "id2" db' = Ok (Some {| key_id := "id2"; prefix := "01234567"; label := "l"; role := Admin;
                                    limits := example_limits; cache_enabled := false |}).
Proof.
  destruct (create_then_authenticate toy_hash toy_verify 9 "id2" "0123456789abcdef" "s" "l" Admin example_limits false
    (run toy_hash example_ops empty_db) "hrgk_01234567_s") as (db' & g & H1 & _ & H2).
  - exact toy_law.
  - reflexivity.
  - reflexivity.
  - discriminate.
  - reflexivity.
  - discriminate.
  - split; [intros n [= <-]; vm_compute; split; discriminate|].
    split; [intros n [= <-]; vm_compute; split; discriminate|intros x [=]].
  - vm_compute. repeat constructor; discriminate.
  - exists db', g. split; [exact H1|exact H2].
Defined.

Lemma revoked_key_stays_out_witness :
  let db := fst (revoke_key 20 "id1" (run toy_hash example_ops empty_db)) in
  let later := [Create 30 "id1" "ffffffffff" "s3" "again" Admin example_limits true;
                Create 30 "id2" "0123456789abcdef" "s2" "second" Admin example_limits true] in
  exists key, sqlite_authenticate toy_verify (run toy_hash later db) "rgk_01234567_s2" = Ok (Some key) /\
    key_id key <> "id1".
Proof.
  cbv zeta. eexists. split; [vm_compute; reflexivity|].
  apply (revoked_key_stays_out toy_hash toy_verify example_ops 20 "id1"
    [Create 30 "id1" "ffffffffff" "s3" "again" Admin example_limits true;
     Create 30 "id2" "0123456789abcdef" "s2" "second" Admin example_limits true] "rgk_01234567_s2").
  - vm_compute. reflexivity.
  - vm_compute. constructor.
  - vm_compute. reflexivity.
Defined.

Definition example_key (quota : Z) : AuthenticatedKey :=
  {| key_id := "id1"; prefix := "abcdef01"; label := "first"; role := Inference;
     limits := {| requests_per_minute := None; daily_token_quota := Some quota; daily_cost_quota_usd := None |};
     cache_enabled := true |}.

Lemma token_quota_exact_witness :
  sqlite_check_quota 10 (run toy_hash example_ops empty_db) (example_key 42) =
    Err {| retry_after_seconds := 86390 |} /\
  sqlite_check_quota 10 (run toy_hash example_ops empty_db) (example_key 43) = Ok tt.
Proof.
  assert (Forall tokens_nonneg example_ops) as Ht by (repeat constructor; vm_compute; discriminate).
  split.
  - destruct (token_quota_exact toy_hash example_ops 10 (example_key 42) 42) as [H _];
      [exact Ht|reflexivity|lia|reflexivity|reflexivity|vm_compute; discriminate|].
    rewrite H. vm_compute. reflexivity.
  - destruct (token_quota_exact toy_hash example_ops 10 (example_key 43) 43) as [H _];
      [exact Ht|reflexivity|lia|reflexivity|reflexivity|vm_compute; discriminate|].
    rewrite H. vm_compute. reflexivity.
Defined.

End Keys.
