(* ===== verification/Cache.v ===== *)
(** * The response cache (src/src/cache/response.rs)

    The cache key of a request, the cache interface, and the SQLite cache over
    an explicit table.  [serde_json] and SHA-256 are arguments; the in-memory
    cache is the [moka] crate behind the same interface. *)
From S2P Require Import Prelude Str F64 Chat Keys.

Open Scope string_scope.
Open Scope list_scope.
Open Scope Z_scope.

Module Cache.

Definition CacheKey : Type := string.

(** [trait ResponseCache], at a wall-clock time in seconds; a lookup may
    reorganise the cache. *)
Class ResponseCache (K : Type) := {
  cache_get : Z -> CacheKey -> K -> K * option Chat.ChatCompletionResponse;
  cache_put : Z -> CacheKey -> Chat.ChatCompletionResponse -> Z -> K -> K
}.

Record CanonicalChatRequest := {
  model : option string;
  messages : list Chat.ChatMessage;
  tools : option (list Chat.Tool);
  tool_choice : option Chat.ToolChoice;
  response_format : option Chat.Value;
  max_tokens : option Z;
  parallel_tool_calls : option bool
}.

Definition canonical (r : Chat.ChatCompletionRequest) : CanonicalChatRequest :=
  {| model := Chat.req_model r; messages := Chat.messages r; tools := Chat.tools r;
     tool_choice := Chat.tool_choice r; response_format := Chat.response_format r;
     max_tokens := Chat.max_tokens r; parallel_tool_calls := Chat.parallel_tool_calls r |}.

Definition temperature_positive (r : Chat.ChatCompletionRequest) : bool :=
  F32.gtb (default F32.zero (Chat.temperature r)) F32.zero.

Definition cache_key_for_request (to_vec : CanonicalChatRequest -> option (list Z))
  (sha256 : list Z -> list Z) (r : Chat.ChatCompletionRequest) : option CacheKey :=
  if Chat.stream_enabled r || temperature_positive r then None
  else (fun encoded => Str.hex (sha256 encoded)) <$> to_vec (canonical r).

(* ------------------------------------------------------------------ *)
(** ** The SQLite cache *)

Record SqliteResponseCache := {
  online : bool;
  cache_entries : gmap string (string * Z)
}.

Definition set_entries (c : SqliteResponseCache) (m : gmap string (string * Z)) : SqliteResponseCache :=
  {| online := online c; cache_entries := m |}.

(** [true]: the query succeeded. *)
Definition prune_expired (now : Z) (c : SqliteResponseCache) : SqliteResponseCache * bool :=
  if online c
  then (set_entries c (filter (fun e => Keys.as_i64 now < e.2.2) (cache_entries c)), true)
  else (c, false).

Section Sqlite.
Variable from_str : string -> option Chat.ChatCompletionResponse.
Variable to_string : Chat.ChatCompletionResponse -> option string.

Definition sqlite_get (now : Z) (key : CacheKey) (c : SqliteResponseCache) :
  SqliteResponseCache * option Chat.ChatCompletionResponse :=
  (c, if online c
      then '(json, expires) ← cache_entries c !! key;
           if Keys.as_i64 now <? expires then from_str json else None
      else None).

(** [ttl] is a duration; the insert replaces an entry with the same key. *)
Definition sqlite_put (now : Z) (key : CacheKey) (response : Chat.ChatCompletionResponse) (ttl : Z)
  (c : SqliteResponseCache) : SqliteResponseCache :=
  match to_string response with
  | None => c
  | Some json =>
      let expires_at := Keys.as_i64 (u64_sat_add now (as_secs ttl)) in
      if online c then set_entries c (<[key := (json, expires_at)]> (cache_entries c)) else c
  end.

End Sqlite.

#[global] Instance SqliteResponseCache_ResponseCache from_str to_string : ResponseCache SqliteResponseCache := {|
  cache_get := sqlite_get from_str;
  cache_put := sqlite_put to_string
|}.

(* ------------------------------------------------------------------ *)
(** ** Histories of the SQLite cache *)

Section Histories.
Variable from_str : string -> option Chat.ChatCompletionResponse.
Variable to_string : Chat.ChatCompletionResponse -> option string.

Inductive op :=
| Put (now : Z) (key : CacheKey) (response : Chat.ChatCompletionResponse) (ttl : Z)
| Prune (now : Z).

Definition op_time (o : op) : Z := match o with Put t _ _ _ => t | Prune t => t end.

Definition step (c : SqliteResponseCache) (o : op) : SqliteResponseCache :=
  match o with
  | Put now key response ttl => sqlite_put to_string now key response ttl c
  | Prune now => fst (prune_expired now c)
  end.

Definition empty_cache : SqliteResponseCache := {| online := true; cache_entries := ∅ |}.

Definition run (ops : list op) : SqliteResponseCache := foldl step empty_cache ops.

(** The last response stored under a key, and when it expires. *)
Definition last_put (key : CacheKey) (ops : list op) : option (Chat.ChatCompletionResponse * Z) :=
  foldl (fun acc o => match o with
    | Put now k r ttl => if String.eqb k key then Some (r, now + as_secs ttl) else acc
    | Prune _ => acc
    end) None ops.

(** Times are Unix seconds up to [now], expiry times fit the column, and the
    JSON of a stored response reads back as it. *)
Definition op_ok (now : Z) (o : op) : Prop :=
  0 <= op_time o <= now /\
  match o with
  | Put t _ r ttl => 0 <= ttl /\ t + as_secs ttl <= i64_max /\
      exists j, to_string r = Some j /\ from_str j = Some r
  | Prune _ => True end.

Lemma as_i64_small n : 0 <= n <= i64_max -> Keys.as_i64 n = n.
Proof. unfold Keys.as_i64, i64_max. intros Hn. rewrite Z.mod_small; lia. Qed.

(** The table against the history: an entry that is still valid is there, and
    what is there is the last put. *)
Definition agrees (now : Z) (ops : list op) (m : gmap string (string * Z)) : Prop :=
  forall key, match last_put key ops with
  | Some (r, expires) =>
      (forall j e, m !! key = Some (j, e) -> from_str j = Some r /\ e = expires) /\
      (now < expires -> is_Some (m !! key))
  | None => m !! key = None
  end.

Lemma step_agrees now ops o c : 0 <= now <= i64_max -> op_ok now o -> online c = true ->
  agrees now ops (cache_entries c) ->
  online (step c o) = true /\ agrees now (ops ++ [o]) (cache_entries (step c o)).
Proof.
  intros Hnow [Ht Ho] Hon Ha. destruct o as [t key r ttl|t]; cbn [step op_time] in *.
  - destruct Ho as (Httl & Hexp & j & Hj & Hback). unfold sqlite_put. rewrite Hj, Hon. split; [done|].
    cbn [set_entries cache_entries]. assert (0 <= as_secs ttl) by (apply Z.div_pos; lia).
    assert (u64_sat_add t (as_secs ttl) = t + as_secs ttl) as -> by (unfold u64_sat_add, u64_max, i64_max in *; lia).
    rewrite as_i64_small by lia. intros k. unfold last_put. rewrite foldl_app. cbn [foldl].
    destruct (String.eqb_spec key k) as [->|Hne].
    + rewrite lookup_insert, decide_True by done. split; [by intros ? ? [= <- <-]|done].
    + rewrite lookup_insert_ne by done. apply Ha.
  - unfold prune_expired. rewrite Hon. split; [done|]. cbn [fst set_entries cache_entries].
    rewrite as_i64_small by lia. intros k. unfold last_put. rewrite foldl_app. cbn [foldl].
    specialize (Ha k). unfold last_put in Ha. destruct (foldl _ None ops) as [[r expires]|].
    + destruct Ha as [H1 H2]. split.
      * intros j e [Hl _]%map_lookup_filter_Some. by apply H1.
      * intros Hlt. destruct (H2 Hlt) as [[j e] Hl]. exists (j, e). apply map_lookup_filter_Some. split; [done|].
        destruct (H1 j e Hl) as [_ ->]. cbn. lia.
    + apply map_lookup_filter_None. by left.
Qed.

Lemma run_agrees now ops : 0 <= now <= i64_max -> Forall (op_ok now) ops ->
  online (run ops) = true /\ agrees now ops (cache_entries (run ops)).
Proof.
  intros Hnow. induction ops as [|o ops IH] using rev_ind; intros Hall.
  - split; [done|]. intros key. apply lookup_empty.
  - apply Forall_app in Hall as [H1 H2]. inversion H2; subst. destruct (IH H1) as [Hon Ha].
    unfold run. rewrite foldl_app. by apply step_agrees.
Qed.

(** C39: the SQLite response cache returns what was last stored, and only while
    it is fresh: after any history of stores and prunings, a lookup answers the
    response last stored under the key if its time to live has not passed, and
    nothing otherwise (for responses whose JSON reads back as them). *)
Theorem cache_returns_last_put now ops key :
  0 <= now <= i64_max -> Forall (op_ok now) ops ->
  snd (sqlite_get from_str now key (run ops)) =
    match last_put key ops with
    | Some (r, expires) => if now <? expires then Some r else None
    | None => None
    end.
Proof.
  intros Hnow Hall. destruct (run_agrees now ops Hnow Hall) as [Hon Ha]. specialize (Ha key).
  unfold sqlite_get. rewrite Hon, as_i64_small by done. cbn [snd].
  destruct (last_put key ops) as [[r expires]|].
  - destruct Ha as [H1 H2]. destruct (cache_entries (run ops) !! key) as [[j e]|] eqn:E; cbn.
    + destruct (H1 j e eq_refl) as [Hj ->]. by rewrite Hj.
    + destruct (Z.ltb_spec now expires) as [Hlt|]; [|done]. by destruct (H2 Hlt).
  - by rewrite Ha.
Qed.

End Histories.

(** A response known by its id, and its JSON. *)
Definition example_response (i : string) : Chat.ChatCompletionResponse :=
  {| Chat.resp_id := i; Chat.resp_object := "chat.completion"; Chat.resp_created := 0; Chat.resp_model := "m";
     Chat.resp_provider := "p"; Chat.resp_choices := []; Chat.resp_usage := Chat.TokenUsage_default |}.
Definition example_from_str (j : string) : option Chat.ChatCompletionResponse := Some (example_response j).
Definition example_to_string (r : Chat.ChatCompletionResponse) : option string := Some (Chat.resp_id r).
Definition example_ops : list op :=
  [Put 100 "k" (example_response "old") (from_secs 60); Put 110 "k" (example_response "new") (from_secs 60);
   Prune 165].

Lemma cache_returns_last_put_witness :
  snd (sqlite_get example_from_str 169 "k" (run example_to_string example_ops)) = Some (example_response "new") /\
  snd (sqlite_get example_from_str 170 "k" (run example_to_string example_ops)) = None.
Proof.
  assert (forall now, 165 <= now -> Forall (op_ok example_from_str example_to_string now) example_ops) as Hok.
  { intros now Hn. repeat constructor; cbn; try lia; try (vm_compute; discriminate); by eexists. }
  split.
  - rewrite (cache_returns_last_put example_from_str example_to_string 169 example_ops "k");
      [reflexivity|unfold i64_max; lia|apply Hok; lia].
  - rewrite (cache_returns_last_put example_from_str example_to_string 170 example_ops "k");
      [reflexivity|unfold i64_max; lia|apply Hok; lia].
Defined.

End Cache.
