(* ===== verification/MemoryCache.v ===== *)
(** * The in-memory response cache (src/src/cache/response.rs)

    [MemoryResponseCache] over the [moka] crate, which is an interface here:
    its operations at an instant of its own clock, and what its documentation
    says of them.  An entry may be evicted at any time to respect the capacity,
    so the cache may forget, but what it answers is the response last stored
    under the key, stored less than the time to live ago.  Its builder panics on
    a time to live of more than 1000 years. *)
From S2P Require Import Prelude Chat Cache.

Open Scope string_scope.
Open Scope Z_scope.

Module MemoryCache.

(** The operations of [moka::future::Cache] the source uses.  [moka_build]
    takes the capacity and the time to live and may panic ([None]);
    [moka_peek] is what a [get] at that instant would answer. *)
Class MokaOps (M : Type -> Type) := {
  moka_build : forall {V}, Z -> Z -> option (M V);
  moka_get : forall {V}, Z -> string -> M V -> M V * option V;
  moka_insert : forall {V}, Z -> string -> V -> M V -> M V;
  moka_peek : forall {V}, Z -> string -> M V -> option V;
  moka_ttl : forall {V}, M V -> Z
}.

(** The longest time to live, 1000 years. *)
Definition moka_max_ttl : Z := from_secs (1000 * 365 * 86400).

(** Building panics exactly for a longer time to live; a cache is empty when built; [get] answers what is there; [insert] replaces
    the entry of its key and lets it live for [time_to_live]; nothing else
    brings an entry in. *)
Class MokaLaws (M : Type -> Type) `{!MokaOps M} := {
  moka_build_some : forall {V} cap ttl, is_Some (moka_build cap ttl : option (M V)) <-> ttl <= moka_max_ttl;
  moka_peek_build : forall {V} cap ttl now key (m : M V), moka_build cap ttl = Some m -> moka_peek now key m = None;
  moka_ttl_build : forall {V} cap ttl (m : M V), moka_build cap ttl = Some m -> moka_ttl m = ttl;
  moka_get_value : forall {V} now key (m : M V), snd (moka_get now key m) = moka_peek now key m;
  moka_get_keeps : forall {V} now key (m : M V) later j v,
    moka_peek later j (fst (moka_get now key m)) = Some v -> moka_peek later j m = Some v;
  moka_ttl_get : forall {V} now key (m : M V), moka_ttl (fst (moka_get now key m)) = moka_ttl m;
  moka_insert_same : forall {V} now key (v : V) (m : M V) later v',
    moka_peek later key (moka_insert now key v m) = Some v' -> v' = v /\ later < now + moka_ttl m;
  moka_insert_other : forall {V} now key (v : V) (m : M V) later j v', j <> key ->
    moka_peek later j (moka_insert now key v m) = Some v' -> moka_peek later j m = Some v';
  moka_ttl_insert : forall {V} now key (v : V) (m : M V), moka_ttl (moka_insert now key v m) = moka_ttl m
}.

Section Memory.
Context (M : Type -> Type) `{!MokaOps M}.

Record MemoryResponseCache := { entries : M Chat.ChatCompletionResponse }.

Definition new (ttl max_entries : Z) : option MemoryResponseCache :=
  match moka_build (Z.max max_entries 1) ttl with Some m => Some {| entries := m |} | None => None end.

Definition get (now : Z) (key : Cache.CacheKey) (c : MemoryResponseCache) :
  MemoryResponseCache * option Chat.ChatCompletionResponse :=
  let '(m, found) := moka_get now key (entries c) in ({| entries := m |}, found).

(** The time to live of the call is ignored: the cache has its own. *)
Definition put (now : Z) (key : Cache.CacheKey) (response : Chat.ChatCompletionResponse) (ttl : Z)
  (c : MemoryResponseCache) : MemoryResponseCache := {| entries := moka_insert now key response (entries c) |}.

(** Behind the interface of the caches, with the instant of a wall-clock time. *)
#[global] Instance MemoryResponseCache_ResponseCache (instant : Z -> Z) : Cache.ResponseCache MemoryResponseCache := {|
  Cache.cache_get := fun now => get (instant now);
  Cache.cache_put := fun now => put (instant now)
|}.

(* ------------------------------------------------------------------ *)
(** ** Histories *)

Inductive op :=
| Put (now : Z) (key : Cache.CacheKey) (response : Chat.ChatCompletionResponse) (ttl : Z)
| Get (now : Z) (key : Cache.CacheKey).

Definition step (c : MemoryResponseCache) (o : op) : MemoryResponseCache :=
  match o with
  | Put now key response ttl => put now key response ttl c
  | Get now key => fst (get now key c)
  end.

Definition run (c : MemoryResponseCache) (ops : list op) : MemoryResponseCache := foldl step c ops.

(** The response last stored under a key, and when. *)
Definition last_put (key : Cache.CacheKey) (ops : list op) : option (Chat.ChatCompletionResponse * Z) :=
  foldl (fun acc o => match o with
    | Put now k r _ => if String.eqb k key then Some (r, now) else acc
    | Get _ _ => acc
    end) None ops.

Context `{!MokaLaws M}.

Lemma new_entries ttl cap c : new ttl cap = Some c -> moka_build (Z.max cap 1) ttl = Some (entries c).
Proof. unfold new. destruct (moka_build _ _) as [m|]; [|done]. by intros [= <-]. Qed.

Lemma memory_run_ttl ttl cap c ops : new ttl cap = Some c -> moka_ttl (entries (run c ops)) = ttl.
Proof.
  intros Hc. unfold run. induction ops as [|o ops IH] using rev_ind; [by eapply moka_ttl_build, new_entries|]. rewrite foldl_app. cbn [foldl].
  destruct o as [now k r t|now k]; cbn [step]; [cbn; by rewrite moka_ttl_insert|].
  unfold get. pose proof (moka_ttl_get now k (entries (foldl step c ops))) as H.
  destruct (moka_get now k _) as [m found]. cbn in *. by rewrite H.
Qed.

(** What is there was put there last, within the time to live. *)
Lemma run_sound ttl cap c ops later key r : new ttl cap = Some c -> moka_peek later key (entries (run c ops)) = Some r ->
  exists stored, last_put key ops = Some (r, stored) /\ later < stored + ttl.
Proof.
  intros Hc. revert later key r. induction ops as [|o ops IH] using rev_ind; intros later key r.
  { cbn. by erewrite moka_peek_build by by eapply new_entries. }
  pose proof (memory_run_ttl ttl cap c ops Hc) as Httl. unfold run, last_put in *. rewrite !foldl_app. cbn [foldl].
  destruct o as [now k r' t|now k]; cbn [step put entries].
  - destruct (String.eqb_spec k key) as [->|Hne].
    + intros [-> Hl]%moka_insert_same. rewrite Httl in Hl. by exists now.
    + intros Hp%moka_insert_other; [by apply IH|done].
  - unfold get. pose proof (moka_get_keeps now k (entries (foldl step c ops)) later key r) as Hk.
    destruct (moka_get now k _) as [m found]. cbn in *. intros Hp. by apply IH, Hk.
Qed.

(** The in-memory cache never answers anything but the response last stored
    under the key, and only while the cache's time to live has not passed,
    whatever was stored, looked up or evicted. *)
Theorem memory_cache_sound ttl cap c ops now key r : new ttl cap = Some c -> snd (get now key (run c ops)) = Some r ->
  exists stored, last_put key ops = Some (r, stored) /\ now < stored + ttl.
Proof.
  intros Hc. unfold get. pose proof (moka_get_value now key (entries (run c ops))) as Hv.
  destruct (moka_get now key _) as [m found]. cbn in *. intros ->. by apply (run_sound ttl cap c).
Qed.

End Memory.

(* ------------------------------------------------------------------ *)
(** ** A cache that satisfies the interface *)

(** Entries with the time they expire; when full, an insertion of a new key
    forgets everything else. *)
Record ref_moka (V : Type) := { ref_cap : Z; ref_ttl : Z; ref_entries : gmap string (V * Z) }.
Arguments ref_cap {V} _.
Arguments ref_ttl {V} _.
Arguments ref_entries {V} _.

Definition ref_peek {V} (now : Z) (key : string) (m : ref_moka V) : option V :=
  '(v, expires) ← ref_entries m !! key; if now <? expires then Some v else None.

Definition ref_room {V} (m : ref_moka V) : gmap string (V * Z) :=
  if Z.of_nat (size (ref_entries m)) <? ref_cap m then ref_entries m else ∅.

#[global] Instance ref_moka_ops : MokaOps ref_moka := {|
  moka_build := fun V cap ttl =>
    if ttl <=? moka_max_ttl then Some {| ref_cap := cap; ref_ttl := ttl; ref_entries := ∅ |} else None;
  moka_get := fun V now key m => (m, ref_peek now key m);
  moka_insert := fun V now key v m =>
    {| ref_cap := ref_cap m; ref_ttl := ref_ttl m; ref_entries := <[key := (v, now + ref_ttl m)]> (ref_room m) |};
  moka_peek := fun V => ref_peek;
  moka_ttl := fun V => ref_ttl
|}.

#[global] Instance ref_moka_laws : MokaLaws ref_moka.
Proof.
  split; try done.
  - intros V cap ttl. cbn. destruct (Z.leb_spec ttl moka_max_ttl); split; intros H'; [done|by eexists|by destruct H'|lia].
  - intros V cap ttl now key m. cbn. destruct (_ <=? _); [|done]. by intros [= <-].
  - intros V cap ttl m. cbn. destruct (_ <=? _); [|done]. by intros [= <-].
  - intros V now key v m later v'. cbn. unfold ref_peek. cbn. rewrite lookup_insert, decide_True by done. cbn.
    destruct (Z.ltb_spec later (now + ref_ttl m)); [|done]. by intros [= ->].
  - intros V now key v m later j v' Hne. cbn. unfold ref_peek. cbn. rewrite lookup_insert_ne by done.
    unfold ref_room. destruct (_ <? _); [done|]. by rewrite lookup_empty.
Qed.

Lemma memory_cache_example : exists c, new ref_moka (from_secs 60) 0 = Some c /\
  let c := run ref_moka c [Put 0 "k" (Cache.example_response "a") 1] in
  snd (get ref_moka (from_secs 59) "k" c) = Some (Cache.example_response "a") /\
  snd (get ref_moka (from_secs 60) "k" c) = None.
Proof. eexists. split; [reflexivity|]. by vm_compute. Qed.

End MemoryCache.
