(* ===== verification/Middleware.v ===== *)
(** * Routes and middleware (src/src/app/middleware.rs, router.rs)

    The four layers around every protected route, over any key store and any
    rate-limit backend (the traits, as classes), and the table of routes with
    the roles that may use them.  A middleware is a function of the gate's
    state, the request and the rest of the stack [next]; [None] is a panic in a
    layer below.  Arguments: the UUID parser, the fresh UUIDs of the calls to
    [Uuid::new_v4], the instant and the wall clock of the request.  Axum's
    dispatch and the body limit it enforces are not modelled. *)
From S2P Require Import Prelude Str F64 Chat Config Lru RateLimit Keys.

Open Scope string_scope.
Open Scope list_scope.
Open Scope Z_scope.

Module Middleware.

Import Keys RateLimit.

Definition RequestId : Type := Chat.Uuid.

(** The parts of an [axum] request the layers read and write: the path, the two
    headers (present and readable as text), and the extensions. *)
Record Request := {
  path : string;
  header_x_request_id : option string;
  header_authorization : option string;
  ext_request_id : option RequestId;
  ext_key : option AuthenticatedKey
}.

Inductive Response (O : Type) :=
| Rejected (e : Chat.ErrorHttpResponse)
| Handled (o : O).
Arguments Rejected {O} e.
Arguments Handled {O} o.

Definition with_request_id (u : RequestId) (r : Request) : Request :=
  {| path := path r; header_x_request_id := header_x_request_id r;
     header_authorization := header_authorization r; ext_request_id := Some u; ext_key := ext_key r |}.
Definition with_key (k : AuthenticatedKey) (r : Request) : Request :=
  {| path := path r; header_x_request_id := header_x_request_id r;
     header_authorization := header_authorization r; ext_request_id := ext_request_id r;
     ext_key := Some k |}.

Definition bearer_token (r : Request) : option string :=
  token ← (header_authorization r ≫= Str.strip_prefix "Bearer ");
  if Str.is_empty token then None else Some token.

Definition role_allows_path (r : KeyRole) (p : string) : bool :=
  if String.eqb p "/stats" || String.eqb p "/stats/providers" || String.eqb p "/metrics"
  then allows_observability r
  else allows_inference r || String.eqb p "/v1/models".

Definition burst_of (k : AuthenticatedKey) : option Z :=
  (fun rpm => Z.max (rpm / 4) 1) <$> requests_per_minute (limits k).

Section Stack.
Context {S B : Type} `{!KeyStore S, !RateLimitBackend B} {O : Type}.
Variable parse_uuid : string -> option Chat.Uuid.
Variables (fresh_id : Chat.Uuid) (now now_secs : Z).

Record Gate := { key_store : S; rate_limit_backend : B }.
Definition set_backend (b : B) (g : Gate) : Gate :=
  {| key_store := key_store g; rate_limit_backend := b |}.

Definition Outcome : Type := Gate * option (Response O).
Definition Next : Type := Gate -> Request -> Outcome.

Definition request_id_from_extensions (r : Request) : Chat.Uuid := default fresh_id (ext_request_id r).

Definition request_id_middleware (next : Next) : Next := fun g r =>
  next g (with_request_id (default fresh_id (header_x_request_id r ≫= parse_uuid)) r).

Definition reject (g : Gate) (e : Chat.AppError) : Outcome :=
  (g, Some (Rejected (Chat.into_response e))).

Definition auth_middleware (next : Next) : Next := fun g r =>
  let request_id := request_id_from_extensions r in
  match bearer_token r with
  | None => reject g (Chat.Unauthorized "missing bearer token" (Some request_id))
  | Some api_key =>
      match authenticate (key_store g) api_key with
      | Ok (Some key) =>
          if negb (role_allows_path (role key) (path r))
          then reject g (Chat.Forbidden "API key is not allowed to access this route" (Some request_id))
          else next g (with_key key r)
      | Ok None | Err _ => reject g (Chat.Unauthorized "invalid bearer token" (Some request_id))
      end
  end.

Definition pre_auth_rate_limit_middleware (next : Next) : Next := fun g r =>
  let request_id := request_id_from_extensions r in
  match backend_check_global now (rate_limit_backend g) with
  | (b, Some (Err retry_after)) =>
      reject (set_backend b g) (Chat.GatewayRateLimited (Some request_id) retry_after)
  | (b, Some (Ok _)) => next (set_backend b g) r
  | (b, None) => (set_backend b g, None)
  end.

Definition per_key_rate_limit_middleware (next : Next) : Next := fun g r =>
  let request_id := request_id_from_extensions r in
  match ext_key r with
  | None => reject g (Chat.Unauthorized "missing authenticated API key" (Some request_id))
  | Some api_key =>
      match check_quota now_secs (key_store g) api_key with
      | Err quota =>
          reject g (Chat.GatewayRateLimited (Some request_id) (retry_after_seconds quota))
      | Ok _ =>
          match backend_check_key now (key_id api_key) (requests_per_minute (limits api_key))
                  (burst_of api_key) (rate_limit_backend g) with
          | (b, Some (Err retry_after)) =>
              reject (set_backend b g) (Chat.GatewayRateLimited (Some request_id) retry_after)
          | (b, Some (Ok _)) => next (set_backend b g) r
          | (b, None) => (set_backend b g, None)
          end
      end
  end.

(** [router_with_state]: the layers of the protected routes, outermost first. *)
Definition protected_routes (handler : Gate -> Request -> Gate * O) : Next :=
  request_id_middleware (pre_auth_rate_limit_middleware (auth_middleware
    (per_key_rate_limit_middleware (fun g r => let '(g, o) := handler g r in (g, Some (Handled o)))))).

End Stack.

Arguments Gate : clear implicits.

(** ** The routes *)

Inductive Method := GET | POST | DELETE.

(** A brace segment of a pattern stands for any one path segment. *)
Definition core_routes : list (Method * string) :=
  [(POST, "/v1/responses"); (POST, "/v1/chat/completions"); (GET, "/v1/models");
   (GET, "/stats"); (GET, "/stats/providers"); (GET, "/metrics")].

Definition placeholder_routes : list (Method * string) :=
  [(POST, "/v1/embeddings"); (POST, "/v1/moderations"); (POST, "/v1/images/generations");
   (POST, "/v1/images/edits"); (POST, "/v1/images/variations"); (POST, "/v1/audio/transcriptions");
   (POST, "/v1/audio/translations"); (GET, "/v1/files"); (POST, "/v1/files");
   (GET, "/v1/files/{file_id}"); (DELETE, "/v1/files/{file_id}"); (GET, "/v1/files/{file_id}/content");
   (GET, "/v1/batches"); (POST, "/v1/batches"); (GET, "/v1/batches/{batch_id}");
   (POST, "/v1/batches/{batch_id}/cancel"); (GET, "/v1/fine_tuning/jobs"); (POST, "/v1/fine_tuning/jobs");
   (GET, "/v1/fine_tuning/jobs/{job_id}"); (POST, "/v1/fine_tuning/jobs/{job_id}/cancel");
   (GET, "/v1/fine_tuning/jobs/{job_id}/events"); (POST, "/v1/realtime/sessions")].

Definition protected_table (exposure : Config.RouteExposureConfig) : list (Method * string) :=
  core_routes ++ (if Config.placeholder_compat_routes exposure then placeholder_routes else []).

Definition public_routes : list (Method * string) := [(GET, "/health"); (GET, "/ready")].

(* ------------------------------------------------------------------ *)
(** ** Who gets through *)

Section Facts.
Context {S B : Type} `{!KeyStore S, !RateLimitBackend B} {O : Type}.
Variable parse_uuid : string -> option Chat.Uuid.
Variables (fresh_id : Chat.Uuid) (now now_secs : Z).
Implicit Types (g : Gate S B) (r : Request).

(** Every check a request has to pass, and the key it passes them with. *)
Definition admitted g r (key : AuthenticatedKey) : Prop :=
  exists b token, backend_check_global now (rate_limit_backend g) = (b, Some (Ok tt)) /\
    bearer_token r = Some token /\ authenticate (key_store g) token = Ok (Some key) /\
    role_allows_path (role key) (path r) = true /\ check_quota now_secs (key_store g) key = Ok tt /\
    snd (backend_check_key now (key_id key) (requests_per_minute (limits key)) (burst_of key) b)
      = Some (Ok tt).

Definition refusal (rid : Chat.Uuid) (e : Chat.ErrorHttpResponse) : Prop :=
  Chat.body_request_id (Chat.http_body e) = Some rid /\
  (Chat.http_status e = 401 \/ Chat.http_status e = 403 \/ Chat.http_status e = 429) /\
  (is_Some (Chat.http_retry_after e) <-> Chat.http_status e = 429).

Definition request_id_of r : Chat.Uuid := default fresh_id (header_x_request_id r ≫= parse_uuid).

(** What the client sees: the handler's answer on the request with its id and
    key, a refusal, or (only if a limiter panics) nothing. *)
Definition gate_spec (handler : Gate S B -> Request -> Gate S B * O) g r (out : option (Response O)) : Prop :=
  match out with
  | Some (Handled o) => exists key g', admitted g r key /\
      o = snd (handler g' (with_key key (with_request_id (request_id_of r) r)))
  | Some (Rejected e) => refusal (request_id_of r) e /\ forall key, ~ admitted g r key
  | None => forall key, ~ admitted g r key
  end.

Lemma refusal_of e rid : Chat.error_request_id e = Some rid ->
  match e with
  | Chat.Unauthorized _ _ | Chat.Forbidden _ _ | Chat.GatewayRateLimited _ _ => True
  | _ => False
  end -> refusal rid (Chat.into_response e).
Proof.
  intros Hid He. split; [exact Hid|]. destruct e; try done; cbn; (split; [by auto|]); split; intros Hx;
    try done; try (by destruct Hx); by eexists.
Qed.

Lemma per_key_gate handler g r b token key : ext_key r = Some key ->
  backend_check_global now (rate_limit_backend g) = (b, Some (Ok tt)) ->
  bearer_token r = Some token -> authenticate (key_store g) token = Ok (Some key) ->
  role_allows_path (role key) (path r) = true ->
  match snd (per_key_rate_limit_middleware (O:=O) fresh_id now now_secs
    (fun g r => let '(g, o) := handler g r in (g, Some (Handled o))) (set_backend b g) r) with
  | Some (Handled o) => admitted g r key /\ exists g', o = snd (handler g' r)
  | Some (Rejected e) => refusal (default fresh_id (ext_request_id r)) e /\ ~ admitted g r key
  | None => ~ admitted g r key
  end.
Proof.
  intros Hk Hb Ht Ha Hr. unfold per_key_rate_limit_middleware, reject. rewrite Hk. cbn [set_backend key_store rate_limit_backend].
  assert (forall x, check_quota now_secs (key_store g) key = Err x -> ~ admitted g r key) as Hnq.
  { intros x Hx (? & ? & _ & _ & _ & _ & Hq & _). congruence. }
  assert (snd (backend_check_key now (key_id key) (requests_per_minute (limits key)) (burst_of key) b) <> Some (Ok tt) ->
    ~ admitted g r key) as Hnk.
  { intros Hx (b' & ? & Hb' & _ & _ & _ & _ & Hc). rewrite Hb in Hb'. by injection Hb' as <-. }
  destruct (check_quota now_secs (key_store g) key) as [u|q] eqn:Eq; cbn [snd];
    [|split; [by apply refusal_of|by eapply Hnq]].
  destruct (backend_check_key now _ _ _ b) as [b2 [[u2|n]|]] eqn:Ek; cbn [snd] in *.
  - destruct (handler (set_backend b2 (set_backend b g)) r) as [g2 o] eqn:Eh. cbn [snd]. split.
    + destruct u, u2. exists b, token. rewrite Ek. by repeat split.
    + exists (set_backend b2 (set_backend b g)). by rewrite Eh.
  - split; [by apply refusal_of|by apply Hnk].
  - by apply Hnk.
Qed.

Lemma admitted_at g r b token key : backend_check_global now (rate_limit_backend g) = (b, Some (Ok tt)) ->
  bearer_token r = Some token -> admitted g r key -> authenticate (key_store g) token = Ok (Some key).
Proof. intros Hb Ht (b' & t' & Hb' & Ht' & Ha & _). congruence. Qed.

Lemma admitted_ext g r r' key : bearer_token r = bearer_token r' -> path r = path r' ->
  admitted g r key <-> admitted g r' key.
Proof. intros Ht Hp. unfold admitted. by rewrite Ht, Hp. Qed.

(** C5: no protected handler runs unless the request passed every check: the
    global rate limit, a bearer token that authenticates, a role that may use
    the path, the key's quota and the key's rate limit; it then runs on the
    request carrying that key and the request id.  Any other request is refused
    with 401, 403 or 429 under the same request id, with Retry-After exactly
    on 429. *)
Theorem handler_guarded (handler : Gate S B -> Request -> Gate S B * O) g r :
  gate_spec handler g r
    (snd (protected_routes parse_uuid fresh_id now now_secs handler g r)).
Proof.
  unfold protected_routes, request_id_middleware. fold (request_id_of r).
  set (r1 := with_request_id (request_id_of r) r).
  assert (forall key, admitted g r1 key <-> admitted g r key) as Hext by (intros; by apply admitted_ext).
  unfold pre_auth_rate_limit_middleware, reject.
  destruct (backend_check_global now (rate_limit_backend g)) as [b [[[]|n]|]] eqn:Eb; cbn [snd];
    [|split; [by apply refusal_of|]; intros key (? & ? & Hb & _); congruence
     |intros key (? & ? & Hb & _); congruence].
  unfold auth_middleware, reject. destruct (bearer_token r1) as [token|] eqn:Et; cbn [snd].
  2:{ split; [by apply refusal_of|]. intros key (? & ? & _ & Ht & _). change (bearer_token r1) with (bearer_token r) in Et. congruence. }
  assert (forall key, authenticate (key_store g) token <> Ok (Some key) -> ~ admitted g r key) as Hno.
  { intros key Hx Hadm%Hext. by eapply Hx, admitted_at. }
  cbn [set_backend key_store].
  destruct (authenticate (key_store g) token) as [[key|]|er] eqn:Ea; cbn [snd];
    [|split; [by apply refusal_of|]; intros key; by apply Hno..].
  destruct (role_allows_path (role key) (path r1)) eqn:Er; cbn [negb snd].
  2:{ split; [by apply refusal_of|]. intros k Hadm. assert (k = key) as -> by (apply Hext in Hadm; pose proof (admitted_at _ _ _ _ _ Eb Et Hadm); congruence).
      destruct Hadm as (? & ? & _ & _ & _ & Hr & _). change (path r1) with (path r) in Er. congruence. }
  pose proof (per_key_gate handler g (with_key key r1) b token key eq_refl Eb Et Ea Er) as Hp.
  assert (admitted g (with_key key r1) key <-> admitted g r key) as Hext2 by by apply admitted_ext.
  assert (~ admitted g r key -> forall k, ~ admitted g r k) as Hall.
  { intros Hn k Hk. pose proof Hk as Hk'. apply Hext in Hk'. pose proof (admitted_at _ _ _ _ _ Eb Et Hk') as Hk2.
    assert (k = key) as -> by congruence. done. }
  destruct (snd _) as [[e|o]|].
  - destruct Hp as [He Hn]. split; [exact He|]. exact (Hall (fun Hx => Hn (proj2 Hext2 Hx))).
  - destruct Hp as [Ha [g' Ho]]. exists key, g'. split; [by apply Hext2|exact Ho].
  - exact (Hall (fun Hx => Hp (proj2 Hext2 Hx))).
Qed.

End Facts.

(** The roles partition the routes as documented: admin keys may use every
    path, observability keys exactly the statistics, metrics and model list,
    inference keys everything but the statistics and metrics. *)
Theorem role_matrix p :
  role_allows_path Admin p = true /\
  (role_allows_path Observability p = true <->
     p ∈ ["/stats"; "/stats/providers"; "/metrics"; "/v1/models"]) /\
  (role_allows_path Inference p = true <-> p ∉ ["/stats"; "/stats/providers"; "/metrics"]).
Proof.
  unfold role_allows_path. rewrite !elem_of_cons, !elem_of_nil.
  destruct (String.eqb_spec p "/stats") as [->|H1]; [naive_solver|].
  destruct (String.eqb_spec p "/stats/providers") as [->|H2]; [naive_solver|].
  destruct (String.eqb_spec p "/metrics") as [->|H3]; [naive_solver|].
  cbn [orb allows_inference]. destruct (String.eqb_spec p "/v1/models") as [->|H4]; naive_solver.
Qed.

End Middleware.
