(* ===== verification/PrefixFingerprint.v ===== *)
(** * Prefix fingerprints (src/src/routing/prefix_fingerprint.rs)

    The reusable prefix of a request, normalised and hashed.  The JSON encoder
    and SHA-256 are arguments of the model. *)
From S2P Require Import Prelude Str F64 Chat.

Open Scope string_scope.
Open Scope list_scope.
Open Scope Z_scope.

Module PrefixFingerprint.

Definition FINGERPRINT_VERSION : Z := 1.

Inductive PrefixFingerprintConfidence := High | Low.

#[global] Instance Confidence_eq_dec : EqDecision PrefixFingerprintConfidence.
Proof. solve_decision. Defined.

Definition PrefixFingerprintConfidence_as_str (c : PrefixFingerprintConfidence) : string :=
  match c with High => "high" | Low => "low" end.

Record PrefixFingerprintResult := {
  fingerprint : option string;
  confidence : PrefixFingerprintConfidence;
  prefix_char_length : Z;
  prefix_token_estimate : Z
}.

Definition is_high_confidence (r : PrefixFingerprintResult) : bool :=
  match confidence r with High => is_some (fingerprint r) | Low => false end.

Record CanonicalPrefixMessage := {
  cpm_role : Chat.ChatRole;
  cpm_content : string;
  cpm_tool_calls : option (list Chat.ToolCall);
  cpm_tool_call_id : option string
}.

Record CanonicalPrefix := {
  cp_version : Z;
  cp_model : string;
  cp_messages : list CanonicalPrefixMessage;
  cp_tools : option (list Chat.Tool);
  cp_tool_choice : option Chat.ToolChoice;
  cp_parallel_tool_calls : option bool;
  cp_response_format : option Chat.Value
}.

(** [Iterator::rposition] *)
Fixpoint rposition {A : Type} (f : A -> bool) (l : list A) : option nat :=
  match l with
  | [] => None
  | x :: l' =>
      match rposition f l' with
      | Some i => Some (S i)
      | None => if f x then Some O else None
      end
  end.

Definition is_user (m : Chat.ChatMessage) : bool := bool_decide (Chat.role m = Chat.User).

Definition stable_prefix_messages (messages : list Chat.ChatMessage) : list Chat.ChatMessage :=
  match rposition is_user messages with
  | None => messages
  | Some last_user_index => take last_user_index messages
  end.

Definition normalize_text (text : string) : string := Str.join " " (Str.split_whitespace text).

Definition normalize_message (m : Chat.ChatMessage) : option CanonicalPrefixMessage :=
  let content := normalize_text (Chat.content m) in
  if Str.is_empty content then None
  else Some {| cpm_role := Chat.role m; cpm_content := content;
               cpm_tool_calls := Chat.tool_calls m; cpm_tool_call_id := Chat.tool_call_id m |}.

Definition high_value_role (r : Chat.ChatRole) : bool :=
  match r with Chat.System | Chat.Developer | Chat.ToolRole => true | _ => false end.

Section Hashing.
(** [serde_json::to_vec] of the canonical prefix, and [Sha256::digest]. *)
Variable to_vec : CanonicalPrefix -> option (list Z).
Variable sha256 : list Z -> list Z.

Definition hex_digest (bytes : list Z) : string := Str.hex (sha256 bytes).

Definition fingerprint_request (request : Chat.ChatCompletionRequest) : PrefixFingerprintResult :=
  let prefix_messages := stable_prefix_messages (Chat.messages request) in
  let normalized_messages := omap normalize_message prefix_messages in
  let normalized_prefix_text := Str.join Str.newline (map cpm_content normalized_messages) in
  let char_length := Str.chars_count normalized_prefix_text in
  let token_estimate := Chat.estimate_tokens_for_text normalized_prefix_text in
  let has_high_value_prefix :=
    existsb (fun m => high_value_role (cpm_role m)) normalized_messages
    || is_some_and (Chat.tools request) (fun ts => match ts with [] => false | _ => true end)
    || is_some (Chat.tool_choice request)
    || is_some (Chat.response_format request) in
  if negb has_high_value_prefix
  then {| fingerprint := None; confidence := Low;
          prefix_char_length := char_length; prefix_token_estimate := token_estimate |}
  else
    let canonical :=
      {| cp_version := FINGERPRINT_VERSION; cp_model := default "" (Chat.req_model request);
         cp_messages := normalized_messages; cp_tools := Chat.tools request;
         cp_tool_choice := Chat.tool_choice request;
         cp_parallel_tool_calls := Chat.parallel_tool_calls request;
         cp_response_format := Chat.response_format request |} in
    {| fingerprint := hex_digest <$> to_vec canonical; confidence := High;
       prefix_char_length := char_length; prefix_token_estimate := token_estimate |}.

End Hashing.

(* ------------------------------------------------------------------ *)
(** ** The stable prefix ends before the last user message *)

Lemma rposition_none {A} (f : A -> bool) l :
  Forall (fun x => f x = false) l -> rposition f l = None.
Proof. induction 1 as [|x l Hx _ IH]; simpl; [done|]. by rewrite IH, Hx. Qed.

Lemma rposition_last {A} (f : A -> bool) pre x post :
  f x = true -> Forall (fun y => f y = false) post ->
  rposition f (pre ++ x :: post) = Some (length pre).
Proof.
  intros Hx Hpost. induction pre as [|y pre IH]; simpl; [by rewrite rposition_none, Hx|].
  by rewrite IH.
Qed.

Lemma stable_prefix_before_last_user pre u post :
  Chat.role u = Chat.User -> Forall (fun m => Chat.role m <> Chat.User) post ->
  stable_prefix_messages (pre ++ u :: post) = pre.
Proof.
  intros Hu Hpost. unfold stable_prefix_messages. rewrite rposition_last.
  - by rewrite take_app_length.
  - by apply bool_decide_eq_true_2.
  - eapply Forall_impl; [exact Hpost|]. intros m Hm. by apply bool_decide_eq_false_2.
Qed.

(** Requests that differ in their messages only. *)
Definition with_messages (r : Chat.ChatCompletionRequest) (ms : list Chat.ChatMessage) :
  Chat.ChatCompletionRequest :=
  {| Chat.req_model := Chat.req_model r; Chat.messages := ms;
     Chat.temperature := Chat.temperature r; Chat.max_tokens := Chat.max_tokens r;
     Chat.stream := Chat.stream r; Chat.tools := Chat.tools r;
     Chat.tool_choice := Chat.tool_choice r;
     Chat.parallel_tool_calls := Chat.parallel_tool_calls r;
     Chat.response_format := Chat.response_format r |}.

Lemma fingerprint_of_prefix to_vec sha256 r ms ms' :
  omap normalize_message (stable_prefix_messages ms) =
  omap normalize_message (stable_prefix_messages ms') ->
  fingerprint_request to_vec sha256 (with_messages r ms) =
  fingerprint_request to_vec sha256 (with_messages r ms').
Proof. intros H. unfold fingerprint_request. cbn [with_messages Chat.messages]. by rewrite H. Qed.

(* ------------------------------------------------------------------ *)
(** ** Normalisation keeps exactly the words *)

Lemma normalize_same_words s t :
  normalize_text s = normalize_text t <-> Str.split_whitespace s = Str.split_whitespace t.
Proof.
  unfold normalize_text. split; [|by intros ->]. intros H.
  rewrite <-(Str.split_join (Str.split_whitespace s)) by apply Str.split_whitespace_words.
  rewrite H. apply Str.split_join, Str.split_whitespace_words.
Qed.

(** ** Properties *)

(** The fingerprint does not depend on the volatile tail: two requests that
    agree up to their last user message get the same result, whatever that
    message and the non-user messages after it say. *)
Theorem fingerprint_ignores_last_user_turn to_vec sha256 r pre u u' post post' :
  Chat.role u = Chat.User -> Chat.role u' = Chat.User ->
  Forall (fun m => Chat.role m <> Chat.User) post ->
  Forall (fun m => Chat.role m <> Chat.User) post' ->
  fingerprint_request to_vec sha256 (with_messages r (pre ++ u :: post)) =
  fingerprint_request to_vec sha256 (with_messages r (pre ++ u' :: post')).
Proof.
  intros. apply fingerprint_of_prefix. by rewrite !stable_prefix_before_last_user.
Qed.

Definition example_message (r : Chat.ChatRole) (text : string) : Chat.ChatMessage :=
  {| Chat.role := r; Chat.content := text; Chat.tool_calls := None; Chat.tool_call_id := None |}.

Definition example_request : Chat.ChatCompletionRequest :=
  {| Chat.req_model := Some "mock-fast-v1"; Chat.messages := []; Chat.temperature := None;
     Chat.max_tokens := None; Chat.stream := None; Chat.tools := None; Chat.tool_choice := None;
     Chat.parallel_tool_calls := None; Chat.response_format := None |}.

(** A concrete encoder and digest for the witness. *)
Definition example_to_vec (c : CanonicalPrefix) : option (list Z) :=
  Some (cp_version c :: mbind (fun m => Str.bytes (cpm_content m)) (cp_messages c)).
Definition example_sha256 (bytes : list Z) : list Z := take 32 bytes.

Lemma fingerprint_ignores_last_user_turn_witness :
  let request text := with_messages example_request
    [example_message Chat.System "You are helpful."; example_message Chat.User text] in
  fingerprint (fingerprint_request example_to_vec example_sha256 (request "account A")) =
  fingerprint (fingerprint_request example_to_vec example_sha256 (request "account B")) /\
  is_high_confidence (fingerprint_request example_to_vec example_sha256 (request "account A")) = true.
Proof.
  split; [|vm_compute; reflexivity]. apply (f_equal fingerprint).
  apply (fingerprint_ignores_last_user_turn example_to_vec example_sha256 example_request
    [example_message Chat.System "You are helpful."]); [reflexivity|reflexivity|constructor|constructor].
Defined.

(** Whitespace normalisation keeps exactly the words: two texts are
    normalised to the same text iff they have the same words, normalising twice
    changes nothing, and the token estimate of a text is that of its normal
    form. *)
Theorem normalize_text_keeps_words s t :
  (normalize_text s = normalize_text t <-> Str.split_whitespace s = Str.split_whitespace t) /\
  normalize_text (normalize_text s) = normalize_text s /\
  Chat.estimate_tokens_for_text (normalize_text s) = Chat.estimate_tokens_for_text s.
Proof.
  assert (Str.split_whitespace (normalize_text s) = Str.split_whitespace s) as H.
  { apply Str.split_join, Str.split_whitespace_words. }
  split; [apply normalize_same_words|]. split; [by apply normalize_same_words|].
  unfold Chat.estimate_tokens_for_text. by rewrite H.
Qed.

End PrefixFingerprint.
