(* ===== verification/PrefixAffinity.v ===== *)
(** * The prefix-affinity index (src/src/routing/prefix_affinity.rs)

    Remembers which provider last served a prefix, in an LRU cache whose
    entries expire.  The clock is an argument: an operation reads
    [Instant::now()] once. *)
From S2P Require Import Prelude Lru Config.

Open Scope string_scope.
Open Scope list_scope.
Open Scope Z_scope.

Module PrefixAffinity.

Record PrefixAffinityEntry := {
  provider_name : string;
  updated_at : Z
}.

Section Index.
Context (C : Type -> Type) `{!LruOps C}.

Record PrefixAffinityIndex := {
  ttl : Z;
  entries : mutex (C PrefixAffinityEntry)
}.

(** The index without entries. *)
Definition empty (config : Config.PrefixAffinityConfig) : PrefixAffinityIndex :=
  {| ttl := from_secs (Config.ttl_seconds config);
     entries := Unpoisoned (lru_new (Z.max (Config.affinity_max_entries config) 1)) |}.

(** [None]: the panic of an allocation that is too large. *)
Definition new (config : Config.PrefixAffinityConfig) : option PrefixAffinityIndex :=
  if lru_fits (Z.max (Config.affinity_max_entries config) 1) then Some (empty config) else None.

Definition set_entries (idx : PrefixAffinityIndex) (c : C PrefixAffinityEntry) :
  PrefixAffinityIndex := {| ttl := ttl idx; entries := Unpoisoned c |}.

Definition lookup (now : Z) (fingerprint : string) (idx : PrefixAffinityIndex) :
  PrefixAffinityIndex * option string :=
  match lock (entries idx) with
  | None => (idx, None)
  | Some c =>
      let '(found, c) := lru_get fingerprint c in
      let expired :=
        is_some_and found (fun entry => ttl idx <? duration_since now (updated_at entry)) in
      if expired then (set_entries idx (lru_pop fingerprint c), None)
      else
        let '(found, c) := lru_get fingerprint c in
        (set_entries idx c, provider_name <$> found)
  end.

Definition record (now : Z) (fingerprint provider : string) (idx : PrefixAffinityIndex) :
  PrefixAffinityIndex :=
  match lock (entries idx) with
  | None => idx
  | Some c =>
      set_entries idx
        (lru_put fingerprint {| provider_name := provider; updated_at := now |} c)
  end.

End Index.

Arguments ttl {C} _.
Arguments entries {C} _.
Arguments empty {C _} _.
Arguments new {C _} _.
Arguments set_entries {C} _ _.
Arguments lookup {C _} _ _ _.
Arguments record {C _} _ _ _ _.

(* ------------------------------------------------------------------ *)
(** ** Histories *)

Inductive op :=
| Lookup (now : Z) (fingerprint : string)
| Record_ (now : Z) (fingerprint provider : string).

(** The most recent recording of a fingerprint in a history, newest last. *)
Definition last_recorded (fp : string) (ops : list op) : option PrefixAffinityEntry :=
  foldl (fun acc o => match o with
    | Record_ now f p => if String.eqb f fp then Some {| provider_name := p; updated_at := now |} else acc
    | Lookup _ _ => acc
    end) None ops.

Section Facts.
Context (C : Type -> Type) `{!LruOps C, !LruLaws C}.

Definition step (idx : PrefixAffinityIndex C) (o : op) : PrefixAffinityIndex C :=
  match o with
  | Lookup now fp => fst (lookup now fp idx)
  | Record_ now fp p => record now fp p idx
  end.

Definition run (idx : PrefixAffinityIndex C) (ops : list op) : PrefixAffinityIndex C := foldl step idx ops.

(** Everything the index holds was recorded, and nothing newer was. *)
Definition holds_recorded (idx : PrefixAffinityIndex C) (ops : list op) : Prop :=
  exists c, entries idx = Unpoisoned c /\ 1 <= lru_cap c /\
    forall fp e, lru_lookup c fp = Some e -> last_recorded fp ops = Some e.

Lemma last_recorded_snoc fp ops o :
  last_recorded fp (ops ++ [o]) =
  match o with
  | Record_ now f p => if String.eqb f fp then Some {| provider_name := p; updated_at := now |}
                       else last_recorded fp ops
  | Lookup _ _ => last_recorded fp ops
  end.
Proof. unfold last_recorded. rewrite foldl_app. by destruct o. Qed.

Lemma ttl_lookup now fp (idx : PrefixAffinityIndex C) : ttl (fst (lookup now fp idx)) = ttl idx.
Proof.
  unfold lookup. destruct (entries idx) as [c|]; simpl; [|done].
  destruct (lru_get fp c) as [found c']. destruct (is_some_and _ _); [done|].
  by destruct (lru_get fp c').
Qed.

Lemma step_ttl idx o : ttl (step idx o) = ttl idx.
Proof.
  destruct o; simpl; [apply ttl_lookup|]. unfold record. by destruct (entries idx).
Qed.

(** What one lookup answers and leaves behind, by the laws of the cache. *)
Lemma lookup_spec now fp (idx : PrefixAffinityIndex C) c :
  entries idx = Unpoisoned c -> 1 <= lru_cap c ->
  let fresh e := duration_since now (updated_at e) <= ttl idx in
  snd (lookup now fp idx) =
    match lru_lookup c fp with
    | Some e => if ttl idx <? duration_since now (updated_at e) then None else Some (provider_name e)
    | None => None
    end /\
  exists c', entries (fst (lookup now fp idx)) = Unpoisoned c' /\ 1 <= lru_cap c' /\
    forall j e, lru_lookup c' j = Some e -> lru_lookup c j = Some e.
Proof.
  intros Hc Hcap fresh. unfold lookup. rewrite Hc. cbn [lock].
  pose proof (lru_get_value _ fp c) as Hv. pose proof (lru_get_lookup _ fp c) as Hl.
  pose proof (lru_cap_get _ fp c) as Hcg. destruct (lru_get fp c) as [found c1]. simpl in Hv, Hl, Hcg. subst found.
  destruct (is_some_and (lru_lookup c fp) _) eqn:E; simpl.
  - destruct (lru_lookup c fp) as [e|]; [|done]. simpl in E. rewrite E. split; [done|].
    eexists. split; [done|]. split; [rewrite lru_cap_pop; lia|]. intros j e'.
    destruct (decide (j = fp)) as [->|Hne]; [by rewrite lru_pop_same|]. by rewrite lru_pop_other, Hl.
  - pose proof (lru_get_value _ fp c1) as Hv1. pose proof (lru_get_lookup _ fp c1) as Hl1.
    pose proof (lru_cap_get _ fp c1) as Hcg1. destruct (lru_get fp c1) as [found c2].
    simpl in Hv1, Hl1, Hcg1. simpl. rewrite Hv1, Hl. split.
    + destruct (lru_lookup c fp) as [e|]; simpl in *; [by rewrite E|done].
    + eexists. split; [done|]. split; [lia|]. intros j e'. by rewrite Hl1, Hl.
Qed.

Lemma step_holds idx ops o : holds_recorded idx ops -> holds_recorded (step idx o) (ops ++ [o]).
Proof.
  intros (c & Hc & Hcap & Hall). destruct o as [now fp|now fp p]; simpl.
  - destruct (lookup_spec now fp idx c Hc Hcap) as (_ & c' & Hc' & Hcap' & Hl).
    exists c'. split; [done|]. split; [done|]. intros j e Hj. rewrite last_recorded_snoc. by apply Hall, Hl.
  - unfold record. rewrite Hc. simpl. eexists. split; [done|]. split; [rewrite lru_cap_put; lia|].
    intros j e Hj. rewrite last_recorded_snoc. destruct (String.eqb_spec fp j) as [->|Hne].
    + rewrite lru_put_same in Hj by done. done.
    + apply Hall. eapply lru_put_other; [|exact Hj]. done.
Qed.

Lemma new_empty config (idx : PrefixAffinityIndex C) : new config = Some idx -> idx = empty config.
Proof. unfold new. destruct (lru_fits _); [by intros [= <-]|done]. Qed.

Lemma run_holds config ops : holds_recorded (run (empty config) ops) ops.
Proof.
  unfold run. induction ops as [|o ops IH] using rev_ind.
  - eexists. split; [done|]. split; [rewrite lru_cap_new; lia|]. intros fp e. by rewrite lru_new_lookup.
  - rewrite foldl_app. by apply step_holds.
Qed.

Lemma run_ttl config ops : ttl (run (empty config) ops) = from_secs (Config.ttl_seconds config).
Proof.
  unfold run. induction ops as [|o ops IH] using rev_ind; [done|].
  rewrite foldl_app. simpl. by rewrite step_ttl.
Qed.

End Facts.

(** ** Properties *)

(** C36: the index never answers with a stale or invented provider: after any
    history, a lookup that finds a provider returns the one most recently
    recorded for that fingerprint, and that recording is no older than the
    configured time to live. *)
Theorem affinity_lookup_sound C `{!LruOps C, !LruLaws C} config idx ops now fp p :
  new (C:=C) config = Some idx -> snd (lookup now fp (run C idx ops)) = Some p ->
  exists t, last_recorded fp ops = Some {| provider_name := p; updated_at := t |} /\
    duration_since now t <= from_secs (Config.ttl_seconds config).
Proof.
  intros ->%new_empty. destruct (run_holds C config ops) as (c & Hc & Hcap & Hall).
  destruct (lookup_spec C now fp _ c Hc Hcap) as (-> & _). rewrite run_ttl.
  destruct (lru_lookup c fp) as [[q t]|] eqn:E; [|done]. simpl.
  destruct (_ <? _) eqn:Et; [done|]. zbool. intros [= <-]. exists t. split; [by apply Hall|done].
Qed.

Lemma affinity_lookup_sound_witness :
  exists t, last_recorded "fp" [Record_ 0 "fp" "a"; Record_ 5 "fp" "b"] =
              Some {| provider_name := "b"; updated_at := t |} /\
    duration_since 9 t <= from_secs (Config.ttl_seconds Config.PrefixAffinityConfig_default).
Proof.
  apply (affinity_lookup_sound ref_lru Config.PrefixAffinityConfig_default (empty Config.PrefixAffinityConfig_default)
    [Record_ 0 "fp" "a"; Record_ 5 "fp" "b"] 9 "fp" "b"); vm_compute; reflexivity.
Defined.

(** A recording is found again: right after a provider is recorded for a
    fingerprint, a lookup within the time to live answers that provider, and
    a lookup after it answers nothing. *)
Theorem affinity_record_then_lookup C `{!LruOps C, !LruLaws C} config ops now fp p later :
  let idx := record now fp p (run C (empty config) ops) in
  snd (lookup later fp idx) =
    (if from_secs (Config.ttl_seconds config) <? duration_since later now then None else Some p).
Proof.
  destruct (run_holds C config ops) as (c & Hc & Hcap & _).
  pose proof (run_ttl C config ops) as Ht. simpl. unfold record. rewrite Hc. simpl.
  match goal with |- context [set_entries ?idx ?c'] =>
    destruct (lookup_spec C later fp (set_entries idx c') c' eq_refl) as (-> & _) end.
  - rewrite lru_cap_put. lia.
  - rewrite lru_put_same by done. simpl. by rewrite Ht.
Qed.

Lemma affinity_record_then_lookup_witness :
  snd (lookup 7 "fp" (record 5 "fp" "b" (run ref_lru (empty Config.PrefixAffinityConfig_default)
    [Record_ 0 "fp" "a"]))) = Some "b".
Proof.
  exact (affinity_record_then_lookup ref_lru Config.PrefixAffinityConfig_default
    [Record_ 0 "fp" "a"] 5 "fp" "b" 7).
Defined.

End PrefixAffinity.
