(* ===== verification/RuntimeSignals.v ===== *)
(** * Runtime cache and load signals (src/src/routing/runtime_signals.rs)

    The types behind the [runtime-cache-signals] feature and the in-memory
    source of signals. *)
From S2P Require Import Prelude F64.

Open Scope string_scope.
Open Scope Z_scope.

Module RuntimeSignals.

Record RuntimeWorkerId := { worker_provider_name : string; runtime_id : string }.

Record PrefixResidency := {
  res_fingerprint : string;
  resident_blocks : Z;
  total_blocks : Z
}.

Definition resident_fraction (r : PrefixResidency) : F64.t :=
  if total_blocks r =? 0 then F64.zero
  else F64.clamp (F64.div (F64.of_Z (resident_blocks r)) (F64.of_Z (total_blocks r)))
         F64.zero F64.one.

Record RuntimeWorkerSignal := {
  worker : RuntimeWorkerId;
  queue_depth : Z;
  sig_in_flight : Z;
  kv_cache_utilization : F64.t;
  cache_hit_fraction : F64.t;
  prefix_residency_by_fingerprint : gmap string PrefixResidency
}.

Definition signal_new (provider_name : string) : RuntimeWorkerSignal :=
  {| worker := {| worker_provider_name := provider_name; runtime_id := provider_name |};
     queue_depth := 0; sig_in_flight := 0; kv_cache_utilization := F64.zero;
     cache_hit_fraction := F64.zero; prefix_residency_by_fingerprint := ∅ |}.

Definition eta_signal (s : RuntimeWorkerSignal) : RuntimeWorkerSignal :=
  {| worker := worker s; queue_depth := queue_depth s; sig_in_flight := sig_in_flight s;
     kv_cache_utilization := kv_cache_utilization s; cache_hit_fraction := cache_hit_fraction s;
     prefix_residency_by_fingerprint := prefix_residency_by_fingerprint s |}.

(** The builder methods: each returns the signal with one field replaced. *)
Definition with_runtime_id (id : string) (s : RuntimeWorkerSignal) : RuntimeWorkerSignal :=
  let x := {| worker_provider_name := worker_provider_name (worker s); runtime_id := id |} in
  ltac:(set_field eta_signal worker x s).
Definition with_queue_depth (x : Z) (s : RuntimeWorkerSignal) : RuntimeWorkerSignal :=
  ltac:(set_field eta_signal queue_depth x s).
Definition with_in_flight (x : Z) (s : RuntimeWorkerSignal) : RuntimeWorkerSignal :=
  ltac:(set_field eta_signal sig_in_flight x s).
Definition with_kv_cache_utilization (u : F64.t) (s : RuntimeWorkerSignal) : RuntimeWorkerSignal :=
  let x := F64.clamp u F64.zero F64.one in ltac:(set_field eta_signal kv_cache_utilization x s).
Definition with_cache_hit_fraction (u : F64.t) (s : RuntimeWorkerSignal) : RuntimeWorkerSignal :=
  let x := F64.clamp u F64.zero F64.one in ltac:(set_field eta_signal cache_hit_fraction x s).
Definition with_prefix_residency (r : PrefixResidency) (s : RuntimeWorkerSignal) :
  RuntimeWorkerSignal :=
  let x := <[ res_fingerprint r := r ]> (prefix_residency_by_fingerprint s) in
  ltac:(set_field eta_signal prefix_residency_by_fingerprint x s).

Definition prefix_residency (s : RuntimeWorkerSignal) (fingerprint : string) :
  option PrefixResidency := prefix_residency_by_fingerprint s !! fingerprint.

(** The [RuntimeSignalSource] trait and its in-memory implementation. *)
Class RuntimeSignalSource (S : Type) := {
  signal_for_provider : S -> string -> option RuntimeWorkerSignal
}.

Definition MockRuntimeSignalSource : Type := gmap string RuntimeWorkerSignal.

Definition insert_signal (signal : RuntimeWorkerSignal) (s : MockRuntimeSignalSource) :
  MockRuntimeSignalSource := <[ worker_provider_name (worker signal) := signal ]> s.

#[global] Instance mock_source : RuntimeSignalSource MockRuntimeSignalSource :=
  {| signal_for_provider s provider_name := s !! provider_name |}.

End RuntimeSignals.
