(* ===== verification/Strategy.v ===== *)
(** * Provider selection (src/src/routing/strategy.rs)

    From the configured providers to the ordered list of candidates for one
    request: eligibility by pool or model, the ordering of each policy, prefix
    affinity with its fallbacks, rendezvous hashing, and the feature-gated
    reordering by runtime signals.  SHA-256 is an argument.  [ranked_before] says
    what each policy promises of two candidates. *)
From S2P Require Import Prelude Str F64 F64Facts Config ModelPools Chat Provider Resilience Metrics Lru.
From S2P Require Import PrefixFingerprint PrefixAffinity RuntimeSignals.

Open Scope string_scope.
Open Scope list_scope.
Open Scope Z_scope.

Module Strategy.
Import Config.

Definition IN_FLIGHT_LATENCY_PENALTY_MS : F64.t := F64.of_Z 25.
Definition QUEUE_PRESSURE_PENALTY_MS : F64.t := F64.of_Z 10.
Definition RECENT_ERROR_PENALTY_MS : F64.t := F64.of_Z 250.
Definition HALF_OPEN_CIRCUIT_PENALTY_MS : F64.t := F64.of_Z 10000.
Definition OPEN_CIRCUIT_PENALTY_MS : F64.t := F64.of_Z 1000000.

Definition Entry : Type := Provider.ProviderEntry.
Definition pname (e : Entry) : string := Provider.name (Provider.provider e).

Record CandidateSelection := {
  candidates : list Entry;
  effective_policy : RoutingPolicy;
  reason : string
}.

Definition resolve_model_alias (aliases : gmap string string) (requested_model : string) : string :=
  default requested_model (aliases !! requested_model).

Definition effective_routing_policy (requested_model : option string)
  (routing_policy : RoutingPolicy) (pools : ModelPools.ModelPoolIndex) : RoutingPolicy :=
  default routing_policy
    ((requested_model ≫= ModelPools.pool_for_public_model pools) ≫= ModelPools.policy).

(** ** Scores *)

Definition provider_cost (e : Entry) : F64.t :=
  F64.add (Provider.cost_per_1k_input_tokens (Provider.pricing e))
          (Provider.cost_per_1k_output_tokens (Provider.pricing e)).

Definition positive (x : F64.t) : bool := F64.gtb x F64.zero.

Definition provider_latency_ms (e : Entry) (snap : option Metrics.MetricsSnapshot) : F64.t :=
  default F64.infinity
    (snap ≫= fun s =>
       or_else (opt_filter positive (Metrics.snap_p95_latency_ms_by_provider s !! pname e))
               (opt_filter positive (Metrics.snap_avg_latency_ms_by_provider s !! pname e))).

Definition recent_error_count (s : Metrics.MetricsSnapshot) (provider_name : string) : Z :=
  match Metrics.snap_recent_provider_errors_by_provider_and_category s !! provider_name with
  | Some categories => foldl (fun acc e => u64_add acc e.2) 0 (btree_items categories)
  | None => 0
  end.

Definition circuit_penalty_ms (s : Resilience.CircuitState) : F64.t :=
  match s with
  | Resilience.Closed => F64.zero
  | Resilience.HalfOpen => HALF_OPEN_CIRCUIT_PENALTY_MS
  | Resilience.Open => OPEN_CIRCUIT_PENALTY_MS
  end.

Definition provider_latency_score (e : Entry) (snap : option Metrics.MetricsSnapshot)
  (resilience : option Resilience.ResilienceRegistry) : F64.t :=
  let score := provider_latency_ms e snap in
  let score := match snap with
    | Some s =>
        let score := F64.add score
          (F64.mul (F64.of_Z (default 0 (Metrics.snap_in_flight_requests_by_provider s !! pname e)))
             IN_FLIGHT_LATENCY_PENALTY_MS) in
        let score := F64.add score
          (F64.mul (default F64.zero (Metrics.snap_queue_pressure_by_provider s !! pname e))
             QUEUE_PRESSURE_PENALTY_MS) in
        F64.add score
          (F64.mul (F64.of_Z (recent_error_count s (pname e))) RECENT_ERROR_PENALTY_MS)
    | None => score
    end in
  match resilience with
  | Some r => F64.add score (circuit_penalty_ms (Resilience.circuit_state r (pname e)))
  | None => score
  end.

(** ** Candidates of a policy *)

(** Is the provider eligible for the model: a member of its pool, or, without
    a pool, one that serves the model. *)
Definition eligible (pool : option ModelPools.ModelPool) (requested_model : string) (e : Entry) :
  bool :=
  match pool with
  | Some pool => bool_decide (pname e ∈ ModelPools.members pool)
  | None => Provider.supports_model (Provider.provider e) requested_model
  end.

Definition by_priority_then_name : Entry -> Entry -> comparison :=
  then_with (cmp_on Provider.priority Z.compare) (cmp_on pname String.compare).

(** The comparator passed to [sort_by]. *)
Definition policy_cmp (policy : RoutingPolicy) (snap : option Metrics.MetricsSnapshot)
  (resilience : option Resilience.ResilienceRegistry) : Entry -> Entry -> comparison :=
  match policy with
  | Priority | PrefixAffinity => by_priority_then_name
  | Cost => then_with (cmp_on provider_cost F64.total_cmp) by_priority_then_name
  | Latency =>
      then_with (cmp_on (fun e => provider_latency_score e snap resilience) F64.total_cmp)
        by_priority_then_name
  end.

Definition candidate_providers_for_policy (providers : list Entry)
  (requested_model : option string) (policy : RoutingPolicy)
  (snap : option Metrics.MetricsSnapshot) (pools : ModelPools.ModelPoolIndex)
  (resilience : option Resilience.ResilienceRegistry) : list Entry :=
  match requested_model with
  | None => []
  | Some model =>
      let pool := ModelPools.pool_for_public_model pools model in
      sort_by (policy_cmp policy snap resilience)
        (filter (fun e => eligible pool model e = true) providers)
  end.

Definition candidate_providers (providers : list Entry) (requested_model : option string)
  (policy : RoutingPolicy) (snap : option Metrics.MetricsSnapshot)
  (pools : ModelPools.ModelPoolIndex) (resilience : option Resilience.ResilienceRegistry) :
  list Entry :=
  candidate_providers_for_policy providers requested_model
    (effective_routing_policy requested_model policy pools) snap pools resilience.

Definition select_provider (providers : list Entry) (requested_model : option string)
  (pools : ModelPools.ModelPoolIndex) : option Entry :=
  head (candidate_providers providers requested_model Priority None pools None).

Definition routing_decision_reason (policy : RoutingPolicy) (selected : option Entry)
  (snap : option Metrics.MetricsSnapshot) : string :=
  match policy with
  | Priority => "priority"
  | Cost => "lowest_cost"
  | PrefixAffinity => "fallback"
  | Latency =>
      match selected with
      | None => "no_provider"
      | Some e =>
          if is_some_and (snap ≫= fun s => Metrics.snap_p95_latency_ms_by_provider s !! pname e)
               positive
          then "recent_latency_p95"
          else if is_some_and
                    (snap ≫= fun s => Metrics.snap_avg_latency_ms_by_provider s !! pname e) positive
          then "average_latency"
          else "no_latency_data"
      end
  end.

(** ** Affinity helpers *)

Definition is_open_circuit (resilience : option Resilience.ResilienceRegistry) (e : Entry) : bool :=
  is_some_and resilience (fun r =>
    match Resilience.circuit_state r (pname e) with Resilience.Open => true | _ => false end).

Definition provider_has_recent_errors (snap : option Metrics.MetricsSnapshot)
  (provider_name : string) : bool :=
  is_some_and snap (fun s => 0 <? recent_error_count s provider_name).

Definition provider_in_flight (s : Metrics.MetricsSnapshot) (provider_name : string) : Z :=
  default 0 (Metrics.snap_in_flight_requests_by_provider s !! provider_name).

Definition provider_queue_pressure (s : Metrics.MetricsSnapshot) (provider_name : string) : Z :=
  F64.ceil_as_u64 (default F64.zero (Metrics.snap_queue_pressure_by_provider s !! provider_name)).

Definition load_within_threshold (snap : option Metrics.MetricsSnapshot) (provider_name : string)
  (cands : list Entry) (threshold : Z) : bool :=
  match snap with
  | None => true
  | Some s =>
      let min_in_flight :=
        default 0 (min_list (map (fun e => provider_in_flight s (pname e)) cands)) in
      let min_queue_pressure :=
        default 0 (min_list (map (fun e => provider_queue_pressure s (pname e)) cands)) in
      (provider_in_flight s provider_name <=? u64_sat_add min_in_flight threshold)
      && (provider_queue_pressure s provider_name <=? u64_sat_add min_queue_pressure threshold)
  end.

Definition move_provider_to_front (cands : list Entry) (provider_name : string) : list Entry :=
  filter (fun e => pname e = provider_name) cands ++
  filter (fun e => pname e <> provider_name) cands.

Definition order_open_circuits_last (cands : list Entry)
  (resilience : option Resilience.ResilienceRegistry) : list Entry :=
  sort_by (then_with (cmp_on (is_open_circuit resilience) bool_compare) by_priority_then_name) cands.

(** [enumerate().map(..).collect::<BTreeMap<_, _>>()]: the position of each
    name, the last one where a name repeats. *)
Definition baseline_positions (cands : list Entry) : gmap string nat :=
  snd (foldl (fun '(i, m) e => (S i, <[ pname e := i ]> m)) (O, ∅) cands).

(** Indexing the map with a candidate's name. *)
Definition position (positions : gmap string nat) (e : Entry) : nat :=
  default O (positions !! pname e).

Definition load_score (snap : option Metrics.MetricsSnapshot)
  (resilience : option Resilience.ResilienceRegistry) (e : Entry) : Z :=
  let circuit_penalty := if is_open_circuit resilience e then 1000000 else 0 in
  match snap with
  | None => circuit_penalty
  | Some s =>
      u64_sat_add
        (u64_sat_add
           (Z.max (provider_in_flight s (pname e)) (provider_queue_pressure s (pname e)))
           (u64_sat_mul (recent_error_count s (pname e)) 1000))
        circuit_penalty
  end.

Definition order_by_load_then_baseline (cands : list Entry)
  (snap : option Metrics.MetricsSnapshot)
  (resilience : option Resilience.ResilienceRegistry) : list Entry :=
  let positions := baseline_positions cands in
  sort_by (then_with (then_with (cmp_on (load_score snap resilience) Z.compare)
                        (cmp_on (position positions) Nat.compare))
             (cmp_on pname String.compare)) cands.

(** Lexicographic order of byte arrays. *)
Fixpoint bytes_compare (x y : list Z) : comparison :=
  match x, y with
  | [], [] => Eq
  | [], _ => Lt
  | _, [] => Gt
  | a :: x', b :: y' => match Z.compare a b with Eq => bytes_compare x' y' | c => c end
  end.

Section Affinity.
Variable sha256 : list Z -> list Z.
Context (C : Type -> Type) `{!LruOps C}.

Definition rendezvous_score (fingerprint provider_name : string) : list Z :=
  sha256 (Str.bytes fingerprint ++ Str.bytes ":" ++ Str.bytes provider_name).

(** The comparator of [max_by]: by score, then the smaller name wins. *)
Definition rendezvous_cmp (fingerprint : string) : Entry -> Entry -> comparison :=
  then_with (cmp_on (fun e => rendezvous_score fingerprint (pname e)) bytes_compare)
            (cmp_flip (cmp_on pname String.compare)).

Definition rendezvous_provider (fingerprint : string) (cands : list Entry) : option Entry :=
  max_by (rendezvous_cmp fingerprint) cands.

Record PrefixAffinityRouting := {
  index : PrefixAffinity.PrefixAffinityIndex C;
  config : PrefixAffinityConfig;
  req_fingerprint : PrefixFingerprint.PrefixFingerprintResult
}.

Definition prefix_affinity_fallback_selection (providers : list Entry)
  (requested_model : option string) (effective : RoutingPolicy) (fallback_policy : RoutingPolicy)
  (snap : option Metrics.MetricsSnapshot) (pools : ModelPools.ModelPoolIndex)
  (resilience : option Resilience.ResilienceRegistry) (why : string) : CandidateSelection :=
  {| candidates := candidate_providers_for_policy providers requested_model fallback_policy snap
                     pools resilience;
     effective_policy := effective; reason := why |}.

(** The part of [candidate_providers_with_affinity] after the baseline is
    known not to be empty; the index is returned because [lookup] reorders it
    and drops expired entries. *)
Definition affinity_order (now : Z) (baseline : list Entry) (effective : RoutingPolicy)
  (snap : option Metrics.MetricsSnapshot) (resilience : option Resilience.ResilienceRegistry)
  (affinity : PrefixAffinityRouting) (fingerprint : string) :
  CandidateSelection * PrefixAffinity.PrefixAffinityIndex C :=
  let selection cands why :=
    {| candidates := cands; effective_policy := effective; reason := why |} in
  let healthy := filter (fun e => is_open_circuit resilience e = false) baseline in
  match healthy with
  | [] => (selection (order_open_circuits_last baseline resilience) "circuit_open", index affinity)
  | _ =>
      let '(idx, previous) := PrefixAffinity.lookup now fingerprint (index affinity) in
      let miss :=
        match rendezvous_provider fingerprint healthy with
        | Some selected =>
            (selection (move_provider_to_front baseline (pname selected)) "prefix_miss", idx)
        | None => (selection baseline "fallback", idx)
        end in
      match previous with
      | Some previous_provider =>
          if existsb (fun e => String.eqb (pname e) previous_provider) baseline
          then
            if forallb (fun e => negb (String.eqb (pname e) previous_provider)) healthy
            then (selection (order_open_circuits_last baseline resilience) "circuit_open", idx)
            else if provider_has_recent_errors snap previous_provider
            then (selection baseline "fallback", idx)
            else if load_within_threshold snap previous_provider healthy
                      (load_imbalance_threshold (config affinity))
            then (selection (move_provider_to_front baseline previous_provider) "prefix_hit", idx)
            else (selection (order_by_load_then_baseline baseline snap resilience)
                    "load_imbalanced", idx)
          else miss
      | None => miss
      end
  end.

Definition candidate_providers_with_affinity (now : Z) (providers : list Entry)
  (requested_model : option string) (policy : RoutingPolicy)
  (snap : option Metrics.MetricsSnapshot) (pools : ModelPools.ModelPoolIndex)
  (resilience : option Resilience.ResilienceRegistry)
  (affinity : option PrefixAffinityRouting) :
  CandidateSelection * option (PrefixAffinity.PrefixAffinityIndex C) :=
  let keep := index <$> affinity in
  match requested_model with
  | None => ({| candidates := []; effective_policy := policy; reason := "no_provider" |}, keep)
  | Some model =>
      let pool := ModelPools.pool_for_public_model pools model in
      let effective := effective_routing_policy (Some model) policy pools in
      let fallback fallback_policy :=
        prefix_affinity_fallback_selection providers (Some model) effective fallback_policy snap
          pools resilience "fallback" in
      if negb (bool_decide (effective = PrefixAffinity))
      then
        let cands := candidate_providers_for_policy providers (Some model) effective snap pools
                       resilience in
        ({| candidates := cands; effective_policy := effective;
            reason := routing_decision_reason effective (head cands) snap |}, keep)
      else
        match affinity with
        | None => (fallback Priority, keep)
        | Some affinity =>
            let baseline_policy := fallback_policy (config affinity) in
            match pool with
            | None => (fallback baseline_policy, keep)
            | Some pool =>
                if (Z.of_nat (size (ModelPools.members pool)) <=? 1)
                   || negb (PrefixFingerprint.is_high_confidence (req_fingerprint affinity))
                then (fallback baseline_policy, keep)
                else
                  match PrefixFingerprint.fingerprint (req_fingerprint affinity) with
                  | None => (fallback baseline_policy, keep)
                  | Some fingerprint =>
                      let baseline := candidate_providers_for_policy providers (Some model)
                                        baseline_policy snap pools resilience in
                      match baseline with
                      | [] =>
                          ({| candidates := baseline; effective_policy := effective;
                              reason := "no_provider" |}, keep)
                      | _ =>
                          let '(sel, idx) := affinity_order now baseline effective snap resilience
                                               affinity fingerprint in
                          (sel, Some idx)
                      end
                  end
            end
        end
  end.

End Affinity.

(** ** Runtime signals (feature [runtime-cache-signals]) *)

Section Signals.
Context {S : Type} `{!RuntimeSignals.RuntimeSignalSource S}.
Import RuntimeSignals.

Definition runtime_signal_score (prefix_fingerprint : option string)
  (signal : option RuntimeWorkerSignal) : F64.t :=
  match signal with
  | None => F64.infinity
  | Some signal =>
      let prefix_residency_bonus :=
        default F64.zero
          ((fun r => F64.mul (resident_fraction r) (F64.of_Z 10000)) <$>
             (prefix_fingerprint ≫= prefix_residency signal)) in
      let cache_hit_bonus :=
        F64.mul (F64.clamp (cache_hit_fraction signal) F64.zero F64.one) (F64.of_Z 1000) in
      let queue_penalty := F64.mul (F64.of_Z (queue_depth signal)) (F64.of_Z 200) in
      let in_flight_penalty := F64.mul (F64.of_Z (sig_in_flight signal)) (F64.of_Z 50) in
      let kv_utilization_penalty :=
        F64.mul (F64.clamp (kv_cache_utilization signal) F64.zero F64.one) (F64.of_Z 1000) in
      F64.sub
        (F64.sub (F64.add (F64.add queue_penalty in_flight_penalty) kv_utilization_penalty)
           prefix_residency_bonus)
        cache_hit_bonus
  end.

Definition has_better_queue_depth (selected : RuntimeWorkerSignal)
  (signals : gmap string RuntimeWorkerSignal) : bool :=
  let selected_load := u64_sat_add (queue_depth selected) (sig_in_flight selected) in
  existsb (fun e => selected_load <? u64_sat_add (queue_depth e.2) (sig_in_flight e.2))
    (btree_items signals).

Definition has_better_kv_headroom (selected : RuntimeWorkerSignal)
  (signals : gmap string RuntimeWorkerSignal) : bool :=
  existsb (fun e => F64.gtb (kv_cache_utilization e.2) (kv_cache_utilization selected))
    (btree_items signals).

Definition runtime_signal_reason (selected : RuntimeWorkerSignal)
  (prefix_fingerprint : option string) (signals : gmap string RuntimeWorkerSignal) : string :=
  if is_some_and prefix_fingerprint (fun fp =>
       is_some_and (prefix_residency selected fp) (fun r => positive (resident_fraction r)))
  then "runtime_prefix_resident"
  else if has_better_queue_depth selected signals then "runtime_queue_depth"
  else if has_better_kv_headroom selected signals then "runtime_kv_headroom"
  else if positive (cache_hit_fraction selected) then "runtime_cache_hit"
  else "fallback".

Definition signals_of (source : S) (cands : list Entry) : gmap string RuntimeWorkerSignal :=
  foldl (fun m e => match signal_for_provider source (pname e) with
                    | Some signal => <[ pname e := signal ]> m
                    | None => m
                    end) ∅ cands.

Definition order_candidates_by_runtime_signals (cands : list Entry) (source : S)
  (prefix_fingerprint : option string) : list Entry * string :=
  if (length cands <=? 1)%nat then (cands, "fallback")
  else
    let positions := baseline_positions cands in
    let signals := signals_of source cands in
    if bool_decide (signals = ∅) then (cands, "fallback")
    else
      let ordered := sort_by
        (then_with (then_with
             (cmp_on (fun e => runtime_signal_score prefix_fingerprint (signals !! pname e))
                F64.total_cmp)
             (cmp_on (position positions) Nat.compare))
           (cmp_on pname String.compare)) cands in
      let why := match head ordered ≫= (fun e => signals !! pname e) with
        | Some selected => runtime_signal_reason selected prefix_fingerprint signals
        | None => "fallback"
        end in
      (ordered, why).

End Signals.

(* ------------------------------------------------------------------ *)
(** ** Orders *)

#[global] Instance bytes_compare_total : TotalCmp bytes_compare.
Proof.
  split.
  - intros x. induction x as [|a x IH]; intros [|b y]; simpl; [done..|].
    rewrite (Z.compare_antisym a b). destruct (a ?= b); simpl; [apply IH|done..].
  - intros x. induction x as [|a x IH]; intros [|b y] [|d z]; simpl; try done.
    destruct (Z.compare_spec a b), (Z.compare_spec b d); subst; try done.
    + rewrite Z.compare_refl. apply IH.
    + intros _ _. by apply Z.compare_lt_iff in H0 as ->.
    + intros _ _. by apply Z.compare_lt_iff in H as ->.
    + intros _ _. by rewrite (proj2 (Z.compare_lt_iff a d)) by lia.
Qed.

#[global] Instance by_priority_then_name_total : TotalCmp by_priority_then_name.
Proof. unfold by_priority_then_name. apply _. Qed.

#[global] Instance policy_cmp_total policy snap resilience :
  TotalCmp (policy_cmp policy snap resilience).
Proof. unfold policy_cmp. destruct policy; apply _. Qed.

#[global] Instance rendezvous_cmp_total sha256 fp : TotalCmp (rendezvous_cmp sha256 fp).
Proof. unfold rendezvous_cmp. apply _. Qed.

(** Comparators that end in the name only identify entries of the same name. *)
Definition names_decide (c : Entry -> Entry -> comparison) : Prop :=
  forall x y, c x y = Eq -> pname x = pname y.

Lemma then_with_names c1 c2 : names_decide c2 -> names_decide (then_with c1 c2).
Proof. intros H x y. unfold then_with. destruct (c1 x y); [apply H|done..]. Qed.

Lemma by_name_names : names_decide (cmp_on pname String.compare).
Proof. intros x y. unfold cmp_on. apply String.compare_eq_iff. Qed.

Lemma flip_name_names : names_decide (cmp_flip (cmp_on pname String.compare)).
Proof. intros x y H. symmetry. by apply by_name_names. Qed.

Lemma policy_cmp_names policy snap resilience : names_decide (policy_cmp policy snap resilience).
Proof.
  destruct policy; simpl; repeat apply then_with_names; apply by_name_names.
Qed.

(* ------------------------------------------------------------------ *)
(** ** Candidates *)

(** The eligible providers, in configuration order. *)
Definition eligible_providers (providers : list Entry) (model : string)
  (pools : ModelPools.ModelPoolIndex) : list Entry :=
  filter (fun e => eligible (ModelPools.pool_for_public_model pools model) model e = true) providers.

Lemma for_policy_perm providers model policy snap pools resilience :
  candidate_providers_for_policy providers (Some model) policy snap pools resilience
  ≡ₚ eligible_providers providers model pools.
Proof. apply sort_by_perm. Qed.

(** Providers with distinct names give candidates with distinct names. *)
Lemma candidates_distinct providers model policy snap pools r i j a b :
  NoDup (map pname providers) -> (i < j)%nat ->
  candidate_providers_for_policy providers (Some model) policy snap pools r !! i = Some a ->
  candidate_providers_for_policy providers (Some model) policy snap pools r !! j = Some b ->
  pname a <> pname b.
Proof.
  intros Hnd Hij Ha Hb Hn.
  assert (NoDup (pname <$> candidate_providers_for_policy providers (Some model) policy snap pools r)) as Hd.
  { rewrite for_policy_perm. eapply sublist_NoDup; [exact Hnd|]. apply fmap_sublist, sublist_filter. }
  assert (i = j); [|lia]. eapply (NoDup_lookup _ i j (pname b) Hd); rewrite list_lookup_fmap.
  - by rewrite Ha, <-Hn.
  - by rewrite Hb.
Qed.

Lemma move_to_front_perm cands n : move_provider_to_front cands n ≡ₚ cands.
Proof.
  unfold move_provider_to_front. induction cands as [|e l IH]; [done|]. rewrite !filter_cons.
  destruct (decide (pname e = n)) as [He|He].
  - rewrite decide_False by tauto. simpl. by rewrite IH.
  - rewrite decide_True by done. rewrite <-Permutation_middle. by rewrite IH.
Qed.

Lemma move_to_front_head cands n :
  (exists e, e ∈ cands /\ pname e = n) ->
  exists e rest, move_provider_to_front cands n = e :: rest /\ pname e = n /\ e ∈ cands.
Proof.
  intros (e & He & Hn). unfold move_provider_to_front.
  destruct (filter (fun e => pname e = n) cands) as [|x l] eqn:E.
  - assert (e ∈ filter (fun e => pname e = n) cands) as H by by apply list_elem_of_filter.
    rewrite E in H. by apply elem_of_nil in H.
  - assert (x ∈ filter (fun e => pname e = n) cands) as H by (rewrite E; left).
    apply list_elem_of_filter in H as [Hx Hin]. exists x. eexists. by split.
Qed.

Lemma order_by_load_perm cands snap r : order_by_load_then_baseline cands snap r ≡ₚ cands.
Proof. apply sort_by_perm. Qed.

Lemma order_open_last_perm cands r : order_open_circuits_last cands r ≡ₚ cands.
Proof. apply sort_by_perm. Qed.

(** A sorted-by-health list with a healthy member starts with one. *)
Lemma order_open_last_head cands r :
  (exists e, e ∈ cands /\ is_open_circuit r e = false) ->
  exists e rest, order_open_circuits_last cands r = e :: rest /\ is_open_circuit r e = false.
Proof.
  intros (e & He & Hh). unfold order_open_circuits_last.
  destruct (sort_by _ cands) as [|x l] eqn:E.
  { apply sort_by_nil_iff in E as ->. by apply elem_of_nil in He. }
  exists x, l. split; [done|]. apply sort_by_head in E as [_ Hx]; [|apply _].
  specialize (Hx e He). unfold then_with, cmp_on in Hx. rewrite Hh in Hx.
  by destruct (is_open_circuit r x).
Qed.

Lemma is_open_circuit_name r e e' : pname e = pname e' -> is_open_circuit r e = is_open_circuit r e'.
Proof. intros H. unfold is_open_circuit. by rewrite H. Qed.

Lemma forallb_false {A} (f : A -> bool) l : forallb f l = false -> exists x, x ∈ l /\ f x = false.
Proof.
  induction l as [|a l IH]; simpl; [done|]. rewrite andb_false_iff. intros [H|H].
  - exists a. split; [left|done].
  - destruct (IH H) as (x & ? & ?). exists x. split; [by right|done].
Qed.

Section AffinityFacts.
Context (sha256 : list Z -> list Z) (C : Type -> Type) `{!LruOps C}.

Lemma affinity_order_perm now baseline eff snap r aff fp :
  candidates (fst (affinity_order sha256 C now baseline eff snap r aff fp)) ≡ₚ baseline.
Proof.
  unfold affinity_order. destruct (filter _ baseline); [apply order_open_last_perm|].
  destruct (PrefixAffinity.lookup _ _ _) as [idx prev].
  destruct (rendezvous_provider _ _ _); destruct prev as [p|]; simpl;
    repeat match goal with |- context [if ?b then _ else _] => destruct b end; simpl;
    auto using move_to_front_perm, order_open_last_perm, order_by_load_perm.
Qed.

Lemma with_affinity_perm now providers model policy snap pools r aff :
  candidates (fst (candidate_providers_with_affinity sha256 C now providers (Some model) policy
    snap pools r aff)) ≡ₚ eligible_providers providers model pools.
Proof.
  unfold candidate_providers_with_affinity. destruct (negb _); [apply for_policy_perm|].
  destruct aff as [aff|]; [|apply for_policy_perm].
  destruct (ModelPools.pool_for_public_model pools model) as [pool|] eqn:Epool; [|apply for_policy_perm].
  destruct (_ || _); [apply for_policy_perm|].
  destruct (PrefixFingerprint.fingerprint _) as [fp|]; [|apply for_policy_perm].
  pose proof (for_policy_perm providers model (fallback_policy (config C aff)) snap pools r) as Hp.
  destruct (candidate_providers_for_policy _ _ _ _ _ _) as [|e l] eqn:E; [done|].
  pose proof (affinity_order_perm now (e :: l)
    (effective_routing_policy (Some model) policy pools) snap r aff fp) as Ha.
  destruct (affinity_order _ _ _ _ _ _ _ _ _) as [sel idx]. simpl in *. by rewrite Ha.
Qed.

(** The reasons under which the first candidate is a healthy one. *)
Definition healthy_reason (why : string) : Prop :=
  why = "prefix_hit" \/ why = "prefix_miss" \/ why = "circuit_open".

Lemma affinity_order_head now baseline eff snap r aff fp :
  (exists e, e ∈ baseline /\ is_open_circuit r e = false) ->
  healthy_reason (reason (fst (affinity_order sha256 C now baseline eff snap r aff fp))) ->
  exists e rest, candidates (fst (affinity_order sha256 C now baseline eff snap r aff fp)) = e :: rest
    /\ is_open_circuit r e = false.
Proof.
  intros Hex. assert (forall e, e ∈ filter (fun e => is_open_circuit r e = false) baseline ->
    exists e' rest, move_provider_to_front baseline (pname e) = e' :: rest /\ is_open_circuit r e' = false) as Hfront.
  { intros e He. apply list_elem_of_filter in He as [Hh Hin].
    destruct (move_to_front_head baseline (pname e)) as (e' & rest & -> & Hn & _); [by eauto|].
    exists e', rest. split; [done|]. by rewrite (is_open_circuit_name r e' e). }
  unfold affinity_order. destruct (filter _ baseline) as [|h hs] eqn:Eh.
  { intros _. by apply order_open_last_head. }
  destruct (PrefixAffinity.lookup _ _ _) as [idx prev].
  assert (healthy_reason (reason (fst match rendezvous_provider sha256 fp (h :: hs) with
      | Some selected => ({| candidates := move_provider_to_front baseline (pname selected);
                             effective_policy := eff; reason := "prefix_miss" |}, idx)
      | None => ({| candidates := baseline; effective_policy := eff; reason := "fallback" |}, idx)
      end)) ->
    exists e rest, candidates (fst match rendezvous_provider sha256 fp (h :: hs) with
      | Some selected => ({| candidates := move_provider_to_front baseline (pname selected);
                             effective_policy := eff; reason := "prefix_miss" |}, idx)
      | None => ({| candidates := baseline; effective_policy := eff; reason := "fallback" |}, idx)
      end) = e :: rest /\ is_open_circuit r e = false) as Hmiss.
  { destruct (rendezvous_provider sha256 fp (h :: hs)) as [sel|] eqn:Er; simpl.
    - intros _. apply Hfront. exact (proj1 (max_by_spec (rendezvous_cmp sha256 fp) (h :: hs) sel Er)).
    - intros [?|[?|?]]; done. }
  destruct prev as [p|]; [|exact Hmiss].
  destruct (existsb _ baseline); [|exact Hmiss].
  destruct (forallb _ (h :: hs)) eqn:Ef; [intros _; by apply order_open_last_head|].
  destruct (provider_has_recent_errors snap p); [intros [?|[?|?]]; done|].
  destruct (load_within_threshold _ _ _ _); [|intros [?|[?|?]]; done]. intros _.
  apply forallb_false in Ef as (e & He & Hn). apply negb_false_iff, String.eqb_eq in Hn as <-. simpl.
  by apply Hfront.
Qed.

End AffinityFacts.

(** The winner of [max_by] in a part of the list that contains it. *)
Lemma max_by_sub (c : Entry -> Entry -> comparison) `{!TotalCmp c} l l' e :
  names_decide c -> NoDup (map pname l) -> (forall x, x ∈ l' -> x ∈ l) -> e ∈ l' ->
  max_by c l = Some e -> max_by c l' = Some e.
Proof.
  intros Hc Hnd Hsub He Hm. destruct (max_by_spec c l e Hm) as [Hin Hmax].
  destruct (max_by_is_some c l') as [e' He']; [by destruct l'; [apply elem_of_nil in He|]|].
  destruct (max_by_spec c l' e' He') as [Hin' Hmax']. rewrite He'. f_equal.
  apply (nodup_map_eq pname l); [done|auto..|]. apply Hc.
  pose proof (Hmax e' (Hsub _ Hin')) as H1. pose proof (Hmax' e He) as H2.
  rewrite (cmp_opp c e' e) in H2. by destruct (c e' e).
Qed.

(* ------------------------------------------------------------------ *)
(** ** Properties *)

(** C10: selection never loses, repeats or invents a provider: under every
    policy, and in every affinity case, the candidates are a rearrangement of
    the providers eligible for the model (the members of its pool, or without a
    pool those that serve it). *)
Theorem candidates_are_the_eligible sha256 C `{!LruOps C} now providers model policy snap pools r aff :
  candidates (fst (candidate_providers_with_affinity sha256 C now providers (Some model) policy
    snap pools r aff)) ≡ₚ eligible_providers providers model pools.
Proof. apply with_affinity_perm. Qed.

(** What each policy promises about two candidates, the first listed earlier:
    a smaller priority number first, and among equal ones the smaller name. *)
Definition listed_before (a b : Entry) : Prop :=
  Provider.priority a < Provider.priority b \/
  Provider.priority a = Provider.priority b /\ String.compare (pname a) (pname b) = Lt.

(** The number a policy minimises: nothing, the price of a thousand input and
    a thousand output tokens, or the latency score. *)
Definition minimised (policy : RoutingPolicy) (snap : option Metrics.MetricsSnapshot)
  (resilience : option Resilience.ResilienceRegistry) : option (Entry -> F64.t) :=
  match policy with
  | Priority | PrefixAffinity => None
  | Cost => Some (fun e => F64.add (Provider.cost_per_1k_input_tokens (Provider.pricing e))
                                   (Provider.cost_per_1k_output_tokens (Provider.pricing e)))
  | Latency => Some (fun e => provider_latency_score e snap resilience)
  end.

Definition ranked_before (number : option (Entry -> F64.t)) (a b : Entry) : Prop :=
  match number with
  | None => listed_before a b
  | Some f => F64.ltb (f b) (f a) = false /\ (f a = f b -> listed_before a b)
  end.

Lemma by_priority_then_name_listed a b :
  pname a <> pname b -> by_priority_then_name a b <> Gt -> listed_before a b.
Proof.
  intros Hn. unfold by_priority_then_name, then_with, cmp_on, listed_before.
  destruct (Z.compare_spec (Provider.priority a) (Provider.priority b)) as [->|?|?]; [|by left|done].
  intros Hc. right. split; [done|]. destruct (String.compare (pname a) (pname b)) eqn:E; try done.
  by apply String.compare_eq_iff in E.
Qed.

Lemma scored_ranked (f : Entry -> F64.t) a b :
  pname a <> pname b -> F64Facts.is_f64 (f a) -> F64Facts.is_f64 (f b) ->
  then_with (cmp_on f F64.total_cmp) by_priority_then_name a b <> Gt -> ranked_before (Some f) a b.
Proof.
  intros Hn Ha Hb Hc. unfold then_with, cmp_on in Hc. split.
  - apply F64Facts.total_cmp_ltb; [done..|]. by destruct (F64.total_cmp (f a) (f b)).
  - intros He. rewrite He in Hc. unfold F64.total_cmp in Hc. rewrite Z.compare_refl in Hc.
    by apply by_priority_then_name_listed.
Qed.

Lemma policy_cmp_ranked policy snap r a b :
  pname a <> pname b ->
  (forall f, minimised policy snap r = Some f -> F64Facts.is_f64 (f a) /\ F64Facts.is_f64 (f b)) ->
  policy_cmp policy snap r a b <> Gt -> ranked_before (minimised policy snap r) a b.
Proof.
  intros Hn Hf. destruct policy; cbn [policy_cmp minimised] in *;
    try (by apply by_priority_then_name_listed);
    (destruct (Hf _ eq_refl) as [Ha Hb]; by apply scored_ranked).
Qed.

(** C31: the order of the candidates is the policy's and not the order of the
    configuration.  For providers with distinct names, permuting the
    configuration changes nothing, and of two candidates the earlier one,
    under [priority] and under a plain [prefix_affinity], has the smaller
    priority number, or the same and the smaller name; under [cost] the later
    one is never cheaper per thousand tokens in and out, under [latency] it
    never has the smaller latency score, and identical numbers (the two zeros
    are not) fall back to priority and name.  The numbers compared are required to be binary64
    values, which an [f64] always is. *)
Theorem candidates_order_canonical providers providers' model policy snap pools r :
  providers ≡ₚ providers' -> NoDup (map pname providers) ->
  (forall f e, minimised policy snap r = Some f -> e ∈ providers -> F64Facts.is_f64 (f e)) ->
  let cands := candidate_providers_for_policy providers (Some model) policy snap pools r in
  cands = candidate_providers_for_policy providers' (Some model) policy snap pools r /\
  forall i j a b, (i < j)%nat -> cands !! i = Some a -> cands !! j = Some b ->
    ranked_before (minimised policy snap r) a b.
Proof.
  intros Hp Hnd Hf. simpl.
  assert (forall x, x ∈ candidate_providers_for_policy providers (Some model) policy snap pools r ->
    x ∈ providers) as Hin.
  { intros x Hx. rewrite for_policy_perm in Hx. by apply list_elem_of_filter in Hx as [_ Hx]. }
  split.
  - apply sort_by_perm_eq; [apply _|by rewrite Hp|]. intros x y Hx Hy Heq.
    apply list_elem_of_filter in Hx as [_ Hx], Hy as [_ Hy].
    apply (nodup_map_eq pname providers); [done..|]. by apply policy_cmp_names in Heq.
  - intros i j a b Hij Ha Hb.
    apply policy_cmp_ranked.
    + by apply (candidates_distinct providers model policy snap pools r i j).
    + intros f E. split; apply (Hf f); try done; apply Hin; by eapply list_elem_of_lookup_2.
    + by eapply (sort_by_lookup _ _ i j).
Qed.

(** Affinity does not send a request to an open circuit while a healthy
    candidate exists: for the outcomes prefix hit, prefix miss and circuit
    open, the first candidate's breaker is not open. *)
Theorem affinity_prefers_healthy sha256 C `{!LruOps C} now baseline eff snap r aff fp :
  (exists e, e ∈ baseline /\ is_open_circuit r e = false) ->
  healthy_reason (reason (fst (affinity_order sha256 C now baseline eff snap r aff fp))) ->
  exists e rest, candidates (fst (affinity_order sha256 C now baseline eff snap r aff fp)) = e :: rest
    /\ is_open_circuit r e = false.
Proof. apply affinity_order_head. Qed.

(** Rendezvous hashing is stable: when candidates other than the selected
    one disappear, or the list is reordered, the same provider is selected, so
    losing a replica only moves the prefixes that replica served. *)
Theorem rendezvous_stable sha256 fp cands cands' e :
  NoDup (map pname cands) -> (forall x, x ∈ cands' -> x ∈ cands) -> e ∈ cands' ->
  rendezvous_provider sha256 fp cands = Some e -> rendezvous_provider sha256 fp cands' = Some e.
Proof.
  intros Hnd Hsub He Hr. unfold rendezvous_provider in *. apply (max_by_sub _ cands); [|done..].
  apply then_with_names, flip_name_names.
Qed.

(** ** Witnesses: two replicas of one pool *)

Definition example_entry (n : string) (priority : Z) : Entry :=
  {| Provider.priority := priority;
     Provider.provider := {| Provider.name := n; Provider.model := "m";
                             Provider.supports_model := String.eqb "m" |};
     Provider.pricing := {| Provider.cost_per_1k_input_tokens := F64.zero;
                            Provider.cost_per_1k_output_tokens := F64.zero |} |}.

Definition example_sha256 (bytes : list Z) : list Z := [foldl Z.add 0 bytes mod 256].

Lemma example_names : NoDup (map pname [example_entry "b" 2; example_entry "a" 1]).
Proof. apply (bool_decide_unpack _). vm_compute. exact I. Qed.

(** Four replicas: [b] is the cheapest and has the worst priority; [a] and [c]
    cost the same and share a priority; [d] costs the same and is preferred. *)
Definition priced_entry (n : string) (priority input output : Z) : Entry :=
  {| Provider.priority := priority;
     Provider.provider := Provider.provider (example_entry n priority);
     Provider.pricing := {| Provider.cost_per_1k_input_tokens := F64.literal input 3;
                            Provider.cost_per_1k_output_tokens := F64.literal output 3 |} |}.

Definition priced : list Entry :=
  [priced_entry "c" 2 15 60; priced_entry "d" 1 15 60; priced_entry "a" 2 15 60; priced_entry "b" 9 1 2].

Definition ranked (policy : RoutingPolicy) : list Entry :=
  candidate_providers_for_policy priced (Some "m") policy None ModelPools.ModelPoolIndex_default None.

Lemma candidates_order_canonical_witness :
  (map pname (ranked Cost) = ["b"; "d"; "a"; "c"] /\ map pname (ranked Priority) = ["d"; "a"; "c"; "b"]) /\
  (ranked Cost = candidate_providers_for_policy (rev priced) (Some "m") Cost None
     ModelPools.ModelPoolIndex_default None /\
   forall i j a b, (i < j)%nat -> ranked Cost !! i = Some a -> ranked Cost !! j = Some b ->
     ranked_before (minimised Cost None None) a b).
Proof.
  split; [split; vm_compute; reflexivity|].
  apply (candidates_order_canonical priced (rev priced) "m" Cost None ModelPools.ModelPoolIndex_default None).
  - exact (Permutation_rev priced).
  - apply (bool_decide_unpack _). vm_compute. exact I.
  - intros f e [= <-] He.
    repeat (apply elem_of_cons in He as [->|He]; [vm_compute; reflexivity|]). by apply elem_of_nil in He.
Defined.

Definition example_affinity : PrefixAffinityRouting ref_lru :=
  {| index := PrefixAffinity.record 0 "fp" "b" (PrefixAffinity.empty PrefixAffinityConfig_default);
     config := PrefixAffinityConfig_default;
     req_fingerprint := {| PrefixFingerprint.fingerprint := Some "fp";
                           PrefixFingerprint.confidence := PrefixFingerprint.High;
                           PrefixFingerprint.prefix_char_length := 2;
                           PrefixFingerprint.prefix_token_estimate := 1 |} |}.

Lemma affinity_prefers_healthy_witness :
  exists e rest, candidates (fst (affinity_order example_sha256 ref_lru 1
      [example_entry "a" 1; example_entry "b" 2] PrefixAffinity None None example_affinity "fp"))
    = e :: rest /\ is_open_circuit None e = false.
Proof.
  apply affinity_prefers_healthy.
  - exists (example_entry "a" 1). split; [left|reflexivity].
  - left. vm_compute. reflexivity.
Defined.

Lemma rendezvous_stable_witness :
  rendezvous_provider example_sha256 "fp" [example_entry "b" 2] = Some (example_entry "b" 2).
Proof.
  apply (rendezvous_stable example_sha256 "fp" [example_entry "b" 2; example_entry "a" 1]).
  - exact example_names.
  - intros x Hx. apply list_elem_of_singleton in Hx as ->. left.
  - left.
  - vm_compute. reflexivity.
Defined.

End Strategy.
