(* ===== verification/Models.v ===== *)
(** * The model list (src/src/routes/models.rs)

    [GET /v1/models]: the models served directly, the public IDs of the pools
    and the aliases, and that each of them routes to the providers listed. *)
From S2P Require Import Prelude Str F64 Config ModelPools Chat Provider Resilience Metrics Lru.
From S2P Require Import PrefixFingerprint PrefixAffinity RuntimeSignals Strategy.

Open Scope string_scope.
Open Scope list_scope.
Open Scope Z_scope.

Module Models.

Definition MODEL_CREATED_AT : Z := 1700000000.

Record ModelResponse := {
  id : string;
  object : string;
  created : Z;
  owned_by : string;
  resolved_model : string;
  resp_providers : list string
}.

Definition model_response (i resolved : string) (ps : list string) : ModelResponse :=
  {| id := i; object := "model"; created := MODEL_CREATED_AT; owned_by := "rustygate";
     resolved_model := resolved; resp_providers := ps |}.

Section List_.
Context (providers : list Strategy.Entry) (pools : ModelPools.ModelPoolIndex)
  (aliases : gmap string string).

Definition add_provider (m : gmap string (gset string)) (e : Strategy.Entry) : gmap string (gset string) :=
  let model := Provider.model (Provider.provider e) in
  <[model := {[Strategy.pname e]} ∪ default ∅ (m !! model)]> m.

Definition providers_by_model : gmap string (gset string) := foldl add_provider ∅ providers.

(** [BTreeSet] iteration *)
Definition sorted_set (s : gset string) : list string := sort_by String.compare (elements s).

Definition should_hide (model : string) (names : gset string) : bool :=
  negb (bool_decide (names = ∅))
  && forallb (ModelPools.is_provider_in_any_pool pools) (sorted_set names)
  && negb (bool_decide (model ∈ ModelPools.public_model_ids pools))
  && negb (is_some (aliases !! model)).

Definition direct_models : list (string * gset string) :=
  filter (fun e => should_hide e.1 e.2 = false) (btree_items providers_by_model).

(** The three loops, with the list built so far and [seen_ids]. *)
Definition push_direct (acc : list ModelResponse * gset string) (e : string * gset string) :
  list ModelResponse * gset string :=
  let '(models, seen) := acc in
  (models ++ [model_response e.1 e.1 (sorted_set e.2)], {[e.1]} ∪ seen).

Definition push_pool (acc : list ModelResponse * gset string) (pool_model_id : string) :
  list ModelResponse * gset string :=
  let '(models, seen) := acc in
  match ModelPools.providers_for_model_id pools pool_model_id with
  | None => acc
  | Some ps =>
      if bool_decide (pool_model_id ∈ seen) then acc
      else (models ++ [model_response pool_model_id pool_model_id ps], {[pool_model_id]} ∪ seen)
  end.

Definition alias_providers (target : string) : option (list string) :=
  match providers_by_model !! target with
  | Some direct => Some (sorted_set direct)
  | None => ModelPools.providers_for_model_id pools target
  end.

Definition push_alias (acc : list ModelResponse * gset string) (e : string * string) :
  list ModelResponse * gset string :=
  let '(models, seen) := acc in
  if bool_decide (e.1 ∈ seen) then acc
  else
    let seen := {[e.1]} ∪ seen in
    match alias_providers e.2 with
    | Some ps => (models ++ [model_response e.1 e.2 ps], seen)
    | None => (models, seen)
    end.

Definition collected : list ModelResponse * gset string :=
  foldl push_alias (foldl push_pool (foldl push_direct ([], ∅) direct_models)
    (ModelPools.public_model_ids pools)) (btree_items aliases).

Definition list_models : list ModelResponse :=
  sort_by (cmp_on id String.compare) (fst collected).

End List_.

(* ------------------------------------------------------------------ *)
(** ** What the list promises *)

Section Facts.
Context (providers : list Strategy.Entry) (pools : ModelPools.ModelPoolIndex)
  (aliases : gmap string string).

Definition model_of (e : Strategy.Entry) : string := Provider.model (Provider.provider e).

(** Providers serve exactly their model, and public names do not clash: what
    configuration validation and the provider implementations guarantee. *)
Record catalog_ok : Prop := {
  exact_support : forall e x, e ∈ providers ->
    Provider.supports_model (Provider.provider e) x = String.eqb (model_of e) x;
  models_not_pools : forall e, e ∈ providers -> ModelPools.pool_for_public_model pools (model_of e) = None;
  models_not_aliases : forall e, e ∈ providers -> aliases !! model_of e = None;
  pools_not_aliases : forall i pool, ModelPools.pool_for_public_model pools i = Some pool -> aliases !! i = None;
  members_configured : forall i pool n, ModelPools.pool_for_public_model pools i = Some pool ->
    n ∈ ModelPools.members pool -> exists e, e ∈ providers /\ Strategy.pname e = n
}.

(** A listed model resolves, and its providers are those the router considers. *)
Definition routable (m : ModelResponse) : Prop :=
  resolved_model m = Strategy.resolve_model_alias aliases (id m) /\
  forall n, n ∈ resp_providers m <->
    n ∈ map Strategy.pname (Strategy.eligible_providers providers (resolved_model m) pools).

Definition listing_ok (acc : list ModelResponse * gset string) : Prop :=
  NoDup (map id acc.1) /\ Forall routable acc.1 /\ (forall m, m ∈ acc.1 -> id m ∈ acc.2) /\
  (forall i, i ∈ acc.2 -> i ∈ map id acc.1 \/
     exists t, aliases !! i = Some t /\ alias_providers providers pools t = None).

Lemma sorted_set_elem s n : n ∈ sorted_set s <-> n ∈ s.
Proof. unfold sorted_set. by rewrite sort_by_elem_of, elem_of_elements. Qed.

Lemma by_model_spec l x n : n ∈ default ∅ (foldl add_provider ∅ l !! x) <->
  exists e, e ∈ l /\ model_of e = x /\ Strategy.pname e = n.
Proof.
  induction l as [|e l IH] using rev_ind.
  { cbn [foldl]. rewrite lookup_empty. simpl. split; [set_solver|]. by intros (e & He%elem_of_nil & _). }
  rewrite foldl_app. cbn [foldl]. unfold add_provider. fold (model_of e).
  assert ((exists e0, e0 ∈ l ++ [e] /\ model_of e0 = x /\ Strategy.pname e0 = n) <->
    (model_of e = x /\ Strategy.pname e = n) \/ (exists e0, e0 ∈ l /\ model_of e0 = x /\ Strategy.pname e0 = n)) as ->
    by (setoid_rewrite elem_of_app; setoid_rewrite list_elem_of_singleton; naive_solver).
  rewrite <-IH. destruct (decide (model_of e = x)) as [<-|Hne].
  - rewrite lookup_insert, decide_True by done. simpl. set_solver.
  - rewrite lookup_insert_ne by done. naive_solver.
Qed.

Lemma by_model_some l x ns : foldl add_provider ∅ l !! x = Some ns ->
  exists e, e ∈ l /\ model_of e = x.
Proof.
  induction l as [|e l IH] using rev_ind; [cbn [foldl]; by rewrite lookup_empty|].
  rewrite foldl_app. cbn [foldl]. unfold add_provider. fold (model_of e).
  destruct (decide (model_of e = x)) as [<-|Hne].
  - intros _. exists e. split; [|done]. apply elem_of_app. right. by left.
  - rewrite lookup_insert_ne by done. intros (e' & Hin & Hm)%IH. exists e'. split; [|done].
    apply elem_of_app. by left.
Qed.

Lemma eligible_elem model n :
  n ∈ map Strategy.pname (Strategy.eligible_providers providers model pools) <->
  exists e, e ∈ providers /\ Strategy.pname e = n /\
    Strategy.eligible (ModelPools.pool_for_public_model pools model) model e = true.
Proof.
  unfold Strategy.eligible_providers. rewrite list_elem_of_fmap. setoid_rewrite list_elem_of_filter. naive_solver.
Qed.

Hypothesis Hcat : catalog_ok.

Lemma direct_eligible x ns : providers_by_model providers !! x = Some ns -> forall n,
  n ∈ ns <-> n ∈ map Strategy.pname (Strategy.eligible_providers providers x pools).
Proof.
  intros Hx n. destruct (by_model_some _ _ _ Hx) as (e0 & He0 & <-).
  rewrite eligible_elem, (models_not_pools Hcat) by done. cbn [Strategy.eligible].
  pose proof (by_model_spec providers (model_of e0) n) as Hs. fold (providers_by_model providers) in Hs.
  rewrite Hx in Hs. cbn [default] in Hs. simpl in Hs. rewrite Hs. split.
  - intros (e & He & Hm & Hn). exists e. rewrite (exact_support Hcat) by done. split; [done|].
    split; [done|]. by apply String.eqb_eq.
  - intros (e & He & Hn & Hm). rewrite (exact_support Hcat), String.eqb_eq in Hm by done. eauto.
Qed.

Lemma pool_eligible x ps : ModelPools.providers_for_model_id pools x = Some ps -> forall n,
  n ∈ ps <-> n ∈ map Strategy.pname (Strategy.eligible_providers providers x pools).
Proof.
  unfold ModelPools.providers_for_model_id, ModelPools.members_for_public_model.
  destruct (ModelPools.pool_for_public_model pools x) as [pool|] eqn:Ep; [|done]. intros [= <-] n.
  rewrite sort_by_elem_of, elem_of_elements, eligible_elem, Ep. cbn [Strategy.eligible].
  setoid_rewrite bool_decide_eq_true. split; [|naive_solver].
  intros Hn. destruct (members_configured Hcat _ _ _ Ep Hn) as (e & He & <-). eauto.
Qed.

Lemma pools_some x ps : ModelPools.providers_for_model_id pools x = Some ps -> aliases !! x = None.
Proof.
  unfold ModelPools.providers_for_model_id, ModelPools.members_for_public_model.
  destruct (ModelPools.pool_for_public_model pools x) as [pool|] eqn:Ep; [|done]. intros _.
  by eapply pools_not_aliases.
Qed.

Lemma unaliased x : aliases !! x = None -> Strategy.resolve_model_alias aliases x = x.
Proof. unfold Strategy.resolve_model_alias. by intros ->. Qed.

(** Adding an unseen, routable model. *)
Lemma push_ok models seen m : listing_ok (models, seen) -> id m ∉ seen -> routable m ->
  listing_ok (models ++ [m], {[id m]} ∪ seen).
Proof.
  intros (H1 & H2 & H3 & H4) Hid Hm. cbn [fst snd] in *. split; [|split; [|split]]; cbn [fst snd].
  - rewrite map_app. apply NoDup_app. split; [done|]. split; [|apply NoDup_singleton].
    intros x (m' & -> & Hin)%list_elem_of_fmap Hx%list_elem_of_singleton. apply Hid. rewrite <-Hx. by apply H3.
  - by apply Forall_app_2; [|constructor].
  - intros m' [Hin| ->%list_elem_of_singleton]%elem_of_app; [|set_solver]. apply elem_of_union_r. by apply H3.
  - intros i [->%elem_of_singleton|Hi]%elem_of_union; rewrite map_app, elem_of_app.
    + left. right. by left.
    + destruct (H4 i Hi); [left; by left|by right].
Qed.

Lemma push_direct_loop l acc : listing_ok acc -> NoDup (map fst l) ->
  Forall (fun e => e.1 ∉ acc.2 /\ routable (model_response e.1 e.1 (sorted_set e.2))) l ->
  listing_ok (foldl push_direct acc l).
Proof.
  revert acc. induction l as [|e l IH]; intros [models seen] Hacc Hnd Hl; [done|]. cbn [foldl push_direct].
  inversion Hnd as [|? ? Hn1 Hn2]; subst. inversion Hl as [|? ? [He1 He2] Hl2]; subst. cbn [fst snd] in *.
  apply IH; [by apply (push_ok _ _ (model_response _ _ _))|done|].
  apply Forall_forall. intros e' He'. rewrite Forall_forall in Hl2. destruct (Hl2 e' He') as [H1 H2]. split; [|done].
  cbn [snd]. intros [Heq%elem_of_singleton|]%elem_of_union; [|done]. destruct Hn1.
  change (e.1) with (fst e). rewrite <-Heq. by apply list_elem_of_fmap_2.
Qed.

Lemma push_pool_ok acc i : listing_ok acc -> listing_ok (push_pool pools acc i).
Proof.
  destruct acc as [models seen]. intros Hacc. unfold push_pool.
  destruct (ModelPools.providers_for_model_id pools i) as [ps|] eqn:Ep; [|done].
  case_bool_decide; [done|]. apply (push_ok _ _ (model_response i i ps)); [done|done|].
  split; cbn [resolved_model resp_providers id model_response].
  - symmetry. by eapply unaliased, pools_some.
  - by apply pool_eligible.
Qed.

Lemma alias_eligible t ps : alias_providers providers pools t = Some ps -> forall n,
  n ∈ ps <-> n ∈ map Strategy.pname (Strategy.eligible_providers providers t pools).
Proof.
  unfold alias_providers. destruct (providers_by_model providers !! t) as [ns|] eqn:E; [|apply pool_eligible].
  intros [= <-] n. rewrite sorted_set_elem. by apply direct_eligible.
Qed.

Lemma push_alias_ok acc e : aliases !! e.1 = Some e.2 -> listing_ok acc ->
  listing_ok (push_alias providers pools acc e).
Proof.
  destruct acc as [models seen]. intros Ha Hacc. unfold push_alias. case_bool_decide as Hs; [done|].
  destruct (alias_providers providers pools e.2) as [ps|] eqn:Ep.
  - apply (push_ok _ _ (model_response e.1 e.2 ps)); [done|done|].
    split; cbn [resolved_model resp_providers id model_response]; [|by apply alias_eligible].
    unfold Strategy.resolve_model_alias. by rewrite Ha.
  - destruct Hacc as (H1 & H2 & H3 & H4). split; [done|]. split; [done|]. cbn [fst snd] in *. split.
    + intros m Hm. apply elem_of_union_r. by apply H3.
    + intros i [->%elem_of_singleton|Hi]%elem_of_union; [right; by eauto|by apply H4].
Qed.

Lemma foldl_listing {A : Type} (f : list ModelResponse * gset string -> A -> list ModelResponse * gset string) l acc :
  (forall acc x, x ∈ l -> listing_ok acc -> listing_ok (f acc x)) -> listing_ok acc -> listing_ok (foldl f acc l).
Proof.
  revert acc. induction l as [|x l IH]; intros acc Hf Hacc; [done|]. cbn [foldl].
  apply IH; [intros; apply Hf; [by right|done]|]. apply Hf; [by left|done].
Qed.

Lemma foldl_seen {A : Type} (f : list ModelResponse * gset string -> A -> list ModelResponse * gset string) l acc :
  (forall acc x, acc.2 ⊆ (f acc x).2) -> acc.2 ⊆ (foldl f acc l).2.
Proof.
  intros Hf. revert acc. induction l as [|x l IH]; intros acc; [done|]. cbn [foldl].
  etrans; [apply Hf|apply IH].
Qed.

Lemma foldl_reaches {A : Type} (f : list ModelResponse * gset string -> A -> list ModelResponse * gset string) l acc x i :
  (forall acc x, acc.2 ⊆ (f acc x).2) -> x ∈ l -> (forall acc, i ∈ (f acc x).2) -> i ∈ (foldl f acc l).2.
Proof.
  intros Hf Hx Hi. revert acc. induction l as [|y l IH]; intros acc; [by apply elem_of_nil in Hx|]. cbn [foldl].
  apply elem_of_cons in Hx as [<-|Hx]; [|by apply IH]. by apply (foldl_seen f l (f acc x)), Hi.
Qed.

Lemma push_pool_seen acc i : acc.2 ⊆ (push_pool pools acc i).2.
Proof. clear Hcat. destruct acc. unfold push_pool. repeat case_match; set_solver. Qed.

Lemma push_alias_seen acc e : acc.2 ⊆ (push_alias providers pools acc e).2.
Proof. clear Hcat. destruct acc. unfold push_alias. repeat case_match; set_solver. Qed.

Lemma collected_ok : listing_ok (collected providers pools aliases).
Proof.
  unfold collected. apply foldl_listing; [intros acc e He; by apply push_alias_ok, btree_elem|].
  apply foldl_listing; [intros; by apply push_pool_ok|].
  apply push_direct_loop.
  - split; [constructor|]. split; [constructor|]. split; [by intros ? ?%elem_of_nil|set_solver].
  - unfold direct_models. eapply sublist_NoDup; [apply (btree_keys (providers_by_model providers))|].
    apply fmap_sublist, sublist_filter.
  - apply Forall_forall. intros e [_ He%btree_elem]%list_elem_of_filter. split; [set_solver|].
    split; cbn [resolved_model resp_providers id model_response].
    + symmetry. apply unaliased. destruct (by_model_some _ _ _ He) as (e0 & He0 & <-). by apply Hcat.
    + intros n. rewrite sorted_set_elem. by apply direct_eligible.
Qed.

End Facts.

(** Sorting by distinct ids is strict. *)
Lemma strictly_sorted l : NoDup (map id l) ->
  StronglySorted (fun a b => String.compare (id a) (id b) = Lt) (sort_by (cmp_on id String.compare) l).
Proof.
  intros Hnd. pose proof (sort_by_sorted (cmp_on id String.compare) l) as Hs.
  assert (NoDup (map id (sort_by (cmp_on id String.compare) l))) as Hnd' by by rewrite sort_by_perm.
  revert Hs Hnd'. generalize (sort_by (cmp_on id String.compare) l) as l'. intros l'.
  induction 1 as [|x l' Hs IH Hx]; intros Hn; [constructor|]. inversion Hn as [|? ? Hn1 Hn2]; subst.
  constructor; [by apply IH|]. rewrite Forall_forall in Hx |- *. intros y Hy. specialize (Hx y Hy).
  unfold cmp_on in Hx. destruct (String.compare (id x) (id y)) eqn:E; [|done|done].
  apply String.compare_eq_iff in E. destruct Hn1. rewrite E. by apply list_elem_of_fmap_2.
Qed.

(** The model list is right: ids come in ascending order without
    repetition, each listed id resolves to the model shown and its providers
    are exactly those the router considers for a request with that id, and
    every pool id and every alias of a served model is listed. *)
Theorem listed_models_routable providers pools aliases :
  catalog_ok providers pools aliases ->
  let data := list_models providers pools aliases in
  StronglySorted (fun a b => String.compare (id a) (id b) = Lt) data /\
  Forall (routable providers pools aliases) data /\
  (forall i ps, i ∈ ModelPools.public_model_ids pools ->
     ModelPools.providers_for_model_id pools i = Some ps -> i ∈ map id data) /\
  (forall a t ps, aliases !! a = Some t -> alias_providers providers pools t = Some ps -> a ∈ map id data).
Proof.
  intros Hcat data. destruct (collected_ok _ _ _ Hcat) as (H1 & H2 & _ & H4).
  assert (data ≡ₚ fst (collected providers pools aliases)) as Hperm by apply sort_by_perm.
  split; [by apply strictly_sorted|]. split; [by rewrite Hperm|].
  assert (forall i, i ∈ (collected providers pools aliases).2 -> (forall t, aliases !! i = Some t ->
    alias_providers providers pools t <> None) -> i ∈ map id data) as Hin.
  { intros i Hi Hno. rewrite Hperm. destruct (H4 i Hi) as [|(t & Ht & Hp)]; [done|]. by destruct (Hno t Ht). }
  split.
  - intros i ps Hi Hp. apply Hin; [|intros t; by rewrite (pools_some providers _ _ Hcat _ _ Hp)].
    apply foldl_seen; [apply push_alias_seen|]. apply (foldl_reaches _ _ _ i i); [apply push_pool_seen|done|].
    intros [models seen]. unfold push_pool. rewrite Hp. case_bool_decide; set_solver.
  - intros a t ps Ha Hp. apply Hin; [|intros t'; rewrite Ha; intros [= <-]; by rewrite Hp].
    apply (foldl_reaches _ _ _ (a, t) a); [apply push_alias_seen|by apply btree_elem|].
    intros [models seen]. unfold push_alias. cbn [fst snd]. rewrite Hp. case_bool_decide; set_solver.
Qed.

(** Two providers behind a pool, one served directly, and an alias. *)
Definition example_entry (n m : string) : Strategy.Entry :=
  {| Provider.priority := 1;
     Provider.provider := {| Provider.name := n; Provider.model := m;
                             Provider.supports_model := String.eqb m |};
     Provider.pricing := {| Provider.cost_per_1k_input_tokens := F64.zero;
                            Provider.cost_per_1k_output_tokens := F64.zero |} |}.
Definition example_providers : list Strategy.Entry :=
  [example_entry "a" "m1"; example_entry "b" "m1"; example_entry "c" "m2"].
Definition example_pools : ModelPools.ModelPoolIndex :=
  ModelPools.from_configs [{| Config.pool_name := "team"; Config.pool_aliases := [];
                              Config.pool_routing_policy := None; Config.pool_members := ["a"; "b"];
                              Config.pool_max_in_flight := None |}].

Lemma listed_models_routable_witness :
  map id (list_models example_providers example_pools {["fast" := "team"]}) = ["fast"; "m2"; "team"] /\
  Forall (routable example_providers example_pools {["fast" := "team"]})
    (list_models example_providers example_pools {["fast" := "team"]}).
Proof.
  split; [vm_compute; reflexivity|].
  apply (listed_models_routable example_providers example_pools {["fast" := "team"]}).
  assert (forall i pool, ModelPools.pool_for_public_model example_pools i = Some pool ->
    i = "team" /\ ModelPools.members pool = {["a"; "b"]}) as Hpool.
  { intros i pool. unfold ModelPools.pool_for_public_model.
    change (ModelPools.pool_by_public_model_id example_pools) with ({["team" := "team"]} : gmap string string).
    destruct (decide (i = "team")) as [->|Hne]; [|by rewrite lookup_singleton_ne].
    intros Hp. split; [done|]. vm_compute in Hp. injection Hp as <-. reflexivity. }
  split.
  - intros e x [->|[->|[->|[]%elem_of_nil]%elem_of_cons]%elem_of_cons]%elem_of_cons; reflexivity.
  - intros e [->|[->|[->|[]%elem_of_nil]%elem_of_cons]%elem_of_cons]%elem_of_cons; vm_compute; reflexivity.
  - intros e [->|[->|[->|[]%elem_of_nil]%elem_of_cons]%elem_of_cons]%elem_of_cons; vm_compute; reflexivity.
  - intros i pool [-> _]%Hpool. vm_compute. reflexivity.
  - intros i pool n [_ Hm]%Hpool Hn. rewrite Hm in Hn. apply elem_of_union in Hn as [->%elem_of_singleton| ->%elem_of_singleton].
    + exists (example_entry "a" "m1"). split; [by left|reflexivity].
    + exists (example_entry "b" "m1"). split; [by right; left|reflexivity].
Defined.

End Models.
