(* ===== verification/Fallback.v ===== *)
(** * Retries and fallback (src/src/routing/fallback.rs)

    [complete_chat] and [complete_chat_stream]: choose candidates, skip those
    whose breaker or admission limit refuses, call the others with retries and
    backoff, and report every attempt.

    The registries the function shares with other requests are the [World].
    A provider call, the next event of a stream and a backoff sleep are points
    where the task waits: what the provider answers there, how long it takes
    and what other requests do to the world meanwhile are arguments of the
    model ([chat_completion], [chat_completion_stream], [stream_next],
    [sleep]), functions of the call number and the world.  Tracing spans are
    left out. *)
From S2P Require Import Prelude Str F64 Config ModelPools Chat Provider Resilience Admission Metrics.
From S2P Require Import Lru PrefixFingerprint PrefixAffinity Strategy.

Open Scope string_scope.
Open Scope list_scope.
Open Scope Z_scope.

Module Fallback.

Inductive RetryDecision := TryNextProvider | Stop.

Definition fallback_decision (e : Provider.ProviderError) : RetryDecision :=
  match e with
  | Provider.Timeout | Provider.RateLimited | Provider.ProviderUnavailable => TryNextProvider
  | Provider.AuthenticationFailed | Provider.ProviderBadResponse => Stop
  end.

(** ** Backoff *)

(** [retry_attempt as u64 * 17] cannot overflow; [jitter_ms + 1] wraps in a
    release build, and the remainder by zero that follows panics ([None]). *)
Definition deterministic_jitter_ms (provider_name : string) (retry_attempt jitter_ms : Z) : option Z :=
  if jitter_ms =? 0 then Some 0
  else
    let byte_sum := foldl u64_sat_add 0 (Str.bytes provider_name) in
    let modulus := u64_add jitter_ms 1 in
    if modulus =? 0 then None
    else Some (u64_sat_add byte_sum (retry_attempt * 17) mod modulus).

Definition retry_backoff (policy : Resilience.RetryPolicy) (retry_attempt : Z)
  (provider_name : string) : option Z :=
  let base := u64_sat_mul (Resilience.initial_backoff_ms policy)
                (u64_sat_pow 2 (sat_sub retry_attempt 1)) in
  let capped := Z.min base (Z.max (Resilience.max_backoff_ms policy)
                              (Resilience.initial_backoff_ms policy)) in
  (fun jitter => from_millis (u64_sat_add capped jitter)) <$>
    deterministic_jitter_ms provider_name retry_attempt (Resilience.jitter_ms policy).

(** ** Request preparation *)

Definition request_for_provider (request : Chat.ChatCompletionRequest) (provider_model : string) :
  Chat.ChatCompletionRequest :=
  {| Chat.req_model := Some provider_model; Chat.messages := Chat.messages request;
     Chat.temperature := Chat.temperature request; Chat.max_tokens := Chat.max_tokens request;
     Chat.stream := Chat.stream request; Chat.tools := Chat.tools request;
     Chat.tool_choice := Chat.tool_choice request;
     Chat.parallel_tool_calls := Chat.parallel_tool_calls request;
     Chat.response_format := Chat.response_format request |}.

Definition provider_load_estimate (request : Chat.ChatCompletionRequest) :
  Metrics.ProviderLoadEstimate :=
  {| Metrics.load_prompt_tokens := Chat.estimate_tokens_for_messages (Chat.messages request);
     Metrics.max_completion_tokens := Chat.max_tokens request |}.

(** ** Results *)

Record FallbackSuccess := {
  response : Chat.ChatCompletionResponse;
  succ_provider_name : string;
  cost_estimate : Provider.CostEstimate;
  estimated_cost_usd : F64.t;
  attempts : list Metrics.ProviderAttempt
}.

Inductive FallbackError :=
| NoProviderAvailable
| AdmissionRejected (r : Admission.AdmissionRejection)
| ProviderFailed (error : Provider.ProviderError) (attempts : list Metrics.ProviderAttempt).

Section Routing.
Context (C : Type -> Type) `{!LruOps C}.

(** The shared state: circuit breakers, admission counters, metrics, the
    prefix index, and the clock. *)
Record World := {
  resilience : Resilience.ResilienceRegistry;
  admission : Admission.AdmissionController;
  metrics : mutex Metrics.MetricsRegistry;
  prefix_index : PrefixAffinity.PrefixAffinityIndex C;
  now : Z
}.

Definition set_resilience (r : Resilience.ResilienceRegistry) (w : World) : World :=
  {| resilience := r; admission := admission w; metrics := metrics w;
     prefix_index := prefix_index w; now := now w |}.
Definition set_admission (a : Admission.AdmissionController) (w : World) : World :=
  {| resilience := resilience w; admission := a; metrics := metrics w;
     prefix_index := prefix_index w; now := now w |}.
Definition set_metrics (m : mutex Metrics.MetricsRegistry) (w : World) : World :=
  {| resilience := resilience w; admission := admission w; metrics := m;
     prefix_index := prefix_index w; now := now w |}.
Definition set_prefix_index (i : PrefixAffinity.PrefixAffinityIndex C) (w : World) : World :=
  {| resilience := resilience w; admission := admission w; metrics := metrics w;
     prefix_index := i; now := now w |}.

(** [if let Ok(mut metrics) = metrics.lock() { f(&mut metrics) }] *)
Definition with_metrics (f : Metrics.MetricsRegistry -> Metrics.MetricsRegistry) (w : World) :
  World :=
  match metrics w with
  | Unpoisoned m => set_metrics (Unpoisoned (f m)) w
  | Poisoned => w
  end.

Record FallbackContext := {
  providers : list Strategy.Entry;
  model_pools : ModelPools.ModelPoolIndex;
  routing_policy : Config.RoutingPolicy;
  prefix_affinity : Config.PrefixAffinityConfig;
  metrics_snapshot : option Metrics.MetricsSnapshot
}.

(** ** Bookkeeping *)

Definition record_routing_decision (policy : Config.RoutingPolicy) (why : string) (w : World) :
  World :=
  with_metrics (Metrics.record_routing_decision (Config.RoutingPolicy_as_str policy) why) w.

Definition record_prefix_fingerprint (fp : PrefixFingerprint.PrefixFingerprintResult) (w : World) :
  World :=
  let outcome := if PrefixFingerprint.is_high_confidence fp then "hit" else "miss" in
  with_metrics (Metrics.record_prefix_fingerprint outcome) w.

Definition record_prefix_affinity_selection (fp : PrefixFingerprint.PrefixFingerprintResult)
  (provider_name : string) (effective_policy : Config.RoutingPolicy) (w : World) : World :=
  if bool_decide (effective_policy = Config.PrefixAffinity)
     && PrefixFingerprint.is_high_confidence fp
  then match PrefixFingerprint.fingerprint fp with
       | Some fingerprint =>
           set_prefix_index
             (PrefixAffinity.record (now w) fingerprint provider_name (prefix_index w)) w
       | None => w
       end
  else w.

Definition allow_provider_call (provider_name : string) (w : World) : World * bool :=
  let '(allowed, r) := Resilience.allow_provider_call (now w) provider_name (resilience w) in
  (set_resilience r w, allowed).

Definition record_success (provider_name : string) (w : World) : World :=
  set_resilience (Resilience.record_success provider_name (resilience w)) w.

Definition record_failure (provider_name : string) (w : World) : World :=
  set_resilience (Resilience.record_failure (now w) provider_name (resilience w)) w.

Definition acquire_provider (provider_name : string) (w : World) :
  World * result Admission.AdmissionGuard Admission.AdmissionRejection :=
  let '(a, r) := Admission.try_acquire_provider (admission w) provider_name in
  (set_admission a w, r).

Definition drop_admission (g : Admission.AdmissionGuard) (w : World) : World :=
  set_admission (Admission.drop_guard (admission w) g) w.

Definition new_in_flight (provider_name : string) (request : Chat.ChatCompletionRequest) (w : World) :
  World * Metrics.ProviderInFlightGuard :=
  let '(m, g) := Metrics.in_flight_guard_new (metrics w) provider_name
                   (provider_load_estimate request) in
  (set_metrics m w, g).

Definition drop_in_flight (g : Metrics.ProviderInFlightGuard) (w : World) : World :=
  set_metrics (Metrics.in_flight_guard_drop (metrics w) g) w.

Definition attempt (provider_name : string) (order latency_ms : Z) (ok fallback : bool)
  (category : option Metrics.ProviderErrorCategory) : Metrics.ProviderAttempt :=
  {| Metrics.att_provider_name := provider_name; Metrics.attempt_order := order;
     Metrics.att_latency_ms := latency_ms; Metrics.success := ok;
     Metrics.is_fallback := fallback; Metrics.error_category := category |}.

Definition failed_attempt (provider_name : string) (order latency_ms : Z) (fallback : bool)
  (e : Provider.ProviderError) : Metrics.ProviderAttempt :=
  attempt provider_name order latency_ms false fallback (Some (Metrics.provider_error_category e)).

(** ** The environment *)

Variable to_vec : PrefixFingerprint.CanonicalPrefix -> option (list Z).
Variable sha256 : list Z -> list Z.
(** A backoff sleep of the given duration. *)
Variable sleep : Z -> World -> World.

(** What the retry loop of one candidate ends with: the function returns and
    drops the candidate's admission guard, or hands that guard out with its
    result, or goes on to the next candidate with the last retryable error. *)
Inductive Flow (A : Type) :=
| Return (r : A)
| ReturnWithGuard (r : A)
| NextCandidate (last_retryable_error : option Provider.ProviderError)
| Panic.
Arguments Return {A} r.
Arguments ReturnWithGuard {A} r.
Arguments NextCandidate {A} last_retryable_error.
Arguments Panic {A}.

(** The local variables that survive an iteration. *)
Record Loop := { world : World; trail : list Metrics.ProviderAttempt; order : Z }.

(** [Err(error)] of an attempt: record it, then retry after a backoff, move
    on, or return.  [again] is the next iteration; the in-flight guard lives to
    the end of the iteration, past the sleep. *)
Definition on_error {A : Type} (fail : Provider.ProviderError -> list Metrics.ProviderAttempt -> A)
  (retry_policy : Resilience.RetryPolicy) (provider_name : string) (is_fallback : bool)
  (retry_attempt latency_ms next_order : Z) (guard : Metrics.ProviderInFlightGuard)
  (error : Provider.ProviderError) (st : Loop) (w : World) (again : Loop -> Loop * Flow A) :
  Loop * Flow A :=
  let trail' := trail st ++ [failed_attempt provider_name next_order latency_ms is_fallback error] in
  let leave w := {| world := drop_in_flight guard w; trail := trail'; order := next_order |} in
  match fallback_decision error with
  | TryNextProvider =>
      if retry_attempt <? Resilience.max_retries retry_policy
      then
        match retry_backoff retry_policy (retry_attempt + 1) provider_name with
        | Some backoff => again (leave (sleep backoff w))
        | None => (leave w, Panic)
        end
      else (leave (record_failure provider_name w), NextCandidate (Some error))
  | Stop => (leave w, Return (fail error trail'))
  end.

(** The loop over the candidates, the same text in both functions; [index]
    counts them from 0, and [try_candidate is_last] is the retry loop. *)
Section Candidates.
Context {A : Type} (fail : FallbackError -> A).
Variable try_candidate : bool -> Strategy.Entry -> Resilience.RetryPolicy -> bool ->
  Admission.AdmissionGuard -> Loop -> Loop * Flow A.

Fixpoint candidate_loop (index : nat) (cands : list Strategy.Entry)
  (effective_policy : Config.RoutingPolicy) (rejection : option Admission.AdmissionRejection)
  (st : Loop) : World * option A :=
  match cands with
  | [] =>
      (world st, Some (fail match rejection with
                            | Some r => AdmissionRejected r
                            | None => NoProviderAvailable
                            end))
  | entry :: rest =>
      let provider_name := Strategy.pname entry in
      let is_last := match rest with [] => true | _ => false end in
      let '(w, allowed) := allow_provider_call provider_name (world st) in
      if negb allowed
      then candidate_loop (S index) rest effective_policy rejection
             {| world := record_routing_decision effective_policy "circuit_open" w;
                trail := trail st; order := order st |}
      else
        let '(w, admitted) := acquire_provider provider_name w in
        match admitted with
        | Err r =>
            candidate_loop (S index) rest effective_policy (Some r)
              {| world := w; trail := trail st; order := order st |}
        | Ok admission_guard =>
            let retry_policy := Resilience.retry
              (Resilience.policy_for (resilience w) provider_name) in
            let is_fallback := (0 <? index)%nat in
            let w := if is_fallback then record_routing_decision effective_policy "fallback" w
                     else w in
            let '(st, flow) := try_candidate is_last entry retry_policy is_fallback admission_guard
              {| world := w; trail := trail st; order := order st |} in
            let dropped := {| world := drop_admission admission_guard (world st);
                              trail := trail st; order := order st |} in
            match flow with
            | Return r => (world dropped, Some r)
            | ReturnWithGuard r => (world st, Some r)
            | Panic => (world dropped, None)
            | NextCandidate (Some error) =>
                if is_last then (world dropped, Some (fail (ProviderFailed error (trail st))))
                else candidate_loop (S index) rest effective_policy rejection dropped
            | NextCandidate None =>
                candidate_loop (S index) rest effective_policy rejection dropped
            end
        end
  end.

End Candidates.

(** Everything before the loop: fingerprint, selection, and its metrics. *)
Definition route (context : FallbackContext) (request : Chat.ChatCompletionRequest) (w : World) :
  World * PrefixFingerprint.PrefixFingerprintResult * list Strategy.Entry * Config.RoutingPolicy :=
  let fp := PrefixFingerprint.fingerprint_request to_vec sha256 request in
  let w := record_prefix_fingerprint fp w in
  let '(selection, idx) :=
    Strategy.candidate_providers_with_affinity sha256 C (now w) (providers context)
      (Chat.req_model request) (routing_policy context) (metrics_snapshot context)
      (model_pools context) (Some (resilience w))
      (Some (Strategy.Build_PrefixAffinityRouting C (prefix_index w) (prefix_affinity context) fp)) in
  let w := set_prefix_index (default (prefix_index w) idx) w in
  let w := record_routing_decision (Strategy.effective_policy selection)
             (Strategy.reason selection) w in
  (w, fp, Strategy.candidates selection, Strategy.effective_policy selection).

(** ** Chat completion *)

Section Completion.
Variable chat_completion : nat -> Strategy.Entry -> Chat.ChatCompletionRequest -> World ->
  result Chat.ChatCompletionResponse Provider.ProviderError * World.

Definition Outcome : Type := result FallbackSuccess FallbackError.

(** The loop [for retry_attempt in 0..=max_retries]: [remaining] iterations
    are left after this one. *)
Fixpoint retry_loop (remaining : nat) (retry_attempt : Z) (entry : Strategy.Entry)
  (retry_policy : Resilience.RetryPolicy) (is_fallback : bool)
  (effective_policy : Config.RoutingPolicy) (fp : PrefixFingerprint.PrefixFingerprintResult)
  (request : Chat.ChatCompletionRequest) (st : Loop) : Loop * Flow Outcome :=
  let provider_name := Strategy.pname entry in
  let next_order := u32_sat_add (order st) 1 in
  let started := now (world st) in
  let '(w, guard) := new_in_flight provider_name request (world st) in
  let '(answer, w) := chat_completion (length (trail st)) entry
    (request_for_provider request (Provider.model (Provider.provider entry))) w in
  let latency_ms := Metrics.elapsed_ms (now w) started in
  match answer with
  | Ok response =>
      let trail' := trail st ++ [attempt provider_name next_order latency_ms true is_fallback None] in
      let w := record_success provider_name w in
      let w := record_routing_decision effective_policy "selected" w in
      let w := record_prefix_affinity_selection fp provider_name effective_policy w in
      let cost := Provider.estimate_cost (Provider.pricing entry)
                    (Chat.prompt_tokens (Chat.resp_usage response))
                    (Chat.completion_tokens (Chat.resp_usage response)) in
      ({| world := drop_in_flight guard w; trail := trail'; order := next_order |},
       Return (Ok {| response := response; succ_provider_name := provider_name;
                     cost_estimate := cost; estimated_cost_usd := Provider.total_cost_usd cost;
                     attempts := trail' |}))
  | Err error =>
      on_error (fun e trail => Err (ProviderFailed e trail)) retry_policy provider_name is_fallback
        retry_attempt latency_ms next_order guard error st w
        (fun st => match remaining with
                   | S n => retry_loop n (retry_attempt + 1) entry retry_policy is_fallback
                              effective_policy fp request st
                   | O => (st, NextCandidate (Some error)) (* not reached: no retry is left *)
                   end)
  end.

(** [complete_chat]; [None] stands for a panic. *)
Definition complete_chat (context : FallbackContext) (request : Chat.ChatCompletionRequest)
  (w : World) : World * option Outcome :=
  let '(w, fp, cands, effective) := route context request w in
  match cands with
  | [] => (w, Some (Err NoProviderAvailable))
  | _ =>
      candidate_loop Err
        (fun _ entry policy is_fallback _ st =>
           retry_loop (Z.to_nat (Resilience.max_retries policy)) 0 entry policy is_fallback
             effective fp request st)
        0 cands effective None {| world := w; trail := []; order := 0 |}
  end.

End Completion.

(** ** Streaming *)

Section Streaming.
(** A provider's stream and its next event. *)
Variable Stream : Type.
Variable chat_completion_stream : nat -> Strategy.Entry -> Chat.ChatCompletionRequest -> World ->
  result (Provider.ProviderStreamContext * Stream) Provider.ProviderError * World.
Variable stream_next : Stream -> World ->
  option (result Provider.ProviderStreamEvent Provider.ProviderError) * Stream * World.

Record StreamingFallbackSuccess := {
  str_context : Provider.ProviderStreamContext;
  first_event : Provider.ProviderStreamEvent;
  str_stream : Stream;
  str_provider_name : string;
  str_pricing : Provider.ProviderPricing;
  str_attempts : list Metrics.ProviderAttempt;
  in_flight_guard : Metrics.ProviderInFlightGuard;
  admission_guard : Admission.AdmissionGuard
}.

Definition StreamOutcome : Type := result StreamingFallbackSuccess FallbackError.

Fixpoint stream_retry_loop (remaining : nat) (retry_attempt : Z) (is_last : bool)
  (entry : Strategy.Entry) (retry_policy : Resilience.RetryPolicy) (is_fallback : bool)
  (guard_of_candidate : Admission.AdmissionGuard) (effective_policy : Config.RoutingPolicy)
  (fp : PrefixFingerprint.PrefixFingerprintResult) (request : Chat.ChatCompletionRequest)
  (last_retryable_error : option Provider.ProviderError) (st : Loop) : Loop * Flow StreamOutcome :=
  let provider_name := Strategy.pname entry in
  let next_order := u32_sat_add (order st) 1 in
  let started := now (world st) in
  let again error st :=
    match remaining with
    | S n => stream_retry_loop n (retry_attempt + 1) is_last entry retry_policy is_fallback
               guard_of_candidate effective_policy fp request (Some error) st
    | O => (st, NextCandidate (Some error)) (* not reached: no retry is left *)
    end in
  let '(w, guard) := new_in_flight provider_name request (world st) in
  let '(answer, w) := chat_completion_stream (length (trail st)) entry
    (request_for_provider request (Provider.model (Provider.provider entry))) w in
  match answer with
  | Ok (context, stream) =>
      let '(first, stream, w) := stream_next stream w in
      let latency_ms := Metrics.elapsed_ms (now w) started in
      match first with
      | Some (Ok event) =>
          let w := with_metrics (Metrics.record_provider_ttft provider_name latency_ms) w in
          let trail' :=
            trail st ++ [attempt provider_name next_order latency_ms true is_fallback None] in
          let w := record_success provider_name w in
          let w := record_routing_decision effective_policy "selected" w in
          let w := record_prefix_affinity_selection fp provider_name effective_policy w in
          ({| world := w; trail := trail'; order := next_order |},
           ReturnWithGuard (Ok {| str_context := context; first_event := event; str_stream := stream;
                                  str_provider_name := provider_name;
                                  str_pricing := Provider.pricing entry; str_attempts := trail';
                                  in_flight_guard := guard;
                                  admission_guard := guard_of_candidate |}))
      | Some (Err error) =>
          on_error (fun e trail => Err (ProviderFailed e trail)) retry_policy provider_name
            is_fallback retry_attempt latency_ms next_order guard error st w (again error)
      | None =>
          let error := Provider.ProviderBadResponse in
          let trail' := trail st ++
            [failed_attempt provider_name next_order latency_ms is_fallback error] in
          let st := {| world := drop_in_flight guard w; trail := trail'; order := next_order |} in
          if is_last then (st, Return (Err (ProviderFailed error trail')))
          else (st, NextCandidate last_retryable_error)
      end
  | Err error =>
      let latency_ms := Metrics.elapsed_ms (now w) started in
      on_error (fun e trail => Err (ProviderFailed e trail)) retry_policy provider_name is_fallback
        retry_attempt latency_ms next_order guard error st w (again error)
  end.

(** [complete_chat_stream]; [None] stands for a panic. *)
Definition complete_chat_stream (context : FallbackContext)
  (request : Chat.ChatCompletionRequest) (w : World) : World * option StreamOutcome :=
  let '(w, fp, cands, effective) := route context request w in
  match cands with
  | [] => (w, Some (Err NoProviderAvailable))
  | _ =>
      candidate_loop Err
        (fun is_last entry policy is_fallback guard st =>
           stream_retry_loop (Z.to_nat (Resilience.max_retries policy)) 0 is_last entry policy
             is_fallback guard effective fp request None st)
        0 cands effective None {| world := w; trail := []; order := 0 |}
  end.

End Streaming.

(* ------------------------------------------------------------------ *)
(** ** Policies *)

(** The retry policies in force do not change while a request is handled. *)
Definition policy_of (w : World) (p : string) : Resilience.RetryPolicy :=
  Resilience.retry (Resilience.policy_for (resilience w) p).
Definition same_policies (w w' : World) : Prop := forall p, policy_of w' p = policy_of w p.

(** No configured jitter is [u64::MAX], for which the backoff panics. *)
Definition jitters_ok (w : World) : Prop :=
  forall p, 0 <= Resilience.jitter_ms (policy_of w p) < u64_max.

Lemma same_policies_refl w : same_policies w w.
Proof. done. Qed.

Lemma same_policies_trans w1 w2 w3 : same_policies w1 w2 -> same_policies w2 w3 -> same_policies w1 w3.
Proof. intros H1 H2 p. by rewrite H2, H1. Qed.

Lemma policy_of_step w r ev :
  r = Resilience.step (resilience w) ev -> same_policies w (set_resilience r w).
Proof. intros -> p. unfold policy_of. simpl. by rewrite Resilience.step_policy. Qed.

Lemma allow_same_policies n w : same_policies w (fst (allow_provider_call n w)).
Proof.
  unfold allow_provider_call. destruct (Resilience.allow_provider_call _ _ _) as [b r] eqn:E.
  apply (policy_of_step w r (now w, Resilience.OpAllow n)). simpl. by rewrite E.
Qed.

Lemma success_same_policies n w : same_policies w (record_success n w).
Proof. by apply (policy_of_step w _ (now w, Resilience.OpSuccess n)). Qed.

Lemma failure_same_policies n w : same_policies w (record_failure n w).
Proof. by apply (policy_of_step w _ (now w, Resilience.OpFailure n)). Qed.

Lemma with_metrics_resilience f w : resilience (with_metrics f w) = resilience w.
Proof. unfold with_metrics. by destruct (metrics w). Qed.

Lemma with_metrics_admission f w : admission (with_metrics f w) = admission w.
Proof. unfold with_metrics. by destruct (metrics w). Qed.

Lemma metrics_same_policies f w : same_policies w (with_metrics f w).
Proof. intros p. unfold with_metrics. by destruct (metrics w). Qed.

Lemma acquire_same_policies n w : same_policies w (fst (acquire_provider n w)).
Proof. intros p. unfold acquire_provider. by destruct (Admission.try_acquire_provider _ _). Qed.

Lemma selection_same_policies fp n pol w : same_policies w (record_prefix_affinity_selection fp n pol w).
Proof.
  intros p. unfold record_prefix_affinity_selection. destruct (_ && _); [|done].
  by destruct (PrefixFingerprint.fingerprint fp).
Qed.

(** With it there is no backoff: the retry panics instead of sleeping. *)
Lemma max_jitter_has_no_backoff pol k n : Resilience.jitter_ms pol = u64_max -> retry_backoff pol k n = None.
Proof. intros Hj. unfold retry_backoff, deterministic_jitter_ms. by rewrite Hj. Qed.

Lemma backoff_some pol k n : 0 <= Resilience.jitter_ms pol < u64_max -> is_Some (retry_backoff pol k n).
Proof.
  intros Hj. unfold retry_backoff, deterministic_jitter_ms.
  destruct (Resilience.jitter_ms pol =? 0); [by eexists|].
  rewrite u64_add_small by (unfold u64_max in *; lia).
  destruct (_ =? 0) eqn:E; [zbool; lia|]. by eexists.
Qed.

Definition Hsleep_ok : Prop := forall d w, same_policies w (sleep d w).

Lemma route_same_policies context request w :
  same_policies w (fst (fst (fst (route context request w)))).
Proof.
  unfold route. destruct (Strategy.candidate_providers_with_affinity _ _ _ _ _ _ _ _ _ _) as [sel idx].
  intros p. simpl. etrans; [apply metrics_same_policies|]. apply (metrics_same_policies _ w p).
Qed.

Lemma route_affinity context request w :
  resilience (fst (fst (fst (route context request w)))) = resilience w /\
  admission (fst (fst (fst (route context request w)))) = admission w.
Proof.
  unfold route. destruct (Strategy.candidate_providers_with_affinity _ _ _ _ _ _ _ _ _ _) as [sel idx].
  simpl. unfold record_routing_decision. rewrite with_metrics_resilience, with_metrics_admission. simpl.
  unfold record_prefix_fingerprint. by rewrite with_metrics_resilience, with_metrics_admission.
Qed.

(* ------------------------------------------------------------------ *)
(** ** Admission slots are given back *)

(** The counters of a controller in use: entries are positive, limits fit. *)
Definition admission_wf (c : Admission.AdmissionController) : Prop :=
  (forall p n, Admission.provider_max_in_flight (Admission.limits c) !! p = Some n -> n <= u64_max) /\
  forall k, Admission.counters c = Unpoisoned k ->
    map_Forall (fun _ v => 1 <= v) (Admission.provider_in_flight k).

Lemma count_add_sub (m : gmap string Z) p :
  map_Forall (fun _ v => 1 <= v) m -> default 0 (m !! p) < u64_max ->
  sub_or_remove p 1 (count_add p 1 m) = m.
Proof.
  intros Hm Hlt. unfold sub_or_remove, count_add. rewrite lookup_insert_eq.
  destruct (m !! p) as [v|] eqn:E; simpl in *.
  - assert (1 <= v) by by apply (Hm p). rewrite u64_add_small by lia. unfold sat_sub.
    destruct (_ =? 0) eqn:E0; zbool; [lia|]. rewrite insert_insert_eq.
    rewrite insert_id; [done|]. rewrite E. f_equal. lia.
  - simpl. by rewrite delete_insert_id.
Qed.

Lemma acquire_then_drop c n c' g :
  admission_wf c -> Admission.try_acquire_provider c n = (c', Ok g) -> Admission.drop_guard c' g = c.
Proof.
  intros [Hlim Hwf]. unfold Admission.try_acquire_provider.
  destruct (Admission.provider_max_in_flight (Admission.limits c) !! n) as [limit|] eqn:El.
  - destruct (Admission.counters c) as [k|] eqn:Ek; simpl; [|done].
    destruct (_ <=? _) eqn:Elt; [done|]. zbool. intros [= <- <-].
    unfold Admission.drop_guard, Admission.finish. cbn -[sub_or_remove count_add].
    unfold Admission.decrement_or_remove. rewrite count_add_sub; [|by apply Hwf|specialize (Hlim _ _ El); lia].
    destruct c as [l cs]. simpl in *. subst cs. by destruct k.
  - intros [= <- <-]. unfold Admission.drop_guard, Admission.finish, Admission.release. simpl.
    destruct c as [l [k|]]; simpl; [|done]. by destruct k.
Qed.

Lemma acquire_error_same c n c' r : Admission.try_acquire_provider c n = (c', Err r) -> c' = c.
Proof.
  unfold Admission.try_acquire_provider. destruct (_ !! n); [|done].
  destruct (lock _); [|by intros [= <- _]]. destruct (_ <=? _); by intros [= <- _].
Qed.

(** Waiting leaves the admission counters alone (no other request runs). *)
Definition sleep_quiet : Prop := forall d w, admission (sleep d w) = admission w.

Section Release.
Context {A : Type} (fail : FallbackError -> A) (owned : A -> option Admission.AdmissionGuard).
Variable try_candidate : bool -> Strategy.Entry -> Resilience.RetryPolicy -> bool ->
  Admission.AdmissionGuard -> Loop -> Loop * Flow A.
Hypothesis fail_owns_nothing : forall e, owned (fail e) = None.
Hypothesis try_quiet : forall is_last entry pol fb guard st,
  let r := try_candidate is_last entry pol fb guard st in
  admission (world (fst r)) = admission (world st) /\
  match snd r with
  | Return o => owned o = None
  | ReturnWithGuard o => owned o = Some guard
  | _ => True
  end.

(** The controller once the guard in the result, if any, is dropped. *)
Definition after_drop (w : World) (o : option A) : Admission.AdmissionController :=
  match o ≫= owned with
  | Some g => Admission.drop_guard (admission w) g
  | None => admission w
  end.

Lemma after_drop_owned_none w o : (forall a, owned a = None) -> after_drop w o = admission w.
Proof. intros H. unfold after_drop. destruct o as [a|]; simpl; [by rewrite H|done]. Qed.

Lemma candidate_loop_releases index cands eff rejection st :
  admission_wf (admission (world st)) ->
  let r := candidate_loop fail try_candidate index cands eff rejection st in
  after_drop (fst r) (snd r) = admission (world st).
Proof.
  revert index rejection st. induction cands as [|entry rest IH]; intros index rejection st Hwf;
    cbn [candidate_loop]; cbv zeta.
  { unfold after_drop. simpl. by rewrite fail_owns_nothing. }
  unfold allow_provider_call. destruct (Resilience.allow_provider_call _ _ _) as [allowed r1].
  destruct allowed; simpl negb; cbv iota.
  2:{ etrans; [apply IH|]; simpl; unfold record_routing_decision; by rewrite with_metrics_admission. }
  unfold acquire_provider. simpl admission.
  destruct (Admission.try_acquire_provider (admission (world st)) _) as [c' [guard|rej]] eqn:Ea.
  2:{ apply acquire_error_same in Ea as ->. etrans; [by apply IH|done]. }
  apply acquire_then_drop in Ea as Hd; [|done].
  match goal with |- context [try_candidate ?a ?b ?c ?d ?e ?f] =>
    pose proof (try_quiet a b c d e f) as Hq; destruct (try_candidate a b c d e f) as [st' flow] end.
  cbv zeta in Hq. simpl fst in Hq. simpl snd in Hq. destruct Hq as [Hq Ho].
  assert (admission (world st') = c') as Hc'.
  { rewrite Hq. destruct (0 <? index)%nat; [|done]. simpl. unfold record_routing_decision.
    by rewrite with_metrics_admission. }
  assert (forall idx rej, after_drop
      (fst (candidate_loop fail try_candidate idx rest eff rej
        {| world := drop_admission guard (world st'); trail := trail st'; order := order st' |}))
      (snd (candidate_loop fail try_candidate idx rest eff rej
        {| world := drop_admission guard (world st'); trail := trail st'; order := order st' |}))
    = admission (world st)) as Hrec.
  { intros idx rej. etrans; [apply IH|]; cbn [world drop_admission set_admission admission]; by rewrite Hc', Hd. }
  destruct flow as [o|o|[e|]|].
  - unfold after_drop. cbn. rewrite Ho. cbn. by rewrite Hc'.
  - unfold after_drop. cbn. rewrite Ho. by rewrite Hc'.
  - destruct rest as [|e' rest]; [|apply Hrec].
    unfold after_drop. cbn. rewrite fail_owns_nothing. cbn. by rewrite Hc'.
  - apply Hrec.
  - unfold after_drop. cbn. by rewrite Hc'.
Qed.

End Release.

Lemma on_error_quiet {A} (fail : Provider.ProviderError -> list Metrics.ProviderAttempt -> A)
  (R : Flow A -> Prop) pol n fb k lat ord guard error st w again :
  sleep_quiet -> (forall e l, R (Return (fail e l))) -> (forall e, R (NextCandidate e)) -> R Panic ->
  (forall st', admission (world (fst (again st'))) = admission (world st') /\ R (snd (again st'))) ->
  let r := on_error fail pol n fb k lat ord guard error st w again in
  admission (world (fst r)) = admission w /\ R (snd r).
Proof.
  intros Hs Hf Hn Hp Ha. unfold on_error. destruct (fallback_decision error); [|split; [done|apply Hf]].
  destruct (_ <? _); [|split; [done|apply Hn]].
  destruct (retry_backoff _ _ _) as [d|]; [|split; [done|exact Hp]].
  destruct (Ha {| world := drop_in_flight guard (sleep d w); order := ord;
    trail := trail st ++ [failed_attempt n ord lat fb error] |}) as [H1 H2].
  split; [|done]. rewrite H1. simpl. apply Hs.
Qed.

Lemma selection_admission fp n pol w : admission (record_prefix_affinity_selection fp n pol w) = admission w.
Proof.
  unfold record_prefix_affinity_selection. destruct (_ && _); [|done].
  by destruct (PrefixFingerprint.fingerprint fp).
Qed.

Lemma new_in_flight_admission n req w : admission (fst (new_in_flight n req w)) = admission w.
Proof. done. Qed.

(** The flows of a non-streaming candidate hand out no guard. *)
Definition no_guard (f : Flow Outcome) : Prop :=
  match f with ReturnWithGuard _ => False | _ => True end.

Section Quiet.
Variable chat_completion : nat -> Strategy.Entry -> Chat.ChatCompletionRequest -> World ->
  result Chat.ChatCompletionResponse Provider.ProviderError * World.
Hypothesis sleep_is_quiet : sleep_quiet.
Hypothesis call_is_quiet : forall i e r w, admission (snd (chat_completion i e r w)) = admission w.

Lemma retry_loop_quiet remaining k entry pol fb eff fp req st :
  let r := retry_loop chat_completion remaining k entry pol fb eff fp req st in
  admission (world (fst r)) = admission (world st) /\ no_guard (snd r).
Proof.
  revert k st. induction remaining as [|m IH]; intros k st; cbn [retry_loop].
  all: destruct (new_in_flight (Strategy.pname entry) req (world st)) as [w1 guard] eqn:Eg.
  all: assert (admission w1 = admission (world st)) as Hw1
    by (pose proof (new_in_flight_admission (Strategy.pname entry) req (world st)) as H;
        by rewrite Eg in H).
  all: match goal with |- context [chat_completion ?a ?b ?c ?d] =>
    pose proof (call_is_quiet a b c d) as Hcall; destruct (chat_completion a b c d) as [answer w2] end.
  all: simpl in Hcall; rewrite <-Hw1, <-Hcall.
  all: destruct answer as [resp|error].
  all: try (split; [|done]; simpl; rewrite selection_admission; unfold record_routing_decision;
    by rewrite with_metrics_admission).
  all: by apply on_error_quiet.
Qed.

End Quiet.

Section StreamQuiet.
Variable Stream : Type.
Variable call : nat -> Strategy.Entry -> Chat.ChatCompletionRequest -> World ->
  result (Provider.ProviderStreamContext * Stream) Provider.ProviderError * World.
Variable next : Stream -> World ->
  option (result Provider.ProviderStreamEvent Provider.ProviderError) * Stream * World.
Hypothesis sleep_is_quiet : sleep_quiet.
Hypothesis call_is_quiet : forall i e r w, admission (snd (call i e r w)) = admission w.
Hypothesis next_is_quiet : forall s w, admission (snd (next s w)) = admission w.

Lemma stream_retry_loop_quiet remaining k is_last entry pol fb guard eff fp req last st :
  let r := stream_retry_loop Stream call next remaining k is_last entry pol fb guard eff fp req last st in
  admission (world (fst r)) = admission (world st) /\
  match snd r with
  | Return o => match o with Ok _ => False | Err _ => True end
  | ReturnWithGuard o => match o with Ok s => admission_guard Stream s = guard | Err _ => False end
  | _ => True
  end.
Proof.
  revert k last st. induction remaining as [|m IH]; intros k last st; cbn [stream_retry_loop].
  all: destruct (new_in_flight (Strategy.pname entry) req (world st)) as [w1 g] eqn:Eg.
  all: assert (admission w1 = admission (world st)) as Hw1
    by (pose proof (new_in_flight_admission (Strategy.pname entry) req (world st)) as H;
        by rewrite Eg in H).
  all: match goal with |- context [call ?a ?b ?c ?d] =>
    pose proof (call_is_quiet a b c d) as Hcall; destruct (call a b c d) as [answer w2] end.
  all: simpl in Hcall; rewrite <-Hw1, <-Hcall.
  all: destruct answer as [[ctx str]|error].
  all: try (match goal with |- context [next ?a ?b] =>
      pose proof (next_is_quiet a b) as Hnext; destruct (next a b) as [[[[event|error]|] str'] w3] end;
    simpl in Hnext; rewrite <-Hnext).
  all: try (split; [|done]; simpl; rewrite selection_admission; unfold record_routing_decision;
    rewrite with_metrics_admission; simpl; by rewrite with_metrics_admission).
  all: try (by destruct is_last).
  all: apply (on_error_quiet _ (fun f => match f with
    | Return o => match o with Ok _ => False | Err _ => True end
    | ReturnWithGuard o => match o with Ok s => admission_guard Stream s = guard | Err _ => False end
    | _ => True end)); try done; intros st'; apply IH.
Qed.

End StreamQuiet.

End Routing.

(* ------------------------------------------------------------------ *)
(** ** Properties *)

(** The admission guard inside a stream result. *)
Definition owned_guard (Stream : Type) (o : StreamOutcome Stream) : option Admission.AdmissionGuard :=
  match o with Ok s => Some (admission_guard Stream s) | Err _ => None end.

Lemma complete_chat_admission C `{!LruOps C} to_vec sha256 sleep call context request w :
  admission_wf (admission C w) -> sleep_quiet C sleep ->
  (forall i e r w, admission C (snd (call i e r w)) = admission C w) ->
  admission C (fst (complete_chat C to_vec sha256 sleep call context request w)) = admission C w.
Proof.
  intros Hwf Hs Hc. destruct (route_affinity C to_vec sha256 context request w) as [_ Hr].
  unfold complete_chat. destruct (route C to_vec sha256 context request w) as [[[w1 fp] cands] eff]. simpl in Hr.
  destruct cands as [|e l]; [done|]. rewrite <-Hr.
  match goal with |- admission C (fst ?r) = _ =>
    etrans; [symmetry; apply (after_drop_owned_none C (A := Outcome) (fun _ => None) (fst r) (snd r)); done|] end.
  apply (candidate_loop_releases C (A := Outcome) Err (fun _ => None)); [done| |simpl; by rewrite Hr].
  intros is_last entry pol fb guard st.
  destruct (retry_loop_quiet C sleep call Hs Hc (Z.to_nat (Resilience.max_retries pol)) 0 entry pol fb eff fp
    request st) as [H1 H2]. cbv zeta. split; [done|]. by destruct (snd _).
Qed.

Lemma complete_chat_stream_admission C `{!LruOps C} to_vec sha256 sleep Stream scall next context request w :
  admission_wf (admission C w) -> sleep_quiet C sleep ->
  (forall i e r w, admission C (snd (scall i e r w)) = admission C w) ->
  (forall s w, admission C (snd (next s w)) = admission C w) ->
  let r := complete_chat_stream C to_vec sha256 sleep Stream scall next context request w in
  after_drop C (owned_guard Stream) (fst r) (snd r) = admission C w.
Proof.
  intros Hwf Hs Hsc Hn. destruct (route_affinity C to_vec sha256 context request w) as [_ Hr].
  unfold complete_chat_stream. destruct (route C to_vec sha256 context request w) as [[[w1 fp] cands] eff]. simpl in Hr.
  destruct cands as [|e l]; [done|]. rewrite <-Hr.
  apply (candidate_loop_releases C (A := StreamOutcome Stream) Err (owned_guard Stream));
    [done| |simpl; by rewrite Hr].
  intros is_last entry pol fb guard st.
  destruct (stream_retry_loop_quiet C sleep Stream scall next Hs Hsc Hn
    (Z.to_nat (Resilience.max_retries pol)) 0 is_last entry pol fb guard eff fp request None st) as [H1 H2].
  cbv zeta. split; [done|]. destruct (snd _) as [[s|e']|[s|e']|?|]; simpl in *; try done. by rewrite H2.
Qed.

(** C6: provider admission slots never leak: with no other request running, a
    chat request leaves the admission controller exactly as it found it, on
    every path; a streaming request does so once the guard it handed out with
    its stream is dropped, and a failed one at once. *)
Theorem admission_slots_returned C `{!LruOps C} to_vec sha256 sleep Stream call scall next context request w :
  admission_wf (admission C w) -> sleep_quiet C sleep ->
  (forall i e r w, admission C (snd (call i e r w)) = admission C w) ->
  (forall i e r w, admission C (snd (scall i e r w)) = admission C w) ->
  (forall s w, admission C (snd (next s w)) = admission C w) ->
  admission C (fst (complete_chat C to_vec sha256 sleep call context request w)) = admission C w /\
  let r := complete_chat_stream C to_vec sha256 sleep Stream scall next context request w in
  after_drop C (owned_guard Stream) (fst r) (snd r) = admission C w.
Proof.
  intros Hwf Hs Hc Hsc Hn. split; [by apply complete_chat_admission|by apply complete_chat_stream_admission].
Qed.

(** Retry backoff is exponential, capped and jittered within bounds: before
    retry [k] the gateway sleeps at least [min (initial * 2^(k-1)) max]
    milliseconds and at most the configured jitter longer, so never more than
    [max + jitter]. *)
Theorem retry_backoff_bounds pol k n :
  let initial := Resilience.initial_backoff_ms pol in
  let max := Resilience.max_backoff_ms pol in
  let jitter := Resilience.jitter_ms pol in
  0 < initial <= max -> 0 <= jitter < u64_max -> max + jitter <= u64_max -> 1 <= k ->
  exists ms, retry_backoff pol k n = Some (from_millis ms) /\
    Z.min (initial * 2 ^ (k - 1)) max <= ms <= Z.min (initial * 2 ^ (k - 1)) max + jitter.
Proof.
  cbv zeta. intros Hi Hj Hmj Hk. unfold retry_backoff.
  assert (exists j, deterministic_jitter_ms n k (Resilience.jitter_ms pol) = Some j /\
    0 <= j <= Resilience.jitter_ms pol) as (j & -> & Hj').
  { unfold deterministic_jitter_ms. destruct (Resilience.jitter_ms pol =? 0) eqn:E; [exists 0; split; [done|lia]|].
    rewrite u64_add_small by (unfold u64_max in *; lia).
    destruct (Resilience.jitter_ms pol + 1 =? 0) eqn:E'; [zbool; lia|].
    eexists. split; [reflexivity|]. match goal with |- 0 <= ?x mod ?y <= _ => pose proof (Z.mod_pos_bound x y) end. lia. }
  cbn [fmap option_fmap option_map]. eexists. split; [reflexivity|].
  assert (1 <= 2 ^ (k - 1)) by (apply (Z.pow_le_mono_r 2 0); lia).
  assert (Resilience.initial_backoff_ms pol <= Resilience.initial_backoff_ms pol * 2 ^ (k - 1)) by nia.
  assert (Z.min (u64_sat_mul (Resilience.initial_backoff_ms pol) (u64_sat_pow 2 (sat_sub k 1)))
    (Z.max (Resilience.max_backoff_ms pol) (Resilience.initial_backoff_ms pol))
    = Z.min (Resilience.initial_backoff_ms pol * 2 ^ (k - 1)) (Resilience.max_backoff_ms pol)) as ->.
  { unfold u64_sat_mul, u64_sat_pow, sat_sub. rewrite Z.max_r by lia. rewrite (Z.max_l (Resilience.max_backoff_ms pol)) by lia.
    destruct (Z.le_gt_cases (2 ^ (k - 1)) u64_max).
    - rewrite (Z.min_r u64_max (2 ^ (k - 1))) by lia. lia.
    - rewrite (Z.min_l u64_max (2 ^ (k - 1))) by lia. nia. }
  unfold u64_sat_add. lia.
Qed.


(* ------------------------------------------------------------------ *)
(** ** A concrete world: two providers, "a" before "b", no retries *)

Definition demo_policy : Resilience.ProviderResiliencePolicy :=
  {| Resilience.retry := {| Resilience.max_retries := 0; Resilience.initial_backoff_ms := 100;
                            Resilience.max_backoff_ms := 2000; Resilience.jitter_ms := 50 |};
     Resilience.timeout_ms := None;
     Resilience.breaker := {| Resilience.failure_threshold := 1;
                                      Resilience.open_duration_ms := 1000;
                                      Resilience.half_open_max_probes := 1 |} |}.

Definition demo_registry : Resilience.ResilienceRegistry := Resilience.new demo_policy ∅ [].

Definition demo_world (r : Resilience.ResilienceRegistry) (now : Z) : World ref_lru :=
  Build_World ref_lru r Admission.disabled (Unpoisoned Metrics.MetricsRegistry_default)
    (PrefixAffinity.empty Config.PrefixAffinityConfig_default) now.

Definition demo_context : FallbackContext :=
  {| providers := [Strategy.example_entry "a" 1; Strategy.example_entry "b" 2];
     model_pools := ModelPools.ModelPoolIndex_default; routing_policy := Config.Priority;
     prefix_affinity := Config.PrefixAffinityConfig_default; metrics_snapshot := None |}.

Definition demo_request : Chat.ChatCompletionRequest :=
  {| Chat.req_model := Some "m"; Chat.messages := []; Chat.temperature := None;
     Chat.max_tokens := None; Chat.stream := None; Chat.tools := None; Chat.tool_choice := None;
     Chat.parallel_tool_calls := None; Chat.response_format := None |}.

Definition demo_sleep (d : Z) (w : World ref_lru) : World ref_lru :=
  Build_World ref_lru (resilience ref_lru w) (admission ref_lru w) (metrics ref_lru w)
    (prefix_index ref_lru w) (now ref_lru w + d).

(** A provider that fails with [e], except "b", which answers when [b_ok]. *)
Definition demo_call (e : Provider.ProviderError) (b_ok : bool) (k : nat) (entry : Strategy.Entry)
  (request : Chat.ChatCompletionRequest) (w : World ref_lru) :
  result Chat.ChatCompletionResponse Provider.ProviderError * World ref_lru :=
  (if b_ok && String.eqb (Strategy.pname entry) "b"
   then Ok (Chat.placeholder 0 7 "m" "b") else Err e, demo_sleep (from_millis 5) w).

Definition demo_stream_call (k : nat) (entry : Strategy.Entry)
  (request : Chat.ChatCompletionRequest) (w : World ref_lru) :
  result (Provider.ProviderStreamContext * list Provider.ProviderStreamEvent) Provider.ProviderError
    * World ref_lru :=
  (Ok ({| Provider.response_id := 7; Provider.ctx_created := 0; Provider.ctx_model := "m" |},
       [Provider.Completed Chat.TokenUsage_default]), w).

Definition demo_next (s : list Provider.ProviderStreamEvent) (w : World ref_lru) :
  option (result Provider.ProviderStreamEvent Provider.ProviderError)
    * list Provider.ProviderStreamEvent * World ref_lru :=
  (Ok <$> head s, tail s, w).

Definition demo_to_vec (c : PrefixFingerprint.CanonicalPrefix) : option (list Z) := Some [].

Definition demo_chat (e : Provider.ProviderError) (b_ok : bool) (w : World ref_lru) :=
  complete_chat ref_lru demo_to_vec Strategy.example_sha256 demo_sleep (demo_call e b_ok)
    demo_context demo_request w.

Lemma demo_jitters : jitters_ok ref_lru (demo_world demo_registry 0).
Proof.
  intros p. unfold policy_of, Resilience.policy_for, demo_world, demo_registry. simpl.
  rewrite lookup_empty. split; vm_compute; [discriminate|reflexivity].
Qed.

Lemma admission_slots_returned_witness :
  admission ref_lru (fst (demo_chat Provider.Timeout false (demo_world demo_registry 0)))
  = Admission.disabled.
Proof.
  apply (admission_slots_returned ref_lru demo_to_vec Strategy.example_sha256 demo_sleep
    (list Provider.ProviderStreamEvent) (demo_call Provider.Timeout false) demo_stream_call demo_next
    demo_context demo_request (demo_world demo_registry 0)).
  - split; simpl; [intros p n; by rewrite lookup_empty|]. intros k [= <-]. apply map_Forall_empty.
  - intros d w. reflexivity.
  - intros i e r w. reflexivity.
  - intros i e r w. reflexivity.
  - intros s w. reflexivity.
Defined.

Lemma retry_backoff_bounds_witness :
  exists ms, retry_backoff (Resilience.retry demo_policy) 3 "a" = Some (from_millis ms) /\ 400 <= ms <= 450.
Proof.
  apply (retry_backoff_bounds (Resilience.retry demo_policy) 3 "a"); vm_compute; try (split; discriminate || reflexivity);
    discriminate || reflexivity.
Defined.

(** A half-open breaker can get stuck: when the probe's call fails with an
    error that is not retried (here an authentication failure), the request
    returns without telling the breaker, which stays half open with its only
    probe used and from then on refuses every call, at any later time. *)
Theorem failed_probe_blocks_provider :
  exists w, Resilience.circuit_state (resilience ref_lru w) "a" = Resilience.Open /\
  let w' := fst (demo_chat Provider.AuthenticationFailed false w) in
  Resilience.circuit_state (resilience ref_lru w') "a" = Resilience.HalfOpen /\
  forall later, Resilience.allow_provider_call later "a" (resilience ref_lru w')
                = (false, resilience ref_lru w').
Proof.
  exists (demo_world (Resilience.record_failure 0 "a" demo_registry) (from_millis 5000)).
  split; [vm_compute; reflexivity|]. cbv zeta. split; [vm_compute; reflexivity|].
  intros later. vm_compute. reflexivity.
Qed.

(** Attempts can be lost: when the first candidate is called and fails
    (its breaker opens) and the remaining one is skipped because its breaker is
    open, the client is told that no provider is available, and the failed
    attempt and its error are not reported. *)
Theorem attempts_lost_when_rest_skipped :
  exists w, Resilience.circuit_state (resilience ref_lru w) "a" = Resilience.Closed /\
  let '(w', o) := demo_chat Provider.Timeout true w in
  o = Some (Err NoProviderAvailable) /\
  Resilience.circuit_state (resilience ref_lru w') "a" = Resilience.Open.
Proof.
  exists (demo_world (Resilience.record_failure 0 "b" demo_registry) 1).
  split; [vm_compute; reflexivity|]. vm_compute. split; reflexivity.
Qed.

End Fallback.
