(* ===== verification/Rounds.v ===== *)
(** * What a request goes through (src/src/routing/fallback.rs)

    An abstract account of [complete_chat] and [complete_chat_stream], against
    which both are proved.  Every candidate is one round: its breaker refuses
    it, its admission limit refuses it, or it is called and gives a list of
    answers.  [play] says which rounds can follow each other and what is asked
    of the breakers, the admission limits and the providers on the way, in
    which order and after which backoff; [verdict] says what the caller is then
    told.  Metrics and the prefix index, which no decision of the loops depends
    on, are left out of the account. *)
From S2P Require Import Prelude Str F64 Config ModelPools Chat Provider Resilience Admission Metrics.
From S2P Require Import Lru PrefixFingerprint PrefixAffinity Strategy Fallback.

Open Scope string_scope.
Open Scope list_scope.
Open Scope Z_scope.

Module Rounds.
Import Fallback.
#[local] Arguments Return {A} r.
#[local] Arguments ReturnWithGuard {A} r.
#[local] Arguments NextCandidate {A} last_retryable_error.
#[local] Arguments Panic {A}.

(** What a call comes to: an answer, an error, or a stream that ends before
    its first event. *)
Inductive Answer (R : Type) := Got (r : R) | Failed (e : Provider.ProviderError) | Nothing.
Arguments Got {R} r.
Arguments Failed {R} e.
Arguments Nothing {R}.

(** A candidate's round; the calls come with their latency in milliseconds. *)
Inductive Round (R : Type) :=
| Broken
| Full (r : Admission.AdmissionRejection)
| Tried (calls : list (Answer R * Z)).
Arguments Broken {R}.
Arguments Full {R} r.
Arguments Tried {R} calls.

Section Account.
Context (C : Type -> Type) `{!LruOps C}.
Variable sleep : Z -> World C -> World C.
Context {R : Type}.
(** The n-th call of the request, made to a candidate. *)
Variable ask : nat -> Strategy.Entry -> World C -> Answer R * World C.
Notation World := (World C).
Notation call := (Answer R * Z)%type.
Implicit Types (w : World) (e : Strategy.Entry) (a : Answer R) (calls : list call).

(** Only metrics and the prefix index differ. *)
Definition silent w w' : Prop :=
  resilience C w' = resilience C w /\ admission C w' = admission C w /\ now C w' = now C w.

Definition stops a : bool :=
  match a with
  | Got _ => true
  | Failed err => match fallback_decision err with TryNextProvider => false | Stop => true end
  | Nothing => false
  end.

(** Another retry follows. *)
Definition retried (pol : Resilience.RetryPolicy) (k : Z) a : bool :=
  match a with Failed err => negb (stops (Failed err)) && (k <? Resilience.max_retries pol) | _ => false end.

(** The calls to one candidate, the first being retry [k] and call [n] of the
    request, with a backoff before each further one. *)
Inductive tries e (pol : Resilience.RetryPolicy) : Z -> nat -> World -> list call -> World -> Prop :=
| tries_last k n w w1 a w2 :
    silent w w1 -> ask n e w1 = (a, w2) -> retried pol k a = false ->
    tries e pol k n w [(a, Metrics.elapsed_ms (now C w2) (now C w1))] w2
| tries_again k n w w1 a w2 d calls w3 :
    silent w w1 -> ask n e w1 = (a, w2) -> retried pol k a = true ->
    retry_backoff pol (k + 1) (Strategy.pname e) = Some d -> tries e pol (k + 1) (S n) (sleep d w2) calls w3 ->
    tries e pol k n w ((a, Metrics.elapsed_ms (now C w2) (now C w1)) :: calls) w3.

(** What the breaker is told of the last answer: nothing of a failure that is
    not retried, nor of an empty stream. *)
Definition reported e a w : World :=
  match a with
  | Got _ => record_success C (Strategy.pname e) w
  | Failed err => if stops (Failed err) then w else record_failure C (Strategy.pname e) w
  | Nothing => w
  end.

(** The rounds of a request from a world on, [n] calls having been made, and
    the breakers after them. *)
Inductive play : nat -> list Strategy.Entry -> World -> list (Round R) -> Resilience.ResilienceRegistry -> Prop :=
| play_out n w : play n [] w [] (resilience C w)
| play_broken n e es w w1 w2 rs reg :
    allow_provider_call C (Strategy.pname e) w = (w1, false) -> silent w1 w2 ->
    play n es w2 rs reg -> play n (e :: es) w (Broken :: rs) reg
| play_full n e es w w1 w2 r rs reg :
    allow_provider_call C (Strategy.pname e) w = (w1, true) ->
    acquire_provider C (Strategy.pname e) w1 = (w2, Err r) ->
    play n es w2 rs reg -> play n (e :: es) w (Full r :: rs) reg
| play_on n e es w w1 w2 g w3 calls w4 a w5 rs reg :
    allow_provider_call C (Strategy.pname e) w = (w1, true) ->
    acquire_provider C (Strategy.pname e) w1 = (w2, Ok g) -> silent w2 w3 ->
    tries e (policy_of C w2 (Strategy.pname e)) 0 n w3 calls w4 ->
    fst <$> last calls = Some a -> stops a = false -> silent (reported e a w4) w5 ->
    play (n + length calls) es (drop_admission C g w5) rs reg -> play n (e :: es) w (Tried calls :: rs) reg
| play_stop n e es w w1 w2 g w3 calls w4 a :
    allow_provider_call C (Strategy.pname e) w = (w1, true) ->
    acquire_provider C (Strategy.pname e) w1 = (w2, Ok g) -> silent w2 w3 ->
    tries e (policy_of C w2 (Strategy.pname e)) 0 n w3 calls w4 ->
    fst <$> last calls = Some a -> stops a = true ->
    play n (e :: es) w [Tried calls] (resilience C (reported e a w4)).

(** ** What is reported *)

Definition error_of a : option Provider.ProviderError :=
  match a with Got _ => None | Failed err => Some err | Nothing => Some Provider.ProviderBadResponse end.

Fixpoint attempts_of (fallback : bool) (n : nat) e calls : list Metrics.ProviderAttempt :=
  match calls with
  | [] => []
  | (a, latency) :: calls =>
      attempt (Strategy.pname e) (Z.min u32_max (Z.of_nat n + 1)) latency (negb (is_some (error_of a))) fallback
        (Metrics.provider_error_category <$> error_of a) :: attempts_of fallback (S n) e calls
  end.

(** The attempts made: numbered through, those on the first candidate alone
    not marked as a fallback. *)
Fixpoint made (i n : nat) (cands : list Strategy.Entry) (rs : list (Round R)) : list Metrics.ProviderAttempt :=
  match cands, rs with
  | e :: cands, Tried calls :: rs => attempts_of (0 <? i)%nat n e calls ++ made (S i) (n + length calls) cands rs
  | _ :: cands, _ :: rs => made (S i) n cands rs
  | _, _ => []
  end.

(** The last call, if the last round was one of calls. *)
Definition last_call (cands : list Strategy.Entry) (rs : list (Round R)) : option (Strategy.Entry * Answer R) :=
  match last (zip cands rs) with
  | Some (e, Tried calls) => (fun c : call => (e, fst c)) <$> last calls
  | _ => None
  end.

Definition refusal (before : option Admission.AdmissionRejection) (rs : list (Round R)) : option Admission.AdmissionRejection :=
  foldl (fun acc r => match r with Full x => Some x | _ => acc end) before rs.

(** What the caller is told of these rounds.  When the last candidate was not
    called, that is all that is told, whatever was tried before. *)
Definition verdict {T : Type} (won : Strategy.Entry -> R -> list Metrics.ProviderAttempt -> T -> Prop)
  (cands : list Strategy.Entry) (rs : list (Round R)) (attempts : list Metrics.ProviderAttempt)
  (refused : option Admission.AdmissionRejection) (o : result T FallbackError) : Prop :=
  match last_call cands rs with
  | Some (e, Got r) => exists t, o = Ok t /\ won e r attempts t
  | Some (_, Failed err) => o = Err (ProviderFailed err attempts)
  | Some (_, Nothing) => o = Err (ProviderFailed Provider.ProviderBadResponse attempts)
  | None => o = Err match refused with Some r => AdmissionRejected r | None => NoProviderAvailable end
  end.

(** No candidate is called more often than its policy allows. *)
Definition within_budget w (cands : list Strategy.Entry) (rs : list (Round R)) : Prop :=
  Forall (fun '(e, r) => match r with
    | Tried calls => Z.of_nat (length calls) <= 1 + Z.max 0 (Resilience.max_retries (policy_of C w (Strategy.pname e)))
    | _ => True
    end) (zip cands rs).

Lemma silent_refl w : silent w w.
Proof. done. Qed.

Lemma silent_trans w1 w2 w3 : silent w1 w2 -> silent w2 w3 -> silent w1 w3.
Proof. intros (A1 & A2 & A3) (B1 & B2 & B3). split; [by rewrite B1|]. split; [by rewrite B2|by rewrite B3]. Qed.

Lemma metrics_silent f w : silent w (with_metrics C f w).
Proof. unfold with_metrics. by destruct (metrics C w). Qed.

Lemma selection_silent fp n pol w : silent w (record_prefix_affinity_selection C fp n pol w).
Proof.
  unfold record_prefix_affinity_selection. destruct (_ && _); [|done]. by destruct (PrefixFingerprint.fingerprint fp).
Qed.

Lemma success_silent n w w' : silent w w' -> silent (record_success C n w) (record_success C n w').
Proof. intros (A1 & A2 & A3). unfold record_success. split; [cbn; by rewrite A1|by split]. Qed.

Lemma tries_silent e pol k n w w' calls w2 : silent w w' -> tries e pol k n w' calls w2 -> tries e pol k n w calls w2.
Proof. intros Hs Ht. destruct Ht; [eapply tries_last|eapply tries_again]; eauto using silent_trans. Qed.

Lemma tries_bound e pol k n w calls w2 : tries e pol k n w calls w2 -> 0 <= k ->
  Z.of_nat (length calls) <= 1 + Z.max 0 (Resilience.max_retries pol - k).
Proof.
  induction 1 as [|k n w w1 a w2 d calls w3 _ _ Hr _ _ IH]; intros Hk; cbn [length]; [lia|].
  assert (k < Resilience.max_retries pol) by (destruct a; cbn in Hr; try done; apply andb_prop in Hr as [_ Hr]; zbool; lia).
  specialize (IH ltac:(lia)). lia.
Qed.

Lemma tries_nonempty e pol k n w calls w2 : tries e pol k n w calls w2 -> exists a, fst <$> last calls = Some a.
Proof.
  induction 1 as [|k n w w1 a w2 d calls w3 _ _ _ _ _ [a' IH]]; [by eexists|]. exists a'. by destruct calls.
Qed.

Lemma attempts_of_length fb n e calls : length (attempts_of fb n e calls) = length calls.
Proof. revert n. induction calls as [|[a lat] calls IH]; intros n; [done|]. cbn. by rewrite IH. Qed.

(** ** The loops play by the rules *)

Section Loops.
Context {T : Type} (won : Strategy.Entry -> R -> list Metrics.ProviderAttempt -> T -> Prop) (w0 : World).
Notation Flow := (Flow (result T FallbackError)).
Notation Loop := (Loop C).
Implicit Types (st : Loop).
Hypothesis sleep_ok : Hsleep_ok C sleep.

Definition counted st : Prop := order C st = Z.min u32_max (Z.of_nat (length (trail C st))).

(** What the retry loop of a candidate comes to, from retry [k] on. *)
Definition tried (is_last : bool) e (pol : Resilience.RetryPolicy) (fb : bool) (k : Z) st (r : Loop * Flow) : Prop :=
  let '(st', flow) := r in
  exists calls w4 a,
    tries e pol k (length (trail C st)) (world C st) calls w4 /\ fst <$> last calls = Some a /\
    trail C st' = trail C st ++ attempts_of fb (length (trail C st)) e calls /\ counted st' /\
    silent (reported e a w4) (world C st') /\ same_policies C w0 (world C st') /\
    match a with
    | Got x => exists t, (flow = Return (Ok t) \/ flow = ReturnWithGuard (Ok t)) /\ won e x (trail C st') t
    | Failed err =>
        flow = if stops (Failed err) then Return (Err (ProviderFailed err (trail C st'))) else NextCandidate (Some err)
    | Nothing =>
        if is_last then flow = Return (Err (ProviderFailed Provider.ProviderBadResponse (trail C st')))
        else exists x, flow = NextCandidate x
    end.

Lemma counted_next st w x : counted st -> counted {| world := w; trail := trail C st ++ [x]; order := u32_sat_add (order C st) 1 |}.
Proof. unfold counted. cbn. intros ->. rewrite length_app. cbn. width. Qed.

(** One call and nothing after it. *)
Lemma tried_once (is_last : bool) e pol fb k st w1 a w2 w' x (flow : Flow) : counted st ->
  silent (world C st) w1 -> ask (length (trail C st)) e w1 = (a, w2) -> retried pol k a = false ->
  x = attempt (Strategy.pname e) (u32_sat_add (order C st) 1) (Metrics.elapsed_ms (now C w2) (now C w1))
        (negb (is_some (error_of a))) fb (Metrics.provider_error_category <$> error_of a) ->
  silent (reported e a w2) w' -> same_policies C w0 w' ->
  match a with
  | Got r => exists t, (flow = Return (Ok t) \/ flow = ReturnWithGuard (Ok t)) /\ won e r (trail C st ++ [x]) t
  | Failed err =>
      flow = if stops (Failed err) then Return (Err (ProviderFailed err (trail C st ++ [x]))) else NextCandidate (Some err)
  | Nothing =>
      if is_last then flow = Return (Err (ProviderFailed Provider.ProviderBadResponse (trail C st ++ [x])))
      else exists y, flow = NextCandidate y
  end ->
  tried is_last e pol fb k st ({| world := w'; trail := trail C st ++ [x]; order := u32_sat_add (order C st) 1 |}, flow).
Proof.
  intros Ho Hs Ha Hr Hx Hw Hp Hf. exists [(a, Metrics.elapsed_ms (now C w2) (now C w1))], w2, a. split; [by eapply tries_last|]. split; [done|].
  split; [|split; [by apply counted_next|by split]]. cbn. rewrite Hx. do 3 f_equal. rewrite Ho. width.
Qed.

(** A failed call, and what [on_error] makes of it. *)
Lemma on_error_tried is_last e pol fb k st w1 err w2 guard again : counted st ->
  0 <= Resilience.jitter_ms pol < u64_max -> same_policies C w0 w2 ->
  silent (world C st) w1 -> ask (length (trail C st)) e w1 = (Failed err, w2) ->
  (forall st', k < Resilience.max_retries pol -> counted st' -> same_policies C w0 (world C st') ->
     tried is_last e pol fb (k + 1) st' (again st')) ->
  tried is_last e pol fb k st
    (on_error C sleep (fun x l => Err (ProviderFailed x l)) pol (Strategy.pname e) fb k
       (Metrics.elapsed_ms (now C w2) (now C w1)) (u32_sat_add (order C st) 1) guard err st w2 again).
Proof using sleep_ok.
  intros Ho Hj Hp Hs Ha Hagain. unfold on_error. destruct (fallback_decision err) eqn:Ed.
  - destruct (k <? Resilience.max_retries pol) eqn:Ek.
    + destruct (backoff_some pol (k + 1) (Strategy.pname e) Hj) as [d Hd]. rewrite Hd.
      match goal with |- context [again ?x] => set (st' := x) end.
      assert (same_policies C w0 (world C st')) as Hp' by (intros p; exact (eq_trans (sleep_ok d w2 p) (Hp p))).
      specialize (Hagain st' ltac:(zbool; lia) ltac:(by apply counted_next) Hp').
      destruct (again st') as [st2 flow]. destruct Hagain as (calls & w4 & a & Ht & Hl & Htr & Hrest).
      exists ((Failed err, Metrics.elapsed_ms (now C w2) (now C w1)) :: calls), w4, a. split.
      { eapply tries_again; [done|done|cbn; by rewrite Ed, Ek|done|]. unfold st' in Ht. cbn in Ht.
        rewrite length_app, Nat.add_1_r in Ht. by eapply (tries_silent _ _ _ _ _ (drop_in_flight C guard (sleep d w2))). }
      split; [by destruct calls|]. split; [|done]. rewrite Htr. unfold st'. cbn [trail attempts_of].
      rewrite <-app_assoc, length_app, Nat.add_1_r. cbn. do 3 f_equal. unfold failed_attempt. f_equal. rewrite Ho. width.
    + apply (tried_once is_last e pol fb k st w1 (Failed err) w2); try done; cbn; rewrite ?Ed, ?Ek; try done.
      intros p. exact (eq_trans (failure_same_policies C (Strategy.pname e) w2 p) (Hp p)).
  - apply (tried_once is_last e pol fb k st w1 (Failed err) w2); try done; cbn; by rewrite ?Ed.
Qed.

Variable try_candidate : bool -> Strategy.Entry -> Resilience.RetryPolicy -> bool ->
  Admission.AdmissionGuard -> Loop -> Loop * Flow.
Hypothesis try_ok : forall is_last e fb guard st, counted st -> same_policies C w0 (world C st) ->
  tried is_last e (policy_of C w0 (Strategy.pname e)) fb 0 st
    (try_candidate is_last e (policy_of C w0 (Strategy.pname e)) fb guard st).

Lemma last_call_skip e r es rs : (forall calls, r <> Tried calls) -> last_call (e :: es) (r :: rs) = last_call es rs.
Proof using. intros Hr. unfold last_call. cbn [zip zip_with]. destruct (zip_with pair es rs); [|done]. destruct r; [done..|by destruct (Hr calls)]. Qed.

Lemma last_call_go e r e' es r' rs : last_call (e :: e' :: es) (r :: r' :: rs) = last_call (e' :: es) (r' :: rs).
Proof using. done. Qed.

Lemma play_rounds n e es w rs reg : play n (e :: es) w rs reg -> exists r rs', rs = r :: rs'.
Proof using. inversion 1; eauto. Qed.

(** A round of calls ends the request. *)
Lemma stop_verdict e es calls a l refused (o : result T FallbackError) :
  fst <$> last calls = Some a ->
  match a with
  | Got x => exists t, o = Ok t /\ won e x l t
  | Failed err => o = Err (ProviderFailed err l)
  | Nothing => o = Err (ProviderFailed Provider.ProviderBadResponse l)
  end -> verdict won (e :: es) [Tried calls] l refused o.
Proof using.
  intros Hl Ha. unfold verdict, last_call. cbn [zip zip_with]. destruct es; cbn; (destruct (last calls) as [[a' lat]|]; [|done]);
    cbn in *; injection Hl as ->; by destruct a.
Qed.

(** What holds of a loop that starts at candidate [i]. *)
Definition account (i : nat) (cands : list Strategy.Entry) (rejection : option Admission.AdmissionRejection) st
  (r : World * option (result T FallbackError)) : Prop :=
  exists o rs, snd r = Some o /\ play (length (trail C st)) cands (world C st) rs (resilience C (fst r)) /\
    within_budget w0 cands rs /\
    verdict won cands rs (trail C st ++ made i (length (trail C st)) cands rs) (refusal rejection rs) o.

(** A candidate was called, from [st] to [st']. *)
Definition called i e st g calls a st' : Prop :=
  exists w1 w2 w3 w4,
    allow_provider_call C (Strategy.pname e) (world C st) = (w1, true) /\
    acquire_provider C (Strategy.pname e) w1 = (w2, Ok g) /\ silent w2 w3 /\
    tries e (policy_of C w2 (Strategy.pname e)) 0 (length (trail C st)) w3 calls w4 /\
    fst <$> last calls = Some a /\ trail C st' = trail C st ++ attempts_of (0 <? i)%nat (length (trail C st)) e calls /\
    silent (reported e a w4) (world C st') /\ same_policies C w0 w2.

Lemma called_budget i e st g calls a st' es : called i e st g calls a st' -> within_budget w0 (e :: es) [Tried calls].
Proof using.
  intros (w1 & w2 & w3 & w4 & _ & _ & _ & Ht & _ & _ & _ & Hp). pose proof (tries_bound _ _ _ _ _ _ _ Ht ltac:(lia)) as Hb.
  destruct es; (constructor; [|constructor]); rewrite <-(Hp (Strategy.pname e)); lia.
Qed.

Lemma called_made i e st g calls a st' es : called i e st g calls a st' ->
  trail C st ++ made i (length (trail C st)) (e :: es) [Tried calls] = trail C st'.
Proof using. intros (w1 & w2 & w3 & w4 & _ & _ & _ & _ & _ & -> & _). cbn [made]. destruct es; by rewrite app_nil_r. Qed.

Lemma account_stop i e es st g calls a st' rejection w o : called i e st g calls a st' -> stops a = true ->
  resilience C w = resilience C (world C st') ->
  match a with
  | Got x => exists t, o = Ok t /\ won e x (trail C st') t
  | Failed err => o = Err (ProviderFailed err (trail C st'))
  | Nothing => o = Err (ProviderFailed Provider.ProviderBadResponse (trail C st'))
  end -> account i (e :: es) rejection st (w, Some o).
Proof using.
  intros Hc Hs Hw Ho. exists o, [Tried calls]. split; [done|]. split; [|split; [by eapply called_budget|]].
  - cbn [fst]. rewrite Hw. destruct Hc as (w1 & w2 & w3 & w4 & ? & ? & ? & ? & ? & _ & (-> & _) & _). by eapply play_stop.
  - rewrite (called_made _ _ _ _ _ _ _ _ Hc). destruct Hc as (? & ? & ? & ? & _ & _ & _ & _ & Hl & _). by eapply stop_verdict.
Qed.

Lemma account_last i e st g calls a st' rejection o : called i e st g calls a st' -> stops a = false ->
  match a with
  | Got x => exists t, o = Ok t /\ won e x (trail C st') t
  | Failed err => o = Err (ProviderFailed err (trail C st'))
  | Nothing => o = Err (ProviderFailed Provider.ProviderBadResponse (trail C st'))
  end -> account i [e] rejection st (drop_admission C g (world C st'), Some o).
Proof using.
  intros Hc Hs Ho. exists o, [Tried calls]. split; [done|]. split; [|split; [by eapply called_budget|]].
  - destruct Hc as (w1 & w2 & w3 & w4 & ? & ? & ? & ? & ? & _ & ? & _). eapply play_on; try done. apply play_out.
  - rewrite (called_made _ _ _ _ _ _ _ _ Hc). destruct Hc as (? & ? & ? & ? & _ & _ & _ & _ & Hl & _). by eapply stop_verdict.
Qed.

Lemma account_on i e e' es st g calls a st' rejection r : called i e st g calls a st' -> stops a = false ->
  account (S i) (e' :: es) rejection
    {| world := drop_admission C g (world C st'); trail := trail C st'; order := order C st' |} r ->
  account i (e :: e' :: es) rejection st r.
Proof using.
  intros Hc Hs (o & rs & Hr & Hplay & Hb & Hv). destruct (play_rounds _ _ _ _ _ _ Hplay) as (r' & rs' & ->).
  exists o, (Tried calls :: r' :: rs'). split; [exact Hr|].
  pose proof (called_budget _ _ _ _ _ _ _ [] Hc) as Hb1. apply Forall_inv in Hb1.
  destruct Hc as (w1 & w2 & w3 & w4 & ? & ? & ? & ? & ? & Htr & ? & _). cbn [trail world] in *.
  assert (length (trail C st') = (length (trail C st) + length calls)%nat) as Hlen
    by (by rewrite Htr, length_app, attempts_of_length).
  rewrite Hlen in Hplay, Hv. split; [by eapply play_on|]. split; [by constructor|].
  unfold verdict in *. rewrite last_call_go. rewrite Htr, <-app_assoc in Hv. exact Hv.
Qed.

Lemma account_skip i e es st rejection rejection' w w2 r x : account (S i) es rejection' {| world := w2; trail := trail C st; order := order C st |} r ->
  (forall calls, x <> Tried calls) -> refusal rejection [x] = rejection' ->
  (forall n rs reg, play n es w2 rs reg -> play n (e :: es) w (x :: rs) reg) -> world C st = w ->
  account i (e :: es) rejection st r.
Proof using.
  intros (o & rs & Hr & Hplay & Hb & Hv) Hx Hrej Hp <-. exists o, (x :: rs). split; [exact Hr|]. split; [by apply Hp|].
  split; [constructor; [by destruct x as [| |calls]; [..|destruct (Hx calls)]|exact Hb]|].
  unfold verdict in *. rewrite last_call_skip by done. cbn [trail] in Hv. cbn [refusal foldl] in *. rewrite <-Hrej in Hv.
  by destruct x as [| |calls]; [..|destruct (Hx calls)].
Qed.

Lemma candidate_loop_plays i rest eff rejection st : counted st -> same_policies C w0 (world C st) ->
  account i rest rejection st (candidate_loop C Err try_candidate i rest eff rejection st).
Proof using try_ok.
  revert i rejection st. induction rest as [|e rest IH]; intros i rejection st Ho Hp; cbn [candidate_loop]; cbv zeta.
  { eexists _, []. split; [done|]. split; [apply play_out|]. split; [constructor|]. by destruct rejection. }
  pose proof (allow_same_policies C (Strategy.pname e) (world C st)) as Hp1.
  destruct (allow_provider_call _ _ _) as [w1 allowed] eqn:Eal. cbn [fst] in Hp1.
  assert (same_policies C w0 w1) as Hp01 by (by eapply same_policies_trans).
  destruct allowed; cbn [negb].
  2:{ eapply (account_skip _ _ _ _ _ _ _ _ _ Broken); [apply IH|done|done| |done]; [done| |].
      - eapply same_policies_trans; [exact Hp01|apply metrics_same_policies].
      - intros n rs reg. by eapply play_broken, metrics_silent. }
  pose proof (acquire_same_policies C (Strategy.pname e) w1) as Hp2.
  destruct (acquire_provider _ _ _) as [w2 admitted] eqn:Eac. cbn [fst] in Hp2.
  assert (same_policies C w0 w2) as Hp02 by (by eapply same_policies_trans).
  destruct admitted as [guard|rej].
  2:{ eapply (account_skip _ _ _ _ _ _ _ _ _ (Full rej)); [by apply IH|done|done| |done]. intros n rs reg. by eapply play_full. }
  set (w3 := if (0 <? i)%nat then record_routing_decision C eff "fallback" w2 else w2).
  assert (silent w2 w3) as Hs3 by (unfold w3; destruct (0 <? i)%nat; [apply metrics_silent|done]).
  assert (same_policies C w0 w3) as Hp03 by (intros p; unfold policy_of; rewrite (proj1 Hs3); apply Hp02).
  fold (policy_of C w2 (Strategy.pname e)). rewrite (Hp02 (Strategy.pname e)).
  pose proof (try_ok (match rest with [] => true | _ => false end) e (0 <? i)%nat guard
    {| world := w3; trail := trail C st; order := order C st |} Ho Hp03) as Htry.
  destruct (try_candidate _ _ _ _ _ _) as [st' flow]. destruct Htry as (calls & w4 & a & Ht & Hl & Htr & Ho' & Hs & Hp' & Hflow).
  assert (called i e st guard calls a st') as Hc.
  { exists w1, w2, w3, w4. do 3 (split; [done|]). split; [|done]. rewrite (Hp02 (Strategy.pname e)). exact Ht. }
  assert (forall e' es, stops a = false -> rest = e' :: es -> account i (e :: e' :: es) rejection st (candidate_loop C Err try_candidate (S i) rest eff
    rejection {| world := drop_admission C guard (world C st'); trail := trail C st'; order := order C st' |})) as Hgo.
  { intros e' es Ha Hrest. eapply account_on; [exact Hc|done|]. rewrite <-Hrest. by apply IH. }
  destruct a as [x|err|].
  - destruct Hflow as (t & Hf & Hwon). destruct Hf as [-> | ->]; (eapply account_stop; [exact Hc|done|done|by exists t]).
  - destruct (stops (Failed err)) eqn:Est; subst flow; [by eapply account_stop|].
    destruct rest as [|e' rest']; [by eapply account_last|by apply Hgo].
  - destruct rest as [|e' rest']; [subst flow; by eapply account_last|]. destruct Hflow as [[x|] ->]; by apply Hgo.
Qed.

End Loops.

End Account.

(* ------------------------------------------------------------------ *)
(** ** The two functions *)

Section Functions.
Context (C : Type -> Type) `{!LruOps C}.
Variables (to_vec : PrefixFingerprint.CanonicalPrefix -> option (list Z)) (sha256 : list Z -> list Z)
  (sleep : Z -> World C -> World C).
Hypothesis sleep_ok : Hsleep_ok C sleep.
Variable request : Chat.ChatCompletionRequest.
Notation sent e := (request_for_provider request (Provider.model (Provider.provider e))).

Section Chat.
Variable chat_completion : nat -> Strategy.Entry -> Chat.ChatCompletionRequest -> World C ->
  result Chat.ChatCompletionResponse Provider.ProviderError * World C.
Hypothesis call_ok : forall k e r w, same_policies C w (snd (chat_completion k e r w)).

Definition ask_chat (n : nat) (e : Strategy.Entry) (w : World C) : Answer Chat.ChatCompletionResponse * World C :=
  let '(answer, w) := chat_completion n e (sent e) w in
  (match answer with Ok r => Got r | Err err => Failed err end, w).

(** A success names the candidate that answered, its answer and price. *)
Definition chat_won (e : Strategy.Entry) (r : Chat.ChatCompletionResponse) (l : list Metrics.ProviderAttempt)
  (t : FallbackSuccess) : Prop :=
  let cost := Provider.estimate_cost (Provider.pricing e) (Chat.prompt_tokens (Chat.resp_usage r))
                (Chat.completion_tokens (Chat.resp_usage r)) in
  t = {| response := r; succ_provider_name := Strategy.pname e; cost_estimate := cost;
         estimated_cost_usd := Provider.total_cost_usd cost; attempts := l |}.

Lemma retry_loop_tried remaining k is_last e pol fb eff fp w0 st :
  0 <= Resilience.jitter_ms pol < u64_max -> Z.of_nat remaining = Z.max 0 (Resilience.max_retries pol) - k -> 0 <= k ->
  counted C st -> same_policies C w0 (world C st) ->
  tried C sleep ask_chat chat_won w0 is_last e pol fb k st
    (retry_loop C sleep chat_completion remaining k e pol fb eff fp request st).
Proof using sleep_ok call_ok.
  intros Hj. revert k st. induction remaining as [|m IH]; intros k st Hrem Hk Ho Hp; cbn [retry_loop].
  all: destruct (new_in_flight C (Strategy.pname e) request (world C st)) as [w1 guard] eqn:Eg.
  all: assert (silent C (world C st) w1) as Hs1 by (unfold new_in_flight in Eg; injection Eg as <- _; done).
  all: pose proof (call_ok (length (trail C st)) e (sent e) w1) as Hc.
  all: destruct (chat_completion _ _ _ _) as [answer w2] eqn:Ea; cbn [snd] in Hc.
  all: assert (same_policies C w0 w2) as Hp2
    by (intros p; rewrite (Hc p); unfold policy_of; rewrite (proj1 Hs1); apply Hp).
  all: replace (now C (world C st)) with (now C w1) by apply Hs1.
  all: assert (ask_chat (length (trail C st)) e w1 = (match answer with Ok r => Got r | Err err => Failed err end, w2)) as Hask
    by (unfold ask_chat; by rewrite Ea).
  all: destruct answer as [r|err].
  all: try (eapply (tried_once C sleep ask_chat chat_won w0 is_last e pol fb k st w1 (Got r) w2);
    [done|done|exact Hask|done|done| | |by eexists; split; [left|]]).
  all: try (eapply silent_trans; [apply metrics_silent|]; eapply silent_trans; [apply selection_silent|done]).
  all: try (intros p; exact (eq_trans (selection_same_policies C fp (Strategy.pname e) eff _ p)
      (eq_trans (metrics_same_policies C _ _ p) (eq_trans (success_same_policies C _ w2 p) (Hp2 p))))).
  all: eapply (on_error_tried C sleep ask_chat); [done|done|done|done|done|exact Hask|];
    intros st' Hlt Ho' Hp'; first [lia|apply IH; [lia|lia|done|done]].
Qed.

Lemma complete_chat_plays context w : jitters_ok C w ->
  let r := complete_chat C to_vec sha256 sleep chat_completion context request w in
  let '(w1, _, cands, _) := route C to_vec sha256 context request w in
  exists o rs, snd r = Some o /\ play C sleep ask_chat 0 cands w1 rs (resilience C (fst r)) /\
    within_budget C w cands rs /\ verdict chat_won cands rs (made 0 0 cands rs) (refusal None rs) o.
Proof using sleep_ok call_ok.
  intros Hj. pose proof (route_same_policies C to_vec sha256 context request w) as Hw. unfold complete_chat.
  destruct (route _ _ _ _ _ _) as [[[w1 fp] cands] eff]. cbn [fst snd] in *.
  destruct cands as [|c cs] eqn:Ec; [by eexists _, []; repeat split; [apply play_out|constructor]|].
  rewrite <-Ec. apply (candidate_loop_plays C sleep ask_chat chat_won w) with (i := 0%nat) (rejection := None)
    (st := {| world := w1; trail := []; order := 0 |}); [|done|done].
  intros is_last e fb guard st Ho Hp. apply retry_loop_tried; [apply Hj|lia|lia|done|done].
Qed.

Lemma complete_chat_ends context w : jitters_ok C w ->
  exists o, snd (complete_chat C to_vec sha256 sleep chat_completion context request w) = Some o.
Proof using sleep_ok call_ok.
  intros Hj. pose proof (complete_chat_plays context w Hj) as H. cbv zeta in H.
  destruct (route _ _ _ _ _ _) as [[[w1 fp] cands] eff]. destruct H as (o & rs & Ho & _). by exists o.
Qed.

End Chat.

Section Streaming.
Variable Stream : Type.
Variable chat_completion_stream : nat -> Strategy.Entry -> Chat.ChatCompletionRequest -> World C ->
  result (Provider.ProviderStreamContext * Stream) Provider.ProviderError * World C.
Variable stream_next : Stream -> World C ->
  option (result Provider.ProviderStreamEvent Provider.ProviderError) * Stream * World C.
Hypothesis call_ok : forall k e r w, same_policies C w (snd (chat_completion_stream k e r w)).
Hypothesis next_ok : forall s w, same_policies C w (snd (stream_next s w)).

Definition Opened : Type := Provider.ProviderStreamContext * Provider.ProviderStreamEvent * Stream.

(** A call of the streaming function is answered by its first event. *)
Definition ask_stream (n : nat) (e : Strategy.Entry) (w : World C) : Answer Opened * World C :=
  match chat_completion_stream n e (sent e) w with
  | (Err err, w) => (Failed err, w)
  | (Ok (context, stream), w) =>
      let '(first, stream, w) := stream_next stream w in
      (match first with
       | Some (Ok event) => Got (context, event, stream)
       | Some (Err err) => Failed err
       | None => Nothing
       end, w)
  end.

(** A started stream names its candidate and price, and carries the
    candidate's in-flight guard, still active. *)
Definition stream_won (e : Strategy.Entry) (o : Opened) (l : list Metrics.ProviderAttempt)
  (t : StreamingFallbackSuccess Stream) : Prop :=
  (str_context _ t, first_event _ t, str_stream _ t) = o /\ str_provider_name _ t = Strategy.pname e /\
  str_pricing _ t = Provider.pricing e /\ str_attempts _ t = l /\
  Metrics.guard_provider_name (in_flight_guard _ t) = Strategy.pname e /\ Metrics.guard_active (in_flight_guard _ t) = true.

Lemma stream_retry_loop_tried remaining k is_last e pol fb guard eff fp x w0 st :
  0 <= Resilience.jitter_ms pol < u64_max -> Z.of_nat remaining = Z.max 0 (Resilience.max_retries pol) - k -> 0 <= k ->
  counted C st -> same_policies C w0 (world C st) ->
  tried C sleep ask_stream stream_won w0 is_last e pol fb k st
    (stream_retry_loop C sleep Stream chat_completion_stream stream_next remaining k is_last e pol fb guard eff fp request x st).
Proof using sleep_ok call_ok next_ok.
  intros Hj. revert k x st. induction remaining as [|m IH]; intros k x st Hrem Hk Ho Hp; cbn [stream_retry_loop].
  all: destruct (new_in_flight C (Strategy.pname e) request (world C st)) as [w1 g] eqn:Eg.
  all: assert (silent C (world C st) w1 /\ Metrics.guard_provider_name g = Strategy.pname e /\ Metrics.guard_active g = true)
    as (Hs1 & Hgn & Hga) by (unfold new_in_flight in Eg; injection Eg as <- <-; done).
  all: pose proof (call_ok (length (trail C st)) e (sent e) w1) as Hc.
  all: destruct (chat_completion_stream _ _ _ _) as [answer w2] eqn:Ea; cbn [snd] in Hc.
  all: assert (same_policies C w0 w2) as Hp2
    by (intros p; rewrite (Hc p); unfold policy_of; rewrite (proj1 Hs1); apply Hp).
  all: replace (now C (world C st)) with (now C w1) by apply Hs1.
  all: destruct answer as [[ctx str]|err].
  all: match goal with
    | E : chat_completion_stream _ _ _ _ = (Err _, _) |- _ =>
        eapply (on_error_tried C sleep ask_stream); [done|done|done|exact Hp2|exact Hs1|by unfold ask_stream; rewrite E|];
        intros st' Hlt Ho' Hp'; first [lia|apply IH; [lia|lia|done|done]]
    | _ => idtac end.
  all: pose proof (next_ok str w2) as Hn; destruct (stream_next str w2) as [[first str'] w3] eqn:En; cbn [snd] in Hn.
  all: assert (same_policies C w0 w3) as Hp3 by (intros p; rewrite (Hn p); apply Hp2).
  all: assert (ask_stream (length (trail C st)) e w1 = (match first with
      | Some (Ok event) => Got (ctx, event, str') | Some (Err err) => Failed err | None => Nothing end, w3)) as Hask
    by (unfold ask_stream; by rewrite Ea, En).
  all: destruct first as [[event|err]|].
  all: match type of Hask with
    | _ = (Failed _, _) => eapply (on_error_tried C sleep ask_stream); [done|done|done|exact Hp3|exact Hs1|exact Hask|];
        intros st' Hlt Ho' Hp'; first [lia|apply IH; [lia|lia|done|done]]
    | _ = (Nothing, _) =>
        destruct is_last; (eapply (tried_once C sleep ask_stream); [exact Ho|exact Hs1|exact Hask|done|done|done|done|]); cbn; eauto
    | _ => eapply (tried_once C sleep ask_stream); [exact Ho|exact Hs1|exact Hask|done|done| | |by eexists; split; [right|]]
    end.
  all: first
    [ intros p; exact (eq_trans (selection_same_policies C fp (Strategy.pname e) eff _ p)
        (eq_trans (metrics_same_policies C _ _ p) (eq_trans (success_same_policies C _ _ p)
          (eq_trans (metrics_same_policies C _ w3 p) (Hp3 p)))))
    | eapply silent_trans; [|apply selection_silent]; eapply silent_trans; [|apply metrics_silent];
      apply success_silent, metrics_silent ].
Qed.

Lemma complete_chat_stream_plays context w : jitters_ok C w ->
  let r := complete_chat_stream C to_vec sha256 sleep Stream chat_completion_stream stream_next context request w in
  let '(w1, _, cands, _) := route C to_vec sha256 context request w in
  exists o rs, snd r = Some o /\ play C sleep ask_stream 0 cands w1 rs (resilience C (fst r)) /\
    within_budget C w cands rs /\ verdict stream_won cands rs (made 0 0 cands rs) (refusal None rs) o.
Proof using sleep_ok call_ok next_ok.
  intros Hj. pose proof (route_same_policies C to_vec sha256 context request w) as Hw. unfold complete_chat_stream.
  destruct (route _ _ _ _ _ _) as [[[w1 fp] cands] eff]. cbn [fst snd] in *.
  destruct cands as [|c cs] eqn:Ec; [by eexists _, []; repeat split; [apply play_out|constructor]|].
  rewrite <-Ec. apply (candidate_loop_plays C sleep ask_stream stream_won w) with (i := 0%nat) (rejection := None)
    (st := {| world := w1; trail := []; order := 0 |}); [|done|done].
  intros is_last e fb guard st Ho Hp. apply stream_retry_loop_tried; [apply Hj|lia|lia|done|done].
Qed.

Lemma complete_chat_stream_ends context w : jitters_ok C w ->
  exists o, snd (complete_chat_stream C to_vec sha256 sleep Stream chat_completion_stream stream_next context request w) = Some o.
Proof using sleep_ok call_ok next_ok.
  intros Hj. pose proof (complete_chat_stream_plays context w Hj) as H. cbv zeta in H.
  destruct (route _ _ _ _ _ _) as [[[w1 fp] cands] eff]. destruct H as (o & rs & Ho & _). by exists o.
Qed.

End Streaming.

End Functions.

(* ------------------------------------------------------------------ *)
(** ** Properties *)



(* ------------------------------------------------------------------ *)
(** ** Concrete plays *)



End Rounds.
