(* ===== verification/ChatRoute.v ===== *)
(** * The chat endpoint (src/src/routes/chat.rs, src/src/routes/shared.rs)

    [chat_completions] from the parsed body to the response, with every
    recording on every branch, and the event stream of a streaming response.
    The state is the fallback loop's world, the key store, the response cache
    and the request log; the configuration is what [AppState] holds fixed.

    Arguments, as in the fallback loop: what providers answer and what happens
    to the shared world meanwhile, JSON encoding, SHA-256, and the wall clock as
    a function of the instant.  Tracing spans and the log store's I/O are left
    out: the log is the list of entries handed to it. *)
From S2P Require Import Prelude Str F64 Config ModelPools Chat Provider Resilience Admission Metrics.
From S2P Require Import Lru RequestLog Keys Cache PrefixFingerprint PrefixAffinity Strategy Fallback Rounds.

Open Scope string_scope.
Open Scope list_scope.
Open Scope Z_scope.

Module ChatRoute.

Definition CHAT_COMPLETIONS_ROUTE : string := "/v1/chat/completions".

(** What the handler reads of [AppState] and never changes. *)
Record Settings := {
  providers : list Strategy.Entry;
  model_pools : ModelPools.ModelPoolIndex;
  model_aliases : gmap string string;
  routing_policy : Config.RoutingPolicy;
  prefix_affinity : Config.PrefixAffinityConfig;
  chat_validation_limits : Chat.ChatValidationLimits;
  request_logging : RequestLog.RequestLoggingConfig;
  response_cache_ttl : Z
}.

(** ** Helpers of shared.rs *)

Definition admission_invalid_request_message (reason : Admission.AdmissionRejectionReason) : string :=
  match reason with
  | Admission.MaxEstimatedPromptTokens => "estimated prompt token limit exceeded"
  | Admission.MaxEstimatedTotalTokens => "estimated total token limit exceeded"
  | Admission.GlobalInFlightLimit | Admission.PoolInFlightLimit | Admission.ProviderInFlightLimit =>
      "request rejected by admission control"
  end.

Definition resolve_request_model_alias (s : Settings) (r : Chat.ChatCompletionRequest) :
  Chat.ChatCompletionRequest :=
  {| Chat.req_model := Strategy.resolve_model_alias (model_aliases s) <$> Chat.req_model r;
     Chat.messages := Chat.messages r; Chat.temperature := Chat.temperature r;
     Chat.max_tokens := Chat.max_tokens r; Chat.stream := Chat.stream r; Chat.tools := Chat.tools r;
     Chat.tool_choice := Chat.tool_choice r; Chat.parallel_tool_calls := Chat.parallel_tool_calls r;
     Chat.response_format := Chat.response_format r |}.

Definition pool_name_for_request (s : Settings) (r : Chat.ChatCompletionRequest) : option string :=
  ModelPools.name <$> (Chat.req_model r ≫= ModelPools.pool_for_public_model (model_pools s)).

Inductive StreamItem :=
| Event (e : Provider.ProviderStreamEvent)
| Error (e : Provider.ProviderError)
| IdleTimeout
| End.

(** What waiting for the upstream brings: its next item, or the idle timeout. *)
Inductive Upstream :=
| Answered (a : option (result Provider.ProviderStreamEvent Provider.ProviderError))
| TimedOut.

Definition upstream_item (u : Upstream) : StreamItem :=
  match u with
  | Answered (Some (Ok event)) => Event event
  | Answered (Some (Err error)) => Error error
  | Answered None => End
  | TimedOut => IdleTimeout
  end.

Section Route.
Context (C : Type -> Type) `{!LruOps C} (S K : Type) `{!Keys.KeyStore S, !Cache.ResponseCache K}.
Variables (prefix_to_vec : PrefixFingerprint.CanonicalPrefix -> option (list Z))
  (cache_to_vec : Cache.CanonicalChatRequest -> option (list Z))
  (sha256 : list Z -> list Z)
  (json_to_string : Chat.Value -> option string)
  (chunk_to_string : Chat.ChatCompletionChunkResponse -> option string)
  (error_to_string : Chat.Uuid -> string -> string).
Variables (unix : Z -> Z) (sleep : Z -> Fallback.World C -> Fallback.World C).
Variable chat_completion : nat -> Strategy.Entry -> Chat.ChatCompletionRequest -> Fallback.World C ->
  result Chat.ChatCompletionResponse Provider.ProviderError * Fallback.World C.
Variable Stream : Type.
Variable chat_completion_stream : nat -> Strategy.Entry -> Chat.ChatCompletionRequest -> Fallback.World C ->
  result (Provider.ProviderStreamContext * Stream) Provider.ProviderError * Fallback.World C.
Variable stream_next : Stream -> Fallback.World C ->
  option (result Provider.ProviderStreamEvent Provider.ProviderError) * Stream * Fallback.World C.

Record App := {
  world : Fallback.World C;
  key_store : S;
  response_cache : option K;
  request_log : list RequestLog.RequestLogEntry
}.

Definition set_world (w : Fallback.World C) (a : App) : App :=
  {| world := w; key_store := key_store a; response_cache := response_cache a; request_log := request_log a |}.
Definition set_cache (c : K) (a : App) : App :=
  {| world := world a; key_store := key_store a; response_cache := Some c; request_log := request_log a |}.

Definition on_metrics (f : Metrics.MetricsRegistry -> Metrics.MetricsRegistry) (a : App) : App :=
  set_world (Fallback.with_metrics C f (world a)) a.

Definition record_cache_lookup (outcome : string) : App -> App :=
  on_metrics (Metrics.record_cache_lookup outcome).
Definition record_admission_rejection (reason : Admission.AdmissionRejectionReason) : App -> App :=
  on_metrics (Metrics.record_admission_rejection (Admission.AdmissionRejectionReason_as_str reason)).
Definition record_chat_failure (latency_ms : Z) (attempts : list Metrics.ProviderAttempt)
  (category : option RequestLog.RequestErrorCategory) : App -> App :=
  on_metrics (Metrics.record_chat_failure_with_category latency_ms attempts
                (RequestLog.RequestErrorCategory_as_str <$> category)).

Definition record_request_metadata (s : Settings) (e : RequestLog.RequestLogEntry) (a : App) : App :=
  if RequestLog.enabled (request_logging s)
  then {| world := world a; key_store := key_store a; response_cache := response_cache a;
          request_log := request_log a ++ [e] |}
  else a.

(** A failure to record usage is only logged. *)
Definition record_api_key_usage (key : Keys.AuthenticatedKey) (tokens : Z) (cost : F64.t) (a : App) : App :=
  let '(ks, _) := Keys.record_usage (unix (Fallback.now C (world a))) (Keys.key_id key) tokens cost (key_store a) in
  {| world := world a; key_store := ks; response_cache := response_cache a; request_log := request_log a |}.

(** [MetricsRequestGuard::new] and its drop. *)
Definition begin_request : App -> App := on_metrics Metrics.begin_request.
Definition end_request : App -> App := on_metrics Metrics.end_request.

Definition drop_request_guard (g : Admission.AdmissionGuard) (a : App) : App :=
  set_world (Fallback.drop_admission C g (world a)) a.

Definition elapsed (started : Z) (a : App) : Z := Metrics.elapsed_ms (Fallback.now C (world a)) started.

(** The metrics snapshot for routing: none if the mutex is poisoned; a panic
    while it is taken ([None]) poisons it. *)
Definition routing_metrics_snapshot (a : App) : option (option Metrics.MetricsSnapshot) :=
  match Fallback.metrics C (world a) with
  | Unpoisoned m => Some <$> Metrics.snapshot m
  | Poisoned => Some None
  end.

Definition poison (a : App) : App := set_world (Fallback.set_metrics C Poisoned (world a)) a.

Definition context_of (s : Settings) (snap : option Metrics.MetricsSnapshot) : Fallback.FallbackContext :=
  {| Fallback.providers := providers s; Fallback.model_pools := model_pools s;
     Fallback.routing_policy := routing_policy s; Fallback.prefix_affinity := prefix_affinity s;
     Fallback.metrics_snapshot := snap |}.

(** ** Outcomes *)

Record PendingStream := {
  ps_request : Chat.ChatCompletionRequest;
  ps_success : Fallback.StreamingFallbackSuccess Stream;
  ps_admission_guard : Admission.AdmissionGuard
}.

Inductive ChatResponse :=
| JsonResponse (r : Chat.ChatCompletionResponse) (x_rustygate_cache : string)
| EventStream (s : PendingStream).

(** [route] is the route constant the request is logged under: the recordings
    and the streaming set-up are the same text for both endpoints that route
    chat requests. *)
Section Handler.
Variables (s : Settings) (key : Keys.AuthenticatedKey) (request_id : Chat.Uuid) (route : string).

Definition log_entry (a : App) (request : option Chat.ChatCompletionRequest) (provider : option string)
  (status : RequestLog.RequestLogStatus) (latency : Z) (usage : option Chat.TokenUsage)
  (cost : option Provider.CostEstimate) (category : option RequestLog.RequestErrorCategory)
  (attempts : list Metrics.ProviderAttempt) : RequestLog.RequestLogEntry :=
  RequestLog.new (unix (Fallback.now C (world a))) request_id route request provider status
    latency usage cost category attempts (request_logging s).

(** [record_chat_failure] and [record_request_metadata] of a failed request. *)
Definition report_failure (started : Z) (request : option Chat.ChatCompletionRequest) (provider : option string)
  (usage : option Chat.TokenUsage) (attempts : list Metrics.ProviderAttempt)
  (category : option RequestLog.RequestErrorCategory) (a : App) : App :=
  let latency_ms := elapsed started a in
  let a := record_chat_failure latency_ms attempts category a in
  record_request_metadata s
    (log_entry a request provider RequestLog.Failure latency_ms usage None category attempts) a.

(** The error arms after the fallback loop, the same in both handlers. *)
Definition on_fallback_error (started : Z) (request : Chat.ChatCompletionRequest)
  (e : Fallback.FallbackError) (a : App) : App * Chat.AppError :=
  match e with
  | Fallback.NoProviderAvailable =>
      (report_failure started (Some request) None None [] (Some RequestLog.NoProviderAvailable) a,
       Chat.NoProviderAvailable (Some request_id))
  | Fallback.AdmissionRejected rejection =>
      let a := record_admission_rejection (Admission.reason rejection) a in
      (report_failure started (Some request) None None [] (Some RequestLog.AdmissionRejected) a,
       Admission.into_app_error rejection (Some request_id))
  | Fallback.ProviderFailed error attempts =>
      let error_category := RequestLog.from_provider_category <$> (last attempts ≫= Metrics.error_category) in
      (report_failure started (Some request) None None attempts error_category a,
       Provider.from_provider_error error (Some request_id))
  end.

(** The cache lookup of a request that is not streamed. *)
Definition look_up_cache (request : Chat.ChatCompletionRequest) (cache_key : option Cache.CacheKey) (a : App) :
  App * option Chat.ChatCompletionResponse :=
  match response_cache a with
  | None => (a, None)
  | Some cache =>
      if negb (Keys.cache_enabled key) then (record_cache_lookup "skip_disabled" a, None)
      else
        match cache_key with
        | Some k =>
            let '(cache, found) := Cache.cache_get (unix (Fallback.now C (world a))) k cache in
            let a := set_cache cache a in
            match found with
            | Some response => (record_cache_lookup "hit" a, Some response)
            | None => (record_cache_lookup "miss" a, None)
            end
        | None =>
            (record_cache_lookup
               (if Cache.temperature_positive request then "skip_temperature" else "skip_tools") a, None)
        end
  end.

Definition store_in_cache (cache_key : option Cache.CacheKey) (response : Chat.ChatCompletionResponse) (a : App) : App :=
  match Keys.cache_enabled key, response_cache a, cache_key with
  | true, Some cache, Some k =>
      set_cache (Cache.cache_put (unix (Fallback.now C (world a))) k response (response_cache_ttl s) cache) a
  | _, _, _ => a
  end.

(** After admission, not streamed.  [None] is a panic. *)
Definition answer_chat (started : Z) (request : Chat.ChatCompletionRequest) (a : App) :
  App * option (result ChatResponse Chat.AppError) :=
  let cache_key := Cache.cache_key_for_request cache_to_vec sha256 request in
  let '(a, cached) := look_up_cache request cache_key a in
  match cached with
  | Some response => (a, Some (Ok (JsonResponse response "HIT")))
  | None =>
      match routing_metrics_snapshot a with
      | None => (poison a, None)
      | Some snap =>
          let '(w, outcome) := Fallback.complete_chat C prefix_to_vec sha256 sleep chat_completion
            (context_of s snap) request (world a) in
          let a := set_world w a in
          match outcome with
          | None => (a, None)
          | Some (Ok success) =>
              let latency_ms := elapsed started a in
              let response := Fallback.response success in
              let cost := Fallback.cost_estimate success in
              let a := on_metrics (Metrics.record_chat_success (Chat.resp_usage response) cost
                                     latency_ms (Fallback.attempts success)) a in
              let a := record_request_metadata s
                (log_entry a (Some request) (Some (Fallback.succ_provider_name success)) RequestLog.Success
                   latency_ms (Some (Chat.resp_usage response)) (Some cost) None (Fallback.attempts success)) a in
              let a := record_api_key_usage key (Chat.total_tokens (Chat.resp_usage response))
                         (Provider.total_cost_usd cost) a in
              let a := store_in_cache cache_key response a in
              (a, Some (Ok (JsonResponse response "MISS")))
          | Some (Err e) => let '(a, err) := on_fallback_error started request e a in (a, Some (Err err))
          end
      end
  end.

(** [stream_chat_completions] up to the response; on an error the two guards
    are dropped, otherwise they move into the stream. *)
Definition start_stream (started : Z) (request : Chat.ChatCompletionRequest)
  (guard : Admission.AdmissionGuard) (a : App) : App * option (result ChatResponse Chat.AppError) :=
  match routing_metrics_snapshot a with
  | None => (end_request (drop_request_guard guard (poison a)), None)
  | Some snap =>
      let '(w, outcome) := Fallback.complete_chat_stream C prefix_to_vec sha256 sleep Stream
        chat_completion_stream stream_next (context_of s snap) request (world a) in
      let a := set_world w a in
      match outcome with
      | None => (end_request (drop_request_guard guard a), None)
      | Some (Ok success) =>
          (a, Some (Ok (EventStream {| ps_request := request; ps_success := success;
                                       ps_admission_guard := guard |})))
      | Some (Err e) =>
          let '(a, err) := on_fallback_error started request e a in
          (end_request (drop_request_guard guard a), Some (Err err))
      end
  end.

(** [chat_completions]; a body that is not a request is [None]. *)
Definition chat_completions (body : option Chat.ChatCompletionRequest) (a : App) :
  App * option (result ChatResponse Chat.AppError) :=
  let started := Fallback.now C (world a) in
  let a := begin_request a in
  match body with
  | None =>
      (end_request (report_failure started None None None [] (Some RequestLog.InvalidRequest) a),
       Some (Err (Chat.InvalidRequest
         "request body must be valid JSON matching the chat completion schema" (Some request_id))))
  | Some request =>
      match Chat.validate json_to_string request (Some request_id) (chat_validation_limits s) with
      | Err error =>
          (end_request (report_failure started (Some request) None None [] (Some RequestLog.InvalidRequest) a),
           Some (Err error))
      | Ok _ =>
          let request := resolve_request_model_alias s request in
          match Admission.check_token_budget (Fallback.admission C (world a)) request with
          | Err reason =>
              let a := record_admission_rejection reason a in
              (end_request (report_failure started (Some request) None None [] (Some RequestLog.InvalidRequest) a),
               Some (Err (Chat.InvalidRequest (admission_invalid_request_message reason) (Some request_id))))
          | Ok _ =>
              let '(adm, acquired) := Admission.try_acquire_request (Fallback.admission C (world a))
                (pool_name_for_request s request) in
              let a := set_world (Fallback.set_admission C adm (world a)) a in
              match acquired with
              | Err rejection =>
                  let a := record_admission_rejection (Admission.reason rejection) a in
                  (end_request (report_failure started (Some request) None None []
                     (Some RequestLog.AdmissionRejected) a),
                   Some (Err (Admission.into_app_error rejection (Some request_id))))
              | Ok guard =>
                  if Chat.stream_enabled request then start_stream started request guard a
                  else
                    let '(a, out) := answer_chat started request a in
                    (end_request (drop_request_guard guard a), out)
              end
          end
      end
  end.

(* ------------------------------------------------------------------ *)
(** ** The event stream *)

(** The variables the loop leaves behind. *)
Record StreamEnd := {
  end_usage : option Chat.TokenUsage;
  stream_failed : bool;
  stream_error_category : option RequestLog.RequestErrorCategory;
  stream_outcome : option Metrics.StreamOutcome;
  end_attempts : list Metrics.ProviderAttempt
}.

(** [None]: the body was dropped before the loop ended. *)
Definition Ended : Type := option StreamEnd.

Definition with_chunk_id (i : string) (c : Chat.ChatCompletionChunkResponse) : Chat.ChatCompletionChunkResponse :=
  {| Chat.chunk_id := i; Chat.chunk_object := Chat.chunk_object c; Chat.chunk_created := Chat.chunk_created c;
     Chat.chunk_model := Chat.chunk_model c; Chat.chunk_provider := Chat.chunk_provider c;
     Chat.chunk_choices := Chat.chunk_choices c |}.

(** The payload's code is always provider_failure. *)
Definition stream_error_payload (error : Chat.AppError) : string :=
  error_to_string request_id (Chat.public_message error).

(** [attempts.last_mut()] marked as failed. *)
Definition fail_last (category : Metrics.ProviderErrorCategory) (latency_ms : Z)
  (attempts : list Metrics.ProviderAttempt) : list Metrics.ProviderAttempt :=
  match last attempts with
  | None => attempts
  | Some a => take (length attempts - 1) attempts ++
      [{| Metrics.att_provider_name := Metrics.att_provider_name a;
          Metrics.attempt_order := Metrics.attempt_order a; Metrics.att_latency_ms := latency_ms;
          Metrics.success := false; Metrics.is_fallback := Metrics.is_fallback a;
          Metrics.error_category := Some category |}]
  end.

Definition failed_end (category : RequestLog.RequestErrorCategory) (outcome : Metrics.StreamOutcome)
  (attempts : list Metrics.ProviderAttempt) : StreamEnd :=
  {| end_usage := None; stream_failed := true; stream_error_category := Some category;
     stream_outcome := Some outcome; end_attempts := attempts |}.

(** One iteration: the payload it yields and, if it breaks, what holds after
    the yield (at a time only known then). *)
Definition react (started : Z) (attempts : list Metrics.ProviderAttempt) (item : StreamItem) :
  string * option (Fallback.World C -> StreamEnd) :=
  let latency w := Metrics.elapsed_ms (Fallback.now C w) started in
  let failure := stream_error_payload (Chat.ProviderFailure (Some request_id)) in
  match item with
  | Event (Provider.Chunk chunk) =>
      match chunk_to_string (with_chunk_id (Chat.openai_id "chatcmpl" request_id) chunk) with
      | Some payload => (payload, None)
      | None => (failure, Some (fun _ =>
          failed_end RequestLog.ProviderBadResponse Metrics.MidStreamFailure attempts))
      end
  | Event (Provider.Completed usage) =>
      ("[DONE]", Some (fun _ =>
         {| end_usage := Some usage; stream_failed := false; stream_error_category := None;
            stream_outcome := None; end_attempts := attempts |}))
  | Error error =>
      let category := Metrics.provider_error_category error in
      (stream_error_payload (Provider.from_provider_error error (Some request_id)), Some (fun w =>
         failed_end (RequestLog.from_provider_category category) Metrics.MidStreamFailure
           (fail_last category (latency w) attempts)))
  | IdleTimeout =>
      (stream_error_payload (Provider.from_provider_error Provider.Timeout (Some request_id)), Some (fun w =>
         failed_end RequestLog.Timeout Metrics.IdleTimeout (fail_last Metrics.CatTimeout (latency w) attempts)))
  | End =>
      (failure, Some (fun _ => failed_end RequestLog.ProviderBadResponse Metrics.Incomplete attempts))
  end.

(** The loop over the items that arrive, each after something may have happened
    to the world.  [polls] are the times the body is polled again after a
    yield, with what happened meanwhile: when they run out, the client is gone
    and the body is dropped at that yield; when the items run out, it is
    dropped while waiting. *)
Fixpoint event_loop (started : Z) (attempts : list Metrics.ProviderAttempt)
  (items : list (StreamItem * (Fallback.World C -> Fallback.World C)))
  (polls : list (Fallback.World C -> Fallback.World C)) (w : Fallback.World C) :
  list string * Fallback.World C * Ended :=
  match items with
  | [] => ([], w, None)
  | (item, tick) :: items =>
      let w := tick w in
      let '(payload, broken) := react started attempts item in
      match polls with
      | [] => ([payload], w, None)
      | resumed :: polls =>
          let w := resumed w in
          match broken with
          | Some fin => ([payload], w, Some (fin w))
          | None =>
              let '(payloads, w, e) := event_loop started attempts items polls w in
              (payload :: payloads, w, e)
          end
      end
  end.

Definition finish_stream (ps : PendingStream) (started : Z) (e : StreamEnd)
  (g : Metrics.StreamMetricsGuard) (a : App) : App * Metrics.StreamMetricsGuard :=
  let provider_name := Fallback.str_provider_name Stream (ps_success ps) in
  let finish outcome (a : App) :=
    let '(m, g) := Metrics.stream_guard_finish (Fallback.now C (world a)) outcome
      (Fallback.metrics C (world a)) g in
    (set_world (Fallback.set_metrics C m (world a)) a, g) in
  let latency_ms := elapsed started a in
  match end_usage e with
  | Some usage =>
      if stream_failed e
      then
        let '(a, g) := finish (default Metrics.MidStreamFailure (stream_outcome e)) a in
        (report_failure started (Some (ps_request ps)) (Some provider_name) (end_usage e) (end_attempts e)
           (Some (default RequestLog.ProviderBadResponse (stream_error_category e))) a, g)
      else
        let '(a, g) := finish Metrics.Completed a in
        let cost := Provider.estimate_cost (Fallback.str_pricing Stream (ps_success ps))
                      (Chat.prompt_tokens usage) (Chat.completion_tokens usage) in
        let a := on_metrics (Metrics.record_chat_success usage cost latency_ms (end_attempts e)) a in
        let a := record_request_metadata s
          (log_entry a (Some (ps_request ps)) (Some provider_name) RequestLog.Success latency_ms
             (Some usage) (Some cost) None (end_attempts e)) a in
        (record_api_key_usage key (Chat.total_tokens usage) (Provider.total_cost_usd cost) a, g)
  | None =>
      let '(a, g) := finish (default Metrics.MidStreamFailure (stream_outcome e)) a in
      (report_failure started (Some (ps_request ps)) (Some provider_name) (end_usage e) (end_attempts e)
         (Some (default RequestLog.ProviderBadResponse (stream_error_category e))) a, g)
  end.

(** The guards the generator owns, dropped in reverse order of declaration. *)
Definition drop_stream_guards (ps : PendingStream) (g : Metrics.StreamMetricsGuard) (a : App) : App :=
  let w := world a in
  let w := Fallback.set_metrics C (Metrics.stream_guard_drop (Fallback.now C w) (Fallback.metrics C w) g) w in
  let w := Fallback.drop_admission C (Fallback.admission_guard Stream (ps_success ps)) w in
  let w := Fallback.drop_in_flight C (Fallback.in_flight_guard Stream (ps_success ps)) w in
  end_request (drop_request_guard (ps_admission_guard ps) (set_world w a)).

(** The whole life of the body: the state after it, the payloads sent and how
    it ended. *)
Definition event_stream (ps : PendingStream) (started : Z)
  (answers : list (Upstream * (Fallback.World C -> Fallback.World C)))
  (polls : list (Fallback.World C -> Fallback.World C)) (a : App) : App * list string * Ended :=
  let g := Metrics.stream_guard_new (Fallback.now C (world a)) in
  let items := (Event (Fallback.first_event Stream (ps_success ps)), fun w => w) ::
               map (fun '(u, tick) => (upstream_item u, tick)) answers in
  let '(payloads, w, ended) :=
    event_loop started (Fallback.str_attempts Stream (ps_success ps)) items polls (world a) in
  let a := set_world w a in
  match ended with
  | Some e => let '(a, g) := finish_stream ps started e g a in (drop_stream_guards ps g a, payloads, ended)
  | None => (drop_stream_guards ps g a, payloads, ended)
  end.

(** A request from start to end: what the client got. *)
Inductive Served :=
| Replied (r : Chat.ChatCompletionResponse) (x_rustygate_cache : string)
| Refused (e : Chat.AppError)
| Streamed (payloads : list string) (how : Ended).

Definition serve (body : option Chat.ChatCompletionRequest)
  (answers : list (Upstream * (Fallback.World C -> Fallback.World C)))
  (polls : list (Fallback.World C -> Fallback.World C)) (a : App) : App * option Served :=
  let started := Fallback.now C (world a) in
  let '(a, out) := chat_completions body a in
  match out with
  | None => (a, None)
  | Some (Ok (JsonResponse r cache)) => (a, Some (Replied r cache))
  | Some (Ok (EventStream ps)) =>
      let '(a, payloads, how) := event_stream ps started answers polls a in (a, Some (Streamed payloads how))
  | Some (Err e) => (a, Some (Refused e))
  end.

End Handler.

End Route.

(* ------------------------------------------------------------------ *)
(** ** What the fallback loop preserves *)

Section Frame.
Context (C : Type -> Type) `{!LruOps C} (R : relation (Fallback.World C)) `{!PreOrder R}.
Variable sleep : Z -> Fallback.World C -> Fallback.World C.
Implicit Types (w : Fallback.World C).

(** A preorder on worlds that holds across each of the loop's updates. *)
Record framed : Prop := {
  f_allow : forall n w, R w (fst (Fallback.allow_provider_call C n w));
  f_success : forall n w, R w (Fallback.record_success C n w);
  f_failure : forall n w, R w (Fallback.record_failure C n w);
  f_admission : forall a w, R w (Fallback.set_admission C a w);
  f_index : forall i w, R w (Fallback.set_prefix_index C i w);
  f_routing : forall p why w, R w (Fallback.record_routing_decision C p why w);
  f_fingerprint : forall fp w, R w (Fallback.record_prefix_fingerprint C fp w);
  f_ttft : forall n ms w, R w (Fallback.with_metrics C (Metrics.record_provider_ttft n ms) w);
  f_new : forall n r w, R w (fst (Fallback.new_in_flight C n r w));
  f_drop : forall g w, R w (Fallback.drop_in_flight C g w);
  f_sleep : forall d w, R w (sleep d w)
}.
Hypothesis Hf : framed.

Lemma selection_kept fp n p w : R w (Fallback.record_prefix_affinity_selection C fp n p w).
Proof.
  unfold Fallback.record_prefix_affinity_selection. destruct (_ && _); [|done].
  destruct (PrefixFingerprint.fingerprint fp); [apply (f_index Hf)|done].
Qed.

Lemma on_error_kept {A} fail pol n fb k lat ord g e st w (again : Fallback.Loop C -> Fallback.Loop C * Fallback.Flow A) :
  (forall st', R (Fallback.world C st') (Fallback.world C (fst (again st')))) ->
  R w (Fallback.world C (fst (Fallback.on_error C sleep fail pol n fb k lat ord g e st w again))).
Proof.
  intros Ha. unfold Fallback.on_error. destruct (Fallback.fallback_decision e); [|apply (f_drop Hf)].
  destruct (_ <? _); [|cbn; etrans; [apply (f_failure Hf)|apply (f_drop Hf)]].
  destruct (Fallback.retry_backoff _ _ _); [|apply (f_drop Hf)].
  etrans; [|apply Ha]. cbn. etrans; [apply (f_sleep Hf)|apply (f_drop Hf)].
Qed.

Lemma candidate_loop_kept {A} (fail : Fallback.FallbackError -> A) try_candidate index cands eff rej st :
  (forall l e p fb g st, R (Fallback.world C st) (Fallback.world C (fst (try_candidate l e p fb g st)))) ->
  R (Fallback.world C st) (fst (Fallback.candidate_loop C fail try_candidate index cands eff rej st)).
Proof.
  intros Ht. revert index rej st. induction cands as [|e rest IH]; intros index rej st; [done|].
  cbn [Fallback.candidate_loop]. pose proof (f_allow Hf (Strategy.pname e) (Fallback.world C st)) as H0.
  destruct (Fallback.allow_provider_call C _ _) as [w1 []]; cbn [negb fst] in *;
    [|etrans; [exact H0|]; etrans; [|apply IH]; apply (f_routing Hf)].
  unfold Fallback.acquire_provider. destruct (Admission.try_acquire_provider _ _) as [adm [g|x]];
    [|etrans; [exact H0|]; etrans; [|apply IH]; apply (f_admission Hf)].
  match goal with |- context [try_candidate ?a ?b ?c ?d ?e ?f] =>
    pose proof (Ht a b c d e f) as H1; destruct (try_candidate a b c d e f) as [st' flow] end.
  cbn [fst Fallback.world] in H1.
  assert (R (Fallback.world C st) (Fallback.world C st')) as H2.
  { etrans; [exact H0|]. etrans; [apply (f_admission Hf adm)|].
    destruct (0 <? index)%nat; [|exact H1]. etrans; [|exact H1]. apply (f_routing Hf). }
  assert (R (Fallback.world C st) (Fallback.drop_admission C g (Fallback.world C st'))) as H3
    by (etrans; [exact H2|apply (f_admission Hf)]).
  destruct flow as [o|o|[err|]|]; cbn [fst Fallback.world]; try done; [destruct rest; [done|]|];
    (etrans; [|apply IH]; exact H3).
Qed.

Lemma route_kept to_vec sha256 context request w :
  R w (fst (fst (fst (Fallback.route C to_vec sha256 context request w)))).
Proof.
  unfold Fallback.route. cbv zeta. destruct (Strategy.candidate_providers_with_affinity _ _ _ _ _ _ _ _ _ _) as [sel idx].
  cbn [fst]. etrans; [apply (f_fingerprint Hf)|]. etrans; [apply (f_index Hf)|]. apply (f_routing Hf).
Qed.

Section Calls.
Variable chat_completion : nat -> Strategy.Entry -> Chat.ChatCompletionRequest -> Fallback.World C ->
  result Chat.ChatCompletionResponse Provider.ProviderError * Fallback.World C.
Hypothesis f_call : forall k e r w, R w (snd (chat_completion k e r w)).

Lemma retry_loop_kept remaining k e pol fb eff fp r st :
  R (Fallback.world C st)
    (Fallback.world C (fst (Fallback.retry_loop C sleep chat_completion remaining k e pol fb eff fp r st))).
Proof.
  revert k st. induction remaining as [|n IH]; intros k st; cbn [Fallback.retry_loop].
  all: pose proof (f_new Hf (Strategy.pname e) r (Fallback.world C st)) as Hn;
    destruct (Fallback.new_in_flight C _ _ _) as [w1 g]; cbn [fst] in Hn.
  all: match goal with |- context [chat_completion ?a ?b ?c ?d] =>
    pose proof (f_call a b c d) as Hc; destruct (chat_completion a b c d) as [[resp|er] w2] end; cbn [snd] in Hc.
  all: etrans; [exact Hn|]; etrans; [exact Hc|]; try (apply on_error_kept; done).
  all: cbn [fst Fallback.world]; etrans; [apply (f_success Hf)|]; etrans; [apply (f_routing Hf)|];
    etrans; [apply selection_kept|apply (f_drop Hf)].
Qed.

Lemma complete_chat_kept to_vec sha256 context request w :
  R w (fst (Fallback.complete_chat C to_vec sha256 sleep chat_completion context request w)).
Proof.
  unfold Fallback.complete_chat. pose proof (route_kept to_vec sha256 context request w) as Hr.
  destruct (Fallback.route C to_vec sha256 context request w) as [[[w1 fp] cands] eff]. cbn [fst] in Hr.
  destruct cands as [|c cs]; [done|]. etrans; [exact Hr|]. apply (candidate_loop_kept _ _ _ _ _ _ (Fallback.Build_Loop C w1 [] 0)).
  intros. apply retry_loop_kept.
Qed.

Variable Stream : Type.
Variable call : nat -> Strategy.Entry -> Chat.ChatCompletionRequest -> Fallback.World C ->
  result (Provider.ProviderStreamContext * Stream) Provider.ProviderError * Fallback.World C.
Variable next : Stream -> Fallback.World C ->
  option (result Provider.ProviderStreamEvent Provider.ProviderError) * Stream * Fallback.World C.
Hypothesis f_scall : forall k e r w, R w (snd (call k e r w)).
Hypothesis f_next : forall st w, R w (snd (next st w)).

Lemma stream_retry_loop_kept remaining k l e pol fb gd eff fp r last st :
  R (Fallback.world C st)
    (Fallback.world C (fst (Fallback.stream_retry_loop C sleep Stream call next remaining k l e pol fb gd eff fp r last st))).
Proof.
  revert k last st. induction remaining as [|n IH]; intros k last st; cbn [Fallback.stream_retry_loop].
  all: pose proof (f_new Hf (Strategy.pname e) r (Fallback.world C st)) as Hn;
    destruct (Fallback.new_in_flight C _ _ _) as [w1 g]; cbn [fst] in Hn.
  all: match goal with |- context [call ?a ?b ?c ?d] =>
    pose proof (f_scall a b c d) as Hc; destruct (call a b c d) as [[[ctx str]|er] w2] end; cbn [snd] in Hc.
  all: etrans; [exact Hn|]; etrans; [exact Hc|]; try (apply on_error_kept; done).
  all: match goal with |- context [next ?a ?b] =>
    pose proof (f_next a b) as Hx; destruct (next a b) as [[[[ev|er]|] str'] w3] end; cbn [snd] in Hx.
  all: etrans; [exact Hx|]; try (apply on_error_kept; done).
  all: try (destruct l; apply (f_drop Hf)).
  all: cbn [fst Fallback.world]; etrans; [apply (f_ttft Hf)|]; etrans; [apply (f_success Hf)|];
    etrans; [apply (f_routing Hf)|apply selection_kept].
Qed.

Lemma complete_chat_stream_kept to_vec sha256 context request w :
  R w (fst (Fallback.complete_chat_stream C to_vec sha256 sleep Stream call next context request w)).
Proof.
  unfold Fallback.complete_chat_stream. pose proof (route_kept to_vec sha256 context request w) as Hr.
  destruct (Fallback.route C to_vec sha256 context request w) as [[[w1 fp] cands] eff]. cbn [fst] in Hr.
  destruct cands as [|c cs]; [done|]. etrans; [exact Hr|]. apply (candidate_loop_kept _ _ _ _ _ _ (Fallback.Build_Loop C w1 [] 0)).
  intros. apply stream_retry_loop_kept.
Qed.

End Calls.
End Frame.

(* ------------------------------------------------------------------ *)
(** ** Counters *)

(** In-flight, total, successful and failed requests. *)
Definition counters (m : mutex Metrics.MetricsRegistry) : option (Z * Z * Z * Z) :=
  match m with
  | Unpoisoned m => Some (Metrics.in_flight_requests m, Metrics.total_requests m,
                          Metrics.successful_requests m, Metrics.failed_requests m)
  | Poisoned => None
  end.

Definition counters_at {C} (w : Fallback.World C) : option (Z * Z * Z * Z) := counters (Fallback.metrics C w).

Lemma with_metrics_counters {C} (f : Metrics.MetricsRegistry -> Metrics.MetricsRegistry) (w : Fallback.World C) :
  (forall m, counters (Unpoisoned (f m)) = counters (Unpoisoned m)) ->
  counters_at (Fallback.with_metrics C f w) = counters_at w.
Proof.
  intros Hf. unfold counters_at, Fallback.with_metrics. destruct (Fallback.metrics C w) as [m|] eqn:E; [apply Hf|by rewrite E].
Qed.

(** Worlds with the same counters. *)
Definition same_counters {C} (w w' : Fallback.World C) : Prop := counters_at w' = counters_at w.

#[global] Instance same_counters_preorder {C} : PreOrder (@same_counters C).
Proof. split; [done|]. intros w1 w2 w3 H1 H2. exact (eq_trans H2 H1). Qed.

Lemma counters_framed {C} `{!LruOps C} sleep :
  (forall d w, counters_at (sleep d w) = counters_at w) -> framed C same_counters sleep.
Proof.
  intros Hs. split; try done; unfold same_counters.
  - intros. unfold Fallback.allow_provider_call. by destruct (Resilience.allow_provider_call _ _ _).
  - intros. by apply with_metrics_counters.
  - intros. by apply with_metrics_counters.
  - intros. by apply with_metrics_counters.
  - intros n r w. unfold counters_at, Fallback.new_in_flight, Metrics.in_flight_guard_new. cbn.
    by destruct (Fallback.metrics C w).
  - intros g w. unfold counters_at, Fallback.drop_in_flight, Metrics.in_flight_guard_drop, Metrics.in_flight_guard_finish.
    cbn. destruct (Metrics.guard_active g); [|done]. by destruct (Fallback.metrics C w).
Qed.

Lemma attempts_counters l m : counters (Unpoisoned (Metrics.record_provider_attempts l m)) = counters (Unpoisoned m).
Proof.
  unfold Metrics.record_provider_attempts. revert m. induction l as [|a l IH]; intros m; [done|]. cbn [foldl].
  rewrite IH. unfold Metrics.record_provider_attempt. cbv zeta. repeat case_match; done.
Qed.

Lemma success_counters u c ms l m i t s f : counters (Unpoisoned m) = Some (i, t, s, f) ->
  counters (Unpoisoned (Metrics.record_chat_success u c ms l m)) = Some (i, u64_add t 1, u64_add s 1, f).
Proof. intros [= <- <- <- <-]. unfold Metrics.record_chat_success. cbv zeta. by rewrite attempts_counters. Qed.

Lemma failure_counters ms l c m i t s f : counters (Unpoisoned m) = Some (i, t, s, f) ->
  counters (Unpoisoned (Metrics.record_chat_failure_with_category ms l c m)) = Some (i, u64_add t 1, s, u64_add f 1).
Proof.
  intros [= <- <- <- <-]. unfold Metrics.record_chat_failure_with_category. cbv zeta. rewrite attempts_counters. by destruct c.
Qed.

(* ------------------------------------------------------------------ *)
(** ** Request slots *)

(** A controller in use: limits fit, counters are sane. *)
Definition request_wf (c : Admission.AdmissionController) : Prop :=
  Fallback.admission_wf c /\
  (forall n, Admission.max_global_in_flight (Admission.limits c) = Some n -> n <= u64_max) /\
  (forall p n, Admission.pool_max_in_flight (Admission.limits c) !! p = Some n -> n <= u64_max) /\
  forall k, Admission.counters c = Unpoisoned k ->
    0 <= Admission.global_in_flight k /\ map_Forall (fun _ v => 1 <= v) (Admission.pool_in_flight k).

Lemma request_acquire_then_drop c p c' g : request_wf c ->
  Admission.try_acquire_request c p = (c', Ok g) -> Fallback.admission_wf c' /\ Admission.drop_guard c' g = c.
Proof.
  intros ((Hl & Hwf) & Hg & Hp & Hk). unfold Admission.try_acquire_request.
  destruct c as [l [k|]]; cbn [Admission.counters lock Admission.limits] in *; [|done].
  destruct (Hk k eq_refl) as [Hk1 Hk2]. clear Hk. specialize (Hwf k eq_refl).
  destruct (is_some_and _ _) eqn:Eg; [done|]. destruct (Admission.pool_full _ k p) eqn:Ep; [done|].
  unfold Admission.take_global, Admission.take_pool, Admission.pool_full in *. cbn [Admission.limits] in *.
  destruct k as [gl pl pr]. cbn in Hk1, Hk2, Hwf.
  assert (forall k', Admission.provider_in_flight k' = pr -> Fallback.admission_wf
    (Admission.set_counters {| Admission.limits := l; Admission.counters := Unpoisoned {|
      Admission.global_in_flight := gl; Admission.pool_in_flight := pl; Admission.provider_in_flight := pr |} |} k')) as Hwf'.
  { intros k' Hk'. split; [exact Hl|]. cbn. intros k2 [= <-]. by rewrite Hk'. }
  assert (forall n, Admission.max_global_in_flight l = Some n -> sat_sub (u64_sat_add gl 1) 1 = gl) as Hglob.
  { intros n Hn. rewrite Hn in Eg. cbn in Eg. zbool. specialize (Hg n Hn). unfold sat_sub, u64_sat_add. lia. }
  assert (forall q n, p = Some q -> Admission.pool_max_in_flight l !! q = Some n ->
    sub_or_remove q 1 (count_add q 1 pl) = pl) as Hpool.
  { intros q n -> Hn. rewrite Hn in Ep. cbn in Ep. zbool. specialize (Hp q n Hn).
    apply Fallback.count_add_sub; [done|lia]. }
  destruct (Admission.max_global_in_flight l) as [ng|] eqn:Elg; cbn [is_some]; (destruct p as [q|];
    [destruct (Admission.pool_max_in_flight l !! q) as [nq|] eqn:Elp; cbn [is_some]|]);
    intros [= <- <-]; (split; [by apply Hwf'|]);
    unfold Admission.drop_guard, Admission.finish, Admission.guard_new, Admission.release, Admission.set_counters;
    cbn -[sub_or_remove count_add sat_sub u64_sat_add]; unfold Admission.decrement_or_remove;
    rewrite ?(Hglob _ eq_refl), ?(Hpool _ _ eq_refl Elp); done.
Qed.

Lemma request_acquire_error c p c' r : Admission.try_acquire_request c p = (c', Err r) -> c' = c.
Proof.
  unfold Admission.try_acquire_request. destruct (lock _); [|by intros [= <- _]].
  destruct (is_some_and _ _); [by intros [= <- _]|]. destruct (Admission.pool_full _ _ _); [by intros [= <- _]|].
  by destruct (Admission.take_global _ _) as [k1 s1], (Admission.take_pool _ k1 _) as [k2 s2].
Qed.

(* ------------------------------------------------------------------ *)
(** ** Bookkeeping of one request *)

Section Accounting.
Context (C : Type -> Type) `{!LruOps C} (S K : Type) `{!Keys.KeyStore S, !Cache.ResponseCache K}.
Variables (unix : Z -> Z) (s : Settings) (key : Keys.AuthenticatedKey) (rid : Chat.Uuid) (route : string).
Notation App := (App C S K).
Implicit Types (a : App) (w : Fallback.World C).

(** The entry logged for a request: under its id, with its outcome, and without
    the prompt unless that is switched on. *)
Definition logged_as (st : RequestLog.RequestLogStatus) (e : RequestLog.RequestLogEntry) : Prop :=
  RequestLog.request_id e = rid /\ RequestLog.route e = route /\ RequestLog.status e = st /\
  (RequestLog.log_prompt_content (request_logging s) = false -> RequestLog.prompt_messages e = None).

(** From [a] to [a'] the request was counted and logged once as [st], or not
    at all ([None]); the number of requests in flight is the same. *)
Definition booked (st : option RequestLog.RequestLogStatus) a a' : Prop :=
  exists i t su f, counters_at (world C S K a) = Some (i, t, su, f) /\
  match st with
  | None => counters_at (world C S K a') = Some (i, t, su, f) /\ request_log C S K a' = request_log C S K a
  | Some st =>
      counters_at (world C S K a') =
        Some (match st with
              | RequestLog.Success => (i, u64_add t 1, u64_add su 1, f)
              | RequestLog.Failure => (i, u64_add t 1, su, u64_add f 1)
              end) /\
      if RequestLog.enabled (request_logging s)
      then exists e, request_log C S K a' = request_log C S K a ++ [e] /\ logged_as st e
      else request_log C S K a' = request_log C S K a
  end.

(** Nothing that matters here changed. *)
Definition same_books a a' : Prop :=
  counters_at (world C S K a') = counters_at (world C S K a) /\ request_log C S K a' = request_log C S K a.

Lemma booked_same st a a1 a2 a3 : same_books a a1 -> booked st a1 a2 -> same_books a2 a3 -> booked st a a3.
Proof.
  intros [H1 H2] (i & t & su & f & Hc & Hst) [H3 H4]. exists i, t, su, f. split; [by rewrite <-H1|].
  destruct st as [st|]; rewrite H3, H4, <-H2; exact Hst.
Qed.

Lemma same_books_refl a : same_books a a.
Proof. done. Qed.

Lemma same_books_trans a1 a2 a3 : same_books a1 a2 -> same_books a2 a3 -> same_books a1 a3.
Proof. intros [E1 E2] [E3 E4]. split; [exact (eq_trans E3 E1)|exact (eq_trans E4 E2)]. Qed.

Lemma none_booked a a' i t su f : counters_at (world C S K a) = Some (i, t, su, f) -> same_books a a' -> booked None a a'.
Proof. intros Hc [H1 H2]. exists i, t, su, f. split; [done|]. by rewrite H1, H2. Qed.

Lemma on_metrics_same f a : (forall m, counters (Unpoisoned (f m)) = counters (Unpoisoned m)) ->
  same_books a (on_metrics C S K f a).
Proof. intros Hf. split; [by apply with_metrics_counters|done]. Qed.

Lemma metrics_some a i t su f : counters_at (world C S K a) = Some (i, t, su, f) ->
  exists m, Fallback.metrics C (world C S K a) = Unpoisoned m /\ counters (Unpoisoned m) = Some (i, t, su, f).
Proof. unfold counters_at. destruct (Fallback.metrics C (world C S K a)) as [m|]; [|done]. by exists m. Qed.

Lemma on_metrics_counters f a m : Fallback.metrics C (world C S K a) = Unpoisoned m ->
  counters_at (world C S K (on_metrics C S K f a)) = counters (Unpoisoned (f m)).
Proof. intros Hm. unfold counters_at, on_metrics, Fallback.with_metrics. by rewrite Hm. Qed.

Lemma metadata_log e a : world C S K (record_request_metadata C S K s e a) = world C S K a /\
  request_log C S K (record_request_metadata C S K s e a) =
    if RequestLog.enabled (request_logging s) then request_log C S K a ++ [e] else request_log C S K a.
Proof. unfold record_request_metadata. by destruct (RequestLog.enabled _). Qed.

Lemma entry_logged_as a r p st l u c cat at_ :
  logged_as st (log_entry C S K unix s rid route a r p st l u c cat at_).
Proof.
  repeat split. cbn. intros Hoff. unfold RequestLog.prompt_messages_of. by rewrite Hoff.
Qed.

(** Counting, then logging. *)
Lemma book_one st a f e i t su fl :
  counters_at (world C S K a) = Some (i, t, su, fl) ->
  (forall m, counters (Unpoisoned m) = Some (i, t, su, fl) -> counters (Unpoisoned (f m)) =
     Some (match st with
           | RequestLog.Success => (i, u64_add t 1, u64_add su 1, fl)
           | RequestLog.Failure => (i, u64_add t 1, su, u64_add fl 1)
           end)) ->
  logged_as st e ->
  booked (Some st) a (record_request_metadata C S K s e (on_metrics C S K f a)).
Proof.
  intros Hc Hf He. destruct (metrics_some a _ _ _ _ Hc) as (m & Hm & Hcm).
  exists i, t, su, fl. split; [done|]. destruct (metadata_log e (on_metrics C S K f a)) as [-> ->].
  rewrite (on_metrics_counters f a m Hm), (Hf m Hcm). split; [done|].
  destruct (RequestLog.enabled _); [by exists e|done].
Qed.

Lemma report_failure_booked started r p u at_ cat a i t su f : counters_at (world C S K a) = Some (i, t, su, f) ->
  booked (Some RequestLog.Failure) a (report_failure C S K unix s rid route started r p u at_ cat a).
Proof.
  intros Hc. unfold report_failure, record_chat_failure.
  eapply book_one; [exact Hc| |apply entry_logged_as]. intros m Hm. by apply failure_counters.
Qed.

Lemma rejection_same r a : same_books a (record_admission_rejection C S K r a).
Proof. exact (on_metrics_same (Metrics.record_admission_rejection _) a (fun m => eq_refl)). Qed.

Lemma fallback_error_booked started r e a i t su f : counters_at (world C S K a) = Some (i, t, su, f) ->
  booked (Some RequestLog.Failure) a (fst (on_fallback_error C S K unix s rid route started r e a)).
Proof.
  intros Hc. destruct e as [|x|er at_]; cbn [on_fallback_error fst]; try (by eapply report_failure_booked).
  pose proof (rejection_same (Admission.reason x) a) as Hr.
  eapply booked_same; [exact Hr| |apply same_books_refl].
  eapply report_failure_booked. by rewrite (proj1 Hr).
Qed.

Lemma look_up_cache_same r k a : same_books a (fst (look_up_cache C S K unix key r k a)).
Proof.
  unfold look_up_cache. destruct (response_cache C S K a) as [c|]; [|done].
  destruct (Keys.cache_enabled key); cbn [negb]; [|by apply on_metrics_same].
  destruct k as [k|]; [|by apply on_metrics_same].
  destruct (Cache.cache_get _ k c) as [c' [resp|]]; cbn [fst];
    exact (on_metrics_same (Metrics.record_cache_lookup _) (set_cache C S K c' a) (fun m => eq_refl)).
Qed.

Lemma usage_same n x a : same_books a (record_api_key_usage C S K unix key n x a).
Proof. unfold record_api_key_usage. by destruct (Keys.record_usage _ _ _ _ _). Qed.

Lemma store_same k r a : same_books a (store_in_cache C S K unix s key k r a).
Proof. unfold store_in_cache. by destruct (Keys.cache_enabled key), (response_cache C S K a), k. Qed.

End Accounting.

(* ------------------------------------------------------------------ *)
(** ** The whole request *)

Section Service.
Context (C : Type -> Type) `{!LruOps C} (S K : Type) `{!Keys.KeyStore S, !Cache.ResponseCache K}.
Variables (prefix_to_vec : PrefixFingerprint.CanonicalPrefix -> option (list Z))
  (cache_to_vec : Cache.CanonicalChatRequest -> option (list Z))
  (sha256 : list Z -> list Z)
  (json_to_string : Chat.Value -> option string)
  (chunk_to_string : Chat.ChatCompletionChunkResponse -> option string)
  (error_to_string : Chat.Uuid -> string -> string).
Variables (unix : Z -> Z) (sleep : Z -> Fallback.World C -> Fallback.World C).
Variable chat_completion : nat -> Strategy.Entry -> Chat.ChatCompletionRequest -> Fallback.World C ->
  result Chat.ChatCompletionResponse Provider.ProviderError * Fallback.World C.
Variable Stream : Type.
Variable chat_completion_stream : nat -> Strategy.Entry -> Chat.ChatCompletionRequest -> Fallback.World C ->
  result (Provider.ProviderStreamContext * Stream) Provider.ProviderError * Fallback.World C.
Variable stream_next : Stream -> Fallback.World C ->
  option (result Provider.ProviderStreamEvent Provider.ProviderError) * Stream * Fallback.World C.
Variables (s : Settings) (key : Keys.AuthenticatedKey) (rid : Chat.Uuid) (route : string).
Notation App := (App C S K).
Notation world := (world C S K).
Implicit Types (a : App) (w : Fallback.World C).

(** While this request waits, no other one is counted, admitted or
    reconfigured. *)
Definition undisturbed w w' : Prop :=
  counters_at w' = counters_at w /\ Fallback.admission C w' = Fallback.admission C w /\
  Fallback.same_policies C w w'.

Record quiet_env : Prop := {
  q_sleep : forall d w, undisturbed w (sleep d w);
  q_call : forall k e r w, undisturbed w (snd (chat_completion k e r w));
  q_scall : forall k e r w, undisturbed w (snd (chat_completion_stream k e r w));
  q_next : forall st w, undisturbed w (snd (stream_next st w))
}.
Hypothesis Hq : quiet_env.

Notation booked := (booked C S K s rid route).
Notation same_books := (same_books C S K).

(** A state in which a request can be handled. *)
Definition ready a : Prop :=
  (exists m, Fallback.metrics C (world a) = Unpoisoned m /\ Metrics.registry_ok m) /\
  Fallback.admission_wf (Fallback.admission C (world a)) /\ Fallback.jitters_ok C (world a).

Lemma ready_counters a : ready a -> exists i t su f, counters_at (world a) = Some (i, t, su, f).
Proof. intros [(m & Hm & _) _]. unfold counters_at. rewrite Hm. cbn. eauto. Qed.

Lemma on_metrics_ready o f a : f = (fun m => Metrics.apply_op m o) -> ready a -> ready (on_metrics C S K f a).
Proof.
  intros -> ((m & Hm & Hok) & Ha & Hj). unfold on_metrics, Fallback.with_metrics. rewrite Hm. split; [|by split].
  eexists. split; [reflexivity|]. by apply Metrics.apply_op_ok.
Qed.

Lemma on_metrics_admission f a :
  Fallback.admission C (world (on_metrics C S K f a)) = Fallback.admission C (world a).
Proof. unfold on_metrics. apply Fallback.with_metrics_admission. Qed.

Lemma look_up_cache_ready r k a : ready a ->
  ready (fst (look_up_cache C S K unix key r k a)) /\
  Fallback.admission C (world (fst (look_up_cache C S K unix key r k a))) = Fallback.admission C (world a).
Proof.
  intros Hr. assert (forall o a, ready a -> ready (record_cache_lookup C S K o a) /\
    Fallback.admission C (world (record_cache_lookup C S K o a)) = Fallback.admission C (world a)) as Hrec.
  { intros o a' Ha. split; [by apply (on_metrics_ready (Metrics.CacheLookup o))|apply on_metrics_admission]. }
  unfold look_up_cache. destruct (response_cache C S K a) as [c|]; [|done].
  destruct (Keys.cache_enabled key); cbn [negb]; [|by apply Hrec].
  destruct k as [k|]; [|by apply Hrec].
  destruct (Cache.cache_get _ k c) as [c' [resp|]]; cbn [fst]; exact (Hrec _ (set_cache C S K c' a) Hr).
Qed.

Lemma snapshot_ready a : ready a -> exists snap, routing_metrics_snapshot C S K a = Some snap.
Proof.
  intros [(m & Hm & Hok) _]. unfold routing_metrics_snapshot. rewrite Hm.
  destruct (Metrics.snapshot_of_ok m Hok) as [x ->]. by eexists.
Qed.

Lemma report_failure_admission started r p u at_ cat a :
  Fallback.admission C (world (report_failure C S K unix s rid route started r p u at_ cat a)) = Fallback.admission C (world a).
Proof.
  unfold report_failure. match goal with |- context [record_request_metadata C S K s ?e ?x] =>
    destruct (metadata_log C S K s e x) as [-> _] end. apply on_metrics_admission.
Qed.

Lemma fallback_error_admission started r e a :
  Fallback.admission C (world (fst (on_fallback_error C S K unix s rid route started r e a))) = Fallback.admission C (world a).
Proof.
  destruct e; cbn [on_fallback_error fst]; rewrite report_failure_admission; try done. apply on_metrics_admission.
Qed.

(** What the outcome should be booked as. *)
Definition bill_response (r : result (ChatResponse Stream) Chat.AppError) : option RequestLog.RequestLogStatus :=
  match r with
  | Ok (JsonResponse _ _ c) => if String.eqb c "HIT" then None else Some RequestLog.Success
  | Ok (EventStream _ _) => None
  | Err _ => Some RequestLog.Failure
  end.

Lemma usage_world n x a : world (record_api_key_usage C S K unix key n x a) = world a.
Proof. unfold record_api_key_usage. by destruct (Keys.record_usage _ _ _ _ _). Qed.

Lemma store_world k r a : world (store_in_cache C S K unix s key k r a) = world a.
Proof. unfold store_in_cache. by destruct (Keys.cache_enabled key), (response_cache C S K a), k. Qed.

Lemma sleep_counters d w : counters_at (sleep d w) = counters_at w.
Proof. apply (q_sleep Hq). Qed.

Lemma sleep_quiet_ok : Fallback.sleep_quiet C sleep.
Proof. intros d w. apply (q_sleep Hq). Qed.

Lemma sleep_policies : Fallback.Hsleep_ok C sleep.
Proof. intros d w. apply (q_sleep Hq). Qed.

(** The fallback loop, called in a state in which it can run: it answers, and
    leaves the counters and the admission slots alone. *)
Lemma chat_call_quiet snap r a : ready a ->
  exists w o, Fallback.complete_chat C prefix_to_vec sha256 sleep chat_completion (context_of s snap) r (world a) = (w, Some o) /\
    counters_at w = counters_at (world a) /\ Fallback.admission C w = Fallback.admission C (world a).
Proof.
  intros (_ & Hwf & Hj).
  pose proof (complete_chat_kept C same_counters sleep (counters_framed sleep sleep_counters) chat_completion
    (fun k e r w => proj1 (q_call Hq k e r w)) prefix_to_vec sha256 (context_of s snap) r (world a)) as Hobs.
  pose proof (Fallback.complete_chat_admission C prefix_to_vec sha256 sleep chat_completion (context_of s snap) r
    (world a) Hwf sleep_quiet_ok (fun k e r w => proj1 (proj2 (q_call Hq k e r w)))) as Hadm.
  destruct (Rounds.complete_chat_ends C prefix_to_vec sha256 sleep sleep_policies r chat_completion
    (fun k e r w => proj2 (proj2 (q_call Hq k e r w))) (context_of s snap) (world a) Hj) as (o & Ho).
  destruct (Fallback.complete_chat C _ _ _ _ _ _ _) as [w2 out]. cbn [fst snd] in *. subst out. by eexists _, _.
Qed.

Lemma answer_chat_booked started r a : ready a ->
  exists a' out, answer_chat C S K prefix_to_vec cache_to_vec sha256 unix sleep chat_completion Stream s key rid route
      started r a = (a', Some out) /\
    (forall ps, out <> Ok (EventStream Stream ps)) /\
    Fallback.admission C (world a') = Fallback.admission C (world a) /\ booked (bill_response out) a a'.
Proof.
  intros Hr. unfold answer_chat. set (ck := Cache.cache_key_for_request cache_to_vec sha256 r).
  destruct (look_up_cache_ready r ck a Hr) as [Hr1 Ha1]. pose proof (look_up_cache_same C S K unix key r ck a) as Hs1.
  destruct (look_up_cache C S K unix key r ck a) as [a1 cached]. cbn [fst] in *.
  destruct (ready_counters a Hr) as (i & t & su & f & Hc).
  destruct cached as [resp|].
  { eexists _, _. split; [reflexivity|]. split; [done|]. split; [exact Ha1|]. by eapply none_booked. }
  destruct (snapshot_ready a1 Hr1) as [snap ->].
  destruct (chat_call_quiet snap r a1 Hr1) as (w2 & o & -> & Hobs & Hadm).
  set (a2 := set_world C S K w2 a1).
  assert (same_books a a2) as Hs2 by (destruct Hs1 as [E1 E2]; split; cbn; [by rewrite Hobs|done]).
  assert (counters_at (world a2) = Some (i, t, su, f)) as Hc2 by (rewrite <-Hc; apply Hs2).
  destruct o as [success|e].
  - eexists _, _. split; [reflexivity|]. split; [done|]. split.
    + rewrite store_world, usage_world. match goal with |- context [record_request_metadata C S K s ?e ?x] =>
        destruct (metadata_log C S K s e x) as [-> _] end. rewrite on_metrics_admission. cbn. by rewrite Hadm.
    + cbn [bill_response]. eapply booked_same; [exact Hs2| |].
      * eapply book_one; [exact Hc2| |apply entry_logged_as]. intros m Hm. by apply success_counters.
      * eapply same_books_trans; [apply usage_same|apply store_same].
  - pose proof (fallback_error_booked C S K unix s rid route started r e a2 i t su f Hc2) as Hb.
    pose proof (fallback_error_admission started r e a2) as Hfa.
    destruct (on_fallback_error C S K unix s rid route started r e a2) as [a3 err]. cbn [fst] in *.
    eexists _, _. split; [reflexivity|]. split; [done|]. split; [rewrite Hfa; cbn; by rewrite Hadm|].
    eapply booked_same; [exact Hs2|exact Hb|done].
Qed.

(** ** Around the handler: the in-flight count and the request's slot *)

Lemma around st a a2 i t su f : counters_at (world a) = Some (i, t, su, f) -> 0 <= i < u64_max ->
  booked st (begin_request C S K a) a2 -> booked st a (end_request C S K a2).
Proof.
  intros Hc Hi (i' & t' & su' & f' & Hc' & Hst).
  destruct (metrics_some C S K a _ _ _ _ Hc) as (m & Hm & Hcm).
  unfold begin_request in Hc'. rewrite (on_metrics_counters C S K _ a m Hm) in Hc'.
  injection Hcm as <- <- <- <-. injection Hc' as <- <- <- <-. exists (Metrics.in_flight_requests m), (Metrics.total_requests m),
    (Metrics.successful_requests m), (Metrics.failed_requests m). split; [exact Hc|].
  assert (sat_sub (u64_sat_add (Metrics.in_flight_requests m) 1) 1 = Metrics.in_flight_requests m) as Hi1
    by (unfold sat_sub, u64_sat_add; lia).
  destruct st as [st|]; destruct Hst as [Hc2 Hl]; (split; [|exact Hl]).
  - assert (exists m2, Fallback.metrics C (world a2) = Unpoisoned m2) as [m2 Hm2].
    { unfold counters_at in Hc2. destruct (Fallback.metrics C (world a2)); [eauto|done]. }
    unfold end_request. rewrite (on_metrics_counters C S K _ a2 m2 Hm2). unfold counters_at in Hc2. rewrite Hm2 in Hc2.
    destruct st; injection Hc2 as Ei Et Es Ef; cbn; by rewrite Ei, Hi1, Et, Es, Ef.
  - destruct (metrics_some C S K a2 _ _ _ _ Hc2) as (m2 & Hm2 & Hcm2). unfold end_request.
    rewrite (on_metrics_counters C S K _ a2 m2 Hm2). injection Hcm2 as Ei Et Es Ef; cbn; by rewrite Ei, Hi1, Et, Es, Ef.
Qed.

Lemma begin_ready a : ready a -> ready (begin_request C S K a).
Proof. by apply (on_metrics_ready Metrics.BeginRequest). Qed.

(** ** Starting a stream *)

(** What the handler leaves to the body of a streaming response. *)
Definition stream_owes (guard : Admission.AdmissionGuard) a (ps : PendingStream Stream) a' : Prop :=
  same_books a a' /\ ps_admission_guard Stream ps = guard /\
  Admission.drop_guard (Fallback.admission C (world a')) (Fallback.admission_guard Stream (ps_success Stream ps))
  = Fallback.admission C (world a).

(** The last steps of a request: its slot is released, then it leaves. *)
Definition leaves guard (adm : Admission.AdmissionController) st a a' : Prop :=
  exists a2, a' = end_request C S K (drop_request_guard C S K guard a2) /\
    booked st a a2 /\ Fallback.admission C (world a2) = adm.

Lemma start_stream_booked started r guard a : ready a ->
  exists a' out, start_stream C S K prefix_to_vec sha256 unix sleep Stream chat_completion_stream stream_next s rid route
      started r guard a = (a', Some out) /\
    match out with
    | Ok (EventStream _ ps) => stream_owes guard a ps a'
    | Ok (JsonResponse _ _ _) => False
    | Err _ => leaves guard (Fallback.admission C (world a)) (Some RequestLog.Failure) a a'
    end.
Proof.
  intros Hr. unfold start_stream. destruct (ready_counters a Hr) as (i & t & su & f & Hc).
  destruct (snapshot_ready a Hr) as [snap ->]. destruct Hr as (_ & Hwf & Hj).
  pose proof (complete_chat_stream_kept C same_counters sleep (counters_framed sleep sleep_counters) Stream
    chat_completion_stream stream_next (fun k e r w => proj1 (q_scall Hq k e r w)) (fun st w => proj1 (q_next Hq st w))
    prefix_to_vec sha256 (context_of s snap) r (world a)) as Hobs.
  pose proof (Fallback.complete_chat_stream_admission C prefix_to_vec sha256 sleep Stream chat_completion_stream
    stream_next (context_of s snap) r (world a) Hwf sleep_quiet_ok
    (fun k e r w => proj1 (proj2 (q_scall Hq k e r w))) (fun st w => proj1 (proj2 (q_next Hq st w)))) as Hadm.
  destruct (Rounds.complete_chat_stream_ends C prefix_to_vec sha256 sleep sleep_policies r Stream chat_completion_stream stream_next
    (fun k e r w => proj2 (proj2 (q_scall Hq k e r w))) (fun st w => proj2 (proj2 (q_next Hq st w)))
    (context_of s snap) (world a) Hj) as (o & Ho).
  destruct (Fallback.complete_chat_stream C _ _ _ _ _ _ _ _ _) as [w2 out]. cbn [fst snd] in *. subst out.
  set (a2 := set_world C S K w2 a).
  assert (counters_at (world a2) = Some (i, t, su, f)) as Hc2 by (rewrite <-Hc; exact Hobs).
  destruct o as [success|e].
  - eexists _, _. split; [reflexivity|]. split; [by split|]. by split.
  - pose proof (fallback_error_booked C S K unix s rid route started r e a2 i t su f Hc2) as Hb.
    pose proof (fallback_error_admission started r e a2) as Hfa.
    destruct (on_fallback_error C S K unix s rid route started r e a2) as [a3 err]. cbn [fst] in *.
    eexists _, _. split; [reflexivity|]. exists a3. split; [done|]. split; [|rewrite Hfa; exact Hadm].
    eapply (booked_same C S K s rid route _ a a2); [by split|exact Hb|done].
Qed.

(** ** The body of a streaming response *)

Lemma undisturbed_trans w1 w2 w3 : undisturbed w1 w2 -> undisturbed w2 w3 -> undisturbed w1 w3.
Proof.
  intros (A1 & A2 & A3) (B1 & B2 & B3). split; [exact (eq_trans B1 A1)|]. split; [exact (eq_trans B2 A2)|].
  intros p. specialize (A3 p). specialize (B3 p). congruence.
Qed.

Lemma undisturbed_refl w : undisturbed w w.
Proof. done. Qed.

Definition calm (tick : Fallback.World C -> Fallback.World C) : Prop := forall w, undisturbed w (tick w).

Lemma event_loop_undisturbed started at_ items polls w :
  Forall (fun '(_, tick) => calm tick) items -> Forall calm polls ->
  undisturbed w (snd (fst (event_loop C chunk_to_string error_to_string rid started at_ items polls w))).
Proof.
  intros Hi. revert polls w. induction Hi as [|[item tick] items Ht _ IH]; intros polls w Hp; [done|].
  cbn [event_loop]. destruct (react C chunk_to_string error_to_string rid started at_ item) as [payload broken].
  destruct Hp as [|p polls Hp Hps]; [apply Ht|]. destruct broken as [fin|].
  - eapply undisturbed_trans; [apply Ht|apply Hp].
  - specialize (IH polls (p (tick w)) Hps). destruct (event_loop C _ _ _ _ _ items polls _) as [[pl w'] e].
    cbn [fst snd] in *. eapply undisturbed_trans; [|exact IH]. eapply undisturbed_trans; [apply Ht|apply Hp].
Qed.

(** What a stream is booked as: nothing when the client left early. *)
Definition bill_stream (how : Ended) : option RequestLog.RequestLogStatus :=
  match how with
  | None => None
  | Some e => Some (if negb (stream_failed e) && is_some (end_usage e) then RequestLog.Success else RequestLog.Failure)
  end.

Lemma guard_finish_counters now o m g :
  counters (fst (Metrics.stream_guard_finish now o m g)) = counters m.
Proof. unfold Metrics.stream_guard_finish. destruct (Metrics.stream_active g); [|done]. by destruct m. Qed.

Lemma finish_stream_booked ps started e g a i t su f : counters_at (world a) = Some (i, t, su, f) ->
  booked (bill_stream (Some e)) a (fst (finish_stream C S K unix Stream s key rid route ps started e g a)) /\
  Fallback.admission C (world (fst (finish_stream C S K unix Stream s key rid route ps started e g a)))
  = Fallback.admission C (world a).
Proof.
  intros Hc.
  assert (forall o, let m := fst (Metrics.stream_guard_finish (Fallback.now C (world a)) o (Fallback.metrics C (world a)) g) in
    let a' := set_world C S K (Fallback.set_metrics C m (world a)) a in
    same_books a a' /\ counters_at (world a') = Some (i, t, su, f)) as Hfin.
  { intros o m a'. assert (counters_at (world a') = counters_at (world a)) as E by apply guard_finish_counters.
    split; [by split|]. by rewrite E. }
  unfold finish_stream, bill_stream.
  destruct (end_usage e) as [u|] eqn:Eu; [destruct (stream_failed e)|]; cbn [negb andb is_some]; rewrite ?andb_false_r.
  all: match goal with |- context [Metrics.stream_guard_finish ?x ?o ?y ?z] =>
    destruct (Hfin o) as [Hs Hc']; destruct (Metrics.stream_guard_finish x o y z) as [m g'] end; cbn [fst] in *.
  1, 3: split; [eapply (booked_same C S K s rid route); [exact Hs|by eapply report_failure_booked|done]|
                by rewrite report_failure_admission].
  split.
  - eapply (booked_same C S K s rid route); [exact Hs| |apply usage_same].
    eapply book_one; [exact Hc'| |apply entry_logged_as]. intros m' Hm. by apply success_counters.
  - rewrite usage_world. match goal with |- context [record_request_metadata C S K s ?e ?x] =>
      destruct (metadata_log C S K s e x) as [-> _] end. by rewrite on_metrics_admission.
Qed.

(** The body gives back what it owes when it ends or is dropped. *)
Lemma drop_guards_leave guard ps a0 a st g a2 : stream_owes guard a0 ps a ->
  booked st a0 a2 -> Fallback.admission C (world a2) = Fallback.admission C (world a) ->
  leaves guard (Fallback.admission C (world a0)) st a0 (drop_stream_guards C S K Stream ps g a2).
Proof.
  intros (Hs & Hg & Hd) Hb Had. unfold drop_stream_guards. rewrite Hg. eexists. split; [reflexivity|]. split.
  - eapply booked_same; [apply same_books_refl|exact Hb|]. split; [|done]. cbn.
    etrans; [exact (f_drop _ _ _ (counters_framed sleep sleep_counters) _ _)|]. apply guard_finish_counters.
  - cbn. by rewrite Had.
Qed.

Lemma event_stream_booked guard ps started answers polls a0 a i t su f :
  stream_owes guard a0 ps a -> counters_at (world a0) = Some (i, t, su, f) ->
  Forall (fun '(_, tick) => calm tick) answers -> Forall calm polls ->
  exists a' payloads how,
    event_stream C S K chunk_to_string error_to_string unix Stream s key rid route ps started answers polls a
      = (a', payloads, how) /\
    leaves guard (Fallback.admission C (world a0)) (bill_stream how) a0 a'.
Proof.
  intros (Hs & Hg & Hd) Hc Ha Hp. unfold event_stream. set (items := _ :: _).
  assert (Forall (fun '(_, tick) => calm tick) items) as Hi.
  { constructor; [intros w; apply undisturbed_refl|]. apply Forall_map. eapply Forall_impl; [exact Ha|]. by intros [u tick]. }
  pose proof (event_loop_undisturbed started (Fallback.str_attempts Stream (ps_success Stream ps)) items polls
    (world a) Hi Hp) as (E1 & E2 & _).
  destruct (event_loop C _ _ _ _ _ items polls _) as [[payloads w] how]. cbn [fst snd] in E1, E2.
  set (a1 := set_world C S K w a).
  assert (same_books a0 a1) as Hs1 by (eapply same_books_trans; [exact Hs|by split]).
  assert (counters_at (world a1) = Some (i, t, su, f)) as Hc1 by (rewrite <-Hc; apply Hs1).
  assert (forall st g a2, booked st a1 a2 -> Fallback.admission C (world a2) = Fallback.admission C w ->
    leaves guard (Fallback.admission C (world a0)) st a0 (drop_stream_guards C S K Stream ps g a2)) as Hdrop.
  { intros st g a2 Hb Had. apply (drop_guards_leave guard ps a0 a); [by split|by eapply booked_same|congruence]. }
  destruct how as [e|].
  - destruct (finish_stream_booked ps started e (Metrics.stream_guard_new (Fallback.now C (world a))) a1 _ _ _ _ Hc1) as [Hb Had].
    destruct (finish_stream C S K _ _ _ _ _ _ _ _ e _ a1) as [a2 g2]. cbn [fst] in *.
    eexists _, _, _. split; [reflexivity|]. by apply Hdrop.
  - eexists _, _, _. split; [reflexivity|]. apply Hdrop; [|done]. by eapply none_booked.
Qed.

(** ** The handler *)

(** What the client got and what it is booked as. *)
Definition bill (o : Served) : option RequestLog.RequestLogStatus :=
  match o with
  | Replied _ c => if String.eqb c "HIT" then None else Some RequestLog.Success
  | Refused _ => Some RequestLog.Failure
  | Streamed _ how => bill_stream how
  end.

(** A gateway in service: metrics usable, counters sane. *)
Definition in_service a : Prop :=
  (exists m, Fallback.metrics C (world a) = Unpoisoned m /\ Metrics.registry_ok m /\
     0 <= Metrics.in_flight_requests m < u64_max) /\
  request_wf (Fallback.admission C (world a)).

(** In service, and no backoff can panic. *)
Definition fit a : Prop :=
  (exists m, Fallback.metrics C (world a) = Unpoisoned m /\ Metrics.registry_ok m /\
     0 <= Metrics.in_flight_requests m < u64_max) /\
  request_wf (Fallback.admission C (world a)) /\ Fallback.jitters_ok C (world a).

Lemma in_service_fit a : in_service a -> Fallback.jitters_ok C (world a) -> fit a.
Proof. intros [Hm Hr] Hj. by split. Qed.

Lemma fit_ready a : fit a -> ready a.
Proof. intros ((m & Hm & Hok & _) & [Hwf _] & Hj). split; [by exists m|]. by split. Qed.

Lemma fit_counters a : fit a ->
  exists i t su f, counters_at (world a) = Some (i, t, su, f) /\ 0 <= i < u64_max.
Proof. intros ((m & Hm & _ & Hi) & _). unfold counters_at. rewrite Hm. cbn. do 4 eexists. by split. Qed.

(** A request that fails before anything is called. *)
Lemma turned_away started r cat a a1 : fit a -> same_books (begin_request C S K a) a1 ->
  Fallback.admission C (world a1) = Fallback.admission C (world a) ->
  let a' := end_request C S K (report_failure C S K unix s rid route started r None None [] cat a1) in
  Fallback.admission C (world a') = Fallback.admission C (world a) /\ booked (Some RequestLog.Failure) a a'.
Proof.
  intros Hin Hs Ha a'. destruct (fit_counters a Hin) as (i & t & su & f & Hc & Hi). split.
  - unfold a', end_request. by rewrite on_metrics_admission, report_failure_admission.
  - eapply around; [exact Hc|done|]. eapply booked_same; [exact Hs| |done].
    destruct (ready_counters _ (begin_ready a (fit_ready a Hin))) as (i' & t' & su' & f' & Hc').
    eapply report_failure_booked. rewrite (proj1 Hs). exact Hc'.
Qed.

(** Leaving gives back the slot the request entered with. *)
Lemma leaves_settled guard st a adm p a' : fit a ->
  Admission.try_acquire_request (Fallback.admission C (world a)) p = (adm, Ok guard) ->
  leaves guard adm st (set_world C S K (Fallback.set_admission C adm (world (begin_request C S K a))) (begin_request C S K a)) a' ->
  Fallback.admission C (world a') = Fallback.admission C (world a) /\ booked st a a'.
Proof.
  intros Hin Hacq (a2 & -> & Hb & Ha2). destruct (fit_counters a Hin) as (i & t & su & f & Hc & Hi).
  destruct (request_acquire_then_drop _ _ _ _ (proj1 (proj2 Hin)) Hacq) as [_ Hdrop]. split.
  - unfold end_request. rewrite on_metrics_admission. cbn. by rewrite Ha2.
  - eapply around; [exact Hc|done|]. by eapply booked_same; [|exact Hb|].
Qed.

Lemma serve_accounted body answers polls a : fit a ->
  Forall (fun '(_, tick) => calm tick) answers -> Forall calm polls ->
  exists a' o,
    serve C S K prefix_to_vec cache_to_vec sha256 json_to_string chunk_to_string error_to_string unix sleep
      chat_completion Stream chat_completion_stream stream_next s key rid route body answers polls a = (a', Some o) /\
    Fallback.admission C (world a') = Fallback.admission C (world a) /\ booked (bill o) a a'.
Proof.
  intros Hin Ha Hp. unfold serve, chat_completions. cbv zeta.
  set (b := begin_request C S K a). set (started := Fallback.now C (world a)).
  assert (Fallback.admission C (world b) = Fallback.admission C (world a)) as Hab by apply on_metrics_admission.
  destruct body as [r|]; [|eexists _, _; split; [reflexivity|by apply turned_away]].
  destruct (Chat.validate _ _ _ _) as [?|err]; [|eexists _, _; split; [reflexivity|by apply turned_away]].
  set (r' := resolve_request_model_alias s r). rewrite Hab.
  destruct (Admission.check_token_budget _ r') as [?|why].
  2: { eexists _, _. split; [reflexivity|]. apply turned_away; [done|apply rejection_same|].
       unfold record_admission_rejection. by rewrite on_metrics_admission. }
  destruct (Admission.try_acquire_request _ _) as [adm acquired] eqn:Hacq.
  set (b1 := set_world C S K (Fallback.set_admission C adm (world b)) b).
  destruct acquired as [guard|rej].
  2: { eexists _, _. split; [reflexivity|]. apply turned_away; [done|exact (rejection_same C S K _ b1)|].
       unfold record_admission_rejection. rewrite on_metrics_admission. by apply request_acquire_error in Hacq. }
  assert (ready b1) as Hr.
  { destruct (begin_ready a (fit_ready a Hin)) as (Hm & _ & Hj). split; [exact Hm|]. split; [|exact Hj].
    by eapply request_acquire_then_drop; [apply Hin|]. }
  destruct (Chat.stream_enabled r').
  - destruct (start_stream_booked started r' guard b1 Hr) as (a2 & out & -> & Hout).
    destruct out as [[?|ps]|err]; [done| |eexists _, _; split; [reflexivity|by eapply leaves_settled]].
    destruct (ready_counters b1 Hr) as (i & t & su & f & Hc).
    destruct (event_stream_booked guard ps started answers polls b1 a2 i t su f Hout Hc Ha Hp)
      as (a3 & payloads & how & -> & Hl).
    eexists _, _. split; [reflexivity|]. by eapply leaves_settled.
  - destruct (answer_chat_booked started r' b1 Hr) as (a2 & out & -> & Hns & Had & Hb).
    assert (leaves guard adm (bill_response out) b1 (end_request C S K (drop_request_guard C S K guard a2))) as Hl
      by (by exists a2).
    destruct out as [[resp c|ps]|err]; [|by destruct (Hns ps)|]; (eexists _, _; split; [reflexivity|]);
      by eapply leaves_settled in Hl.
Qed.

End Service.

(* ------------------------------------------------------------------ *)
(** ** What a stream sends *)

Section Relay.
Context (C : Type -> Type).
Variables (chunk_to_string : Chat.ChatCompletionChunkResponse -> option string)
  (error_to_string : Chat.Uuid -> string -> string) (rid : Chat.Uuid).

(** The payload of a chunk: the provider's id is replaced by the gateway's. *)
Definition relayed (c : Chat.ChatCompletionChunkResponse) : option string :=
  chunk_to_string (with_chunk_id (Chat.openai_id "chatcmpl" rid) c).

Definition terminal (t : StreamItem) : bool :=
  match t with Event (Provider.Chunk c) => negb (is_some (relayed c)) | _ => true end.

Definition completes (t : StreamItem) : bool :=
  match t with Event (Provider.Completed _) => true | _ => false end.

(** The last payload: the end mark or an error object. *)
Definition last_payload (t : StreamItem) : string :=
  match t with
  | Event (Provider.Completed _) => "[DONE]"
  | Error e => stream_error_payload error_to_string rid (Provider.from_provider_error e (Some rid))
  | IdleTimeout => stream_error_payload error_to_string rid (Provider.from_provider_error Provider.Timeout (Some rid))
  | _ => stream_error_payload error_to_string rid (Chat.ProviderFailure (Some rid))
  end.

Lemma react_terminal started at_ t : terminal t = true ->
  exists fin, react C chunk_to_string error_to_string rid started at_ t = (last_payload t, Some fin) /\
    forall w, bill_stream (Some (fin w)) = Some (if completes t then RequestLog.Success else RequestLog.Failure).
Proof.
  unfold terminal, relayed. destruct t as [[c|u]|e| |]; cbn [react]; intros Ht; [|eexists; split; [reflexivity|done]..].
  destruct (chunk_to_string _); [done|]. eexists. by split.
Qed.

Lemma event_loop_relays started at_ chunks payloads t rest polls w items :
  Forall2 (fun c p => relayed c = Some p) chunks payloads -> terminal t = true ->
  map fst items = map (fun c => Event (Provider.Chunk c)) chunks ++ t :: rest ->
  let r := event_loop C chunk_to_string error_to_string rid started at_ items polls w in
  fst (fst r) = take (length polls + 1) (payloads ++ [last_payload t]) /\
  bill_stream (snd r) =
    if (length chunks <? length polls)%nat
    then Some (if completes t then RequestLog.Success else RequestLog.Failure) else None.
Proof.
  intros Hc Ht. revert items polls w. induction Hc as [|c p chunks payloads Hcp _ IH]; intros items polls w Hi;
    (destruct items as [|[item tick] items]; [done|]); cbn [map fst app] in Hi; injection Hi as -> Hi; cbn [event_loop].
  - destruct (react_terminal started at_ t Ht) as (fin & -> & Hfin).
    destruct polls as [|q polls]; [done|]. cbv zeta. cbn [fst snd app length Nat.ltb Nat.leb take Nat.add].
    split; [by rewrite take_nil|apply Hfin].
  - cbn [react]. unfold relayed in Hcp. rewrite Hcp. destruct polls as [|q polls]; [done|].
    specialize (IH items polls (q (tick w)) Hi). cbv zeta in IH.
    destruct (event_loop C _ _ _ _ _ items polls _) as [[pl w'] e]. cbn [fst snd] in *. destruct IH as [-> Hb].
    split; [done|]. exact Hb.
Qed.

End Relay.

Lemma event_stream_relays C S K `{!Keys.KeyStore S} chunk_to_string error_to_string unix Stream s key rid route
  ps started answers polls a chunks payloads t rest :
  Event (Fallback.first_event Stream (ps_success Stream ps)) :: map (fun '(u, _) => upstream_item u) answers
    = map (fun c => Event (Provider.Chunk c)) chunks ++ t :: rest ->
  Forall2 (fun c p => relayed chunk_to_string rid c = Some p) chunks payloads ->
  terminal chunk_to_string rid t = true ->
  let '(_, sent, how) :=
    event_stream C S K chunk_to_string error_to_string unix Stream s key rid route ps started answers polls a in
  sent = take (length polls + 1) (payloads ++ [last_payload error_to_string rid t]) /\
  bill_stream how =
    if (length chunks <? length polls)%nat
    then Some (if completes t then RequestLog.Success else RequestLog.Failure) else None.
Proof.
  intros Hitems Hc Ht. unfold event_stream. set (items := (_, _) :: _).
  pose proof (event_loop_relays C chunk_to_string error_to_string rid started
    (Fallback.str_attempts Stream (ps_success Stream ps)) chunks payloads t rest polls (world C S K a) items Hc Ht) as H'.
  destruct (event_loop C _ _ _ _ _ items polls _) as [[sent w] how]. cbn [fst snd] in H'.
  destruct H' as [-> Hb].
  { rewrite <-Hitems. unfold items. cbn [map fst]. f_equal. rewrite map_map. apply map_ext. by intros [u tick]. }
  destruct how as [e|]; [|done]. by destruct (finish_stream C S K _ _ _ _ _ _ _ _ _ _ _) as [a2 g2].
Qed.

(* ------------------------------------------------------------------ *)
(** ** Properties *)

(** C2: every chat request is accounted for exactly once.  Take a gateway in
    service in which no provider's backoff jitter is [u64::MAX] (with that one
    the backoff panics), and a request that runs alone: while it waits nothing
    else moves the request counters or the admission counters or changes a
    retry policy.  Then whatever the body, the settings, the cache, the key
    store and the answers of providers, and wherever a streaming client leaves,
    the request comes to an end without a panic, gives back the admission slots
    it took (its own and its provider's) and its place among the requests in
    flight, and is counted and logged exactly once, as a success when it was
    answered and as a failure when it was refused or its stream broke; a cache
    hit and a stream the client left are neither counted nor logged.  No prompt
    is logged unless that is switched on. *)
Theorem every_request_accounted C `{!LruOps C} S K `{!Keys.KeyStore S, !Cache.ResponseCache K}
  prefix_to_vec cache_to_vec sha256 json_to_string chunk_to_string error_to_string unix sleep call
  Stream scall next s key rid body answers polls a :
  quiet_env C sleep call Stream scall next -> in_service C S K a -> Fallback.jitters_ok C (world C S K a) ->
  Forall (fun '(_, tick) => calm C tick) answers -> Forall (calm C) polls ->
  exists a' o,
    serve C S K prefix_to_vec cache_to_vec sha256 json_to_string chunk_to_string error_to_string unix sleep
      call Stream scall next s key rid CHAT_COMPLETIONS_ROUTE body answers polls a = (a', Some o) /\
    Fallback.admission C (world C S K a') = Fallback.admission C (world C S K a) /\
    booked C S K s rid CHAT_COMPLETIONS_ROUTE (bill o) a a'.
Proof. intros Hq Hin Hj. apply serve_accounted; [done|by apply in_service_fit]. Qed.

(** C12: a stream relays the provider's chunks in order, each once and under
    the gateway's id, then exactly one last payload: [DONE] when the provider
    completed, else an error object; nothing of what the provider sends
    afterwards.  A client that polls [n] times gets the first [n + 1] payloads.
    The request is booked as a success exactly when the end mark was reached
    and the body polled past it. *)
Theorem stream_relays_in_order C S K `{!Keys.KeyStore S} chunk_to_string error_to_string unix Stream s key rid route
  ps started answers polls a chunks payloads t rest :
  Event (Fallback.first_event Stream (ps_success Stream ps)) :: map (fun '(u, _) => upstream_item u) answers
    = map (fun c => Event (Provider.Chunk c)) chunks ++ t :: rest ->
  Forall2 (fun c p => relayed chunk_to_string rid c = Some p) chunks payloads ->
  terminal chunk_to_string rid t = true ->
  let '(_, sent, how) :=
    event_stream C S K chunk_to_string error_to_string unix Stream s key rid route ps started answers polls a in
  sent = take (length polls + 1) (payloads ++ [last_payload error_to_string rid t]) /\
  bill_stream how =
    if (length chunks <? length polls)%nat
    then Some (if completes t then RequestLog.Success else RequestLog.Failure) else None.
Proof. apply event_stream_relays. Qed.

(* ------------------------------------------------------------------ *)
(** ** A concrete gateway *)

Definition demo_settings : Settings :=
  {| providers := Fallback.providers Fallback.demo_context;
     model_pools := ModelPools.ModelPoolIndex_default; model_aliases := ∅;
     routing_policy := Config.Priority; prefix_affinity := Config.PrefixAffinityConfig_default;
     chat_validation_limits := Chat.ChatValidationLimits_default;
     request_logging := RequestLog.RequestLoggingConfig_default; response_cache_ttl := from_millis 60000 |}.

Definition demo_app : App ref_lru Keys.StaticKeyStore Cache.SqliteResponseCache :=
  {| world := Fallback.demo_world Fallback.demo_registry 0; key_store := {| Keys.static_raw_key := "k" |};
     response_cache := Some Cache.empty_cache; request_log := [] |}.

Definition demo_key : Keys.AuthenticatedKey := Keys.example_key 1000.

Definition demo_body (stream : bool) : Chat.ChatCompletionRequest :=
  {| Chat.req_model := Some "m"; Chat.messages := [{| Chat.role := Chat.User; Chat.content := "hello"; Chat.tool_calls := None;
                          Chat.tool_call_id := None |}];
     Chat.temperature := None; Chat.max_tokens := None; Chat.stream := Some stream; Chat.tools := None;
     Chat.tool_choice := None; Chat.parallel_tool_calls := None; Chat.response_format := None |}.

Definition demo_serve (stream : bool) (polls : list (Fallback.World ref_lru -> Fallback.World ref_lru)) :=
  let cache := Cache.SqliteResponseCache_ResponseCache Cache.example_from_str Cache.example_to_string in
  serve ref_lru Keys.StaticKeyStore Cache.SqliteResponseCache Fallback.demo_to_vec (fun _ => Some [])
    Strategy.example_sha256 (fun _ => Some "") (fun c => Some (Chat.chunk_id c)) (fun _ m => m) (fun t => t)
    Fallback.demo_sleep (Fallback.demo_call Provider.Timeout true) (list Provider.ProviderStreamEvent)
    Fallback.demo_stream_call Fallback.demo_next demo_settings demo_key 7 CHAT_COMPLETIONS_ROUTE (Some (demo_body stream)) [] polls demo_app.

Lemma demo_quiet : quiet_env ref_lru Fallback.demo_sleep (Fallback.demo_call Provider.Timeout true)
  (list Provider.ProviderStreamEvent) Fallback.demo_stream_call Fallback.demo_next.
Proof. split; intros; (split; [reflexivity|]; split; [reflexivity|intros p; reflexivity]). Qed.

Lemma demo_in_service : in_service ref_lru Keys.StaticKeyStore Cache.SqliteResponseCache demo_app.
Proof.
  split.
  - exists Metrics.MetricsRegistry_default. split; [reflexivity|]. split; [exact (Metrics.run_ok [])|].
    vm_compute. split; [discriminate|reflexivity].
  - split; [split|split; [|split]]; cbn.
    + intros p n. by rewrite lookup_empty.
    + intros k [= <-]. apply map_Forall_empty.
    + done.
    + intros p n. by rewrite lookup_empty.
    + intros k [= <-]. split; [done|apply map_Forall_empty].
Qed.

Definition demo_polls (n : nat) : list (Fallback.World ref_lru -> Fallback.World ref_lru) := repeat (fun w => w) n.

Lemma demo_bills : map (fun '(st, n) => bill <$> snd (demo_serve st (demo_polls n))) [(false, 0%nat); (true, 1%nat); (true, 0%nat)]
  = [Some (Some RequestLog.Success); Some (Some RequestLog.Success); Some None].
Proof. vm_compute. reflexivity. Qed.

Lemma demo_bill st n a o : demo_serve st (demo_polls n) = (a, Some o) ->
  forall k b, [(false, 0%nat); (true, 1%nat); (true, 0%nat)] !! k = Some (st, n) ->
  [Some (Some RequestLog.Success); Some (Some RequestLog.Success); Some None] !! k = Some (Some b) -> bill o = b.
Proof.
  intros E k b Hk Hb. rewrite <-demo_bills, list_lookup_fmap, Hk in Hb.
  change (Some (bill <$> snd (demo_serve st (demo_polls n))) = Some (Some b)) in Hb. rewrite E in Hb. by injection Hb.
Qed.

Lemma every_request_accounted_witness :
  (exists a' o, demo_serve false (demo_polls 0) = (a', Some o) /\ bill o = Some RequestLog.Success /\
     length (request_log _ _ _ a') = 1%nat) /\
  (exists a' o, demo_serve true (demo_polls 1) = (a', Some o) /\ bill o = Some RequestLog.Success) /\
  (exists a' o, demo_serve true (demo_polls 0) = (a', Some o) /\ bill o = None /\ request_log _ _ _ a' = []).
Proof.
  assert (forall stream polls, Forall (calm ref_lru) polls -> exists a' o, demo_serve stream polls = (a', Some o) /\
    booked ref_lru Keys.StaticKeyStore Cache.SqliteResponseCache demo_settings 7 CHAT_COMPLETIONS_ROUTE (bill o) demo_app a') as Hall.
  { intros stream polls Hp.
    destruct (every_request_accounted ref_lru Keys.StaticKeyStore Cache.SqliteResponseCache
      (H0 := Cache.SqliteResponseCache_ResponseCache Cache.example_from_str Cache.example_to_string)
      Fallback.demo_to_vec (fun _ => Some [])
      Strategy.example_sha256 (fun _ => Some "") (fun c => Some (Chat.chunk_id c)) (fun _ m => m) (fun t => t)
      Fallback.demo_sleep (Fallback.demo_call Provider.Timeout true) (list Provider.ProviderStreamEvent)
      Fallback.demo_stream_call Fallback.demo_next demo_settings demo_key 7 (Some (demo_body stream)) [] polls demo_app
      demo_quiet demo_in_service Fallback.demo_jitters) as (a' & o & E & _ & Hb); [constructor|exact Hp|].
    exists a', o. split; [exact E|exact Hb]. }
  split; [|split].
  - destruct (Hall false (demo_polls 0)) as (a' & o & E & Hb); [constructor|]. exists a', o.
    pose proof (demo_bill false 0 a' o E 0%nat (Some RequestLog.Success) eq_refl eq_refl) as Ho.
    split; [exact E|]. split; [exact Ho|]. rewrite Ho in Hb. destruct Hb as (? & ? & ? & ? & _ & _ & e & -> & _). reflexivity.
  - destruct (Hall true (demo_polls 1)) as (a' & o & E & _); [repeat constructor|]. exists a', o.
    split; [exact E|exact (demo_bill true 1 a' o E 1%nat (Some RequestLog.Success) eq_refl eq_refl)].
  - destruct (Hall true (demo_polls 0)) as (a' & o & E & Hb); [constructor|]. exists a', o.
    pose proof (demo_bill true 0 a' o E 2%nat None eq_refl eq_refl) as Ho.
    split; [exact E|]. split; [exact Ho|]. rewrite Ho in Hb. destruct Hb as (? & ? & ? & ? & _ & _ & ->). reflexivity.
Defined.

Definition demo_chunk : Chat.ChatCompletionChunkResponse :=
  Chat.from_delta 3 0 "m" "a" 0 Chat.ChatDelta_default None.

Definition demo_pending : PendingStream unit :=
  {| ps_request := demo_body true;
     ps_success := {|
       Fallback.str_context := {| Provider.response_id := 3; Provider.ctx_created := 0; Provider.ctx_model := "m" |};
       Fallback.first_event := Provider.Chunk demo_chunk; Fallback.str_stream := tt;
       Fallback.str_provider_name := "a";
       Fallback.str_pricing := {| Provider.cost_per_1k_input_tokens := F64.zero;
                                  Provider.cost_per_1k_output_tokens := F64.zero |};
       Fallback.str_attempts := []; Fallback.in_flight_guard := {| Metrics.guard_provider_name := "a";
         Metrics.guard_units := 1; Metrics.guard_active := true |};
       Fallback.admission_guard := Admission.guard_new [] |};
     ps_admission_guard := Admission.guard_new [] |}.

Definition demo_events (polls : nat) :=
  event_stream ref_lru Keys.StaticKeyStore Cache.SqliteResponseCache (fun c => Some (Chat.chunk_id c)) (fun _ m => m)
    (fun t => t) unit demo_settings demo_key 7 CHAT_COMPLETIONS_ROUTE demo_pending 0
    [(Answered (Some (Ok (Provider.Completed Chat.TokenUsage_default))), fun w => w)] (repeat (fun w => w) polls) demo_app.

Lemma stream_relays_in_order_witness :
  (let '(_, sent, how) := demo_events 2 in
   sent = [Chat.openai_id "chatcmpl" 7; "[DONE]"] /\ bill_stream how = Some RequestLog.Success) /\
  (let '(_, sent, how) := demo_events 1 in length sent = 2%nat /\ bill_stream how = None).
Proof.
  assert (forall n, let '(_, sent, how) := demo_events n in
    sent = take (length (repeat (fun w : Fallback.World ref_lru => w) n) + 1)
      ([Chat.openai_id "chatcmpl" 7] ++ ["[DONE]"]) /\
    bill_stream how = if (1 <? length (repeat (fun w : Fallback.World ref_lru => w) n))%nat
      then Some RequestLog.Success else None) as H.
  { intros n. unfold demo_events.
    apply (stream_relays_in_order ref_lru Keys.StaticKeyStore Cache.SqliteResponseCache
      (fun c => Some (Chat.chunk_id c)) (fun _ m => m) (fun t => t) unit demo_settings demo_key 7 CHAT_COMPLETIONS_ROUTE demo_pending 0
      [(Answered (Some (Ok (Provider.Completed Chat.TokenUsage_default))), fun w => w)] (repeat (fun w => w) n) demo_app
      [demo_chunk] [Chat.openai_id "chatcmpl" 7] (Event (Provider.Completed Chat.TokenUsage_default)) []);
      [reflexivity|repeat constructor|reflexivity]. }
  split; [exact (H 2%nat)|]. specialize (H 1%nat). destruct (demo_events 1) as [[a' sent] how].
  destruct H as [-> ->]. split; reflexivity.
Defined.

End ChatRoute.
