(* ===== verification/Responses.v ===== *)
(** * The responses endpoint (src/src/routes/compat.rs, src/src/models/responses.rs)

    [POST /v1/responses]: the request is turned into a chat request, routed as
    one, and the answer turned into a response object or a stream of response
    events.  State, recordings and the set-up of a stream are those of the chat
    endpoint (ChatRoute.v), under this endpoint's route.  Arguments besides
    those: the JSON printers of the stream's events.  A body that does not parse
    never reaches the handler. *)
From S2P Require Import Prelude Str F64 Config ModelPools Chat Provider Resilience Admission Metrics.
From S2P Require Import Lru RequestLog Keys Cache PrefixFingerprint PrefixAffinity Strategy Fallback ChatRoute.

Open Scope string_scope.
Open Scope list_scope.
Open Scope Z_scope.

Module Responses.
Import ChatRoute.

Definition MAX_STREAM_OUTPUT_CHARS : Z := 256 * 1024.
Definition RESPONSES_ROUTE : string := "/v1/responses".

(** ** Requests *)

Inductive ResponseInputRole := System | Developer | User | Assistant.
Record ResponseContentPart := { part_kind : string; part_text : option string }.
Inductive ResponseInputContent :=
| ContentText (t : string)
| Parts (parts : list ResponseContentPart).
Record ResponseInputMessage := { in_role : ResponseInputRole; in_content : ResponseInputContent }.
Inductive ResponseInput :=
| InputText (t : string)
| Messages (ms : list ResponseInputMessage).

Record ResponseRequest := {
  model : option string;
  input : ResponseInput;
  instructions : option string;
  stream : option bool;
  temperature : option F32.t;
  max_output_tokens : option Z
}.

Definition stream_enabled (r : ResponseRequest) : bool := default false (stream r).

Definition is_text_part (p : ResponseContentPart) : bool :=
  String.eqb (part_kind p) "input_text" || String.eqb (part_kind p) "text".

Definition into_text (c : ResponseInputContent) : string :=
  match c with
  | ContentText t => t
  | Parts parts => Str.join Str.newline (omap part_text (List.filter is_text_part parts))
  end.

Definition plain_message (role : Chat.ChatRole) (content : string) : Chat.ChatMessage :=
  {| Chat.role := role; Chat.content := content; Chat.tool_calls := None; Chat.tool_call_id := None |}.

Definition chat_role (r : ResponseInputRole) : Chat.ChatRole :=
  match r with System | Developer => Chat.System | User => Chat.User | Assistant => Chat.Assistant end.

Definition into_chat_request (r : ResponseRequest) : Chat.ChatCompletionRequest :=
  let system :=
    match instructions r with
    | Some i => if Str.is_empty (Str.trim i) then [] else [plain_message Chat.System i]
    | None => []
    end in
  let messages :=
    match input r with
    | InputText t => [plain_message Chat.User t]
    | Messages ms => map (fun m => plain_message (chat_role (in_role m)) (into_text (in_content m))) ms
    end in
  {| Chat.req_model := model r; Chat.messages := system ++ messages; Chat.temperature := temperature r;
     Chat.max_tokens := max_output_tokens r; Chat.stream := stream r; Chat.tools := None; Chat.tool_choice := None;
     Chat.parallel_tool_calls := None; Chat.response_format := None |}.

(** ** Answers *)

Record ResponseUsage := { input_tokens : Z; output_tokens : Z; total_tokens : Z }.
Definition from_usage (u : Chat.TokenUsage) : ResponseUsage :=
  {| input_tokens := Chat.prompt_tokens u; output_tokens := Chat.completion_tokens u;
     total_tokens := Chat.total_tokens u |}.

Record ResponseOutputContent := { content_kind : string; text : string; annotations : list Chat.Value }.
Record ResponseOutput := {
  out_id : string;
  out_kind : string;
  out_status : string;
  out_role : string;
  out_content : list ResponseOutputContent
}.
Record ResponseObject := {
  id : string;
  object : string;
  created_at : Z;
  status : string;
  resp_model : string;
  output : list ResponseOutput;
  usage : ResponseUsage
}.

Record ResponseTextDelta := { item_id : string; output_index : Z; content_index : Z; delta : string }.

Definition response_object (request_id : Chat.Uuid) (created : Z) (model output_text : string)
  (usage : Chat.TokenUsage) : ResponseObject :=
  {| id := Chat.openai_id "resp" request_id; object := "response"; created_at := created; status := "completed";
     resp_model := model;
     output := [{| out_id := Chat.openai_id "msg" request_id; out_kind := "message"; out_status := "completed";
                   out_role := "assistant";
                   out_content := [{| content_kind := "output_text"; text := output_text; annotations := [] |}] |}];
     usage := from_usage usage |}.

(** The response made of a chat answer: the text of its first choice. *)
Definition from_chat (request_id : Chat.Uuid) (r : Chat.ChatCompletionResponse) : ResponseObject :=
  response_object request_id (Chat.resp_created r) (Chat.resp_model r)
    (default "" (Chat.content ∘ Chat.choice_message <$> head (Chat.resp_choices r))) (Chat.resp_usage r).

(** A server-sent event: its name, if any, and its data. *)
Record SseEvent := { event : option string; data : string }.

(* ------------------------------------------------------------------ *)
(** ** The endpoint *)

Section Route.
Context (C : Type -> Type) `{!LruOps C} (S K : Type) `{!Keys.KeyStore S, !Cache.ResponseCache K}.
Variables (prefix_to_vec : PrefixFingerprint.CanonicalPrefix -> option (list Z))
  (cache_to_vec : Cache.CanonicalChatRequest -> option (list Z))
  (sha256 : list Z -> list Z)
  (json_to_string : Chat.Value -> option string)
  (delta_to_string : string -> ResponseTextDelta -> option string)
  (completed_to_string : string -> ResponseObject -> option string)
  (error_to_string : string -> string).
Variables (unix : Z -> Z) (sleep : Z -> Fallback.World C -> Fallback.World C).
Variable chat_completion : nat -> Strategy.Entry -> Chat.ChatCompletionRequest -> Fallback.World C ->
  result Chat.ChatCompletionResponse Provider.ProviderError * Fallback.World C.
Variable Stream : Type.
Variable chat_completion_stream : nat -> Strategy.Entry -> Chat.ChatCompletionRequest -> Fallback.World C ->
  result (Provider.ProviderStreamContext * Stream) Provider.ProviderError * Fallback.World C.
Variable stream_next : Stream -> Fallback.World C ->
  option (result Provider.ProviderStreamEvent Provider.ProviderError) * Stream * Fallback.World C.
Variables (s : Settings) (key : Keys.AuthenticatedKey) (request_id : Chat.Uuid).
Notation App := (App C S K).

Inductive Reply :=
| JsonReply (r : ResponseObject) (x_rustygate_cache : string)
| StreamReply (ps : PendingStream Stream).

(** After admission, not streamed. *)
Definition answer_response (request : Chat.ChatCompletionRequest) (a : App) :
  App * option (result Reply Chat.AppError) :=
  let cache_key := Cache.cache_key_for_request cache_to_vec sha256 request in
  let '(a, cached) := look_up_cache C S K unix key request cache_key a in
  match cached with
  | Some response => (a, Some (Ok (JsonReply (from_chat request_id response) "HIT")))
  | None =>
      match routing_metrics_snapshot C S K a with
      | None => (poison C S K a, None)
      | Some snap =>
          let '(w, outcome) := Fallback.complete_chat C prefix_to_vec sha256 sleep chat_completion
            (context_of s snap) request (world C S K a) in
          let a := set_world C S K w a in
          match outcome with
          | None => (a, None)
          | Some (Ok success) =>
              let response := from_chat request_id (Fallback.response success) in
              let a := record_api_key_usage C S K unix key (total_tokens (usage response))
                         (Provider.total_cost_usd (Fallback.cost_estimate success)) a in
              let a := store_in_cache C S K unix s key cache_key (Fallback.response success) a in
              (a, Some (Ok (JsonReply response "MISS")))
          | Some (Err Fallback.NoProviderAvailable) =>
              (a, Some (Err (Chat.NoProviderAvailable (Some request_id))))
          | Some (Err (Fallback.AdmissionRejected rejection)) =>
              (record_admission_rejection C S K (Admission.reason rejection) a,
               Some (Err (Admission.into_app_error rejection (Some request_id))))
          | Some (Err (Fallback.ProviderFailed error _)) =>
              (a, Some (Err (Provider.from_provider_error error (Some request_id))))
          end
      end
  end.

(** [stream_response] up to the response is [start_stream] under this route. *)
Definition stream_response (started : Z) (request : Chat.ChatCompletionRequest) (guard : Admission.AdmissionGuard)
  (a : App) : App * option (result Reply Chat.AppError) :=
  let '(a, out) := start_stream C S K prefix_to_vec sha256 unix sleep Stream chat_completion_stream stream_next
    s request_id RESPONSES_ROUTE started request guard a in
  (a, match out with
      | None => None
      | Some (Err e) => Some (Err e)
      | Some (Ok (EventStream _ ps)) => Some (Ok (StreamReply ps))
      | Some (Ok (JsonResponse _ r c)) => Some (Ok (JsonReply (from_chat request_id r) c))
      end).

Definition responses (r : ResponseRequest) (a : App) : App * option (result Reply Chat.AppError) :=
  let started := Fallback.now C (world C S K a) in
  let request := resolve_request_model_alias s (into_chat_request r) in
  match Chat.validate json_to_string request (Some request_id) (chat_validation_limits s) with
  | Err error => (a, Some (Err error))
  | Ok _ =>
      match Admission.check_token_budget (Fallback.admission C (world C S K a)) request with
      | Err reason =>
          (record_admission_rejection C S K reason a,
           Some (Err (Chat.InvalidRequest (admission_invalid_request_message reason) (Some request_id))))
      | Ok _ =>
          let '(adm, acquired) := Admission.try_acquire_request (Fallback.admission C (world C S K a))
            (pool_name_for_request s request) in
          let a := set_world C S K (Fallback.set_admission C adm (world C S K a)) a in
          match acquired with
          | Err rejection =>
              (record_admission_rejection C S K (Admission.reason rejection) a,
               Some (Err (Admission.into_app_error rejection (Some request_id))))
          | Ok guard =>
              if stream_enabled r then stream_response started request guard (begin_request C S K a)
              else
                let '(a, out) := answer_response request a in (drop_request_guard C S K guard a, out)
          end
      end
  end.

(* ------------------------------------------------------------------ *)
(** ** The event stream *)

Definition json_event (name : string) (payload : option string) : SseEvent :=
  {| event := Some name; data := default "{}" payload |}.

Definition delta_event (d : string) : SseEvent :=
  json_event "response.output_text.delta" (delta_to_string "response.output_text.delta"
    {| item_id := Chat.openai_id "msg" request_id; output_index := 0; content_index := 0; delta := d |}).

Definition response_stream_error_event (error : Chat.AppError) : SseEvent :=
  {| event := Some "error"; data := error_to_string (Chat.public_message error) |}.

Definition completed_event (r : ResponseObject) : SseEvent :=
  json_event "response.completed" (completed_to_string "response.completed" r).

Definition done_event : SseEvent := {| event := None; data := "[DONE]" |}.

(** How the loop over the choices of a chunk ends. *)
Inductive Sent :=
| Dropped
| TooLong
| Sent_ (output_text : string).

Definition Tick : Type := Fallback.World C -> Fallback.World C.

(** The choices of a chunk: one event per text delta.  As in the chat endpoint,
    [polls] are the times the body is polled again after a yield. *)
Fixpoint send_deltas (choices : list Chat.ChatChunkChoice) (output_text : string) (polls : list Tick)
  (w : Fallback.World C) : list SseEvent * list Tick * Fallback.World C * Sent :=
  match choices with
  | [] => ([], polls, w, Sent_ output_text)
  | choice :: choices =>
      match Chat.delta_content (Chat.chunk_delta choice) with
      | None => send_deltas choices output_text polls w
      | Some d =>
          let long := MAX_STREAM_OUTPUT_CHARS <? Str.chars_count output_text + Str.chars_count d in
          let e := if long then response_stream_error_event (Chat.ProviderFailure (Some request_id))
                   else delta_event d in
          match polls with
          | [] => ([e], [], w, Dropped)
          | resumed :: polls =>
              if long then ([e], polls, resumed w, TooLong)
              else
                let '(es, polls, w, o) := send_deltas choices (output_text ++ d)%string polls (resumed w) in
                (e :: es, polls, w, o)
          end
      end
  end.

(** An item that ends the loop: the error event it yields first, if any, and
    what holds after it. *)
Definition closing (started : Z) (attempts : list Metrics.ProviderAttempt) (item : StreamItem) :
  option (option SseEvent * (Fallback.World C -> StreamEnd)) :=
  let latency w := Metrics.elapsed_ms (Fallback.now C w) started in
  match item with
  | Event (Provider.Chunk _) => None
  | Event (Provider.Completed u) =>
      Some (None, fun _ => {| end_usage := Some u; stream_failed := false; stream_error_category := None;
                              stream_outcome := None; end_attempts := attempts |})
  | Error error =>
      let category := Metrics.provider_error_category error in
      Some (Some (response_stream_error_event (Provider.from_provider_error error (Some request_id))), fun w =>
        failed_end (RequestLog.from_provider_category category) Metrics.MidStreamFailure
          (fail_last category (latency w) attempts))
  | IdleTimeout =>
      Some (Some (response_stream_error_event (Provider.from_provider_error Provider.Timeout (Some request_id))), fun w =>
        failed_end RequestLog.Timeout Metrics.IdleTimeout (fail_last Metrics.CatTimeout (latency w) attempts))
  | End =>
      Some (Some (response_stream_error_event (Chat.ProviderFailure (Some request_id))), fun _ =>
        failed_end RequestLog.ProviderBadResponse Metrics.Incomplete attempts)
  end.

(** The loop: the events yielded, the polls left, the world, and the text and
    the variables after it unless the body was dropped. *)
Fixpoint response_loop (started : Z) (attempts : list Metrics.ProviderAttempt) (items : list (StreamItem * Tick))
  (output_text : string) (polls : list Tick) (w : Fallback.World C) :
  list SseEvent * list Tick * Fallback.World C * option (string * StreamEnd) :=
  match items with
  | [] => ([], polls, w, None)
  | (item, tick) :: items =>
      let w := tick w in
      match item with
      | Event (Provider.Chunk chunk) =>
          let '(es, polls, w, o) := send_deltas (Chat.chunk_choices chunk) output_text polls w in
          match o with
          | Dropped => (es, polls, w, None)
          | TooLong =>
              (es, polls, w, Some (output_text,
                 failed_end RequestLog.ProviderBadResponse Metrics.MidStreamFailure attempts))
          | Sent_ output_text =>
              let '(es', polls, w, r) := response_loop started attempts items output_text polls w in
              (es ++ es', polls, w, r)
          end
      | _ =>
          match closing started attempts item with
          | None => ([], polls, w, None)
          | Some (None, fin) => ([], polls, w, Some (output_text, fin w))
          | Some (Some e, fin) =>
              match polls with
              | [] => ([e], [], w, None)
              | resumed :: polls => let w := resumed w in ([e], polls, w, Some (output_text, fin w))
              end
          end
      end
  end.

(** The last two events of a completed stream, and the world when it ends or is
    dropped. *)
Definition final_events (r : ResponseObject) (polls : list Tick) (w : Fallback.World C) :
  list SseEvent * Fallback.World C :=
  match polls with
  | [] => ([completed_event r], w)
  | resumed :: polls =>
      ([completed_event r; done_event], match polls with [] => resumed w | last :: _ => last (resumed w) end)
  end.

(** The whole life of the body. *)
Definition response_stream (ps : PendingStream Stream) (started : Z) (answers : list (Upstream * Tick))
  (polls : list Tick) (a : App) : App * list SseEvent * Ended :=
  let g := Metrics.stream_guard_new (Fallback.now C (world C S K a)) in
  let success := ps_success Stream ps in
  let items := (Event (Fallback.first_event Stream success), fun w => w) ::
               map (fun '(u, tick) => (upstream_item u, tick)) answers in
  let '(es, polls, w, ended) :=
    response_loop started (Fallback.str_attempts Stream success) items "" polls (world C S K a) in
  let a := set_world C S K w a in
  match ended with
  | None => (drop_stream_guards C S K Stream ps g a, es, None)
  | Some (output_text, e) =>
      let '(a, g) := finish_stream C S K unix Stream s key request_id RESPONSES_ROUTE ps started e g a in
      match end_usage e, stream_failed e with
      | Some usage, false =>
          let '(es', w) :=
            final_events (response_object request_id (Provider.ctx_created (Fallback.str_context Stream success))
              (Provider.ctx_model (Fallback.str_context Stream success)) output_text usage) polls (world C S K a) in
          (drop_stream_guards C S K Stream ps g (set_world C S K w a), es ++ es', Some e)
      | _, _ => (drop_stream_guards C S K Stream ps g a, es, Some e)
      end
  end.

Inductive Served :=
| Replied (r : ResponseObject) (x_rustygate_cache : string)
| Refused (e : Chat.AppError)
| Streamed (events : list SseEvent) (how : Ended).

Definition serve (r : ResponseRequest) (answers : list (Upstream * Tick)) (polls : list Tick) (a : App) :
  App * option Served :=
  let started := Fallback.now C (world C S K a) in
  let '(a, out) := responses r a in
  match out with
  | None => (a, None)
  | Some (Ok (JsonReply r cache)) => (a, Some (Replied r cache))
  | Some (Ok (StreamReply ps)) =>
      let '(a, es, how) := response_stream ps started answers polls a in (a, Some (Streamed es how))
  | Some (Err e) => (a, Some (Refused e))
  end.

End Route.

(* ------------------------------------------------------------------ *)
(** ** Bookkeeping *)

Section Service.
Context (C : Type -> Type) `{!LruOps C} (S K : Type) `{!Keys.KeyStore S, !Cache.ResponseCache K}.
Variables (prefix_to_vec : PrefixFingerprint.CanonicalPrefix -> option (list Z))
  (cache_to_vec : Cache.CanonicalChatRequest -> option (list Z))
  (sha256 : list Z -> list Z)
  (json_to_string : Chat.Value -> option string)
  (delta_to_string : string -> ResponseTextDelta -> option string)
  (completed_to_string : string -> ResponseObject -> option string)
  (error_to_string : string -> string).
Variables (unix : Z -> Z) (sleep : Z -> Fallback.World C -> Fallback.World C).
Variable chat_completion : nat -> Strategy.Entry -> Chat.ChatCompletionRequest -> Fallback.World C ->
  result Chat.ChatCompletionResponse Provider.ProviderError * Fallback.World C.
Variable Stream : Type.
Variable chat_completion_stream : nat -> Strategy.Entry -> Chat.ChatCompletionRequest -> Fallback.World C ->
  result (Provider.ProviderStreamContext * Stream) Provider.ProviderError * Fallback.World C.
Variable stream_next : Stream -> Fallback.World C ->
  option (result Provider.ProviderStreamEvent Provider.ProviderError) * Stream * Fallback.World C.
Variables (s : Settings) (key : Keys.AuthenticatedKey) (rid : Chat.Uuid).
Hypothesis Hq : quiet_env C sleep chat_completion Stream chat_completion_stream stream_next.
Notation App := (App C S K).
Notation world := (world C S K).
Notation booked := (booked C S K s rid RESPONSES_ROUTE).
Notation same_books := (same_books C S K).
Implicit Types (a : App) (w : Fallback.World C).

Lemma answer_response_quiet request a : ready C S K a ->
  exists a' out, answer_response C S K prefix_to_vec cache_to_vec sha256 unix sleep chat_completion Stream s key rid
      request a = (a', Some out) /\ (forall ps, out <> Ok (StreamReply Stream ps)) /\
    same_books a a' /\ Fallback.admission C (world a') = Fallback.admission C (world a).
Proof.
  intros Hr. unfold answer_response. set (ck := Cache.cache_key_for_request cache_to_vec sha256 request).
  destruct (look_up_cache_ready C S K unix key request ck a Hr) as [Hr1 Ha1].
  pose proof (look_up_cache_same C S K unix key request ck a) as Hs1.
  destruct (look_up_cache C S K unix key request ck a) as [a1 cached]. cbn [fst] in *.
  destruct cached as [resp|]; [by eexists _, _|].
  destruct (snapshot_ready C S K a1 Hr1) as [snap ->].
  destruct (chat_call_quiet C S K prefix_to_vec sha256 sleep chat_completion Stream chat_completion_stream stream_next s Hq
    snap request a1 Hr1) as (w2 & o & -> & Hobs & Hadm). set (a2 := set_world C S K w2 a1).
  assert (same_books a a2) as Hs2 by (eapply same_books_trans; [exact Hs1|by split]).
  assert (Fallback.admission C (world a2) = Fallback.admission C (world a)) as Ha2 by (cbn; congruence).
  destruct o as [success|[|rej|er at_]]; (eexists _, _; split; [reflexivity|]; split; [done|]).
  - split; [|by rewrite store_world, usage_world].
    eapply same_books_trans; [exact Hs2|]. eapply same_books_trans; [apply usage_same|apply store_same].
  - by split.
  - split; [eapply same_books_trans; [exact Hs2|apply rejection_same]|].
    unfold record_admission_rejection. by rewrite on_metrics_admission.
  - by split.
Qed.

Lemma send_deltas_calm choices t polls w : Forall (calm C) polls ->
  let '(_, polls', w', _) := send_deltas C delta_to_string error_to_string rid choices t polls w in
  undisturbed C w w' /\ Forall (calm C) polls'.
Proof.
  revert t polls w. induction choices as [|c choices IH]; intros t polls w Hp; cbn [send_deltas]; [by split|].
  destruct (Chat.delta_content _) as [d|]; [|by apply IH]. cbv zeta.
  destruct Hp as [|p polls Hp Hps]; [by split; [|constructor]|]. destruct (MAX_STREAM_OUTPUT_CHARS <? _).
  - split; [apply Hp|done].
  - specialize (IH (t ++ d)%string polls (p w) Hps).
    destruct (send_deltas C _ _ _ choices _ polls (p w)) as [[[es polls'] w'] o]. destruct IH as [Hu Hps'].
    split; [|done]. eapply undisturbed_trans; [apply Hp|exact Hu].
Qed.

Lemma response_loop_calm started at_ items t polls w :
  Forall (fun '(_, tick) => calm C tick) items -> Forall (calm C) polls ->
  let '(_, polls', w', _) := response_loop C delta_to_string error_to_string rid started at_ items t polls w in
  undisturbed C w w' /\ Forall (calm C) polls'.
Proof.
  intros Hi. revert t polls w. induction Hi as [|[item tick] items Ht _ IH]; intros t polls w Hp; [by split|].
  cbn [response_loop].
  destruct item as [[chunk|u]|er| |]; cbn [closing]; [|by split; [apply Ht|]|
    destruct Hp as [|p polls Hp Hps]; split; [apply Ht|constructor|eapply undisturbed_trans; [apply Ht|apply Hp]|done]..].
  pose proof (send_deltas_calm (Chat.chunk_choices chunk) t polls (tick w) Hp) as Hd.
  destruct (send_deltas C _ _ _ _ t polls (tick w)) as [[[es polls'] w'] o]. destruct Hd as [Hu Hps].
  assert (undisturbed C w w') as Hw by (eapply undisturbed_trans; [apply Ht|exact Hu]).
  destruct o as [| |t']; [by split..|]. specialize (IH t' polls' w' Hps).
  destruct (response_loop C _ _ _ _ _ items t' polls' w') as [[[es2 polls2] w2] r]. destruct IH as [Hu2 Hps2].
  split; [|done]. by eapply undisturbed_trans.
Qed.

Lemma final_events_calm r polls w : Forall (calm C) polls ->
  undisturbed C w (snd (final_events C completed_to_string r polls w)).
Proof.
  intros [|p polls' Hp Hps]; [done|]. cbn. destruct Hps as [|q ? Hq' _]; [apply Hp|].
  eapply undisturbed_trans; [apply Hp|apply Hq'].
Qed.

Lemma response_stream_booked guard ps started answers polls a0 a i t su f :
  stream_owes C S K Stream guard a0 ps a -> counters_at (world a0) = Some (i, t, su, f) ->
  Forall (fun '(_, tick) => calm C tick) answers -> Forall (calm C) polls ->
  exists a' es how,
    response_stream C S K delta_to_string completed_to_string error_to_string unix Stream s key rid ps started answers
      polls a = (a', es, how) /\
    leaves C S K s rid RESPONSES_ROUTE guard (Fallback.admission C (world a0)) (bill_stream how) a0 a'.
Proof.
  intros Ho Hc Ha Hp. unfold response_stream. set (items := _ :: _).
  assert (Forall (fun '(_, tick) => calm C tick) items) as Hi.
  { constructor; [intros w; apply undisturbed_refl|]. apply Forall_map. eapply Forall_impl; [exact Ha|]. by intros [u tick]. }
  pose proof (response_loop_calm started (Fallback.str_attempts Stream (ps_success Stream ps)) items "" polls (world a) Hi Hp) as Hl.
  destruct (response_loop C _ _ _ _ _ items "" polls _) as [[[es polls'] w] how]. destruct Hl as [(E1 & E2 & _) Hps].
  set (a1 := set_world C S K w a).
  assert (same_books a0 a1) as Hs1 by (eapply same_books_trans; [apply Ho|by split]).
  assert (counters_at (world a1) = Some (i, t, su, f)) as Hc1 by (rewrite <-Hc; apply Hs1).
  assert (forall st g a2, booked st a1 a2 -> Fallback.admission C (world a2) = Fallback.admission C w ->
    leaves C S K s rid RESPONSES_ROUTE guard (Fallback.admission C (world a0)) st a0
      (drop_stream_guards C S K Stream ps g a2)) as Hdrop.
  { intros st g a2 Hb Had. apply (drop_guards_leave C S K sleep chat_completion Stream chat_completion_stream stream_next s rid
      RESPONSES_ROUTE Hq guard ps a0 a); [exact Ho|by eapply booked_same|congruence]. }
  destruct how as [[text e]|].
  2: { eexists _, _, _. split; [reflexivity|]. apply Hdrop; [|done]. by eapply none_booked. }
  destruct (finish_stream_booked C S K unix Stream s key rid RESPONSES_ROUTE ps started e
    (Metrics.stream_guard_new (Fallback.now C (world a))) a1 _ _ _ _ Hc1) as [Hb Had].
  destruct (finish_stream C S K _ _ _ _ _ _ _ _ e _ a1) as [a2 g2]. cbn [fst] in *.
  destruct (end_usage e) as [u|]; [destruct (stream_failed e)|];
    try (eexists _, _, _; split; [reflexivity|]; by apply Hdrop).
  match goal with |- context [final_events C completed_to_string ?r polls' ?w] =>
    pose proof (final_events_calm r polls' w Hps) as (F1 & F2 & _);
    destruct (final_events C completed_to_string r polls' w) as [es' w'] end. cbn [snd] in *.
  eexists _, _, _. split; [reflexivity|]. apply Hdrop; [|cbn; exact (eq_trans F2 Had)].
  eapply booked_same; [apply same_books_refl|exact Hb|by split].
Qed.

(** Whether the request passes the checks before routing. *)
Definition admitted (r : ResponseRequest) a : bool :=
  let request := resolve_request_model_alias s (into_chat_request r) in
  match Chat.validate json_to_string request (Some rid) (chat_validation_limits s),
        Admission.check_token_budget (Fallback.admission C (world a)) request,
        snd (Admission.try_acquire_request (Fallback.admission C (world a)) (pool_name_for_request s request)) with
  | Ok _, Ok _, Ok _ => true
  | _, _, _ => false
  end.

(** What is booked: only what happens once a stream is being set up. *)
Definition bill (r : ResponseRequest) a (o : Served) : option RequestLog.RequestLogStatus :=
  if stream_enabled r && admitted r a
  then match o with
       | Replied _ _ => None
       | Refused _ => Some RequestLog.Failure
       | Streamed _ how => bill_stream how
       end
  else None.

Lemma begin_after_acquire adm a : fit C S K a ->
  begin_request C S K (set_world C S K (Fallback.set_admission C adm (world a)) a) =
  set_world C S K (Fallback.set_admission C adm (world (begin_request C S K a))) (begin_request C S K a).
Proof.
  intros ((m & Hm & _) & _). unfold begin_request, on_metrics, Fallback.with_metrics. cbn. by rewrite Hm.
Qed.

Lemma serve_booked r answers polls a : fit C S K a ->
  Forall (fun '(_, tick) => calm C tick) answers -> Forall (calm C) polls ->
  exists a' o,
    serve C S K prefix_to_vec cache_to_vec sha256 json_to_string delta_to_string completed_to_string error_to_string unix
      sleep chat_completion Stream chat_completion_stream stream_next s key rid r answers polls a = (a', Some o) /\
    Fallback.admission C (world a') = Fallback.admission C (world a) /\ booked (bill r a o) a a'.
Proof.
  intros Hin Ha Hp. destruct (fit_counters C S K a Hin) as (i & t & su & f & Hc & Hi).
  assert (forall a', same_books a a' -> booked None a a') as Hnone by (intros a' Hs; by eapply none_booked).
  unfold serve, responses, bill, admitted. cbv zeta. set (r' := resolve_request_model_alias s (into_chat_request r)).
  destruct (Chat.validate _ _ _ _) as [?|err].
  2: { rewrite andb_false_r. eexists _, _. split; [reflexivity|]. split; [done|by apply Hnone]. }
  destruct (Admission.check_token_budget _ r') as [?|why].
  2: { rewrite andb_false_r. eexists _, _. split; [reflexivity|]. split; [|apply Hnone, rejection_same].
       unfold record_admission_rejection. by rewrite on_metrics_admission. }
  destruct (Admission.try_acquire_request _ _) as [adm acquired] eqn:Hacq. cbn [snd].
  set (b1 := set_world C S K (Fallback.set_admission C adm (world a)) a).
  destruct acquired as [guard|rej].
  2: { rewrite andb_false_r. eexists _, _. split; [reflexivity|]. split; [|apply Hnone; exact (rejection_same C S K _ b1)].
       unfold record_admission_rejection. rewrite on_metrics_admission. by apply request_acquire_error in Hacq. }
  destruct (request_acquire_then_drop _ _ _ _ (proj1 (proj2 Hin)) Hacq) as [Hwf' Hdrop].
  assert (ready C S K b1) as Hr.
  { destruct (fit_ready C S K a Hin) as (Hm & _ & Hj). by split. }
  destruct (stream_enabled r); cbn [andb].
  - unfold stream_response. pose proof (begin_after_acquire adm a Hin) as Hbegin. fold b1 in Hbegin. rewrite Hbegin.
    set (b2 := set_world C S K _ (begin_request C S K a)).
    assert (ready C S K b2) as Hr2.
    { unfold b2. rewrite <-Hbegin. by apply begin_ready. }
    destruct (start_stream_booked C S K prefix_to_vec sha256 unix sleep chat_completion Stream chat_completion_stream
      stream_next s rid RESPONSES_ROUTE Hq (Fallback.now C (world a)) r' guard b2 Hr2) as (a2 & out & -> & Hout).
    destruct out as [[?|ps]|err]; [done| |eexists _, _; split; [reflexivity|by eapply leaves_settled]].
    destruct (ready_counters C S K b2 Hr2) as (i2 & t2 & su2 & f2 & Hc2).
    destruct (response_stream_booked guard ps (Fallback.now C (world a)) answers polls b2 a2 i2 t2 su2 f2 Hout Hc2 Ha Hp)
      as (a3 & es & how & -> & Hl).
    eexists _, _. split; [reflexivity|]. by eapply leaves_settled.
  - destruct (answer_response_quiet r' b1 Hr) as (a2 & out & -> & Hns & Hs & Had).
    assert (Fallback.admission C (world (drop_request_guard C S K guard a2)) = Fallback.admission C (world a)) as Hd.
    { cbn. by rewrite Had. }
    destruct out as [[resp c|ps]|err]; [|by destruct (Hns ps)|]; (eexists _, _; split; [reflexivity|]; split; [exact Hd|]);
      by apply Hnone.
Qed.

End Service.

(* ------------------------------------------------------------------ *)
(** ** What a stream sends *)

Section Sending.
Context (C : Type -> Type).
Variables (delta_to_string : string -> ResponseTextDelta -> option string)
  (completed_to_string : string -> ResponseObject -> option string)
  (error_to_string : string -> string) (rid : Chat.Uuid).
Notation delta_event := (delta_event delta_to_string rid).
Notation send_deltas := (send_deltas C delta_to_string error_to_string rid).
Notation response_loop := (response_loop C delta_to_string error_to_string rid).

Definition choice_texts (choices : list Chat.ChatChunkChoice) : list string :=
  omap (fun c => Chat.delta_content (Chat.chunk_delta c)) choices.
Definition chunk_texts (chunks : list Chat.ChatCompletionChunkResponse) : list string :=
  choice_texts (concat (map Chat.chunk_choices chunks)).

(** The text put together from deltas. *)
Definition joined (l : list string) : string := foldr String.append "" l.

Definition last_event (t : StreamItem) : list SseEvent :=
  match t with
  | Error e => [response_stream_error_event error_to_string (Provider.from_provider_error e (Some rid))]
  | IdleTimeout => [response_stream_error_event error_to_string (Provider.from_provider_error Provider.Timeout (Some rid))]
  | End => [response_stream_error_event error_to_string (Chat.ProviderFailure (Some rid))]
  | Event _ => []
  end.

Definition is_chunk (t : StreamItem) : bool := match t with Event (Provider.Chunk _) => true | _ => false end.

Lemma joined_app l1 l2 : joined (l1 ++ l2) = (joined l1 ++ joined l2)%string.
Proof. induction l1 as [|x l1 IH]; [done|]. cbn [app joined foldr]. fold (joined (l1 ++ l2)). by rewrite IH, Str.app_assoc. Qed.

(** The deltas of a chunk, when they fit and the client keeps polling. *)
Lemma send_deltas_all choices t polls w :
  Str.chars_count (t ++ joined (choice_texts choices)) <= MAX_STREAM_OUTPUT_CHARS ->
  (length (choice_texts choices) <= length polls)%nat ->
  exists w', send_deltas choices t polls w =
    (map delta_event (choice_texts choices), drop (length (choice_texts choices)) polls, w',
     Sent_ (t ++ joined (choice_texts choices))%string).
Proof.
  revert t polls w. induction choices as [|c choices IH]; intros t polls w Hlen Hp.
  { exists w. cbn. by rewrite Str.app_empty_r. }
  cbn [Responses.send_deltas]. unfold choice_texts in *. cbn [omap list_omap] in *.
  destruct (Chat.delta_content _) as [d|]; [|by apply IH]. cbn [joined foldr length map drop] in *.
  fold (joined (omap (fun c => Chat.delta_content (Chat.chunk_delta c)) choices)) in *.
  rewrite <-Str.app_assoc in Hlen |- *. destruct polls as [|p polls]; [cbn in Hp; lia|]. cbn [length drop] in *.
  rewrite !Str.chars_count_app in Hlen. pose proof (Str.chars_count_nonneg (joined (omap (fun c => Chat.delta_content (Chat.chunk_delta c)) choices))).
  destruct (MAX_STREAM_OUTPUT_CHARS <? _) eqn:E; [zbool; lia|].
  destruct (IH (t ++ d)%string polls (p w)) as [w' ->]; [rewrite !Str.chars_count_app; lia|lia|].
  by exists w'.
Qed.

Lemma response_loop_all started at_ chunks t rest items text polls w :
  map fst items = map (fun c => Event (Provider.Chunk c)) chunks ++ t :: rest -> is_chunk t = false ->
  Str.chars_count (text ++ joined (chunk_texts chunks)) <= MAX_STREAM_OUTPUT_CHARS ->
  (length (chunk_texts chunks) < length polls)%nat ->
  exists polls' w' e, response_loop started at_ items text polls w =
      (map delta_event (chunk_texts chunks) ++ last_event t, polls', w', Some ((text ++ joined (chunk_texts chunks))%string, e)) /\
    (forall u, t = Event (Provider.Completed u) -> end_usage e = Some u /\ stream_failed e = false /\
       polls' = drop (length (chunk_texts chunks)) polls) /\
    (completes t = false -> end_usage e = None).
Proof.
  intros Hi Ht. revert items text polls w Hi. induction chunks as [|c chunks IH]; intros items text polls w Hi Hlen Hp;
    (destruct items as [|[item tick] items]; [done|]); cbn [map fst app] in Hi; injection Hi as -> Hi; cbn [Responses.response_loop].
  - cbn [chunk_texts choice_texts map concat omap list_omap length joined foldr drop app] in *. rewrite Str.app_empty_r.
    destruct polls as [|p polls]; [cbn in Hp; lia|].
    destruct t as [[c|u]|er| |]; [done|..]; cbn [closing last_event];
      (eexists _, _, _; split; [reflexivity|]; split; [|done]); intros u' Hu'; try done; by injection Hu' as <-.
  - assert (chunk_texts (c :: chunks) = choice_texts (Chat.chunk_choices c) ++ chunk_texts chunks) as E.
    { unfold chunk_texts, choice_texts. cbn [map concat]. apply omap_app. }
    rewrite E in *. rewrite joined_app, <-Str.app_assoc in Hlen. rewrite length_app in Hp.
    destruct (send_deltas_all (Chat.chunk_choices c) text polls (tick w)) as [w1 ->]; [|lia|].
    { rewrite Str.chars_count_app in Hlen. pose proof (Str.chars_count_nonneg (joined (chunk_texts chunks))). lia. }
    destruct (IH items (text ++ joined (choice_texts (Chat.chunk_choices c)))%string
      (drop (length (choice_texts (Chat.chunk_choices c))) polls) w1 Hi) as (polls' & w' & e & -> & H1 & H2);
      [done|rewrite length_drop; lia|].
    exists polls', w', e. rewrite map_app, joined_app, <-!app_assoc, <-Str.app_assoc. split; [done|]. split; [|done].
    intros u Hu. destruct (H1 u Hu) as (? & ? & ->). by rewrite drop_drop, length_app.
Qed.

End Sending.

(* ------------------------------------------------------------------ *)
(** ** Properties *)

(** C17: at the responses endpoint only streams are accounted for.  Take a
    gateway in service in which no backoff jitter is [u64::MAX], and a request
    that runs alone (while it waits nothing else moves the request counters or
    the admission counters or changes a retry policy).  It ends without a panic
    and gives back its admission slots and its place among the requests in
    flight.  A streaming request that was admitted is counted and logged once
    under this route, as a failure if the stream could not be set up, else as
    its stream ended, and not at all if the client left it; any other request,
    whether answered, failed or refused, leaves the counts of requests (total,
    successful, failed and in flight) and the log as they were. *)
Theorem responses_accounting C `{!LruOps C} S K `{!Keys.KeyStore S, !Cache.ResponseCache K}
  prefix_to_vec cache_to_vec sha256 json_to_string delta_to_string completed_to_string error_to_string unix sleep call
  Stream scall next s key rid r answers polls a :
  quiet_env C sleep call Stream scall next -> in_service C S K a -> Fallback.jitters_ok C (world C S K a) ->
  Forall (fun '(_, tick) => calm C tick) answers -> Forall (calm C) polls ->
  exists a' o,
    serve C S K prefix_to_vec cache_to_vec sha256 json_to_string delta_to_string completed_to_string error_to_string
      unix sleep call Stream scall next s key rid r answers polls a = (a', Some o) /\
    Fallback.admission C (world C S K a') = Fallback.admission C (world C S K a) /\
    booked C S K s rid RESPONSES_ROUTE (bill C S K json_to_string s rid r a o) a a'.
Proof. intros Hq Hin Hj. apply serve_booked; [done|by apply in_service_fit]. Qed.

(** C18: a responses stream sends every text delta of every choice in order, and
    then, if the provider completed, one completion event holding exactly the
    text sent, and the end mark; if it did not, one error event and nothing
    else.  (For a client that keeps polling and a text within the limit.) *)
Theorem responses_stream_sends_text C S K `{!Keys.KeyStore S} delta_to_string completed_to_string error_to_string unix
  Stream s key rid ps started answers polls a chunks t rest :
  Event (Fallback.first_event Stream (ps_success Stream ps)) :: map (fun '(u, _) => upstream_item u) answers
    = map (fun c => Event (Provider.Chunk c)) chunks ++ t :: rest ->
  is_chunk t = false -> Str.chars_count (joined (chunk_texts chunks)) <= MAX_STREAM_OUTPUT_CHARS ->
  (length (chunk_texts chunks) < length polls)%nat ->
  let '(_, sent, how) :=
    response_stream C S K delta_to_string completed_to_string error_to_string unix Stream s key rid ps started answers
      polls a in
  sent = map (delta_event delta_to_string rid) (chunk_texts chunks) ++
    match t with
    | Event (Provider.Completed u) =>
        [completed_event completed_to_string
           (response_object rid (Provider.ctx_created (Fallback.str_context Stream (ps_success Stream ps)))
              (Provider.ctx_model (Fallback.str_context Stream (ps_success Stream ps))) (joined (chunk_texts chunks)) u);
         done_event]
    | t => last_event error_to_string rid t
    end /\
  bill_stream how = Some (if completes t then RequestLog.Success else RequestLog.Failure).
Proof.
  intros Hitems Ht Hlen Hp. unfold response_stream. set (items := (_, _) :: _).
  assert (map fst items = map (fun c => Event (Provider.Chunk c)) chunks ++ t :: rest) as Hi.
  { rewrite <-Hitems. unfold items. cbn [map fst]. f_equal. rewrite map_map. apply map_ext. by intros [u tick]. }
  destruct (response_loop_all C delta_to_string error_to_string rid started
    (Fallback.str_attempts Stream (ps_success Stream ps)) chunks t rest items "" polls (world C S K a) Hi Ht Hlen Hp)
    as (polls' & w & e & -> & H1 & H2). cbn [String.append].
  destruct (finish_stream C S K _ _ _ _ _ _ _ _ e _ _) as [a2 g2].
  destruct (completes t) eqn:Ec.
  - destruct t as [[c|u]|er| |]; try done. destruct (H1 u eq_refl) as (Hu & Hf & ->). rewrite Hu, Hf.
    destruct (drop _ polls) as [|p polls'] eqn:Ed.
    { apply (f_equal length) in Ed. rewrite length_drop in Ed. cbn in Ed. lia. }
    cbn [final_events last_event app]. rewrite app_nil_r. split; [done|]. cbn [bill_stream]. by rewrite Hf, Hu.
  - rewrite (H2 eq_refl). cbn [bill_stream]. rewrite (H2 eq_refl). cbn [is_some]. rewrite andb_false_r.
    split; [|done]. by destruct t as [[c|u]|er| |].
Qed.

(* ------------------------------------------------------------------ *)
(** ** A concrete gateway *)

Definition demo_request (stream : bool) : ResponseRequest :=
  {| model := Some "m"; input := InputText "hello"; instructions := Some "be brief"; stream := Some stream;
     temperature := None; max_output_tokens := None |}.

Definition demo_serve (stream : bool) :=
  let cache := Cache.SqliteResponseCache_ResponseCache Cache.example_from_str Cache.example_to_string in
  serve ref_lru Keys.StaticKeyStore Cache.SqliteResponseCache Fallback.demo_to_vec (fun _ => Some [])
    Strategy.example_sha256 (fun _ => Some "") (fun _ d => Some (delta d)) (fun _ r => Some (id r)) (fun m => m) (fun t => t)
    Fallback.demo_sleep (Fallback.demo_call Provider.Timeout true) (list Provider.ProviderStreamEvent)
    Fallback.demo_stream_call Fallback.demo_next demo_settings demo_key 7 (demo_request stream) [] (demo_polls 2) demo_app.

(** Answered without a trace, streamed with one. *)
Lemma demo_response_bills : map (fun st => bill ref_lru Keys.StaticKeyStore Cache.SqliteResponseCache (fun _ => Some "") demo_settings 7
    (demo_request st) demo_app <$> snd (demo_serve st)) [false; true] = [Some None; Some (Some RequestLog.Success)].
Proof. vm_compute. reflexivity. Qed.

Lemma demo_response_bill st a o : demo_serve st = (a, Some o) ->
  bill ref_lru Keys.StaticKeyStore Cache.SqliteResponseCache (fun _ => Some "") demo_settings 7 (demo_request st) demo_app o
  = if st then Some RequestLog.Success else None.
Proof.
  intros E. assert (forall k b, [false; true] !! k = Some st -> [Some None; Some (Some RequestLog.Success)] !! k = Some (Some b) ->
    bill ref_lru Keys.StaticKeyStore Cache.SqliteResponseCache (fun _ => Some "") demo_settings 7 (demo_request st) demo_app o = b) as H.
  { intros k b Hk Hb. rewrite <-demo_response_bills, list_lookup_fmap, Hk in Hb.
    change (Some (bill ref_lru Keys.StaticKeyStore Cache.SqliteResponseCache (fun _ => Some "") demo_settings 7
      (demo_request st) demo_app <$> snd (demo_serve st)) = Some (Some b)) in Hb. rewrite E in Hb. by injection Hb. }
  destruct st; [by apply (H 1%nat)|by apply (H 0%nat)].
Qed.

Lemma responses_accounting_witness :
  (exists a' o, demo_serve false = (a', Some o) /\ request_log _ _ _ a' = []) /\
  (exists a' o, demo_serve true = (a', Some o) /\ length (request_log _ _ _ a') = 1%nat).
Proof.
  assert (forall st, exists a' o, demo_serve st = (a', Some o) /\
    booked ref_lru Keys.StaticKeyStore Cache.SqliteResponseCache demo_settings 7 RESPONSES_ROUTE
      (bill ref_lru Keys.StaticKeyStore Cache.SqliteResponseCache (fun _ => Some "") demo_settings 7 (demo_request st) demo_app o)
      demo_app a') as Hall.
  { intros st.
    destruct (responses_accounting ref_lru Keys.StaticKeyStore Cache.SqliteResponseCache
      (H0 := Cache.SqliteResponseCache_ResponseCache Cache.example_from_str Cache.example_to_string)
      Fallback.demo_to_vec (fun _ => Some []) Strategy.example_sha256 (fun _ => Some "") (fun _ d => Some (delta d))
      (fun _ r => Some (id r)) (fun m => m) (fun t => t)
      Fallback.demo_sleep (Fallback.demo_call Provider.Timeout true) (list Provider.ProviderStreamEvent)
      Fallback.demo_stream_call Fallback.demo_next demo_settings demo_key 7 (demo_request st) [] (demo_polls 2) demo_app
      demo_quiet demo_in_service Fallback.demo_jitters) as (a' & o & E & _ & Hb); [constructor|repeat constructor|].
    exists a', o. split; [exact E|exact Hb]. }
  split.
  - destruct (Hall false) as (a' & o & E & Hb). exists a', o. split; [exact E|].
    rewrite (demo_response_bill false a' o E) in Hb. destruct Hb as (? & ? & ? & ? & _ & _ & ->). reflexivity.
  - destruct (Hall true) as (a' & o & E & Hb). exists a', o. split; [exact E|].
    rewrite (demo_response_bill true a' o E) in Hb. destruct Hb as (? & ? & ? & ? & _ & _ & e & -> & _). reflexivity.
Defined.

Definition demo_delta (t : string) : Chat.ChatCompletionChunkResponse :=
  Chat.from_delta 3 0 "m" "a" 0 {| Chat.delta_role := None; Chat.delta_content := Some t; Chat.delta_tool_calls := None |} None.

Definition demo_pending : PendingStream unit :=
  let s := ps_success unit ChatRoute.demo_pending in
  {| ps_request := ps_request unit ChatRoute.demo_pending;
     ps_success := {|
       Fallback.str_context := Fallback.str_context unit s; Fallback.first_event := Provider.Chunk (demo_delta "hi ");
       Fallback.str_stream := tt; Fallback.str_provider_name := Fallback.str_provider_name unit s;
       Fallback.str_pricing := Fallback.str_pricing unit s; Fallback.str_attempts := Fallback.str_attempts unit s;
       Fallback.in_flight_guard := Fallback.in_flight_guard unit s;
       Fallback.admission_guard := Fallback.admission_guard unit s |};
     ps_admission_guard := ps_admission_guard unit ChatRoute.demo_pending |}.

Lemma responses_stream_sends_text_witness :
  let '(_, sent, how) :=
    response_stream ref_lru Keys.StaticKeyStore Cache.SqliteResponseCache (fun _ d => Some (delta d))
      (fun _ r => text <$> (output r !! 0%nat ≫= fun o => out_content o !! 0%nat)) (fun m => m) (fun t => t) unit demo_settings demo_key 7
      demo_pending 0
      [(Answered (Some (Ok (Provider.Chunk (demo_delta "there")))), fun w => w);
       (Answered (Some (Ok (Provider.Completed Chat.TokenUsage_default))), fun w => w)] (demo_polls 4) demo_app in
  map data sent = ["hi "; "there"; "hi there"; "[DONE]"] /\ bill_stream how = Some RequestLog.Success.
Proof.
  pose proof (responses_stream_sends_text ref_lru Keys.StaticKeyStore Cache.SqliteResponseCache (fun _ d => Some (delta d))
    (fun _ r => text <$> (output r !! 0%nat ≫= fun o => out_content o !! 0%nat)) (fun m => m) (fun t => t) unit demo_settings demo_key 7
    demo_pending 0
    [(Answered (Some (Ok (Provider.Chunk (demo_delta "there")))), fun w => w);
     (Answered (Some (Ok (Provider.Completed Chat.TokenUsage_default))), fun w => w)] (demo_polls 4) demo_app
    [demo_delta "hi "; demo_delta "there"] (Event (Provider.Completed Chat.TokenUsage_default)) []) as H.
  destruct (response_stream _ _ _ _ _ _ _ _ _ _ _ _ _ _ _ _) as [[a' sent] how].
  destruct H as [-> Hb]; [reflexivity|reflexivity|vm_compute; discriminate|cbn; lia|].
  split; [reflexivity|exact Hb].
Defined.

End Responses.
