(* ===== verification/Sse.v ===== *)
(** * Server-sent events (src/src/providers/sse.rs)

    The parser both provider adapters feed with the text of a streaming
    response, chunk by chunk as the network delivers it.  [frames] is what the
    parser should do, as an automaton over the whole text: however the text is
    cut, the parser finds the same events. *)
From S2P Require Import Prelude Str F64 Chat Provider.
From Stdlib Require Import Ascii.

Open Scope string_scope.
Open Scope list_scope.
Open Scope Z_scope.

Module Sse.

Definition MAX_SSE_BUFFER_BYTES : Z := 256 * 1024.
Definition MAX_SSE_EVENT_BYTES : Z := 256 * 1024.

Record SseDataParser := { buffer : string }.
Definition SseDataParser_default : SseDataParser := {| buffer := "" |}.

(** Two newlines. *)
Definition delimiter : string := (Str.newline ++ Str.newline)%string.

Definition data_line (line : string) : option string :=
  rest ← Str.strip_prefix "data:" line;
  let rest := Str.trim_start rest in
  if Str.is_empty rest then None else Some rest.

Definition parse_event_data (raw_event : string) : option string :=
  match omap data_line (Str.lines raw_event) with
  | [] => None
  | data_lines => Some (Str.join Str.newline data_lines)
  end.

(** The [while let] loop; each round removes at least the delimiter, so the
    length of the buffer bounds the rounds. *)
Fixpoint drain (fuel : nat) (buf : string) (events : list string) :
  string * result (list string) Provider.ProviderError :=
  match fuel with
  | O => (buf, Ok events)
  | S fuel =>
      match Str.split_once delimiter buf with
      | None => (buf, Ok events)
      | Some (raw_event, rest) =>
          if MAX_SSE_EVENT_BYTES <? Str.len raw_event then (buf, Err Provider.ProviderBadResponse)
          else
            match parse_event_data raw_event with
            | Some event_data =>
                if MAX_SSE_EVENT_BYTES <? Str.len event_data then (rest, Err Provider.ProviderBadResponse)
                else drain fuel rest (events ++ [event_data])
            | None => drain fuel rest events
            end
      end
  end.

Definition push_chunk (chunk : string) (p : SseDataParser) :
  SseDataParser * result (list string) Provider.ProviderError :=
  if MAX_SSE_BUFFER_BYTES <? u64_sat_add (Str.len (buffer p)) (Str.len chunk)
  then (p, Err Provider.ProviderBadResponse)
  else
    let buf := (buffer p ++ chunk)%string in
    let '(buf, r) := drain (String.length buf) buf [] in
    ({| buffer := buf |}, r).

(* ------------------------------------------------------------------ *)
(** ** What the parser should find *)

Definition is_nl (c : ascii) : bool := Ascii.eqb "010"%char c.

(** The complete frames of a text and what is left after the last delimiter. *)
Fixpoint frames (cur s : string) : list string * string :=
  match s with
  | EmptyString => ([], cur)
  | String a s1 =>
      match s1 with
      | String b s2 =>
          if is_nl a && is_nl b then let '(fs, rest) := frames "" s2 in (cur :: fs, rest)
          else frames (Str.snoc cur a) s1
      | EmptyString => ([], Str.snoc cur a)
      end
  end.

Definition frames_of (s : string) : list string := fst (frames "" s).
Definition pending (s : string) : string := snd (frames "" s).
Definition events_of (s : string) : list string := omap parse_event_data (frames_of s).

(** Feeding chunks one after the other, up to the first error. *)
Fixpoint push_all (chunks : list string) (p : SseDataParser) : SseDataParser * result (list string) Provider.ProviderError :=
  match chunks with
  | [] => (p, Ok [])
  | c :: chunks =>
      match push_chunk c p with
      | (p, Ok events) =>
          match push_all chunks p with
          | (p, Ok events') => (p, Ok (events ++ events'))
          | (p, Err e) => (p, Err e)
          end
      | (p, Err e) => (p, Err e)
      end
  end.

(** Every chunk fits into the buffer beside the unfinished frame before it. *)
Fixpoint fits (seen : string) (chunks : list string) : bool :=
  match chunks with
  | [] => true
  | c :: chunks =>
      (Str.len (pending seen) + Str.len c <=? MAX_SSE_BUFFER_BYTES) && fits (seen ++ c)%string chunks
  end.

(** How a provider sends a payload. *)
Definition encode (payload : string) : string := ("data: " ++ payload ++ delimiter)%string.

Fixpoint no_nl (s : string) : bool :=
  match s with EmptyString => true | String a s => negb (is_nl a) && no_nl s end.

(** A payload on one line that does not start with whitespace, as JSON is. *)
Definition one_line (payload : string) : Prop :=
  payload <> "" /\ Str.trim_start payload = payload /\ no_nl payload = true.

(* ------------------------------------------------------------------ *)
(** ** The loop finds the frames *)

#[local] Arguments String.append : simpl nomatch.

Lemma split_once_one a : Str.split_once delimiter (String a "") = None.
Proof.
  cbn [Str.split_once]. change (Str.strip_prefix delimiter (String a "")) with (if is_nl a then @None string else None).
  by destruct (is_nl a).
Qed.

Lemma split_frames cur s :
  match Str.split_once delimiter s with
  | None => frames cur s = ([], (cur ++ s)%string)
  | Some (before, rest) => frames cur s = ((cur ++ before)%string :: frames_of rest, pending rest)
  end.
Proof.
  revert cur. induction s as [|a s IH]; intros cur; [by rewrite Str.app_empty_r|].
  destruct s as [|b s2].
  { by rewrite split_once_one. }
  change (frames cur (String a (String b s2))) with
    (if is_nl a && is_nl b then let '(fs, rest) := frames "" s2 in (cur :: fs, rest)
     else frames (Str.snoc cur a) (String b s2)).
  specialize (IH (Str.snoc cur a)). revert IH.
  cbn [Str.split_once]. change (Str.strip_prefix delimiter (String a (String b s2)))
    with (if is_nl a then if is_nl b then Some s2 else None else None).
  destruct (is_nl a) eqn:Ea, (is_nl b) eqn:Eb; cbn [andb];
    try (intros _; unfold frames_of, pending; destruct (frames "" s2); by rewrite Str.app_empty_r).
  all: destruct (match Str.strip_prefix delimiter (String b s2) with Some _ => _ | None => _ end) as [[before rest]|];
    intros ->; by rewrite ?Str.snoc_app.
Qed.

Lemma split_once_app s t before rest : Str.split_once delimiter s = Some (before, rest) ->
  Str.split_once delimiter (s ++ t) = Some (before, (rest ++ t)%string).
Proof.
  revert before. induction s as [|a s IH]; intros before; [done|].
  destruct s as [|b s2]; [by rewrite split_once_one|].
  cbn [Str.split_once String.append]. change (Str.strip_prefix delimiter (String a (String b s2)))
    with (if is_nl a then if is_nl b then Some s2 else None else None).
  change (Str.strip_prefix delimiter (String a (String b (s2 ++ t))))
    with (if is_nl a then if is_nl b then Some (s2 ++ t)%string else None else None).
  cbn [Str.split_once String.append] in IH.
  destruct (is_nl a), (is_nl b); try (by intros [= <- <-]).
  all: destruct (match Str.strip_prefix delimiter (String b s2) with Some _ => _ | None => _ end) as [[b' r']|];
    [|done]; intros [= <- <-]; by rewrite (IH b').
Qed.

Lemma split_once_length s before rest : Str.split_once delimiter s = Some (before, rest) ->
  (String.length s = String.length before + 2 + String.length rest)%nat.
Proof.
  revert before. induction s as [|a s IH]; intros before; [done|].
  destruct s as [|b s2]; [by rewrite split_once_one|].
  cbn [Str.split_once]. change (Str.strip_prefix delimiter (String a (String b s2)))
    with (if is_nl a then if is_nl b then Some s2 else None else None).
  cbn [Str.split_once] in IH.
  destruct (is_nl a), (is_nl b); try (by intros [= <- <-]).
  all: destruct (match Str.strip_prefix delimiter (String b s2) with Some _ => _ | None => _ end) as [[b' r']|];
    [|done]; intros [= <- <-]; specialize (IH b' eq_refl); cbn [String.length] in *; lia.
Qed.

Lemma frames_none s : Str.split_once delimiter s = None -> frames_of s = [] /\ pending s = s.
Proof.
  intros H. pose proof (split_frames "" s) as Hs. rewrite H in Hs. unfold frames_of, pending. by rewrite Hs.
Qed.

Lemma frames_some s before rest : Str.split_once delimiter s = Some (before, rest) ->
  frames_of s = before :: frames_of rest /\ pending s = pending rest.
Proof.
  intros H. pose proof (split_frames "" s) as Hs. rewrite H in Hs. unfold frames_of, pending in *. by rewrite Hs.
Qed.

(** Cutting the text anywhere loses nothing. *)
Lemma frames_app s t :
  frames_of (s ++ t) = frames_of s ++ frames_of (pending s ++ t) /\
  pending (s ++ t) = pending (pending s ++ t).
Proof.
  remember (String.length s) as n eqn:Hn. revert s Hn. induction n as [n IH] using lt_wf_ind. intros s ->.
  destruct (Str.split_once delimiter s) as [[before rest]|] eqn:E.
  - pose proof (split_once_length _ _ _ E). destruct (frames_some _ _ _ E) as [-> ->].
    destruct (frames_some _ _ _ (split_once_app s t _ _ E)) as [-> ->].
    destruct (IH (String.length rest) ltac:(lia) rest eq_refl) as [-> ->]. done.
  - by destruct (frames_none _ E) as [-> ->].
Qed.

Lemma pending_idem s : frames_of (pending s) = [] /\ pending (pending s) = pending s.
Proof.
  remember (String.length s) as n eqn:Hn. revert s Hn. induction n as [n IH] using lt_wf_ind. intros s ->.
  destruct (Str.split_once delimiter s) as [[before rest]|] eqn:E.
  - pose proof (split_once_length _ _ _ E). destruct (frames_some _ _ _ E) as [_ ->].
    by apply (IH (String.length rest)); [lia|].
  - destruct (frames_none _ E) as [H1 H2]. by rewrite H2.
Qed.

(** ** Lengths: the two checks inside the loop never fire *)

Lemma trim_start_length s : (String.length (Str.trim_start s) <= String.length s)%nat.
Proof.
  remember (String.length s) as n eqn:Hn. revert s Hn. induction n as [n IH] using lt_wf_ind. intros s ->.
  destruct s as [|a [|b [|c s]]]; [done|..]; cbn [Str.trim_start];
    repeat case_match; cbn [String.length]; try lia.
  all: match goal with |- context [Str.trim_start ?x] => etrans; [apply (IH (String.length x)); cbn; lia|cbn; lia] end.
Qed.

Lemma strip_prefix_length p s r : Str.strip_prefix p s = Some r -> (String.length r <= String.length s)%nat.
Proof.
  revert s. induction p as [|a p IH]; intros s; [by intros [= <-]|]. destruct s as [|b s]; [done|]. cbn.
  destruct (Ascii.eqb a b); [|done]. intros H%IH. lia.
Qed.

Lemma strip_cr_length s : (String.length (Str.strip_cr s) <= String.length s)%nat.
Proof.
  induction s as [|a [|b s] IH]; [done|cbn; by destruct (Ascii.eqb _ _); cbn; lia|]. cbn [Str.strip_cr String.length] in *. lia.
Qed.

(** Each line with its newline. *)
Definition lines_length (l : list string) : nat := sum_list_with (fun x => S (String.length x)) l.

Lemma lines_from_length cur s : (lines_length (Str.lines_from cur s) <= String.length cur + String.length s + 1)%nat.
Proof.
  revert cur. induction s as [|a s IH]; intros cur; cbn [Str.lines_from].
  - unfold Str.flush. destruct (Str.is_empty cur); cbn; lia.
  - destruct (Ascii.eqb a _).
    + specialize (IH ""). pose proof (strip_cr_length cur). unfold lines_length in *. cbn in *. lia.
    + specialize (IH (Str.snoc cur a)). cbn [String.length].
      assert (String.length (Str.snoc cur a) = S (String.length cur)) by (unfold Str.snoc; rewrite Str.length_app; cbn; lia). lia.
Qed.

Lemma data_lines_length l : (lines_length (omap data_line l) <= lines_length l)%nat.
Proof.
  unfold lines_length. induction l as [|x l IH]; [done|]. cbn [omap list_omap]. destruct (data_line x) as [y|] eqn:E; cbn; [|lia].
  assert (String.length y <= String.length x)%nat; [|lia].
  unfold data_line in E. destruct (Str.strip_prefix "data:" x) as [r|] eqn:Er; [|done]. cbn in E.
  destruct (Str.is_empty _); [done|]. injection E as <-. etrans; [apply trim_start_length|by eapply strip_prefix_length].
Qed.

Lemma join_length x l : (String.length (Str.join Str.newline (x :: l)) + 1 = lines_length (x :: l))%nat.
Proof.
  revert x. induction l as [|y l IH]; intros x; [cbn; lia|].
  change (Str.join Str.newline (x :: y :: l)) with (x ++ Str.newline ++ Str.join Str.newline (y :: l))%string.
  rewrite !Str.length_app. specialize (IH y). unfold lines_length in *. cbn [sum_list_with] in *. change (String.length Str.newline) with 1%nat. lia.
Qed.

Lemma parse_event_data_length raw d : parse_event_data raw = Some d -> (String.length d <= String.length raw)%nat.
Proof.
  unfold parse_event_data. pose proof (data_lines_length (Str.lines raw)) as H1.
  pose proof (lines_from_length "" raw) as H2. unfold Str.lines in *. cbn [String.length] in H2.
  revert H1. destruct (omap data_line _) as [|x l]; [done|]. intros H1 Hd. pose proof (join_length x l) as Hj.
  set (j := Str.join Str.newline (x :: l)) in *. injection Hd as <-. lia.
Qed.

Lemma drain_frames fuel buf events :
  (String.length buf <= fuel)%nat -> Str.len buf <= MAX_SSE_EVENT_BYTES ->
  drain fuel buf events = (pending buf, Ok (events ++ events_of buf)).
Proof.
  revert buf events. induction fuel as [|fuel IH]; intros buf events Hf Hlen.
  { destruct buf; [|cbn in Hf; lia]. cbn. by rewrite app_nil_r. }
  cbn [drain]. destruct (Str.split_once delimiter buf) as [[raw rest]|] eqn:E.
  - pose proof (split_once_length _ _ _ E) as Hl. destruct (frames_some _ _ _ E) as [Hfr ->].
    unfold events_of. rewrite Hfr. cbn [omap list_omap]. unfold Str.len in *.
    destruct (MAX_SSE_EVENT_BYTES <? Z.of_nat (String.length raw)) eqn:E1; [zbool; lia|].
    destruct (parse_event_data raw) as [d|] eqn:Ed.
    + pose proof (parse_event_data_length _ _ Ed).
      destruct (MAX_SSE_EVENT_BYTES <? Z.of_nat (String.length d)) eqn:E2; [zbool; lia|].
      rewrite IH by lia. by rewrite <-app_assoc.
    + by rewrite IH by lia.
  - unfold events_of. destruct (frames_none _ E) as [-> ->]. cbn. by rewrite app_nil_r.
Qed.

(** One push: everything the text so far completes, and nothing else. *)
Lemma push_chunk_spec seen c :
  push_chunk c {| buffer := pending seen |} =
    if Str.len (pending seen) + Str.len c <=? MAX_SSE_BUFFER_BYTES
    then ({| buffer := pending (seen ++ c) |}, Ok (events_of (pending seen ++ c)))
    else ({| buffer := pending seen |}, Err Provider.ProviderBadResponse).
Proof.
  unfold push_chunk. cbn [buffer].
  assert ((MAX_SSE_BUFFER_BYTES <? u64_sat_add (Str.len (pending seen)) (Str.len c)) =
    negb (Str.len (pending seen) + Str.len c <=? MAX_SSE_BUFFER_BYTES)) as ->.
  { assert (MAX_SSE_BUFFER_BYTES < u64_max) by reflexivity. unfold u64_sat_add.
    destruct (_ <? _) eqn:E1, (_ <=? _) eqn:E2; cbn; zbool; try done; lia. }
  destruct (_ <=? _) eqn:E; cbn [negb]; [|done]. zbool.
  rewrite drain_frames; [|lia|unfold Str.len in *; rewrite Str.length_app; change MAX_SSE_EVENT_BYTES with MAX_SSE_BUFFER_BYTES; lia].
  by rewrite (proj2 (frames_app seen c)).
Qed.

Lemma push_all_spec chunks seen :
  fits seen chunks = true ->
  push_all chunks {| buffer := pending seen |} =
    ({| buffer := pending (seen ++ String.concat "" chunks) |},
     Ok (events_of (pending seen ++ String.concat "" chunks))).
Proof.
  revert seen. induction chunks as [|c chunks IH]; intros seen; cbn [fits push_all].
  - intros _. cbn. unfold events_of. rewrite !Str.app_empty_r. by rewrite (proj1 (pending_idem seen)).
  - intros [Hc Hcs]%andb_true_iff. rewrite push_chunk_spec, Hc. rewrite (IH _ Hcs).
    assert (String.concat "" (c :: chunks) = (c ++ String.concat "" chunks)%string) as ->
      by (destruct chunks; [by rewrite Str.app_empty_r|done]).
    rewrite !Str.app_assoc. f_equal. unfold events_of.
    rewrite <-Str.app_assoc, (proj1 (frames_app (pending seen ++ c) _)), <-(proj2 (frames_app seen c)).
    by rewrite omap_app.
Qed.

(** ** What providers send is read back *)

Lemma one_lines l :
  forallb (fun x => negb (Str.is_empty x) && String.eqb (Str.trim_start x) x && no_nl x) l = true -> Forall one_line l.
Proof.
  rewrite forallb_forall. intros H. apply Forall_forall. intros x Hx%list_elem_of_In. specialize (H x Hx).
  apply andb_true_iff in H as [[H1 H2%String.eqb_eq]%andb_true_iff H3]. by split; [destruct x|].
Qed.

Lemma concat_cons c l : String.concat "" (c :: l) = (c ++ String.concat "" l)%string.
Proof. destruct l; [by rewrite Str.app_empty_r|done]. Qed.

Lemma split_once_line s t : no_nl s = true -> Str.split_once delimiter (s ++ delimiter ++ t) = Some (s, t).
Proof.
  induction s as [|a s IH]; [done|]. cbn [no_nl String.append]. intros [Ha Hs]%andb_true_iff. cbn [Str.split_once].
  assert (Str.strip_prefix delimiter (String a (s ++ delimiter ++ t)) = None) as ->.
  { unfold delimiter at 1. cbn [Str.strip_prefix Str.newline String.append]. fold (is_nl a). by destruct (is_nl a). }
  by rewrite (IH Hs).
Qed.

Lemma lines_one cur s : no_nl s = true -> Str.lines_from cur s = Str.flush (cur ++ s).
Proof.
  revert cur. induction s as [|a s IH]; intros cur; cbn [no_nl Str.lines_from]; [by rewrite Str.app_empty_r|].
  intros [Ha Hs]%andb_true_iff. unfold is_nl in Ha. rewrite Ascii.eqb_sym.
  destruct (Ascii.eqb _ a); [done|]. by rewrite IH, Str.snoc_app.
Qed.

Lemma parse_encoded payload : one_line payload -> parse_event_data ("data: " ++ payload) = Some payload.
Proof.
  intros (Hne & Htrim & Hnl). unfold parse_event_data, Str.lines. rewrite lines_one by done.
  cbn [String.append Str.flush Str.is_empty omap list_omap]. unfold data_line.
  cbn [Str.strip_prefix Ascii.eqb Bool.eqb mbind option_bind]. cbn [Str.trim_start Str.is_ws1].
  change (Str.is_ws1 " ") with true. cbn iota. rewrite Htrim. by destruct payload.
Qed.

Lemma frames_encoded payloads : Forall one_line payloads ->
  events_of (String.concat "" (map encode payloads)) = payloads /\
  pending (String.concat "" (map encode payloads)) = "".
Proof.
  unfold events_of. induction 1 as [|x l Hx _ [IH1 IH2]]; [done|]. cbn [map]. rewrite concat_cons.
  assert (Str.split_once delimiter (encode x ++ String.concat "" (map encode l))
    = Some (("data: " ++ x)%string, String.concat "" (map encode l))) as Hs.
  { unfold encode at 1. rewrite <-(Str.app_assoc "data: " x), Str.app_assoc. apply split_once_line.
    cbn. by destruct Hx as (_ & _ & ->). }
  destruct (frames_some _ _ _ Hs) as [-> ->]. split; [|exact IH2]. cbn [omap list_omap].
  rewrite parse_encoded by done. by rewrite IH1.
Qed.

(** A frame that names its event, as the server-sent events standard has it. *)
Definition encode_named (frame : string * string) : string :=
  ("event: " ++ frame.1 ++ Str.newline ++ encode frame.2)%string.

Definition named_line (frame : string * string) : Prop := no_nl frame.1 = true /\ one_line frame.2.

Lemma named_lines l :
  forallb (fun x => no_nl x.1 && (negb (Str.is_empty x.2) && String.eqb (Str.trim_start x.2) x.2 && no_nl x.2)) l = true ->
  Forall named_line l.
Proof.
  rewrite forallb_forall. intros H. apply Forall_forall. intros x Hx%list_elem_of_In.
  specialize (H x Hx). apply andb_true_iff in H as [H1 H2]. split; [done|].
  assert (Forall one_line [x.2]) as Hl by (apply one_lines; cbn; by rewrite H2). by inversion Hl.
Qed.

Lemma split_once_lines s u t : no_nl s = true -> no_nl u = true -> u <> "" ->
  Str.split_once delimiter (s ++ Str.newline ++ u ++ delimiter ++ t) = Some ((s ++ Str.newline ++ u)%string, t).
Proof.
  intros Hs Hu Hne. induction s as [|a s IH].
  - cbn [String.append]. pose proof (split_once_line u t Hu) as Hsplit. destruct u as [|b u]; [done|].
    change (Str.newline ++ String b u ++ delimiter ++ t)%string with (String "010" (String b (u ++ delimiter ++ t))).
    cbn [Str.split_once]. cbn [no_nl] in Hu. apply andb_true_iff in Hu as [Hb _].
    change (Str.strip_prefix delimiter (String "010" (String b (u ++ delimiter ++ t))))
      with (if is_nl b then Some (u ++ delimiter ++ t)%string else None).
    destruct (is_nl b); [done|].
    change (String b u ++ delimiter ++ t)%string with (String b (u ++ delimiter ++ t)) in Hsplit.
    cbn [Str.split_once] in Hsplit. by rewrite Hsplit.
  - cbn [no_nl String.append] in *. apply andb_true_iff in Hs as [Ha Hs]. cbn [Str.split_once].
    assert (Str.strip_prefix delimiter (String a (s ++ Str.newline ++ u ++ delimiter ++ t)) = None) as ->.
    { unfold delimiter at 1. cbn [Str.strip_prefix Str.newline String.append]. fold (is_nl a). by destruct (is_nl a). }
    by rewrite (IH Hs).
Qed.

Lemma lines_cons cur s u : no_nl s = true ->
  Str.lines_from cur (s ++ Str.newline ++ u) = Str.strip_cr (cur ++ s) :: Str.lines_from "" u.
Proof.
  revert cur. induction s as [|a s IH]; intros cur; cbn [no_nl String.append]; [by rewrite Str.app_empty_r|].
  intros [Ha Hs]%andb_true_iff. cbn [Str.lines_from]. unfold is_nl in Ha. rewrite Ascii.eqb_sym in Ha.
  destruct (Ascii.eqb a _); [done|]. by rewrite IH, Str.snoc_app.
Qed.

Lemma parse_named frame : named_line frame ->
  parse_event_data ("event: " ++ frame.1 ++ Str.newline ++ "data: " ++ frame.2) = Some frame.2.
Proof.
  intros [Hn Hp]. pose proof (parse_encoded frame.2 Hp) as Hd. unfold parse_event_data, Str.lines in *.
  rewrite <-(Str.app_assoc "event: "), lines_cons by (cbn; exact Hn). cbn [omap list_omap].
  assert (data_line (Str.strip_cr ("" ++ "event: " ++ frame.1)) = None) as ->; [|exact Hd].
  cbn [String.append]. unfold data_line. by destruct frame.1.
Qed.

Lemma frames_named frames : Forall named_line frames ->
  events_of (String.concat "" (map encode_named frames)) = map snd frames /\
  pending (String.concat "" (map encode_named frames)) = "".
Proof.
  unfold events_of. induction 1 as [|x l Hx _ [IH1 IH2]]; [done|]. cbn [map]. rewrite concat_cons.
  set (rest := String.concat "" (map encode_named l)) in *. pose proof Hx as [Hn (_ & _ & Hd)].
  assert (Str.split_once delimiter (encode_named x ++ rest)
    = Some (("event: " ++ x.1 ++ Str.newline ++ "data: " ++ x.2)%string, rest)) as Hs.
  { unfold encode_named, encode. rewrite !Str.app_assoc.
    rewrite <-(Str.app_assoc "event: "), <-(Str.app_assoc "data: "), split_once_lines by (done || cbn; done).
    by rewrite !Str.app_assoc. }
  destruct (frames_some _ _ _ Hs) as [-> ->]. split; [|exact IH2]. cbn [omap list_omap].
  rewrite parse_named by done. by rewrite IH1.
Qed.

(* ------------------------------------------------------------------ *)
(** ** Properties *)

(** C13: how the network cuts a response does not matter: if every chunk fits
    into the buffer beside the unfinished frame before it, feeding the chunks
    one by one yields exactly the events of the whole text, in order, and
    leaves exactly the text after the last delimiter; the first chunk that does
    not fit is an error.  (The other two length checks can never fire.) *)
Theorem sse_chunking_irrelevant chunks :
  (fits "" chunks = true ->
   push_all chunks SseDataParser_default =
     ({| buffer := pending (String.concat "" chunks) |}, Ok (events_of (String.concat "" chunks)))) /\
  (fits "" chunks = false -> snd (push_all chunks SseDataParser_default) = Err Provider.ProviderBadResponse).
Proof.
  change SseDataParser_default with {| buffer := pending "" |}. split; [by apply push_all_spec|].
  generalize "" as seen. induction chunks as [|c chunks IH]; intros seen; cbn [fits push_all]; [done|].
  rewrite push_chunk_spec. destruct (_ <=? _); cbn [andb]; [|done]. intros Hf. specialize (IH _ Hf).
  by destruct (push_all chunks _) as [p [e|e]].
Qed.

(** What a provider sends is what the gateway reads: payloads sent one per
    frame, each on one line and not starting with whitespace, come back exactly,
    however the text is cut into chunks that fit the buffer. *)
Theorem sse_roundtrip chunks payloads :
  Forall one_line payloads -> String.concat "" chunks = String.concat "" (map encode payloads) ->
  fits "" chunks = true ->
  push_all chunks SseDataParser_default = (SseDataParser_default, Ok payloads).
Proof.
  intros Hp Hc Hf. change SseDataParser_default with {| buffer := pending "" |} at 1.
  rewrite push_all_spec by done. destruct (frames_encoded payloads Hp) as [H1 H2].
  change (pending "") with "". cbn [String.append]. by rewrite Hc, H1, H2.
Qed.

Definition demo_chunks : list string :=
  [("data: hello" ++ Str.newline)%string; (Str.newline ++ "da")%string; "ta: wor"; ("ld" ++ delimiter)%string].

Lemma sse_chunking_irrelevant_witness :
  push_all demo_chunks SseDataParser_default = ({| buffer := "" |}, Ok ["hello"; "world"]).
Proof. exact (proj1 (sse_chunking_irrelevant demo_chunks) eq_refl). Defined.

Lemma sse_roundtrip_witness :
  push_all demo_chunks SseDataParser_default = (SseDataParser_default, Ok ["hello"; "world"]).
Proof.
  apply (sse_roundtrip demo_chunks ["hello"; "world"]); [|reflexivity|reflexivity].
  repeat constructor; discriminate.
Defined.

End Sse.
