(* ===== verification/Upstream.v ===== *)
(** * Streaming from an upstream service

    What the two provider adapters (src/src/providers/openai_compatible.rs and
    anthropic.rs) share: how HTTP statuses and transport errors become provider
    errors, and the loop that reads the body of a streaming response.  The loop
    is written once, over a decoder of single events, and its properties are
    proved for every decoder: its output always has the shape the chat endpoint
    expects, and does not depend on how the network cuts the text. *)
From S2P Require Import Prelude Str F64 Chat Provider Sse.
From Stdlib Require Import Ascii.

Open Scope string_scope.
Open Scope list_scope.
Open Scope Z_scope.

Module Upstream.

(** What the code asks of a [reqwest::Error]. *)
Record TransportError := { is_timeout : bool }.

(** A response: its status and its JSON body, if that can be read as [A]. *)
Record Response (A : Type) := { status : Z; json : option A }.
Arguments status {A} _.
Arguments json {A} _.

Definition is_success (status : Z) : bool := (200 <=? status) && (status <? 300).
Definition is_server_error (status : Z) : bool := (500 <=? status) && (status <? 600).

Definition map_http_status (status : Z) : Provider.ProviderError :=
  if (status =? 401) || (status =? 403) then Provider.AuthenticationFailed
  else if status =? 429 then Provider.RateLimited
  else if (status =? 408) || (status =? 504) then Provider.Timeout
  else if is_server_error status then Provider.ProviderUnavailable
  else Provider.ProviderBadResponse.

Definition map_transport_error (error : TransportError) : Provider.ProviderError :=
  if is_timeout error then Provider.Timeout else Provider.ProviderUnavailable.

(** [trim_end_matches('/')] *)
Fixpoint trim_end_slashes (s : string) : string :=
  match s with
  | EmptyString => EmptyString
  | String a s =>
      let s := trim_end_slashes s in
      if Ascii.eqb a "/"%char && Str.is_empty s then EmptyString else String a s
  end.

(** Usage estimated from word counts. *)
Definition estimated_usage (prompt_tokens : Z) (completion_text : string) : Chat.TokenUsage :=
  let completion_tokens := Chat.estimate_tokens_for_text completion_text in
  {| Chat.prompt_tokens := prompt_tokens; Chat.completion_tokens := completion_tokens;
     Chat.total_tokens := u32_add prompt_tokens completion_tokens |}.

(* ------------------------------------------------------------------ *)
(** ** The streaming loop *)

Definition Item : Type := result Provider.ProviderStreamEvent Provider.ProviderError.

Section Handle.
Context {Ev St : Type}.

(** What the body of the [for] loop does with one event: go on, perhaps after
    yielding a chunk; yield the completion and return; or fail. *)
Inductive Reaction :=
| Next (st : St) (chunk : option Chat.ChatCompletionChunkResponse)
| Finished (usage : Chat.TokenUsage)
| Failed (e : Provider.ProviderError).

Variable on_event : Ev -> St -> Reaction.

Definition yielded (chunk : option Chat.ChatCompletionChunkResponse) : list Item :=
  match chunk with Some c => [Ok (Provider.Chunk c)] | None => [] end.

(** What is yielded for a list of events, and the state unless it returned. *)
Fixpoint handle (events : list Ev) (st : St) : list Item * option St :=
  match events with
  | [] => ([], Some st)
  | event_data :: events =>
      match on_event event_data st with
      | Next st chunk => let '(out, r) := handle events st in (yielded chunk ++ out, r)
      | Finished usage => ([Ok (Provider.Completed usage)], None)
      | Failed e => ([Err e], None)
      end
  end.

(* ------------------------------------------------------------------ *)
(** ** Shape *)

Definition terminal (i : Item) : bool :=
  match i with Ok (Provider.Chunk _) => false | _ => true end.

(** Chunks, then exactly one completion or error. *)
Definition well_shaped (out : list Item) : Prop :=
  exists cs t, out = map (fun c => Ok (Provider.Chunk c)) cs ++ [t] /\ terminal t = true.

Lemma well_shaped_one t : terminal t = true -> well_shaped [t].
Proof. intros H. by exists [], t. Qed.

Lemma well_shaped_app cs out : well_shaped out ->
  well_shaped (map (fun c => Ok (Provider.Chunk c)) cs ++ out).
Proof. intros (cs' & t & -> & Ht). exists (cs ++ cs'), t. by rewrite map_app, app_assoc. Qed.

Lemma handle_shape events st :
  match handle events st with
  | (out, Some _) => exists cs, out = map (fun c => Ok (Provider.Chunk c)) cs
  | (out, None) => well_shaped out
  end.
Proof.
  revert st. induction events as [|e events IH]; intros st; cbn [handle]; [by exists []|].
  destruct (on_event e st) as [st' chunk|u|er]; [|by apply well_shaped_one..].
  specialize (IH st'). destruct (handle events st') as [out [st2|]].
  - destruct IH as [cs ->]. destruct chunk as [c|]; [by exists (c :: cs)|by exists cs].
  - destruct chunk as [c|]; [|done]. exact (well_shaped_app [c] out IH).
Qed.

Lemma handle_app e1 e2 st :
  handle (e1 ++ e2) st =
    match handle e1 st with
    | (out, Some st) => let '(out', r) := handle e2 st in (out ++ out', r)
    | (out, None) => (out, None)
    end.
Proof.
  revert st. induction e1 as [|e e1 IH]; intros st; cbn [handle app]; [by destruct (handle e2 st)|].
  destruct (on_event e st) as [st' chunk|u|er]; [|done..]. rewrite IH.
  destruct (handle e1 st') as [out [st2|]]; [|done]. destruct (handle e2 st2) as [out' r]. by rewrite app_assoc.
Qed.

End Handle.
Arguments Reaction : clear implicits.

(** Events decoded by a parser first. *)
Definition parsing {D Ev St} (from_str : D -> option Ev) (on_parsed : Ev -> St -> Reaction St)
  (event_data : D) (st : St) : Reaction St :=
  match from_str event_data with
  | None => Failed Provider.ProviderBadResponse
  | Some parsed => on_parsed parsed st
  end.

Lemma handle_parsing {D Ev St} (from_str : D -> option Ev) (on_parsed : Ev -> St -> Reaction St) lines evs st :
  Forall2 (fun l e => from_str l = Some e) lines evs ->
  handle (parsing from_str on_parsed) lines st = handle on_parsed evs st.
Proof.
  intros Hl. revert st. induction Hl as [|l e lines evs He _ IH]; intros st; [done|]. cbn [handle].
  unfold parsing at 1. rewrite He. destruct (on_parsed e st) as [st' c|u|er]; [|done..]. by rewrite IH.
Qed.

(** Parsing in two steps is parsing the result of the first. *)
Lemma handle_parsed {D Ev St} (first : string -> option D) (second : D -> option Ev)
  (on_parsed : Ev -> St -> Reaction St) lines docs st :
  Forall2 (fun l d => first l = Some d) lines docs ->
  handle (parsing (fun l => first l ≫= second) on_parsed) lines st = handle (parsing second on_parsed) docs st.
Proof.
  intros Hl. revert st. induction Hl as [|l d lines docs Hd _ IH]; intros st; [done|]. cbn [handle].
  unfold parsing at 1 3. rewrite Hd. cbn [mbind option_bind].
  destruct (second d) as [e|]; [|done]. destruct (on_parsed e st) as [st' c|u|er]; [|done..]. by rewrite IH.
Qed.

(* ------------------------------------------------------------------ *)
(** ** The body of a streaming response *)

Section Body.
Context {St : Type}.
Variable on_event : string -> St -> Reaction St.

(** The [try_stream!] body: everything the stream yields for what the network
    delivers until it closes. *)
Fixpoint body (input : list (result string TransportError)) (parser : Sse.SseDataParser) (st : St) : list Item :=
  match input with
  | [] => [Err Provider.ProviderBadResponse]
  | Err error :: _ => [Err (map_transport_error error)]
  | Ok bytes :: input =>
      if Str.utf8 bytes
      then
        match Sse.push_chunk bytes parser with
        | (_, Err e) => [Err e]
        | (parser, Ok events) =>
            match handle on_event events st with
            | (out, Some st) => out ++ body input parser st
            | (out, None) => out
            end
        end
      else [Err Provider.ProviderBadResponse]
  end.

Definition stream (input : list (result string TransportError)) (st : St) : list Item :=
  body input Sse.SseDataParser_default st.

Lemma body_shape input parser st : well_shaped (body input parser st).
Proof.
  revert parser st. induction input as [|[bytes|error] input IH]; intros parser st; cbn [body];
    [by apply well_shaped_one| |by apply well_shaped_one].
  destruct (Str.utf8 bytes); [|by apply well_shaped_one].
  destruct (Sse.push_chunk bytes parser) as [parser' [events|e]]; [|by apply well_shaped_one].
  pose proof (handle_shape on_event events st) as Hh. destruct (handle on_event events st) as [out [st'|]]; [|exact Hh].
  destruct Hh as [cs ->]. apply well_shaped_app, IH.
Qed.

(** ** Independence of the cuts *)

(** The output for the whole text. *)
Definition decoded (text : string) (st : St) : list Item :=
  match handle on_event (Sse.events_of text) st with
  | (out, Some _) => out ++ [Err Provider.ProviderBadResponse]
  | (out, None) => out
  end.

Lemma body_decoded texts seen st :
  Forall (fun x => Str.utf8 x = true) texts -> Sse.fits seen texts = true ->
  body (map Ok texts) {| Sse.buffer := Sse.pending seen |} st =
    decoded (Sse.pending seen ++ String.concat "" texts) st.
Proof.
  intros Hu. revert seen st. induction Hu as [|x texts Hx _ IH]; intros seen st; cbn [map body Sse.fits].
  - intros _. unfold decoded, Sse.events_of. cbn [String.concat]. rewrite Str.app_empty_r.
    by rewrite (proj1 (Sse.pending_idem seen)).
  - intros [Hf Hfs]%andb_true_iff. rewrite Hx, Sse.push_chunk_spec, Hf. unfold decoded. rewrite Sse.concat_cons.
    unfold Sse.events_of at 2. rewrite <-Str.app_assoc, (proj1 (Sse.frames_app (Sse.pending seen ++ x) _)), omap_app.
    fold (Sse.events_of (Sse.pending seen ++ x)). rewrite handle_app.
    destruct (handle on_event (Sse.events_of (Sse.pending seen ++ x)) st) as [out [st'|]]; [|done].
    rewrite (IH _ st' Hfs), (proj2 (Sse.frames_app seen x)). unfold decoded, Sse.events_of.
    destruct (handle on_event _ st') as [out' [st2|]]; [by rewrite app_assoc|done].
Qed.

Lemma stream_decoded texts st :
  Forall (fun x => Str.utf8 x = true) texts -> Sse.fits "" texts = true ->
  stream (map Ok texts) st = decoded (String.concat "" texts) st.
Proof. intros Hu Hf. exact (body_decoded texts "" st Hu Hf). Qed.

End Body.

End Upstream.
