(* ===== verification/OpenAi.v ===== *)
(** * The OpenAI-compatible provider (src/src/providers/openai_compatible.rs)

    The request sent upstream, the reading of its answer, and the decoder of
    its streaming events.  Arguments: sending a request, the JSON parser of
    stream events, fresh UUIDs and the wall clock.  Trace headers are left
    out. *)
From S2P Require Import Prelude Str F64 Chat Provider Sse Upstream.
From Stdlib Require Import Ascii.

Open Scope string_scope.
Open Scope list_scope.
Open Scope Z_scope.

Module OpenAi.

#[local] Arguments String.append : simpl nomatch.

Definition MAX_STREAM_OUTPUT_CHARS : Z := 256 * 1024.

Record OpenAiCompatibleProvider := {
  name : string;
  model : string;
  base_url : string;
  api_key : string
}.

Definition supports_model (p : OpenAiCompatibleProvider) (m : string) : bool := String.eqb (model p) m.

(** ** Wire types *)

Record OpenAiChatRequest := {
  out_model : string;
  out_messages : list Chat.ChatMessage;
  out_temperature : option F32.t;
  out_max_tokens : option Z;
  out_stream : option bool;
  out_tools : option (list Chat.Tool);
  out_tool_choice : option Chat.ToolChoice;
  out_parallel_tool_calls : option bool;
  out_response_format : option Chat.Value
}.

Record OpenAiAssistantMessage := { msg_content : string; msg_tool_calls : option (list Chat.ToolCall) }.
Record OpenAiChoice := { message : OpenAiAssistantMessage; finish_reason : option string }.
Record OpenAiChatResponse := {
  in_model : string;
  in_created : option Z;
  in_choices : list OpenAiChoice;
  in_usage : option Chat.TokenUsage
}.

Record OpenAiStreamDelta := {
  role : option Chat.ChatRole;
  content : option string;
  tool_calls : option (list Chat.ToolCallDelta)
}.
Definition OpenAiStreamDelta_default : OpenAiStreamDelta := {| role := None; content := None; tool_calls := None |}.

Record OpenAiStreamChoice := {
  index : Z;
  delta : option OpenAiStreamDelta;
  choice_finish_reason : option string
}.
Record OpenAiStreamChunk := {
  chunk_model : option string;
  chunk_created : option Z;
  choices : list OpenAiStreamChoice;
  chunk_usage : option Chat.TokenUsage
}.

(** ** Requests *)

Definition outbound_request (p : OpenAiCompatibleProvider) (r : Chat.ChatCompletionRequest) (stream : option bool) :
  OpenAiChatRequest :=
  {| out_model := default (model p) (Chat.req_model r); out_messages := Chat.messages r;
     out_temperature := Chat.temperature r; out_max_tokens := Chat.max_tokens r; out_stream := stream;
     out_tools := Chat.tools r; out_tool_choice := Chat.tool_choice r;
     out_parallel_tool_calls := Chat.parallel_tool_calls r; out_response_format := Chat.response_format r |}.

Definition endpoint (p : OpenAiCompatibleProvider) (path : string) : string :=
  (Upstream.trim_end_slashes (base_url p) ++ path)%string.

(** [health_check]; the answer to a GET of an URL with a bearer token is an
    argument. *)
Definition health_check (get : string -> string -> result (Upstream.Response unit) Upstream.TransportError)
  (p : OpenAiCompatibleProvider) : result unit Provider.ProviderError :=
  match get (endpoint p "/models") (api_key p) with
  | Err error => Err (Upstream.map_transport_error error)
  | Ok response =>
      if Upstream.is_success (Upstream.status response) then Ok tt
      else Err (Upstream.map_http_status (Upstream.status response))
  end.

Definition chat_completion
  (post : string -> string -> OpenAiChatRequest -> result (Upstream.Response OpenAiChatResponse) Upstream.TransportError)
  (new_id : Chat.Uuid) (p : OpenAiCompatibleProvider) (r : Chat.ChatCompletionRequest) :
  result Chat.ChatCompletionResponse Provider.ProviderError :=
  match post (endpoint p "/chat/completions") (api_key p) (outbound_request p r None) with
  | Err error => Err (Upstream.map_transport_error error)
  | Ok response =>
      if negb (Upstream.is_success (Upstream.status response))
      then Err (Upstream.map_http_status (Upstream.status response))
      else
        match Upstream.json response with
        | None => Err Provider.ProviderBadResponse
        | Some parsed =>
            match in_choices parsed with
            | [] => Err Provider.ProviderBadResponse
            | first_choice :: _ =>
                let completion_text := msg_content (message first_choice) in
                let usage := default
                  (Upstream.estimated_usage (Chat.estimate_tokens_for_messages (Chat.messages r)) completion_text)
                  (in_usage parsed) in
                Ok {| Chat.resp_id := Chat.openai_id "chatcmpl" new_id; Chat.resp_object := "chat.completion";
                      Chat.resp_created := default 1700000000 (in_created parsed);
                      Chat.resp_model := in_model parsed; Chat.resp_provider := name p;
                      Chat.resp_choices := [{|
                        Chat.choice_index := 0;
                        Chat.choice_message := {|
                          Chat.role := Chat.Assistant; Chat.content := completion_text;
                          Chat.tool_calls := msg_tool_calls (message first_choice); Chat.tool_call_id := None |};
                        Chat.choice_finish_reason := default "stop" (finish_reason first_choice) |}];
                      Chat.resp_usage := usage |}
            end
        end
  end.

(* ------------------------------------------------------------------ *)
(** ** Streaming *)

Section Stream.
(** [serde_json::from_str] *)
Variable from_str : string -> option OpenAiStreamChunk.
Variables (p : OpenAiCompatibleProvider) (request : Chat.ChatCompletionRequest).
(** [Uuid::new_v4()] and [now_utc()] at the call. *)
Variables (response_id : Chat.Uuid) (created : Z).

Definition stream_model : string := default (model p) (Chat.req_model request).
Definition prompt_tokens : Z := Chat.estimate_tokens_for_messages (Chat.messages request).

(** The variables of the loop. *)
Record StreamState := { completion_text : string; usage : option Chat.TokenUsage }.
Definition StreamState_initial : StreamState := {| completion_text := ""; usage := None |}.

Definition to_chunk (parsed : OpenAiStreamChunk) (c : OpenAiStreamChoice) : Chat.ChatCompletionChunkResponse :=
  let d := default OpenAiStreamDelta_default (delta c) in
  Chat.from_delta response_id (default created (chunk_created parsed)) (default stream_model (chunk_model parsed))
    (name p) (index c)
    {| Chat.delta_role := role d; Chat.delta_content := content d; Chat.delta_tool_calls := tool_calls d |}
    (choice_finish_reason c).

Definition on_event (event_data : string) (st : StreamState) : Upstream.Reaction StreamState :=
  if String.eqb event_data "[DONE]"
  then Upstream.Finished (default (Upstream.estimated_usage prompt_tokens (completion_text st)) (usage st))
  else
    match from_str event_data with
    | None => Upstream.Failed Provider.ProviderBadResponse
    | Some parsed =>
        let usage := match chunk_usage parsed with Some u => Some u | None => usage st end in
        match choices parsed with
        | [] => Upstream.Next {| completion_text := completion_text st; usage := usage |} None
        | first_choice :: _ =>
            match content (default OpenAiStreamDelta_default (delta first_choice)) with
            | Some text =>
                if MAX_STREAM_OUTPUT_CHARS <? Str.chars_count (completion_text st) + Str.chars_count text
                then Upstream.Failed Provider.ProviderBadResponse
                else Upstream.Next {| completion_text := (completion_text st ++ text)%string; usage := usage |}
                       (Some (to_chunk parsed first_choice))
            | None =>
                Upstream.Next {| completion_text := completion_text st; usage := usage |}
                  (Some (to_chunk parsed first_choice))
            end
        end
    end.

(** [chat_completion_stream]: the context and all the stream will yield. *)
Definition chat_completion_stream
  (post : string -> string -> OpenAiChatRequest ->
          result (Upstream.Response unit * list (result string Upstream.TransportError)) Upstream.TransportError) :
  result (Provider.ProviderStreamContext * list Upstream.Item) Provider.ProviderError :=
  match post (endpoint p "/chat/completions") (api_key p) (outbound_request p request (Some true)) with
  | Err error => Err (Upstream.map_transport_error error)
  | Ok (response, bytes_stream) =>
      if negb (Upstream.is_success (Upstream.status response))
      then Err (Upstream.map_http_status (Upstream.status response))
      else Ok ({| Provider.response_id := response_id; Provider.ctx_created := created;
                  Provider.ctx_model := stream_model |},
               Upstream.stream on_event bytes_stream StreamState_initial)
  end.

(* ------------------------------------------------------------------ *)
(** ** What a completed stream should be *)

Definition first_content (c : OpenAiStreamChunk) : string :=
  default "" (first ← head (choices c); content (default OpenAiStreamDelta_default (delta first))).

Definition relayed (c : OpenAiStreamChunk) : option Chat.ChatCompletionChunkResponse :=
  to_chunk c <$> head (choices c).

Definition full_text (cs : list OpenAiStreamChunk) : string := String.concat "" (map first_content cs).

(** The usage of the last event that reports one. *)
Definition last_usage (cs : list OpenAiStreamChunk) : option Chat.TokenUsage := last (omap chunk_usage cs).

Lemma full_text_cons c cs : full_text (c :: cs) = (first_content c ++ full_text cs)%string.
Proof. apply Sse.concat_cons. Qed.

Lemma last_usage_cons c cs :
  last_usage (c :: cs) = match last_usage cs with Some u => Some u | None => chunk_usage c end.
Proof.
  unfold last_usage. cbn [omap list_omap]. destruct (chunk_usage c) as [u|]; [|by destruct (last _)].
  rewrite last_cons. by destruct (last _).
Qed.

(** A line of the stream for [c]. *)
Definition line_of (e : string) (c : OpenAiStreamChunk) : Prop := from_str e = Some c /\ e <> "[DONE]".

Lemma on_event_line e c st : line_of e c ->
  Str.chars_count (completion_text st) + Str.chars_count (first_content c) <= MAX_STREAM_OUTPUT_CHARS ->
  on_event e st = Upstream.Next
    {| completion_text := (completion_text st ++ first_content c)%string;
       usage := match chunk_usage c with Some u => Some u | None => usage st end |} (relayed c).
Proof.
  intros [Hp He] Hlen. unfold on_event, relayed, first_content in *. rewrite Hp.
  destruct (String.eqb_spec e "[DONE]") as [|_]; [done|].
  destruct (choices c) as [|f l]; cbn in *; [by rewrite Str.app_empty_r|].
  destruct (content _) as [text|]; cbn in *; [|by rewrite Str.app_empty_r].
  destruct (MAX_STREAM_OUTPUT_CHARS <? _) eqn:E; [zbool; lia|done].
Qed.

Lemma handle_lines lines cs rest st : Forall2 line_of lines cs ->
  Str.chars_count (completion_text st) + Str.chars_count (full_text cs) <= MAX_STREAM_OUTPUT_CHARS ->
  Upstream.handle on_event (lines ++ "[DONE]" :: rest) st =
    (map (fun c => Ok (Provider.Chunk c)) (omap relayed cs) ++
     [Ok (Provider.Completed
        (default (Upstream.estimated_usage prompt_tokens (completion_text st ++ full_text cs))
           (match last_usage cs with Some u => Some u | None => usage st end)))], None).
Proof.
  intros Hl. revert st. induction Hl as [|e c lines cs He _ IH]; intros st Hlen.
  { cbn. by rewrite Str.app_empty_r. }
  rewrite full_text_cons, Str.chars_count_app in Hlen. pose proof (Str.chars_count_nonneg (full_text cs)).
  cbn [app Upstream.handle]. rewrite (on_event_line e c) by (done || lia).
  rewrite IH by (cbn [completion_text]; rewrite Str.chars_count_app; lia). cbn [completion_text usage].
  rewrite full_text_cons, last_usage_cons, Str.app_assoc. cbn [omap list_omap].
  destruct (last_usage cs), (relayed c); done.
Qed.

(** ** Properties *)

(** C14: a completed stream is relayed faithfully: whatever chunks the network
    cuts the response into (at character boundaries, each fitting the parser's
    buffer), a provider that sends its events one per line and then [DONE] is
    read as exactly its chunks in order, each with the first choice's delta and
    finish reason, followed by one completion, whose usage is the last one
    reported or else estimated from the request and the whole text. *)
Theorem openai_stream_relays texts lines cs :
  Forall (fun x => Str.utf8 x = true) texts -> Sse.fits "" texts = true ->
  Forall2 line_of lines cs -> Forall Sse.one_line lines ->
  String.concat "" texts = String.concat "" (map Sse.encode (lines ++ ["[DONE]"])) ->
  Str.chars_count (full_text cs) <= MAX_STREAM_OUTPUT_CHARS ->
  Upstream.stream on_event (map Ok texts) StreamState_initial =
    map (fun c => Ok (Provider.Chunk c)) (omap relayed cs) ++
    [Ok (Provider.Completed
       (default (Upstream.estimated_usage prompt_tokens (full_text cs)) (last_usage cs)))].
Proof.
  intros Hu Hf Hl Hone Hc Hlen. rewrite Upstream.stream_decoded, Hc by done. unfold Upstream.decoded.
  assert (Forall Sse.one_line (lines ++ ["[DONE]"])) as Hall by (apply Forall_app; split; [done|repeat constructor; done]).
  rewrite (proj1 (Sse.frames_encoded _ Hall)), (handle_lines lines cs []) by done.
  cbn [completion_text usage StreamState_initial String.append]. by destruct (last_usage cs).
Qed.

End Stream.

(* ------------------------------------------------------------------ *)
(** ** A concrete stream *)

Definition demo_provider : OpenAiCompatibleProvider :=
  {| name := "o"; model := "m"; base_url := "http://h/v1/"; api_key := "k" |}.

Definition demo_request : Chat.ChatCompletionRequest :=
  {| Chat.req_model := None;
     Chat.messages := [{| Chat.role := Chat.User; Chat.content := "hello there"; Chat.tool_calls := None;
                          Chat.tool_call_id := None |}];
     Chat.temperature := None; Chat.max_tokens := None; Chat.stream := Some true; Chat.tools := None;
     Chat.tool_choice := None; Chat.parallel_tool_calls := None; Chat.response_format := None |}.

(** Reads any line as a chunk with that content. *)
Definition demo_chunk (e : string) : OpenAiStreamChunk :=
  {| chunk_model := None; chunk_created := None; chunk_usage := None;
     choices := [{| index := 0; delta := Some {| role := None; content := Some e; tool_calls := None |};
                    choice_finish_reason := None |}] |}.
Definition demo_from_str (e : string) : option OpenAiStreamChunk := Some (demo_chunk e).

Definition demo_texts : list string :=
  [("data: hi" ++ Str.newline)%string; (Str.newline ++ "data: you there" ++ Sse.delimiter ++ "data: [DO")%string;
   ("NE]" ++ Sse.delimiter)%string].

Lemma openai_stream_relays_witness :
  Upstream.stream (on_event demo_from_str demo_provider demo_request 7 0) (map Ok demo_texts) StreamState_initial =
    [Ok (Provider.Chunk (to_chunk demo_provider demo_request 7 0 (demo_chunk "hi")
           {| index := 0; delta := Some {| role := None; content := Some "hi"; tool_calls := None |};
              choice_finish_reason := None |}));
     Ok (Provider.Chunk (to_chunk demo_provider demo_request 7 0 (demo_chunk "you there")
           {| index := 0; delta := Some {| role := None; content := Some "you there"; tool_calls := None |};
              choice_finish_reason := None |}));
     Ok (Provider.Completed {| Chat.prompt_tokens := 2; Chat.completion_tokens := 2; Chat.total_tokens := 4 |})].
Proof.
  apply (openai_stream_relays demo_from_str demo_provider demo_request 7 0 demo_texts ["hi"; "you there"]
    [demo_chunk "hi"; demo_chunk "you there"]); [repeat constructor|reflexivity|repeat constructor; discriminate|
    repeat constructor; discriminate|reflexivity|vm_compute; discriminate].
Defined.

(** A character cut by the network breaks the stream: the same bytes, whole,
    are a chunk and a completion; cut inside the two bytes of a character they
    are an error, because every chunk is decoded on its own. *)
Lemma split_character_breaks_stream :
  let e := String "195"%char (String "169"%char "") in
  let text := (Sse.encode e ++ Sse.encode "[DONE]")%string in
  let cut n := [String.substring 0 n text; String.substring n (String.length text) text] in
  String.concat "" (cut 7%nat) = text /\
  length (Upstream.stream (on_event demo_from_str demo_provider demo_request 7 0) [Ok text] StreamState_initial) = 2%nat /\
  Upstream.stream (on_event demo_from_str demo_provider demo_request 7 0) (map Ok (cut 7%nat)) StreamState_initial
    = [Err Provider.ProviderBadResponse].
Proof. vm_compute. repeat split. Qed.

End OpenAi.
