(* ===== verification/Anthropic.v ===== *)
(** * The Anthropic provider (src/src/providers/anthropic.rs,
    src/src/providers/anthropic_tool_translation.rs)

    Translation of requests, answers and streaming events between the two
    dialects.  Arguments: sending a request, the JSON parser and printer, fresh
    UUIDs and the wall clock.  [event_from] is the derived decoder of stream
    events from a JSON document; [message_documents] are the documents of a
    message as the service's API documents them. *)
From S2P Require Import Prelude Str F64 Chat Provider Sse Upstream OpenAi.

Open Scope string_scope.
Open Scope list_scope.
Open Scope Z_scope.

Module Anthropic.

#[local] Arguments String.append : simpl nomatch.

(* ------------------------------------------------------------------ *)
(** ** Tools *)

Record AnthropicTool := {
  tool_name : string;
  tool_description : option string;
  input_schema : Chat.Value
}.

Inductive AnthropicToolChoice := Auto | Any | Tool (name : string).

Record AnthropicContentBlock := {
  block_kind : string;
  block_text : option string;
  block_id : option string;
  block_name : option string;
  block_input : option Chat.Value
}.

Record AnthropicToolStreamTranslator := {
  current_index : option Z;
  current_id : option string;
  current_name : option string;
  current_arguments : string
}.
Definition AnthropicToolStreamTranslator_default : AnthropicToolStreamTranslator :=
  {| current_index := None; current_id := None; current_name := None; current_arguments := "" |}.

Definition content_block_start (index : Z) (block : AnthropicContentBlock) (t : AnthropicToolStreamTranslator) :
  AnthropicToolStreamTranslator * option Chat.ChatDelta :=
  if negb (String.eqb (block_kind block) "tool_use") then (t, None)
  else
    ({| current_index := Some index; current_id := block_id block; current_name := block_name block;
        current_arguments := "" |},
     Some {| Chat.delta_role := Some Chat.Assistant; Chat.delta_content := None;
             Chat.delta_tool_calls := Some [{|
               Chat.tcd_index := index; Chat.tcd_id := block_id block; Chat.tcd_kind := Some "function";
               Chat.tcd_function := Some {| Chat.delta_fn_name := block_name block;
                                            Chat.delta_fn_arguments := Some "" |} |}] |}).

Definition input_json_delta (partial_json : string) (t : AnthropicToolStreamTranslator) :
  AnthropicToolStreamTranslator * option Chat.ChatDelta :=
  match current_index t with
  | None => (t, None)
  | Some index =>
      ({| current_index := current_index t; current_id := current_id t; current_name := current_name t;
          current_arguments := (current_arguments t ++ partial_json)%string |},
       Some {| Chat.delta_role := None; Chat.delta_content := None;
               Chat.delta_tool_calls := Some [{|
                 Chat.tcd_index := index; Chat.tcd_id := None; Chat.tcd_kind := None;
                 Chat.tcd_function := Some {| Chat.delta_fn_name := None;
                                              Chat.delta_fn_arguments := Some partial_json |} |}] |})
  end.

Definition openai_tools_to_anthropic (tools : list Chat.Tool) : list AnthropicTool :=
  map (fun tool =>
    {| tool_name := Chat.tf_name (Chat.tool_function tool);
       tool_description := Chat.tf_description (Chat.tool_function tool);
       input_schema := Chat.tf_parameters (Chat.tool_function tool) |}) tools.

Definition openai_tool_choice_to_anthropic (choice : Chat.ToolChoice) : option AnthropicToolChoice :=
  match choice with
  | Chat.Mode Chat.Auto => Some Auto
  | Chat.Mode Chat.Required => Some Any
  | Chat.Mode Chat.None_ => None
  | Chat.Function_ _ function => Some (Tool (Chat.tcf_name function))
  end.

Section Content.
(** [Value::to_string] *)
Variable value_to_string : Chat.Value -> string.

Definition add_block (acc : string * list Chat.ToolCall) (block : AnthropicContentBlock) :
  string * list Chat.ToolCall :=
  let '(text, tool_calls) := acc in
  if String.eqb (block_kind block) "text"
  then
    match block_text block with
    | Some t => ((text ++ t)%string, tool_calls)
    | None => acc
    end
  else if String.eqb (block_kind block) "tool_use"
  then
    match block_id block, block_name block with
    | Some id, Some name =>
        (text, tool_calls ++ [{|
           Chat.call_id := id; Chat.call_kind := "function";
           Chat.call_function := {|
             Chat.call_fn_name := name;
             Chat.call_fn_arguments := value_to_string (default (Chat.Object []) (block_input block)) |} |}])
    | _, _ => acc
    end
  else acc.

Definition anthropic_content_to_openai_message (blocks : list AnthropicContentBlock) :
  string * option (list Chat.ToolCall) :=
  let '(text, tool_calls) := foldl add_block ("", []) blocks in
  (text, match tool_calls with [] => None | _ => Some tool_calls end).

End Content.

(* ------------------------------------------------------------------ *)
(** ** Requests and answers *)

Definition DEFAULT_ANTHROPIC_VERSION : string := "2023-06-01".
Definition MAX_STREAM_OUTPUT_CHARS : Z := 256 * 1024.

Record AnthropicProvider := {
  name : string;
  model : string;
  base_url : string;
  api_key : string
}.

Definition supports_model (p : AnthropicProvider) (m : string) : bool := String.eqb (model p) m.

Record AnthropicMessage := { role : string; content : Chat.Value }.

Record AnthropicMessagesRequest := {
  out_model : string;
  out_max_tokens : Z;
  out_messages : list AnthropicMessage;
  out_system : option string;
  out_temperature : option F32.t;
  out_stream : option bool;
  out_tools : option (list AnthropicTool);
  out_tool_choice : option AnthropicToolChoice
}.

Record AnthropicUsage := { input_tokens : Z; output_tokens : Z }.

Record AnthropicMessagesResponse := {
  in_model : string;
  in_content : list AnthropicContentBlock;
  in_usage : option AnthropicUsage;
  in_stop_reason : option string
}.

Definition from_usage (u : AnthropicUsage) : Chat.TokenUsage :=
  {| Chat.prompt_tokens := input_tokens u; Chat.completion_tokens := output_tokens u;
     Chat.total_tokens := u32_add (input_tokens u) (output_tokens u) |}.

(** The fields of a JSON object are kept in key order. *)
Definition convert_message (m : Chat.ChatMessage) : option AnthropicMessage :=
  match Chat.role m with
  | Chat.Developer | Chat.System => None
  | Chat.User => Some {| role := "user"; content := Chat.Str_ (Chat.content m) |}
  | Chat.Assistant => Some {| role := "assistant"; content := Chat.Str_ (Chat.content m) |}
  | Chat.ToolRole =>
      Some {| role := "user"; content := Chat.Array [Chat.Object [
                ("content", Chat.Str_ (Chat.content m));
                ("tool_use_id", Chat.Str_ (default "" (Chat.tool_call_id m)));
                ("type", Chat.Str_ "tool_result")]] |}
  end.

Definition system_content (m : Chat.ChatMessage) : option string :=
  match Chat.role m with Chat.Developer | Chat.System => Some (Chat.content m) | _ => None end.

Definition split_system_messages (messages : list Chat.ChatMessage) : option string * list AnthropicMessage :=
  (match omap system_content messages with
   | [] => None
   | system_messages => Some (Str.join (Str.newline ++ Str.newline)%string system_messages)
   end, omap convert_message messages).

Definition outbound_request (p : AnthropicProvider) (r : Chat.ChatCompletionRequest) (stream : option bool) :
  AnthropicMessagesRequest :=
  let '(system, messages) := split_system_messages (Chat.messages r) in
  {| out_model := default (model p) (Chat.req_model r); out_max_tokens := default 512 (Chat.max_tokens r);
     out_messages := messages; out_system := system; out_temperature := Chat.temperature r; out_stream := stream;
     out_tools := openai_tools_to_anthropic <$> Chat.tools r;
     out_tool_choice := Chat.tool_choice r ≫= openai_tool_choice_to_anthropic |}.

Definition endpoint (p : AnthropicProvider) : string :=
  (Upstream.trim_end_slashes (base_url p) ++ "/v1/messages")%string.

Definition map_http_status : Z -> Provider.ProviderError := Upstream.map_http_status.
Definition map_transport_error : Upstream.TransportError -> Provider.ProviderError := Upstream.map_transport_error.

Definition chat_completion (value_to_string : Chat.Value -> string)
  (post : string -> string -> AnthropicMessagesRequest ->
          result (Upstream.Response AnthropicMessagesResponse) Upstream.TransportError)
  (new_id : Chat.Uuid) (p : AnthropicProvider) (r : Chat.ChatCompletionRequest) :
  result Chat.ChatCompletionResponse Provider.ProviderError :=
  match post (endpoint p) (api_key p) (outbound_request p r None) with
  | Err error => Err (map_transport_error error)
  | Ok response =>
      if negb (Upstream.is_success (Upstream.status response))
      then Err (map_http_status (Upstream.status response))
      else
        match Upstream.json response with
        | None => Err Provider.ProviderBadResponse
        | Some parsed =>
            let '(completion_text, tool_calls) := anthropic_content_to_openai_message value_to_string (in_content parsed) in
            if Str.is_empty completion_text && negb (is_some tool_calls) then Err Provider.ProviderBadResponse
            else
              let usage := default
                (Upstream.estimated_usage (Chat.estimate_tokens_for_messages (Chat.messages r)) completion_text)
                (from_usage <$> in_usage parsed) in
              Ok {| Chat.resp_id := Chat.openai_id "chatcmpl" new_id; Chat.resp_object := "chat.completion";
                    Chat.resp_created := 1700000000; Chat.resp_model := in_model parsed;
                    Chat.resp_provider := name p;
                    Chat.resp_choices := [{|
                      Chat.choice_index := 0;
                      Chat.choice_message := {|
                        Chat.role := Chat.Assistant; Chat.content := completion_text;
                        Chat.tool_calls := tool_calls; Chat.tool_call_id := None |};
                      Chat.choice_finish_reason := default "stop" (in_stop_reason parsed) |}];
                    Chat.resp_usage := usage |}
        end
  end.

(* ------------------------------------------------------------------ *)
(** ** Streaming *)

Record AnthropicStreamMessage := { msg_model : string; msg_usage : option AnthropicUsage }.

Record AnthropicStreamDelta := {
  delta_kind : string;
  delta_text : option string;
  delta_partial_json : option string;
  delta_stop_reason : option string
}.

Record AnthropicStreamEvent := {
  kind : string;
  message : option AnthropicStreamMessage;
  delta : option AnthropicStreamDelta;
  usage : option AnthropicUsage;
  index : option Z;
  content_block : option AnthropicContentBlock
}.

(** [derive(Deserialize)]: the fields of a JSON object, or the elements of an
    array in the order of declaration; unknown fields are ignored and a
    repeated one is an error. *)
Definition fields_of (names : list string) (v : Chat.Value) : option (list (string * Chat.Value)) :=
  match v with
  | Chat.Object fields => Some fields
  | Chat.Array l => if (length l <=? length names)%nat then Some (combine names l) else None
  | _ => None
  end.

Definition field (k : string) (fields : list (string * Chat.Value)) : option (option Chat.Value) :=
  match filter (fun f => f.1 = k) fields with
  | [] => Some None
  | [(_, v)] => Some (Some v)
  | _ => None
  end.

Definition required {A} (read : Chat.Value -> option A) (k : string) (fields : list (string * Chat.Value)) : option A :=
  v ← field k fields; v ≫= read.

(** An [Option] with [#[serde(default)]]. *)
Definition optional {A} (read : Chat.Value -> option A) (k : string) (fields : list (string * Chat.Value)) :
  option (option A) :=
  v ← field k fields;
  match v with
  | None | Some Chat.Null => Some None
  | Some v => Some <$> read v
  end.

Definition as_string (v : Chat.Value) : option string := match v with Chat.Str_ s => Some s | _ => None end.
Definition as_u32 (v : Chat.Value) : option Z :=
  match v with Chat.Num (Chat.PosInt n) => if n <=? u32_max then Some n else None | _ => None end.

Definition usage_from (v : Chat.Value) : option AnthropicUsage :=
  fields ← fields_of ["input_tokens"; "output_tokens"] v;
  i ← required as_u32 "input_tokens" fields;
  o ← required as_u32 "output_tokens" fields;
  Some {| input_tokens := i; output_tokens := o |}.

Definition block_from (v : Chat.Value) : option AnthropicContentBlock :=
  fields ← fields_of ["type"; "text"; "id"; "name"; "input"] v;
  k ← required as_string "type" fields;
  t ← optional as_string "text" fields;
  i ← optional as_string "id" fields;
  n ← optional as_string "name" fields;
  input ← optional Some "input" fields;
  Some {| block_kind := k; block_text := t; block_id := i; block_name := n; block_input := input |}.

Definition message_from (v : Chat.Value) : option AnthropicStreamMessage :=
  fields ← fields_of ["model"; "usage"] v;
  m ← required as_string "model" fields;
  u ← optional usage_from "usage" fields;
  Some {| msg_model := m; msg_usage := u |}.

Definition delta_from (v : Chat.Value) : option AnthropicStreamDelta :=
  fields ← fields_of ["type"; "text"; "partial_json"; "stop_reason"] v;
  k ← required as_string "type" fields;
  t ← optional as_string "text" fields;
  j ← optional as_string "partial_json" fields;
  r ← optional as_string "stop_reason" fields;
  Some {| delta_kind := k; delta_text := t; delta_partial_json := j; delta_stop_reason := r |}.

Definition event_from (v : Chat.Value) : option AnthropicStreamEvent :=
  fields ← fields_of ["type"; "message"; "delta"; "usage"; "index"; "content_block"] v;
  k ← required as_string "type" fields;
  m ← optional message_from "message" fields;
  d ← optional delta_from "delta" fields;
  u ← optional usage_from "usage" fields;
  i ← optional as_u32 "index" fields;
  b ← optional block_from "content_block" fields;
  Some {| kind := k; message := m; delta := d; usage := u; index := i; content_block := b |}.

(** The variables of the loop. *)
Record StreamState := {
  completion_text : string;
  prompt_tokens : Z;
  completion_tokens : option Z;
  emitted_role : bool;
  tool_translator : AnthropicToolStreamTranslator
}.

Definition set_translator (t : AnthropicToolStreamTranslator) (st : StreamState) : StreamState :=
  {| completion_text := completion_text st; prompt_tokens := prompt_tokens st;
     completion_tokens := completion_tokens st; emitted_role := emitted_role st; tool_translator := t |}.

Section Stream.
Variable from_str : string -> option AnthropicStreamEvent.
Variables (p : AnthropicProvider) (request : Chat.ChatCompletionRequest).
Variables (response_id : Chat.Uuid) (created : Z).

Definition stream_model : string := default (model p) (Chat.req_model request).

Definition StreamState_initial : StreamState :=
  {| completion_text := ""; prompt_tokens := Chat.estimate_tokens_for_messages (Chat.messages request);
     completion_tokens := None; emitted_role := false; tool_translator := AnthropicToolStreamTranslator_default |}.

Definition to_chunk (d : Chat.ChatDelta) (finish_reason : option string) : Chat.ChatCompletionChunkResponse :=
  Chat.from_delta response_id created stream_model (name p) 0 d finish_reason.

(** A tool delta, if the translator produced one. *)
Definition tool_reaction (r : AnthropicToolStreamTranslator * option Chat.ChatDelta) (st : StreamState) :
  Upstream.Reaction StreamState :=
  Upstream.Next (set_translator (fst r) st) ((fun d => to_chunk d None) <$> snd r).

Definition on_content_block_delta (d : AnthropicStreamDelta) (st : StreamState) : Upstream.Reaction StreamState :=
  if String.eqb (delta_kind d) "input_json_delta"
  then
    match delta_partial_json d with
    | Some partial_json => tool_reaction (input_json_delta partial_json (tool_translator st)) st
    | None => Upstream.Next st None
    end
  else if negb (String.eqb (delta_kind d) "text_delta") then Upstream.Next st None
  else
    match delta_text d with
    | None => Upstream.Next st None
    | Some text =>
        if MAX_STREAM_OUTPUT_CHARS <? Str.chars_count (completion_text st) + Str.chars_count text
        then Upstream.Failed Provider.ProviderBadResponse
        else
          Upstream.Next
            {| completion_text := (completion_text st ++ text)%string; prompt_tokens := prompt_tokens st;
               completion_tokens := completion_tokens st; emitted_role := true; tool_translator := tool_translator st |}
            (Some (to_chunk
               {| Chat.delta_role := if emitted_role st then None else Some Chat.Assistant;
                  Chat.delta_content := Some text; Chat.delta_tool_calls := None |} None))
    end.

Definition on_parsed (parsed : AnthropicStreamEvent) (st : StreamState) : Upstream.Reaction StreamState :=
  if String.eqb (kind parsed) "message_start"
  then
    match message parsed ≫= msg_usage with
    | Some u =>
        Upstream.Next {| completion_text := completion_text st; prompt_tokens := input_tokens u;
                         completion_tokens := completion_tokens st; emitted_role := emitted_role st;
                         tool_translator := tool_translator st |} None
    | None => Upstream.Next st None
    end
  else if String.eqb (kind parsed) "content_block_delta"
  then
    match delta parsed with
    | Some d => on_content_block_delta d st
    | None => Upstream.Next st None
    end
  else if String.eqb (kind parsed) "content_block_start"
  then
    match index parsed, content_block parsed with
    | Some i, Some block => tool_reaction (content_block_start i block (tool_translator st)) st
    | _, _ => Upstream.Next st None
    end
  else if String.eqb (kind parsed) "message_delta"
  then
    let st := match usage parsed with
              | Some u => {| completion_text := completion_text st; prompt_tokens := prompt_tokens st;
                             completion_tokens := Some (output_tokens u); emitted_role := emitted_role st;
                             tool_translator := tool_translator st |}
              | None => st
              end in
    match delta parsed ≫= delta_stop_reason with
    | Some finish_reason => Upstream.Next st (Some (to_chunk Chat.ChatDelta_default (Some finish_reason)))
    | None => Upstream.Next st None
    end
  else if String.eqb (kind parsed) "message_stop"
  then
    let completion := default (Chat.estimate_tokens_for_text (completion_text st)) (completion_tokens st) in
    Upstream.Finished {| Chat.prompt_tokens := prompt_tokens st; Chat.completion_tokens := completion;
                         Chat.total_tokens := u32_add (prompt_tokens st) completion |}
  else Upstream.Next st None.

Definition on_event : string -> StreamState -> Upstream.Reaction StreamState := Upstream.parsing from_str on_parsed.

Definition chat_completion_stream
  (post : string -> string -> AnthropicMessagesRequest ->
          result (Upstream.Response unit * list (result string Upstream.TransportError)) Upstream.TransportError) :
  result (Provider.ProviderStreamContext * list Upstream.Item) Provider.ProviderError :=
  match post (endpoint p) (api_key p) (outbound_request p request (Some true)) with
  | Err error => Err (map_transport_error error)
  | Ok (response, bytes_stream) =>
      if negb (Upstream.is_success (Upstream.status response))
      then Err (map_http_status (Upstream.status response))
      else Ok ({| Provider.response_id := response_id; Provider.ctx_created := created;
                  Provider.ctx_model := stream_model |},
               Upstream.stream on_event bytes_stream StreamState_initial)
  end.

(* ------------------------------------------------------------------ *)
(** ** Messages as a client sees them *)

(** A message the service streams: blocks of text and of tool use. *)
Inductive Block :=
| TextBlock (i : Z) (deltas : list string)
| ToolBlock (i : Z) (id name : string) (fragments : list string).

Record Message := {
  m_id : string;
  m_model : string;
  m_input_tokens : Z;
  m_first_tokens : Z;
  m_blocks : list Block;
  m_stop_reason : string;
  m_output_tokens : Z
}.

(** The JSON documents of the Messages API, version 2023-06-01. *)
Definition num (n : Z) : Chat.Value := Chat.Num (Chat.PosInt n).
Definition doc (k : string) (fields : list (string * Chat.Value)) : Chat.Value :=
  Chat.Object (("type", Chat.Str_ k) :: fields).

Definition message_start (m : Message) : Chat.Value :=
  doc "message_start" [("message", Chat.Object [
    ("id", Chat.Str_ (m_id m)); ("type", Chat.Str_ "message"); ("role", Chat.Str_ "assistant");
    ("content", Chat.Array []); ("model", Chat.Str_ (m_model m)); ("stop_reason", Chat.Null);
    ("stop_sequence", Chat.Null);
    ("usage", Chat.Object [("input_tokens", num (m_input_tokens m)); ("output_tokens", num (m_first_tokens m))])])].

Definition block_start (i : Z) (fields : list (string * Chat.Value)) : Chat.Value :=
  doc "content_block_start" [("index", num i); ("content_block", Chat.Object fields)].
Definition block_delta (i : Z) (k member fragment : string) : Chat.Value :=
  doc "content_block_delta" [("index", num i);
    ("delta", Chat.Object [("type", Chat.Str_ k); (member, Chat.Str_ fragment)])].
Definition block_stop (i : Z) : Chat.Value := doc "content_block_stop" [("index", num i)].

Definition block_documents (b : Block) : list Chat.Value :=
  match b with
  | TextBlock i deltas =>
      block_start i [("type", Chat.Str_ "text"); ("text", Chat.Str_ "")] ::
      map (block_delta i "text_delta" "text") deltas ++ [block_stop i]
  | ToolBlock i id nm fragments =>
      block_start i [("type", Chat.Str_ "tool_use"); ("id", Chat.Str_ id); ("name", Chat.Str_ nm);
                     ("input", Chat.Object [])] ::
      map (block_delta i "input_json_delta" "partial_json") fragments ++ [block_stop i]
  end.

(** The last two documents.  The documented [message_delta] has no [type] in
    its delta and counts output tokens only; [typed] is the form this adapter's
    own tests send, with both. *)
Definition message_delta (typed : bool) (m : Message) : Chat.Value :=
  doc "message_delta"
    [("delta", Chat.Object ((if typed then [("type", Chat.Str_ "message_delta")] else []) ++
                [("stop_reason", Chat.Str_ (m_stop_reason m)); ("stop_sequence", Chat.Null)]));
     ("usage", Chat.Object ((if typed then [("input_tokens", num (m_input_tokens m))] else []) ++
                [("output_tokens", num (m_output_tokens m))]))].
Definition message_stop : Chat.Value := doc "message_stop" [].

Definition ping : Chat.Value := doc "ping" [].

(** The documents of a message, with pings anywhere. *)
Definition message_documents (typed : bool) (m : Message) : list Chat.Value :=
  message_start m :: concat (map block_documents (m_blocks m)) ++ [message_delta typed m; message_stop].

Inductive with_pings : list Chat.Value -> list Chat.Value -> Prop :=
| pings_nil : with_pings [] []
| pings_next d docs sent : with_pings docs sent -> with_pings (d :: docs) (d :: sent)
| pings_ping docs sent : with_pings docs sent -> with_pings docs (ping :: sent).

(** The numbers of a message fit their fields. *)
Definition block_index (b : Block) : Z := match b with TextBlock i _ | ToolBlock i _ _ _ => i end.
Definition sized (m : Message) : Prop :=
  Forall (fun b => is_u32 (block_index b)) (m_blocks m) /\
  is_u32 (m_input_tokens m) /\ is_u32 (m_first_tokens m) /\ is_u32 (m_output_tokens m).

(** What the documents are decoded to. *)
Definition ev (k : string) : AnthropicStreamEvent :=
  {| kind := k; message := None; delta := None; usage := None; index := None; content_block := None |}.
Definition start_event (i : Z) (b : AnthropicContentBlock) : AnthropicStreamEvent :=
  {| kind := "content_block_start"; message := None; delta := None; usage := None; index := Some i;
     content_block := Some b |}.
Definition stop_event (i : Z) : AnthropicStreamEvent :=
  {| kind := "content_block_stop"; message := None; delta := None; usage := None; index := Some i; content_block := None |}.
Definition delta_event (k : string) (i : Z) (d : AnthropicStreamDelta) : AnthropicStreamEvent :=
  {| kind := k; message := None; delta := Some d; usage := None; index := Some i; content_block := None |}.
Definition text_delta (t : string) : AnthropicStreamDelta :=
  {| delta_kind := "text_delta"; delta_text := Some t; delta_partial_json := None; delta_stop_reason := None |}.
Definition json_delta (t : string) : AnthropicStreamDelta :=
  {| delta_kind := "input_json_delta"; delta_text := None; delta_partial_json := Some t; delta_stop_reason := None |}.

Definition block_events (b : Block) : list AnthropicStreamEvent :=
  match b with
  | TextBlock i deltas =>
      start_event i {| block_kind := "text"; block_text := Some ""; block_id := None; block_name := None;
                       block_input := None |} ::
      map (fun t => delta_event "content_block_delta" i (text_delta t)) deltas ++ [stop_event i]
  | ToolBlock i id nm fragments =>
      start_event i {| block_kind := "tool_use"; block_text := None; block_id := Some id; block_name := Some nm;
                       block_input := Some (Chat.Object []) |} ::
      map (fun t => delta_event "content_block_delta" i (json_delta t)) fragments ++ [stop_event i]
  end.

Definition start_of (m : Message) : AnthropicStreamEvent :=
  {| kind := "message_start";
     message := Some {| msg_model := m_model m;
                        msg_usage := Some {| input_tokens := m_input_tokens m; output_tokens := m_first_tokens m |} |};
     delta := None; usage := None; index := None; content_block := None |}.
Definition delta_of (m : Message) : AnthropicStreamEvent :=
  {| kind := "message_delta"; message := None;
     delta := Some {| delta_kind := "message_delta"; delta_text := None; delta_partial_json := None;
                      delta_stop_reason := Some (m_stop_reason m) |};
     usage := Some {| input_tokens := m_input_tokens m; output_tokens := m_output_tokens m |};
     index := None; content_block := None |}.

(** What a client of the chat API assembles from the chunks. *)
Record Call := { c_id : option string; c_name : option string; c_arguments : string }.
Record Assembled := { a_text : string; a_calls : gmap Z Call; a_reason : option string }.
Definition Assembled_empty : Assembled := {| a_text := ""; a_calls := ∅; a_reason := None |}.

Definition or_else {A} (x y : option A) : option A := match x with Some _ => x | None => y end.

Definition add_call (m : gmap Z Call) (d : Chat.ToolCallDelta) : gmap Z Call :=
  let old := default {| c_id := None; c_name := None; c_arguments := "" |} (m !! Chat.tcd_index d) in
  <[Chat.tcd_index d := {|
      c_id := or_else (Chat.tcd_id d) (c_id old);
      c_name := or_else (Chat.tcd_function d ≫= Chat.delta_fn_name) (c_name old);
      c_arguments := (c_arguments old ++ default "" (Chat.tcd_function d ≫= Chat.delta_fn_arguments))%string |}]> m.

Definition add_choice (a : Assembled) (c : Chat.ChatChunkChoice) : Assembled :=
  let d := Chat.chunk_delta c in
  {| a_text := (a_text a ++ default "" (Chat.delta_content d))%string;
     a_calls := foldl add_call (a_calls a) (default [] (Chat.delta_tool_calls d));
     a_reason := or_else (Chat.chunk_finish_reason c) (a_reason a) |}.

Definition assemble_from : Assembled -> list Chat.ChatCompletionChunkResponse -> Assembled :=
  foldl (fun a c => foldl add_choice a (Chat.chunk_choices c)).

(** What the message says. *)
Definition block_texts (b : Block) : list string := match b with TextBlock _ ds => ds | ToolBlock _ _ _ _ => [] end.
Definition tool_index (b : Block) : list Z := match b with ToolBlock i _ _ _ => [i] | TextBlock _ _ => [] end.
Definition message_text (bs : list Block) : string := String.concat "" (concat (map block_texts bs)).
Definition block_calls (m : gmap Z Call) (b : Block) : gmap Z Call :=
  match b with
  | ToolBlock i id nm fragments =>
      <[i := {| c_id := Some id; c_name := Some nm; c_arguments := String.concat "" fragments |}]> m
  | TextBlock _ _ => m
  end.
Definition message_usage (m : Message) : Chat.TokenUsage :=
  {| Chat.prompt_tokens := m_input_tokens m; Chat.completion_tokens := m_output_tokens m;
     Chat.total_tokens := u32_add (m_input_tokens m) (m_output_tokens m) |}.

(** ** The decoder on a message *)

(** The events yield chunks that a client with [a] assembles to [a'], and leave
    the text the client has. *)
Definition relays (evs : list AnthropicStreamEvent) (st : StreamState) (a : Assembled) (st' : StreamState) (a' : Assembled) : Prop :=
  exists cs, Upstream.handle on_parsed evs st = (map (fun c => Ok (Provider.Chunk c)) cs, Some st') /\
    assemble_from a cs = a'.

Lemma relays_app e1 e2 st a st1 a1 st2 a2 :
  relays e1 st a st1 a1 -> relays e2 st1 a1 st2 a2 -> relays (e1 ++ e2) st a st2 a2.
Proof.
  intros (c1 & H1 & <-) (c2 & H2 & <-). exists (c1 ++ c2). rewrite Upstream.handle_app, H1, H2, map_app.
  split; [done|]. unfold assemble_from. by rewrite foldl_app.
Qed.

Lemma relays_nil st a : relays [] st a st a.
Proof. by exists []. Qed.

Lemma relays_one e st a st' c : on_parsed e st = Upstream.Next st' c ->
  relays [e] st a st' (match c with Some c => assemble_from a [c] | None => a end).
Proof. intros H. exists (match c with Some c => [c] | None => [] end). cbn. rewrite H. by destruct c. Qed.

Lemma relays_cons e evs st a st1 c a1 st2 a2 : on_parsed e st = Upstream.Next st1 c ->
  match c with Some c => assemble_from a [c] | None => a end = a1 ->
  relays evs st1 a1 st2 a2 -> relays (e :: evs) st a st2 a2.
Proof. intros H <- Hr. exact (relays_app [e] evs _ _ _ _ _ _ (relays_one e st a st1 c H) Hr). Qed.

(** States and clients up to what a message block changes. *)
Definition with_text (t : string) (st : StreamState) : StreamState :=
  {| completion_text := t; prompt_tokens := prompt_tokens st; completion_tokens := completion_tokens st;
     emitted_role := true; tool_translator := tool_translator st |}.

Definition grown (st st' : StreamState) (t : string) : Prop :=
  completion_text st' = (completion_text st ++ t)%string /\ prompt_tokens st' = prompt_tokens st /\
  completion_tokens st' = completion_tokens st.

Lemma grown_trans st1 st2 st3 t u : grown st1 st2 t -> grown st2 st3 u -> grown st1 st3 (t ++ u).
Proof.
  intros (H1 & H2 & H3) (H4 & H5 & H6). split; [by rewrite H4, H1, Str.app_assoc|]. split; congruence.
Qed.

Lemma grown_refl st : grown st st "".
Proof. split; [by rewrite Str.app_empty_r|done]. Qed.

Lemma text_deltas_relay i ds st a :
  Str.chars_count (completion_text st) + Str.chars_count (String.concat "" ds) <= MAX_STREAM_OUTPUT_CHARS ->
  exists st', relays (map (fun t => delta_event "content_block_delta" i (text_delta t)) ds) st a st'
      {| a_text := (a_text a ++ String.concat "" ds)%string; a_calls := a_calls a; a_reason := a_reason a |} /\
    grown st st' (String.concat "" ds).
Proof.
  revert st a. induction ds as [|t ds IH]; intros st a.
  { intros _. exists st. split; [|apply grown_refl]. cbn. rewrite Str.app_empty_r. destruct a. apply relays_nil. }
  rewrite Sse.concat_cons, Str.chars_count_app. intros Hlen.
  pose proof (Str.chars_count_nonneg (String.concat "" ds)).
  set (st1 := with_text (completion_text st ++ t) st).
  assert (grown st st1 t) as Hg by done.
  destruct (IH st1 {| a_text := (a_text a ++ t)%string; a_calls := a_calls a; a_reason := a_reason a |}) as (st' & Hr & Hg').
  { cbn [st1 with_text completion_text]. rewrite Str.chars_count_app. lia. }
  exists st'. split; [|by eapply grown_trans]. cbn [map a_text a_calls a_reason] in *.
  rewrite Str.app_assoc in Hr. eapply relays_cons; [| |exact Hr].
  unfold on_parsed, on_content_block_delta. cbn [delta_event kind String.eqb Ascii.eqb Bool.eqb delta text_delta delta_kind delta_text negb].
  destruct (MAX_STREAM_OUTPUT_CHARS <? _) eqn:E; [zbool; lia|reflexivity]. reflexivity.
Qed.

Lemma json_deltas_relay i fs st a id nm args :
  current_index (tool_translator st) = Some i -> a_calls a !! i = Some {| c_id := id; c_name := nm; c_arguments := args |} ->
  exists st', relays (map (fun t => delta_event "content_block_delta" i (json_delta t)) fs) st a st'
      {| a_text := a_text a;
         a_calls := <[i := {| c_id := id; c_name := nm; c_arguments := (args ++ String.concat "" fs)%string |}]> (a_calls a);
         a_reason := a_reason a |} /\
    grown st st' "".
Proof.
  revert st a args. induction fs as [|t fs IH]; intros st a args Hi Ha.
  { exists st. split; [|apply grown_refl]. cbn [String.concat map]. rewrite Str.app_empty_r, insert_id by done.
    destruct a. apply relays_nil. }
  rewrite Sse.concat_cons. set (st1 := set_translator (fst (input_json_delta t (tool_translator st))) st).
  set (a1 := {| a_text := a_text a;
    a_calls := <[i := {| c_id := id; c_name := nm; c_arguments := (args ++ t)%string |}]> (a_calls a);
    a_reason := a_reason a |}).
  destruct (IH st1 a1 (args ++ t)%string) as (st' & Hr & Hg).
  { cbn [st1 set_translator tool_translator]. unfold input_json_delta. by rewrite Hi. }
  { apply lookup_insert_eq. }
  exists st'. split; [|exact Hg]. cbn [map a1 a_text a_calls a_reason] in *.
  rewrite insert_insert_eq, Str.app_assoc in Hr. eapply relays_cons; [reflexivity| |exact Hr].
  unfold input_json_delta. rewrite Hi. cbn [snd fmap option_fmap option_map]. unfold assemble_from, to_chunk.
  cbn. unfold add_choice. cbn. unfold add_call. cbn. by rewrite Ha, Str.app_empty_r.
Qed.

Lemma stop_relays i st a : relays [stop_event i] st a st a.
Proof. exact (relays_one (stop_event i) st a st None eq_refl). Qed.

Definition after_block (a : Assembled) (b : Block) : Assembled :=
  {| a_text := (a_text a ++ String.concat "" (block_texts b))%string; a_calls := block_calls (a_calls a) b;
     a_reason := a_reason a |}.

Lemma block_relays b st a :
  Str.chars_count (completion_text st) + Str.chars_count (String.concat "" (block_texts b)) <= MAX_STREAM_OUTPUT_CHARS ->
  Forall (fun i => a_calls a !! i = None) (tool_index b) ->
  exists st', relays (block_events b) st a st' (after_block a b) /\ grown st st' (String.concat "" (block_texts b)).
Proof.
  destruct b as [i ds|i id nm fs]; cbn [block_texts tool_index block_events]; intros Hlen Hfresh.
  - destruct (text_deltas_relay i ds (set_translator (tool_translator st) st) a Hlen) as (st' & Hr & Hg).
    exists st'. split; [|exact Hg]. eapply relays_cons; [reflexivity|reflexivity|].
    eapply relays_app; [exact Hr|apply stop_relays].
  - pose proof (Forall_inv Hfresh) as Hi. cbv beta in Hi. set (b := {| block_kind := "tool_use"; block_text := None; block_id := Some id;
      block_name := Some nm; block_input := Some (Chat.Object []) |}).
    set (st1 := set_translator (fst (content_block_start i b (tool_translator st))) st).
    set (call := {| c_id := Some id; c_name := Some nm; c_arguments := "" |}).
    set (a1 := {| a_text := a_text a; a_calls := <[i := call]> (a_calls a); a_reason := a_reason a |}).
    destruct (json_deltas_relay i fs st1 a1 (Some id) (Some nm) "" eq_refl) as (st' & Hr & Hg); [apply lookup_insert_eq|].
    exists st'. split; [|exact Hg]. eapply (relays_cons _ _ _ _ st1 _ a1); [reflexivity| |].
    + unfold assemble_from. cbn. unfold add_choice. cbn. unfold add_call. cbn. by rewrite Hi, Str.app_empty_r.
    + eapply relays_app; [exact Hr|]. cbn [a1 a_calls a_text a_reason String.append]. rewrite insert_insert_eq.
      unfold after_block. cbn [block_texts String.concat block_calls]. rewrite Str.app_empty_r. apply stop_relays.
Qed.

Lemma concat_app_str l1 l2 : String.concat "" (l1 ++ l2) = (String.concat "" l1 ++ String.concat "" l2)%string.
Proof.
  induction l1 as [|x l1 IH]; [done|]. cbn [app]. by rewrite !Sse.concat_cons, IH, Str.app_assoc.
Qed.

Lemma message_text_cons b bs :
  message_text (b :: bs) = (String.concat "" (block_texts b) ++ message_text bs)%string.
Proof. unfold message_text. cbn [map concat]. apply concat_app_str. Qed.

Lemma block_calls_fresh m b i : m !! i = None -> i ∉ tool_index b -> block_calls m b !! i = None.
Proof.
  destruct b as [j ds|j id nm fs]; cbn [block_calls tool_index]; [done|].
  intros Hm Hi. rewrite lookup_insert_ne; [done|]. set_solver.
Qed.

Lemma blocks_relay bs st a :
  Str.chars_count (completion_text st) + Str.chars_count (message_text bs) <= MAX_STREAM_OUTPUT_CHARS ->
  NoDup (concat (map tool_index bs)) -> Forall (fun i => a_calls a !! i = None) (concat (map tool_index bs)) ->
  exists st', relays (concat (map block_events bs)) st a st'
      {| a_text := (a_text a ++ message_text bs)%string; a_calls := foldl block_calls (a_calls a) bs;
         a_reason := a_reason a |} /\
    grown st st' (message_text bs).
Proof.
  revert st a. induction bs as [|b bs IH]; intros st a.
  { intros _ _ _. exists st. split; [|apply grown_refl]. cbn. rewrite Str.app_empty_r. destruct a. apply relays_nil. }
  rewrite message_text_cons, Str.chars_count_app. cbn [map concat]. intros Hlen Hnd Hfr.
  apply NoDup_app in Hnd as (_ & Hdisj & Hnd). apply Forall_app in Hfr as [Hf1 Hf2].
  pose proof (Str.chars_count_nonneg (message_text bs)).
  destruct (block_relays b st a) as (st1 & Hr1 & Hg1); [lia|done|].
  destruct (IH st1 (after_block a b)) as (st2 & Hr2 & Hg2).
  - destruct Hg1 as [-> _]. rewrite Str.chars_count_app. lia.
  - done.
  - rewrite Forall_forall in Hf2 |- *. intros i Hi. apply block_calls_fresh; [by apply Hf2|]. intros Hb. by apply (Hdisj i).
  - exists st2. split; [|by eapply grown_trans]. cbn [after_block a_text a_calls a_reason foldl] in *.
    rewrite Str.app_assoc in Hr2. by eapply relays_app.
Qed.

(** ** The documents decode to the events *)

Definition decodes (d : Chat.Value) (e : AnthropicStreamEvent) : Prop := event_from d = Some e.

Ltac decoded := unfold decodes; cbv -[Z.leb u32_max]; repeat match goal with H : _ = true |- _ => rewrite H end; reflexivity.

Lemma is_u32_leb n : is_u32 n -> (n <=? u32_max) = true.
Proof. unfold is_u32. intros. apply Z.leb_le. lia. Qed.

Lemma start_decodes m : sized m -> decodes (message_start m) (start_of m).
Proof. destruct m. intros (_ & H1%is_u32_leb & H2%is_u32_leb & _). cbn in H1, H2. decoded. Qed.

Lemma delta_decodes m : sized m -> decodes (message_delta true m) (delta_of m).
Proof. destruct m. intros (_ & H1%is_u32_leb & _ & H2%is_u32_leb). cbn in H1, H2. decoded. Qed.

(** The documented form has neither of two fields the adapter requires. *)
Lemma delta_not_decoded m : event_from (message_delta false m) = None.
Proof. reflexivity. Qed.

Lemma block_decodes b : is_u32 (block_index b) -> Forall2 decodes (block_documents b) (block_events b).
Proof.
  destruct b as [i ds|i id nm fs]; cbn [block_index block_documents block_events]; intros Hi%is_u32_leb.
  - constructor; [decoded|]. apply Forall2_app; [|constructor; [decoded|constructor]].
    induction ds; constructor; [decoded|done].
  - constructor; [decoded|]. apply Forall2_app; [|constructor; [decoded|constructor]].
    induction fs; constructor; [decoded|done].
Qed.

Lemma blocks_decode bs : Forall (fun b => is_u32 (block_index b)) bs ->
  Forall2 decodes (concat (map block_documents bs)) (concat (map block_events bs)).
Proof. induction 1 as [|b bs Hb _ IH]; [constructor|]. cbn [map concat]. apply Forall2_app; [by apply block_decodes|done]. Qed.

Definition on_document : Chat.Value -> StreamState -> Upstream.Reaction StreamState := Upstream.parsing event_from on_parsed.

(** Pings leave no trace. *)
Lemma pings_ignored docs sent st : with_pings docs sent ->
  Upstream.handle on_document sent st = Upstream.handle on_document docs st.
Proof.
  intros Hp. revert st. induction Hp as [|d docs sent _ IH|docs sent _ IH]; intros st; [done| |].
  - cbn [Upstream.handle]. destruct (on_document d st) as [st' c|u|e]; [by rewrite IH|done..].
  - cbn [Upstream.handle]. change (on_document ping st) with (@Upstream.Next StreamState st None). cbn iota. rewrite IH.
    by destruct (Upstream.handle _ docs st).
Qed.

(** Up to the last two documents everything is relayed. *)
Lemma body_relayed m rest : sized m ->
  NoDup (concat (map tool_index (m_blocks m))) ->
  Str.chars_count (message_text (m_blocks m)) <= MAX_STREAM_OUTPUT_CHARS ->
  exists cs st,
    Upstream.handle on_document (message_start m :: concat (map block_documents (m_blocks m)) ++ rest) StreamState_initial =
      (let '(out, r) := Upstream.handle on_document rest st in (map (fun c => Ok (Provider.Chunk c)) cs ++ out, r)) /\
    assemble_from Assembled_empty cs =
      {| a_text := message_text (m_blocks m); a_calls := foldl block_calls ∅ (m_blocks m); a_reason := None |} /\
    prompt_tokens st = m_input_tokens m.
Proof.
  intros Hm Hnd Hlen. set (st0 := StreamState_initial).
  assert (exists st1, on_document (message_start m) st0 = Upstream.Next st1 None /\ completion_text st1 = "" /\
    prompt_tokens st1 = m_input_tokens m) as (st1 & H1 & Ht1 & Hp1).
  { unfold on_document, Upstream.parsing. rewrite start_decodes by done. by eexists. }
  destruct (blocks_relay (m_blocks m) st1 Assembled_empty) as (st2 & (cs & H2 & Ha) & (_ & Hp2 & _));
    [by rewrite Ht1|done|by apply Forall_forall|].
  exists cs, st2. split; [|split; [exact Ha|by rewrite Hp2]].
  cbn [Upstream.handle]. rewrite H1, Upstream.handle_app. unfold on_document at 1.
  rewrite (Upstream.handle_parsing event_from on_parsed _ (concat (map block_events (m_blocks m)))), H2
    by (apply blocks_decode; by destruct Hm).
  by destruct (Upstream.handle on_document rest st2).
Qed.

(** The end of a message, in either form. *)
Lemma end_relayed typed m st : sized m -> prompt_tokens st = m_input_tokens m ->
  Upstream.handle on_document [message_delta typed m; message_stop] st =
  (if typed
   then [Ok (Provider.Chunk (to_chunk Chat.ChatDelta_default (Some (m_stop_reason m))));
         Ok (Provider.Completed (message_usage m))]
   else [Err Provider.ProviderBadResponse], None).
Proof.
  intros Hm Hp. cbn [Upstream.handle]. unfold on_document, Upstream.parsing. destruct typed.
  - rewrite delta_decodes by done. change (event_from message_stop) with (Some (ev "message_stop")).
    unfold on_parsed, message_usage. cbn. by rewrite Hp.
  - by rewrite delta_not_decoded.
Qed.

Lemma reason_assembled a r :
  assemble_from a [to_chunk Chat.ChatDelta_default (Some r)] =
  {| a_text := a_text a; a_calls := a_calls a; a_reason := Some r |}.
Proof. unfold assemble_from. cbn. unfold add_choice. cbn. by rewrite Str.app_empty_r. Qed.

End Stream.

(** [serde_json::from_str::<AnthropicStreamEvent>]: [json] parses the text, the
    fields of an object in the order they are written. *)
Definition stream_event (json : string -> option Chat.Value) (event_data : string) : option AnthropicStreamEvent :=
  json event_data ≫= event_from.

(** ** Properties *)

(** C15: a message streamed in the documented format reaches the client up to
    its end, and then the stream fails.  For a message sent as the Messages API
    documents it ([event:] lines, pings anywhere between the events, token
    counts of 32 bits, tool blocks of distinct indices), whatever chunks the
    network cuts the response into (at character boundaries, each fitting the
    parser's buffer), a client that assembles the chunks has exactly the text
    and the tool calls (id, name and arguments by index); the documented
    [message_delta], whose delta has no [type] and whose usage counts output
    tokens only, is not decoded, so the stop reason is lost and the stream ends
    in ProviderBadResponse.  With both fields, as the adapter's own tests send
    them ([typed]), the client also gets the stop reason and the stream
    completes once, with the token counts of the message. *)
Theorem anthropic_stream_relays json p request response_id created typed texts frames sent m :
  Forall (fun x => Str.utf8 x = true) texts -> Sse.fits "" texts = true ->
  Forall Sse.named_line frames -> String.concat "" texts = String.concat "" (map Sse.encode_named frames) ->
  Forall2 (fun l d => json l = Some d) (map snd frames) sent -> with_pings (message_documents typed m) sent ->
  sized m -> NoDup (concat (map tool_index (m_blocks m))) ->
  Str.chars_count (message_text (m_blocks m)) <= MAX_STREAM_OUTPUT_CHARS ->
  exists cs,
    Upstream.stream (on_event (stream_event json) p request response_id created) (map Ok texts) (StreamState_initial request) =
      map (fun c => Ok (Provider.Chunk c)) cs ++
      [if typed then Ok (Provider.Completed (message_usage m)) else Err Provider.ProviderBadResponse] /\
    assemble_from Assembled_empty cs =
      {| a_text := message_text (m_blocks m); a_calls := foldl block_calls ∅ (m_blocks m);
         a_reason := if typed then Some (m_stop_reason m) else None |}.
Proof.
  intros Hu Hf Hframes Hc Hj Hp Hm Hnd Hlen. rewrite Upstream.stream_decoded, Hc by done. unfold Upstream.decoded.
  rewrite (proj1 (Sse.frames_named _ Hframes)). unfold on_event, stream_event.
  rewrite (Upstream.handle_parsed json event_from _ _ sent) by done.
  fold (on_document p request response_id created).
  rewrite (pings_ignored p request response_id created _ _ (StreamState_initial request) Hp).
  destruct (body_relayed (stream_event json) p request response_id created m [message_delta typed m; message_stop] Hm Hnd Hlen)
    as (cs & st & Hbody & Ha & Hst).
  unfold message_documents. rewrite Hbody, (end_relayed p request response_id created typed m st Hm Hst). destruct typed.
  - eexists (cs ++ [to_chunk p request response_id created Chat.ChatDelta_default (Some (m_stop_reason m))]).
    split; [by rewrite map_app, <-app_assoc|]. unfold assemble_from in *. rewrite foldl_app, Ha.
    apply (reason_assembled p request response_id created {| a_text := _; a_calls := _; a_reason := None |}).
  - by exists cs.
Qed.

Lemma omap_map_same {A B} (f : A -> option B) (g : A -> A) l : (forall x, f (g x) = f x) -> omap f (map g l) = omap f l.
Proof. intros H. induction l as [|x l IH]; [done|]. cbn [map omap list_omap]. rewrite H, IH. done. Qed.

(** The tool calls of earlier assistant messages are not sent: requests that
    differ only in them become the same Anthropic request, although the tool
    results that answer them are sent with their ids. *)
Lemma assistant_tool_calls_lost p r stream :
  let forget (m : Chat.ChatMessage) :=
    {| Chat.role := Chat.role m; Chat.content := Chat.content m; Chat.tool_calls := None;
       Chat.tool_call_id := Chat.tool_call_id m |} in
  split_system_messages (map forget (Chat.messages r)) = split_system_messages (Chat.messages r) /\
  out_messages (outbound_request p r stream) = snd (split_system_messages (map forget (Chat.messages r))).
Proof.
  intros forget. assert (forall ms, split_system_messages (map forget ms) = split_system_messages ms) as H.
  { intros ms. unfold split_system_messages. rewrite !omap_map_same; [done|by intros m..]. }
  split; [apply H|]. unfold outbound_request. rewrite H. by destruct (split_system_messages (Chat.messages r)).
Qed.

(** Forbidding tools is lost as well: the tools are sent and no choice is. *)
Lemma tool_choice_none_lost p r stream tools : Chat.tools r = Some tools -> Chat.tool_choice r = Some (Chat.Mode Chat.None_) ->
  out_tools (outbound_request p r stream) = Some (openai_tools_to_anthropic tools) /\
  out_tool_choice (outbound_request p r stream) = None.
Proof. intros Ht Hc. unfold outbound_request. rewrite Ht, Hc. by destruct (split_system_messages _). Qed.

(* ------------------------------------------------------------------ *)
(** ** A concrete message *)

Definition demo_provider : AnthropicProvider :=
  {| name := "a"; model := "m"; base_url := "http://h"; api_key := "k" |}.

Definition demo_message : Message :=
  {| m_id := "msg_1"; m_model := "m"; m_input_tokens := 5; m_first_tokens := 1;
     m_blocks := [TextBlock 0 ["Let me "; "look."]; ToolBlock 1 "t1" "find" ["{"; "}"]];
     m_stop_reason := "tool_use"; m_output_tokens := 9 |}.

(** The frames of the message: each names its event, and its data line is a
    compact rendering of the document, which [demo_json] reads back. *)
Definition quoted (s : string) : string :=
  let quote := Ascii.ascii_of_nat 34 in String quote (s ++ String quote "").

Fixpoint render (v : Chat.Value) : string :=
  match v with
  | Chat.Null => "null"
  | Chat.Bool b => if b then "true" else "false"
  | Chat.Num (Chat.PosInt n) => Str.decimal n
  | Chat.Num _ => "0"
  | Chat.Str_ s => quoted s
  | Chat.Array l => "[" ++ String.concat "," (map render l) ++ "]"
  | Chat.Object fields =>
      "{" ++ String.concat "," (map (fun f => quoted f.1 ++ ":" ++ render f.2) fields) ++ "}"
  end%string.

Definition demo_kind (d : Chat.Value) : string :=
  match d with Chat.Object ((_, Chat.Str_ k) :: _) => k | _ => "" end.

(** A ping after the start and one before the end. *)
Definition demo_sent (typed : bool) : list Chat.Value :=
  match message_documents typed demo_message with
  | start :: rest => start :: ping :: rest
  | [] => []
  end.

Definition demo_frames (typed : bool) : list (string * string) :=
  map (fun d => (demo_kind d, render d)) (demo_sent typed).

Definition demo_json (typed : bool) (l : string) : option Chat.Value :=
  snd <$> find (fun x => String.eqb (fst x) l) (map (fun d => (render d, d)) (demo_sent typed)).

Definition demo_stream (typed : bool) : list Upstream.Item :=
  Upstream.stream (on_event (stream_event (demo_json typed)) demo_provider OpenAi.demo_request 7 0)
    [Ok (String.concat "" (map Sse.encode_named (demo_frames typed)))] (StreamState_initial OpenAi.demo_request).

Lemma anthropic_stream_relays_witness :
  exists cs,
    demo_stream false = map (fun c => Ok (Provider.Chunk c)) cs ++ [Err Provider.ProviderBadResponse] /\
    a_text (assemble_from Assembled_empty cs) = "Let me look." /\
    a_calls (assemble_from Assembled_empty cs) !! 1 =
      Some {| c_id := Some "t1"; c_name := Some "find"; c_arguments := "{}" |} /\
    a_reason (assemble_from Assembled_empty cs) = None.
Proof.
  destruct (anthropic_stream_relays (demo_json false) demo_provider OpenAi.demo_request 7 0 false
    [String.concat "" (map Sse.encode_named (demo_frames false))] (demo_frames false) (demo_sent false) demo_message) as (cs & Hs & Ha).
  - repeat constructor.
  - vm_compute. reflexivity.
  - apply Sse.named_lines. vm_compute. reflexivity.
  - reflexivity.
  - vm_compute. repeat constructor.
  - repeat constructor.
  - repeat constructor; vm_compute; discriminate.
  - vm_compute. repeat constructor; set_solver.
  - vm_compute. discriminate.
  - exists cs. split; [exact Hs|]. rewrite Ha. split_and!; reflexivity.
Defined.

End Anthropic.
