(* ===== verification/Mock.v ===== *)
(** * The mock provider (src/src/providers/mock.rs)

    Deterministic answers without a network.  The JSON printer and the wall
    clock of a stream are arguments. *)
From S2P Require Import Prelude Str F64 Chat Provider Sse Upstream OpenAi.

Open Scope string_scope.
Open Scope list_scope.
Open Scope Z_scope.

Module Mock.

#[local] Arguments String.append : simpl nomatch.

Record MockProvider := {
  name : string;
  model : string;
  failure_rate : F64.t;
  base_latency_ms : Z
}.

Definition new (name model : string) : MockProvider :=
  {| name := name; model := model; failure_rate := F64.zero; base_latency_ms := 0 |}.

Definition supports_model (p : MockProvider) (m : string) : bool := String.eqb (model p) m.

(** One step of the hash: the byte at [index] goes into slot [index mod 16]. *)
Definition hash_byte (bytes : list Z) (ib : nat * Z) : list Z :=
  let '(index, seed_byte) := ib in
  let slot := (index mod 16)%nat in
  match bytes !! slot with
  | Some b => <[slot := ((b * 31) mod 256 + seed_byte + Z.of_nat slot) mod 256]> bytes
  | None => bytes
  end.

Definition deterministic_bytes (seed : string) : list Z :=
  let bs := Str.bytes seed in
  foldl hash_byte (repeat 0 16) (combine (seq 0 (length bs)) bs).

(** [Uuid::from_bytes]: big-endian. *)
Definition deterministic_uuid (seed : string) : Chat.Uuid :=
  foldl (fun acc b => acc * 256 + b) 0 (deterministic_bytes seed).

Definition response_id_seed (provider tool_name : string) : Chat.Uuid :=
  deterministic_uuid (provider ++ "|tool|" ++ tool_name)%string.

Definition health_check (p : MockProvider) : result unit Provider.ProviderError :=
  if F64.geb (failure_rate p) F64.one then Err Provider.ProviderUnavailable else Ok tt.

Definition response_content (p : MockProvider) : string :=
  ("Deterministic mock response from " ++ name p ++ ".")%string.

Definition usage_of (prompt_tokens completion_tokens : Z) : Chat.TokenUsage :=
  {| Chat.prompt_tokens := prompt_tokens; Chat.completion_tokens := completion_tokens;
     Chat.total_tokens := u32_add prompt_tokens completion_tokens |}.

Definition seed_of (p : MockProvider) (model : string) (prompt_tokens completion_tokens : Z) : string :=
  (name p ++ "|" ++ model ++ "|" ++ Str.decimal prompt_tokens ++ "|" ++ Str.decimal completion_tokens)%string.

Section Answers.
Variable value_to_string : Chat.Value -> string.

(** A call of the first tool, echoing the last message. *)
Definition mock_tool_calls (p : MockProvider) (r : Chat.ChatCompletionRequest) : option (list Chat.ToolCall) :=
  tools ← Chat.tools r;
  tool ← head tools;
  let tool_name := Chat.tf_name (Chat.tool_function tool) in
  Some [{| Chat.call_id := Chat.openai_id "call" (response_id_seed (name p) tool_name);
           Chat.call_kind := "function";
           Chat.call_function := {|
             Chat.call_fn_name := tool_name;
             Chat.call_fn_arguments := value_to_string (Chat.Object [
               ("echo", Chat.Str_ (default "" (Chat.content <$> last (Chat.messages r))))]) |} |}].

Definition chat_completion (p : MockProvider) (r : Chat.ChatCompletionRequest) :
  result Chat.ChatCompletionResponse Provider.ProviderError :=
  if F64.geb (failure_rate p) F64.one then Err Provider.ProviderUnavailable
  else
    let model := default (model p) (Chat.req_model r) in
    let tool_calls := mock_tool_calls p r in
    let content := if is_some tool_calls then "" else response_content p in
    let prompt_tokens := Chat.estimate_tokens_for_messages (Chat.messages r) in
    let completion_tokens := Chat.estimate_tokens_for_text content in
    let response_id := deterministic_uuid (seed_of p model prompt_tokens completion_tokens) in
    Ok {| Chat.resp_id := Chat.openai_id "chatcmpl" response_id; Chat.resp_object := "chat.completion";
          Chat.resp_created := 1700000000; Chat.resp_model := model; Chat.resp_provider := name p;
          Chat.resp_choices := [{|
            Chat.choice_index := 0;
            Chat.choice_message := {| Chat.role := Chat.Assistant; Chat.content := content;
                                      Chat.tool_calls := tool_calls; Chat.tool_call_id := None |};
            Chat.choice_finish_reason := "stop" |}];
          Chat.resp_usage := usage_of prompt_tokens completion_tokens |}.

End Answers.

Section Stream.
Variables (p : MockProvider) (r : Chat.ChatCompletionRequest) (created : Z).

Definition stream_model : string := default (model p) (Chat.req_model r).
Definition prompt_tokens : Z := Chat.estimate_tokens_for_messages (Chat.messages r).
Definition completion_tokens : Z := Chat.estimate_tokens_for_text (response_content p).
Definition stream_id : Chat.Uuid :=
  deterministic_uuid (seed_of p stream_model prompt_tokens completion_tokens ++ "|stream")%string.

(** A chunk per word, with a space unless it is the last. *)
Definition word_chunk (count index : nat) (word : string) : Chat.ChatCompletionChunkResponse :=
  Chat.from_delta stream_id created stream_model (name p) 0
    {| Chat.delta_role := if (index =? 0)%nat then Some Chat.Assistant else None;
       Chat.delta_content := Some (if (index + 1 <? count)%nat then (word ++ " ")%string else word);
       Chat.delta_tool_calls := None |} None.

Definition mock_chunks : list Chat.ChatCompletionChunkResponse :=
  let words := Str.split_whitespace (response_content p) in
  imap (word_chunk (length words)) words.

Definition chat_completion_stream : result (Provider.ProviderStreamContext * list Upstream.Item) Provider.ProviderError :=
  if F64.geb (failure_rate p) F64.one then Err Provider.ProviderUnavailable
  else
    Ok ({| Provider.response_id := stream_id; Provider.ctx_created := created; Provider.ctx_model := stream_model |},
        map (fun c => Ok (Provider.Chunk c)) mock_chunks ++
        [Ok (Provider.Completed (usage_of prompt_tokens completion_tokens))]).

End Stream.

(* ------------------------------------------------------------------ *)
(** ** The hash fills sixteen bytes *)

Definition uuid_ok (bytes : list Z) : Prop := length bytes = 16%nat /\ Forall (fun b => 0 <= b < 256) bytes.

Lemma hash_byte_ok bytes ib : uuid_ok bytes -> uuid_ok (hash_byte bytes ib).
Proof.
  intros [Hl Hb]. destruct ib as [i b]. unfold hash_byte.
  destruct (bytes !! _) as [x|]; [|done]. split; [by rewrite length_insert|].
  apply Forall_insert; [done|]. apply Z.mod_pos_bound. lia.
Qed.

Lemma deterministic_bytes_ok seed : uuid_ok (deterministic_bytes seed).
Proof.
  unfold deterministic_bytes. generalize (combine (seq 0 (length (Str.bytes seed))) (Str.bytes seed)) as l.
  assert (uuid_ok (repeat 0 16)) as H0 by (split; [done|repeat constructor; lia]).
  revert H0. generalize (repeat 0 16) as bytes. intros bytes H l. revert bytes H.
  induction l as [|ib l IH]; intros bytes H; [done|]. cbn [foldl]. by apply IH, hash_byte_ok.
Qed.

Lemma big_endian_bound l acc : Forall (fun b => 0 <= b < 256) l -> 0 <= acc ->
  0 <= foldl (fun acc b => acc * 256 + b) acc l < (acc + 1) * 256 ^ Z.of_nat (length l).
Proof.
  intros Hl. revert acc. induction Hl as [|b l Hb _ IH]; intros acc Ha; [cbn; lia|].
  cbn [foldl length]. specialize (IH (acc * 256 + b) ltac:(lia)).
  rewrite Nat2Z.inj_succ, Z.pow_succ_r by lia. nia.
Qed.

(** A mock identifier is a 128-bit value, so it prints as 32 digits. *)
Lemma deterministic_uuid_range seed : 0 <= deterministic_uuid seed < 2 ^ 128.
Proof.
  destruct (deterministic_bytes_ok seed) as [Hl Hb]. unfold deterministic_uuid.
  pose proof (big_endian_bound _ 0 Hb ltac:(lia)) as H. rewrite Hl in H.
  change ((0 + 1) * 256 ^ Z.of_nat 16) with (2 ^ 128) in H. exact H.
Qed.

(** The words of the stream, put together, are the words of the answer. *)
Lemma joined_words words k n : (k + length words = n)%nat ->
  String.concat "" (imap (fun i w => if (k + i + 1 <? n)%nat then (w ++ " ")%string else w) words) = Str.join " " words.
Proof.
  revert k. induction words as [|w words IH]; intros k Hn; [done|]. cbn [imap]. rewrite Sse.concat_cons, Nat.add_0_r.
  destruct words as [|w' words]; [cbn in Hn; cbn [imap String.concat Str.join]|].
  - destruct (k + 1 <? n)%nat eqn:E; [apply Nat.ltb_lt in E; lia|]. by rewrite Str.app_empty_r.
  - destruct (k + 1 <? n)%nat eqn:E; [|apply Nat.ltb_ge in E; cbn in Hn; lia].
    change (Str.join " " (w :: w' :: words)) with (w ++ " " ++ Str.join " " (w' :: words))%string.
    rewrite <-(IH (S k)) by (cbn in *; lia). rewrite Str.app_assoc. f_equal. f_equal. f_equal.
    apply imap_ext. intros i x _. cbn. by replace (k + S i)%nat with (S (k + i)) by lia.
Qed.

Definition chunk_text (c : Chat.ChatCompletionChunkResponse) : string :=
  String.concat "" (map (fun ch => default "" (Chat.delta_content (Chat.chunk_delta ch))) (Chat.chunk_choices c)).

Lemma chunk_text_word p r created n i w :
  chunk_text (word_chunk p r created n i w) = if (i + 1 <? n)%nat then (w ++ " ")%string else w.
Proof.
  unfold word_chunk. generalize (stream_id p r) as u. generalize (stream_model p r) as m. intros m u.
  unfold chunk_text, Chat.from_delta. cbn [Chat.chunk_choices map Chat.chunk_delta Chat.delta_content default from_option id String.concat].
  reflexivity.
Qed.

Lemma mock_stream_text p r created :
  String.concat "" (map chunk_text (mock_chunks p r created)) =
    Str.join " " (Str.split_whitespace (response_content p)).
Proof.
  unfold mock_chunks. generalize (Str.split_whitespace (response_content p)) as words. intros words.
  rewrite <-(joined_words words 0 (length words)) by done. f_equal.
  etrans; [exact (fmap_imap (word_chunk p r created (length words)) chunk_text words)|].
  apply imap_ext. intros i w _. apply chunk_text_word.
Qed.

End Mock.
