(* ===== verification/Adapters.v ===== *)
(** * From a provider's bytes to the client's events

    The composition of the provider adapters (src/src/providers/*.rs) with the
    event stream of the chat endpoint (src/src/routes/chat.rs): what the adapter
    yields is what the endpoint's loop takes, so the client gets what the
    provider sent. *)
From S2P Require Import Prelude Str F64 Chat Provider Metrics Lru Keys Cache Fallback ChatRoute Sse Upstream.
From S2P Require Import OpenAi Anthropic Mock.

Open Scope string_scope.
Open Scope list_scope.
Open Scope Z_scope.

Module Adapters.

(** What the endpoint's loop makes of an adapter's item. *)
Definition item_of (i : Upstream.Item) : ChatRoute.StreamItem :=
  ChatRoute.upstream_item (ChatRoute.Answered (Some i)).

Lemma item_terminal chunk_to_string rid t : Upstream.terminal t = true ->
  ChatRoute.terminal chunk_to_string rid (item_of t) = true.
Proof. by destruct t as [[c|u]|e]. Qed.

(** The three adapters yield chunks and then one completion or error. *)
Inductive adapter_stream : list Upstream.Item -> Prop :=
| openai_stream from_str p request id created input :
    adapter_stream (Upstream.stream (OpenAi.on_event from_str p request id created) input OpenAi.StreamState_initial)
| anthropic_stream from_str p request id created input :
    adapter_stream (Upstream.stream (Anthropic.on_event from_str p request id created) input
                      (Anthropic.StreamState_initial request))
| mock_stream p request created ctx items :
    Mock.chat_completion_stream p request created = Ok (ctx, items) -> adapter_stream items.

Lemma adapter_stream_shape items : adapter_stream items -> Upstream.well_shaped items.
Proof.
  intros [from_str p request id created input|from_str p request id created input|p request created ctx items' H].
  - apply Upstream.body_shape.
  - apply Upstream.body_shape.
  - unfold Mock.chat_completion_stream in H. destruct (F64.geb _ _); [done|].
    revert H. generalize (Mock.mock_chunks p request created) as cs. intros cs [= _ <-]. by eexists cs, _.
Qed.

(** C16: the client gets what the adapter yields.  Whatever bytes the provider
    sends and however they are cut, the adapter's stream is a list of chunks
    and one end; when the stream starts with an event, the client is sent every
    chunk in order under the gateway's id and then one last payload, which is
    [DONE] exactly if the adapter completed, and the error of the adapter
    otherwise; a client that polls [n] times gets the first [n + 1] of these. *)
Theorem adapter_stream_reaches_client C S K `{!Keys.KeyStore S} chunk_to_string error_to_string unix Stream s key rid route
  ps started answers polls a items first rest later :
  adapter_stream items -> items = Ok first :: rest ->
  Fallback.first_event Stream (ChatRoute.ps_success Stream ps) = first ->
  map fst answers = map (fun i => ChatRoute.Answered (Some i)) rest ++ later ->
  (forall c, is_Some (ChatRoute.relayed chunk_to_string rid c)) ->
  exists cs t, items = map (fun c => Ok (Provider.Chunk c)) cs ++ [t] /\ Upstream.terminal t = true /\
    let '(_, sent, how) :=
      ChatRoute.event_stream C S K chunk_to_string error_to_string unix Stream s key rid route ps started answers polls a in
    sent = take (length polls + 1)
      (omap (ChatRoute.relayed chunk_to_string rid) cs ++ [ChatRoute.last_payload error_to_string rid (item_of t)]) /\
    ((length cs < length polls)%nat -> ChatRoute.bill_stream how =
      Some (if ChatRoute.completes (item_of t) then RequestLog.RequestLog.Success else RequestLog.RequestLog.Failure)).
Proof.
  intros Had Hit Hfirst Hans Hser. destruct (adapter_stream_shape items Had) as (cs & t & Hitems & Ht).
  exists cs, t. split; [done|]. split; [done|].
  assert (Forall2 (fun c p => ChatRoute.relayed chunk_to_string rid c = Some p) cs
    (omap (ChatRoute.relayed chunk_to_string rid) cs)) as Hp.
  { clear -Hser. induction cs as [|c cs IH]; [constructor|]. cbn [omap list_omap].
    destruct (Hser c) as [p Hp]. rewrite Hp. by constructor. }
  pose proof (ChatRoute.event_stream_relays C S K chunk_to_string error_to_string unix Stream s key rid route ps started answers
    polls a cs (omap (ChatRoute.relayed chunk_to_string rid) cs) (item_of t) (map ChatRoute.upstream_item later)) as Hrel.
  destruct (ChatRoute.event_stream C S K _ _ _ _ _ _ _ _ _ _ _ _ _) as [[a' sent] how].
  destruct Hrel as [-> Hb].
  - transitivity (map item_of items ++ map ChatRoute.upstream_item later).
    + rewrite Hit, Hfirst. cbn [map app]. f_equal.
      transitivity (map ChatRoute.upstream_item (map fst answers)); [|by rewrite Hans, map_app, map_map].
      rewrite map_map. apply map_ext. by intros [u tick].
    + rewrite Hitems, map_app, map_map, <-app_assoc. done.
  - exact Hp.
  - by apply item_terminal.
  - split; [done|]. intros Hn. rewrite Hb. by apply Nat.ltb_lt in Hn as ->.
Qed.

(* ------------------------------------------------------------------ *)
(** ** A concrete stream, from bytes to payloads *)

Definition demo_items : list Upstream.Item :=
  Upstream.stream (OpenAi.on_event OpenAi.demo_from_str OpenAi.demo_provider OpenAi.demo_request 7 0)
    (map Ok OpenAi.demo_texts) OpenAi.StreamState_initial.

Definition demo_first : Provider.ProviderStreamEvent :=
  match demo_items with Ok e :: _ => e | _ => Provider.Completed Chat.TokenUsage_default end.

Definition demo_pending : ChatRoute.PendingStream unit :=
  let s := ChatRoute.ps_success unit ChatRoute.demo_pending in
  {| ChatRoute.ps_request := ChatRoute.ps_request unit ChatRoute.demo_pending;
     ChatRoute.ps_success := {|
       Fallback.str_context := Fallback.str_context unit s; Fallback.first_event := demo_first;
       Fallback.str_stream := tt; Fallback.str_provider_name := Fallback.str_provider_name unit s;
       Fallback.str_pricing := Fallback.str_pricing unit s; Fallback.str_attempts := Fallback.str_attempts unit s;
       Fallback.in_flight_guard := Fallback.in_flight_guard unit s;
       Fallback.admission_guard := Fallback.admission_guard unit s |};
     ChatRoute.ps_admission_guard := ChatRoute.ps_admission_guard unit ChatRoute.demo_pending |}.

Lemma adapter_stream_reaches_client_witness :
  let '(_, sent, how) :=
    ChatRoute.event_stream ref_lru Keys.StaticKeyStore Cache.SqliteResponseCache
      (fun c => Some (Mock.chunk_text c)) (fun _ m => m) (fun t => t) unit ChatRoute.demo_settings ChatRoute.demo_key 9
      ChatRoute.CHAT_COMPLETIONS_ROUTE
      demo_pending 0 (map (fun i => (ChatRoute.Answered (Some i), fun w => w)) (tail demo_items)) (ChatRoute.demo_polls 3)
      ChatRoute.demo_app in
  sent = ["hi"; "you there"; "[DONE]"] /\ ChatRoute.bill_stream how = Some RequestLog.RequestLog.Success.
Proof.
  destruct (adapter_stream_reaches_client ref_lru Keys.StaticKeyStore Cache.SqliteResponseCache
    (fun c => Some (Mock.chunk_text c)) (fun _ m => m) (fun t => t) unit ChatRoute.demo_settings ChatRoute.demo_key 9
      ChatRoute.CHAT_COMPLETIONS_ROUTE
    demo_pending 0 (map (fun i => (ChatRoute.Answered (Some i), fun w => w)) (tail demo_items)) (ChatRoute.demo_polls 3)
    ChatRoute.demo_app demo_items demo_first (tail demo_items) []) as (cs & t & Hi & Ht & H).
  - apply openai_stream.
  - vm_compute. reflexivity.
  - reflexivity.
  - rewrite map_map, app_nil_r. reflexivity.
  - intros c. eexists. reflexivity.
  - destruct (ChatRoute.event_stream _ _ _ _ _ _ _ _ _ _ _ _ _ _ _ _) as [[a' sent] how]. destruct H as [-> Hb].
    vm_compute in Hi. destruct cs as [|c1 [|c2 [|c3 cs]]]; cbn [map app] in Hi.
    + discriminate Hi.
    + discriminate Hi.
    + injection Hi as <- <- <-. split; [vm_compute; reflexivity|apply Hb; cbn; lia].
    + injection Hi as _ _ Hc Hn. destruct cs; discriminate Hn.
Defined.

End Adapters.
