(* ===== verification/Snapshot.v ===== *)
(** * Metrics snapshots as values

    [MetricsSnapshot] (src/src/telemetry/metrics.rs) is filled field by field
    by the request log store and by the statistics endpoints; these are its
    default and its assignments. *)
From S2P Require Import Prelude Str F64 Chat Provider Metrics.

Open Scope Z_scope.

Module Snapshot.

(** The derived [Default]. *)
Definition MetricsSnapshot_default : Metrics.MetricsSnapshot :=
  {| Metrics.snap_total_requests := 0; Metrics.snap_successful_requests := 0; Metrics.snap_failed_requests := 0;
     Metrics.snap_in_flight_requests := 0; Metrics.snap_total_provider_attempts := 0;
     Metrics.snap_fallback_attempts := 0; Metrics.snap_error_rate := F64.zero;
     Metrics.snap_avg_latency_ms := F64.zero; Metrics.snap_p95_latency_ms := F64.zero;
     Metrics.snap_estimated_prompt_tokens := 0; Metrics.snap_estimated_completion_tokens := 0;
     Metrics.snap_estimated_total_tokens := 0; Metrics.snap_estimated_input_cost_usd := F64.zero;
     Metrics.snap_estimated_output_cost_usd := F64.zero; Metrics.snap_estimated_total_cost_usd := F64.zero;
     Metrics.snap_requests_by_provider := ∅; Metrics.snap_successes_by_provider := ∅;
     Metrics.snap_errors_by_provider := ∅; Metrics.snap_fallback_attempts_by_provider := ∅;
     Metrics.snap_request_errors_by_category := ∅; Metrics.snap_provider_errors_by_provider_and_category := ∅;
     Metrics.snap_recent_provider_errors_by_provider_and_category := ∅;
     Metrics.snap_admission_rejections_by_reason := ∅; Metrics.snap_avg_latency_ms_by_provider := ∅;
     Metrics.snap_p95_latency_ms_by_provider := ∅; Metrics.snap_in_flight_requests_by_provider := ∅;
     Metrics.snap_p50_ttft_ms_by_provider := ∅; Metrics.snap_p95_ttft_ms_by_provider := ∅;
     Metrics.snap_queue_pressure_by_provider := ∅; Metrics.snap_routing_decisions_by_policy_and_reason := ∅;
     Metrics.snap_prefix_fingerprints_by_outcome := ∅; Metrics.snap_cache_lookups_by_outcome := ∅;
     Metrics.snap_cache_hit_ratio := F64.zero; Metrics.snap_stream_outcomes_by_outcome := ∅;
     Metrics.snap_p95_stream_duration_ms := F64.zero |}.

Definition eta_snapshot (s : Metrics.MetricsSnapshot) : Metrics.MetricsSnapshot :=
  {| Metrics.snap_total_requests := Metrics.snap_total_requests s;
     Metrics.snap_successful_requests := Metrics.snap_successful_requests s;
     Metrics.snap_failed_requests := Metrics.snap_failed_requests s;
     Metrics.snap_in_flight_requests := Metrics.snap_in_flight_requests s;
     Metrics.snap_total_provider_attempts := Metrics.snap_total_provider_attempts s;
     Metrics.snap_fallback_attempts := Metrics.snap_fallback_attempts s;
     Metrics.snap_error_rate := Metrics.snap_error_rate s;
     Metrics.snap_avg_latency_ms := Metrics.snap_avg_latency_ms s;
     Metrics.snap_p95_latency_ms := Metrics.snap_p95_latency_ms s;
     Metrics.snap_estimated_prompt_tokens := Metrics.snap_estimated_prompt_tokens s;
     Metrics.snap_estimated_completion_tokens := Metrics.snap_estimated_completion_tokens s;
     Metrics.snap_estimated_total_tokens := Metrics.snap_estimated_total_tokens s;
     Metrics.snap_estimated_input_cost_usd := Metrics.snap_estimated_input_cost_usd s;
     Metrics.snap_estimated_output_cost_usd := Metrics.snap_estimated_output_cost_usd s;
     Metrics.snap_estimated_total_cost_usd := Metrics.snap_estimated_total_cost_usd s;
     Metrics.snap_requests_by_provider := Metrics.snap_requests_by_provider s;
     Metrics.snap_successes_by_provider := Metrics.snap_successes_by_provider s;
     Metrics.snap_errors_by_provider := Metrics.snap_errors_by_provider s;
     Metrics.snap_fallback_attempts_by_provider := Metrics.snap_fallback_attempts_by_provider s;
     Metrics.snap_request_errors_by_category := Metrics.snap_request_errors_by_category s;
     Metrics.snap_provider_errors_by_provider_and_category := Metrics.snap_provider_errors_by_provider_and_category s;
     Metrics.snap_recent_provider_errors_by_provider_and_category := Metrics.snap_recent_provider_errors_by_provider_and_category s;
     Metrics.snap_admission_rejections_by_reason := Metrics.snap_admission_rejections_by_reason s;
     Metrics.snap_avg_latency_ms_by_provider := Metrics.snap_avg_latency_ms_by_provider s;
     Metrics.snap_p95_latency_ms_by_provider := Metrics.snap_p95_latency_ms_by_provider s;
     Metrics.snap_in_flight_requests_by_provider := Metrics.snap_in_flight_requests_by_provider s;
     Metrics.snap_p50_ttft_ms_by_provider := Metrics.snap_p50_ttft_ms_by_provider s;
     Metrics.snap_p95_ttft_ms_by_provider := Metrics.snap_p95_ttft_ms_by_provider s;
     Metrics.snap_queue_pressure_by_provider := Metrics.snap_queue_pressure_by_provider s;
     Metrics.snap_routing_decisions_by_policy_and_reason := Metrics.snap_routing_decisions_by_policy_and_reason s;
     Metrics.snap_prefix_fingerprints_by_outcome := Metrics.snap_prefix_fingerprints_by_outcome s;
     Metrics.snap_cache_lookups_by_outcome := Metrics.snap_cache_lookups_by_outcome s;
     Metrics.snap_cache_hit_ratio := Metrics.snap_cache_hit_ratio s;
     Metrics.snap_stream_outcomes_by_outcome := Metrics.snap_stream_outcomes_by_outcome s;
     Metrics.snap_p95_stream_duration_ms := Metrics.snap_p95_stream_duration_ms s |}.

Definition set_total_requests (x : Z) (s : Metrics.MetricsSnapshot) : Metrics.MetricsSnapshot :=
  ltac:(set_field eta_snapshot Metrics.snap_total_requests x s).
Definition set_successful_requests (x : Z) (s : Metrics.MetricsSnapshot) : Metrics.MetricsSnapshot :=
  ltac:(set_field eta_snapshot Metrics.snap_successful_requests x s).
Definition set_failed_requests (x : Z) (s : Metrics.MetricsSnapshot) : Metrics.MetricsSnapshot :=
  ltac:(set_field eta_snapshot Metrics.snap_failed_requests x s).
Definition set_in_flight_requests (x : Z) (s : Metrics.MetricsSnapshot) : Metrics.MetricsSnapshot :=
  ltac:(set_field eta_snapshot Metrics.snap_in_flight_requests x s).
Definition set_total_provider_attempts (x : Z) (s : Metrics.MetricsSnapshot) : Metrics.MetricsSnapshot :=
  ltac:(set_field eta_snapshot Metrics.snap_total_provider_attempts x s).
Definition set_fallback_attempts (x : Z) (s : Metrics.MetricsSnapshot) : Metrics.MetricsSnapshot :=
  ltac:(set_field eta_snapshot Metrics.snap_fallback_attempts x s).
Definition set_error_rate (x : F64.t) (s : Metrics.MetricsSnapshot) : Metrics.MetricsSnapshot :=
  ltac:(set_field eta_snapshot Metrics.snap_error_rate x s).
Definition set_avg_latency_ms (x : F64.t) (s : Metrics.MetricsSnapshot) : Metrics.MetricsSnapshot :=
  ltac:(set_field eta_snapshot Metrics.snap_avg_latency_ms x s).
Definition set_p95_latency_ms (x : F64.t) (s : Metrics.MetricsSnapshot) : Metrics.MetricsSnapshot :=
  ltac:(set_field eta_snapshot Metrics.snap_p95_latency_ms x s).
Definition set_estimated_prompt_tokens (x : Z) (s : Metrics.MetricsSnapshot) : Metrics.MetricsSnapshot :=
  ltac:(set_field eta_snapshot Metrics.snap_estimated_prompt_tokens x s).
Definition set_estimated_completion_tokens (x : Z) (s : Metrics.MetricsSnapshot) : Metrics.MetricsSnapshot :=
  ltac:(set_field eta_snapshot Metrics.snap_estimated_completion_tokens x s).
Definition set_estimated_total_tokens (x : Z) (s : Metrics.MetricsSnapshot) : Metrics.MetricsSnapshot :=
  ltac:(set_field eta_snapshot Metrics.snap_estimated_total_tokens x s).
Definition set_estimated_input_cost_usd (x : F64.t) (s : Metrics.MetricsSnapshot) : Metrics.MetricsSnapshot :=
  ltac:(set_field eta_snapshot Metrics.snap_estimated_input_cost_usd x s).
Definition set_estimated_output_cost_usd (x : F64.t) (s : Metrics.MetricsSnapshot) : Metrics.MetricsSnapshot :=
  ltac:(set_field eta_snapshot Metrics.snap_estimated_output_cost_usd x s).
Definition set_estimated_total_cost_usd (x : F64.t) (s : Metrics.MetricsSnapshot) : Metrics.MetricsSnapshot :=
  ltac:(set_field eta_snapshot Metrics.snap_estimated_total_cost_usd x s).
Definition set_requests_by_provider (x : gmap string Z) (s : Metrics.MetricsSnapshot) : Metrics.MetricsSnapshot :=
  ltac:(set_field eta_snapshot Metrics.snap_requests_by_provider x s).
Definition set_successes_by_provider (x : gmap string Z) (s : Metrics.MetricsSnapshot) : Metrics.MetricsSnapshot :=
  ltac:(set_field eta_snapshot Metrics.snap_successes_by_provider x s).
Definition set_errors_by_provider (x : gmap string Z) (s : Metrics.MetricsSnapshot) : Metrics.MetricsSnapshot :=
  ltac:(set_field eta_snapshot Metrics.snap_errors_by_provider x s).
Definition set_fallback_attempts_by_provider (x : gmap string Z) (s : Metrics.MetricsSnapshot) : Metrics.MetricsSnapshot :=
  ltac:(set_field eta_snapshot Metrics.snap_fallback_attempts_by_provider x s).
Definition set_request_errors_by_category (x : gmap string Z) (s : Metrics.MetricsSnapshot) : Metrics.MetricsSnapshot :=
  ltac:(set_field eta_snapshot Metrics.snap_request_errors_by_category x s).
Definition set_provider_errors_by_provider_and_category (x : gmap string (gmap string Z)) (s : Metrics.MetricsSnapshot) : Metrics.MetricsSnapshot :=
  ltac:(set_field eta_snapshot Metrics.snap_provider_errors_by_provider_and_category x s).
Definition set_recent_provider_errors_by_provider_and_category (x : gmap string (gmap string Z)) (s : Metrics.MetricsSnapshot) : Metrics.MetricsSnapshot :=
  ltac:(set_field eta_snapshot Metrics.snap_recent_provider_errors_by_provider_and_category x s).
Definition set_admission_rejections_by_reason (x : gmap string Z) (s : Metrics.MetricsSnapshot) : Metrics.MetricsSnapshot :=
  ltac:(set_field eta_snapshot Metrics.snap_admission_rejections_by_reason x s).
Definition set_avg_latency_ms_by_provider (x : gmap string F64.t) (s : Metrics.MetricsSnapshot) : Metrics.MetricsSnapshot :=
  ltac:(set_field eta_snapshot Metrics.snap_avg_latency_ms_by_provider x s).
Definition set_p95_latency_ms_by_provider (x : gmap string F64.t) (s : Metrics.MetricsSnapshot) : Metrics.MetricsSnapshot :=
  ltac:(set_field eta_snapshot Metrics.snap_p95_latency_ms_by_provider x s).
Definition set_in_flight_requests_by_provider (x : gmap string Z) (s : Metrics.MetricsSnapshot) : Metrics.MetricsSnapshot :=
  ltac:(set_field eta_snapshot Metrics.snap_in_flight_requests_by_provider x s).
Definition set_p50_ttft_ms_by_provider (x : gmap string F64.t) (s : Metrics.MetricsSnapshot) : Metrics.MetricsSnapshot :=
  ltac:(set_field eta_snapshot Metrics.snap_p50_ttft_ms_by_provider x s).
Definition set_p95_ttft_ms_by_provider (x : gmap string F64.t) (s : Metrics.MetricsSnapshot) : Metrics.MetricsSnapshot :=
  ltac:(set_field eta_snapshot Metrics.snap_p95_ttft_ms_by_provider x s).
Definition set_queue_pressure_by_provider (x : gmap string F64.t) (s : Metrics.MetricsSnapshot) : Metrics.MetricsSnapshot :=
  ltac:(set_field eta_snapshot Metrics.snap_queue_pressure_by_provider x s).
Definition set_routing_decisions_by_policy_and_reason (x : gmap string (gmap string Z)) (s : Metrics.MetricsSnapshot) : Metrics.MetricsSnapshot :=
  ltac:(set_field eta_snapshot Metrics.snap_routing_decisions_by_policy_and_reason x s).
Definition set_prefix_fingerprints_by_outcome (x : gmap string Z) (s : Metrics.MetricsSnapshot) : Metrics.MetricsSnapshot :=
  ltac:(set_field eta_snapshot Metrics.snap_prefix_fingerprints_by_outcome x s).
Definition set_cache_lookups_by_outcome (x : gmap string Z) (s : Metrics.MetricsSnapshot) : Metrics.MetricsSnapshot :=
  ltac:(set_field eta_snapshot Metrics.snap_cache_lookups_by_outcome x s).
Definition set_cache_hit_ratio (x : F64.t) (s : Metrics.MetricsSnapshot) : Metrics.MetricsSnapshot :=
  ltac:(set_field eta_snapshot Metrics.snap_cache_hit_ratio x s).
Definition set_stream_outcomes_by_outcome (x : gmap string Z) (s : Metrics.MetricsSnapshot) : Metrics.MetricsSnapshot :=
  ltac:(set_field eta_snapshot Metrics.snap_stream_outcomes_by_outcome x s).
Definition set_p95_stream_duration_ms (x : F64.t) (s : Metrics.MetricsSnapshot) : Metrics.MetricsSnapshot :=
  ltac:(set_field eta_snapshot Metrics.snap_p95_stream_duration_ms x s).

End Snapshot.
