(* ===== verification/Sqlite.v ===== *)
(** * Request log persistence (src/src/storage/sqlite.rs)

    The request log store over explicit tables [request_logs] and
    [provider_attempts], with the constraints of migrations/0001 (both ids are
    primary keys, an attempt refers to a request), and [api_key_usage_daily],
    which pruning shortens.  A transaction that fails leaves the tables as they
    were.  A table is the list of its rows in insertion order, the order in
    which SQLite scans it.  [history] is the log as it should be: the requests
    accepted and not pruned, each as recorded; the tables are its rows. *)
From S2P Require Import Prelude Str F64 F64Facts Chat Provider Metrics RequestLog Keys Snapshot.
From Stdlib Require Import SpecFloat.

Open Scope string_scope.
Open Scope list_scope.
Open Scope Z_scope.

Module Sqlite.
Import Snapshot.

(** The driver's errors are all [Connect]; their texts are not kept. *)
Inductive StorageError := Connect | Migration | Serialize.

Record LogRow := {
  log_id : string;
  log_route : string;
  log_created_at : Z;
  log_requested_model : option string;
  log_final_provider : option string;
  log_status : string;
  log_latency_ms : Z;
  log_prompt_tokens : option Z;
  log_completion_tokens : option Z;
  log_total_tokens : option Z;
  log_input_cost_usd : option F64.t;
  log_output_cost_usd : option F64.t;
  log_total_cost_usd : option F64.t;
  log_error_category : option string;
  log_prompt_messages_json : option string
}.

Record AttemptRow := {
  row_id : string;
  row_request_id : string;
  row_provider_name : string;
  row_attempt_order : Z;
  row_success : Z;
  row_is_fallback : Z;
  row_error_category : option string;
  row_latency_ms : Z
}.

(** [online] says whether the database answers. *)
Record SqliteRequestLogStore := {
  online : bool;
  request_logs : list LogRow;
  provider_attempts : list AttemptRow;
  api_key_usage_daily : gmap (string * Z) Keys.UsageRow
}.

Definition connect (driver : Keys.Sqlx SqliteRequestLogStore) (database_url : string) : result SqliteRequestLogStore StorageError :=
  match Keys.parse_options driver database_url with
  | None => Err Connect
  | Some options =>
      match Keys.connect_with driver 5 {| Keys.filename := Keys.filename options; Keys.create_if_missing := true |} with
      | None => Err Connect
      | Some pool =>
          match Keys.migrate driver pool with
          | None => Err Migration
          | Some pool => Ok pool
          end
      end
  end.

(** [Uuid::to_string]: hyphenated, 8-4-4-4-12 digits. *)
Definition uuid_to_string (u : Chat.Uuid) : string :=
  let part i n := Str.hex (take n (drop i (Chat.uuid_bytes u))) in
  (part 0%nat 4%nat ++ "-" ++ part 4%nat 2%nat ++ "-" ++ part 6%nat 2%nat ++ "-" ++ part 8%nat 2%nat ++ "-" ++
   part 10%nat 6%nat)%string.

Definition prune_older_than (cutoff_unix_seconds : Z) (db : SqliteRequestLogStore) :
  SqliteRequestLogStore * result unit StorageError :=
  if online db
  then
    let cutoff := Keys.as_i64 cutoff_unix_seconds in
    let old := map log_id (filter (fun r => log_created_at r < cutoff) (request_logs db)) in
    ({| online := true;
        provider_attempts := filter (fun a => row_request_id a ∉ old) (provider_attempts db);
        request_logs := filter (fun r => ¬ log_created_at r < cutoff) (request_logs db);
        api_key_usage_daily :=
          filter (fun e => ¬ e.1.2 < Keys.as_i64 (cutoff_unix_seconds / 86400)) (api_key_usage_daily db) |},
     Ok tt)
  else (db, Err Connect).

Section Record.
(** [serde_json::to_string] of the prompt, and [Uuid::new_v4] for each attempt. *)
Variable messages_to_string : list Chat.ChatMessage -> option string.
Variable new_v4 : nat -> Chat.Uuid.

Definition log_row (e : RequestLog.RequestLogEntry) (prompt_messages_json : option string) : LogRow :=
  let usage := RequestLog.usage e in
  let cost := RequestLog.cost_estimate e in
  {| log_id := uuid_to_string (RequestLog.request_id e); log_route := RequestLog.route e;
     log_created_at := RequestLog.created_at_unix_seconds e;
     log_requested_model := RequestLog.requested_model e; log_final_provider := RequestLog.final_provider e;
     log_status := RequestLog.RequestLogStatus_as_str (RequestLog.status e);
     log_latency_ms := Keys.as_i64 (RequestLog.latency_ms e);
     log_prompt_tokens := Chat.prompt_tokens <$> usage; log_completion_tokens := Chat.completion_tokens <$> usage;
     log_total_tokens := Chat.total_tokens <$> usage;
     log_input_cost_usd := cost ≫= (fun c => Keys.bind_real (RequestLog.input_cost_usd c));
     log_output_cost_usd := cost ≫= (fun c => Keys.bind_real (RequestLog.output_cost_usd c));
     log_total_cost_usd := cost ≫= (fun c => Keys.bind_real (RequestLog.total_cost_usd c));
     log_error_category := RequestLog.RequestErrorCategory_as_str <$> RequestLog.error_category e;
     log_prompt_messages_json := prompt_messages_json |}.

Definition attempt_row (request_id : Chat.Uuid) (i : nat) (a : RequestLog.RequestProviderAttempt) : AttemptRow :=
  {| row_id := uuid_to_string (new_v4 i); row_request_id := uuid_to_string request_id;
     row_provider_name := RequestLog.provider_name a; row_attempt_order := RequestLog.attempt_order a;
     row_success := if RequestLog.success a then 1 else 0;
     row_is_fallback := if RequestLog.is_fallback a then 1 else 0;
     row_error_category := RequestLog.RequestErrorCategory_as_str <$> RequestLog.att_error_category a;
     row_latency_ms := Keys.as_i64 (RequestLog.att_latency_ms a) |}.

(** INSERT: a row whose primary key is taken is refused. *)
Definition insert_log (r : LogRow) (rows : list LogRow) : option (list LogRow) :=
  if bool_decide (log_id r ∈ map log_id rows) then None else Some (rows ++ [r]).
Definition insert_attempt (r : AttemptRow) (rows : list AttemptRow) : option (list AttemptRow) :=
  if bool_decide (row_id r ∈ map row_id rows) then None else Some (rows ++ [r]).

Fixpoint insert_attempts (new : list AttemptRow) (rows : list AttemptRow) : option (list AttemptRow) :=
  match new with
  | [] => Some rows
  | r :: new => rows ← insert_attempt r rows; insert_attempts new rows
  end.

(** [prompt_messages.map(to_string).transpose()] *)
Definition prompt_json (e : RequestLog.RequestLogEntry) : option (option string) :=
  match RequestLog.prompt_messages e with
  | None => Some None
  | Some ms => Some <$> messages_to_string ms
  end.

Definition record_request (e : RequestLog.RequestLogEntry) (db : SqliteRequestLogStore) :
  SqliteRequestLogStore * result unit StorageError :=
  if negb (online db) then (db, Err Connect)
  else
    match prompt_json e with
    | None => (db, Err Serialize)
    | Some json =>
        match insert_log (log_row e json) (request_logs db),
          insert_attempts (imap (attempt_row (RequestLog.request_id e)) (RequestLog.provider_attempts e))
            (provider_attempts db) with
        | Some logs, Some attempts =>
            ({| online := true; request_logs := logs; provider_attempts := attempts;
                api_key_usage_daily := api_key_usage_daily db |}, Ok tt)
        | _, _ => (db, Err Connect)
        end
    end.

End Record.

(** ** Statistics over the stored rows *)

(** The index is in range for every count below 2^53, see [stored_index]. *)
Definition percentile_latency (samples : list Z) (percentile : F64.t) : option F64.t :=
  match samples with
  | [] => Some F64.zero
  | _ =>
      let sorted := sort_by Z.compare samples in
      let index := F64.ceil_as_u64 (F64.mul (F64.of_Z (Z.of_nat (length sorted) - 1)) percentile) in
      F64.of_Z <$> sorted !! Z.to_nat index
  end.

(** One row of [request_logs]; the latencies are collected beside the snapshot. *)
Definition count_request (acc : Metrics.MetricsSnapshot * list Z) (row : LogRow) :
  Metrics.MetricsSnapshot * list Z :=
  let '(s, request_latencies) := acc in
  let s := set_total_requests (u64_add (Metrics.snap_total_requests s) 1) s in
  let s :=
    if String.eqb (log_status row) "success"
    then set_successful_requests (u64_add (Metrics.snap_successful_requests s) 1) s
    else set_failed_requests (u64_add (Metrics.snap_failed_requests s) 1) s in
  let s :=
    match log_error_category row with
    | Some c => set_request_errors_by_category (count_add c 1 (Metrics.snap_request_errors_by_category s)) s
    | None => s
    end in
  let latency_ms := Keys.as_u64 (log_latency_ms row) in
  let s := set_avg_latency_ms (F64.add (Metrics.snap_avg_latency_ms s) (F64.of_Z latency_ms)) s in
  let s := set_estimated_prompt_tokens (u64_add (Metrics.snap_estimated_prompt_tokens s)
             (Keys.as_u64 (default 0 (log_prompt_tokens row)))) s in
  let s := set_estimated_completion_tokens (u64_add (Metrics.snap_estimated_completion_tokens s)
             (Keys.as_u64 (default 0 (log_completion_tokens row)))) s in
  let s := set_estimated_total_tokens (u64_add (Metrics.snap_estimated_total_tokens s)
             (Keys.as_u64 (default 0 (log_total_tokens row)))) s in
  let s := set_estimated_input_cost_usd (F64.add (Metrics.snap_estimated_input_cost_usd s)
             (default F64.zero (log_input_cost_usd row))) s in
  let s := set_estimated_output_cost_usd (F64.add (Metrics.snap_estimated_output_cost_usd s)
             (default F64.zero (log_output_cost_usd row))) s in
  let s := set_estimated_total_cost_usd (F64.add (Metrics.snap_estimated_total_cost_usd s)
             (default F64.zero (log_total_cost_usd row))) s in
  (s, request_latencies ++ [latency_ms]).

(** The snapshot and the two maps kept beside it. *)
Record AttemptScan := {
  scan_snapshot : Metrics.MetricsSnapshot;
  provider_latencies : gmap string (list Z);
  provider_total_latency_ms : gmap string Z
}.

Definition count_attempt (acc : AttemptScan) (row : AttemptRow) : AttemptScan :=
  let name := row_provider_name row in
  let latency_ms := Keys.as_u64 (row_latency_ms row) in
  let s := scan_snapshot acc in
  let s := set_total_provider_attempts (u64_add (Metrics.snap_total_provider_attempts s) 1) s in
  let s := set_requests_by_provider (count_add name 1 (Metrics.snap_requests_by_provider s)) s in
  let s :=
    if row_success row =? 1
    then set_successes_by_provider (count_add name 1 (Metrics.snap_successes_by_provider s)) s
    else
      let s := set_errors_by_provider (count_add name 1 (Metrics.snap_errors_by_provider s)) s in
      match row_error_category row with
      | Some c => set_provider_errors_by_provider_and_category
                    (Metrics.count_add2 name c (Metrics.snap_provider_errors_by_provider_and_category s)) s
      | None => s
      end in
  let s :=
    if row_is_fallback row =? 1
    then
      let s := set_fallback_attempts (u64_add (Metrics.snap_fallback_attempts s) 1) s in
      set_fallback_attempts_by_provider (count_add name 1 (Metrics.snap_fallback_attempts_by_provider s)) s
    else s in
  {| scan_snapshot := s;
     provider_latencies := <[name := default [] (provider_latencies acc !! name) ++ [latency_ms]]> (provider_latencies acc);
     provider_total_latency_ms := Metrics.count_add_u128 name latency_ms (provider_total_latency_ms acc) |}.

(** After the request rows: the average and the error rate. *)
Definition close_requests (s : Metrics.MetricsSnapshot) : Metrics.MetricsSnapshot :=
  if 0 <? Metrics.snap_total_requests s
  then
    let total := F64.of_Z (Metrics.snap_total_requests s) in
    let s := set_avg_latency_ms (F64.div (Metrics.snap_avg_latency_ms s) total) s in
    set_error_rate (F64.div (F64.of_Z (Metrics.snap_failed_requests s)) total) s
  else s.

(** After the attempt rows: averages and percentiles by provider. *)
Definition close_attempts (acc : AttemptScan) : option Metrics.MetricsSnapshot :=
  let s := scan_snapshot acc in
  let averages := map_imap (fun name requests =>
    let total_latency_ms := default 0 (provider_total_latency_ms acc !! name) in
    Some (F64.div (F64.of_Z total_latency_ms) (F64.of_Z requests))) (Metrics.snap_requests_by_provider s) in
  percentiles ← Metrics.map_values (fun samples => percentile_latency samples Metrics.p95) (provider_latencies acc);
  Some (set_p95_latency_ms_by_provider percentiles (set_avg_latency_ms_by_provider averages s)).

(** [None] is a panic. *)
Definition stats_snapshot (db : SqliteRequestLogStore) : option (result Metrics.MetricsSnapshot StorageError) :=
  if negb (online db) then Some (Err Connect)
  else
    let '(s, request_latencies) := foldl count_request (MetricsSnapshot_default, []) (request_logs db) in
    p95_latency ← percentile_latency request_latencies Metrics.p95;
    let s := set_p95_latency_ms p95_latency (close_requests s) in
    let acc := foldl count_attempt
      {| scan_snapshot := s; provider_latencies := ∅; provider_total_latency_ms := ∅ |} (provider_attempts db) in
    Ok <$> close_attempts acc.

Definition count_request_logs (db : SqliteRequestLogStore) : result Z StorageError :=
  if online db then Ok (Z.of_nat (length (request_logs db))) else Err Connect.
Definition count_provider_attempts (db : SqliteRequestLogStore) : result Z StorageError :=
  if online db then Ok (Z.of_nat (length (provider_attempts db))) else Err Connect.
Definition count_logs_with_prompt_content (db : SqliteRequestLogStore) : result Z StorageError :=
  if online db
  then Ok (Z.of_nat (length (filter (fun r => is_some (log_prompt_messages_json r) = true) (request_logs db))))
  else Err Connect.

(* ------------------------------------------------------------------ *)
(** ** What the rows say *)

(** The figures that depend on requests only, and those on attempts only. *)
Record Requests := {
  q_total : Z;
  q_successful : Z;
  q_failed : Z;
  q_errors : gmap string Z;
  q_prompt_tokens : Z;
  q_completion_tokens : Z;
  q_total_tokens : Z;
  q_input_cost : F64.t;
  q_output_cost : F64.t;
  q_total_cost : F64.t;
  q_latency : F64.t
}.

Record Attempts := {
  t_total : Z;
  t_fallback : Z;
  t_requests : gmap string Z;
  t_successes : gmap string Z;
  t_errors : gmap string Z;
  t_fallbacks : gmap string Z;
  t_categories : gmap string (gmap string Z);
  t_latency : gmap string Z
}.

Definition add_request (q : Requests) (row : LogRow) : Requests :=
  let ok := String.eqb (log_status row) "success" in
  {| q_total := u64_add (q_total q) 1;
     q_successful := if ok then u64_add (q_successful q) 1 else q_successful q;
     q_failed := if ok then q_failed q else u64_add (q_failed q) 1;
     q_errors := match log_error_category row with Some c => count_add c 1 (q_errors q) | None => q_errors q end;
     q_prompt_tokens := u64_add (q_prompt_tokens q) (Keys.as_u64 (default 0 (log_prompt_tokens row)));
     q_completion_tokens := u64_add (q_completion_tokens q) (Keys.as_u64 (default 0 (log_completion_tokens row)));
     q_total_tokens := u64_add (q_total_tokens q) (Keys.as_u64 (default 0 (log_total_tokens row)));
     q_input_cost := F64.add (q_input_cost q) (default F64.zero (log_input_cost_usd row));
     q_output_cost := F64.add (q_output_cost q) (default F64.zero (log_output_cost_usd row));
     q_total_cost := F64.add (q_total_cost q) (default F64.zero (log_total_cost_usd row));
     q_latency := F64.add (q_latency q) (F64.of_Z (Keys.as_u64 (log_latency_ms row))) |}.

Definition add_attempt (t : Attempts) (row : AttemptRow) : Attempts :=
  let name := row_provider_name row in
  let ok := row_success row =? 1 in
  let fb := row_is_fallback row =? 1 in
  {| t_total := u64_add (t_total t) 1;
     t_fallback := if fb then u64_add (t_fallback t) 1 else t_fallback t;
     t_requests := count_add name 1 (t_requests t);
     t_successes := if ok then count_add name 1 (t_successes t) else t_successes t;
     t_errors := if ok then t_errors t else count_add name 1 (t_errors t);
     t_fallbacks := if fb then count_add name 1 (t_fallbacks t) else t_fallbacks t;
     t_categories := if ok then t_categories t
       else match row_error_category row with
            | Some c => Metrics.count_add2 name c (t_categories t)
            | None => t_categories t
            end;
     t_latency := Metrics.count_add_u128 name (Keys.as_u64 (row_latency_ms row)) (t_latency t) |}.

(** A snapshot holding these figures and the defaults elsewhere; the average is
    still the sum of the latencies. *)
Definition filled (q : Requests) (rate p95 : F64.t) (t : Attempts) : Metrics.MetricsSnapshot :=
  {| Metrics.snap_total_requests := q_total q; Metrics.snap_successful_requests := q_successful q;
     Metrics.snap_failed_requests := q_failed q; Metrics.snap_in_flight_requests := 0;
     Metrics.snap_total_provider_attempts := t_total t; Metrics.snap_fallback_attempts := t_fallback t;
     Metrics.snap_error_rate := rate; Metrics.snap_avg_latency_ms := q_latency q; Metrics.snap_p95_latency_ms := p95;
     Metrics.snap_estimated_prompt_tokens := q_prompt_tokens q;
     Metrics.snap_estimated_completion_tokens := q_completion_tokens q;
     Metrics.snap_estimated_total_tokens := q_total_tokens q;
     Metrics.snap_estimated_input_cost_usd := q_input_cost q; Metrics.snap_estimated_output_cost_usd := q_output_cost q;
     Metrics.snap_estimated_total_cost_usd := q_total_cost q; Metrics.snap_requests_by_provider := t_requests t;
     Metrics.snap_successes_by_provider := t_successes t; Metrics.snap_errors_by_provider := t_errors t;
     Metrics.snap_fallback_attempts_by_provider := t_fallbacks t; Metrics.snap_request_errors_by_category := q_errors q;
     Metrics.snap_provider_errors_by_provider_and_category := t_categories t;
     Metrics.snap_recent_provider_errors_by_provider_and_category := ∅;
     Metrics.snap_admission_rejections_by_reason := ∅; Metrics.snap_avg_latency_ms_by_provider := ∅;
     Metrics.snap_p95_latency_ms_by_provider := ∅; Metrics.snap_in_flight_requests_by_provider := ∅;
     Metrics.snap_p50_ttft_ms_by_provider := ∅; Metrics.snap_p95_ttft_ms_by_provider := ∅;
     Metrics.snap_queue_pressure_by_provider := ∅; Metrics.snap_routing_decisions_by_policy_and_reason := ∅;
     Metrics.snap_prefix_fingerprints_by_outcome := ∅; Metrics.snap_cache_lookups_by_outcome := ∅;
     Metrics.snap_cache_hit_ratio := F64.zero; Metrics.snap_stream_outcomes_by_outcome := ∅;
     Metrics.snap_p95_stream_duration_ms := F64.zero |}.

Definition Requests_none : Requests :=
  {| q_total := 0; q_successful := 0; q_failed := 0; q_errors := ∅; q_prompt_tokens := 0; q_completion_tokens := 0;
     q_total_tokens := 0; q_input_cost := F64.zero; q_output_cost := F64.zero; q_total_cost := F64.zero;
     q_latency := F64.zero |}.
Definition Attempts_none : Attempts :=
  {| t_total := 0; t_fallback := 0; t_requests := ∅; t_successes := ∅; t_errors := ∅; t_fallbacks := ∅;
     t_categories := ∅; t_latency := ∅ |}.

(** The latencies of the rows, overall and by provider. *)
Definition row_latencies (rows : list LogRow) : list Z := map (fun r => Keys.as_u64 (log_latency_ms r)) rows.
Definition push_latency (m : gmap string (list Z)) (row : AttemptRow) : gmap string (list Z) :=
  <[row_provider_name row := default [] (m !! row_provider_name row) ++ [Keys.as_u64 (row_latency_ms row)]]> m.

Lemma count_requests_filled rows q rate p95 t l :
  foldl count_request (filled q rate p95 t, l) rows =
  (filled (foldl add_request q rows) rate p95 t, l ++ row_latencies rows).
Proof.
  revert q l. induction rows as [|row rows IH]; intros q l; cbn [foldl row_latencies map]; [by rewrite app_nil_r|].
  assert (count_request (filled q rate p95 t, l) row =
    (filled (add_request q row) rate p95 t, l ++ [Keys.as_u64 (log_latency_ms row)])) as ->.
  { unfold count_request, add_request. by destruct (String.eqb _ _), (log_error_category row). }
  by rewrite IH, <-app_assoc.
Qed.

Lemma count_attempts_filled rows q rate p95 t m :
  foldl count_attempt {| scan_snapshot := filled q rate p95 t; provider_latencies := m;
                         provider_total_latency_ms := t_latency t |} rows =
  let t' := foldl add_attempt t rows in
  {| scan_snapshot := filled q rate p95 t'; provider_latencies := foldl push_latency m rows;
     provider_total_latency_ms := t_latency t' |}.
Proof.
  revert t m. induction rows as [|row rows IH]; intros t m; cbn [foldl]; [done|].
  rewrite <-IH. f_equal. unfold count_attempt, add_attempt.
  by destruct (row_success row =? 1), (row_is_fallback row =? 1), (row_error_category row).
Qed.

(** *** The percentile index *)

Lemma p95_value : Metrics.p95 = S754_finite false 8556839292003942 (-53).
Proof. by vm_compute. Qed.

Lemma stored_index samples : samples <> [] -> Z.of_nat (length samples) <= 2 ^ 53 ->
  exists x, x ∈ samples /\ percentile_latency samples Metrics.p95 = Some (F64.of_Z x).
Proof.
  intros Hne Hlen. unfold percentile_latency. destruct samples as [|y l]; [done|]. set (samples := y :: l) in *.
  rewrite sort_by_length, p95_value.
  set (k := Z.of_nat (length samples) - 1). assert (0 <= k < 2 ^ 53) as Hk by (unfold k, samples in *; cbn [length] in *; lia).
  pose proof (F64Facts.ceil_scaled_le k 8556839292003942 Hk ltac:(lia)) as Hi.
  destruct (lookup_lt_is_Some_2 (sort_by Z.compare samples) (Z.to_nat (F64.ceil_as_u64
    (F64.mul (F64.of_Z k) (S754_finite false 8556839292003942 (-53)))))) as [x Hx].
  { rewrite sort_by_length. unfold k, samples in *. cbn [length] in *. lia. }
  exists x. rewrite Hx. split; [|done]. apply (sort_by_elem_of Z.compare). by eapply list_elem_of_lookup_2.
Qed.

Lemma stored_percentile samples : Z.of_nat (length samples) <= 2 ^ 53 ->
  is_Some (percentile_latency samples Metrics.p95).
Proof. intros Hlen. destruct samples as [|y l]; [by eexists|]. destruct (stored_index (y :: l) ltac:(done) Hlen) as (x & _ & ->). by eexists. Qed.

Lemma push_latency_bounded rows m n : 0 <= n ->
  map_Forall (fun _ l => Z.of_nat (length l) <= n) m ->
  map_Forall (fun _ l => Z.of_nat (length l) <= n + Z.of_nat (length rows)) (foldl push_latency m rows).
Proof.
  revert m n. induction rows as [|row rows IH]; intros m n Hn Hm; cbn [foldl length]; [by rewrite Z.add_0_r|].
  rewrite Nat2Z.inj_succ. replace (n + Z.succ (Z.of_nat (length rows))) with (n + 1 + Z.of_nat (length rows)) by lia.
  apply IH; [lia|]. apply map_Forall_insert_2.
  - rewrite length_app. cbn [length]. destruct (m !! row_provider_name row) as [l|] eqn:E; cbn [default length].
    + pose proof (Hm _ _ E). cbn in *. lia.
    + lia.
  - eapply map_Forall_impl; [exact Hm|]. cbn. lia.
Qed.

(** *** The snapshot of the rows *)

Lemma stats_of_rows db : online db = true ->
  Z.of_nat (length (request_logs db)) <= 2 ^ 53 -> Z.of_nat (length (provider_attempts db)) <= 2 ^ 53 ->
  let q := foldl add_request Requests_none (request_logs db) in
  let t := foldl add_attempt Attempts_none (provider_attempts db) in
  exists p95 by_provider,
    stats_snapshot db = Some (Ok (set_p95_latency_ms_by_provider by_provider
      (set_avg_latency_ms_by_provider
         (map_imap (fun name requests =>
            Some (F64.div (F64.of_Z (default 0 (t_latency t !! name))) (F64.of_Z requests))) (t_requests t))
         (set_p95_latency_ms p95 (close_requests (filled q F64.zero F64.zero t)))))).
Proof.
  intros Hon Hl Ha q t. unfold stats_snapshot. rewrite Hon. cbn [negb].
  change MetricsSnapshot_default with (filled Requests_none F64.zero F64.zero Attempts_none).
  rewrite count_requests_filled. fold q. cbn [app].
  destruct (stored_percentile (row_latencies (request_logs db))) as [p Hp]; [by unfold row_latencies; rewrite length_map|].
  rewrite Hp. cbn [mbind option_bind].
  assert (exists q' rate, set_p95_latency_ms p (close_requests (filled q F64.zero F64.zero Attempts_none)) =
    filled q' rate p Attempts_none /\
    set_p95_latency_ms p (close_requests (filled q F64.zero F64.zero t)) = filled q' rate p t) as (q' & rate & -> & E2).
  { unfold close_requests. cbn [filled Metrics.snap_total_requests]. destruct (0 <? q_total q).
    - by eexists {| q_total := q_total q; q_latency := F64.div (q_latency q) (F64.of_Z (q_total q)) |}, _.
    - by exists q, F64.zero. }
  pose proof (count_attempts_filled (provider_attempts db) q' rate p Attempts_none ∅) as Hc. cbv zeta in Hc. fold t in Hc.
  cbn [t_latency Attempts_none] in Hc. rewrite Hc.
  unfold close_attempts. cbn [scan_snapshot provider_latencies provider_total_latency_ms].
  rewrite (Metrics.map_values_some (fun samples => percentile_latency samples Metrics.p95)).
  - eexists p, _. cbn [mbind option_bind fmap option_fmap option_map]. rewrite E2. reflexivity.
  - eapply map_Forall_impl; [apply (push_latency_bounded _ _ 0); [done|apply map_Forall_empty]|].
    intros n l Hn. cbn in Hn. apply stored_percentile. lia.
Qed.

(* ------------------------------------------------------------------ *)
(** ** The stored statistics and the registry *)

(** A request that finished: what the handlers pass to the registry and, in the
    log entry, to the store. *)
Record Finished := {
  fin_request_id : Chat.Uuid;
  fin_route : string;
  fin_unix : Z;
  fin_request : option Chat.ChatCompletionRequest;
  fin_provider : option string;
  fin_latency_ms : Z;
  fin_attempts : list Metrics.ProviderAttempt;
  fin_outcome : (Chat.TokenUsage * Provider.CostEstimate) + option RequestLog.RequestErrorCategory;
  fin_new_v4 : nat -> Chat.Uuid
}.

Definition entry_of (config : RequestLog.RequestLoggingConfig) (f : Finished) : RequestLog.RequestLogEntry :=
  match fin_outcome f with
  | inl (usage, cost) =>
      RequestLog.new (fin_unix f) (fin_request_id f) (fin_route f) (fin_request f) (fin_provider f) RequestLog.Success
        (fin_latency_ms f) (Some usage) (Some cost) None (fin_attempts f) config
  | inr category =>
      RequestLog.new (fin_unix f) (fin_request_id f) (fin_route f) (fin_request f) (fin_provider f) RequestLog.Failure
        (fin_latency_ms f) None None category (fin_attempts f) config
  end.

Definition op_of (f : Finished) : Metrics.op :=
  match fin_outcome f with
  | inl (usage, cost) => Metrics.ChatSuccess usage cost (fin_latency_ms f) (fin_attempts f)
  | inr category =>
      Metrics.ChatFailure (fin_latency_ms f) (fin_attempts f) (RequestLog.RequestErrorCategory_as_str <$> category)
  end.

(** Requests finish, and the registry records other things meanwhile. *)
Inductive Event := Finish (f : Finished) | Meanwhile (o : Metrics.op).

Definition event_op (e : Event) : Metrics.op := match e with Finish f => op_of f | Meanwhile o => o end.
Definition finished (e : Event) : option Finished := match e with Finish f => Some f | Meanwhile _ => None end.

Section History.
Variable messages_to_string : list Chat.ChatMessage -> option string.
Variable config : RequestLog.RequestLoggingConfig.

(** The store after the events, if every request could be stored. *)
Fixpoint run_log (es : list Event) (db : SqliteRequestLogStore) : option SqliteRequestLogStore :=
  match es with
  | [] => Some db
  | Meanwhile _ :: es => run_log es db
  | Finish f :: es =>
      match record_request messages_to_string (fin_new_v4 f) (entry_of config f) db with
      | (db, Ok _) => run_log es db
      | (_, Err _) => None
      end
  end.

Definition chat_op (o : Metrics.op) : bool :=
  match o with Metrics.ChatSuccess _ _ _ _ | Metrics.ChatFailure _ _ _ => true | _ => false end.

(** Values within the widths of their types, and costs that are not negative. *)
Definition outcome_ok (f : Finished) : Prop :=
  match fin_outcome f with
  | inl (u, c) =>
      is_u32 (Chat.prompt_tokens u) /\ is_u32 (Chat.completion_tokens u) /\ is_u32 (Chat.total_tokens u) /\
      F64.nonneg (Provider.input_cost_usd c) /\ F64.nonneg (Provider.output_cost_usd c) /\
      F64.nonneg (Provider.total_cost_usd c)
  | inr _ => True
  end.
Definition event_ok (e : Event) : Prop :=
  match e with
  | Finish f => is_u64 (fin_latency_ms f) /\ Forall (fun a => is_u64 (Metrics.att_latency_ms a)) (fin_attempts f) /\ outcome_ok f
  | Meanwhile o => chat_op o = false
  end.

(** The same figures read off the registry. *)
Definition requests_of (m : Metrics.MetricsRegistry) : Requests :=
  {| q_total := Metrics.total_requests m; q_successful := Metrics.successful_requests m;
     q_failed := Metrics.failed_requests m; q_errors := Metrics.request_errors_by_category m;
     q_prompt_tokens := Metrics.estimated_prompt_tokens m; q_completion_tokens := Metrics.estimated_completion_tokens m;
     q_total_tokens := Metrics.estimated_total_tokens m; q_input_cost := Metrics.estimated_input_cost_usd m;
     q_output_cost := Metrics.estimated_output_cost_usd m; q_total_cost := Metrics.estimated_total_cost_usd m;
     q_latency := F64.of_Z (Metrics.total_latency_ms m) |}.
Definition attempts_of (m : Metrics.MetricsRegistry) : Attempts :=
  {| t_total := Metrics.total_provider_attempts m; t_fallback := Metrics.fallback_attempts m;
     t_requests := Metrics.requests_by_provider m; t_successes := Metrics.successes_by_provider m;
     t_errors := Metrics.errors_by_provider m; t_fallbacks := Metrics.fallback_attempts_by_provider m;
     t_categories := Metrics.provider_errors_by_provider_and_category m;
     t_latency := Metrics.provider_total_latency_ms m |}.

Lemma category_string c :
  RequestLog.RequestErrorCategory_as_str (RequestLog.from_provider_category c) = Metrics.ProviderErrorCategory_as_str c.
Proof. by destruct c. Qed.

Lemma attempt_books m a ids rid i : is_u64 (Metrics.att_latency_ms a) ->
  attempts_of (Metrics.record_provider_attempt m a) =
    add_attempt (attempts_of m) (attempt_row ids rid i (RequestLog.from_attempt a)) /\
  requests_of (Metrics.record_provider_attempt m a) = requests_of m.
Proof.
  intros Hl. unfold Metrics.record_provider_attempt, add_attempt. destruct a as [n o l ok fb c].
  cbn in Hl |- *. rewrite Keys.as_i64_roundtrip by done.
  destruct ok, fb, c as [c|]; cbn; rewrite ?category_string; done.
Qed.

Lemma attempts_books atts m ids rid : Forall (fun a => is_u64 (Metrics.att_latency_ms a)) atts ->
  attempts_of (Metrics.record_provider_attempts atts m) =
    foldl add_attempt (attempts_of m) (imap (attempt_row ids rid) (map RequestLog.from_attempt atts)) /\
  requests_of (Metrics.record_provider_attempts atts m) = requests_of m.
Proof.
  intros Hall. revert m ids. induction Hall as [|a atts Ha Hall IH]; intros m ids; [done|].
  cbn [map imap]. unfold Metrics.record_provider_attempts. cbn [foldl].
  destruct (attempt_books m a ids rid 0 Ha) as [H1 H2].
  destruct (IH (Metrics.record_provider_attempt m a) (ids ∘ S)) as [H3 H4].
  unfold Metrics.record_provider_attempts in *. rewrite H3, H4, H1, H2. done.
Qed.





Definition sum_ok (x : F64.t) : Prop := F64.nonneg x /\ x <> S754_zero true.

Lemma sum_ok_add x y : sum_ok x -> F64.nonneg y -> sum_ok (F64.add x y).
Proof. intros [Hx Hz] Hy. split; [by apply F64Facts.add_nonneg|by apply F64Facts.add_not_negative_zero]. Qed.

Lemma bound_cost x : F64.nonneg x -> Keys.bind_real x = Some x.
Proof. by destruct x. Qed.

Lemma token_cell n : is_u32 n -> Keys.as_u64 n = n.
Proof. unfold is_u32, u32_max, Keys.as_u64. intros. apply Z.mod_small. lia. Qed.

(** What holds of the registry along the history. *)
Record books_ok (m : Metrics.MetricsRegistry) (latency : Z) : Prop := {
  ok_latency : Metrics.total_latency_ms m = latency;
  ok_input : sum_ok (Metrics.estimated_input_cost_usd m);
  ok_output : sum_ok (Metrics.estimated_output_cost_usd m);
  ok_cost : sum_ok (Metrics.estimated_total_cost_usd m);
  ok_prompt : is_u64 (Metrics.estimated_prompt_tokens m);
  ok_completion : is_u64 (Metrics.estimated_completion_tokens m);
  ok_tokens : is_u64 (Metrics.estimated_total_tokens m)
}.

Lemma u64_add_none n : is_u64 n -> u64_add n (Keys.as_u64 0) = n.
Proof. unfold is_u64, u64_max, u64_add, Keys.as_u64. intros. rewrite Z.mod_0_l, Z.add_0_r by lia. apply Z.mod_small. lia. Qed.

Lemma attempts_keep atts m l : books_ok m l -> books_ok (Metrics.record_provider_attempts atts m) l.
Proof.
  revert m. induction atts as [|a atts IH]; intros m Hm; [done|].
  apply (IH (Metrics.record_provider_attempt m a)). unfold Metrics.record_provider_attempt.
  destruct Hm. by destruct (Metrics.success a), (Metrics.is_fallback a), (Metrics.error_category a).
Qed.

(** One request, in the registry and as a row. *)
Lemma request_books f m l json : books_ok m l -> 0 <= l -> event_ok (Finish f) -> l + fin_latency_ms f < 2 ^ 53 ->
  let m' := Metrics.apply_op m (op_of f) in
  requests_of m' = add_request (requests_of m) (log_row (entry_of config f) json) /\
  attempts_of m' = foldl add_attempt (attempts_of m)
    (imap (attempt_row (fin_new_v4 f) (fin_request_id f)) (RequestLog.provider_attempts (entry_of config f))) /\
  books_ok m' (l + fin_latency_ms f).
Proof.
  intros [Hl Hi Ho Hc Ht1 Ht2 Ht3] Hl0 (Hlat & Hatts & Hout) Hsum. cbv zeta.
  assert (Metrics.u128_add (Metrics.total_latency_ms m) (fin_latency_ms f) = l + fin_latency_ms f) as Hadd.
  { rewrite Hl. unfold Metrics.u128_add. unfold is_u64 in Hlat. apply Z.mod_small. lia. }
  assert (F64.of_Z (l + fin_latency_ms f) = F64.add (F64.of_Z l) (F64.of_Z (fin_latency_ms f))) as Hf.
  { unfold is_u64 in Hlat. symmetry. apply F64Facts.add_of_Z; lia. }
  unfold op_of, entry_of, outcome_ok in *. destruct (fin_outcome f) as [[u c]|cat]; cbn [Metrics.apply_op].
  - destruct Hout as (Hu1 & Hu2 & Hu3 & Hc1 & Hc2 & Hc3). unfold Metrics.record_chat_success.
    set (m1 := Metrics.record_latency_sample _ _).
    destruct (attempts_books (fin_attempts f) m1 (fin_new_v4 f) (fin_request_id f) Hatts) as [H1 H2].
    rewrite H1, H2. split; [|split; [done|]].
    + unfold requests_of, add_request, m1. cbn. rewrite Hadd, Hf, Hl, !bound_cost, !token_cell by done. cbn.
      by rewrite Keys.as_i64_roundtrip by done.
    + apply attempts_keep. split; cbn; try done; try (by apply sum_ok_add); auto with rg.
  - unfold Metrics.record_chat_failure_with_category. set (m1 := Metrics.record_latency_sample _ _).
    destruct (attempts_books (fin_attempts f) m1 (fin_new_v4 f) (fin_request_id f) Hatts) as [H1 H2].
    rewrite H1, H2. split; [|split; [by destruct cat|]].
    + unfold requests_of, add_request, m1. destruct cat as [cat|]; cbn; rewrite Hadd, Hf, Hl, !u64_add_none by done;
        rewrite !F64Facts.add_zero_id by (by apply Hi || apply Ho || apply Hc); by rewrite Keys.as_i64_roundtrip by done.
    + apply attempts_keep. by destruct cat; split.
Qed.



Lemma insert_attempts_app new rows rows' : insert_attempts new rows = Some rows' -> rows' = rows ++ new.
Proof.
  revert rows. induction new as [|r new IH]; intros rows; cbn [insert_attempts]; [intros [= <-]; by rewrite app_nil_r|].
  unfold insert_attempt. case_bool_decide; [done|]. cbn. intros H'. by rewrite (IH _ H'), <-app_assoc.
Qed.

Lemma record_request_ok ids e db db' u : record_request messages_to_string ids e db = (db', Ok u) ->
  online db = true /\ online db' = true /\
  (exists json, request_logs db' = request_logs db ++ [log_row e json]) /\
  provider_attempts db' =
    provider_attempts db ++ imap (attempt_row ids (RequestLog.request_id e)) (RequestLog.provider_attempts e).
Proof.
  unfold record_request. destruct (online db) eqn:Hon; cbn [negb]; [|done].
  destruct (prompt_json _ _) as [json|]; [|done]. unfold insert_log. case_bool_decide; [done|].
  destruct (insert_attempts _ _) as [rows|] eqn:E; [|done]. intros [= <- _].
  apply insert_attempts_app in E. cbn. split_and!; [done..|by eexists|done].
Qed.

Lemma other_op_books m o l : chat_op o = false -> books_ok m l ->
  let m' := Metrics.apply_op m o in requests_of m' = requests_of m /\ attempts_of m' = attempts_of m /\ books_ok m' l.
Proof. intros Ho []. by destruct o. Qed.

Definition latency_sum (es : list Event) : Z := foldr (fun f s => fin_latency_ms f + s) 0 (omap finished es).
Definition attempt_count (es : list Event) : nat := length (concat (map fin_attempts (omap finished es))).

Lemma latency_sum_nonneg es : Forall event_ok es -> 0 <= latency_sum es.
Proof.
  unfold latency_sum. induction 1 as [|e es He Hes IH]; [done|]. destruct e as [f|o]; [|done]. cbn.
  destruct He as [[Hf _] _]. cbn in IH. lia.
Qed.

Lemma run_books es m db db' l : Forall event_ok es -> run_log es db = Some db' -> online db = true ->
  books_ok m l -> 0 <= l -> l + latency_sum es < 2 ^ 53 ->
  requests_of m = foldl add_request Requests_none (request_logs db) ->
  attempts_of m = foldl add_attempt Attempts_none (provider_attempts db) ->
  let m' := foldl Metrics.apply_op m (map event_op es) in
  requests_of m' = foldl add_request Requests_none (request_logs db') /\
  attempts_of m' = foldl add_attempt Attempts_none (provider_attempts db') /\ online db' = true /\
  length (request_logs db') = (length (request_logs db) + length (omap finished es))%nat /\
  length (provider_attempts db') = (length (provider_attempts db) + attempt_count es)%nat.
Proof.
  intros Hes. revert m db l. induction Hes as [|e es He Hes IH]; intros m db l Hrun Hon Hb Hl Hsum Hq Ht.
  { injection Hrun as <-. cbn. by rewrite !Nat.add_0_r. }
  pose proof (latency_sum_nonneg es Hes) as Hnn. cbn [map foldl event_op]. destruct e as [f|o]; cbn [run_log] in Hrun.
  - destruct (record_request _ _ _ _) as [db1 [u|]] eqn:Hrec; [|done].
    assert (latency_sum (Finish f :: es) = fin_latency_ms f + latency_sum es) as Hs by done.
    destruct (record_request_ok _ _ _ _ _ Hrec) as (_ & Hon1 & [json Hlog] & Hatt).
    destruct (request_books f m l json Hb Hl He ltac:(lia)) as (Hq1 & Ht1 & Hb1).
    assert (0 <= fin_latency_ms f) by (destruct He as [[]]; lia).
    destruct (IH (Metrics.apply_op m (op_of f)) db1 (l + fin_latency_ms f) Hrun Hon1 Hb1) as (H1 & H2 & H3 & H4 & H5); [lia..| | |].
    + by rewrite Hq1, Hlog, foldl_app, Hq.
    + rewrite Ht1, Hatt, foldl_app, Ht. unfold entry_of. by destruct (fin_outcome f) as [[]|].
    + split_and!; [done..| |].
      * rewrite H4, Hlog, length_app. cbn. lia.
      * rewrite H5, Hatt, length_app, length_imap. unfold attempt_count. cbn [omap list_omap finished map concat].
        rewrite length_app. assert (length (RequestLog.provider_attempts (entry_of config f)) = length (fin_attempts f)); [|lia].
        unfold entry_of. destruct (fin_outcome f) as [[]|]; cbn; apply length_map.
  - destruct (other_op_books m o l He Hb) as (Hq1 & Ht1 & Hb1).
    apply (IH (Metrics.apply_op m o) db l Hrun Hon Hb1); [done..|by rewrite Hq1|by rewrite Ht1].
Qed.

(** Counts by provider are positive while they fit 64 bits. *)
Lemma requests_positive rows t n : 0 <= n -> map_Forall (fun _ v => 1 <= v <= n) (t_requests t) ->
  n + Z.of_nat (length rows) <= u64_max ->
  map_Forall (fun _ v => 1 <= v <= n + Z.of_nat (length rows)) (t_requests (foldl add_attempt t rows)).
Proof.
  revert t n. induction rows as [|row rows IH]; intros t n Hn Ht Hle; cbn [foldl length] in *; [by rewrite Z.add_0_r|].
  replace (n + Z.of_nat (S (length rows))) with (n + 1 + Z.of_nat (length rows)) in * by lia.
  apply IH; [lia| |lia]. cbn [add_attempt t_requests]. unfold count_add. apply map_Forall_insert_2.
  - destruct (t_requests t !! _) as [v|] eqn:E; cbn [default from_option id].
    + pose proof (Ht _ _ E) as Hv. cbn in Hv. unfold id. rewrite u64_add_small by lia. lia.
    + rewrite u64_add_small by (unfold u64_max in *; lia). lia.
  - eapply map_Forall_impl; [exact Ht|]. cbn. lia.
Qed.

End History.

(** The figures the log determines, percentiles apart. *)
Record agrees (stored live : Metrics.MetricsSnapshot) : Prop := {
  agree_total : Metrics.snap_total_requests stored = Metrics.snap_total_requests live;
  agree_successful : Metrics.snap_successful_requests stored = Metrics.snap_successful_requests live;
  agree_failed : Metrics.snap_failed_requests stored = Metrics.snap_failed_requests live;
  agree_attempts : Metrics.snap_total_provider_attempts stored = Metrics.snap_total_provider_attempts live;
  agree_fallback : Metrics.snap_fallback_attempts stored = Metrics.snap_fallback_attempts live;
  agree_error_rate : Metrics.snap_error_rate stored = Metrics.snap_error_rate live;
  agree_latency : Metrics.snap_avg_latency_ms stored = Metrics.snap_avg_latency_ms live;
  agree_prompt : Metrics.snap_estimated_prompt_tokens stored = Metrics.snap_estimated_prompt_tokens live;
  agree_completion : Metrics.snap_estimated_completion_tokens stored = Metrics.snap_estimated_completion_tokens live;
  agree_tokens : Metrics.snap_estimated_total_tokens stored = Metrics.snap_estimated_total_tokens live;
  agree_input : Metrics.snap_estimated_input_cost_usd stored = Metrics.snap_estimated_input_cost_usd live;
  agree_output : Metrics.snap_estimated_output_cost_usd stored = Metrics.snap_estimated_output_cost_usd live;
  agree_cost : Metrics.snap_estimated_total_cost_usd stored = Metrics.snap_estimated_total_cost_usd live;
  agree_errors : Metrics.snap_request_errors_by_category stored = Metrics.snap_request_errors_by_category live;
  agree_requests : Metrics.snap_requests_by_provider stored = Metrics.snap_requests_by_provider live;
  agree_successes : Metrics.snap_successes_by_provider stored = Metrics.snap_successes_by_provider live;
  agree_provider_errors : Metrics.snap_errors_by_provider stored = Metrics.snap_errors_by_provider live;
  agree_fallbacks : Metrics.snap_fallback_attempts_by_provider stored = Metrics.snap_fallback_attempts_by_provider live;
  agree_categories : Metrics.snap_provider_errors_by_provider_and_category stored =
    Metrics.snap_provider_errors_by_provider_and_category live;
  agree_averages : Metrics.snap_avg_latency_ms_by_provider stored = Metrics.snap_avg_latency_ms_by_provider live
}.

Definition empty_store : SqliteRequestLogStore :=
  {| online := true; request_logs := []; provider_attempts := []; api_key_usage_daily := ∅ |}.

(** The registry's own snapshot, given its figures. *)
Lemma live_agrees m live p95 by_provider : Metrics.registry_ok m -> Metrics.snapshot m = Some live ->
  map_Forall (fun _ v => v <> 0) (Metrics.requests_by_provider m) ->
  (Metrics.total_requests m = 0 -> F64.of_Z (Metrics.total_latency_ms m) = F64.zero) ->
  agrees (set_p95_latency_ms_by_provider by_provider
      (set_avg_latency_ms_by_provider
         (map_imap (fun name requests =>
            Some (F64.div (F64.of_Z (default 0 (t_latency (attempts_of m) !! name))) (F64.of_Z requests)))
            (t_requests (attempts_of m)))
         (set_p95_latency_ms p95 (close_requests (filled (requests_of m) F64.zero F64.zero (attempts_of m)))))) live.
Proof.
  intros Hok Hs Hpos Hz. unfold Metrics.snapshot in Hs.
  destruct (Metrics.p95_latency_ms m); [|done]. destruct (Metrics.p95_latency_ms_by_provider m); [|done].
  destruct (Metrics.p50_ttft_ms_by_provider m); [|done]. destruct (Metrics.p95_ttft_ms_by_provider m); [|done].
  destruct (Metrics.p95_stream_duration_ms m); [|done]. cbn [mbind option_bind] in Hs.
  assert (0 <= Metrics.total_requests m) as H0 by (rewrite (Metrics.ok_total m Hok); apply u64_add_range).
  assert (map_imap (fun name requests => Some (F64.div (F64.of_Z (default 0 (Metrics.provider_total_latency_ms m !! name)))
      (F64.of_Z requests))) (Metrics.requests_by_provider m) = Metrics.avg_latency_ms_by_provider m) as Havg.
  { apply map_eq. intros name. unfold Metrics.avg_latency_ms_by_provider. rewrite !map_lookup_imap.
    destruct (Metrics.requests_by_provider m !! name) as [r|] eqn:E; [|done]. cbn.
    apply Hpos in E. destruct (r =? 0) eqn:Er; [zbool; done|done]. }
  injection Hs as <-.
  unfold close_requests. cbn [filled Metrics.snap_total_requests requests_of q_total].
  destruct (0 <? Metrics.total_requests m) eqn:Et; split; try exact Havg; cbn; try done;
    unfold Metrics.error_rate, Metrics.avg_latency_ms; destruct (Metrics.total_requests m =? 0) eqn:Ez; zbool; try done; auto; lia.
Qed.

Lemma total_of_rows rows q : 0 <= q_total q -> q_total q + Z.of_nat (length rows) <= u64_max ->
  q_total (foldl add_request q rows) = q_total q + Z.of_nat (length rows).
Proof.
  revert q. induction rows as [|row rows IH]; intros q H0 Hle; cbn [foldl length] in *; [lia|].
  rewrite IH; cbn [add_request q_total]; rewrite u64_add_small by lia; lia.
Qed.

(** The statistics read from SQLite are those of the in-memory registry.
    Whatever requests finish, with whatever else the registry records in
    between, if each could be stored then the snapshot computed from the rows
    can be taken and agrees with the registry's on every counter, map, rate,
    cost sum and average the log determines; only the percentiles differ, and
    the log says nothing of the cache.  (The
    latencies sum up to less than 2^53 ms and there are fewer attempts than
    that; costs are not negative.) *)
Lemma stored_stats_match_registry messages_to_string config es db :
  Forall event_ok es -> latency_sum es < 2 ^ 53 -> Z.of_nat (length es + attempt_count es) < 2 ^ 53 ->
  run_log messages_to_string config es empty_store = Some db ->
  exists stored live, stats_snapshot db = Some (Ok stored) /\
    Metrics.snapshot (Metrics.run (map event_op es)) = Some live /\ agrees stored live /\
    Metrics.snap_cache_lookups_by_outcome stored = ∅ /\ Metrics.snap_cache_hit_ratio stored = F64.zero.
Proof.
  intros Hes Hsum Hlen Hrun. set (m := Metrics.run (map event_op es)).
  assert (books_ok Metrics.MetricsRegistry_default 0) as Hb by (by split).
  destruct (run_books messages_to_string config es _ empty_store db 0 Hes Hrun eq_refl Hb) as (Hq & Ht & Hon & Hl1 & Hl2);
    [done|lia|done..|].
  cbn [empty_store request_logs provider_attempts length Nat.add] in Hl1, Hl2.
  assert (length (omap finished es) <= length es)%nat as Hfin.
  { clear. induction es as [|[f|o] es IH]; cbn; lia. }
  destruct (Metrics.snapshot_of_ok m) as [live Hlive]; [apply Metrics.run_ok|].
  destruct (stats_of_rows db Hon) as (p95 & by_provider & Hstats); [lia..|].
  eexists _, live. split; [exact Hstats|]. split; [exact Hlive|].
  fold (Metrics.run (map event_op es)) in Hq, Ht. fold m in Hq, Ht. rewrite <-Hq, <-Ht.
  split; [apply live_agrees; [apply Metrics.run_ok|done| |]|].
  - change (Metrics.requests_by_provider m) with (t_requests (attempts_of m)). rewrite Ht.
    eapply map_Forall_impl; [apply (requests_positive _ _ 0); [done|apply map_Forall_empty|unfold u64_max; lia]|].
    cbn. lia.
  - change (Metrics.total_requests m) with (q_total (requests_of m)).
    change (F64.of_Z (Metrics.total_latency_ms m)) with (q_latency (requests_of m)). rewrite Hq.
    rewrite total_of_rows by (cbn [Requests_none q_total]; unfold u64_max; lia). cbn [Requests_none q_total].
    intros H0. by destruct (request_logs db); [|cbn [length] in H0; lia].
  - unfold close_requests. by destruct (0 <? _).
Qed.

(* ------------------------------------------------------------------ *)
(** ** Integrity of the log *)

Inductive store_op :=
| RecordRequest (new_v4 : nat -> Chat.Uuid) (e : RequestLog.RequestLogEntry)
| Prune (cutoff : Z)
| Reachable (up : bool).

(** The reference log: the requests that are kept, each as it was recorded,
    with the ids drawn for its attempts and its serialised prompt. *)
Record Recorded := {
  entry : RequestLog.RequestLogEntry;
  attempt_ids : nat -> Chat.Uuid;
  prompt : option string
}.

Definition request_row (k : Recorded) : LogRow := log_row (entry k) (prompt k).
Definition attempt_rows (k : Recorded) : list AttemptRow :=
  imap (attempt_row (attempt_ids k) (RequestLog.request_id (entry k))) (RequestLog.provider_attempts (entry k)).

(** No two kept requests share an id, nor two of their attempts. *)
Definition unique_ids (kept : list Recorded) : bool :=
  bool_decide (NoDup (map log_id (map request_row kept))) &&
  bool_decide (NoDup (map row_id (concat (map attempt_rows kept)))).

Section Integrity.
Variable messages_to_string : list Chat.ChatMessage -> option string.

Definition store_step (db : SqliteRequestLogStore) (o : store_op) : SqliteRequestLogStore :=
  match o with
  | RecordRequest ids e => fst (record_request messages_to_string ids e db)
  | Prune cutoff => fst (prune_older_than cutoff db)
  | Reachable up => {| online := up; request_logs := request_logs db; provider_attempts := provider_attempts db;
                       api_key_usage_daily := api_key_usage_daily db |}
  end.

(** A request is kept whole when the database answers, its prompt can be
    serialised and its ids are new, and not at all otherwise. *)
Definition accepted (up : bool) (kept : list Recorded) (ids : nat -> Chat.Uuid) (e : RequestLog.RequestLogEntry) :
  option Recorded :=
  json ← prompt_json messages_to_string e;
  let k := {| entry := e; attempt_ids := ids; prompt := json |} in
  if up && unique_ids (kept ++ [k]) then Some k else None.

Definition log_step (h : bool * list Recorded) (o : store_op) : bool * list Recorded :=
  let '(up, kept) := h in
  match o with
  | RecordRequest ids e => (up, kept ++ option_list (accepted up kept ids e))
  | Prune cutoff =>
      (up, if up then filter (fun k => Keys.as_i64 cutoff <= RequestLog.created_at_unix_seconds (entry k)) kept else kept)
  | Reachable up => (up, kept)
  end.

(** The reference log after a history of operations on an empty store. *)
Definition history (ops : list store_op) : bool * list Recorded := foldl log_step (true, []) ops.

(** The store is the reference log, row for row. *)
Record stores (h : bool * list Recorded) (db : SqliteRequestLogStore) : Prop := {
  same_online : online db = h.1;
  same_requests : request_logs db = map request_row h.2;
  same_attempts : provider_attempts db = concat (map attempt_rows h.2);
  ids_unique : unique_ids h.2 = true
}.

Lemma unique_ids_spec kept :
  unique_ids kept = true <->
  NoDup (map log_id (map request_row kept)) /\ NoDup (map row_id (concat (map attempt_rows kept))).
Proof. unfold unique_ids. by rewrite andb_true_iff, !bool_decide_eq_true. Qed.

Lemma NoDup_snoc {A} (l : list A) x : NoDup (l ++ [x]) <-> x ∉ l /\ NoDup l.
Proof.
  rewrite NoDup_app. split.
  - intros (H1 & H2 & _). split; [|done]. intros Hx. by apply (H2 x Hx), list_elem_of_singleton.
  - intros [H1 H2]. split_and!; [done| |apply NoDup_singleton]. by intros y Hy ->%list_elem_of_singleton.
Qed.

Lemma filter_all {A} (P : A -> Prop) `{!forall x, Decision (P x)} l : Forall P l -> filter P l = l.
Proof. induction 1; [done|]. rewrite filter_cons_True by done. by f_equal. Qed.
Lemma filter_none {A} (P : A -> Prop) `{!forall x, Decision (P x)} l : Forall (fun x => ~ P x) l -> filter P l = [].
Proof. induction 1; [done|]. by rewrite filter_cons_False by done. Qed.

Lemma insert_log_spec r rows : NoDup (map log_id rows) ->
  insert_log r rows = if bool_decide (NoDup (map log_id (rows ++ [r]))) then Some (rows ++ [r]) else None.
Proof.
  intros Hnd. unfold insert_log. rewrite map_app. cbn [map].
  destruct (decide (log_id r ∈ map log_id rows)) as [Hin|Hin].
  - rewrite bool_decide_eq_true_2 by done. rewrite bool_decide_eq_false_2; [done|]. by intros [? _]%NoDup_snoc.
  - rewrite bool_decide_eq_false_2 by done. rewrite bool_decide_eq_true_2; [done|]. by apply NoDup_snoc.
Qed.

Lemma insert_attempts_spec new rows : NoDup (map row_id rows) ->
  insert_attempts new rows =
    if bool_decide (NoDup (map row_id (rows ++ new))) then Some (rows ++ new) else None.
Proof.
  revert rows. induction new as [|r new IH]; intros rows Hnd; cbn [insert_attempts].
  { rewrite app_nil_r. by rewrite bool_decide_eq_true_2. }
  unfold insert_attempt. case_bool_decide as Hr; cbn [mbind option_bind].
  - rewrite bool_decide_eq_false_2; [done|]. rewrite map_app. cbn [map].
    intros (_ & H & _)%NoDup_app. apply (H _ Hr). left.
  - rewrite IH, <-app_assoc; [done|]. rewrite map_app. cbn [map]. by apply NoDup_snoc.
Qed.

Lemma refused_iff {A : Type} (err : StorageError) : Err (A := unit) err = Ok tt <-> is_Some (@None A).
Proof. split; [done|by intros [? ?]]. Qed.

Lemma stores_record h db ids e : stores h db ->
  stores (log_step h (RecordRequest ids e)) (fst (record_request messages_to_string ids e db)) /\
  (snd (record_request messages_to_string ids e db) = Ok tt <-> is_Some (accepted h.1 h.2 ids e)).
Proof.
  destruct h as [up kept]. intros Hs. pose proof Hs as [Hon Hlogs Hatt Hids].
  cbn [fst snd log_step] in *. unfold accepted, record_request.
  destruct (prompt_json messages_to_string e) as [json|]; cbn [mbind option_bind].
  2:{ rewrite app_nil_r, Hon. by destruct up; (split; [|apply refused_iff]). }
  set (k := {| entry := e; attempt_ids := ids; prompt := json |}). rewrite Hon. destruct up; cbn [negb andb fst snd].
  2:{ rewrite app_nil_r. split; [done|]. apply refused_iff. }
  apply unique_ids_spec in Hids as [Hr Ha]. pose proof (unique_ids_spec (kept ++ [k])) as Hk.
  rewrite !map_app, concat_app, !map_app in Hk. cbn [map concat] in Hk. rewrite app_nil_r in Hk.
  change (log_row e json) with (request_row k). change (imap _ _) with (attempt_rows k).
  rewrite Hlogs, Hatt, insert_log_spec, insert_attempts_spec, !map_app by done. cbn [map].
  destruct (unique_ids (kept ++ [k])) eqn:E.
  - destruct (proj1 Hk eq_refl) as [H1 H2]. rewrite !bool_decide_eq_true_2 by done. cbn [fst snd option_list].
    split; [|split; [by eexists|done]].
    split; cbn [online request_logs provider_attempts fst snd].
    + done.
    + by rewrite map_app.
    + change (option_list (Some k)) with [k]. rewrite map_app, concat_app. cbn [map concat]. by rewrite (app_nil_r (attempt_rows k)).
    + done.
  - rewrite app_nil_r. assert (~ (NoDup (map log_id (map request_row kept) ++ [log_id (request_row k)]) /\
      NoDup (map row_id (concat (map attempt_rows kept)) ++ map row_id (attempt_rows k)))) as Hno by (intros H; by apply Hk in H).
    repeat case_bool_decide; try tauto; cbn [fst snd]; (split; [done|apply refused_iff]).
Qed.

Lemma attempt_rows_owner k : Forall (fun a => row_request_id a = log_id (request_row k)) (attempt_rows k).
Proof.
  unfold attempt_rows. apply Forall_forall. intros a (i & x & -> & _)%elem_of_lookup_imap. done.
Qed.

(** Pruning the rows of the old requests prunes the old requests. *)
Lemma filter_logs c kept :
  filter (fun r => ¬ log_created_at r < c) (map request_row kept) =
  map request_row (filter (fun k => c <= RequestLog.created_at_unix_seconds (entry k)) kept).
Proof.
  induction kept as [|k kept IH]; [done|]. cbn [map]. rewrite !filter_cons.
  change (log_created_at (request_row k)) with (RequestLog.created_at_unix_seconds (entry k)).
  repeat case_decide; try lia; [|done]. cbn [map]. by f_equal.
Qed.

Lemma filter_attempts (ids : list string) kept :
  filter (fun a => row_request_id a ∉ ids) (concat (map attempt_rows kept)) =
  concat (map attempt_rows (filter (fun k => log_id (request_row k) ∉ ids) kept)).
Proof.
  induction kept as [|k kept IH]; [done|]. cbn [map concat]. rewrite filter_app, IH, (filter_cons _ k).
  pose proof (attempt_rows_owner k) as Ho. destruct (decide _) as [Hk|Hk].
  - cbn [map concat]. f_equal. apply filter_all. eapply Forall_impl; [exact Ho|]. by intros a ->.
  - rewrite filter_none; [done|]. eapply Forall_impl; [exact Ho|]. intros a ->. done.
Qed.

Lemma stores_prune h db cutoff : stores h db ->
  stores (log_step h (Prune cutoff)) (fst (prune_older_than cutoff db)).
Proof.
  destruct h as [up kept]. intros Hs. pose proof Hs as [Hon Hlogs Hatt Hids]. cbn [fst snd log_step] in *.
  unfold prune_older_than. rewrite Hon. destruct up; [|done]. cbn [fst].
  apply unique_ids_spec in Hids as [Hr Ha]. set (c := Keys.as_i64 cutoff).
  set (recent := filter (fun k => c <= RequestLog.created_at_unix_seconds (entry k)) kept).
  assert (filter (fun r => ¬ log_created_at r < c) (request_logs db) = map request_row recent) as Hlogs'.
  { rewrite Hlogs. apply filter_logs. }
  assert (filter (fun a => row_request_id a ∉ map log_id (filter (fun r => log_created_at r < c) (request_logs db)))
            (provider_attempts db) = concat (map attempt_rows recent)) as Hatt'.
  { rewrite Hatt, filter_attempts. do 2 f_equal. apply filter_ext_elem. intros k Hk. rewrite Hlogs. split.
    - intros Hold. apply Z.nlt_ge. intros Hc. apply Hold. apply list_elem_of_fmap_2, list_elem_of_filter. split; [done|]. by apply list_elem_of_fmap_2.
    - intros Hc (r & E & [Hc' (k' & -> & Hk')%list_elem_of_fmap]%list_elem_of_filter)%list_elem_of_fmap.
      rewrite map_map in Hr. apply (Z.lt_irrefl c).
      rewrite (nodup_map_eq _ _ k k' Hr Hk Hk' E) in Hc. by eapply Z.le_lt_trans. }
  split; cbn [online request_logs provider_attempts fst snd]; [done..|].
  apply unique_ids_spec. split.
  - rewrite <-Hlogs', Hlogs. eapply sublist_NoDup; [exact Hr|]. apply fmap_sublist, sublist_filter.
  - rewrite <-Hatt', Hatt. eapply sublist_NoDup; [exact Ha|]. apply fmap_sublist, sublist_filter.
Qed.

Lemma stores_step h db o : stores h db -> stores (log_step h o) (store_step db o).
Proof.
  intros Hs. destruct o as [ids e|cutoff|up]; [by apply stores_record|by apply stores_prune|].
  destruct h, Hs. by split.
Qed.

Lemma stores_history ops : stores (history ops) (foldl store_step empty_store ops).
Proof.
  assert (forall h db, stores h db -> stores (foldl log_step h ops) (foldl store_step db ops)) as H; [|by apply H; split].
  induction ops as [|o ops IH]; intros h db Hs; [done|]. by apply IH, stores_step.
Qed.

(** C22: the log is never torn.  Whatever requests are recorded, rows pruned and
    outages happen, in any order, the two tables hold exactly the requests
    accepted so far and not pruned, each with its own row and with one row for
    every attempt it was recorded with, in order, and nothing else; ids stay
    unique.  Recording answers success exactly when the request is accepted: the
    database answers, the prompt can be serialised and the ids are new. *)
Theorem log_never_torn ops ids e :
  let '(up, kept) := history ops in
  let db := foldl store_step empty_store ops in
  request_logs db = map request_row kept /\
  provider_attempts db = concat (map attempt_rows kept) /\
  unique_ids kept = true /\
  (snd (record_request messages_to_string ids e db) = Ok tt <-> is_Some (accepted up kept ids e)).
Proof.
  pose proof (stores_history ops) as Hs. pose proof (stores_record _ _ ids e Hs) as [_ Hrec].
  destruct (history ops) as [up kept], Hs. by split_and!.
Qed.

End Integrity.

(* ------------------------------------------------------------------ *)
(** ** A concrete history *)

Definition demo_attempt (name : string) (order latency : Z) (ok : bool) : Metrics.ProviderAttempt :=
  {| Metrics.att_provider_name := name; Metrics.attempt_order := order; Metrics.att_latency_ms := latency;
     Metrics.success := ok; Metrics.is_fallback := 1 <? order;
     Metrics.error_category := if ok then None else Some Metrics.CatTimeout |}.

Definition demo_finished (rid latency : Z) (attempts : list Metrics.ProviderAttempt)
  (outcome : (Chat.TokenUsage * Provider.CostEstimate) + option RequestLog.RequestErrorCategory) : Finished :=
  {| fin_request_id := rid; fin_route := "/v1/chat/completions"; fin_unix := 1700000000; fin_request := None;
     fin_provider := None; fin_latency_ms := latency; fin_attempts := attempts; fin_outcome := outcome;
     fin_new_v4 := fun i => 1000 * rid + Z.of_nat i |}.

(** A failover that succeeds, a cache lookup, and a request that fails. *)
Definition demo_events : list Event :=
  [Finish (demo_finished 1 40 [demo_attempt "a" 1 25 false; demo_attempt "b" 2 10 true]
     (inl ({| Chat.prompt_tokens := 5; Chat.completion_tokens := 7; Chat.total_tokens := 12 |},
           {| Provider.input_cost_usd := F64.literal 5 3; Provider.output_cost_usd := F64.literal 7 3;
              Provider.total_cost_usd := F64.literal 12 3 |})));
   Meanwhile (Metrics.CacheLookup "hit");
   Finish (demo_finished 2 30 [demo_attempt "a" 1 30 false] (inr (Some RequestLog.Timeout)))].

Definition demo_config : RequestLog.RequestLoggingConfig := RequestLog.RequestLoggingConfig_default.
Definition demo_store : SqliteRequestLogStore :=
  default empty_store (run_log (fun _ => None) demo_config demo_events empty_store).

Lemma demo_events_ok : Forall event_ok demo_events.
Proof.
  assert (forall n, ((0 <=? n) && (n <=? 1000)) = true -> is_u32 n /\ is_u64 n) as Hw.
  { intros n [H1 H2]%andb_true_iff. zbool. unfold is_u32, is_u64, u32_max, u64_max. lia. }
  unfold demo_events. repeat apply Forall_cons_2; [| |  |apply Forall_nil_2]; [|reflexivity|].
  - split; [by apply Hw|]. split; [repeat apply Forall_cons_2; [by apply Hw..|apply Forall_nil_2]|].
    do 3 (split; [by apply Hw|]). split; [|split]; vm_compute; reflexivity.
  - split; [by apply Hw|]. split; [repeat apply Forall_cons_2; [by apply Hw|apply Forall_nil_2]|exact I].
Qed.

Lemma demo_stored : run_log (fun _ => None) demo_config demo_events empty_store = Some demo_store.
Proof. by vm_compute. Qed.

(** The store and the registry index the sorted samples differently: on the
    same twenty samples they report different percentiles. *)
Lemma percentiles_differ :
  let samples := map Z.of_nat (seq 1 20) in
  percentile_latency samples Metrics.p95 = Some (F64.of_Z 20) /\
  Metrics.percentile_latency samples Metrics.p95 = Some (F64.of_Z 19).
Proof. split; by vm_compute. Qed.

End Sqlite.
