(* ===== verification/Prometheus.v ===== *)
(** * Exposition format (src/src/telemetry/prometheus.rs)

    [render_prometheus] prints a metrics snapshot in the text format Prometheus
    scrapes.  [scrape] reads that format, and the page read back is the
    snapshot: label values survive whatever characters they contain.  How Rust
    prints an [f64] that is not an integer is an argument. *)
From S2P Require Import Prelude Str F64 Chat Provider Metrics Snapshot.
From Stdlib Require Import Ascii SpecFloat.

Open Scope string_scope.
Open Scope list_scope.
Open Scope Z_scope.
#[local] Arguments String.append : simpl nomatch.

Module Prometheus.

Definition backslash : ascii := "\"%char.
Definition quote : ascii := "034"%char.
Definition nl : ascii := "010"%char.

Definition escape_label_value (value : string) : string :=
  Str.replace quote (String backslash (String quote ""))
    (Str.replace nl (String backslash "n")
       (Str.replace backslash (String backslash (String backslash "")) value)).

(** The integer a float is, if it is one: [value.fract() == 0.0]. *)
Definition integral (x : F64.t) : option Z :=
  match x with
  | S754_zero _ => Some 0
  | S754_finite _ m e =>
      if 0 <=? e then Some (Zpos m * 2 ^ e)
      else if Zpos m mod 2 ^ (- e) =? 0 then Some (Zpos m / 2 ^ (- e)) else None
  | S754_infinity _ | S754_nan => None
  end.

Section Render.
(** [f64::to_string] of a value that is not an integer. *)
Variable display : F64.t -> string.

Definition format_prometheus_number (value : F64.t) : string :=
  match integral value with
  | Some n => ((if F64.sign_bit value then "-" else "") ++ Str.decimal n)%string
  | None => display value
  end.

Definition write_labeled_header (name help kind output : string) : string :=
  (output ++ "# HELP " ++ name ++ " " ++ help ++ String nl "" ++ "# TYPE " ++ name ++ " " ++ kind ++ String nl "")%string.

Definition write_metric (name help kind : string) (value : F64.t) (output : string) : string :=
  (write_labeled_header name help kind output ++ name ++ " " ++ format_prometheus_number value ++ String nl "")%string.

(** One label; a comma goes before every label but the first. *)
Definition write_label (label : string * string) : string :=
  (label.1 ++ "=" ++ String quote (escape_label_value label.2 ++ String quote ""))%string.
Definition write_labels (labels : list (string * string)) : string :=
  String.concat "," (map write_label labels).

Definition write_labeled_metric (name : string) (labels : list (string * string)) (value : F64.t) (output : string) :
  string :=
  (output ++ name ++ "{" ++ write_labels labels ++ "} " ++ format_prometheus_number value ++ String nl "")%string.

(** The loops over the snapshot's maps, in key order. *)
Definition write_counts (name label : string) (m : gmap string Z) (output : string) : string :=
  foldl (fun o kv => write_labeled_metric name [(label, kv.1)] (F64.of_Z kv.2) o) output (btree_items m).
Definition write_values (name label : string) (m : gmap string F64.t) (output : string) : string :=
  foldl (fun o kv => write_labeled_metric name [(label, kv.1)] kv.2 o) output (btree_items m).
Definition write_nested (name label label' : string) (m : gmap string (gmap string Z)) (output : string) : string :=
  foldl (fun o kv => foldl (fun o kv' =>
    write_labeled_metric name [(label, kv.1); (label', kv'.1)] (F64.of_Z kv'.2) o) o (btree_items kv.2))
    output (btree_items m).

(** The gateway wide values. *)
Definition render_gateway (s : Metrics.MetricsSnapshot) (o : string) : string :=
  let o := write_metric "rustygate_requests_total"
    "Total chat requests handled by the gateway." "counter" (F64.of_Z (Metrics.snap_total_requests s)) o in
  let o := write_metric "rustygate_requests_success_total"
    "Total successful chat requests handled by the gateway." "counter" (F64.of_Z (Metrics.snap_successful_requests s)) o in
  let o := write_metric "rustygate_requests_failed_total"
    "Total failed chat requests handled by the gateway." "counter" (F64.of_Z (Metrics.snap_failed_requests s)) o in
  let o := write_metric "rustygate_in_flight_requests"
    "Current in-flight chat requests." "gauge" (F64.of_Z (Metrics.snap_in_flight_requests s)) o in
  let o := write_metric "rustygate_request_error_rate"
    "Ratio of failed chat requests to total chat requests." "gauge" (Metrics.snap_error_rate s) o in
  let o := write_metric "rustygate_request_latency_ms_avg"
    "Average chat request latency in milliseconds." "gauge" (Metrics.snap_avg_latency_ms s) o in
  let o := write_metric "rustygate_request_latency_ms_p95"
    "P95 chat request latency in milliseconds." "gauge" (Metrics.snap_p95_latency_ms s) o in
  let o := write_metric "rustygate_provider_attempts_total"
    "Total provider attempts made by the gateway." "counter" (F64.of_Z (Metrics.snap_total_provider_attempts s)) o in
  let o := write_metric "rustygate_fallback_attempts_total"
    "Total fallback provider attempts made by the gateway." "counter" (F64.of_Z (Metrics.snap_fallback_attempts s)) o in
  let o := write_metric "rustygate_estimated_tokens_total"
    "Total estimated tokens processed by the gateway." "counter" (F64.of_Z (Metrics.snap_estimated_total_tokens s)) o in
  let o := write_metric "rustygate_estimated_cost_usd_total"
    "Total estimated token cost in USD." "counter" (Metrics.snap_estimated_total_cost_usd s) o in
  let o := write_metric "rustygate_cache_hit_ratio"
    "Ratio of exact or semantic cache hits to cache hits plus misses." "gauge" (Metrics.snap_cache_hit_ratio s) o in
  let o := write_metric "rustygate_stream_duration_ms_p95"
    "P95 completed or terminated stream duration in milliseconds." "gauge" (Metrics.snap_p95_stream_duration_ms s) o in
  o.

(** The families by outcome, error category and rejection reason. *)
Definition render_outcomes (s : Metrics.MetricsSnapshot) (o : string) : string :=
  let o := write_labeled_header "rustygate_cache_lookups_total"
    "Response cache lookups by outcome." "counter" o in
  let o := write_counts "rustygate_cache_lookups_total" "outcome" (Metrics.snap_cache_lookups_by_outcome s) o in
  let o := write_labeled_header "rustygate_stream_outcomes_total"
    "Streaming requests by terminal outcome." "counter" o in
  let o := write_counts "rustygate_stream_outcomes_total" "outcome" (Metrics.snap_stream_outcomes_by_outcome s) o in
  let o := write_labeled_header "rustygate_request_errors_total"
    "Chat request errors by category." "counter" o in
  let o := write_counts "rustygate_request_errors_total" "category" (Metrics.snap_request_errors_by_category s) o in
  let o := write_labeled_header "rustygate_admission_rejections_total"
    "Admission-control rejections by reason." "counter" o in
  let o := write_counts "rustygate_admission_rejections_total" "reason" (Metrics.snap_admission_rejections_by_reason s) o in
  o.

(** The families by provider. *)
Definition render_providers (s : Metrics.MetricsSnapshot) (o : string) : string :=
  let o := write_labeled_header "rustygate_provider_requests_total"
    "Provider attempts by provider." "counter" o in
  let o := write_counts "rustygate_provider_requests_total" "provider" (Metrics.snap_requests_by_provider s) o in
  let o := write_labeled_header "rustygate_provider_successes_total"
    "Provider successful attempts by provider." "counter" o in
  let o := write_counts "rustygate_provider_successes_total" "provider" (Metrics.snap_successes_by_provider s) o in
  let o := write_labeled_header "rustygate_provider_errors_total"
    "Provider failed attempts by provider and category." "counter" o in
  let o := write_nested "rustygate_provider_errors_total" "provider" "category"
    (Metrics.snap_provider_errors_by_provider_and_category s) o in
  let o := write_labeled_header "rustygate_provider_latency_ms_avg"
    "Average provider attempt latency in milliseconds." "gauge" o in
  let o := write_values "rustygate_provider_latency_ms_avg" "provider" (Metrics.snap_avg_latency_ms_by_provider s) o in
  let o := write_labeled_header "rustygate_provider_latency_ms_p95"
    "P95 provider attempt latency in milliseconds." "gauge" o in
  let o := write_values "rustygate_provider_latency_ms_p95" "provider" (Metrics.snap_p95_latency_ms_by_provider s) o in
  let o := write_labeled_header "rustygate_provider_in_flight_requests"
    "Current in-flight provider attempts by provider." "gauge" o in
  let o := write_counts "rustygate_provider_in_flight_requests" "provider" (Metrics.snap_in_flight_requests_by_provider s) o in
  let o := write_labeled_header "rustygate_provider_ttft_ms_p50"
    "P50 provider time to first token for streaming attempts in milliseconds." "gauge" o in
  let o := write_values "rustygate_provider_ttft_ms_p50" "provider" (Metrics.snap_p50_ttft_ms_by_provider s) o in
  let o := write_labeled_header "rustygate_provider_ttft_ms_p95"
    "P95 provider time to first token for streaming attempts in milliseconds." "gauge" o in
  let o := write_values "rustygate_provider_ttft_ms_p95" "provider" (Metrics.snap_p95_ttft_ms_by_provider s) o in
  let o := write_labeled_header "rustygate_provider_queue_pressure"
    "Approximate provider queue pressure based on active requests and estimated tokens." "gauge" o in
  let o := write_values "rustygate_provider_queue_pressure" "provider" (Metrics.snap_queue_pressure_by_provider s) o in
  o.

(** The families of routing decisions and prefix fingerprints. *)
Definition render_routing (s : Metrics.MetricsSnapshot) (o : string) : string :=
  let o := write_labeled_header "rustygate_routing_decisions_total"
    "Routing decisions by policy and reason." "counter" o in
  let o := write_nested "rustygate_routing_decisions_total" "policy" "reason"
    (Metrics.snap_routing_decisions_by_policy_and_reason s) o in
  let o := write_labeled_header "rustygate_prefix_fingerprints_total"
    "Prefix fingerprint decisions by aggregate outcome." "counter" o in
  let o := write_counts "rustygate_prefix_fingerprints_total" "outcome" (Metrics.snap_prefix_fingerprints_by_outcome s) o in
  o.

Definition render_prometheus (s : Metrics.MetricsSnapshot) : string :=
  let o := "" in
  let o := render_gateway s o in
  let o := render_outcomes s o in
  let o := render_providers s o in
  let o := render_routing s o in
  o.

End Render.

(* ------------------------------------------------------------------ *)
(** ** Reading the format *)

Record Sample := { sample_name : string; sample_labels : list (string * string); sample_value : string }.

(** The characters up to one that [stop] accepts, that one, and the rest. *)
Fixpoint read_until (stop : ascii -> bool) (s : string) : option (string * ascii * string) :=
  match s with
  | EmptyString => None
  | String c s' =>
      if stop c then Some ("", c, s')
      else match read_until stop s' with Some (a, d, rest) => Some (String c a, d, rest) | None => None end
  end.

(** A label value up to its closing quote, unescaped. *)
Fixpoint read_quoted (s : string) : option (string * string) :=
  match s with
  | EmptyString => None
  | String c s' =>
      if Ascii.eqb c quote then Some ("", s')
      else if Ascii.eqb c backslash
      then
        match s' with
        | EmptyString => None
        | String d s'' =>
            let c := if Ascii.eqb d "n" then Some nl
                     else if Ascii.eqb d backslash || Ascii.eqb d quote then Some d else None in
            match c, read_quoted s'' with
            | Some c, Some (v, rest) => Some (String c v, rest)
            | _, _ => None
            end
        end
      else match read_quoted s' with Some (v, rest) => Some (String c v, rest) | None => None end
  end.

(** The labels after the opening brace, and what follows the closing one. *)
Fixpoint read_labels (fuel : nat) (s : string) : option (list (string * string) * string) :=
  match fuel, read_until (Ascii.eqb "=") s with
  | S fuel, Some (key, _, String q s) =>
      if negb (Ascii.eqb q quote) then None
      else
        match read_quoted s with
        | Some (v, String c s) =>
            if Ascii.eqb c ","
            then match read_labels fuel s with Some (ls, rest) => Some ((key, v) :: ls, rest) | None => None end
            else if Ascii.eqb c "}" then Some ([(key, v)], s) else None
        | _ => None
        end
  | _, _ => None
  end.

Definition read_sample (s : string) : option Sample :=
  match read_until (fun c => Ascii.eqb c " " || Ascii.eqb c "{") s with
  | Some (name, stop, rest) =>
      if Ascii.eqb stop " " then Some {| sample_name := name; sample_labels := []; sample_value := rest |}
      else
        match read_labels (String.length rest) rest with
        | Some (labels, String sp value) =>
            if Ascii.eqb sp " " then Some {| sample_name := name; sample_labels := labels; sample_value := value |} else None
        | _ => None
        end
  | None => None
  end.

(** A line: nothing for a comment, or a sample. *)
Definition read_line (s : string) : option (option Sample) :=
  match s with
  | EmptyString => None
  | String c _ => if Ascii.eqb c "#" then Some None else Some <$> read_sample s
  end.

(** The lines of a page whose last line ends with a line feed. *)
Fixpoint read_lines (cur s : string) : list string :=
  match s with
  | EmptyString => []
  | String c s => if Ascii.eqb c nl then cur :: read_lines "" s else read_lines (Str.snoc cur c) s
  end.

Definition scrape (page : string) : option (list Sample) :=
  let lines := map read_line (read_lines "" page) in
  if forallb is_some lines then Some (omap (default None) lines) else None.

(* ------------------------------------------------------------------ *)
(** ** What a page says *)

Section Page.
Variable display : F64.t -> string.
Notation number := (format_prometheus_number display).

Inductive Line := Comment (text : string) | Series (sample : Sample).

Definition header (name help kind : string) : list Line :=
  [Comment ("# HELP " ++ name ++ " " ++ help); Comment ("# TYPE " ++ name ++ " " ++ kind)]%string.

Definition scalar (name help kind : string) (value : F64.t) : list Line :=
  header name help kind ++ [Series {| sample_name := name; sample_labels := []; sample_value := number value |}].

Definition family (name help kind : string) (samples : list Sample) : list Line :=
  header name help kind ++ map Series samples.

Definition count_samples (name label : string) (m : gmap string Z) : list Sample :=
  map (fun kv => {| sample_name := name; sample_labels := [(label, kv.1)]; sample_value := number (F64.of_Z kv.2) |})
    (btree_items m).
Definition value_samples (name label : string) (m : gmap string F64.t) : list Sample :=
  map (fun kv => {| sample_name := name; sample_labels := [(label, kv.1)]; sample_value := number kv.2 |}) (btree_items m).
Definition nested_samples (name label label' : string) (m : gmap string (gmap string Z)) : list Sample :=
  concat (map (fun kv => map (fun kv' =>
    {| sample_name := name; sample_labels := [(label, kv.1); (label', kv'.1)]; sample_value := number (F64.of_Z kv'.2) |})
    (btree_items kv.2)) (btree_items m)).

Definition chunks (s : Metrics.MetricsSnapshot) : list (list Line) := [
  scalar "rustygate_requests_total" "Total chat requests handled by the gateway." "counter" (F64.of_Z (Metrics.snap_total_requests s));
  scalar "rustygate_requests_success_total" "Total successful chat requests handled by the gateway." "counter" (F64.of_Z (Metrics.snap_successful_requests s));
  scalar "rustygate_requests_failed_total" "Total failed chat requests handled by the gateway." "counter" (F64.of_Z (Metrics.snap_failed_requests s));
  scalar "rustygate_in_flight_requests" "Current in-flight chat requests." "gauge" (F64.of_Z (Metrics.snap_in_flight_requests s));
  scalar "rustygate_request_error_rate" "Ratio of failed chat requests to total chat requests." "gauge" (Metrics.snap_error_rate s);
  scalar "rustygate_request_latency_ms_avg" "Average chat request latency in milliseconds." "gauge" (Metrics.snap_avg_latency_ms s);
  scalar "rustygate_request_latency_ms_p95" "P95 chat request latency in milliseconds." "gauge" (Metrics.snap_p95_latency_ms s);
  scalar "rustygate_provider_attempts_total" "Total provider attempts made by the gateway." "counter" (F64.of_Z (Metrics.snap_total_provider_attempts s));
  scalar "rustygate_fallback_attempts_total" "Total fallback provider attempts made by the gateway." "counter" (F64.of_Z (Metrics.snap_fallback_attempts s));
  scalar "rustygate_estimated_tokens_total" "Total estimated tokens processed by the gateway." "counter" (F64.of_Z (Metrics.snap_estimated_total_tokens s));
  scalar "rustygate_estimated_cost_usd_total" "Total estimated token cost in USD." "counter" (Metrics.snap_estimated_total_cost_usd s);
  scalar "rustygate_cache_hit_ratio" "Ratio of exact or semantic cache hits to cache hits plus misses." "gauge" (Metrics.snap_cache_hit_ratio s);
  scalar "rustygate_stream_duration_ms_p95" "P95 completed or terminated stream duration in milliseconds." "gauge" (Metrics.snap_p95_stream_duration_ms s);
  family "rustygate_cache_lookups_total" "Response cache lookups by outcome." "counter" (count_samples "rustygate_cache_lookups_total" "outcome" (Metrics.snap_cache_lookups_by_outcome s));
  family "rustygate_stream_outcomes_total" "Streaming requests by terminal outcome." "counter" (count_samples "rustygate_stream_outcomes_total" "outcome" (Metrics.snap_stream_outcomes_by_outcome s));
  family "rustygate_request_errors_total" "Chat request errors by category." "counter" (count_samples "rustygate_request_errors_total" "category" (Metrics.snap_request_errors_by_category s));
  family "rustygate_admission_rejections_total" "Admission-control rejections by reason." "counter" (count_samples "rustygate_admission_rejections_total" "reason" (Metrics.snap_admission_rejections_by_reason s));
  family "rustygate_provider_requests_total" "Provider attempts by provider." "counter" (count_samples "rustygate_provider_requests_total" "provider" (Metrics.snap_requests_by_provider s));
  family "rustygate_provider_successes_total" "Provider successful attempts by provider." "counter" (count_samples "rustygate_provider_successes_total" "provider" (Metrics.snap_successes_by_provider s));
  family "rustygate_provider_errors_total" "Provider failed attempts by provider and category." "counter"
    (nested_samples "rustygate_provider_errors_total" "provider" "category" (Metrics.snap_provider_errors_by_provider_and_category s));
  family "rustygate_provider_latency_ms_avg" "Average provider attempt latency in milliseconds." "gauge" (value_samples "rustygate_provider_latency_ms_avg" "provider" (Metrics.snap_avg_latency_ms_by_provider s));
  family "rustygate_provider_latency_ms_p95" "P95 provider attempt latency in milliseconds." "gauge" (value_samples "rustygate_provider_latency_ms_p95" "provider" (Metrics.snap_p95_latency_ms_by_provider s));
  family "rustygate_provider_in_flight_requests" "Current in-flight provider attempts by provider." "gauge" (count_samples "rustygate_provider_in_flight_requests" "provider" (Metrics.snap_in_flight_requests_by_provider s));
  family "rustygate_provider_ttft_ms_p50" "P50 provider time to first token for streaming attempts in milliseconds." "gauge" (value_samples "rustygate_provider_ttft_ms_p50" "provider" (Metrics.snap_p50_ttft_ms_by_provider s));
  family "rustygate_provider_ttft_ms_p95" "P95 provider time to first token for streaming attempts in milliseconds." "gauge" (value_samples "rustygate_provider_ttft_ms_p95" "provider" (Metrics.snap_p95_ttft_ms_by_provider s));
  family "rustygate_provider_queue_pressure" "Approximate provider queue pressure based on active requests and estimated tokens." "gauge" (value_samples "rustygate_provider_queue_pressure" "provider" (Metrics.snap_queue_pressure_by_provider s));
  family "rustygate_routing_decisions_total" "Routing decisions by policy and reason." "counter"
    (nested_samples "rustygate_routing_decisions_total" "policy" "reason" (Metrics.snap_routing_decisions_by_policy_and_reason s));
  family "rustygate_prefix_fingerprints_total" "Prefix fingerprint decisions by aggregate outcome." "counter" (count_samples "rustygate_prefix_fingerprints_total" "outcome" (Metrics.snap_prefix_fingerprints_by_outcome s))].

Definition page (s : Metrics.MetricsSnapshot) : list Line := concat (chunks s).

Definition samples (ls : list Line) : list Sample := omap (fun l => match l with Series x => Some x | Comment _ => None end) ls.

End Page.

(* ------------------------------------------------------------------ *)
(** ** The page is rendered *)

Definition show_line (l : Line) : string :=
  match l with
  | Comment t => t
  | Series x =>
      (sample_name x ++
       match sample_labels x with [] => " " | ls => "{" ++ write_labels ls ++ "} " end ++ sample_value x)%string
  end.

Fixpoint text (ls : list Line) : string :=
  match ls with [] => "" | l :: ls => (show_line l ++ String nl (text ls))%string end.

Lemma text_app a b : text (a ++ b) = (text a ++ text b)%string.
Proof. induction a as [|l a IH]; cbn [text app]; [done|]. rewrite IH, Str.app_assoc. done. Qed.

Lemma text_concat a ls : text (concat (a :: ls)) = (text a ++ text (concat ls))%string.
Proof. apply text_app. Qed.

(** Appending written text. *)
Definition appends (f : string -> string) (ls : list Line) : Prop := forall o, f o = (o ++ text ls)%string.

Section Written.
Variable display : F64.t -> string.

Lemma header_written name help kind : appends (write_labeled_header name help kind) (header name help kind).
Proof.
  intros o. unfold write_labeled_header, header. cbn [text show_line]. rewrite ?Str.app_assoc.
  cbn [String.append]. rewrite ?Str.app_assoc. done.
Qed.

Lemma scalar_written name help kind v : appends (write_metric display name help kind v) (scalar display name help kind v).
Proof.
  intros o. unfold write_metric, scalar. rewrite header_written, text_app, Str.app_assoc. f_equal. f_equal.
  cbn [text show_line sample_name sample_labels sample_value]. by rewrite !Str.app_assoc.
Qed.

Lemma labeled_written name l ls v :
  appends (write_labeled_metric display name (l :: ls) v)
    [Series {| sample_name := name; sample_labels := l :: ls; sample_value := format_prometheus_number display v |}].
Proof.
  intros o. unfold write_labeled_metric. cbn [text show_line sample_name sample_labels sample_value].
  rewrite !Str.app_assoc. done.
Qed.

Lemma foldl_written {A} (f : A -> string -> string) (ls : A -> list Line) l :
  (forall x, appends (f x) (ls x)) -> appends (fun o => foldl (fun o x => f x o) o l) (concat (map ls l)).
Proof.
  intros Hf o. revert o. induction l as [|x l IH]; intros o; cbn [foldl map concat text]; [by rewrite Str.app_empty_r|].
  rewrite IH, Hf, text_app. by rewrite Str.app_assoc.
Qed.

Lemma concat_singles {A} (f : A -> Sample) l : concat (map (fun x => [Series (f x)]) l) = map Series (map f l).
Proof. induction l as [|x l IH]; [done|]. cbn. by rewrite IH. Qed.

Lemma counts_written name label m : appends (write_counts display name label m) (map Series (count_samples display name label m)).
Proof.
  intros o. unfold write_counts, count_samples. rewrite <-concat_singles.
  apply (foldl_written (fun kv => write_labeled_metric display name [(label, kv.1)] (F64.of_Z kv.2))). intros kv.
  apply labeled_written.
Qed.

Lemma values_written name label m : appends (write_values display name label m) (map Series (value_samples display name label m)).
Proof.
  intros o. unfold write_values, value_samples. rewrite <-concat_singles.
  apply (foldl_written (fun kv => write_labeled_metric display name [(label, kv.1)] kv.2)). intros kv. apply labeled_written.
Qed.

Lemma map_concat {A B} (f : A -> B) ls : map f (concat ls) = concat (map (map f) ls).
Proof. induction ls as [|l ls IH]; [done|]. cbn. by rewrite map_app, IH. Qed.

Lemma nested_written name label label' m :
  appends (write_nested display name label label' m) (map Series (nested_samples display name label label' m)).
Proof.
  intros o. unfold write_nested, nested_samples. rewrite map_concat, map_map.
  apply (foldl_written (fun kv o => foldl (fun o kv' =>
    write_labeled_metric display name [(label, kv.1); (label', kv'.1)] (F64.of_Z kv'.2) o) o (btree_items kv.2))).
  intros kv o'. rewrite <-concat_singles.
  apply (foldl_written (fun kv' => write_labeled_metric display name [(label, kv.1); (label', kv'.1)] (F64.of_Z kv'.2))).
  intros kv'. apply labeled_written.
Qed.

(** The last of a sequence of writes. *)
Lemma write_last f l o done : appends f l -> o = text done -> f o = text (done ++ l).
Proof. intros Hf ->. by rewrite Hf, text_app. Qed.

Ltac written :=
  first [apply scalar_written|apply header_written|apply counts_written|apply values_written|apply nested_written].

Lemma render_page s : render_prometheus display s = text (page display s).
Proof.
  assert (exists ls, render_prometheus display s = text ls /\ ls = page display s) as (ls & -> & ->); [|done].
  eexists. split.
  - unfold render_prometheus, render_routing, render_providers, render_outcomes, render_gateway. repeat (eapply write_last; [written|]). exact (eq_refl : "" = text []).
  - unfold page, chunks, family. cbn [concat app].
    repeat match goal with
    | |- context [scalar display ?n ?h ?k ?v] => generalize (scalar display n h k v); intro
    | |- context [header ?n ?h ?k] => generalize (header n h k); intro
    | |- context [map Series ?l] => generalize (map Series l); intro
    end.
    rewrite <-!app_assoc, app_nil_r. done.
Qed.

End Written.

(* ------------------------------------------------------------------ *)
(** ** A rendered page is read back *)

(** Strings none of whose characters [bad] accepts. *)
Fixpoint avoids (bad : ascii -> bool) (s : string) : bool :=
  match s with EmptyString => true | String c s => negb (bad c) && avoids bad s end.

Definition no_nl : string -> bool := avoids (Ascii.eqb nl).

Lemma avoids_app bad a b : avoids bad (a ++ b) = avoids bad a && avoids bad b.
Proof. induction a as [|c a IH]; cbn; [done|]. by rewrite IH, andb_assoc. Qed.

Lemma read_until_app stop a c rest : avoids stop a = true -> stop c = true ->
  read_until stop (a ++ String c rest) = Some (a, c, rest).
Proof.
  intros Ha Hc. induction a as [|d a IH]; cbn [String.append read_until avoids] in *; [by rewrite Hc|].
  apply andb_true_iff in Ha as [Hd%negb_true_iff Ha]. by rewrite Hd, IH.
Qed.

Lemma read_lines_cons cur l rest : no_nl l = true ->
  read_lines cur (l ++ String nl rest) = (cur ++ l)%string :: read_lines "" rest.
Proof.
  revert cur. induction l as [|c l IH]; intros cur Hl; cbn [String.append read_lines] in *.
  - by rewrite Str.app_empty_r.
  - apply andb_true_iff in Hl as [Hc%negb_true_iff Hl]. rewrite Ascii.eqb_sym, Hc, IH by done.
    by rewrite Str.snoc_app.
Qed.

(** *** Escaping *)

(** The three replacements, character by character. *)
Definition escaped (c : ascii) : string :=
  if Ascii.eqb c backslash then String backslash (String backslash "")
  else if Ascii.eqb c nl then String backslash "n"
  else if Ascii.eqb c quote then String backslash (String quote "")
  else String c "".

Lemma replace_app c r a b : Str.replace c r (a ++ b) = (Str.replace c r a ++ Str.replace c r b)%string.
Proof. induction a as [|d a IH]; cbn; [done|]. by rewrite IH, Str.app_assoc. Qed.

Lemma escape_cons c v : escape_label_value (String c v) = (escaped c ++ escape_label_value v)%string.
Proof.
  unfold escape_label_value. cbn [Str.replace]. rewrite !replace_app. f_equal. unfold escaped.
  destruct (Ascii.eqb_spec c backslash) as [->|Hb]; [done|]. cbn [Str.replace].
  destruct (Ascii.eqb_spec c nl) as [->|Hn]; [done|]. cbn [Str.replace String.append].
  destruct (Ascii.eqb_spec c quote) as [->|Hq]; done.
Qed.

Lemma read_escaped v rest : read_quoted (escape_label_value v ++ String quote rest) = Some (v, rest).
Proof.
  induction v as [|c v IH]; [done|]. rewrite escape_cons, Str.app_assoc. unfold escaped.
  destruct (Ascii.eqb_spec c backslash) as [->|Hb]; [cbn [String.append read_quoted]; by rewrite IH|].
  destruct (Ascii.eqb_spec c nl) as [->|Hn]; [cbn [String.append read_quoted]; by rewrite IH|].
  destruct (Ascii.eqb_spec c quote) as [->|Hq]; [cbn [String.append read_quoted]; by rewrite IH|].
  cbn [String.append read_quoted]. rewrite (proj2 (Ascii.eqb_neq c quote) Hq), (proj2 (Ascii.eqb_neq c backslash) Hb).
  by rewrite IH.
Qed.

Lemma escape_no_nl v : no_nl (escape_label_value v) = true.
Proof.
  induction v as [|c v IH]; [done|]. rewrite escape_cons. unfold no_nl in *. rewrite avoids_app, IH, andb_true_r. unfold escaped.
  destruct (Ascii.eqb c backslash); [done|]. destruct (Ascii.eqb c nl) eqn:E; [done|].
  destruct (Ascii.eqb c quote); [done|]. cbn [avoids]. by rewrite Ascii.eqb_sym, E.
Qed.

(** *** Lines *)

Definition key_ok (k : string) : bool := no_nl k && avoids (Ascii.eqb "=") k.
Definition name_ok (n : string) : bool :=
  no_nl n && avoids (fun c => Ascii.eqb c " " || Ascii.eqb c "{") n &&
  match n with String c _ => negb (Ascii.eqb c "#") | EmptyString => false end.

Definition line_ok (l : Line) : bool :=
  match l with
  | Comment t => no_nl t && match t with String c _ => Ascii.eqb c "#" | EmptyString => false end
  | Series x => name_ok (sample_name x) && forallb (fun kv => key_ok kv.1) (sample_labels x) && no_nl (sample_value x)
  end.

Lemma write_labels_cons k v ls : write_labels ((k, v) :: ls) =
  (k ++ "=" ++ String quote (escape_label_value v ++ String quote
     match ls with [] => "" | _ => "," ++ write_labels ls end))%string.
Proof.
  destruct ls as [|l ls]; [done|].
  change (write_labels ((k, v) :: l :: ls)) with (write_label (k, v) ++ "," ++ write_labels (l :: ls))%string.
  generalize (write_labels (l :: ls)) as rest. intros rest. unfold write_label. cbn [fst snd].
  rewrite !Str.app_assoc. cbn [String.append]. by rewrite Str.app_assoc.
Qed.

Lemma read_labels_written ls fuel rest : ls <> [] -> forallb (fun kv => key_ok kv.1) ls = true ->
  (length ls <= fuel)%nat -> read_labels fuel (write_labels ls ++ String "}" rest) = Some (ls, rest).
Proof.
  revert fuel. induction ls as [|[k v] ls IH]; [done|]. intros fuel _ Hok Hf. cbn [forallb fst length] in Hok, Hf.
  apply andb_true_iff in Hok as [[_ Hk]%andb_true_iff Hls]. destruct fuel as [|fuel]; [lia|]. cbn [read_labels].
  rewrite write_labels_cons, !Str.app_assoc. cbn [String.append]. rewrite read_until_app by done.
  cbn [negb]. rewrite Str.app_assoc. cbn [String.append]. rewrite read_escaped. destruct ls as [|l ls]; [done|].
  cbn [String.append]. cbn [Ascii.eqb Bool.eqb]. rewrite IH; [done|done|done|cbn [length] in *; lia].
Qed.

Lemma labels_length ls : forallb (fun kv => key_ok kv.1) ls = true -> (length ls <= String.length (write_labels ls))%nat.
Proof.
  induction ls as [|[k v] ls IH]; [cbn; lia|]. intros [_ H]%andb_true_iff. rewrite write_labels_cons, !Str.length_app.
  cbn [String.length]. rewrite Str.length_app. cbn [String.length length]. specialize (IH H). destruct ls as [|l ls]; [cbn; lia|].
  rewrite Str.length_app. cbn [length] in *. lia.
Qed.

Lemma labels_no_nl ls : forallb (fun kv => key_ok kv.1) ls = true -> no_nl (write_labels ls) = true.
Proof.
  induction ls as [|[k v] ls IH]; [done|]. intros [[Hk _]%andb_true_iff H]%andb_true_iff. rewrite write_labels_cons.
  pose proof (escape_no_nl v) as Hv. unfold no_nl in *. rewrite !avoids_app. cbn [fst] in *. rewrite Hk. cbn [avoids].
  rewrite !avoids_app, Hv. cbn. destruct ls; [done|]. cbn. by apply IH.
Qed.

Lemma read_show_line l : line_ok l = true ->
  read_line (show_line l) = Some (match l with Comment _ => None | Series x => Some x end).
Proof.
  destruct l as [t|[name labels value]]; cbn [line_ok show_line sample_name sample_labels sample_value].
  - intros [_ H]%andb_true_iff. destruct t as [|c t]; [done|]. cbn. by rewrite H.
  - intros [[[[_ Hn]%andb_true_iff Hh]%andb_true_iff Hl]%andb_true_iff _]%andb_true_iff.
    assert (forall rest, read_line (name ++ rest) = Some <$> read_sample (name ++ rest)) as Hr.
    { intros rest. destruct name as [|c name]; [done|]. cbn [String.append read_line]. by rewrite (proj1 (negb_true_iff _) Hh). }
    rewrite Hr. clear Hr. unfold read_sample. destruct labels as [|l ls].
    + cbn [String.append]. by rewrite read_until_app.
    + rewrite !Str.app_assoc. cbn [String.append]. rewrite read_until_app by done. cbn [Ascii.eqb Bool.eqb].
      rewrite read_labels_written; [done|done|done|]. rewrite Str.length_app. pose proof (labels_length _ Hl). lia.
Qed.

Lemma show_no_nl l : line_ok l = true -> no_nl (show_line l) = true.
Proof.
  destruct l as [t|[name labels value]]; cbn [line_ok show_line sample_name sample_labels sample_value].
  - by intros [H _]%andb_true_iff.
  - intros [[[[Hn _]%andb_true_iff _]%andb_true_iff Hl]%andb_true_iff Hv]%andb_true_iff.
    pose proof (labels_no_nl _ Hl) as Hw. unfold no_nl in *. rewrite !avoids_app, Hn, Hv.
    destruct labels as [|l ls]; [done|]. by rewrite !avoids_app, Hw.
Qed.

Lemma scrape_text ls : forallb line_ok ls = true -> scrape (text ls) = Some (samples ls).
Proof.
  intros Hok. unfold scrape.
  assert (map read_line (read_lines "" (text ls)) =
    map (fun l => Some match l with Comment _ => None | Series x => Some x end) ls) as ->.
  { induction ls as [|l ls IH]; [done|]. cbn [forallb] in Hok. apply andb_true_iff in Hok as [Hl Hls]. cbn [text].
    rewrite read_lines_cons by (by apply show_no_nl). cbn [map String.append]. by rewrite read_show_line, IH. }
  assert (forallb is_some (map (fun l => Some match l with Comment _ => None | Series x => Some x end) ls) = true) as ->
    by (clear; by induction ls).
  f_equal. clear. induction ls as [|[t|x] ls IH]; [done|exact IH|]. cbn in *. by rewrite IH.
Qed.

(** *** Every page is well-formed *)

Lemma decimal_no_nl fuel n acc : 0 <= n -> no_nl acc = true -> no_nl (Str.decimal_from fuel n acc) = true.
Proof.
  revert n acc. induction fuel as [|fuel IH]; intros n acc Hn Hacc; [done|]. cbn [Str.decimal_from].
  assert (no_nl (String (Str.digit (n mod 10)) acc) = true) as H.
  { unfold no_nl in *. cbn [avoids]. rewrite Hacc, andb_true_r. pose proof (Z.mod_pos_bound n 10 ltac:(lia)).
    assert (n mod 10 ∈ seqZ 0 10) as Hd by (apply elem_of_seqZ; lia). revert Hd. generalize (n mod 10). intros d Hd.
    assert (Forall (fun d => negb (Ascii.eqb nl (Str.digit d)) = true) (seqZ 0 10)) as Hall by (by vm_compute; repeat constructor).
    rewrite Forall_forall in Hall. by apply Hall. }
  destruct (n / 10 =? 0); [done|]. apply IH; [by apply Z.div_pos|done].
Qed.

Section Scraped.
Variable display : F64.t -> string.
Hypothesis display_no_nl : forall x, no_nl (display x) = true.

Lemma integral_nonneg x n : integral x = Some n -> 0 <= n.
Proof.
  destruct x as [| | |s m e]; cbn; [by intros [= <-]|done|done|]. destruct (0 <=? e) eqn:E; zbool.
  - intros [= <-]. assert (0 < 2 ^ e) by (by apply Z.pow_pos_nonneg). lia.
  - destruct (_ =? 0); [|done]. intros [= <-]. apply Z.div_pos; [lia|]. apply Z.pow_pos_nonneg; lia.
Qed.

Lemma number_no_nl x : no_nl (format_prometheus_number display x) = true.
Proof.
  unfold format_prometheus_number. destruct (integral x) as [n|] eqn:E; [|apply display_no_nl].
  unfold no_nl. rewrite avoids_app. apply integral_nonneg in E.
  fold (no_nl (Str.decimal n)). unfold Str.decimal. rewrite decimal_no_nl by done. by destruct (F64.sign_bit x).
Qed.

Lemma forallb_concat {A} (f : A -> bool) ls : forallb f (concat ls) = forallb (forallb f) ls.
Proof. induction ls as [|l ls IH]; [done|]. cbn. by rewrite forallb_app, IH. Qed.

Lemma scalar_ok name help kind v : forallb line_ok (header name help kind) && name_ok name = true ->
  forallb line_ok (scalar display name help kind v) = true.
Proof.
  intros [H1 H2]%andb_true_iff. unfold scalar. rewrite forallb_app, H1. cbn [forallb line_ok sample_name sample_labels sample_value].
  by rewrite H2, number_no_nl.
Qed.

Definition samples_ok (name : string) (keys : list string) (l : list Sample) : Prop :=
  Forall (fun x => sample_name x = name /\ map fst (sample_labels x) = keys /\ no_nl (sample_value x) = true) l.

Lemma family_ok name help kind keys l : samples_ok name keys l ->
  forallb line_ok (header name help kind) && name_ok name && forallb key_ok keys = true ->
  forallb line_ok (family name help kind l) = true.
Proof.
  intros Hl [[H1 H2]%andb_true_iff H3]%andb_true_iff. unfold family. rewrite forallb_app, H1. cbn [andb].
  induction Hl as [|x l (Hx1 & Hx2 & Hx3) Hl IH]; [done|]. cbn [map forallb line_ok]. rewrite Hx1, H2, Hx3, IH.
  rewrite !andb_true_r. cbn [andb]. rewrite <-Hx2 in H3. revert H3. generalize (sample_labels x). clear. intros ls.
  induction ls as [|kv ls IH]; [done|]. cbn. intros [-> H]%andb_true_iff. by apply IH.
Qed.

Lemma count_samples_ok name label m : samples_ok name [label] (count_samples display name label m).
Proof. apply Forall_map, Forall_true. intros kv. split; [done|]. split; [done|]. apply number_no_nl. Qed.
Lemma value_samples_ok name label m : samples_ok name [label] (value_samples display name label m).
Proof. apply Forall_map, Forall_true. intros kv. split; [done|]. split; [done|]. apply number_no_nl. Qed.
Lemma nested_samples_ok name label label' m : samples_ok name [label; label'] (nested_samples display name label label' m).
Proof.
  apply Forall_concat, Forall_map, Forall_true. intros kv. apply Forall_map, Forall_true. intros kv'. split; [done|]. split; [done|].
  apply number_no_nl.
Qed.

Lemma page_ok s : forallb line_ok (page display s) = true.
Proof.
  unfold page, chunks. rewrite forallb_concat. cbn [forallb].
  repeat (rewrite scalar_ok by reflexivity). cbn [andb].
  repeat first
    [ rewrite (family_ok _ _ _ _ _ (count_samples_ok _ _ _)) by reflexivity
    | rewrite (family_ok _ _ _ _ _ (value_samples_ok _ _ _)) by reflexivity
    | rewrite (family_ok _ _ _ _ _ (nested_samples_ok _ _ _ _)) by reflexivity ].
  done.
Qed.

End Scraped.

(* ------------------------------------------------------------------ *)
(** ** No series twice *)

(** What identifies a time series. *)
Definition series (x : Sample) : string * list (string * string) := (sample_name x, sample_labels x).

(** The samples of some lines: all under one name, no two alike. *)
Definition one_metric (name : string) (ls : list Line) : Prop :=
  Forall (fun x => sample_name x = name) (samples ls) /\ NoDup (map series (samples ls)).

Lemma samples_app a b : samples (a ++ b) = samples a ++ samples b.
Proof. apply omap_app. Qed.

Lemma samples_series l : samples (map Series l) = l.
Proof. induction l as [|x l IH]; [done|]. cbn. by f_equal. Qed.

Lemma metrics_distinct names chunks : NoDup names -> Forall2 one_metric names chunks ->
  NoDup (map series (samples (concat chunks))).
Proof.
  intros Hnd Hall. assert (Forall (fun x => sample_name x ∈ names) (samples (concat chunks)) /\
    NoDup (map series (samples (concat chunks)))) as [_ H]; [|done].
  induction Hall as [|n c names chunks [Hn Hc] Hall IH]; [by split; constructor|].
  apply NoDup_cons in Hnd as [Hni Hnd]. destruct (IH Hnd) as [IH1 IH2]. cbn [concat]. rewrite samples_app. split.
  - apply Forall_app. split; eapply Forall_impl; [exact Hn| |exact IH1|]; cbn; [by intros x ->; left|by right].
  - rewrite map_app. apply NoDup_app. split; [done|]. split; [|done].
    intros k (x & -> & Hx)%list_elem_of_fmap (y & E & Hy)%list_elem_of_fmap.
    rewrite Forall_forall in Hn. rewrite Forall_forall in IH1. apply (f_equal fst) in E. cbn in E.
    apply Hni. rewrite <-(Hn x Hx), E. by apply IH1.
Qed.

Definition metric_names : list string := [
  "rustygate_requests_total"; "rustygate_requests_success_total"; "rustygate_requests_failed_total";
  "rustygate_in_flight_requests"; "rustygate_request_error_rate"; "rustygate_request_latency_ms_avg";
  "rustygate_request_latency_ms_p95"; "rustygate_provider_attempts_total"; "rustygate_fallback_attempts_total";
  "rustygate_estimated_tokens_total"; "rustygate_estimated_cost_usd_total"; "rustygate_cache_hit_ratio";
  "rustygate_stream_duration_ms_p95"; "rustygate_cache_lookups_total"; "rustygate_stream_outcomes_total";
  "rustygate_request_errors_total"; "rustygate_admission_rejections_total"; "rustygate_provider_requests_total";
  "rustygate_provider_successes_total"; "rustygate_provider_errors_total"; "rustygate_provider_latency_ms_avg";
  "rustygate_provider_latency_ms_p95"; "rustygate_provider_in_flight_requests"; "rustygate_provider_ttft_ms_p50";
  "rustygate_provider_ttft_ms_p95"; "rustygate_provider_queue_pressure"; "rustygate_routing_decisions_total";
  "rustygate_prefix_fingerprints_total"].

Section Distinct.
Variable display : F64.t -> string.

Lemma scalar_metric name help kind v : one_metric name (scalar display name help kind v).
Proof. split; [by repeat constructor|]. cbn. apply NoDup_singleton. Qed.

Lemma family_metric name help kind l : Forall (fun x => sample_name x = name) l -> NoDup (map series l) ->
  one_metric name (family name help kind l).
Proof. intros H1 H2. unfold one_metric, family. rewrite samples_app, samples_series. by split. Qed.

Lemma counts_metric name help kind label m : one_metric name (family name help kind (count_samples display name label m)).
Proof.
  apply family_metric; [by apply Forall_map, Forall_true|]. unfold count_samples. rewrite map_map.
  apply (NoDup_fmap_1 (fun p : string * list (string * string) => default "" (snd <$> head p.2))). rewrite <-list_fmap_compose.
  apply btree_keys.
Qed.

Lemma values_metric name help kind label m : one_metric name (family name help kind (value_samples display name label m)).
Proof.
  apply family_metric; [by apply Forall_map, Forall_true|]. unfold value_samples. rewrite map_map.
  apply (NoDup_fmap_1 (fun p : string * list (string * string) => default "" (snd <$> head p.2))). rewrite <-list_fmap_compose.
  apply btree_keys.
Qed.

Lemma nested_metric name help kind label label' m :
  one_metric name (family name help kind (nested_samples display name label label' m)).
Proof.
  apply family_metric; [by apply Forall_concat, Forall_map, Forall_true; intros; apply Forall_map, Forall_true|].
  unfold nested_samples. rewrite map_concat, map_map.
  assert (forall items : list (string * gmap string Z), NoDup (map fst items) ->
    Forall (fun p => default "" (snd <$> head p.2) ∈ map fst items) (concat (map (fun kv => map series (map (fun kv' =>
      {| sample_name := name; sample_labels := [(label, kv.1); (label', kv'.1)];
         sample_value := format_prometheus_number display (F64.of_Z kv'.2) |}) (btree_items kv.2))) items)) /\
    NoDup (concat (map (fun kv => map series (map (fun kv' =>
      {| sample_name := name; sample_labels := [(label, kv.1); (label', kv'.1)];
         sample_value := format_prometheus_number display (F64.of_Z kv'.2) |}) (btree_items kv.2))) items))) as H;
    [|apply H, btree_keys].
  induction items as [|kv items IH]; [by split; constructor|]. cbn [map concat]. intros [Hkv Hnd]%NoDup_cons.
  destruct (IH Hnd) as [IH1 IH2]. split.
  - apply Forall_app. split; [|eapply Forall_impl; [exact IH1|]; cbn; by right].
    apply Forall_map, Forall_map, Forall_true. intros kv'. by left.
  - apply NoDup_app. split; [|split; [|done]].
    + rewrite map_map.
      apply (NoDup_fmap_1 (fun p : string * list (string * string) => default "" (snd <$> last p.2))). rewrite <-list_fmap_compose.
      apply btree_keys.
    + intros p (x & -> & (kv' & -> & _)%list_elem_of_fmap)%list_elem_of_fmap Hp. rewrite Forall_forall in IH1.
      apply Hkv. by apply (IH1 _ Hp).
Qed.

Lemma page_distinct s : NoDup (map series (samples (page display s))).
Proof.
  apply (metrics_distinct metric_names); [apply (bool_decide_unpack _); by vm_compute|].
  unfold metric_names, chunks.
  repeat (apply Forall2_cons_2; [first [apply scalar_metric|apply counts_metric|apply values_metric|apply nested_metric]|]).
  apply Forall2_nil_2.
Qed.

End Distinct.

(** C21: a scrape reads back the snapshot.  Whatever the snapshot and whatever
    characters its provider names, categories and reasons contain, the rendered
    page is well-formed, reading it yields exactly the samples of the snapshot
    in order, with every label value unchanged, and no time series occurs twice.
    (Rust prints no line feed inside a number.) *)
Theorem exposition_roundtrip display s : (forall x, no_nl (display x) = true) ->
  scrape (render_prometheus display s) = Some (samples (page display s)) /\
  NoDup (map series (samples (page display s))).
Proof.
  intros Hd. split; [|apply page_distinct]. rewrite render_page. apply scrape_text. by apply page_ok.
Qed.

(** A provider name with a quote, a line feed and a backslash in it. *)
Definition demo_name : string := String quote (String nl (String backslash "n")).
Definition demo_snapshot : Metrics.MetricsSnapshot :=
  Snapshot.set_requests_by_provider {[demo_name := 3]} Snapshot.MetricsSnapshot_default.

Lemma exposition_roundtrip_witness :
  scrape (render_prometheus (fun _ => "0.5") demo_snapshot) = Some (samples (page (fun _ => "0.5") demo_snapshot)) /\
  {| sample_name := "rustygate_provider_requests_total"; sample_labels := [("provider", demo_name)]; sample_value := "3" |}
    ∈ samples (page (fun _ => "0.5") demo_snapshot).
Proof.
  split; [apply (exposition_roundtrip (fun _ => "0.5") demo_snapshot); by intros|].
  assert (nth_error (samples (page (fun _ => "0.5") demo_snapshot)) 13 = Some {| sample_name := "rustygate_provider_requests_total";
    sample_labels := [("provider", demo_name)]; sample_value := "3" |}) as H by (by vm_compute).
  apply nth_error_In in H. by apply list_elem_of_In.
Defined.


End Prometheus.
