(* ===== verification/Stats.v ===== *)
(** * Statistics endpoints (src/src/routes/stats.rs, src/src/models/stats.rs)

    /stats, /stats/providers and /metrics answer from one snapshot: the request
    log's if there is a store and it answers, the registry's otherwise, with the
    gauges and counters only the registry knows copied over it. *)
From S2P Require Import Prelude Str F64 Chat Provider Metrics Resilience RequestLog Snapshot Sqlite Prometheus.

Open Scope string_scope.
Open Scope list_scope.
Open Scope Z_scope.

Module Stats.
Import Snapshot.

Record StatsResponse := {
  st_total_requests : Z;
  st_successful_requests : Z;
  st_failed_requests : Z;
  st_in_flight_requests : Z;
  st_total_provider_attempts : Z;
  st_fallback_attempts : Z;
  st_error_rate : F64.t;
  st_avg_latency_ms : F64.t;
  st_p95_latency_ms : F64.t;
  st_estimated_prompt_tokens : Z;
  st_estimated_completion_tokens : Z;
  st_estimated_total_tokens : Z;
  st_estimated_input_cost_usd : F64.t;
  st_estimated_output_cost_usd : F64.t;
  st_estimated_total_cost_usd : F64.t;
  st_request_errors_by_category : gmap string Z;
  st_admission_rejections_by_reason : gmap string Z;
  st_routing_decisions_by_policy_and_reason : gmap string (gmap string Z);
  st_prefix_fingerprints_by_outcome : gmap string Z;
  st_cache_lookups_by_outcome : gmap string Z;
  st_cache_hit_ratio : F64.t;
  st_stream_outcomes_by_outcome : gmap string Z;
  st_p95_stream_duration_ms : F64.t
}.

Record ProviderStatsResponse := {
  ps_requests_by_provider : gmap string Z;
  ps_successes_by_provider : gmap string Z;
  ps_errors_by_provider : gmap string Z;
  ps_fallback_attempts_by_provider : gmap string Z;
  ps_provider_errors_by_provider_and_category : gmap string (gmap string Z);
  ps_recent_provider_errors_by_provider_and_category : gmap string (gmap string Z);
  ps_avg_latency_ms_by_provider : gmap string F64.t;
  ps_p95_latency_ms_by_provider : gmap string F64.t;
  ps_in_flight_requests_by_provider : gmap string Z;
  ps_p50_ttft_ms_by_provider : gmap string F64.t;
  ps_p95_ttft_ms_by_provider : gmap string F64.t;
  ps_queue_pressure_by_provider : gmap string F64.t;
  ps_circuit_state_by_provider : gmap string string
}.

(** The fields of the application state the endpoints read. *)
Record AppState := {
  request_log_store : option Sqlite.SqliteRequestLogStore;
  metrics : mutex Metrics.MetricsRegistry;
  provider_names : list string;
  resilience : Resilience.ResilienceRegistry
}.

(** [None] is a panic while the lock is held, as in [Metrics.snapshot]. *)
Definition memory_snapshot (st : AppState) : option Metrics.MetricsSnapshot :=
  match lock (metrics st) with
  | Some m => Metrics.snapshot m
  | None => Some MetricsSnapshot_default
  end.

Definition overlay (live s : Metrics.MetricsSnapshot) : Metrics.MetricsSnapshot :=
  let s := set_in_flight_requests (Metrics.snap_in_flight_requests live) s in
  let s := set_in_flight_requests_by_provider (Metrics.snap_in_flight_requests_by_provider live) s in
  let s := set_p50_ttft_ms_by_provider (Metrics.snap_p50_ttft_ms_by_provider live) s in
  let s := set_p95_ttft_ms_by_provider (Metrics.snap_p95_ttft_ms_by_provider live) s in
  let s := set_queue_pressure_by_provider (Metrics.snap_queue_pressure_by_provider live) s in
  let s := set_admission_rejections_by_reason (Metrics.snap_admission_rejections_by_reason live) s in
  let s := set_routing_decisions_by_policy_and_reason (Metrics.snap_routing_decisions_by_policy_and_reason live) s in
  let s := set_prefix_fingerprints_by_outcome (Metrics.snap_prefix_fingerprints_by_outcome live) s in
  let s := set_stream_outcomes_by_outcome (Metrics.snap_stream_outcomes_by_outcome live) s in
  let s := set_p95_stream_duration_ms (Metrics.snap_p95_stream_duration_ms live) s in
  set_recent_provider_errors_by_provider_and_category
    (Metrics.snap_recent_provider_errors_by_provider_and_category live) s.

Definition stats_snapshot (st : AppState) : option Metrics.MetricsSnapshot :=
  s ← match request_log_store st with
      | Some store =>
          stored ← Sqlite.stats_snapshot store;
          match stored with Ok s => Some s | Err _ => memory_snapshot st end
      | None => memory_snapshot st
      end;
  live ← memory_snapshot st;
  Some (overlay live s).

Definition circuit_state_by_provider (st : AppState) : gmap string string :=
  foldl (fun m name =>
    <[name := Resilience.CircuitState_as_str (Resilience.circuit_state (resilience st) name)]> m) ∅ (provider_names st).

Definition stats_response (s : Metrics.MetricsSnapshot) : StatsResponse :=
  {| st_total_requests := Metrics.snap_total_requests s;
     st_successful_requests := Metrics.snap_successful_requests s;
     st_failed_requests := Metrics.snap_failed_requests s;
     st_in_flight_requests := Metrics.snap_in_flight_requests s;
     st_total_provider_attempts := Metrics.snap_total_provider_attempts s;
     st_fallback_attempts := Metrics.snap_fallback_attempts s; st_error_rate := Metrics.snap_error_rate s;
     st_avg_latency_ms := Metrics.snap_avg_latency_ms s; st_p95_latency_ms := Metrics.snap_p95_latency_ms s;
     st_estimated_prompt_tokens := Metrics.snap_estimated_prompt_tokens s;
     st_estimated_completion_tokens := Metrics.snap_estimated_completion_tokens s;
     st_estimated_total_tokens := Metrics.snap_estimated_total_tokens s;
     st_estimated_input_cost_usd := Metrics.snap_estimated_input_cost_usd s;
     st_estimated_output_cost_usd := Metrics.snap_estimated_output_cost_usd s;
     st_estimated_total_cost_usd := Metrics.snap_estimated_total_cost_usd s;
     st_request_errors_by_category := Metrics.snap_request_errors_by_category s;
     st_admission_rejections_by_reason := Metrics.snap_admission_rejections_by_reason s;
     st_routing_decisions_by_policy_and_reason := Metrics.snap_routing_decisions_by_policy_and_reason s;
     st_prefix_fingerprints_by_outcome := Metrics.snap_prefix_fingerprints_by_outcome s;
     st_cache_lookups_by_outcome := Metrics.snap_cache_lookups_by_outcome s;
     st_cache_hit_ratio := Metrics.snap_cache_hit_ratio s;
     st_stream_outcomes_by_outcome := Metrics.snap_stream_outcomes_by_outcome s;
     st_p95_stream_duration_ms := Metrics.snap_p95_stream_duration_ms s |}.

Definition stats (st : AppState) : option StatsResponse := stats_response <$> stats_snapshot st.

Definition provider_stats_response (st : AppState) (s : Metrics.MetricsSnapshot) : ProviderStatsResponse :=
  {| ps_requests_by_provider := Metrics.snap_requests_by_provider s;
     ps_successes_by_provider := Metrics.snap_successes_by_provider s;
     ps_errors_by_provider := Metrics.snap_errors_by_provider s;
     ps_fallback_attempts_by_provider := Metrics.snap_fallback_attempts_by_provider s;
     ps_provider_errors_by_provider_and_category := Metrics.snap_provider_errors_by_provider_and_category s;
     ps_recent_provider_errors_by_provider_and_category := Metrics.snap_recent_provider_errors_by_provider_and_category s;
     ps_avg_latency_ms_by_provider := Metrics.snap_avg_latency_ms_by_provider s;
     ps_p95_latency_ms_by_provider := Metrics.snap_p95_latency_ms_by_provider s;
     ps_in_flight_requests_by_provider := Metrics.snap_in_flight_requests_by_provider s;
     ps_p50_ttft_ms_by_provider := Metrics.snap_p50_ttft_ms_by_provider s;
     ps_p95_ttft_ms_by_provider := Metrics.snap_p95_ttft_ms_by_provider s;
     ps_queue_pressure_by_provider := Metrics.snap_queue_pressure_by_provider s;
     ps_circuit_state_by_provider := circuit_state_by_provider st |}.

Definition provider_stats (st : AppState) : option ProviderStatsResponse :=
  provider_stats_response st <$> stats_snapshot st.

(** The content type and the page. *)
Definition prometheus_metrics (display : F64.t -> string) (st : AppState) : option (string * string) :=
  s ← stats_snapshot st;
  Some ("text/plain; version=0.0.4; charset=utf-8", Prometheus.render_prometheus display s).

(* ------------------------------------------------------------------ *)
(** ** Properties *)

(** Responses without the figures that depend on where they come from: the
    percentiles of the log and the cache counters. *)
Definition without_source (r : StatsResponse) : StatsResponse :=
  {| st_total_requests := st_total_requests r; st_successful_requests := st_successful_requests r;
     st_failed_requests := st_failed_requests r; st_in_flight_requests := st_in_flight_requests r;
     st_total_provider_attempts := st_total_provider_attempts r; st_fallback_attempts := st_fallback_attempts r;
     st_error_rate := st_error_rate r; st_avg_latency_ms := st_avg_latency_ms r; st_p95_latency_ms := F64.zero;
     st_estimated_prompt_tokens := st_estimated_prompt_tokens r;
     st_estimated_completion_tokens := st_estimated_completion_tokens r;
     st_estimated_total_tokens := st_estimated_total_tokens r;
     st_estimated_input_cost_usd := st_estimated_input_cost_usd r;
     st_estimated_output_cost_usd := st_estimated_output_cost_usd r;
     st_estimated_total_cost_usd := st_estimated_total_cost_usd r;
     st_request_errors_by_category := st_request_errors_by_category r;
     st_admission_rejections_by_reason := st_admission_rejections_by_reason r;
     st_routing_decisions_by_policy_and_reason := st_routing_decisions_by_policy_and_reason r;
     st_prefix_fingerprints_by_outcome := st_prefix_fingerprints_by_outcome r; st_cache_lookups_by_outcome := ∅;
     st_cache_hit_ratio := F64.zero; st_stream_outcomes_by_outcome := st_stream_outcomes_by_outcome r;
     st_p95_stream_duration_ms := st_p95_stream_duration_ms r |}.
Definition without_percentiles (r : ProviderStatsResponse) : ProviderStatsResponse :=
  {| ps_requests_by_provider := ps_requests_by_provider r; ps_successes_by_provider := ps_successes_by_provider r;
     ps_errors_by_provider := ps_errors_by_provider r;
     ps_fallback_attempts_by_provider := ps_fallback_attempts_by_provider r;
     ps_provider_errors_by_provider_and_category := ps_provider_errors_by_provider_and_category r;
     ps_recent_provider_errors_by_provider_and_category := ps_recent_provider_errors_by_provider_and_category r;
     ps_avg_latency_ms_by_provider := ps_avg_latency_ms_by_provider r; ps_p95_latency_ms_by_provider := ∅;
     ps_in_flight_requests_by_provider := ps_in_flight_requests_by_provider r;
     ps_p50_ttft_ms_by_provider := ps_p50_ttft_ms_by_provider r;
     ps_p95_ttft_ms_by_provider := ps_p95_ttft_ms_by_provider r;
     ps_queue_pressure_by_provider := ps_queue_pressure_by_provider r;
     ps_circuit_state_by_provider := ps_circuit_state_by_provider r |}.

Definition with_store (store : option Sqlite.SqliteRequestLogStore) (st : AppState) : AppState :=
  {| request_log_store := store; metrics := metrics st; provider_names := provider_names st; resilience := resilience st |}.

Lemma overlay_self s : overlay s s = s.
Proof. by destruct s. Qed.

Lemma stats_live st live : request_log_store st = None -> memory_snapshot st = Some live -> stats_snapshot st = Some live.
Proof. intros Hst Hl. unfold stats_snapshot. rewrite Hst, Hl. cbn. by rewrite overlay_self. Qed.

(** A store that does not answer is as good as none. *)
Lemma stats_offline st store : Sqlite.online store = false ->
  stats_snapshot (with_store (Some store) st) = stats_snapshot (with_store None st).
Proof. intros Hoff. unfold stats_snapshot, Sqlite.stats_snapshot. cbn [with_store request_log_store]. by rewrite Hoff. Qed.

(** C19: the statistics do not depend on where they are kept.  After any history
    of requests, all of them stored, and whatever else the registry recorded,
    /stats and /stats/providers answer the same with the SQLite store as
    without it, but for the percentiles of the latencies; the exception is that
    with a store they report no cache lookup at all.  If the store does not
    answer they fall back to the registry. *)
Theorem stats_same_with_store messages_to_string config es db st :
  metrics st = Unpoisoned (Metrics.run (map Sqlite.event_op es)) ->
  Forall Sqlite.event_ok es -> Sqlite.latency_sum es < 2 ^ 53 ->
  Z.of_nat (length es + Sqlite.attempt_count es) < 2 ^ 53 ->
  Sqlite.run_log messages_to_string config es Sqlite.empty_store = Some db ->
  exists a b pa pb,
    stats (with_store (Some db) st) = Some a /\ stats (with_store None st) = Some b /\
    without_source a = without_source b /\ st_cache_lookups_by_outcome a = ∅ /\
    provider_stats (with_store (Some db) st) = Some pa /\ provider_stats (with_store None st) = Some pb /\
    without_percentiles pa = without_percentiles pb /\
    forall down, Sqlite.online down = false -> stats (with_store (Some down) st) = Some b.
Proof.
  intros Hm Hes Hsum Hlen Hrun.
  destruct (Sqlite.stored_stats_match_registry _ _ _ _ Hes Hsum Hlen Hrun) as (stored & live & Hs & Hl & Hag & Hc & Hr).
  assert (memory_snapshot (with_store (Some db) st) = Some live /\ memory_snapshot (with_store None st) = Some live) as [H1 H2]
    by (unfold memory_snapshot; cbn; by rewrite Hm).
  assert (stats_snapshot (with_store (Some db) st) = Some (overlay live stored)) as E1.
  { unfold stats_snapshot. cbn [with_store request_log_store]. rewrite Hs. cbn [mbind option_bind].
    fold (with_store (Some db) st). by rewrite H1. }
  pose proof (stats_live (with_store None st) live eq_refl H2) as E2. unfold stats, provider_stats. rewrite E1, E2.
  exists (stats_response (overlay live stored)), (stats_response live),
    (provider_stats_response st (overlay live stored)), (provider_stats_response st live).
  destruct Hag as [A1 A2 A3 A4 A5 A6 A7 A8 A9 A10 A11 A12 A13 A14 A15 A16 A17 A18 A19 A20]. split; [done|]. split; [done|]. split; [|split; [exact Hc|split; [done|split; [done|split]]]].
  - unfold without_source, stats_response. cbn. by rewrite A1, A2, A3, A4, A5, A6, A7, A8, A9, A10, A11, A12, A13, A14.
  - unfold without_percentiles, provider_stats_response. cbn. by rewrite A15, A16, A17, A18, A19, A20.
  - intros down Hd. by rewrite stats_offline, E2.
Qed.

Definition demo_state : AppState :=
  {| request_log_store := None; metrics := Unpoisoned (Metrics.run (map Sqlite.event_op Sqlite.demo_events));
     provider_names := ["a"; "b"];
     resilience := {| Resilience.default_policy := Resilience.ProviderResiliencePolicy_default;
                      Resilience.provider_policies := ∅; Resilience.circuits := Unpoisoned ∅ |} |}.

Lemma stats_same_with_store_witness :
  exists a b, stats (with_store (Some Sqlite.demo_store) demo_state) = Some a /\ stats (with_store None demo_state) = Some b /\
    without_source a = without_source b /\ st_cache_lookups_by_outcome a = ∅ /\ st_cache_lookups_by_outcome b = {["hit" := 1]}.
Proof.
  destruct (stats_same_with_store (fun _ => None) Sqlite.demo_config Sqlite.demo_events Sqlite.demo_store demo_state)
    as (a & b & pa & pb & H1 & H2 & H3 & H4 & _).
  - reflexivity.
  - exact Sqlite.demo_events_ok.
  - by vm_compute.
  - by vm_compute.
  - exact Sqlite.demo_stored.
  - exists a, b. split; [exact H1|]. split; [exact H2|]. split; [exact H3|]. split; [exact H4|].
    assert (st_cache_lookups_by_outcome <$> stats (with_store None demo_state) = Some {["hit" := 1]}) as E by (by vm_compute).
    rewrite H2 in E. by injection E.
Defined.

End Stats.
