(* ===== verification/Build.v ===== *)
(** * Application assembly (src/src/app/build.rs, src/src/app/state.rs)

    How the configuration becomes the application state: provider adapters,
    resilience policies, key store, rate limiter, caches, limits.  The process
    environment, the database driver, Redis connections, the HTTP client builder
    and the [moka] cache are arguments.  Assembly panics where the libraries'
    constructors do: for tables beyond memory and a time to live beyond what
    [moka] takes; [roomy] says which configurations those are not. *)
From S2P Require Import Prelude Str F64 Chat Config ModelPools Provider Admission Metrics Lru RateLimit Redis RequestLog Health Keys Cache MemoryCache PrefixAffinity Strategy Resilience OpenAi Anthropic Mock Sqlite.

Open Scope string_scope.
Open Scope list_scope.
Open Scope Z_scope.

Module Build.

Inductive AppStateInitError :=
| StorageFailed (e : Sqlite.StorageError)
| AuthFailed (e : Keys.AuthError)
| GatewayConfigError (message : string)
| ProviderConfigError (provider message : string).

(** What an initialisation step comes to: a value, an error, or a panic. *)
Inductive init (A : Type) := Done (a : A) | Failed (e : AppStateInitError) | Panicked.
Arguments Done {A} a.
Arguments Failed {A} e.
Arguments Panicked {A}.

Definition init_bind {A B : Type} (x : init A) (f : A -> init B) : init B :=
  match x with Done a => f a | Failed e => Failed e | Panicked => Panicked end.
Notation "'try' x := e 'in' k" := (init_bind e (fun x => k)) (at level 200, x name, e at level 100, k at level 200).

Definition ok_or {A : Type} (o : option A) (e : AppStateInitError) : init A :=
  match o with Some a => Done a | None => Failed e end.
Definition map_err {A E : Type} (f : E -> AppStateInitError) (r : result A E) : init A :=
  match r with Ok a => Done a | Err e => Failed (f e) end.

(** The adapter behind [Arc<dyn ChatProvider>]; an HTTP client is its timeout. *)
Inductive ProviderImpl :=
| MockImpl (p : Mock.MockProvider)
| OpenAiImpl (p : OpenAi.OpenAiCompatibleProvider) (timeout : Z)
| AnthropicImpl (p : Anthropic.AnthropicProvider) (timeout : Z).

Definition chat_provider (i : ProviderImpl) : Provider.ChatProvider :=
  match i with
  | MockImpl p => {| Provider.name := Mock.name p; Provider.model := Mock.model p;
                     Provider.supports_model := Mock.supports_model p |}
  | OpenAiImpl p _ => {| Provider.name := OpenAi.name p; Provider.model := OpenAi.model p;
                         Provider.supports_model := OpenAi.supports_model p |}
  | AnthropicImpl p _ => {| Provider.name := Anthropic.name p; Provider.model := Anthropic.model p;
                            Provider.supports_model := Anthropic.supports_model p |}
  end.

Record BuiltEntry := { built_priority : Z; built_impl : ProviderImpl; built_pricing : Provider.ProviderPricing }.

Definition provider_entry (b : BuiltEntry) : Provider.ProviderEntry :=
  {| Provider.priority := built_priority b; Provider.provider := chat_provider (built_impl b);
     Provider.pricing := built_pricing b |}.
Definition built_name (b : BuiltEntry) : string := Provider.name (chat_provider (built_impl b)).

Definition gateway_resilience_defaults (g : Config.GatewayConfig) : Resilience.ProviderResiliencePolicy :=
  {| Resilience.timeout_ms := Some (Config.default_timeout_ms g);
     Resilience.retry :=
       {| Resilience.max_retries := Config.max_retries g;
          Resilience.initial_backoff_ms := Config.initial_backoff_ms (Config.retry g);
          Resilience.max_backoff_ms := Config.max_backoff_ms (Config.retry g);
          Resilience.jitter_ms := Config.jitter_ms (Config.retry g) |};
     Resilience.breaker :=
       {| Resilience.failure_threshold := Config.failure_threshold (Config.circuit_breaker g);
          Resilience.open_duration_ms := Config.open_duration_ms (Config.circuit_breaker g);
          Resilience.half_open_max_probes := Config.half_open_max_probes (Config.circuit_breaker g) |} |}.

Definition provider_resilience_policy (p : Config.ProviderConfig) (g : Config.GatewayConfig) :
  Resilience.ProviderResiliencePolicy :=
  {| Resilience.timeout_ms := or_else (Config.timeout_ms p) (Some (Config.default_timeout_ms g));
     Resilience.retry :=
       {| Resilience.max_retries := default (Config.max_retries g) (Config.prov_max_retries p);
          Resilience.initial_backoff_ms :=
            default (Config.initial_backoff_ms (Config.retry g)) (Config.retry_initial_backoff_ms p);
          Resilience.max_backoff_ms := default (Config.max_backoff_ms (Config.retry g)) (Config.retry_max_backoff_ms p);
          Resilience.jitter_ms := default (Config.jitter_ms (Config.retry g)) (Config.retry_jitter_ms p) |};
     Resilience.breaker :=
       {| Resilience.failure_threshold :=
            default (Config.failure_threshold (Config.circuit_breaker g)) (Config.circuit_breaker_failure_threshold p);
          Resilience.open_duration_ms :=
            default (Config.open_duration_ms (Config.circuit_breaker g)) (Config.circuit_breaker_open_duration_ms p);
          Resilience.half_open_max_probes :=
            default (Config.half_open_max_probes (Config.circuit_breaker g))
              (Config.circuit_breaker_half_open_max_probes p) |} |}.

(** ** The state *)

Inductive AnyKeyStore := StaticKeys (s : Keys.StaticKeyStore) | SqliteKeys (s : Keys.SqliteKeyStore).

Section State.
Context (C : Type -> Type) `{!LruOps C} (M : Type -> Type) `{MO : !MemoryCache.MokaOps M}.

Inductive AnyCache := MemoryCache (m : MemoryCache.MemoryResponseCache M) | SqliteCache (c : Cache.SqliteResponseCache).

(** The local backend shares the limiter of the state. *)
Inductive AnyBackend := LocalBackend (l : RateLimit.RateLimiter C) | RedisBackend (r : Redis.RedisRateLimitBackend C).

Record AppState := {
  providers : list BuiltEntry;
  metrics : mutex Metrics.MetricsRegistry;
  request_logging : RequestLog.RequestLoggingConfig;
  request_log_store : option Sqlite.SqliteRequestLogStore;
  response_cache : option AnyCache;
  response_cache_ttl : Z;
  key_store : AnyKeyStore;
  rate_limiter : RateLimit.RateLimiter C;
  rate_limit_backend : AnyBackend;
  rate_limit_backend_is_redis : bool;
  resilience : Resilience.ResilienceRegistry;
  provider_health : Health.ProviderHealthRegistry;
  chat_validation_limits : Chat.ChatValidationLimits;
  max_chat_body_bytes : Z;
  model_aliases : gmap string string;
  model_pools : ModelPools.ModelPoolIndex;
  routing_policy : Config.RoutingPolicy;
  stream_idle_timeout : Z;
  prefix_affinity : Config.PrefixAffinityConfig;
  route_exposure : Config.RouteExposureConfig;
  prefix_affinity_index : PrefixAffinity.PrefixAffinityIndex C;
  admission : Admission.AdmissionController
}.

Definition DEFAULT_GATEWAY_API_KEY : string := "test-gateway-key".

Definition default_resilience_registry (provider_names : list string) : Resilience.ResilienceRegistry :=
  Resilience.new Resilience.ProviderResiliencePolicy_default ∅ provider_names.

Definition provider_names (st : AppState) : list string := map built_name (providers st).

(** [AppState::from_providers] at an instant, or a panic. *)
Definition from_providers (entries : list BuiltEntry) (now : Z) : option AppState :=
  let entries := sort_by (cmp_on built_priority Z.compare) entries in
  let names := map built_name entries in
  limiter ← RateLimit.new Config.RateLimitConfig_default now;
  index ← PrefixAffinity.new Config.PrefixAffinityConfig_default;
  Some {| providers := entries; metrics := Unpoisoned Metrics.MetricsRegistry_default;
          request_logging := RequestLog.RequestLoggingConfig_default; request_log_store := None;
          response_cache := None; response_cache_ttl := from_secs 600;
          key_store := StaticKeys {| Keys.static_raw_key := DEFAULT_GATEWAY_API_KEY |};
          rate_limiter := limiter; rate_limit_backend := LocalBackend limiter; rate_limit_backend_is_redis := false;
          resilience := default_resilience_registry names; provider_health := Health.new names;
          chat_validation_limits := Chat.ChatValidationLimits_default; max_chat_body_bytes := 65536;
          model_aliases := ∅; model_pools := ModelPools.ModelPoolIndex_default; routing_policy := Config.Priority;
          stream_idle_timeout := from_millis 30000; prefix_affinity := Config.PrefixAffinityConfig_default;
          route_exposure := Config.RouteExposureConfig_default;
          prefix_affinity_index := index;
          admission := Admission.disabled |}.

(** [AppState::default()]: the same with no provider. *)
Definition AppState_default (now : Z) : option AppState :=
  limiter ← RateLimit.new Config.RateLimitConfig_default now;
  backend ← RateLimit.new Config.RateLimitConfig_default now;
  index ← PrefixAffinity.new Config.PrefixAffinityConfig_default;
  Some {| providers := []; metrics := Unpoisoned Metrics.MetricsRegistry_default;
          request_logging := RequestLog.RequestLoggingConfig_default; request_log_store := None;
          response_cache := None; response_cache_ttl := from_secs 600;
          key_store := StaticKeys {| Keys.static_raw_key := DEFAULT_GATEWAY_API_KEY |};
          rate_limiter := limiter; rate_limit_backend := LocalBackend backend; rate_limit_backend_is_redis := false;
          resilience := default_resilience_registry []; provider_health := Health.new [];
          chat_validation_limits := Chat.ChatValidationLimits_default; max_chat_body_bytes := 65536;
          model_aliases := ∅; model_pools := ModelPools.ModelPoolIndex_default; routing_policy := Config.Priority;
          stream_idle_timeout := from_millis 30000; prefix_affinity := Config.PrefixAffinityConfig_default;
          route_exposure := Config.RouteExposureConfig_default;
          prefix_affinity_index := index;
          admission := Admission.disabled |}.

Definition with_request_logging_config (logging : RequestLog.RequestLoggingConfig) (st : AppState) : AppState :=
  {| providers := providers st; metrics := metrics st; request_logging := logging; request_log_store :=
     request_log_store st; response_cache := response_cache st; response_cache_ttl := response_cache_ttl st;
     key_store := key_store st; rate_limiter := rate_limiter st; rate_limit_backend := rate_limit_backend st;
     rate_limit_backend_is_redis := rate_limit_backend_is_redis st; resilience := resilience st; provider_health :=
     provider_health st; chat_validation_limits := chat_validation_limits st; max_chat_body_bytes :=
     max_chat_body_bytes st; model_aliases := model_aliases st; model_pools := model_pools st; routing_policy :=
     routing_policy st; stream_idle_timeout := stream_idle_timeout st; prefix_affinity := prefix_affinity st;
     route_exposure := route_exposure st; prefix_affinity_index := prefix_affinity_index st; admission := admission
     st |}.

Definition with_request_log_store (store : Sqlite.SqliteRequestLogStore) (st : AppState) : AppState :=
  {| providers := providers st; metrics := metrics st; request_logging := request_logging st; request_log_store :=
     Some store; response_cache := response_cache st; response_cache_ttl := response_cache_ttl st; key_store :=
     key_store st; rate_limiter := rate_limiter st; rate_limit_backend := rate_limit_backend st;
     rate_limit_backend_is_redis := rate_limit_backend_is_redis st; resilience := resilience st; provider_health :=
     provider_health st; chat_validation_limits := chat_validation_limits st; max_chat_body_bytes :=
     max_chat_body_bytes st; model_aliases := model_aliases st; model_pools := model_pools st; routing_policy :=
     routing_policy st; stream_idle_timeout := stream_idle_timeout st; prefix_affinity := prefix_affinity st;
     route_exposure := route_exposure st; prefix_affinity_index := prefix_affinity_index st; admission := admission
     st |}.

(** What [router_with_state] does to the state before it shares it: the local
    backend is the limiter itself. *)
Definition share_limiter (st : AppState) : AnyBackend :=
  if negb (rate_limit_backend_is_redis st) then LocalBackend (rate_limiter st) else rate_limit_backend st.

Lemma default_has_no_provider now : AppState_default now = from_providers [] now.
Proof. unfold AppState_default, from_providers. by destruct (RateLimit.new Config.RateLimitConfig_default now). Qed.

(** ** From the configuration *)

(** The world outside: the environment, the database driver, the HTTP client
    builder (an error message if it refuses the timeout), the Redis server at a
    URL, and the [redis-backend] feature. *)
Record Outside := {
  env : string -> option string;
  key_driver : Keys.Sqlx Keys.SqliteKeyStore;
  log_driver : Keys.Sqlx Sqlite.SqliteRequestLogStore;
  cache_of : Keys.SqliteKeyStore -> Cache.SqliteResponseCache;
  client : Z -> result unit string;
  connect_redis : string -> result Redis.RedisServer string;
  redis_feature : bool
}.

Section FromConfig.
Variable out : Outside.

Definition not_set (variable what : string) : string :=
  ("environment variable `" ++ variable ++ "` is not set for " ++ what)%string.

(** The key, base URL and client of a real provider. *)
Definition real_provider (p : Config.ProviderConfig) (timeout : Z) (kind default_url : string) : init (string * string) :=
  let fail message := ProviderConfigError (Config.prov_name p) message in
  try api_key_env := ok_or (Config.prov_api_key_env p) (fail ("missing `api_key_env` for " ++ kind ++ " provider")%string) in
  try api_key := ok_or (env out api_key_env) (fail (not_set api_key_env "provider API key")) in
  let base_url := default default_url (Config.base_url p) in
  try built := map_err (fun e => fail ("failed to build HTTP client: " ++ e)%string) (client out timeout) in
  Done (api_key, base_url).

Definition provider_impl (p : Config.ProviderConfig) (g : Config.GatewayConfig) : init ProviderImpl :=
  let timeout := from_millis (default (Config.default_timeout_ms g) (Config.timeout_ms p)) in
  match Config.prov_kind p with
  | Config.Mock =>
      Done (MockImpl {| Mock.name := Config.prov_name p; Mock.model := Config.prov_model p;
                        Mock.failure_rate := Config.failure_rate p; Mock.base_latency_ms := Config.base_latency_ms p |})
  | Config.OpenaiCompatible =>
      try real := real_provider p timeout "openai_compatible" "https://api.openai.com/v1" in
      Done (OpenAiImpl {| OpenAi.name := Config.prov_name p; OpenAi.model := Config.prov_model p;
                          OpenAi.base_url := real.2; OpenAi.api_key := real.1 |} timeout)
  | Config.Anthropic =>
      try real := real_provider p timeout "anthropic" "https://api.anthropic.com" in
      Done (AnthropicImpl {| Anthropic.name := Config.prov_name p; Anthropic.model := Config.prov_model p;
                             Anthropic.base_url := real.2; Anthropic.api_key := real.1 |} timeout)
  end.

Definition build_entry (g : Config.GatewayConfig) (p : Config.ProviderConfig) : init BuiltEntry :=
  try impl := provider_impl p g in
  Done {| built_priority := Config.prov_priority p; built_impl := impl;
          built_pricing := {| Provider.cost_per_1k_input_tokens := Config.cost_per_1k_input_tokens p;
                              Provider.cost_per_1k_output_tokens := Config.cost_per_1k_output_tokens p |} |}.

(** The loop over the configured providers. *)
Fixpoint build_entries (g : Config.GatewayConfig) (ps : list Config.ProviderConfig) : init (list BuiltEntry) :=
  match ps with
  | [] => Done []
  | p :: ps =>
      try e := build_entry g p in
      try es := build_entries g ps in
      Done (e :: es)
  end.

Definition policies (config : Config.AppConfig) : gmap string Resilience.ProviderResiliencePolicy :=
  foldl (fun m p => <[Config.prov_name p := provider_resilience_policy p (Config.gateway config)]> m) ∅
    (Config.providers config).

Definition build_key_store (config : Config.AppConfig) : init AnyKeyStore :=
  if Config.storage_enabled (Config.storage config)
  then
    try s := map_err AuthFailed (Keys.connect (key_driver out) (Config.database_url (Config.storage config))) in
    Done (SqliteKeys s)
  else
    let variable := Config.api_key_env (Config.gateway config) in
    try gateway_api_key := ok_or (env out variable) (GatewayConfigError (not_set variable "gateway API key")) in
    if Str.is_empty (Str.trim gateway_api_key)
    then Failed (GatewayConfigError
      ("environment variable `" ++ variable ++ "` for gateway API key must not be empty")%string)
    else Done (StaticKeys {| Keys.static_raw_key := gateway_api_key |}).

Definition from_option_panic {A : Type} (o : option A) : init A := match o with Some a => Done a | None => Panicked end.

Definition build_response_cache (config : Config.AppConfig) : init AnyCache :=
  match Config.cache_backend (Config.cache config) with
  | Config.Memory =>
      try c := from_option_panic (MemoryCache.new M (from_secs (Config.default_ttl_seconds (Config.cache config)))
                 (Config.cache_max_entries (Config.cache config))) in
      Done (MemoryCache c)
  | Config.Sqlite =>
      try store := map_err AuthFailed (Keys.connect (key_driver out) (Config.database_url (Config.storage config))) in
      Done (SqliteCache (cache_of out store))
  end.

Definition build_redis_rate_limit_backend (config : Config.RateLimitConfig) (local : RateLimit.RateLimiter C) :
  init AnyBackend :=
  if redis_feature out
  then
    try env_name := ok_or (Config.redis_url_env config)
      (GatewayConfigError "gateway.rate_limit.redis_url_env is required for redis backend") in
    try redis_url := ok_or (env out env_name) (GatewayConfigError (not_set env_name "Redis rate limiting")) in
    let fallback := if Config.redis_fallback_to_local config then Some local else None in
    try server := map_err (fun e => GatewayConfigError ("failed to connect Redis rate-limit backend: " ++ e)%string)
      (connect_redis out redis_url) in
    Done (RedisBackend (Redis.connect C server config fallback))
  else Failed (GatewayConfigError "redis rate-limit backend requires the `redis-backend` feature").

Definition build_rate_limit_backend (config : Config.RateLimitConfig) (local : RateLimit.RateLimiter C) :
  init AnyBackend :=
  match Config.rate_limit_backend config with
  | Config.Local_ => Done (LocalBackend local)
  | Config.Redis => build_redis_rate_limit_backend config local
  end.

Definition from_config (config : Config.AppConfig) (now : Z) : init AppState :=
  let g := Config.gateway config in
  try entries := build_entries g (Config.providers config) in
  try st := from_option_panic (from_providers entries now) in
  try key_store := build_key_store config in
  try limiter := from_option_panic (RateLimit.new (Config.rate_limit g) now) in
  try backend := build_rate_limit_backend (Config.rate_limit g) limiter in
  try index := from_option_panic (PrefixAffinity.new (Config.prefix_affinity g)) in
  try cache := (if Config.cache_enabled (Config.cache config)
                then try c := build_response_cache config in Done (Some c) else Done None) in
  try store := (if Config.storage_enabled (Config.storage config)
                then try s := map_err StorageFailed (Sqlite.connect (log_driver out) (Config.database_url (Config.storage config))) in
                     Done (Some s)
                else Done None) in
  Done {| providers := providers st; metrics := metrics st;
          request_logging := {| RequestLog.enabled := Config.enable_request_logging g;
                                RequestLog.log_prompt_content := Config.log_prompt_content g |};
          request_log_store := store; response_cache := cache;
          response_cache_ttl := if Config.cache_enabled (Config.cache config)
                                then from_secs (Config.default_ttl_seconds (Config.cache config))
                                else response_cache_ttl st;
          key_store := key_store; rate_limiter := limiter; rate_limit_backend := backend;
          rate_limit_backend_is_redis := Config.is_redis (Config.rate_limit_backend (Config.rate_limit g));
          resilience := Resilience.new (gateway_resilience_defaults g) (policies config) (provider_names st);
          provider_health := provider_health st;
          chat_validation_limits :=
            {| Chat.max_messages_per_request := Config.limit_messages_per_request (Config.request_limits g);
               Chat.max_message_content_chars := Config.limit_message_content_chars (Config.request_limits g) |};
          max_chat_body_bytes := Config.max_chat_body_bytes (Config.request_limits g);
          model_aliases := Config.model_aliases g; model_pools := ModelPools.from_configs (Config.model_pools config);
          routing_policy := Config.routing_policy g;
          stream_idle_timeout := from_millis (Config.stream_idle_timeout_ms g);
          prefix_affinity := Config.prefix_affinity g; route_exposure := Config.route_exposure g;
          prefix_affinity_index := index;
          admission := Admission.new (Admission.from_config (Config.admission g) (Config.providers config)
                                        (Config.model_pools config)) |}.

End FromConfig.

End State.

(* ------------------------------------------------------------------ *)
(** ** A validated configuration builds *)

Section Builds.
Context (C : Type -> Type) `{!LruOps C} (M : Type -> Type) `{MO : !MemoryCache.MokaOps M}.
Variable out : Outside.
Notation AppState := (AppState C M).

Definition is_ok {A E : Type} (r : result A E) : bool := match r with Ok _ => true | Err _ => false end.

(** What has to be there for the gateway to start. *)
Definition provider_ready (g : Config.GatewayConfig) (p : Config.ProviderConfig) : bool :=
  match Config.prov_kind p with
  | Config.Mock => true
  | _ => is_some (Config.prov_api_key_env p ≫= env out) &&
         is_ok (client out (from_millis (default (Config.default_timeout_ms g) (Config.timeout_ms p))))
  end.
Definition keys_ready (config : Config.AppConfig) : bool :=
  if Config.storage_enabled (Config.storage config)
  then is_ok (Keys.connect (key_driver out) (Config.database_url (Config.storage config)))
  else is_some_and (env out (Config.api_key_env (Config.gateway config))) (fun k => negb (Str.is_empty (Str.trim k))).
Definition backend_ready (r : Config.RateLimitConfig) : bool :=
  match Config.rate_limit_backend r with
  | Config.Local_ => true
  | Config.Redis =>
      redis_feature out &&
      is_some_and (Config.redis_url_env r ≫= env out) (fun url => is_ok (connect_redis out url))
  end.
Definition cache_ready (config : Config.AppConfig) : bool :=
  negb (Config.cache_enabled (Config.cache config)) ||
  match Config.cache_backend (Config.cache config) with
  | Config.Memory => true
  | Config.Sqlite => is_ok (Keys.connect (key_driver out) (Config.database_url (Config.storage config)))
  end.
Definition log_ready (config : Config.AppConfig) : bool :=
  negb (Config.storage_enabled (Config.storage config)) ||
  is_ok (Sqlite.connect (log_driver out) (Config.database_url (Config.storage config))).
Definition ready (config : Config.AppConfig) : bool :=
  forallb (provider_ready (Config.gateway config)) (Config.providers config) && keys_ready config &&
  backend_ready (Config.rate_limit (Config.gateway config)) && cache_ready config && log_ready config.

(** An entry is the configured provider. *)
Definition entry_for (p : Config.ProviderConfig) (b : BuiltEntry) : Prop :=
  built_name b = Config.prov_name p /\ Provider.model (chat_provider (built_impl b)) = Config.prov_model p /\
  (forall m, Provider.supports_model (chat_provider (built_impl b)) m = String.eqb (Config.prov_model p) m) /\
  built_priority b = Config.prov_priority p /\
  Provider.cost_per_1k_input_tokens (built_pricing b) = Config.cost_per_1k_input_tokens p /\
  Provider.cost_per_1k_output_tokens (built_pricing b) = Config.cost_per_1k_output_tokens p.

(** The outcome of a step: done exactly if [b], and then the value is [P]. *)
Definition done_iff {A : Type} (x : init A) (b : bool) (P : A -> Prop) : Prop :=
  match x with Done a => b = true /\ P a | Failed _ => b = false | Panicked => False end.

Lemma done_iff_bind {A B : Type} (x : init A) (f : A -> init B) b b' P Q :
  done_iff x b P -> (forall a, P a -> done_iff (f a) b' Q) -> done_iff (init_bind x f) (b && b') Q.
Proof. destruct x as [a|e|]; cbn; [|by intros ->|done]. intros [-> Ha] Hf. by apply Hf. Qed.

Lemma real_provider_iff p timeout kind url : is_Some (Config.prov_api_key_env p) ->
  done_iff (real_provider out p timeout kind url)
    (is_some (Config.prov_api_key_env p ≫= env out) && is_ok (client out timeout)) (fun _ => True).
Proof.
  intros [k Hk]. unfold real_provider. rewrite Hk. cbn. destruct (env out k) as [v|]; cbn; [|done].
  by destruct (client out timeout).
Qed.

Lemma build_entry_iff g p : Config.provider_valid g p ->
  done_iff (build_entry out g p) (provider_ready g p) (entry_for p).
Proof.
  intros Hv. assert (Config.prov_kind p <> Config.Mock -> is_Some (Config.prov_api_key_env p)) as Hkey.
  { intros Hk. unfold Config.provider_valid in Hv. destruct Hv as (_ & _ & _ & _ & _ & _ & _ & _ & _ & H & _).
    destruct (H Hk) as (k & -> & _). by eexists. }
  unfold build_entry, provider_impl, provider_ready. destruct (Config.prov_kind p); [done| |];
    pose proof (real_provider_iff p (from_millis (default (Config.default_timeout_ms g) (Config.timeout_ms p)))) as Hr.
  - specialize (Hr "openai_compatible" "https://api.openai.com/v1" (Hkey ltac:(done))).
    by destruct (real_provider _ _ _ _ _) as [[]|e|]; cbn in *; [destruct Hr as [-> _]|..].
  - specialize (Hr "anthropic" "https://api.anthropic.com" (Hkey ltac:(done))).
    by destruct (real_provider _ _ _ _ _) as [[]|e|]; cbn in *; [destruct Hr as [-> _]|..].
Qed.

Lemma build_entries_iff g ps : Forall (Config.provider_valid g) ps ->
  done_iff (build_entries out g ps) (forallb (provider_ready g) ps) (Forall2 entry_for ps).
Proof.
  induction 1 as [|p ps Hp Hps IH]; cbn [build_entries forallb]; [by split|].
  eapply done_iff_bind; [by apply build_entry_iff|]. intros b Hb.
  rewrite <-(andb_true_r (forallb _ _)). eapply done_iff_bind; [exact IH|]. intros bs Hbs. cbn. split; [done|]. by constructor.
Qed.

(** What the state holds of the configuration. *)
Record faithful (config : Config.AppConfig) (st : AppState) : Prop := {
  by_priority : StronglySorted Z.le (map built_priority (providers _ _ st));
  all_built : exists built, built ≡ₚ providers _ _ st /\ Forall2 entry_for (Config.providers config) built;
  policy_in_force : forall p, p ∈ Config.providers config ->
    Resilience.policy_for (resilience _ _ st) (Config.prov_name p) = provider_resilience_policy p (Config.gateway config);
  breakers_closed : forall name, Resilience.circuit_state (resilience _ _ st) name = Resilience.Closed;
  policies_usable : forall name,
    let policy := Resilience.policy_for (resilience _ _ st) name in
    Resilience.failure_threshold (Resilience.breaker policy) <> 0 /\
    Resilience.half_open_max_probes (Resilience.breaker policy) <> 0 /\
    Resilience.initial_backoff_ms (Resilience.retry policy) <= Resilience.max_backoff_ms (Resilience.retry policy)
}.

Lemma policies_lookup g ps (m : gmap string Resilience.ProviderResiliencePolicy) name : NoDup (map Config.prov_name ps) ->
  (forall p, p ∈ ps -> m !! Config.prov_name p = None) ->
  (foldl (fun m p => <[Config.prov_name p := provider_resilience_policy p g]> m) m ps) !! name =
  match list_find (fun p => Config.prov_name p = name) ps with
  | Some (_, p) => Some (provider_resilience_policy p g)
  | None => m !! name
  end.
Proof.
  revert m. induction ps as [|p ps IH]; intros m Hnd Hm; [done|]. cbn [map foldl] in *. apply NoDup_cons in Hnd as [Hp Hnd].
  rewrite IH; [|done|].
  - cbn [list_find]. destruct (decide (Config.prov_name p = name)) as [E|Hne].
    + destruct (list_find _ ps) as [[i q]|] eqn:Ef; [|by rewrite E, lookup_insert_eq].
      apply list_find_Some in Ef as (Hq & Hqn & _). exfalso. apply Hp. rewrite E, <-Hqn. apply list_elem_of_fmap_2.
      by eapply list_elem_of_lookup_2.
    + destruct (list_find _ ps) as [[i q]|]; cbn; [done|]. by rewrite lookup_insert_ne.
  - intros q Hq. rewrite lookup_insert_ne; [apply Hm; by right|]. intros E. apply Hp. rewrite E. by apply list_elem_of_fmap_2.
Qed.

Lemma policy_cases config name : NoDup (map Config.prov_name (Config.providers config)) ->
  (exists p, p ∈ Config.providers config /\ Config.prov_name p = name /\
     policies config !! name = Some (provider_resilience_policy p (Config.gateway config))) \/
  policies config !! name = None.
Proof.
  intros Hnd. unfold policies. rewrite policies_lookup; [|done|by intros; apply lookup_empty].
  destruct (list_find _ _) as [[i p]|] eqn:E; [|right; apply lookup_empty]. left.
  apply list_find_Some in E as (Hp & Hn & _). exists p. split; [by eapply list_elem_of_lookup_2|done].
Qed.

Lemma policy_of_provider config p : NoDup (map Config.prov_name (Config.providers config)) -> p ∈ Config.providers config ->
  policies config !! Config.prov_name p = Some (provider_resilience_policy p (Config.gateway config)).
Proof.
  intros Hnd Hin. unfold policies. rewrite policies_lookup; [|done|by intros; apply lookup_empty].
  destruct (list_find _ _) as [[i q]|] eqn:E.
  - apply list_find_Some in E as (Hq & Hn & _). apply list_elem_of_lookup in Hin as [j Hj].
    assert (i = j) as ->; [|by rewrite Hq in Hj; injection Hj as ->].
    eapply NoDup_lookup; [exact Hnd|..]; rewrite list_lookup_fmap; [by rewrite Hq|]. rewrite Hj. cbn. by rewrite Hn.
  - exfalso. apply list_find_None in E. rewrite Forall_forall in E. by apply (E p Hin).
Qed.

Lemma sorted_priorities es : StronglySorted Z.le (map built_priority (sort_by (cmp_on built_priority Z.compare) es)).
Proof.
  pose proof (sort_by_sorted (cmp_on built_priority Z.compare) es) as Hs. induction Hs as [|b bs Hs IH Hall]; [constructor|].
  cbn [map]. constructor; [done|]. apply Forall_map. eapply Forall_impl; [exact Hall|]. intros x Hx. unfold cmp_on in Hx. cbn.
  by apply Z.compare_le_iff.
Qed.

Lemma fresh_circuits names name d ps : Resilience.circuit_state (Resilience.new d ps names) name = Resilience.Closed.
Proof.
  pose proof (Resilience.new_breaker_of d ps names name) as H. unfold Resilience.breaker_of in H.
  unfold Resilience.circuit_state. by rewrite H.
Qed.

Lemma init_bind_done {A B : Type} (x : init A) (f : A -> init B) b : init_bind x f = Done b -> exists a, x = Done a /\ f a = Done b.
Proof. destruct x; [by eexists|done|done]. Qed.

(** The backend the middleware asks: the limiter itself, or a Redis server
    with that limiter to fall back on if so configured. *)
Definition backend_for (config : Config.RateLimitConfig) (l : RateLimit.RateLimiter C) (b : AnyBackend C) : Prop :=
  match Config.rate_limit_backend config with
  | Config.Local_ => b = LocalBackend C l
  | Config.Redis => exists server,
      b = RedisBackend C (Redis.connect C server config (if Config.redis_fallback_to_local config then Some l else None))
  end.

(** The parts of the state that come straight from the configuration. *)
Lemma built_parts config now st : from_config C M out config now = Done st ->
  metrics _ _ st = Unpoisoned Metrics.MetricsRegistry_default /\
  RateLimit.new (Config.rate_limit (Config.gateway config)) now = Some (rate_limiter _ _ st) /\
  admission _ _ st = Admission.new (Admission.from_config (Config.admission (Config.gateway config))
                                      (Config.providers config) (Config.model_pools config)) /\
  (exists names, resilience _ _ st =
     Resilience.new (gateway_resilience_defaults (Config.gateway config)) (policies config) names) /\
  backend_for (Config.rate_limit (Config.gateway config)) (rate_limiter _ _ st) (share_limiter C M st).
Proof.
  unfold from_config. intros (es & _ & Hst)%init_bind_done. apply init_bind_done in Hst as (st0 & Hs0 & Hst).
  apply init_bind_done in Hst as (ks & _ & Hst). apply init_bind_done in Hst as (l & Hl & Hst).
  apply init_bind_done in Hst as (b & Hb & Hst). apply init_bind_done in Hst as (idx & _ & Hst).
  apply init_bind_done in Hst as (c & _ & Hst). apply init_bind_done in Hst as (log & _ & Hst). injection Hst as <-. cbn [metrics rate_limiter admission resilience].
  destruct (from_providers C M es now) as [st1|] eqn:E; [|done]. injection Hs0 as <-.
  destruct (RateLimit.new _ now) as [l'|]; [|done]. injection Hl as <-.
  unfold from_providers in E. destruct (RateLimit.new _ _); [|done]. cbn in E. destruct (PrefixAffinity.new _); [|done]. injection E as <-. split; [done|]. split; [done|]. split; [done|]. split; [by eexists|].
  unfold backend_for, share_limiter. cbn [rate_limit_backend_is_redis rate_limit_backend rate_limiter].
  unfold build_rate_limit_backend in Hb. destruct (Config.rate_limit_backend _); cbn [Config.is_redis negb]; [done|].
  unfold build_redis_rate_limit_backend in Hb. destruct (redis_feature out); [|done].
  apply init_bind_done in Hb as (e & _ & Hb). apply init_bind_done in Hb as (url & _ & Hb).
  apply init_bind_done in Hb as (server & _ & Hb). injection Hb as <-. by exists server.
Qed.

(** With storage on, requests are authenticated against the database the key
    commands write to; without, against the one key of the environment. *)
Lemma built_keys config now st : from_config C M out config now = Done st ->
  if Config.storage_enabled (Config.storage config)
  then exists s, Keys.connect (key_driver out) (Config.database_url (Config.storage config)) = Ok s /\ key_store _ _ st = SqliteKeys s
  else exists k, env out (Config.api_key_env (Config.gateway config)) = Some k /\ Str.is_empty (Str.trim k) = false /\
    key_store _ _ st = StaticKeys {| Keys.static_raw_key := k |}.
Proof.
  unfold from_config. intros (es & _ & Hst)%init_bind_done. apply init_bind_done in Hst as (st0 & _ & Hst).
  apply init_bind_done in Hst as (ks & Hks & Hst). apply init_bind_done in Hst as (l & _ & Hst).
  apply init_bind_done in Hst as (b & _ & Hst). apply init_bind_done in Hst as (idx & _ & Hst).
  apply init_bind_done in Hst as (c & _ & Hst). apply init_bind_done in Hst as (log & _ & Hst).
  injection Hst as <-. cbn [key_store]. unfold build_key_store in Hks.
  destruct (Config.storage_enabled _).
  - destruct (Keys.connect _ _) as [s|]; [|done]. injection Hks as <-. by exists s.
  - destruct (env out _) as [k|]; [|done]. cbn in Hks. destruct (Str.is_empty _) eqn:E; [done|]. injection Hks as <-. by exists k.
Qed.

(** What the libraries have room for: the tables of the limiter and the prefix
    index, which are allocated at once (first with the default capacities), and
    a time to live the in-memory cache takes. *)
Definition ttl_fits (config : Config.AppConfig) : bool :=
  negb (Config.cache_enabled (Config.cache config)) ||
  match Config.cache_backend (Config.cache config) with
  | Config.Memory => from_secs (Config.default_ttl_seconds (Config.cache config)) <=? MemoryCache.moka_max_ttl
  | Config.Sqlite => true
  end.
Definition roomy (config : Config.AppConfig) : bool :=
  lru_fits (Config.max_tracked_keys Config.RateLimitConfig_default) &&
  lru_fits (Z.max (Config.affinity_max_entries Config.PrefixAffinityConfig_default) 1) &&
  lru_fits (Config.max_tracked_keys (Config.rate_limit (Config.gateway config))) &&
  lru_fits (Z.max (Config.affinity_max_entries (Config.prefix_affinity (Config.gateway config))) 1) && ttl_fits config.

Context `{!MemoryCache.MokaLaws M}.

Lemma memory_cache_new ttl cap : is_Some (MemoryCache.new M ttl cap) <-> ttl <= MemoryCache.moka_max_ttl.
Proof.
  rewrite <-(MemoryCache.moka_build_some (V:=Chat.ChatCompletionResponse) (Z.max cap 1)). unfold MemoryCache.new.
  destruct (MemoryCache.moka_build _ _); split; intros [x Hx]; try done; by eexists.
Qed.

(** Without that room nothing starts. *)
Lemma cramped_never_starts config now st : roomy config = false -> from_config C M out config now <> Done st.
Proof.
  intros Hr. unfold from_config. intros (es & _ & Hst)%init_bind_done. apply init_bind_done in Hst as (st0 & Hs0 & Hst).
  apply init_bind_done in Hst as (ks & _ & Hst). apply init_bind_done in Hst as (l & Hl & Hst).
  apply init_bind_done in Hst as (b & _ & Hst). apply init_bind_done in Hst as (idx & Hi & Hst).
  apply init_bind_done in Hst as (c & Hc & _). assert (roomy config = true) as Hr'; [|by rewrite Hr' in Hr].
  unfold roomy. apply andb_true_intro. split; [apply andb_true_intro; split; [apply andb_true_intro; split|]|].
  - destruct (from_providers C M es now) as [st1|] eqn:E; [|done]. unfold from_providers, RateLimit.new in E.
    destruct (lru_fits (Config.max_tracked_keys Config.RateLimitConfig_default)) eqn:E1; [|by rewrite orb_true_r in E].
    cbn in E. unfold PrefixAffinity.new in E. by destruct (lru_fits (Z.max (Config.affinity_max_entries Config.PrefixAffinityConfig_default) 1)).
  - unfold RateLimit.new in Hl. destruct (lru_fits (Config.max_tracked_keys (Config.rate_limit (Config.gateway config)))); [done|].
    by rewrite orb_true_r in Hl.
  - unfold PrefixAffinity.new in Hi. by destruct (lru_fits (Z.max (Config.affinity_max_entries (Config.prefix_affinity _)) 1)).
  - unfold ttl_fits. destruct (Config.cache_enabled _); [|done]. apply init_bind_done in Hc as (c' & Hc & _).
    unfold build_response_cache in Hc. destruct (Config.cache_backend _); [|done]. apply init_bind_done in Hc as (m & Hm & _).
    apply Z.leb_le. eapply memory_cache_new. destruct (MemoryCache.new M _ _) eqn:E; [by rewrite E; eexists|done].
Qed.

Lemma from_config_builds config now : Config.validate_config config = Ok tt -> roomy config = true ->
  done_iff (from_config C M out config now) (ready config) (faithful config).
Proof.
  intros Hv Hroom. unfold roomy in Hroom. rewrite !andb_true_iff in Hroom. destruct Hroom as ((((Hf1 & Hf2) & Hf3) & Hf4) & Httl).
  pose proof (Config.validate_config_ok_providers config Hv) as (_ & Hnd & Hps & _).
  pose proof (Config.validate_config_ok_gateway config Hv) as (_ & (_ & _ & Hb) & (Ht & _ & Hp) & Hrl & _).
  destruct Hrl as (_ & _ & _ & _ & Hkeys & Hredis). unfold from_config, ready. rewrite <-!andb_assoc.
  eapply done_iff_bind; [by apply build_entries_iff|]. intros es Hes.
  set (sorted := sort_by (cmp_on built_priority Z.compare) es).
  destruct (from_providers C M es now) as [st|] eqn:Est.
  2:{ exfalso. revert Est. unfold from_providers, RateLimit.new, PrefixAffinity.new. rewrite Hf1, Hf2. by cbn. }
  cbn [from_option_panic init_bind]. assert (providers C M st = sorted) as Hst.
  { unfold from_providers in Est. destruct (RateLimit.new _ _); [|done]. cbn in Est.
    destruct (PrefixAffinity.new _); [|done]. by injection Est as <-. }
  eapply (done_iff_bind _ _ _ _ (fun _ => True)).
  { unfold build_key_store, keys_ready. destruct (Config.storage_enabled _); [by destruct (Keys.connect _ _)|].
    destruct (env out _) as [k|]; [|done]. cbn. by destruct (Str.is_empty _). }
  intros keys _. unfold RateLimit.new. rewrite (proj2 (Z.eqb_neq _ _) Hkeys), Hf3. cbn [orb negb from_option_panic init_bind].
  eapply (done_iff_bind _ _ _ _ (fun _ => True)).
  { unfold build_rate_limit_backend, backend_ready. destruct (Config.rate_limit_backend _) eqn:Eb; [done|].
    unfold build_redis_rate_limit_backend. destruct (redis_feature out); [|done].
    destruct (Hredis eq_refl) as (e & -> & _). cbn. destruct (env out e) as [url|]; [|done]. cbn.
    by destruct (connect_redis out url). }
  intros backend _. unfold PrefixAffinity.new. rewrite Hf4. cbn [from_option_panic init_bind].
  eapply (done_iff_bind _ _ _ _ (fun _ => True)).
  { unfold cache_ready, build_response_cache. unfold ttl_fits in Httl. destruct (Config.cache_enabled _); [|done].
    destruct (Config.cache_backend _); [|by destruct (Keys.connect _ _)]. cbn in Httl. zbool.
    by destruct (proj2 (memory_cache_new (from_secs (Config.default_ttl_seconds (Config.cache config)))
      (Config.cache_max_entries (Config.cache config))) Httl) as [c ->]. }
  intros cache _. rewrite <-(andb_true_r (log_ready config)). eapply (done_iff_bind _ _ _ _ (fun _ => True)).
  { unfold log_ready. destruct (Config.storage_enabled _); [|done]. by destruct (Sqlite.connect _ _). }
  intros store _. cbn [done_iff]. split; [done|]. split; cbn [providers resilience].
  - rewrite Hst. apply sorted_priorities.
  - exists es. rewrite Hst. split; [|done]. symmetry. apply sort_by_perm.
  - intros p Hin. unfold Resilience.policy_for. cbn [Resilience.new Resilience.provider_policies].
    by rewrite (policy_of_provider config p Hnd Hin).
  - intros name. apply fresh_circuits.
  - intros name. unfold Resilience.policy_for. cbn [Resilience.new Resilience.provider_policies Resilience.default_policy].
    destruct (policy_cases config name Hnd) as [(p & Hin & _ & ->)| -> ]; [|done]. cbn [default from_option].
    rewrite Forall_forall in Hps. specialize (Hps p Hin). unfold Config.provider_valid in Hps. cbn. tauto.
Qed.

(** C20: a validated configuration starts the gateway exactly when what it needs
    is there: the keys in the environment (not blank for the gateway's own), the
    HTTP clients, and the database, cache and Redis connections it asks for;
    assembly does not panic, as long as the libraries have room for the tables
    configured and the in-memory cache, if used, is given a time to live of at
    most 1000 years, and without that nothing starts.  The state then has every
    configured provider once, in priority order, with its model and prices, under
    the retry and breaker policy configured for it (the gateway's where it sets
    none), all breakers closed and every policy in force usable. *)
Theorem validated_config_builds config now : Config.validate_config config = Ok tt ->
  if roomy config then done_iff (from_config C M out config now) (ready config) (faithful config)
  else forall st, from_config C M out config now <> Done st.
Proof.
  intros Hv. destruct (roomy config) eqn:Hr; [by apply from_config_builds|]. intros st. by apply cramped_never_starts.
Qed.

(** A time to live above that passes validation and panics. *)
Lemma long_ttl_panics config now st : Config.cache_enabled (Config.cache config) = true ->
  Config.cache_backend (Config.cache config) = Config.Memory ->
  MemoryCache.moka_max_ttl < from_secs (Config.default_ttl_seconds (Config.cache config)) ->
  from_config C M out config now <> Done st.
Proof.
  intros He Hb Ht. apply cramped_never_starts. unfold roomy, ttl_fits. rewrite He, Hb. cbn.
  rewrite (proj2 (Z.leb_gt _ _)) by lia. apply andb_false_r.
Qed.

End Builds.

(** ** A concrete start *)

(** An environment with only the gateway's key. *)
Definition demo_outside : Outside :=
  {| env := fun v => if String.eqb v "RUSTYGATE_API_KEY" then Some "secret" else None;
     key_driver := Keys.no_driver; log_driver := Keys.no_driver;
     cache_of := fun _ => {| Cache.online := true; Cache.cache_entries := ∅ |}; client := fun _ => Ok tt;
     connect_redis := fun _ => Err "refused"; redis_feature := false |}.

Lemma validated_config_builds_witness :
  Config.validate_config (Config.example_config ["mock"]) = Ok tt /\
  exists st, from_config ref_lru MemoryCache.ref_moka demo_outside (Config.example_config ["mock"]) 0 = Done st /\
    faithful ref_lru MemoryCache.ref_moka (Config.example_config ["mock"]) st.
Proof.
  assert (Config.validate_config (Config.example_config ["mock"]) = Ok tt) as Hv by (by vm_compute). split; [exact Hv|].
  pose proof (validated_config_builds ref_lru MemoryCache.ref_moka demo_outside (Config.example_config ["mock"]) 0 Hv) as H.
  assert (ready demo_outside (Config.example_config ["mock"]) = true) as Hr by (by vm_compute).
  assert (roomy ref_lru (Config.example_config ["mock"]) = true) as Hroom by (by vm_compute). rewrite Hroom in H.
  unfold done_iff in H. destruct (from_config ref_lru MemoryCache.ref_moka demo_outside (Config.example_config ["mock"]) 0) as [st|e|].
  - exists st. split; [reflexivity|exact (proj2 H)].
  - rewrite Hr in H. discriminate H.
  - destruct H.
Defined.

End Build.
