(* ===== verification/Semantic.v ===== *)
(** * The semantic cache (src/src/cache/semantic.rs)

    A second index over the response cache: entries carry the embedding of
    their prompt, and a lookup answers with the entry of the same model whose
    embedding is most similar to the prompt's, if it is similar enough.  The
    embedding service is an argument; the cache behind is any instance of
    [Cache.ResponseCache]. *)
From S2P Require Import Prelude Str F64 Chat Provider Config Cache.
From Stdlib Require Import SpecFloat.

Open Scope string_scope.
Open Scope list_scope.
Open Scope Z_scope.

Module Semantic.

Record SemanticCachePolicy := { similarity_threshold : F32.t }.
Definition SemanticCachePolicy_default : SemanticCachePolicy := {| similarity_threshold := F32.literal 95 2 |}.

Record SemanticEntry := { key : Cache.CacheKey; model : string; embedding : list F32.t }.

(** One iteration of the loop over the zipped vectors. *)
Definition accumulate (acc : F32.t * F32.t * F32.t) (lr : F32.t * F32.t) : F32.t * F32.t * F32.t :=
  let '(dot, left_norm, right_norm) := acc in
  (F32.add dot (F32.mul lr.1 lr.2), F32.add left_norm (F32.mul lr.1 lr.1), F32.add right_norm (F32.mul lr.2 lr.2)).

Definition cosine_similarity (left right : list F32.t) : option F32.t :=
  if negb (bool_decide (length left = length right)) || bool_decide (left = []) then None
  else
    let '(dot, left_norm, right_norm) := foldl accumulate (F32.zero, F32.zero, F32.zero) (zip left right) in
    if F32.eqb left_norm F32.zero || F32.eqb right_norm F32.zero then None
    else Some (F32.div dot (F32.mul (F32.sqrt left_norm) (F32.sqrt right_norm))).

Definition is_semantic_hit (policy : SemanticCachePolicy) (similarity : F32.t) : bool :=
  F32.leb (similarity_threshold policy) similarity.

Section Cached.
Context {K : Type} `{!Cache.ResponseCache K}.
(** [EmbeddingProvider::embed] *)
Variable embed : string -> result (list F32.t) Provider.ProviderError.

Record SemanticResponseCache := {
  inner : K;
  entries : list SemanticEntry;
  policy : SemanticCachePolicy;
  ttl : Z
}.

Definition new (inner : K) (policy : SemanticCachePolicy) (ttl : Z) : SemanticResponseCache :=
  {| inner := inner; entries := []; policy := policy; ttl := ttl |}.

(** The entries that hit, with their similarity. *)
Definition hits (c : SemanticResponseCache) (v : list F32.t) (m : string) : list (SemanticEntry * F32.t) :=
  filter (fun p => is_semantic_hit (policy c) p.2 = true)
    (omap (fun e => (fun similarity => (e, similarity)) <$> cosine_similarity v (embedding e))
       (filter (fun e => model e = m) (entries c))).

Definition get_semantic (now : Z) (prompt_text m : string) (c : SemanticResponseCache) :
  SemanticResponseCache * result (option Chat.ChatCompletionResponse) Provider.ProviderError :=
  match embed prompt_text with
  | Err e => (c, Err e)
  | Ok v =>
      match max_by (cmp_on snd F32.total_cmp) (hits c v m) with
      | None => (c, Ok None)
      | Some (entry, _) =>
          let '(inner', found) := Cache.cache_get now (key entry) (inner c) in
          ({| inner := inner'; entries := entries c; policy := policy c; ttl := ttl c |}, Ok found)
      end
  end.

Definition put_semantic (now : Z) (k : Cache.CacheKey) (prompt_text m : string) (response : Chat.ChatCompletionResponse)
  (c : SemanticResponseCache) : SemanticResponseCache * result unit Provider.ProviderError :=
  match embed prompt_text with
  | Err e => (c, Err e)
  | Ok v =>
      ({| inner := Cache.cache_put now k response (ttl c) (inner c);
          entries := entries c ++ [{| key := k; model := m; embedding := v |}]; policy := policy c; ttl := ttl c |}, Ok tt)
  end.

(* ------------------------------------------------------------------ *)
(** ** Histories *)

Inductive op :=
| Put (now : Z) (k : Cache.CacheKey) (prompt m : string) (response : Chat.ChatCompletionResponse)
| Get (now : Z) (prompt m : string).

Definition step (c : SemanticResponseCache) (o : op) : SemanticResponseCache :=
  match o with
  | Put now k prompt m response => fst (put_semantic now k prompt m response c)
  | Get now prompt m => fst (get_semantic now prompt m c)
  end.

(** The prompts stored: those whose embedding could be computed. *)
Definition stored (o : op) : option SemanticEntry :=
  match o with
  | Put _ k prompt m _ =>
      match embed prompt with Ok v => Some {| key := k; model := m; embedding := v |} | Err _ => None end
  | Get _ _ _ => None
  end.

Lemma run_entries ops c : entries (foldl step c ops) = entries c ++ omap stored ops /\ policy (foldl step c ops) = policy c.
Proof.
  revert c. induction ops as [|o ops IH]; intros c; [cbn; by rewrite app_nil_r|]. cbn [foldl omap list_omap].
  destruct (IH (step c o)) as [-> ->]. destruct o as [now k prompt m r|now prompt m]; cbn [step stored].
  - unfold put_semantic. destruct (embed prompt) as [v|e]; [|done]. cbn. by rewrite <-app_assoc.
  - unfold get_semantic. destruct (embed prompt) as [v|e]; [|done].
    destruct (max_by _ _) as [[e x]|]; [|done]. by destruct (Cache.cache_get _ _ _).
Qed.

Definition hit (p : SemanticCachePolicy) (v : list F32.t) (m : string) (e : SemanticEntry) (x : F32.t) : Prop :=
  model e = m /\ cosine_similarity v (embedding e) = Some x /\ is_semantic_hit p x = true.

Lemma elem_of_hits c v m e x : (e, x) ∈ hits c v m <-> e ∈ entries c /\ hit (policy c) v m e x.
Proof.
  unfold hits, hit. rewrite list_elem_of_filter, list_elem_of_omap. cbn. split.
  - intros [Hx (e' & [Hm He]%list_elem_of_filter & Hs)]. destruct (cosine_similarity v (embedding e')) as [y|] eqn:E; [|done].
    injection Hs as -> ->. done.
  - intros (He & Hm & Hs & Hx). split; [done|]. exists e. split; [by apply list_elem_of_filter|]. by rewrite Hs.
Qed.

(** The semantic cache answers from the most similar stored prompt.  After
    any history of lookups and insertions, a lookup whose prompt has an
    embedding answers what the cache behind holds for a prompt stored with the
    same model whose similarity reaches the threshold and is the greatest of
    all stored prompts of that model that do; if none does it answers nothing,
    and if the embedding fails it fails. *)
Theorem semantic_lookup_nearest ops inner0 p t now prompt m :
  let c := foldl step (new inner0 p t) ops in
  let known := omap stored ops in
  match embed prompt with
  | Err e => snd (get_semantic now prompt m c) = Err e
  | Ok v =>
      (snd (get_semantic now prompt m c) = Ok None /\ forall e x, e ∈ known -> ~ hit p v m e x) \/
      exists e x, e ∈ known /\ hit p v m e x /\
        (forall e' x', e' ∈ known -> hit p v m e' x' -> F32.total_cmp x' x <> Gt) /\
        snd (get_semantic now prompt m c) = Ok (snd (Cache.cache_get now (key e) (inner c)))
  end.
Proof.
  cbv zeta. destruct (run_entries ops (new inner0 p t)) as [He Hp]. cbn [new entries policy app] in He, Hp.
  set (c := foldl step (new inner0 p t) ops) in *. unfold get_semantic. destruct (embed prompt) as [v|e]; [|done].
  assert (forall e x, e ∈ omap stored ops -> hit p v m e x -> (e, x) ∈ hits c v m) as Hin
    by (intros e x H1 H2; apply elem_of_hits; by rewrite He, Hp).
  destruct (max_by _ (hits c v m)) as [[e x]|] eqn:E.
  - right. exists e, x. destruct (max_by_spec _ _ _ E) as [H1 H2]. apply elem_of_hits in H1 as [H1 H3]. rewrite He in H1. rewrite Hp in H3.
    split; [done|]. split; [done|]. split; [|by destruct (Cache.cache_get _ _ _)].
    intros e' x' He' Hx'. apply (H2 (e', x')). by apply Hin.
  - left. split; [done|]. intros e x H1 H2. specialize (Hin e x H1 H2). by destruct (hits c v m); [apply elem_of_nil in Hin|].
Qed.

End Cached.

(** The similarity is computed in [f32], so that a prompt's similarity with
    itself can round to less than one: under a threshold of 1.0, which
    [Config.validate_cache] accepts, this prompt never finds itself. *)
Lemma own_similarity_below_one :
  let v := [F32.of_Z 6; F32.of_Z 1] in
  match cosine_similarity v v with
  | Some x => F32.ltb x F32.one && negb (is_semantic_hit {| similarity_threshold := F32.one |} x)
              && is_semantic_hit SemanticCachePolicy_default x
  | None => false
  end = true.
Proof. vm_compute. reflexivity. Qed.

End Semantic.
