(* ===== verification/Compat.v ===== *)
(** * Placeholder endpoints (src/src/routes/compat.rs)

    The handlers behind [Middleware.placeholder_routes]: fixed or echoed JSON
    documents in the shapes of the OpenAI API.  A handler is a function of the
    parsed JSON body or the path parameter, the wall clock and the UUIDs it
    draws; what axum's extractors make of the request is an argument.
    [json_object] is the [json!] object literal: the fields in the order of the
    source, kept in key order by the map behind them ([serde_json] without
    [preserve_order]). *)
From S2P Require Import Prelude Str F64 Chat Config Middleware.
From Stdlib Require Import SpecFloat.

Open Scope string_scope.
Open Scope list_scope.
Open Scope Z_scope.

Module Compat.
Import Chat (Value, Null, Bool, Num, Str_, Array, Object).

(* ------------------------------------------------------------------ *)
(** ** JSON values *)

Fixpoint map_insert (k : string) (v : Value) (fields : list (string * Value)) : list (string * Value) :=
  match fields with
  | [] => [(k, v)]
  | (k', v') :: rest =>
      match String.compare k k' with
      | Lt => (k, v) :: fields
      | Eq => (k, v) :: rest
      | Gt => (k', v') :: map_insert k v rest
      end
  end.
Definition json_object (fields : list (string * Value)) : Value :=
  Object (foldl (fun m kv => map_insert kv.1 kv.2 m) [] fields).

(** [Value::get], [as_str] and [as_u64] *)
Definition get (k : string) (v : Value) : option Value :=
  match v with
  | Object fields => snd <$> head (filter (fun kv => kv.1 = k) fields)
  | _ => None
  end.
Definition as_str (v : Value) : option string := match v with Str_ s => Some s | _ => None end.
Definition as_u64 (v : Value) : option Z := match v with Num (Chat.PosInt n) => Some n | _ => None end.

(** [Value::from] of the integers and of [f32], whose widening is exact, so
    that it is finite when the number is *)
Definition of_u64 (n : Z) : Value := Num (Chat.PosInt n).
Definition of_i64 (n : Z) : Value := Num (if n <? 0 then Chat.NegInt n else Chat.PosInt n).
Definition finite (x : F64.t) : bool := match x with S754_zero _ | S754_finite _ _ _ => true | _ => false end.
Definition of_f32 (x : F32.t) : Value := let y := F32.to_f64 x in if finite y then Num (Chat.Float y) else Null.

Definition u32_of (n : Z) : Z := n mod 2 ^ 32.

(* ------------------------------------------------------------------ *)
(** ** Handlers *)

Section Handlers.
(** [unix_timestamp()] *)
Variable now : Z.

Definition deterministic_embedding (index : nat) : list F32.t :=
  map (fun slot => F32.div (F32.of_Z (Z.of_nat (index + slot + 1))) (F32.of_Z 100)) (seq 0 16).

Definition embeddings (request : Value) : Value :=
  let model := default "text-embedding-3-small" (get "model" request ≫= as_str) in
  let input_count :=
    match get "input" request with
    | Some (Array items) => Nat.max (length items) 1
    | Some _ => 1%nat
    | None => 1%nat
    end in
  let data := map (fun index => json_object [
    ("object", Str_ "embedding");
    ("index", of_u64 (Z.of_nat index));
    ("embedding", Array (map of_f32 (deterministic_embedding index)))]) (seq 0 input_count) in
  json_object [
    ("object", Str_ "list");
    ("data", Array data);
    ("model", Str_ model);
    ("usage", json_object [
      ("prompt_tokens", of_u64 (u32_of (Z.of_nat input_count)));
      ("total_tokens", of_u64 (u32_of (Z.of_nat input_count)))])].

Definition moderations (id : Chat.Uuid) : Value :=
  json_object [
    ("id", Str_ (Chat.openai_id "modr" id));
    ("model", Str_ "omni-moderation-latest");
    ("results", Array [json_object [
      ("flagged", Bool false);
      ("categories", json_object []);
      ("category_scores", json_object [])]])].

Definition image_response (n : nat) : Value :=
  let data := map (fun _ => json_object [
    ("url", Str_ "data:image/png;base64,");
    ("revised_prompt", Str_ "")]) (seq 0 n) in
  json_object [("created", of_i64 now); ("data", Array data)].

Definition image_count (request : Value) : Z :=
  Z.min 10 (Z.max 1 (default 1 (get "n" request ≫= as_u64))).
Definition image_generation (request : Value) : Value := image_response (Z.to_nat (image_count request)).
Definition image_edit : Value := image_response 1.
Definition image_variation : Value := image_response 1.

Definition audio_transcription : Value := json_object [("text", Str_ "")].
Definition audio_translation : Value := json_object [("text", Str_ "")].

Definition list_files : Value := json_object [("object", Str_ "list"); ("data", Array [])].

Definition file_object (id filename : string) : Value :=
  json_object [
    ("id", Str_ id);
    ("object", Str_ "file");
    ("bytes", of_i64 0);
    ("created_at", of_i64 now);
    ("filename", Str_ filename);
    ("purpose", Str_ "assistants");
    ("status", Str_ "processed")].

Definition create_file (id : Chat.Uuid) : Value := file_object (Chat.openai_id "file" id) "uploaded-file".
Definition retrieve_file (file_id : string) : Value := file_object file_id "uploaded-file".
Definition delete_file (file_id : string) : Value :=
  json_object [("id", Str_ file_id); ("object", Str_ "file"); ("deleted", Bool true)].
Definition file_content : string := "".

Definition batch_object (id endpoint status : string) : Value :=
  json_object [
    ("id", Str_ id);
    ("object", Str_ "batch");
    ("endpoint", Str_ endpoint);
    ("errors", Null);
    ("input_file_id", Null);
    ("completion_window", Str_ "24h");
    ("status", Str_ status);
    ("output_file_id", Null);
    ("error_file_id", Null);
    ("created_at", of_i64 now);
    ("in_progress_at", Null);
    ("expires_at", Null);
    ("finalizing_at", Null);
    ("completed_at", Null);
    ("failed_at", Null);
    ("expired_at", Null);
    ("cancelling_at", Null);
    ("cancelled_at", Null);
    ("request_counts", json_object [
      ("total", of_i64 0);
      ("completed", of_i64 0);
      ("failed", of_i64 0)]);
    ("metadata", json_object [])].

Definition list_batches : Value := json_object [("object", Str_ "list"); ("data", Array [])].
Definition create_batch (id : Chat.Uuid) (request : Value) : Value :=
  let endpoint := default "/v1/responses" (get "endpoint" request ≫= as_str) in
  batch_object (Chat.openai_id "batch" id) endpoint "validating".
Definition retrieve_batch (batch_id : string) : Value := batch_object batch_id "/v1/responses" "completed".
Definition cancel_batch (batch_id : string) : Value := batch_object batch_id "/v1/responses" "cancelled".

Definition fine_tuning_job_object (id model status : string) : Value :=
  json_object [
    ("id", Str_ id);
    ("object", Str_ "fine_tuning.job");
    ("created_at", of_i64 now);
    ("finished_at", Null);
    ("model", Str_ model);
    ("fine_tuned_model", Null);
    ("organization_id", Str_ "rustygate");
    ("result_files", Array []);
    ("status", Str_ status);
    ("validation_file", Null);
    ("training_file", Null);
    ("hyperparameters", json_object []);
    ("trained_tokens", Null);
    ("error", Null)].

Definition list_fine_tuning_jobs : Value := json_object [("object", Str_ "list"); ("data", Array [])].
Definition create_fine_tuning_job (id : Chat.Uuid) (request : Value) : Value :=
  let model := default "unknown" (get "model" request ≫= as_str) in
  fine_tuning_job_object (Chat.openai_id "ftjob" id) model "validating_files".
Definition retrieve_fine_tuning_job (job_id : string) : Value := fine_tuning_job_object job_id "unknown" "succeeded".
Definition cancel_fine_tuning_job (job_id : string) : Value := fine_tuning_job_object job_id "unknown" "cancelled".
Definition list_fine_tuning_events : Value := json_object [("object", Str_ "list"); ("data", Array [])].

Definition realtime_session (id secret : Chat.Uuid) (request : Value) : Value :=
  let model := default "gpt-4o-realtime-preview" (get "model" request ≫= as_str) in
  json_object [
    ("id", Str_ (Chat.openai_id "sess" id));
    ("object", Str_ "realtime.session");
    ("model", Str_ model);
    ("client_secret", json_object [
      ("value", Str_ (Chat.openai_id "rt" secret));
      ("expires_at", of_i64 (now + 60))])].

(* ------------------------------------------------------------------ *)
(** ** The routes *)

(** What axum's extractors make of a request: the path parameter, the JSON body
    or the status it is refused with, and the same for the raw bytes. *)
Record Extracted := {
  path_param : string;
  json_body : result Value Z;
  raw_body : result unit Z
}.

Inductive Reply := JsonReply (v : Value) | TextReply (s : string) | Refused (status : Z).

(** The handler the router puts behind a route of the table. *)
Definition placeholder_handler (route : Middleware.Method * string) (q : Extracted) (id secret : Chat.Uuid) :
  option Reply :=
  let json v := Some (JsonReply v) in
  let with_json f := Some (match json_body q with Ok request => JsonReply (f request) | Err status => Refused status end) in
  let with_bytes v := Some (match raw_body q with Ok _ => JsonReply v | Err status => Refused status end) in
  let param := path_param q in
  match route with
  | (Middleware.POST, path) =>
      if String.eqb path "/v1/embeddings" then with_json embeddings
      else if String.eqb path "/v1/moderations" then with_json (fun _ => moderations id)
      else if String.eqb path "/v1/images/generations" then with_json image_generation
      else if String.eqb path "/v1/images/edits" then with_bytes image_edit
      else if String.eqb path "/v1/images/variations" then with_bytes image_variation
      else if String.eqb path "/v1/audio/transcriptions" then with_bytes audio_transcription
      else if String.eqb path "/v1/audio/translations" then with_bytes audio_translation
      else if String.eqb path "/v1/files" then with_bytes (create_file id)
      else if String.eqb path "/v1/batches" then with_json (create_batch id)
      else if String.eqb path "/v1/batches/{batch_id}/cancel" then json (cancel_batch param)
      else if String.eqb path "/v1/fine_tuning/jobs" then with_json (create_fine_tuning_job id)
      else if String.eqb path "/v1/fine_tuning/jobs/{job_id}/cancel" then json (cancel_fine_tuning_job param)
      else if String.eqb path "/v1/realtime/sessions" then with_json (realtime_session id secret)
      else None
  | (Middleware.GET, path) =>
      if String.eqb path "/v1/files" then json list_files
      else if String.eqb path "/v1/files/{file_id}" then json (retrieve_file param)
      else if String.eqb path "/v1/files/{file_id}/content" then Some (TextReply file_content)
      else if String.eqb path "/v1/batches" then json list_batches
      else if String.eqb path "/v1/batches/{batch_id}" then json (retrieve_batch param)
      else if String.eqb path "/v1/fine_tuning/jobs" then json list_fine_tuning_jobs
      else if String.eqb path "/v1/fine_tuning/jobs/{job_id}" then json (retrieve_fine_tuning_job param)
      else if String.eqb path "/v1/fine_tuning/jobs/{job_id}/events" then json list_fine_tuning_events
      else None
  | (Middleware.DELETE, path) =>
      if String.eqb path "/v1/files/{file_id}" then json (delete_file param) else None
  end.

End Handlers.

(* ------------------------------------------------------------------ *)
(** ** What a client may rely on *)

(** The status of a refused body, for the routes that read one. *)
Inductive Reads := ReadsJson | ReadsBytes | ReadsNothing.
Definition reads (route : Middleware.Method * string) : Reads :=
  match route with
  | (Middleware.POST, path) =>
      if existsb (String.eqb path) ["/v1/embeddings"; "/v1/moderations"; "/v1/images/generations"; "/v1/batches";
                                    "/v1/fine_tuning/jobs"; "/v1/realtime/sessions"] then ReadsJson
      else if existsb (String.eqb path) ["/v1/images/edits"; "/v1/images/variations"; "/v1/audio/transcriptions";
                                         "/v1/audio/translations"; "/v1/files"] then ReadsBytes
      else ReadsNothing
  | _ => ReadsNothing
  end.
Definition refused (route : Middleware.Method * string) (q : Extracted) : option Z :=
  match reads route, json_body q, raw_body q with
  | ReadsJson, Err status, _ | ReadsBytes, _, Err status => Some status
  | _, _, _ => None
  end.

(** The string a request carries under a key, or else the handler's own. *)
Definition echoed (k fallback : string) (body : Value) : Value :=
  match get k body with Some (Str_ s) => Str_ s | _ => Str_ fallback end.

(** How many entries [data] has: one embedding for each input and at least
    one, one to ten images, nothing in a listing. *)
Definition entries (route : Middleware.Method * string) (body : Value) : nat :=
  if String.eqb route.2 "/v1/embeddings"
  then match get "input" body with Some (Array (_ :: rest)) => S (length rest) | _ => 1%nat end
  else if String.eqb route.2 "/v1/images/generations"
  then match get "n" body with
       | Some (Num (Chat.PosInt n)) => if n <? 1 then 1%nat else if 10 <? n then 10%nat else Z.to_nat n
       | _ => 1%nat
       end
  else if existsb (String.eqb route.2) ["/v1/images/edits"; "/v1/images/variations"] then 1%nat else O.

(** The answers by route: the fields of the document, or [None] for an empty
    text. *)
Definition promised (now : Z) (param : string) (body : Value) (id : Chat.Uuid) :
  list ((Middleware.Method * string) * option (list (string * Value))) :=
  let created := ("created_at", of_i64 now) in
  let batch i endpoint status :=
    Some [("id", Str_ i); ("object", Str_ "batch"); ("endpoint", endpoint); ("status", Str_ status); created] in
  let job i model status :=
    Some [("id", Str_ i); ("object", Str_ "fine_tuning.job"); ("model", model); ("status", Str_ status); created] in
  let file i := Some [("id", Str_ i); ("object", Str_ "file"); ("status", Str_ "processed"); created] in
  let listing := Some [("object", Str_ "list")] in
  [((Middleware.POST, "/v1/embeddings"),
      Some [("object", Str_ "list"); ("model", echoed "model" "text-embedding-3-small" body)]);
   ((Middleware.POST, "/v1/moderations"), Some [("id", Str_ (Chat.openai_id "modr" id))]);
   ((Middleware.POST, "/v1/images/generations"), Some [("created", of_i64 now)]);
   ((Middleware.POST, "/v1/images/edits"), Some [("created", of_i64 now)]);
   ((Middleware.POST, "/v1/images/variations"), Some [("created", of_i64 now)]);
   ((Middleware.POST, "/v1/audio/transcriptions"), Some [("text", Str_ "")]);
   ((Middleware.POST, "/v1/audio/translations"), Some [("text", Str_ "")]);
   ((Middleware.GET, "/v1/files"), listing);
   ((Middleware.POST, "/v1/files"), file (Chat.openai_id "file" id));
   ((Middleware.GET, "/v1/files/{file_id}"), file param);
   ((Middleware.DELETE, "/v1/files/{file_id}"), Some [("id", Str_ param); ("deleted", Bool true)]);
   ((Middleware.GET, "/v1/files/{file_id}/content"), None);
   ((Middleware.GET, "/v1/batches"), listing);
   ((Middleware.POST, "/v1/batches"),
      batch (Chat.openai_id "batch" id) (echoed "endpoint" "/v1/responses" body) "validating");
   ((Middleware.GET, "/v1/batches/{batch_id}"), batch param (Str_ "/v1/responses") "completed");
   ((Middleware.POST, "/v1/batches/{batch_id}/cancel"), batch param (Str_ "/v1/responses") "cancelled");
   ((Middleware.GET, "/v1/fine_tuning/jobs"), listing);
   ((Middleware.POST, "/v1/fine_tuning/jobs"),
      job (Chat.openai_id "ftjob" id) (echoed "model" "unknown" body) "validating_files");
   ((Middleware.GET, "/v1/fine_tuning/jobs/{job_id}"), job param (Str_ "unknown") "succeeded");
   ((Middleware.POST, "/v1/fine_tuning/jobs/{job_id}/cancel"), job param (Str_ "unknown") "cancelled");
   ((Middleware.GET, "/v1/fine_tuning/jobs/{job_id}/events"), listing);
   ((Middleware.POST, "/v1/realtime/sessions"),
      Some [("id", Str_ (Chat.openai_id "sess" id)); ("object", Str_ "realtime.session");
            ("model", echoed "model" "gpt-4o-realtime-preview" body)])].

(** Documents with a [data] member have it as an array of the right length;
    the entry [i] of an embedding answer is the embedding of index [i]. *)
Definition data_ok (route : Middleware.Method * string) (body v : Value) : Prop :=
  match get "data" v with
  | Some data => exists l, data = Array l /\ length l = entries route body /\
      (route.2 = "/v1/embeddings" -> forall i d, l !! i = Some d ->
         get "index" d = Some (of_u64 (Z.of_nat i)) /\
         exists xs, get "embedding" d = Some (Array xs) /\ length xs = 16%nat)
  | None => entries route body = O
  end.

Lemma echoed_spec k fallback body : Str_ (default fallback (get k body ≫= as_str)) = echoed k fallback body.
Proof. unfold echoed. by destruct (get k body) as [[]|]. Qed.

Lemma input_count_spec body :
  match get "input" body with Some (Array items) => Nat.max (length items) 1 | Some _ | None => 1%nat end =
  entries (Middleware.POST, "/v1/embeddings") body.
Proof. unfold entries. cbn. destruct (get "input" body) as [[| | | |[|x l]|]|]; cbn; lia. Qed.

Lemma image_count_spec body : Z.to_nat (image_count body) = entries (Middleware.POST, "/v1/images/generations") body.
Proof.
  unfold image_count, entries. cbn. destruct (get "n" body) as [[| |[n|n|x]| | |]|]; cbn; try done.
  destruct (Z.ltb_spec n 1), (Z.ltb_spec 10 n); lia.
Qed.


Lemma embeddings_data body : data_ok (Middleware.POST, "/v1/embeddings") body (embeddings body).
Proof.
  unfold embeddings. cbv zeta. rewrite input_count_spec. set (n := entries _ body). unfold data_ok. set (f := fun index : nat => json_object _).
  change (get "data" _) with (Some (Array (map f (seq 0 n)))). eexists. split; [reflexivity|].
  split; [by rewrite length_map, length_seq|]. intros _ i d Hd.
  change (map f (seq 0 n)) with (f <$> seq 0 n) in Hd. rewrite list_lookup_fmap in Hd.
  destruct (seq 0 n !! i) as [j|] eqn:E; [|done]. apply lookup_seq in E as [-> _]. injection Hd as <-.
  split; [reflexivity|]. by eexists.
Qed.

Lemma images_data now route body n : route.2 <> "/v1/embeddings" -> n = entries route body ->
  data_ok route body (image_response now n).
Proof.
  intros Hr ->. unfold data_ok, image_response. set (f := fun _ : nat => _). set (n := entries route body).
  change (get "data" _) with (Some (Array (map f (seq 0 n)))). eexists. split; [reflexivity|].
  split; [by rewrite length_map, length_seq|done].
Qed.

(** The fields of a reply, read from its document. *)
Ltac placeholder_fields :=
  repeat (apply Forall_cons_2; [cbn [fst snd]; rewrite <-?echoed_spec; reflexivity|]); apply Forall_nil_2.

Ltac placeholder_data :=
  lazymatch goal with
  | |- data_ok (_, "/v1/embeddings") _ _ => apply embeddings_data
  | |- data_ok (_, "/v1/images/generations") _ _ => apply images_data; [discriminate|apply image_count_spec]
  | |- data_ok (_, "/v1/images/edits") _ _ => apply images_data; [discriminate|reflexivity]
  | |- data_ok (_, "/v1/images/variations") _ _ => apply images_data; [discriminate|reflexivity]
  | |- data_ok _ _ ?v => unfold data_ok; lazymatch eval vm_compute in (get "data" v) with
      | Some (Array []) => change (get "data" v) with (Some (Array [])); by exists []
      | None => change (get "data" v) with (@None Value); reflexivity
      end
  end.

(** C23: what the placeholder endpoints answer, on every route the router opens
    for them.  A body the extractor refuses is refused with the extractor's
    status, on exactly the routes that read one.  Otherwise the answer is the
    empty text for a file's content and a document with the promised fields for
    the rest: the id is the path's or a fresh one, created objects echo the
    request's model or endpoint, retrieved ones are finished and cancelled ones
    cancelled, there is one embedding (of sixteen numbers, under its index) for
    each input and at least one, and one to ten images as asked. *)
Theorem placeholder_replies now q id secret :
  let body := match json_body q with Ok v => v | Err _ => Null end in
  let table := promised now (path_param q) body id in
  map fst table = Middleware.placeholder_routes /\
  forall route answer, (route, answer) ∈ table ->
    match refused route q with
    | Some status => placeholder_handler now route q id secret = Some (Refused status)
    | None =>
        match answer with
        | Some fields => exists v, placeholder_handler now route q id secret = Some (JsonReply v) /\
            Forall (fun f => get f.1 v = Some f.2) fields /\ data_ok route body v
        | None => placeholder_handler now route q id secret = Some (TextReply "")
        end
    end.
Proof.
  intros body table. split; [reflexivity|]. intros route answer Hin. unfold table, promised in Hin.
  destruct q as [param jb rb]. cbn [path_param json_body raw_body] in *.
  repeat (apply elem_of_cons in Hin as [[= -> ->] | Hin]; [|]); [..|by apply elem_of_nil in Hin].
  all: destruct jb as [v|status], rb as [[]|status'].
  all: try reflexivity.
  all: eexists; (split; [reflexivity|]); split; [placeholder_fields|].
  all: placeholder_data.
Qed.

Definition demo_request : Extracted :=
  {| path_param := "";
     json_body := Ok (json_object [("model", Str_ "ada"); ("input", Array [Str_ "a"; Str_ "b"]); ("n", of_u64 99)]);
     raw_body := Err 413 |}.

(** Two inputs make two embeddings, the model is echoed, and ninety-nine images
    are ten; bytes over the limit are refused. *)
Lemma placeholder_replies_witness :
  entries (Middleware.POST, "/v1/images/generations")
    (match json_body demo_request with Ok v => v | Err _ => Null end) = 10%nat /\
  (exists v, placeholder_handler 1700000000 (Middleware.POST, "/v1/embeddings") demo_request 7 8 = Some (JsonReply v) /\
    get "model" v = Some (Str_ "ada") /\
    exists l, get "data" v = Some (Array l) /\ length l = 2%nat) /\
  placeholder_handler 1700000000 (Middleware.POST, "/v1/files") demo_request 7 8 = Some (Refused 413).
Proof.
  destruct (placeholder_replies 1700000000 demo_request 7 8) as [_ H]. split; [reflexivity|]. split.
  - destruct (H (Middleware.POST, "/v1/embeddings") _ (list_elem_of_here _ _)) as (v & Hv & Hf & Hd).
    exists v. split; [exact Hv|]. split; [exact (Forall_inv (Forall_inv_tail Hf))|].
    unfold data_ok in Hd. destruct (get "data" v) as [d|]; [|discriminate Hd]. destruct Hd as (l & -> & Hl & _). by exists l.
  - refine (H (Middleware.POST, "/v1/files") _ _). do 8 right. left.
Defined.

End Compat.
