(* ===== verification/Admin.v ===== *)
(** * The key administration tool (src/src/bin/rustygate_admin.rs)

    The subcommands of [rustygate_admin keys] on the key store's tables.  A
    command is a function of the store, the clock readings and identifiers it
    draws; it gives back the store, the lines printed and the outcome.  The
    command arrives parsed; what it loads and connects to are arguments. *)
From S2P Require Import Prelude Str F64 Config Keys.
From Stdlib Require Import Ascii.

Open Scope string_scope.
Open Scope list_scope.
Open Scope Z_scope.

Module Admin.
Import Keys.

Inductive KeysCommand :=
| Create (label role : string) (rpm daily_tokens : option Z) (daily_cost_usd : option F64.t) (cache_enabled : bool)
| List
| Revoke (id : string)
| Rotate (id label : string) (role : option string).

(** What ends the program with an error ([anyhow::Error]). *)
Inductive Failure := AuthFailed (e : AuthError) | KeyNotFound (id : string).

Definition Outcome : Type := SqliteKeyStore * list string * result unit Failure.

Definition tab : string := String "009" "".

Definition generated_lines (g : GeneratedApiKey) : list string :=
  [("id: " ++ gen_id g)%string; ("prefix: " ++ gen_prefix g)%string; ("key: " ++ raw_key g)%string].

Definition key_line (k : AuthenticatedKey) : string :=
  (key_id k ++ tab ++ prefix k ++ tab ++ label k ++ tab ++ KeyRole_as_str (role k))%string.

(** [role.as_deref().map(KeyRole::from_str).transpose()?.unwrap_or(existing.role)] *)
Definition role_of (requested : option string) (existing : AuthenticatedKey) : result KeyRole AuthError :=
  match requested with
  | Some s => KeyRole_from_str s
  | None => Ok (role existing)
  end.

Section Commands.
Variable hash_password : string -> option string.
(** The clock at the revocation and at the creation, and the new identifiers. *)
Variables (now now' : Z) (uuid simple secret : string).

Definition create (lbl : string) (r : string) (l : KeyLimits) (cache : bool) (db : SqliteKeyStore) : Outcome :=
  match KeyRole_from_str r with
  | Err e => (db, [], Err (AuthFailed e))
  | Ok r =>
      match create_key hash_password now' uuid simple secret lbl r l cache db with
      | (db, Err e) => (db, [], Err (AuthFailed e))
      | (db, Ok generated) => (db, generated_lines generated, Ok tt)
      end
  end.

Definition list_all (db : SqliteKeyStore) : Outcome :=
  match list_keys db with
  | Err e => (db, [], Err (AuthFailed e))
  | Ok keys => (db, map key_line keys, Ok tt)
  end.

Definition revoke (id : string) (db : SqliteKeyStore) : Outcome :=
  match revoke_key now id db with
  | (db, Err e) => (db, [], Err (AuthFailed e))
  | (db, Ok _) => (db, [("revoked: " ++ id)%string], Ok tt)
  end.

Definition rotate (id lbl : string) (requested : option string) (db : SqliteKeyStore) : Outcome :=
  match get_key id db with
  | Err e => (db, [], Err (AuthFailed e))
  | Ok None => (db, [], Err (KeyNotFound id))
  | Ok (Some existing) =>
      match revoke_key now id db with
      | (db, Err e) => (db, [], Err (AuthFailed e))
      | (db, Ok _) =>
          match role_of requested existing with
          | Err e => (db, [], Err (AuthFailed e))
          | Ok r =>
              match create_key hash_password now' uuid simple secret lbl r (limits existing) (cache_enabled existing) db with
              | (db, Err e) => (db, [], Err (AuthFailed e))
              | (db, Ok generated) => (db, ("revoked: " ++ id)%string :: generated_lines generated, Ok tt)
              end
          end
      end
  end.

Definition run_command (c : KeysCommand) (db : SqliteKeyStore) : Outcome :=
  match c with
  | Create lbl r rpm daily_tokens daily_cost_usd cache =>
      create lbl r {| requests_per_minute := rpm; daily_token_quota := daily_tokens;
                      daily_cost_quota_usd := daily_cost_usd |} cache db
  | List => list_all db
  | Revoke id => revoke id db
  | Rotate id lbl r => rotate id lbl r db
  end.

(** How the program ends: before it has a store, or with a command's outcome. *)
Inductive Exit := NoConfig (e : Config.ConfigError) | NoStore (e : AuthError) | Ran (o : Outcome).

Section Main.
Variables (read_to_string : string -> result string string) (from_str : string -> result Config.AppConfig string)
  (var : string -> option string) (driver : Sqlx SqliteKeyStore).

Definition main (command : KeysCommand) : Exit :=
  match Config.from_env read_to_string from_str var with
  | Err e => NoConfig e
  | Ok config =>
      match connect driver (Config.database_url (Config.storage config)) with
      | Err e => NoStore e
      | Ok store => Ran (run_command command store)
      end
  end.

End Main.

(** The commands that succeed leave a trail on the screen: only [list] can
    print nothing. *)
Lemma silent_success c db db' : run_command c db = (db', [], Ok tt) -> c = List /\ db' = db /\ list_keys db = Ok [].
Proof.
  destruct c as [lbl r rpm tok cost cache| |id|id lbl r]; cbn [run_command].
  - unfold create. destruct (KeyRole_from_str r); [|done]. by destruct (create_key _ _ _ _ _ _ _ _ _ _) as [? []].
  - unfold list_all. destruct (list_keys db) as [[|k ks]|]; [|done..]. by intros [= ->].
  - unfold revoke. by destruct (revoke_key _ _ _) as [? []].
  - unfold rotate. destruct (get_key id db) as [[k|]|]; [|done..]. destruct (revoke_key _ _ _) as [db1 []]; [|done].
    destruct (role_of r k); [|done]. by destruct (create_key _ _ _ _ _ _ _ _ _ _) as [? []].
Qed.

End Commands.

(* ------------------------------------------------------------------ *)
(** ** Rotation *)

(** Quotas in a reachable store are never NaN, which SQLite stores as NULL. *)
Definition cost_ok (r : ApiKeyRow) : Prop := forall x, row_cost_quota r = Some x -> F64.is_nan x = false.

Lemma bound_cost_ok (x : option F64.t) y : x ≫= bind_real = Some y -> F64.is_nan y = false.
Proof. destruct x as [x|]; [|done]. cbn. unfold bind_real. destruct (F64.is_nan x) eqn:E; [done|]. by intros [= <-]. Qed.

Lemma step_costs hash db o : Forall cost_ok (api_keys db) -> Forall cost_ok (api_keys (Keys.step hash db o)).
Proof.
  intros H. destruct o as [now uuid simple secret lbl r l cache|now id|now id tokens cost|b]; cbn [Keys.step].
  - unfold create_key. destruct (hash_key _ _); [|done]. destruct (online db && _); [|done]. cbn.
    apply Forall_app. split; [done|]. constructor; [|constructor]. intros x. apply bound_cost_ok.
  - unfold revoke_key. destruct (online db); [|done]. cbn. apply Forall_map. eapply Forall_impl; [exact H|].
    intros r Hr. unfold revoke_row. by destruct (String.eqb _ _).
  - by rewrite usage_keys.
  - done.
Qed.

Lemma run_costs hash ops : Forall cost_ok (api_keys (Keys.run hash ops empty_db)).
Proof.
  assert (forall db, Forall cost_ok (api_keys db) -> Forall cost_ok (api_keys (Keys.run hash ops db))) as H; [|by apply H; constructor].
  unfold Keys.run. induction ops as [|o ops IH]; intros db H; [done|]. by apply IH, step_costs.
Qed.

Lemma read_limits_ok row key : cost_ok row -> row_to_key row = Ok key -> limits_ok (limits key).
Proof.
  intros Hc. unfold row_to_key. destruct (KeyRole_from_str _); [|done]. intros [= <-]. cbn [limits].
  split; [|split]; cbn.
  - destruct (row_rpm row); [|done]. intros n [= <-]. unfold as_u32, is_u32, u32_max. pose proof (Z.mod_pos_bound z (2 ^ 32)). lia.
  - destruct (row_token_quota row); [|done]. intros n [= <-]. unfold as_u64, is_u64, u64_max. pose proof (Z.mod_pos_bound z (2 ^ 64)). lia.
  - exact Hc.
Qed.

Lemma get_key_row id db key : get_key id db = Ok (Some key) ->
  exists row, row ∈ api_keys db /\ row_id row = id /\ row_to_key row = Ok key.
Proof.
  unfold get_key. destruct (online db); [|done]. destruct (first_row _ db) as [row|] eqn:E; [|done].
  apply first_row_spec in E as (Hin & Hid & _). apply String.eqb_eq in Hid.
  destruct (row_to_key row) as [k|] eqn:Ek; [|done]. intros [= <-]. by exists row.
Qed.

(** No raw key authenticates as [id], now or after any later operation. *)
Definition retired hash verify (id : string) (db : SqliteKeyStore) : Prop :=
  forall later raw key, sqlite_authenticate verify (Keys.run hash later db) raw = Ok (Some key) -> key_id key <> id.

Lemma revoked_retired hash verify id db : NoDup (ids db) -> revoked id db -> retired hash verify id db.
Proof. intros Hn Hr later raw key Ha. destruct (run_keeps hash id later db Hn Hr). by eapply revoked_not_authenticated. Qed.

Section Rotation.
Variables (hash : string -> option string) (verify : string -> string -> option bool).
Hypothesis Hlaw : forall raw h, hash raw = Some h -> verify raw h = Some true.

(** C25: rotating a key on any reachable store replaces it or says why not.  An
    id that names no active key changes nothing.  Otherwise the old id is
    retired for good, and if the role asked for exists (or none is asked for)
    the new key printed authenticates with the label given, that role or the
    old one, and the old key's limits and cache flag; a role that does not
    exist is reported only after the old key was revoked, and no key replaces
    it. *)
Theorem rotation_outcome ops now now' uuid simple secret id lbl requested h :
  let db := Keys.run hash ops empty_db in
  let pfx := String.substring 0 8 simple in
  let raw := ("rgk_" ++ pfx ++ "_" ++ secret)%string in
  online db = true -> hash raw = Some h -> pfx <> "" -> Str.split_once "_" pfx = None -> secret <> "" ->
  Forall (fun row => row_id row <> uuid /\ row_prefix row <> pfx) (api_keys db) ->
  let '(db', lines, outcome) := rotate hash now now' uuid simple secret id lbl requested db in
  match get_key id db with
  | Err e => db' = db /\ outcome = Err (AuthFailed e)
  | Ok None => db' = db /\ outcome = Err (KeyNotFound id)
  | Ok (Some existing) =>
      retired hash verify id db' /\
      match role_of requested existing with
      | Err e => outcome = Err (AuthFailed e) /\ lines = [] /\ ids db' = ids db
      | Ok r => outcome = Ok tt /\ ("key: " ++ raw)%string ∈ lines /\
          sqlite_authenticate verify db' raw =
            Ok (Some {| key_id := uuid; prefix := pfx; label := lbl; role := r; limits := limits existing;
                        cache_enabled := cache_enabled existing |})
      end
  end.
Proof using Hlaw.
  intros db pfx raw Hon Hh Hne Hus Hs Hfresh. unfold rotate.
  destruct (get_key id db) as [[existing|]|e] eqn:Eg; [|done|done].
  destruct (get_key_row _ _ _ Eg) as (row & Hin & Hid & Hkey).
  assert (limits_ok (limits existing)) as Hl.
  { eapply read_limits_ok; [|exact Hkey]. pose proof (run_costs hash ops) as Hc. rewrite Forall_forall in Hc. by apply Hc. }
  assert (NoDup (ids db)) as Hn by (apply run_ids; constructor).
  assert (revoke_key now id db = (set_keys db (map (revoke_row now id) (api_keys db)), Ok tt)) as Er
    by (unfold revoke_key; by rewrite Hon).
  assert (revoked id (fst (revoke_key now id db))) as Hr
    by (apply revoke_key_revokes; [done|]; rewrite <-Hid; by apply list_elem_of_fmap_2).
  assert (NoDup (ids (fst (revoke_key now id db)))) as Hn' by exact (step_ids hash db (Keys.Revoke now id) Hn).
  rewrite Er in *. cbn [fst] in Hr, Hn'. set (db1 := set_keys db _) in *.
  destruct (role_of requested existing) as [r|e]; cbn [fst snd].
  2:{ split; [by apply revoked_retired|]. split; [done|]. split; [done|]. unfold ids, db1. cbn. rewrite map_map.
      apply map_ext. intros x. apply revoke_row_id. }
  assert (Forall (fun x => row_id x <> uuid /\ row_prefix x <> pfx) (api_keys db1)) as Hf1.
  { unfold db1. cbn. apply Forall_map. eapply Forall_impl; [exact Hfresh|]. intros x Hx. unfold revoke_row.
    by destruct (String.eqb _ _). }
  pose proof (create_key_stores hash now' uuid simple secret lbl r (limits existing) (cache_enabled existing) db1 h
    Hh Hon Hf1) as Ec.
  assert (retired hash verify id (fst (create_key hash now' uuid simple secret lbl r (limits existing)
    (cache_enabled existing) db1))) as Hret.
  { destruct (run_keeps hash id [Keys.Create now' uuid simple secret lbl r (limits existing) (cache_enabled existing)]
      db1 Hn' Hr) as [H1 H2]. by apply revoked_retired. }
  rewrite Ec in Hret |- *. cbn [fst snd] in Hret. split; [done|]. split; [done|].
  split; [unfold generated_lines; cbn [raw_key]; do 3 right; left|].
  apply (appended_found verify db1 (new_row now' uuid pfx h lbl r (limits existing) (cache_enabled existing))); try done.
  - by apply new_row_to_key.
  - by apply parse_generated.
  - by apply Hlaw.
Qed.

End Rotation.

Definition demo_db : SqliteKeyStore := Keys.run toy_hash example_ops empty_db.

(** The rotated key works with the old limits, and the old one does not. *)
Lemma rotation_outcome_witness :
  let '(db', lines, outcome) := rotate toy_hash 50 51 "id2" "0123456789abcdef" "s" "id1" "second" (Some "admin") demo_db in
  retired toy_hash toy_verify "id1" db' /\ outcome = Ok tt /\
  sqlite_authenticate toy_verify db' "rgk_01234567_s" =
    Ok (Some {| key_id := "id2"; prefix := "01234567"; label := "second"; role := Keys.Admin; limits := example_limits;
                cache_enabled := true |}).
Proof.
  pose proof (rotation_outcome toy_hash toy_verify toy_law example_ops 50 51 "id2" "0123456789abcdef" "s" "id1" "second"
    (Some "admin") "hrgk_01234567_s") as H. cbv zeta in H. fold demo_db in H.
  specialize (H ltac:(vm_compute; reflexivity) ltac:(reflexivity) ltac:(discriminate) ltac:(reflexivity) ltac:(discriminate)).
  specialize (H ltac:(vm_compute; repeat constructor; discriminate)).
  destruct (rotate _ _ _ _ _ _ _ _ _ demo_db) as [[db' lines] outcome].
  replace (get_key "id1" demo_db) with (Ok (Some {| key_id := "id1"; prefix := "abcdef01"; label := "first"; role := Inference;
    limits := example_limits; cache_enabled := true |}) : result (option AuthenticatedKey) AuthError) in H by (vm_compute; reflexivity).
  destruct H as (H1 & H2 & _ & H3). split; [exact H1|]. split; [exact H2|exact H3].
Defined.

(** A misspelt role revokes the key and leaves nothing in its place. *)
Lemma rotation_bad_role_loses_key :
  let '(db', lines, outcome) := rotate toy_hash 50 51 "id2" "0123456789abcdef" "s" "id1" "second" (Some "amdin") demo_db in
    outcome = Err (AuthFailed (InvalidRole "amdin")) /\
    is_some (match sqlite_authenticate toy_verify demo_db "rgk_abcdef01_s1" with Ok k => k | Err _ => None end) = true /\
    sqlite_authenticate toy_verify db' "rgk_abcdef01_s1" = Ok None /\ list_keys db' = Ok [].
Proof. vm_compute. split; [reflexivity|]. split; [reflexivity|]. split; reflexivity. Qed.

End Admin.
