(* ===== verification/Benchmark.v ===== *)
(** * The load generator (src/src/bin/rustygate_benchmark.rs)

    What the benchmark tool computes: the workload read from its file, the
    outcome of one request, the work of a task and the report over the outcomes
    of all tasks.  The HTTP client is an argument: what came back, with the
    milliseconds elapsed when it did; the JSON decoder is an argument too.
    Writing the report and parsing the command line are not modelled. *)
From S2P Require Import Prelude Str F64 F64Facts Chat Metrics Upstream Compat.
From Stdlib Require Import SpecFloat.

Open Scope string_scope.
Open Scope list_scope.
Open Scope Z_scope.

Module Benchmark.

Record Cli := {
  url : string;
  workload : string;
  api_key : string;
  duration_seconds : Z;
  concurrency : Z;
  stats_url : option string;
  provider_stats_url : option string;
  metrics_url : option string;
  output : option string
}.

Record PercentileSummary := { p50 : F64.t; p95 : F64.t; p99 : F64.t }.

Record BenchmarkReport := {
  rep_url : string;
  rep_workload : string;
  rep_duration_seconds : Z;
  rep_concurrency : Z;
  elapsed_ms : Z;
  total_requests : Z;
  rep_successful : Z;
  rep_failed : Z;
  requests_per_second : F64.t;
  rep_status_codes : gmap string Z;
  rep_client_errors : Z;
  rep_latency_ms : PercentileSummary;
  rep_ttft_ms : option PercentileSummary;
  prefix_hit_rate : option F64.t;
  rep_stats : option Chat.Value;
  rep_provider_stats : option Chat.Value;
  prometheus_metrics : option string
}.

Record RequestOutcome := { status : option Z; latency_ms : Z; ttft_ms : option Z; error : bool }.

(* ------------------------------------------------------------------ *)
(** ** One request *)

(** What the client reports: the send failed, or a status and a body, which is
    the chunks of its stream (their size, or an error) or, read whole, whether
    that failed; [ended] is the time elapsed at its end. *)
Inductive Exchange :=
| SendFailed (elapsed : Z)
| Replied (http_status : Z) (chunks : list (Z * result nat unit)) (read : result unit unit) (ended : Z).

Definition request_error (elapsed : Z) (st : option Z) (ttft : option Z) : RequestOutcome :=
  {| status := st; latency_ms := elapsed; ttft_ms := ttft; error := true |}.

Fixpoint read_body (st : Z) (ttft : option Z) (chunks : list (Z * result nat unit)) (ended : Z) : RequestOutcome :=
  match chunks with
  | [] => {| status := Some st; latency_ms := ended; ttft_ms := ttft; error := false |}
  | (at_, Ok size) :: rest =>
      read_body st (if negb (is_some ttft) && negb (size =? 0)%nat then Some at_ else ttft) rest ended
  | (at_, Err _) :: _ => request_error at_ (Some st) ttft
  end.

Definition read_whole (st : Z) (read : result unit unit) (ended : Z) : RequestOutcome :=
  match read with
  | Ok _ => {| status := Some st; latency_ms := ended; ttft_ms := None; error := false |}
  | Err _ => request_error ended (Some st) None
  end.

Definition as_bool (v : Chat.Value) : option bool := match v with Chat.Bool b => Some b | _ => None end.

Definition run_one_request (body : Chat.Value) (x : Exchange) : RequestOutcome :=
  let stream_enabled := default false (Compat.get "stream" body ≫= as_bool) in
  match x with
  | SendFailed elapsed => request_error elapsed None None
  | Replied st chunks read ended =>
      if stream_enabled && Upstream.is_success st then read_body st None chunks ended else read_whole st read ended
  end.

(** A task: at each turn of its loop the clock, the index drawn from the shared
    counter and the exchange; it stops at the first turn past the deadline. *)
Fixpoint task (deadline : Z) (requests : list Chat.Value) (turns : list (Z * Z * Exchange)) : option (list RequestOutcome) :=
  match turns with
  | [] => Some []
  | (now, counter, x) :: rest =>
      if now <? deadline
      then body ← requests !! Z.to_nat (counter mod Z.of_nat (length requests));
           done ← task deadline requests rest;
           Some (run_one_request body x :: done)
      else Some []
  end.

(* ------------------------------------------------------------------ *)
(** ** The workload *)

Section Workload.
Variable from_str : string -> result Chat.Value string.

Definition workload_line (path : string) (index : nat) (line : string) : option (result Chat.Value string) :=
  let line := Str.trim line in
  if Str.is_empty line then None
  else Some (match from_str line with
             | Ok v => Ok v
             | Err e => Err (path ++ ":" ++ Str.decimal (Z.of_nat index + 1) ++ ": " ++ e)%string
             end).

Fixpoint collect (items : list (result Chat.Value string)) : result (list Chat.Value) string :=
  match items with
  | [] => Ok []
  | Err e :: _ => Err e
  | Ok v :: rest => match collect rest with Ok vs => Ok (v :: vs) | Err e => Err e end
  end.

Definition load_workload (path : string) (file : result string string) : result (list Chat.Value) string :=
  match file with
  | Err e => Err e
  | Ok contents => collect (omap (fun il => workload_line path il.1 il.2) (imap pair (Str.lines contents)))
  end.

(** The checks before the run. *)
Definition prepare (cli : Cli) (file : result string string) : result (list Chat.Value) string :=
  if negb (0 <? concurrency cli) then Err "--concurrency must be greater than 0"
  else if negb (0 <? duration_seconds cli) then Err "--duration-seconds must be greater than 0"
  else match load_workload (workload cli) file with
       | Err e => Err e
       | Ok requests => if bool_decide (requests = []) then Err "workload must contain at least one request" else Ok requests
       end.

End Workload.

(* ------------------------------------------------------------------ *)
(** ** The report *)

(** The same index as the registry's percentile, over all samples. *)
Definition percentile (samples : list Z) (p : F64.t) : option F64.t :=
  match samples with
  | [] => Some F64.zero
  | _ =>
      let sorted := sort_by Z.compare samples in
      i ← Metrics.percentile_index (length sorted) p;
      F64.of_Z <$> sorted !! i
  end.

Definition percentile_summary (samples : list Z) : option PercentileSummary :=
  a ← percentile samples (F64.literal 50 2);
  b ← percentile samples (F64.literal 95 2);
  c ← percentile samples (F64.literal 99 2);
  Some {| p50 := a; p95 := b; p99 := c |}.

Definition prefix_affinity_hit_rate (stats : Chat.Value) : option F64.t :=
  policies ← Compat.get "routing_decisions_by_policy_and_reason" stats;
  prefix_affinity ← Compat.get "prefix_affinity" policies;
  let hits := default 0 (Compat.get "prefix_hit" prefix_affinity ≫= Compat.as_u64) in
  let misses := default 0 (Compat.get "prefix_miss" prefix_affinity ≫= Compat.as_u64) in
  let total := u64_add hits misses in
  if total =? 0 then None else Some (F64.div (F64.of_Z hits) (F64.of_Z total)).

Record Tally := {
  status_codes : gmap string Z;
  successful_requests : Z;
  failed_requests : Z;
  client_error_count : Z;
  latencies : list Z;
  ttfts : list Z
}.

Definition Tally_empty : Tally :=
  {| status_codes := ∅; successful_requests := 0; failed_requests := 0; client_error_count := 0; latencies := []; ttfts := [] |}.

(** One outcome, as the loop over the outcomes counts it. *)
Definition count_outcome (t : Tally) (o : RequestOutcome) : Tally :=
  let latencies := latencies t ++ [latency_ms o] in
  let ttfts := match ttft_ms o with Some ms => ttfts t ++ [ms] | None => ttfts t end in
  let client_error :=
    {| status_codes := status_codes t; successful_requests := successful_requests t;
       failed_requests := u64_add (failed_requests t) 1; client_error_count := u64_add (client_error_count t) 1;
       latencies := latencies; ttfts := ttfts |} in
  if error o then client_error
  else match status o with
       | Some st =>
           if (200 <=? st) && (st <? 300)
           then {| status_codes := count_add (Str.decimal st) 1 (status_codes t);
                   successful_requests := u64_add (successful_requests t) 1; failed_requests := failed_requests t;
                   client_error_count := client_error_count t; latencies := latencies; ttfts := ttfts |}
           else {| status_codes := count_add (Str.decimal st) 1 (status_codes t);
                   successful_requests := successful_requests t; failed_requests := u64_add (failed_requests t) 1;
                   client_error_count := client_error_count t; latencies := latencies; ttfts := ttfts |}
       | None => client_error
       end.

(** The report, [None] where an index is out of range; [elapsed] in
    nanoseconds, [fetch_json] and [fetch_text] the requests for the gateway's
    own figures. *)
Definition report (fetch_json : string -> option Chat.Value) (fetch_text : string -> option string)
  (cli : Cli) (elapsed : Z) (outcomes : list RequestOutcome) : option BenchmarkReport :=
  let t := foldl count_outcome Tally_empty outcomes in
  let stats := stats_url cli ≫= fetch_json in
  let provider_stats := provider_stats_url cli ≫= fetch_json in
  let metrics := metrics_url cli ≫= fetch_text in
  latency ← percentile_summary (latencies t);
  ttft ← (if bool_decide (ttfts t = []) then Some None else Some <$> percentile_summary (ttfts t));
  Some {| rep_url := url cli; rep_workload := workload cli; rep_duration_seconds := duration_seconds cli;
          rep_concurrency := concurrency cli; elapsed_ms := elapsed / 1000000;
          total_requests := Z.of_nat (length outcomes); rep_successful := successful_requests t;
          rep_failed := failed_requests t;
          requests_per_second := F64.div (F64.of_Z (Z.of_nat (length outcomes))) (F64.as_secs_f64 elapsed);
          rep_status_codes := status_codes t; rep_client_errors := client_error_count t;
          rep_latency_ms := latency; rep_ttft_ms := ttft; prefix_hit_rate := stats ≫= prefix_affinity_hit_rate;
          rep_stats := stats; rep_provider_stats := provider_stats; prometheus_metrics := metrics |}.

(* ------------------------------------------------------------------ *)
(** ** What the figures mean *)

Definition count (f : RequestOutcome -> bool) (os : list RequestOutcome) : Z :=
  Z.of_nat (length (filter (fun o => f o = true) os)).

(** A request that got a complete answer, and one with a status of success. *)
Definition answered (o : RequestOutcome) : bool := negb (error o) && is_some (status o).
Definition succeeded (o : RequestOutcome) : bool :=
  negb (error o) && is_some_and (status o) (fun st => (200 <=? st) && (st <? 300)).
Definition with_code (k : string) (o : RequestOutcome) : bool :=
  negb (error o) && is_some_and (status o) (fun st => String.eqb (Str.decimal st) k).

Lemma count_snoc f os o : count f (os ++ [o]) = count f os + (if f o then 1 else 0).
Proof.
  unfold count. rewrite filter_app, length_app. cbn. destruct (f o) eqn:E;
    [rewrite decide_True by done|rewrite decide_False by congruence]; cbn; lia.
Qed.

Lemma count_perm f os os' : os ≡ₚ os' -> count f os = count f os'.
Proof. intros H. unfold count. by rewrite H. Qed.

Lemma count_bounds f os : 0 <= count f os <= Z.of_nat (length os).
Proof. unfold count. pose proof (length_filter (fun o => f o = true) os). lia. Qed.

Lemma count_split f os : count f os + count (fun o => negb (f o)) os = Z.of_nat (length os).
Proof.
  induction os as [|o os IH] using rev_ind; [done|]. rewrite !count_snoc, length_app. cbn. destruct (f o); cbn; lia.
Qed.

Lemma omap_length {A B : Type} (f : A -> option B) l : (length (omap f l) <= length l)%nat.
Proof. induction l as [|x l IH]; cbn; [done|]. destruct (f x); cbn; lia. Qed.

Record counts (os : list RequestOutcome) (t : Tally) : Prop := {
  counts_codes : tallies (status_codes t) (fun k => count (with_code k) os);
  counts_success : successful_requests t = count succeeded os;
  counts_failure : failed_requests t = count (fun o => negb (succeeded o)) os;
  counts_errors : client_error_count t = count (fun o => negb (answered o)) os;
  counts_latencies : latencies t = map latency_ms os;
  counts_ttfts : ttfts t = omap ttft_ms os
}.

Lemma counts_snoc os o t : Z.of_nat (length (os ++ [o])) <= u64_max -> counts os t -> counts (os ++ [o]) (count_outcome t o).
Proof.
  intros Hlen [H1 H2 H3 H4 H5 H6]. rewrite length_app in Hlen. cbn in Hlen.
  assert (forall f, count f os + 1 <= u64_max) as Hmax by (intros f; pose proof (count_bounds f os); lia).
  assert (forall f, u64_add (count f os) 1 = count f os + 1) as Hadd
    by (intros f; apply u64_add_small; pose proof (count_bounds f os); specialize (Hmax f); lia).
  assert (omap ttft_ms (os ++ [o]) = match ttft_ms o with Some ms => ttfts t ++ [ms] | None => ttfts t end) as Httft.
  { rewrite omap_app, H6. cbn. destruct (ttft_ms o); [done|]. by rewrite app_nil_r. }
  assert (forall st, error o = false -> status o = Some st ->
    tallies (count_add (Str.decimal st) 1 (status_codes t)) (fun k => count (with_code k) (os ++ [o]))) as Hcode.
  { intros st He Hs. eapply tallies_add; [exact H1|apply count_bounds|lia|apply Hmax|..];
      cbn beta; [|intros j Hj]; rewrite count_snoc.
    - assert (with_code (Str.decimal st) o = true) as ->; [|lia]. unfold with_code. rewrite He, Hs. apply String.eqb_refl.
    - assert (with_code j o = false) as ->; [|lia]. unfold with_code. rewrite He, Hs. by apply String.eqb_neq. }
  assert (answered o = false -> tallies (status_codes t) (fun k => count (with_code k) (os ++ [o]))) as Hnone.
  { intros Ha. eapply tallies_ext; [exact H1|]. intros k. cbn. rewrite count_snoc.
    assert (with_code k o = false) as ->; [|lia]. unfold with_code, answered in *. destruct (error o); [done|]. by destruct (status o). }
  pose proof (eq_refl : succeeded o = negb (error o) && is_some_and (status o) (fun st => (200 <=? st) && (st <? 300))) as Hsu.
  pose proof (eq_refl : answered o = negb (error o) && is_some (status o)) as Han.
  unfold count_outcome. rewrite H2, H3, H4, !Hadd.
  destruct (error o) eqn:Ee; [|destruct (status o) as [st|] eqn:Es; [destruct ((200 <=? st) && (st <? 300)) eqn:Ec|]].
  all: cbn in Hsu, Han; rewrite ?Ec in Hsu.
  all: split; cbn [status_codes successful_requests failed_requests client_error_count latencies ttfts].
  all: rewrite ?count_snoc, ?Hsu, ?Han; cbn; rewrite ?H5, ?map_app; auto; lia.
Qed.

Lemma counts_all os : Z.of_nat (length os) <= u64_max -> counts os (foldl count_outcome Tally_empty os).
Proof.
  induction os as [|o os IH] using rev_ind; intros Hlen; [split; try done; apply tallies_empty|].
  rewrite foldl_app. cbn [foldl]. apply counts_snoc; [done|]. apply IH. rewrite length_app in Hlen. lia.
Qed.

Lemma counts_perm os os' t t' : os ≡ₚ os' -> counts os t -> counts os' t' ->
  status_codes t = status_codes t' /\ successful_requests t = successful_requests t' /\
  failed_requests t = failed_requests t' /\ client_error_count t = client_error_count t' /\
  latencies t ≡ₚ latencies t' /\ ttfts t ≡ₚ ttfts t'.
Proof.
  intros Hp [H1 H2 H3 H4 H5 H6] [H1' H2' H3' H4' H5' H6'].
  rewrite H2, H2', H3, H3', H4, H4', H5, H5', H6, H6', !(count_perm _ _ _ Hp).
  split; [|split; [done|]; split; [done|]; split; [done|]; split; [by rewrite Hp|by rewrite Hp]].
  apply map_eq. intros k. by rewrite H1, H1', (count_perm _ _ _ Hp).
Qed.

(** The three percentiles are fractions whose index is in range. *)
Definition fraction (p : F64.t) : Prop := exists M, p = S754_finite false M (-53) /\ 2 ^ 52 <= Zpos M <= 2 ^ 53 - 2.

Lemma summary_fractions : fraction (F64.literal 50 2) /\ fraction (F64.literal 95 2) /\ fraction (F64.literal 99 2).
Proof. split; [|split]; eexists; (split; [vm_compute; reflexivity|lia]). Qed.

Lemma percentile_some samples p : fraction p -> Z.of_nat (length samples) < 2 ^ 53 -> is_Some (percentile samples p).
Proof.
  intros (M & -> & HM) Hlen. unfold percentile. destruct samples as [|y l]; [by eexists|]. set (samples := y :: l) in *.
  cbv zeta. unfold Metrics.percentile_index. rewrite sort_by_length. set (k := Z.of_nat (length samples)) in *.
  assert (0 < k) as Hk by (unfold k, samples; cbn; lia).
  pose proof (F64Facts.ceil_scaled_pos k M ltac:(lia) ltac:(lia)). pose proof (F64Facts.ceil_scaled_le k M ltac:(lia) HM).
  set (rank := F64.ceil_as_u64 _) in *. destruct (Z.eqb_spec rank 0); [lia|]. cbn [mbind option_bind].
  apply fmap_is_Some, lookup_lt_is_Some. rewrite sort_by_length. unfold k in *. lia.
Qed.

Lemma percentile_perm l l' p : l ≡ₚ l' -> percentile l p = percentile l' p.
Proof.
  intros Hp. unfold percentile. destruct l as [|x l], l' as [|x' l']; [done|by apply Permutation_nil_l in Hp|by apply Permutation_nil_r in Hp|].
  cbv zeta. rewrite (sort_by_perm_eq Z.compare _ _ Hp); [done|]. intros a b _ _. apply Z.compare_eq.
Qed.

Lemma summary_perm l l' : l ≡ₚ l' -> percentile_summary l = percentile_summary l'.
Proof. intros Hp. unfold percentile_summary. by rewrite !(percentile_perm l l') by done. Qed.

Lemma summary_some l : Z.of_nat (length l) < 2 ^ 53 -> is_Some (percentile_summary l).
Proof.
  intros Hl. destruct summary_fractions as (H1 & H2 & H3). unfold percentile_summary.
  destruct (percentile_some l _ H1 Hl) as [a ->], (percentile_some l _ H2 Hl) as [b ->], (percentile_some l _ H3 Hl) as [c ->].
  by eexists.
Qed.

(** The benchmark's report is right and does not depend on how the tasks
    interleave.  For any outcomes of fewer than 2^53 requests, in whatever order
    the tasks pushed them, the report exists (no index is out of range), is the
    same for every order, counts each request once as successful or failed, the
    successful ones being those answered completely with a 2xx status, counts
    every answered request under its status code and the others as client
    errors. *)
Theorem report_order_irrelevant fetch_json fetch_text cli elapsed os os' :
  Z.of_nat (length os) < 2 ^ 53 -> os ≡ₚ os' ->
  exists r, report fetch_json fetch_text cli elapsed os = Some r /\ report fetch_json fetch_text cli elapsed os' = Some r /\
    total_requests r = Z.of_nat (length os) /\ rep_successful r + rep_failed r = total_requests r /\
    rep_successful r = count succeeded os /\ rep_client_errors r = count (fun o => negb (answered o)) os /\
    tallies (rep_status_codes r) (fun k => count (with_code k) os).
Proof.
  intros Hlen Hp. assert (Z.of_nat (length os') < 2 ^ 53) as Hlen' by (by rewrite <-Hp).
  pose proof (counts_all os ltac:(unfold u64_max; lia)) as Hc. pose proof (counts_all os' ltac:(unfold u64_max; lia)) as Hc'.
  destruct (counts_perm _ _ _ _ Hp Hc Hc') as (E1 & E2 & E3 & E4 & E5 & E6). unfold report. cbv zeta.
  set (t := foldl count_outcome Tally_empty os) in *. set (t' := foldl count_outcome Tally_empty os') in *.
  assert (Z.of_nat (length (latencies t)) < 2 ^ 53) as Hl by (by rewrite (counts_latencies _ _ Hc), length_map).
  assert (Z.of_nat (length (ttfts t)) < 2 ^ 53) as Ht.
  { rewrite (counts_ttfts _ _ Hc). pose proof (omap_length ttft_ms os). lia. }
  rewrite <-E1, <-E2, <-E3, <-E4, <-(summary_perm _ _ E5), <-(summary_perm _ _ E6), <-(Permutation_length Hp).
  rewrite (bool_decide_ext (ttfts t' = []) (ttfts t = [])) by (split; intros E; rewrite E in E6;
    [by apply Permutation_nil_r in E6|by apply Permutation_nil_l in E6]).
  destruct (summary_some _ Hl) as [latency ->]. destruct (summary_some _ Ht) as [ttft ->]. cbn [mbind option_bind].
  destruct (bool_decide (ttfts t = [])); cbn [mbind option_bind fmap option_fmap option_map]; (eexists; split; [reflexivity|]; split; [reflexivity|]);
    cbn; rewrite (counts_success _ _ Hc), (counts_failure _ _ Hc), (counts_errors _ _ Hc), count_split;
    (split; [done|]; split; [done|]; split; [done|]; split; [done|apply (counts_codes _ _ Hc)]).
Qed.

(** A task never reads past the workload, which [prepare] checks is not empty. *)
Lemma task_in_range deadline requests turns : requests <> [] -> is_Some (task deadline requests turns).
Proof.
  intros Hne. induction turns as [|[[now counter] x] turns [done Hd]]; cbn [task]; [by eexists|].
  destruct (now <? deadline); [|by eexists]. assert (0 < Z.of_nat (length requests)) by (destruct requests; [done|cbn; lia]).
  destruct (lookup_lt_is_Some_2 requests (Z.to_nat (counter mod Z.of_nat (length requests)))) as [body Hb].
  { pose proof (Z.mod_pos_bound counter (Z.of_nat (length requests))). lia. }
  rewrite Hb, Hd. by eexists.
Qed.

Definition demo_cli : Cli :=
  {| url := "http://localhost:8080"; workload := "w.jsonl"; api_key := "benchmark-key"; duration_seconds := 1; concurrency := 2;
     stats_url := None; provider_stats_url := None; metrics_url := None; output := None |}.
Definition demo_outcomes : list RequestOutcome :=
  [run_one_request (Chat.Object [("stream", Chat.Bool true)])
     (Replied 200 [(3, Ok 0%nat); (5, Ok 7%nat); (8, Ok 2%nat)] (Ok tt) 9);
   run_one_request Chat.Null (SendFailed 4);
   run_one_request Chat.Null (Replied 429 [] (Ok tt) 2)].

Lemma report_order_irrelevant_witness :
  exists r, report (fun _ => None) (fun _ => None) demo_cli 1000000000 demo_outcomes = Some r /\
    report (fun _ => None) (fun _ => None) demo_cli 1000000000 (rev demo_outcomes) = Some r /\
    rep_successful r = 1 /\ rep_client_errors r = 1 /\ rep_status_codes r !! "429" = Some 1.
Proof.
  destruct (report_order_irrelevant (fun _ => None) (fun _ => None) demo_cli 1000000000 demo_outcomes (rev demo_outcomes))
    as (r & H1 & H2 & _ & _ & H3 & H4 & H5); [vm_compute; reflexivity|apply Permutation_rev|].
  exists r. split; [exact H1|]. split; [exact H2|]. split; [rewrite H3; vm_compute; reflexivity|].
  split; [rewrite H4; vm_compute; reflexivity|]. rewrite (H5 "429"). vm_compute. reflexivity.
Defined.

(** The first token is the first chunk with bytes. *)
Lemma demo_ttft : map ttft_ms demo_outcomes = [Some 5; None; None].
Proof. vm_compute. reflexivity. Qed.

End Benchmark.
