(* ===== verification/Server.v ===== *)
(** * Running and stopping the process (src/src/server.rs, src/src/main.rs)

    Graceful shutdown, and the task that prunes the request log once a day.
    The server future is a function of when it is told to stop, giving when it
    finishes and with what; a signal is when it arrives, if it does, and if its
    handler could be installed.  [main] is the order of its steps, the ones that
    are I/O (loading the file, the subscriber, the socket) given by how they
    come out.  The log output is not modelled. *)
From S2P Require Import Prelude Str F64 Chat Provider Metrics Config Lru Keys RequestLog MemoryCache Sqlite Build.

Open Scope list_scope.
Open Scope Z_scope.

Module Server.

(* ------------------------------------------------------------------ *)
(** ** Graceful shutdown *)

Section Shutdown.
Context {E : Type}.

(** The server's own error, or the drain did not end in time. *)
Inductive ServerError := Failed (e : E) | GraceElapsed (grace_ms : Z).

Definition Finish : Type := Z * result unit ServerError.

Record Ended := { ended_at : Z; outcome : result unit ServerError; shutdown_triggered : option Z }.

(** The branch after the signal at [s]: trigger, then [timeout(grace, server)],
    which polls the server before its timer. *)
Definition drain (server : option Z -> option Finish) (s grace_ns : Z) : Ended :=
  let elapsed := {| ended_at := s + grace_ns; outcome := Err (GraceElapsed (grace_ns / 1000000)); shutdown_triggered := Some s |} in
  match server (Some s) with
  | Some (t, r) =>
      if t <=? s + grace_ns then {| ended_at := Z.max s t; outcome := r; shutdown_triggered := Some s |} else elapsed
  | None => elapsed
  end.

(** [server_first] is the branch [select!] picks when both are ready; [None] is
    a program that keeps running. *)
Definition run_with_graceful_shutdown (server : option Z -> option Finish) (shutdown_signal : option Z)
  (grace_period : Z) (server_first : bool) : option Ended :=
  match server None, shutdown_signal with
  | None, None => None
  | Some (t, r), None => Some {| ended_at := t; outcome := r; shutdown_triggered := None |}
  | None, Some s => Some (drain server s grace_period)
  | Some (t, r), Some s =>
      if (t <? s) || ((t =? s) && server_first)
      then Some {| ended_at := t; outcome := r; shutdown_triggered := None |}
      else Some (drain server s grace_period)
  end.

(** A signal always ends the process within the grace period; the outcome is
    the server's own exactly if it finished in time, and it was told to stop
    unless it had finished before the signal. *)
Lemma shutdown_bounded server s grace first : 0 <= grace ->
  exists e, run_with_graceful_shutdown server (Some s) grace first = Some e /\ ended_at e <= s + grace /\
    match shutdown_triggered e with
    | None => server None = Some (ended_at e, outcome e)
    | Some s' => s' = s /\
        match server (Some s) with
        | Some (t, r) => if t <=? s + grace then outcome e = r else outcome e = Err (GraceElapsed (grace / 1000000))
        | None => outcome e = Err (GraceElapsed (grace / 1000000))
        end
    end.
Proof.
  intros Hg. assert (forall e, e = drain server s grace -> ended_at e <= s + grace /\ shutdown_triggered e = Some s /\
    match server (Some s) with
    | Some (t, r) => if t <=? s + grace then outcome e = r else outcome e = Err (GraceElapsed (grace / 1000000))
    | None => outcome e = Err (GraceElapsed (grace / 1000000))
    end) as Hd.
  { intros e ->. unfold drain. destruct (server (Some s)) as [[t r]|]; [|cbn; split; [lia|done]].
    destruct (Z.leb_spec t (s + grace)); cbn; split; [lia|done|lia|done]. }
  unfold run_with_graceful_shutdown. destruct (server None) as [[t r]|] eqn:En.
  - destruct ((t <? s) || ((t =? s) && first)) eqn:Eb.
    + eexists. split; [reflexivity|]. cbn. split; [|done].
      apply orb_true_iff in Eb as [?|[? _]%andb_true_iff]; zbool; lia.
    + eexists. split; [reflexivity|]. destruct (Hd _ eq_refl) as (H1 & -> & H2). done.
  - eexists. split; [reflexivity|]. destruct (Hd _ eq_refl) as (H1 & -> & H2). done.
Qed.

End Shutdown.

(* ------------------------------------------------------------------ *)
(** ** Signals *)

(** A signal handler: when its signal arrives, or it could not be installed. *)
Inductive Handler := Installed (arrives : option Z) | NotInstalled.

(** A handler that cannot be installed waits for ever. *)
Definition awaits (h : Handler) : option Z := match h with Installed t => t | NotInstalled => None end.

Definition earliest (a b : option Z) : option Z :=
  match a, b with
  | Some x, Some y => Some (Z.min x y)
  | Some x, None => Some x
  | None, b => b
  end.

(** [unix]: the platform has SIGTERM. *)
Definition shutdown_signal (unix : bool) (ctrl_c terminate : Handler) : option Z :=
  if unix then earliest (awaits ctrl_c) (awaits terminate) else awaits ctrl_c.

Lemma signal_heard unix ctrl_c terminate t :
  ctrl_c = Installed (Some t) \/ (unix = true /\ terminate = Installed (Some t)) ->
  exists s, shutdown_signal unix ctrl_c terminate = Some s /\ s <= t.
Proof.
  unfold shutdown_signal. intros [->|[-> ->]]; cbn [awaits].
  - destruct unix; [|eexists; split; [done|lia]]. destruct (awaits terminate); cbn; eexists; (split; [done|lia]).
  - destruct (awaits ctrl_c); cbn; eexists; (split; [done|lia]).
Qed.

(* ------------------------------------------------------------------ *)
(** ** Tracing (src/src/telemetry/tracing.rs) *)

(** The endpoint spans are exported to, if any. *)
Definition otlp_endpoint (config : Config.TelemetryConfig) (var : string -> option string) : option string :=
  or_else (Config.otlp_endpoint config) (var "RUSTYGATE_OTLP_ENDPOINT"%string).

(** [exporter] builds the exporter for an endpoint; [try_init] installs the
    subscriber, with the tracing layer or without. *)
Definition init_tracing {E : Type} (exporter : string -> result unit E) (try_init : bool -> result unit E)
  (var : string -> option string) (config : Config.TelemetryConfig) : result unit E :=
  match otlp_endpoint config var with
  | Some endpoint => match exporter endpoint with Err e => Err e | Ok _ => try_init true end
  | None => try_init false
  end.

(** [HeaderInjector::set]: [header_name] and [header_value] are the checks of the
    [http] crate; a pair that fails one is left out. *)
Definition header_set (header_name header_value : string -> option string) (headers : gmap string string)
  (pair : string * string) : gmap string string :=
  match header_name pair.1, header_value pair.2 with
  | Some name, Some value => <[name := value]> headers
  | _, _ => headers
  end.

(** [fields] are the pairs the installed propagator makes of the current span. *)
Definition inject_trace_context (header_name header_value : string -> option string) (fields : list (string * string))
  (headers : gmap string string) : gmap string string :=
  foldl (header_set header_name header_value) headers fields.

(** Injection never touches a header that is not one of the propagator's fields:
    in particular the authorization a provider adapter has set. *)
Lemma inject_keeps_others header_name header_value fields headers h :
  (forall f, f ∈ fields -> header_name f.1 <> Some h) ->
  inject_trace_context header_name header_value fields headers !! h = headers !! h.
Proof.
  unfold inject_trace_context. revert headers. induction fields as [|f fields IH]; intros headers Hf; [done|]. cbn [foldl].
  rewrite IH by (intros f' Hin; apply Hf; by right). unfold header_set.
  destruct (header_name f.1) as [n|] eqn:E; [|done]. destruct (header_value f.2); [|done].
  apply lookup_insert_ne. intros ->. by apply (Hf f); [left|].
Qed.

(* ------------------------------------------------------------------ *)
(** ** The process *)

Section Main.
Context {E St : Type}.

Inductive ExitError :=
| ConfigFailed (e : Config.ConfigError)
| TracingFailed (e : E)
| StartFailed (e : Build.AppStateInitError)
| BindFailed (e : E)
| ServeFailed (e : @ServerError E).

(** Exit with a result at an instant, a panic, or a process that keeps running. *)
Inductive Process := Exited (at_ : Z) (r : result unit ExitError) | Aborted | Running.

(** [now] is when the process starts to serve; the steps before take no time.
    The health probes and the retention task it spawns run beside it, on their
    own state. *)
Definition main (now : Z) (load : result Config.AppConfig Config.ConfigError)
  (tracing : Config.TelemetryConfig -> result unit E) (build : Config.AppConfig -> Build.init St)
  (bind : Config.IpAddr -> Z -> result unit E) (server : St -> option Z -> option (@Finish E))
  (signal : option Z) (server_first : bool) : Process :=
  match load with
  | Err e => Exited now (Err (ConfigFailed e))
  | Ok config =>
      match tracing (Config.telemetry config) with
      | Err e => Exited now (Err (TracingFailed e))
      | Ok _ =>
          let grace := from_millis (Config.shutdown_grace_period_ms (Config.server config)) in
          match build config with
          | Build.Failed e => Exited now (Err (StartFailed e))
          | Build.Panicked => Aborted
          | Build.Done st =>
              match bind (Config.host (Config.server config)) (Config.port (Config.server config)) with
              | Err e => Exited now (Err (BindFailed e))
              | Ok _ =>
                  match run_with_graceful_shutdown (server st) signal grace server_first with
                  | None => Running
                  | Some ended => Exited (ended_at ended)
                      (match outcome ended with Ok _ => Ok tt | Err e => Err (ServeFailed e) end)
                  end
              end
          end
      end
  end.

End Main.

(** The process panics while it starts only for a configuration the libraries
    have no room for ([Build.roomy]), whatever the file, environment, databases
    and socket; otherwise a SIGINT or SIGTERM whose handler is installed
    ends it within the configured grace period. *)
Theorem signal_stops_the_process C `{!LruOps C} M `{MO : !MemoryCache.MokaOps M, !MemoryCache.MokaLaws M} {E : Type} read from_str var out
  (tracing : Config.TelemetryConfig -> result unit E) bind server unix ctrl_c terminate first started t :
  0 <= started <= t -> ctrl_c = Installed (Some t) \/ (unix = true /\ terminate = Installed (Some t)) ->
  let load := Config.from_env read from_str var in
  let grace := match load with Ok config => from_millis (Config.shutdown_grace_period_ms (Config.server config)) | Err _ => 0 end in
  0 <= grace -> (forall config, load = Ok config -> Build.roomy C config = true) ->
  exists at_ r, main started load tracing (fun config => Build.from_config C M out config started) bind server
      (shutdown_signal unix ctrl_c terminate) first = Exited at_ r /\ at_ <= t + grace.
Proof.
  intros Ht Hsig load grace Hg Hroom. destruct (signal_heard unix ctrl_c terminate t Hsig) as (s & -> & Hs). unfold main.
  destruct load as [config|e] eqn:El; [|by eexists _, _; split; [reflexivity|lia]].
  destruct (tracing _); [|by eexists _, _; split; [reflexivity|lia]].
  pose proof (Build.from_config_builds C M out config started (Config.loaded_is_valid _ _ _ _ El) (Hroom config eq_refl)) as Hb. unfold Build.done_iff in Hb.
  destruct (Build.from_config C M out config started) as [st|e|]; [|by eexists _, _; split; [reflexivity|lia]|done].
  destruct (bind _ _); [|by eexists _, _; split; [reflexivity|lia]].
  destruct (shutdown_bounded (server st) s grace first Hg) as (ended & He & Hend & _). fold grace. rewrite He.
  eexists _, _. split; [reflexivity|]. lia.
Qed.

(* ------------------------------------------------------------------ *)
(** ** Retention of the request log *)

Definition cutoff (now retention_days : Z) : Z := sat_sub now (u64_sat_mul retention_days 86400).

(** One turn of the pruning task; an error is only logged. *)
Definition retention_pass (now retention_days : Z) (db : Sqlite.SqliteRequestLogStore) : Sqlite.SqliteRequestLogStore :=
  fst (Sqlite.prune_older_than (cutoff now retention_days) db).

(** The task: what happens to the store before each turn, and the turn's clock. *)
Definition retention_task (messages_to_string : list Chat.ChatMessage -> option string) (retention_days : Z)
  (turns : list (list Sqlite.store_op * Z)) (db : Sqlite.SqliteRequestLogStore) : Sqlite.SqliteRequestLogStore :=
  foldl (fun db turn => retention_pass turn.2 retention_days
                          (foldl (Sqlite.store_step messages_to_string) db turn.1)) db turns.

Lemma cutoff_value now days : 0 <= now < 2 ^ 63 -> 0 <= days -> cutoff now days = Z.max 0 (now - days * 86400).
Proof. intros Hn Hd. unfold cutoff, sat_sub, u64_sat_mul, u64_max. lia. Qed.

Lemma cutoff_exact now days : 0 <= now < 2 ^ 63 -> 0 <= days ->
  Keys.as_i64 (cutoff now days) = Z.max 0 (now - days * 86400).
Proof.
  intros Hn Hd. rewrite cutoff_value by done. unfold Keys.as_i64. rewrite Z.mod_small; lia.
Qed.

(** The task is a history of the store in which every turn ends in a prune. *)
Definition task_ops (retention_days : Z) (turns : list (list Sqlite.store_op * Z)) : list Sqlite.store_op :=
  concat (map (fun turn => turn.1 ++ [Sqlite.Prune (cutoff turn.2 retention_days)]) turns).

Lemma task_history messages_to_string days turns db :
  retention_task messages_to_string days turns db =
  foldl (Sqlite.store_step messages_to_string) db (task_ops days turns).
Proof.
  revert db. induction turns as [|[ops now] turns IH]; intros db; [done|].
  unfold task_ops. cbn [retention_task foldl map concat]. rewrite !foldl_app. apply IH.
Qed.

Lemma usage_pruned now days db key day : 0 <= now < 2 ^ 63 -> 0 <= days -> Sqlite.online db = true ->
  Sqlite.api_key_usage_daily (retention_pass now days db) !! (key, day) =
  if day <? Z.max 0 (now - days * 86400) / 86400 then None else Sqlite.api_key_usage_daily db !! (key, day).
Proof.
  intros Hn Hd Hon. unfold retention_pass, Sqlite.prune_older_than. rewrite Hon. cbn [fst Sqlite.api_key_usage_daily].
  assert (Keys.as_i64 (cutoff now days / 86400) = Z.max 0 (now - days * 86400) / 86400) as ->.
  { rewrite cutoff_value by done. unfold Keys.as_i64. set (c := Z.max 0 (now - days * 86400)).
    assert (0 <= c / 86400 < 2 ^ 63) by (split; [apply Z.div_pos|apply Z.div_lt_upper_bound]; lia).
    rewrite Z.mod_small; lia. }
  rewrite map_lookup_filter. destruct (Sqlite.api_key_usage_daily db !! (key, day)) as [u|]; cbn; [|by destruct (_ <? _)].
  destruct (Z.ltb_spec day (Z.max 0 (now - days * 86400) / 86400)).
  - by rewrite option_guard_False by lia.
  - by rewrite option_guard_True by lia.
Qed.

(** C24: retention keeps exactly the recent requests.  After any number of turns
    of the pruning task with any requests recorded and outages in between, a
    turn that reaches the database leaves, of the requests the history keeps,
    the row of each one created within the retention period and every attempt
    it was recorded with, and nothing else; daily usage rows stay for the days
    from the cutoff's on. *)
Theorem retention_exact messages_to_string days turns ops now :
  let kept := snd (Sqlite.history messages_to_string (task_ops days turns ++ ops)) in
  let recent := filter (fun k => now - days * 86400 <= RequestLog.created_at_unix_seconds (Sqlite.entry k)) kept in
  let db := foldl (Sqlite.store_step messages_to_string)
              (retention_task messages_to_string days turns Sqlite.empty_store) ops in
  let db' := retention_pass now days db in
  0 <= now < 2 ^ 63 -> 0 <= days -> Sqlite.online db = true ->
  Forall (fun k => 0 <= RequestLog.created_at_unix_seconds (Sqlite.entry k)) kept ->
  Sqlite.request_logs db' = map Sqlite.request_row recent /\
  Sqlite.provider_attempts db' = concat (map Sqlite.attempt_rows recent) /\
  forall key day, Sqlite.api_key_usage_daily db' !! (key, day) =
    if day <? Z.max 0 (now - days * 86400) / 86400 then None else Sqlite.api_key_usage_daily db !! (key, day).
Proof.
  intros kept recent db db' Hn Hd Hon Hpos.
  pose proof (Sqlite.stores_history messages_to_string (task_ops days turns ++ ops)) as Hs.
  rewrite foldl_app, <-task_history in Hs. fold db in Hs.
  pose proof (Sqlite.stores_prune messages_to_string _ _ (cutoff now days) Hs) as [_ Hr Ha _].
  assert ((Sqlite.log_step messages_to_string (Sqlite.history messages_to_string (task_ops days turns ++ ops))
             (Sqlite.Prune (cutoff now days))).2 = recent) as Hrecent.
  { pose proof (Sqlite.same_online _ _ Hs) as Hup. rewrite Hon in Hup. unfold recent, kept in *.
    destruct (Sqlite.history _ _) as [up ks]. cbn [fst snd Sqlite.log_step] in *. subst up.
    apply filter_ext_elem. intros k Hk. rewrite Forall_forall in Hpos. specialize (Hpos k Hk). cbn in Hpos.
    rewrite cutoff_exact by done. lia. }
  rewrite Hrecent in Hr, Ha. split_and!; [exact Hr|exact Ha|]. intros key day. by apply usage_pruned.
Qed.

Definition demo_record (rid created : Z) : Sqlite.store_op :=
  Sqlite.RecordRequest (fun i => 1000 * rid + Z.of_nat i)
    (RequestLog.new created rid "/v1/chat/completions" None None RequestLog.Failure 30 None None None
       [Sqlite.demo_attempt "a" 1 25 false; Sqlite.demo_attempt "b" 2 10 false] RequestLog.RequestLoggingConfig_default).

Definition demo_log : list Sqlite.store_op := [demo_record 1 1700000000; demo_record 2 1703456000].
Definition demo_kept : list Sqlite.Recorded :=
  filter (fun k => 1703456001 - 30 * 86400 <= RequestLog.created_at_unix_seconds (Sqlite.entry k))
    (snd (Sqlite.history (fun _ => None) (task_ops 30 [([], 1700000000)] ++ demo_log))).
Definition demo_pruned : Sqlite.SqliteRequestLogStore :=
  retention_pass 1703456001 30 (foldl (Sqlite.store_step (fun _ => None))
    (retention_task (fun _ => None) 30 [([], 1700000000)] Sqlite.empty_store) demo_log).

(** Two requests forty days apart: a pass with thirty days keeps the second,
    with its two attempts. *)
Lemma retention_exact_witness :
  (map Sqlite.log_created_at (Sqlite.request_logs demo_pruned) = [1703456000] /\
   map Sqlite.row_latency_ms (Sqlite.provider_attempts demo_pruned) = [25; 10]) /\
  Sqlite.request_logs demo_pruned = map Sqlite.request_row demo_kept /\
  Sqlite.provider_attempts demo_pruned = concat (map Sqlite.attempt_rows demo_kept).
Proof.
  split; [split; vm_compute; reflexivity|].
  destruct (retention_exact (fun _ => None) 30 [([], 1700000000)] demo_log 1703456001) as (Hr & Ha & _);
    [lia|lia|vm_compute; reflexivity|vm_compute; repeat constructor; discriminate|].
  split; [exact Hr|exact Ha].
Defined.

End Server.
