(* ===== verification/F64Real.v ===== *)
(** * Floating-point arithmetic and real numbers

    The value of a double as a real number, and how far one operation on
    non-negative doubles can exceed the exact result: by a relative error of
    2^-52, and by the least subnormal.  Comparisons are of values for canonical
    numbers, and the operations give canonical numbers. *)
From S2P Require Import Prelude F64 F64Facts.
From Stdlib Require Import SpecFloat Reals Lra.

Module F64Real.
Import F64 F64Facts.

Open Scope R_scope.

(* ------------------------------------------------------------------ *)
(** ** Powers of two *)

Definition pow2 (e : Z) : R := powerRZ 2 e.

Lemma pow2_pos e : 0 < pow2 e.
Proof. apply powerRZ_lt. lra. Qed.

Lemma pow2_add a b : pow2 (a + b) = pow2 a * pow2 b.
Proof. apply powerRZ_add. lra. Qed.

Lemma pow2_Z n : (0 <= n)%Z -> pow2 n = IZR (2 ^ n).
Proof.
  intros Hn. unfold pow2. rewrite <-(Z2Nat.id n Hn), <-pow_powerRZ, pow_IZR. reflexivity.
Qed.

Lemma pow2_mono a b : (a <= b)%Z -> pow2 a <= pow2 b.
Proof.
  intros Hab. replace b with (a + (b - a))%Z by lia. rewrite pow2_add, (pow2_Z (b - a)) by lia.
  assert (1 <= IZR (2 ^ (b - a))) by (apply IZR_le; pose proof (Z.pow_pos_nonneg 2 (b - a)); lia).
  pose proof (pow2_pos a). nra.
Qed.

(** A dyadic number, [m] times [2 ^ e]. *)
Definition dyadic (m e : Z) : R := IZR m * pow2 e.

Lemma dyadic_scale m e k : (0 <= k)%Z -> dyadic (m * 2 ^ k) (e - k) = dyadic m e.
Proof.
  intros Hk. unfold dyadic. rewrite mult_IZR, <-pow2_Z by done. rewrite Rmult_assoc, <-pow2_add. do 2 f_equal. lia.
Qed.

Lemma dyadic_le m m' e : (m <= m')%Z -> dyadic m e <= dyadic m' e.
Proof. intros H. unfold dyadic. apply Rmult_le_compat_r; [left; apply pow2_pos|by apply IZR_le]. Qed.

Lemma dyadic_add m m' e : dyadic (m + m') e = dyadic m e + dyadic m' e.
Proof. unfold dyadic. rewrite plus_IZR. lra. Qed.

Lemma dyadic_sub m m' e : dyadic (m - m') e = dyadic m e - dyadic m' e.
Proof. unfold dyadic. rewrite minus_IZR. lra. Qed.

Lemma dyadic_nonneg m e : (0 <= m)%Z -> 0 <= dyadic m e.
Proof. intros H. apply Rmult_le_pos; [by apply IZR_le|left; apply pow2_pos]. Qed.

(** Shifting right rounds down. *)
Lemma dyadic_shift m e k : (0 <= k)%Z -> dyadic (m / 2 ^ k) (e + k) <= dyadic m e.
Proof.
  intros Hk. rewrite <-(dyadic_scale (m / 2 ^ k) (e + k) k) by done. replace (e + k - k)%Z with e by lia.
  apply dyadic_le. pose proof (Z.mul_div_le m (2 ^ k) ltac:(apply Z.pow_pos_nonneg; lia)). lia.
Qed.

(** The digits of a mantissa bound it. *)
Lemma pow2_digits m e : (0 < m)%Z -> pow2 (Zdigits2 m + e - 1) <= dyadic m e < pow2 (Zdigits2 m + e).
Proof.
  intros Hm. pose proof (Zdigits2_pos m Hm) as Hd. unfold dyadic.
  replace (Zdigits2 m + e - 1)%Z with (Zdigits2 m - 1 + e)%Z by lia.
  rewrite !pow2_add, (pow2_Z (Zdigits2 m - 1)), (pow2_Z (Zdigits2 m)) by lia.
  pose proof (pow2_pos e). split; [apply Rmult_le_compat_r; [lra|]; apply IZR_le|apply Rmult_lt_compat_r; [lra|]; apply IZR_lt].
  - apply Z.nlt_ge. rewrite <-Zdigits2_le by lia. lia.
  - apply Zdigits2_le; lia.
Qed.

(* ------------------------------------------------------------------ *)
(** ** Values *)

(** The value of a non-negative double. *)
Definition val (x : t) : R := match x with S754_finite false m e => dyadic (Zpos m) e | _ => 0 end.

Definition canonical (x : t) : Prop :=
  match x with S754_finite _ m e => fexp 53 1024 (Zdigits2 (Zpos m) + e) = e | _ => True end.

(** A finite non-negative double in canonical form. *)
Definition good (x : t) : Prop := nonneg x /\ finite x /\ canonical x.

Lemma val_nonneg x : 0 <= val x.
Proof. destruct x as [s|s| |[] m e]; cbn; try lra. by apply dyadic_nonneg. Qed.

(** The error of one rounding: relative, and the least subnormal. *)
Definition eps : R := pow2 (-52).
Definition tiny : R := pow2 (-1074).

Lemma eps_pos : 0 < eps.
Proof. apply pow2_pos. Qed.
Lemma tiny_pos : 0 < tiny.
Proof. apply pow2_pos. Qed.

(* ------------------------------------------------------------------ *)
(** ** Rounding *)

Lemma Zdigits2_div m k : (0 <= k < Zdigits2 m)%Z -> (0 < m)%Z -> Zdigits2 (m / 2 ^ k) = (Zdigits2 m - k)%Z.
Proof.
  intros Hk Hm. rewrite (Zdigits2_log2 m) in * by done. rewrite <-Z.shiftr_div_pow2 by lia.
  pose proof (Z.log2_shiftr m k Hm) as Hs. rewrite Zdigits2_log2; [lia|].
  rewrite Z.shiftr_div_pow2 by lia. apply Z.div_str_pos. split; [apply Z.pow_pos_nonneg; lia|].
  transitivity (2 ^ Z.log2 m)%Z; [apply Z.pow_le_mono_r; lia|]. apply Z.log2_spec. lia.
Qed.

(** A mantissa with at least the digits the format keeps. *)
Definition wide (m e : Z) : Prop := (e <= fexp 53 1024 (Zdigits2 m + e))%Z.

Lemma round_canonical m e l : (0 < m)%Z -> wide m e -> canonical (binary_round_aux 53 1024 false m e l).
Proof.
  intros Hm Hw. destruct (round_shape m e l ltac:(lia)) as (m1 & Hm1 & Heq). cbv zeta in Heq. rewrite Heq. clear Heq.
  unfold wide in Hw. set (d := Zdigits2 m) in *. set (e1 := fexp 53 1024 (d + e)) in *.
  assert (excess m e = e1 - e)%Z as Hx by (unfold excess; fold d; lia). rewrite Hx in *. replace (e + (e1 - e))%Z with e1 by lia.
  assert (0 <= m / 2 ^ (e1 - e))%Z as Hq by (apply Z.div_pos; [lia|]; apply Z.pow_pos_nonneg; lia).
  assert (Zdigits2 m1 + e1 <= Z.max (d + e) (-1074) + 1)%Z as Hd1.
  { pose proof (Zdigits2_succ _ m1 Hq Hm1). destruct (decide (e1 - e < d)%Z).
    - rewrite (Zdigits2_div m (e1 - e)) in H by (fold d; lia). fold d in H. lia.
    - assert (m / 2 ^ (e1 - e) = 0)%Z as E0.
      { apply Z.div_small. split; [lia|]. apply Z.lt_le_trans with (2 ^ d)%Z; [apply Zdigits2_le; unfold d; [lia| |lia]; apply Zdigits2_nonneg|].
        apply Z.pow_le_mono_r; lia. }
      rewrite E0 in H. cbn in H. unfold e1, fexp, emin in *. lia. }
  assert (d + e - 53 = e1 -> 53 <= Zdigits2 m1 /\ (Zdigits2 m1 = 54 -> m1 = 2 ^ 53))%Z as Hfull.
  { intros He. pose proof (Zdigits2_pos m Hm) as Hd0. fold d in Hd0. assert (0 <= e1 - e < d)%Z as Hk by (unfold e1, fexp, emin in *; lia).
    pose proof (Zdigits2_div m (e1 - e) Hk Hm) as Hdq. fold d in Hdq. set (q := (m / 2 ^ (e1 - e))%Z) in *.
    assert (0 < q)%Z as Hq0 by (destruct (decide (q = 0)%Z) as [E|]; [rewrite E in Hdq; cbn in Hdq; lia|lia]).
    split; [pose proof (Zdigits2_mono q m1 Hq0 ltac:(lia)); lia|]. intros H54.
    assert (q < 2 ^ 53)%Z by (apply Zdigits2_le; lia).
    assert (2 ^ 53 <= m1)%Z; [|lia]. apply Z.nlt_ge. rewrite <-Zdigits2_le by lia. lia. }
  set (x2 := excess m1 e1). assert (x2 = Z.max (fexp 53 1024 (Zdigits2 m1 + e1) - e1) 0)%Z as Hx2 by reflexivity.
  destruct (decide (x2 = 0)%Z) as [E|E].
  - rewrite E. rewrite Z.pow_0_r, Z.div_1_r, Z.add_0_r. destruct m1 as [|p|p]; [exact I| |exact I].
    destruct (e1 <=? 971)%Z; [|exact I]. cbn [canonical]. unfold e1, fexp, emin in *. lia.
  - assert (d + e - 53 = e1)%Z as He by (unfold e1, fexp, emin in *; lia). destruct (Hfull He) as [H53 H54].
    assert (Zdigits2 m1 = 54)%Z as E54 by (unfold e1, fexp, emin in *; lia). assert (x2 = 1)%Z as E1 by (unfold e1, fexp, emin in *; lia).
    rewrite (H54 E54), E1. change (2 ^ 53 / 2 ^ 1)%Z with 4503599627370496%Z. destruct (e1 + 1 <=? 971)%Z; [|exact I].
    cbn [canonical]. change (Zdigits2 4503599627370496) with 53%Z. unfold e1, fexp, emin in *. lia.
Qed.

Lemma round_val m e l : (0 < m)%Z -> wide m e ->
  val (binary_round_aux 53 1024 false m e l) <= dyadic m e * (1 + eps) + tiny.
Proof.
  intros Hm Hw. pose proof (dyadic_nonneg m e ltac:(lia)) as H0. pose proof eps_pos. pose proof tiny_pos.
  destruct (round_shape m e l ltac:(lia)) as (m1 & Hm1 & Heq). cbv zeta in Heq. rewrite Heq. clear Heq.
  unfold wide in Hw. set (e1 := fexp 53 1024 (Zdigits2 m + e)) in *.
  assert (excess m e = e1 - e)%Z as Hx by (unfold excess; fold e1; lia). rewrite Hx in *. replace (e + (e1 - e))%Z with e1 by lia.
  assert (dyadic m1 e1 <= dyadic m e * (1 + eps) + tiny) as Hb.
  { apply Rle_trans with (dyadic (m / 2 ^ (e1 - e) + 1) e1); [apply dyadic_le; lia|]. rewrite dyadic_add.
    assert (dyadic (m / 2 ^ (e1 - e)) e1 <= dyadic m e).
    { replace e1 with (e + (e1 - e))%Z at 2 by lia. apply dyadic_shift. lia. }
    assert (dyadic 1 e1 <= dyadic m e * eps + tiny); [|lra]. unfold dyadic at 1. rewrite Rmult_1_l.
    pose proof (pow2_digits m e Hm) as [Hd _]. unfold eps, tiny. unfold e1, fexp.
    change (emin 53 1024) with (-1074)%Z. destruct (Z.max_spec (Zdigits2 m + e - 53) (-1074)) as [[_ ->]|[_ ->]].
    - pose proof (pow2_pos (-52)). nra.
    - replace (Zdigits2 m + e - 53)%Z with (Zdigits2 m + e - 1 + -52)%Z by lia. rewrite pow2_add.
      pose proof (pow2_pos (-52)). pose proof (pow2_pos (-1074)). nra. }
  assert (0 <= dyadic m e * (1 + eps) + tiny) by nra.
  assert (0 <= excess m1 e1)%Z as Hx2 by (unfold excess; lia).
  pose proof (dyadic_shift m1 e1 (excess m1 e1) Hx2) as Hs.
  destruct (m1 / 2 ^ excess m1 e1)%Z as [|m2|m2]; [| |]; cbn [val]; try lra.
  destruct (_ <=? 971)%Z; cbn [val]; lra.
Qed.

(* ------------------------------------------------------------------ *)
(** ** Operations *)

(** [binary_normalize] widens the mantissa without changing the number. *)
Lemma normalize_round m e : (0 < m)%Z -> exists m' e',
  binary_normalize 53 1024 m e false = binary_round_aux 53 1024 false m' e' loc_Exact /\
  (0 < m')%Z /\ wide m' e' /\ dyadic m' e' = dyadic m e /\ (Zdigits2 m' + e' = Zdigits2 m + e)%Z.
Proof.
  intros Hm. destruct m as [|p|p]; [lia| |lia]. cbn [binary_normalize]. unfold binary_round.
  change (Zpos (digits2_pos p)) with (Zdigits2 (Zpos p)). set (e1 := fexp 53 1024 (Zdigits2 (Zpos p) + e)).
  destruct (decide (e <= e1)%Z) as [Hle|Hgt].
  - assert (shl_align p e e1 = (p, e)) as -> by (unfold shl_align; destruct (e1 - e)%Z eqn:E; [done|done|lia]).
    exists (Zpos p), e. split; [done|]. split; [done|]. split; [exact Hle|]. done.
  - rewrite shl_align_value by lia. assert (0 < 2 ^ (e - e1))%Z by (apply Z.pow_pos_nonneg; lia).
    exists (Zpos p * 2 ^ (e - e1))%Z, e1. rewrite Z2Pos.id by lia. split; [done|]. split; [lia|].
    assert (Zdigits2 (Zpos p * 2 ^ (e - e1)) + e1 = Zdigits2 (Zpos p) + e)%Z as Hd by (rewrite Zdigits2_mul_pow by lia; lia).
    split; [unfold wide; rewrite Hd; fold e1; lia|]. split; [|done].
    rewrite <-(dyadic_scale (Zpos p) e (e - e1)) by lia. f_equal. lia.
Qed.

Lemma normalize_good m e k : (0 <= m)%Z -> (0 <= k < 970)%Z -> (Zdigits2 m + e <= k)%Z ->
  let x := binary_normalize 53 1024 m e false in
  good x /\ below (k + 1) x /\ val x <= dyadic m e * (1 + eps) + tiny.
Proof.
  intros Hm Hk Hd x. destruct (decide (m = 0)%Z) as [->|Hne].
  { unfold x. cbn [binary_normalize]. split; [done|]. split; [done|]. cbn [val]. unfold dyadic. pose proof tiny_pos. lra. }
  destruct (normalize_round m e ltac:(lia)) as (m' & e' & Hx & Hm' & Hw & Hv & Hdig). unfold x. rewrite Hx, <-Hv.
  assert (below (k + 1) (binary_round_aux 53 1024 false m' e' loc_Exact)) as Hb by (apply round_below; lia).
  split; [|split; [exact Hb|by apply round_val]].
  split; [by apply round_nonneg; lia|]. split; [exact (below_finite _ _ Hb)|by apply round_canonical].
Qed.

Lemma below_digits k x : nonneg x -> below k x -> match x with S754_finite s m e => s = false /\ (Zdigits2 (Zpos m) + e <= k)%Z | _ => True end.
Proof. by destruct x as [s|s| |[] m e]. Qed.

Lemma align_dyadic m e e' : (e' <= e)%Z -> exists m', shl_align m e e' = (m', e') /\ dyadic (Zpos m') e' = dyadic (Zpos m) e /\
  (Zdigits2 (Zpos m') + e' = Zdigits2 (Zpos m) + e)%Z.
Proof.
  intros He. rewrite shl_align_value by done. assert (0 < 2 ^ (e - e'))%Z by (apply Z.pow_pos_nonneg; lia).
  eexists. split; [reflexivity|]. rewrite Z2Pos.id by lia. rewrite Zdigits2_mul_pow by lia. split; [|lia].
  rewrite <-(dyadic_scale (Zpos m) e (e - e')) by lia. f_equal. lia.
Qed.

Lemma Zdigits2_add a b d : (0 <= a)%Z -> (0 <= b)%Z -> (Zdigits2 a <= d)%Z -> (Zdigits2 b <= d)%Z -> (Zdigits2 (a + b) <= d + 1)%Z.
Proof.
  intros Ha Hb H1 H2. assert (0 <= d)%Z by (pose proof (Zdigits2_nonneg a); lia). apply Zdigits2_le in H1; [|lia..]. apply Zdigits2_le in H2; [|lia..].
  apply Zdigits2_le; [lia..|]. rewrite Z.pow_add_r by lia. lia.
Qed.

Lemma add_good x y k : good x -> good y -> below k x -> below k y -> (0 <= k < 960)%Z ->
  good (add x y) /\ below (k + 2) (add x y) /\ val (add x y) <= (val x + val y) * (1 + eps) + tiny.
Proof.
  intros Gx Gy Bx By Hk. pose proof eps_pos. pose proof tiny_pos.
  assert (forall v, 0 <= v -> v <= v * (1 + eps) + tiny) as Hv by (intros v Hv; nra).
  assert (below (k + 2) x /\ below (k + 2) y) as [Bx2 By2] by (split; apply below_mono with k; (lia || done)).
  pose proof Gx as (Nx & _ & _). pose proof Gy as (Ny & _ & _).
  destruct x as [sx|sx| |sx mx ex], y as [sy|sy| |sy my ey]; cbn [below] in Bx, By; try done; cbn in Nx, Ny; subst.
  - destruct sx, sy; (split; [done|]; split; [done|]; unfold add; cbn [SFadd val]; nra).
  - change (add (S754_zero sx) (S754_finite false my ey)) with (S754_finite false my ey). split; [done|]. split; [done|].
    change (val (S754_zero sx)) with 0. rewrite Rplus_0_l. apply Hv, val_nonneg.
  - change (add (S754_finite false mx ex) (S754_zero sy)) with (S754_finite false mx ex). split; [done|]. split; [done|].
    change (val (S754_zero sy)) with 0. rewrite Rplus_0_r. apply Hv, val_nonneg.
  - unfold add. cbn [SFadd cond_Zopp val]. set (ez := Z.min ex ey).
    destruct (align_dyadic mx ex ez ltac:(lia)) as (mx' & -> & <- & Dx). destruct (align_dyadic my ey ez ltac:(lia)) as (my' & -> & <- & Dy).
    cbn [fst]. rewrite <-dyadic_add. pose proof (Zdigits2_add (Zpos mx') (Zpos my') (k - ez) ltac:(lia) ltac:(lia) ltac:(lia) ltac:(lia)).
    destruct (normalize_good (Zpos mx' + Zpos my') ez (k + 1) ltac:(lia) ltac:(lia) ltac:(lia)) as (G & B & V).
    split; [exact G|]. split; [|exact V]. by replace (k + 2)%Z with (k + 1 + 1)%Z by lia.
Qed.

(** Comparisons are of values. *)
Lemma canonical_digits m e : canonical (S754_finite false m e) -> (Zdigits2 (Zpos m) <= 53)%Z /\ (-1074 <= e)%Z /\
  (Zdigits2 (Zpos m) < 53 -> e = -1074)%Z.
Proof. cbn [canonical]. unfold fexp. change (emin 53 1024) with (-1074)%Z. lia. Qed.

Lemma ltb_val x y : good x -> good y -> ltb x y = true -> val x < val y.
Proof.
  intros (Nx & Fx & Cx) (Ny & Fy & Cy) H. destruct x as [sx|sx| |sx mx ex], y as [sy|sy| |sy my ey]; try done; cbn in Nx, Ny; subst; try discriminate H.
  - cbn [val]. unfold dyadic. apply Rmult_lt_0_compat; [by apply IZR_lt|apply pow2_pos].
  - cbn [val]. unfold ltb, SFltb in H. cbn [SFcompare] in H.
    destruct (canonical_digits _ _ Cx) as (Dx & Ex & _). destruct (canonical_digits _ _ Cy) as (Dy & Ey & Fully).
    destruct (Z.compare_spec ex ey) as [->|Hlt|Hgt]; [| |done].
    + unfold dyadic. apply Rmult_lt_compat_r; [apply pow2_pos|]. apply IZR_lt. change (Pos.compare_cont Eq ?a ?b) with (Pos.compare a b) in H.
      destruct (Pos.compare_spec mx my) as [|Hm|]; [done|lia|done].
    + apply Rlt_le_trans with (pow2 (Zdigits2 (Zpos mx) + ex)); [by apply pow2_digits|].
      apply Rle_trans with (pow2 (Zdigits2 (Zpos my) + ey - 1)); [apply pow2_mono; lia|by apply pow2_digits].
Qed.

Lemma leb_val x y : good x -> good y -> leb x y = true -> val x <= val y.
Proof.
  intros Gx Gy H. destruct (ltb x y) eqn:E; [left; by apply ltb_val|].
  assert (SFcompare x y = Some Eq) as Hc by (unfold leb, ltb, SFleb, SFltb in *; by destruct (SFcompare x y) as [[]|]).
  destruct Gx as (Nx & Fx & Cx), Gy as (Ny & Fy & Cy).
  destruct x as [sx|sx| |sx mx ex], y as [sy|sy| |sy my ey]; try done; cbn in Nx, Ny; subst; try discriminate Hc.
  cbn [SFcompare] in Hc. destruct (Z.compare_spec ex ey) as [->| |]; [|done|done].
  change (Pos.compare_cont Eq ?a ?b) with (Pos.compare a b) in Hc. destruct (Pos.compare_spec mx my) as [->| |]; [|done|done].
  apply Rle_refl.
Qed.

Lemma min_val x y : good x -> good y -> good (min x y) /\ val (min x y) <= val x /\ val (min x y) <= val y.
Proof.
  intros Gx Gy. pose proof Gx as (Nx & _). pose proof Gy as (Ny & _).
  unfold min. rewrite !is_nan_false by (by apply nonneg_not_nan). destruct (ltb y x) eqn:E.
  - pose proof (ltb_val _ _ Gy Gx E). split; [done|]. split; lra.
  - split; [done|]. split; [lra|]. apply leb_val; [done..|]. apply not_ltb_leb; [by apply nonneg_not_nan..|done].
Qed.

(** The difference of a number and a smaller one. *)
Lemma sub_good x y k : good x -> good y -> below k x -> val y <= val x -> (0 <= k < 960)%Z ->
  (exists m e, y = S754_finite false m e) ->
  let d := sub x y in good d /\ val d <= (val x - val y) * (1 + eps) + tiny.
Proof.
  intros (Nx & Fx & Cx) (Ny & Fy & Cy) Bx Hle Hk (my & ey & ->). cbv zeta. pose proof (pow2_pos ey).
  assert (0 < val (S754_finite false my ey)) by (cbn [val]; unfold dyadic; apply Rmult_lt_0_compat; [by apply IZR_lt|done]).
  destruct x as [sx|sx| |sx mx ex]; try done; [cbn [val] in *; lra|]. cbn in Nx; subst. cbn [val] in *.
  unfold sub. cbn [SFsub cond_Zopp]. set (ez := Z.min ex ey). cbn [below] in Bx.
  destruct (align_dyadic mx ex ez ltac:(lia)) as (mx' & -> & Vx & Dx). destruct (align_dyadic my ey ez ltac:(lia)) as (my' & -> & Vy & Dy).
  rewrite <-Vx, <-Vy in *. cbn [fst]. rewrite <-dyadic_sub.
  assert (Zpos my' <= Zpos mx')%Z as Hm.
  { apply le_IZR. unfold dyadic in Hle. apply Rmult_le_reg_r with (pow2 ez); [apply pow2_pos|done]. }
  assert (Zdigits2 (Zpos mx' - Zpos my') <= Zdigits2 (Zpos mx'))%Z.
  { apply Zdigits2_le; [lia|apply Zdigits2_nonneg|]. apply Z.le_lt_trans with (Zpos mx'); [lia|]. apply Zdigits2_le; [lia|apply Zdigits2_nonneg|lia]. }
  destruct (normalize_good (Zpos mx' - Zpos my') ez k ltac:(lia) ltac:(lia) ltac:(lia)) as (G & _ & V). by split.
Qed.

Lemma Zdigits2_mul a b : (0 < a)%Z -> (0 < b)%Z -> (Zdigits2 (a * b) <= Zdigits2 a + Zdigits2 b)%Z.
Proof.
  intros Ha Hb. pose proof (Zdigits2_pos a Ha). pose proof (Zdigits2_pos b Hb). apply Zdigits2_le; [lia..|].
  rewrite Z.pow_add_r by lia. assert (a < 2 ^ Zdigits2 a)%Z by (apply Zdigits2_le; lia). assert (b < 2 ^ Zdigits2 b)%Z by (apply Zdigits2_le; lia). nia.
Qed.

Lemma dyadic_mul m m' e e' : dyadic (m * m') (e + e') = dyadic m e * dyadic m' e'.
Proof. unfold dyadic. rewrite mult_IZR, pow2_add. ring. Qed.

Lemma mul_good x y k j : good x -> good y -> below k x -> below j y -> (0 <= k)%Z -> (0 <= j <= 53)%Z -> (k + j < 970)%Z ->
  good (mul x y) /\ below (k + j + 1) (mul x y) /\ val (mul x y) <= val x * val y * (1 + eps) + tiny.
Proof.
  intros Gx Gy Bx By Hk Hj Hkj. pose proof tiny_pos. pose proof Gx as (Nx & _ & Cx). pose proof Gy as (Ny & _ & Cy).
  destruct x as [sx|sx| |sx mx ex], y as [sy|sy| |sy my ey]; cbn [below] in Bx, By; try done; cbn in Nx, Ny; subst;
    try (split; [done|]; split; [done|]; unfold mul; cbn [SFmul val]; lra).
  unfold mul. cbn [SFmul xorb val]. rewrite <-dyadic_mul, <-Pos2Z.inj_mul.
  destruct (canonical_digits _ _ Cx) as (Dx & Ex & Fx). destruct (canonical_digits _ _ Cy) as (Dy & Ey & Fy).
  rewrite (Pos2Z.inj_mul mx my). set (m := (Zpos mx * Zpos my)%Z).
  assert (Zdigits2 (Zpos mx) <= Zdigits2 m)%Z by (apply Zdigits2_mono; unfold m; nia).
  assert (Zdigits2 m <= Zdigits2 (Zpos mx) + Zdigits2 (Zpos my))%Z by (by apply Zdigits2_mul).
  assert (wide m (ex + ey)) as Hw.
  { unfold wide, fexp. change (emin 53 1024) with (-1074)%Z. pose proof (Zdigits2_pos (Zpos my) ltac:(lia)). lia. }
  assert (below (k + j + 1) (binary_round_aux 53 1024 false m (ex + ey) loc_Exact)) as Hb by (apply round_below; unfold m in *; lia).
  split; [|split; [exact Hb|apply round_val; [unfold m; lia|exact Hw]]].
  split; [apply round_nonneg; unfold m; lia|]. split; [exact (below_finite _ _ Hb)|apply round_canonical; [unfold m; lia|exact Hw]].
Qed.

Lemma of_Z_good n : (0 <= n < 2 ^ 53)%Z -> good (of_Z n) /\ val (of_Z n) = IZR n.
Proof.
  intros Hn. destruct (decide (n = 0)%Z) as [->|Hne]; [done|]. rewrite of_Z_int by lia. pose proof (Zdigits2_small n ltac:(lia)) as Hd.
  assert (0 < 2 ^ (53 - Zdigits2 n))%Z by (apply Z.pow_pos_nonneg; lia). unfold int_f64.
  split; [split; [done|]; split; [done|]|].
  - cbn [canonical]. rewrite Z2Pos.id by nia. rewrite Zdigits2_mul_pow by lia. unfold fexp, emin. lia.
  - cbn [val]. rewrite Z2Pos.id by nia. replace (Zdigits2 n - 53)%Z with (0 - (53 - Zdigits2 n))%Z by lia.
    rewrite dyadic_scale by lia. unfold dyadic, pow2. cbn. ring.
Qed.

(** Dividing an integer by a normal number. *)
Lemma div_good n y j : (0 <= n < 2 ^ 52)%Z -> good y -> at_least j y -> below 60 y -> (0 <= j < 900)%Z ->
  good (div (of_Z n) y) /\ below (52 + j + 2) (div (of_Z n) y) /\ val (div (of_Z n) y) <= IZR n / val y * (1 + eps) + tiny.
Proof.
  intros Hn Gy Hj By Hjb. pose proof tiny_pos. pose proof eps_pos. pose proof Gy as (Ny & _ & Cy).
  assert (below (52 + j + 2) (div (of_Z n) y)) as Hb.
  { apply div_below; [apply of_Z_nonneg; lia|apply of_Z_below; lia|done|lia]. }
  destruct (of_Z_good n ltac:(lia)) as [Gn Vn]. pose proof (pow2_pos 0) as _.
  destruct y as [sy|sy| |[] my ey]; try done. destruct (canonical_digits _ _ Cy) as (Dy & Ey & _).
  assert (0 < val (S754_finite false my ey)) as Vy by (cbn [val]; unfold dyadic; apply Rmult_lt_0_compat; [by apply IZR_lt|apply pow2_pos]).
  destruct (decide (n = 0)%Z) as [->|Hne].
  { change (div (of_Z 0) (S754_finite false my ey)) with (S754_zero false). split; [done|]. split; [done|]. cbn [val]. unfold Rdiv. rewrite !Rmult_0_l. lra. }
  pose proof (Zdigits2_small n ltac:(lia)) as Hd. assert (0 < 2 ^ (53 - Zdigits2 n))%Z by (apply Z.pow_pos_nonneg; lia).
  rewrite of_Z_int in * by lia. unfold int_f64 in *. set (mn := Z.to_pos (n * 2 ^ (53 - Zdigits2 n))) in *. set (en := (Zdigits2 n - 53)%Z) in *.
  assert (Zdigits2 (Zpos mn) = 53)%Z as Dn by (unfold mn; rewrite Z2Pos.id by nia; rewrite Zdigits2_mul_pow by lia; lia).
  cbn [below] in By. unfold div in *. cbn [SFdiv xorb] in *. pose proof (Zdigits2_pos (Zpos my) ltac:(lia)).
  destruct (div_normal mn en my ey) as (q & s & l & E & Hq52 & Hq & He & Hs & Hle); [unfold en; lia|unfold en; lia|]. rewrite E in *.
  assert (wide q (en - ey - s)) as Hw by (unfold wide, fexp; lia).
  split; [|split; [exact Hb|]].
  - split; [apply round_nonneg; lia|]. split; [exact (below_finite _ _ Hb)|apply round_canonical; [lia|done]].
  - apply Rle_trans with (dyadic q (en - ey - s) * (1 + eps) + tiny); [apply round_val; [lia|done]|].
    apply Rplus_le_compat_r, Rmult_le_compat_r; [lra|]. rewrite <-Vn. cbn [val] in *.
    apply Rmult_le_reg_r with (dyadic (Zpos my) ey); [done|]. unfold Rdiv. rewrite Rmult_assoc, Rinv_l, Rmult_1_r by lra.
    rewrite <-dyadic_mul, <-(dyadic_scale (Zpos mn) en s) by lia. replace (en - ey - s + ey)%Z with (en - s)%Z by lia.
    by apply dyadic_le.
Qed.

(** [Duration::as_secs_f64] rounds three times. *)
Lemma as_secs_good d : (0 <= d < 2 ^ 52 * 1000000000)%Z ->
  good (as_secs_f64 d) /\ below 56 (as_secs_f64 d) /\
  val (as_secs_f64 d) <= IZR d / 1000000000 * (1 + 3 * eps) + 3 * tiny.
Proof.
  intros Hd. unfold as_secs_f64. set (q := (d / 1000000000)%Z). set (r := (d mod 1000000000)%Z).
  assert (0 <= q < 2 ^ 52)%Z as Hq by (unfold q; split; [apply Z.div_pos; lia|apply Z.div_lt_upper_bound; lia]).
  assert (0 <= r < 1000000000)%Z as Hr by (apply Z.mod_pos_bound; lia).
  assert (IZR d / 1000000000 = IZR q + IZR r / 1000000000) as ->.
  { rewrite (Z.div_mod d 1000000000) by lia. fold q r. rewrite plus_IZR, mult_IZR. field. }
  destruct (of_Z_good q ltac:(lia)) as [Gq Vq]. destruct (of_Z_good 1000000000 ltac:(lia)) as [Gb Vb].
  destruct (div_good r (of_Z 1000000000) 0 ltac:(lia) Gb) as (Gr & Br & Vr); [vm_compute; discriminate|vm_compute; discriminate|lia|].
  rewrite Vb in Vr. change (52 + 0 + 2)%Z with 54%Z in Br.
  assert (below 54 (of_Z q)) as Bq by (apply below_mono with 52%Z; [lia|apply of_Z_below; lia]).
  destruct (add_good _ _ 54 Gq Gr Bq Br ltac:(lia)) as (G & B & V). split; [exact G|]. split; [exact B|].
  eapply Rle_trans; [exact V|]. rewrite Vq.
  pose proof eps_pos. pose proof tiny_pos. assert (0 <= IZR q) by (apply IZR_le; lia).
  assert (0 <= IZR r / 1000000000) by (apply Rmult_le_pos; [apply IZR_le; lia|lra]).
  assert (eps <= 1) by (apply (pow2_mono (-52) 0); lia).
  set (x := IZR r / 1000000000) in *. set (a := IZR q) in *. set (v := val (div _ _)) in *.
  assert (v * (1 + eps) <= (x * (1 + eps) + tiny) * (1 + eps)) by (apply Rmult_le_compat_r; lra).
  assert (eps * eps <= eps) by nra. nra.
Qed.

End F64Real.
