(* ===== verification/RateBound.v ===== *)
(** * What a token bucket admits (src/src/rate_limit.rs)

    The long-run promise of the rate limiter as an inequality of real numbers:
    over any run of checks, the requests the global bucket admits are at most
    its burst, plus its rate times the time that passed, up to the rounding of
    the binary64 arithmetic the buckets are kept in.  The proof is by a
    potential, the requests admitted plus the value of [tokens], that a check
    can only raise by what it refills. *)
From S2P Require Import Prelude Str F64 F64Facts F64Real Lru Config RateLimit.
From Stdlib Require Import SpecFloat Reals Lra.

Module RateBound.
Import F64Facts F64Real RateLimit.

Open Scope R_scope.

#[local] Opaque F64.literal F64.one F64.of_Z F64.add F64.sub F64.mul F64.div F64.max F64.min
  F64.leb F64.ltb F64.geb F64.zero F64.as_secs_f64.

(** Tokens per second of a bucket configured for [rpm] requests per minute:
    [TokenBucket::new] raises a rate below 0.1 to 0.1. *)
Definition rate_of (rpm : Z) : R := IZR (Z.max rpm 6) / 60.

(** The rounding one check can add, in tokens, and the relative error of the
    refilled amount. *)
Definition slack : R := pow2 (-18).
Definition relative : R := pow2 (-48).

(** Instants, in nanoseconds, for which a difference in seconds is below 2^52. *)
Definition horizon : Z := 2 ^ 52 * 1000000000.

(* ------------------------------------------------------------------ *)
(** ** Numbers *)

Lemma eps_small : 0 < eps <= / 1000000.
Proof.
  split; [apply eps_pos|]. unfold eps. apply Rle_trans with (pow2 (-20)); [apply pow2_mono; lia|].
  pose proof (pow2_pos (-20)). assert (1048576 * pow2 (-20) = 1) as H1; [|lra].
  change 1048576 with (IZR (2 ^ 20)). rewrite <-pow2_Z, <-pow2_add by lia. reflexivity.
Qed.

Lemma tiny_small : 0 < tiny <= eps * eps.
Proof. split; [apply tiny_pos|]. unfold eps, tiny. rewrite <-pow2_add. apply pow2_mono. lia. Qed.

Lemma eps_facts : 100000000 * tiny <= 100 * eps /\ tiny <= eps /\ 700 * eps * (1 + eps) <= 701 * eps /\
  (1 + 3 * eps) * (1 + 2 * eps) <= 1 + 6 * eps.
Proof. destruct eps_small as [E0 E1]. destruct tiny_small as [T0 T1]. split_and!; nra. Qed.

Lemma eps_tokens : 4294967296 * eps = pow2 (-20).
Proof. unfold eps. change (-20)%Z with (32 + -52)%Z. rewrite pow2_add, (pow2_Z 32) by lia. f_equal. Qed.

Lemma slack_parts : slack = 4 * pow2 (-20).
Proof. unfold slack. change (-18)%Z with (2 + -20)%Z. rewrite pow2_add, (pow2_Z 2) by lia. f_equal. Qed.

Lemma relative_eps : relative = 16 * eps.
Proof. unfold relative, eps. change (-48)%Z with (4 + -52)%Z. rewrite pow2_add, (pow2_Z 4) by lia. f_equal. Qed.

Lemma rate_of_range rpm : is_u32 rpm -> / 10 <= rate_of rpm <= 100000000.
Proof.
  unfold is_u32, u32_max, rate_of. intros H. assert (6 <= Z.max rpm 6 <= 4294967295)%Z as [H1 H2] by lia.
  apply IZR_le in H1. apply IZR_le in H2. lra.
Qed.

Lemma val_below x k : good x -> val x < pow2 k -> below k x.
Proof.
  intros (Nx & Fx & Cx) Hv. destruct x as [s|s| |s m e]; try done. cbn in Nx. subst s. cbn [val] in Hv. cbn [below].
  destruct (pow2_digits (Zpos m) e ltac:(lia)) as [Hd _]. apply Znot_gt_le. intros Hgt.
  assert (pow2 k <= pow2 (Zdigits2 (Zpos m) + e - 1)) by (apply pow2_mono; lia). lra.
Qed.

(** The literal 0.1 is below its real value plus one rounding. *)
Lemma tenth_val : good (F64.literal 1 1) /\ below 34 (F64.literal 1 1) /\ val (F64.literal 1 1) <= / 10 * (1 + 2 * eps).
Proof.
  destruct tenth_facts as [_ ->]. split; [vm_compute; done|]. split; [vm_compute; discriminate|]. cbn [val].
  unfold dyadic, eps. change (-52)%Z with (4 + -56)%Z. rewrite pow2_add, (pow2_Z 4) by lia.
  change (2 ^ 4)%Z with 16%Z. assert (72057594037927936 * pow2 (-56) = 1) as H1.
  { change 72057594037927936 with (IZR (2 ^ 56)). rewrite <-pow2_Z, <-pow2_add by lia. reflexivity. }
  pose proof (pow2_pos (-56)). lra.
Qed.

Lemma rate_val rpm : is_u32 rpm ->
  let r := F64.max (requests_per_minute_to_refill_rate rpm) (F64.literal 1 1) in
  good r /\ below 34 r /\ val r <= rate_of rpm * (1 + 2 * eps).
Proof.
  intros Hr r. pose proof (rate_of_range rpm Hr) as Hrate. destruct eps_small, tiny_small.
  unfold r. destruct (max_cases (requests_per_minute_to_refill_rate rpm) (F64.literal 1 1)) as [->| ->].
  - unfold requests_per_minute_to_refill_rate, is_u32, u32_max in *.
    destruct (of_Z_good 60 ltac:(lia)) as [G60 V60]. set (n := Z.max rpm 1).
    destruct (div_good n (F64.of_Z 60) 0) as (G & _ & V); [unfold n; lia|exact G60|vm_compute; discriminate|vm_compute; discriminate|lia|].
    split; [exact G|]. split.
    + change 34%Z with (32 + 0 + 2)%Z. apply div_below; [apply of_Z_nonneg; lia|apply of_Z_below; lia|vm_compute; discriminate|lia].
    + eapply Rle_trans; [exact V|]. rewrite V60. assert (IZR n / 60 <= rate_of rpm).
      { unfold rate_of, Rdiv. apply Rmult_le_compat_r; [lra|]. apply IZR_le. unfold n. lia. }
      nra.
  - destruct tenth_val as (G & B & V). split; [exact G|]. split; [exact B|]. eapply Rle_trans; [exact V|].
    apply Rmult_le_compat_r; lra.
Qed.

(* ------------------------------------------------------------------ *)
(** ** One bucket *)

(** A bucket of capacity [cap] that refills at [rho] tokens a second. *)
Record bucket_real (cap : Z) (rho : R) (b : TokenBucket) : Prop := {
  real_capacity : capacity b = F64.of_Z cap;
  real_tokens : good (tokens b);
  real_full : val (tokens b) <= IZR cap;
  real_rate : good (refill_per_second b);
  real_rate_below : below 34 (refill_per_second b);
  real_rate_val : val (refill_per_second b) <= rho * (1 + 2 * eps);
  real_last : (0 <= last_refill b < horizon)%Z
}.

Section Bucket.
Context (cap : Z) (rho : R).
Hypothesis Hcap : (1 <= cap < 2 ^ 32)%Z.
Hypothesis Hrho : / 10 <= rho <= 100000000.

Lemma cap_real : 1 <= IZR cap <= 4294967296.
Proof. split; apply IZR_le; lia. Qed.

Lemma tokens_below b : bucket_real cap rho b -> below 91 (tokens b).
Proof.
  intros Hb. apply below_mono with 33%Z; [lia|]. apply val_below; [apply Hb|]. rewrite pow2_Z by lia.
  apply Rle_lt_trans with (IZR cap); [apply Hb|apply IZR_lt; lia].
Qed.

Lemma round_again P k : 0 <= P -> 0 <= k <= 100 -> P * (1 + k * eps) * (1 + eps) <= P * (1 + (k + 2) * eps).
Proof.
  intros HP Hk. rewrite Rmult_assoc. apply Rmult_le_compat_l; [done|]. destruct eps_small. assert (k * eps <= 1) by nra. nra.
Qed.

(** The refill: the exact amount, a relative error on it, and the rounding of
    the sum. *)
Lemma refill_arith a el r m x T : 0 <= a <= 4294967296 -> 0 <= T -> 0 <= el -> 0 <= r ->
  el <= T * (1 + 3 * eps) + 3 * tiny -> r <= rho * (1 + 2 * eps) -> m <= el * r * (1 + eps) + tiny ->
  x <= (a + m) * (1 + eps) + tiny -> x <= a + T * rho * (1 + relative) + 2 * pow2 (-20).
Proof.
  intros Ha HT He Hr Hel Hrv Hm Hx. destruct eps_small as [E0 E1]. destruct tiny_small as [T0 _].
  destruct eps_facts as (F1 & F2 & F3 & F4). rewrite relative_eps, <-eps_tokens. set (P := T * rho).
  assert (0 <= P) as HP by (apply Rmult_le_pos; lra).
  assert (el * r <= (T * (1 + 3 * eps) + 3 * tiny) * (rho * (1 + 2 * eps))) as H1 by (apply Rmult_le_compat; lra).
  replace (_ * (rho * _)) with (P * ((1 + 3 * eps) * (1 + 2 * eps)) + 3 * tiny * (rho * (1 + 2 * eps))) in H1 by (unfold P; ring).
  assert (P * ((1 + 3 * eps) * (1 + 2 * eps)) <= P * (1 + 6 * eps)) as H2 by (apply Rmult_le_compat_l; lra).
  assert (3 * tiny * (rho * (1 + 2 * eps)) <= 3 * tiny * 200000000) as H3.
  { apply Rmult_le_compat_l; [lra|]. replace 200000000 with (100000000 * 2) by lra. apply Rmult_le_compat; lra. }
  assert (el * r * (1 + eps) <= (P * (1 + 6 * eps) + 600 * eps) * (1 + eps)) as H4 by (apply Rmult_le_compat_r; lra).
  pose proof (round_again P 6 HP ltac:(lra)) as H5. pose proof (round_again P 8 HP ltac:(lra)) as H6.
  assert (m <= P * (1 + 8 * eps) + 700 * eps) as H7 by lra.
  assert ((a + m) * (1 + eps) <= (a + (P * (1 + 8 * eps) + 700 * eps)) * (1 + eps)) as H8 by (apply Rmult_le_compat_r; lra).
  assert (a * eps <= 4294967296 * eps) as H9 by (apply Rmult_le_compat_r; lra).
  assert (0 <= P * eps) by (apply Rmult_le_pos; lra). lra.
Qed.

Lemma refill_real now b : bucket_real cap rho b -> (0 <= now < horizon)%Z ->
  bucket_real cap rho (refill now b) /\
  val (tokens (refill now b)) <= val (tokens b)
    + IZR (duration_since now (last_refill b)) / 1000000000 * rho * (1 + relative) + 2 * pow2 (-20).
Proof.
  intros Hb Hnow. pose proof (tokens_below b Hb) as Bt. destruct Hb as [Hc Gt Ft Gr Br Vr Hl].
  unfold refill. cbn [tokens capacity refill_per_second last_refill]. set (d := duration_since now (last_refill b)).
  assert (0 <= d < 2 ^ 52 * 1000000000)%Z as Hd by (unfold d, duration_since, horizon in *; lia).
  destruct (as_secs_good d Hd) as (Ge & Be & Ve). destruct (mul_good _ _ 56 34 Ge Gr Be Br) as (Gm & Bm & Vm); [lia..|].
  destruct (add_good _ _ 91 Gt Gm Bt Bm) as (Ga & _ & Va); [lia|]. rewrite Hc. destruct (of_Z_good cap) as [Gc Vc]; [lia|].
  destruct (min_val _ _ Ga Gc) as (G & V1 & V2). rewrite Vc in V2. split; [by split|].
  eapply Rle_trans; [exact V1|]. pose proof cap_real. eapply refill_arith; [..|exact Ve|exact Vr|exact Vm|exact Va].
  - split; [apply val_nonneg|lra].
  - apply Rmult_le_pos; [apply IZR_le; lia|lra].
  - apply val_nonneg.
  - apply val_nonneg.
Qed.

Lemma one_val : good F64.one /\ val F64.one = 1 /\ exists m e, F64.one = S754_finite false m e.
Proof.
  destruct (of_Z_good 1 ltac:(lia)) as [G V]. split; [exact G|]. split; [exact V|].
  rewrite one_of_Z, of_Z_int by lia. unfold int_f64. eauto.
Qed.

(** At the instant of the last refill nothing is refilled again. *)
Lemma refill_again b : bucket_real cap rho b -> F64.geb (tokens b) F64.one = true ->
  let b' := refill (last_refill b) b in
  bucket_real cap rho b' /\ F64.geb (tokens b') F64.one = true /\ val (tokens b') <= val (tokens b).
Proof.
  intros Hb Hge b'. destruct (refill_real (last_refill b) b Hb (real_last _ _ _ Hb)) as [Hb' _].
  destruct Hb as [Hc Gt Ft Gr Br Vr Hl]. split; [exact Hb'|]. unfold b', refill. cbn [tokens]. unfold duration_since. rewrite Z.sub_diag.
  replace (F64.as_secs_f64 (Z.max 0 0)) with F64.zero by (vm_compute; reflexivity).
  assert (exists s, F64.mul F64.zero (refill_per_second b) = S754_zero s) as (s & ->).
  { destruct Gr as (_ & Fr & _). destruct (refill_per_second b) as [s|s| |s m e]; [by exists s|done|done|by exists s]. }
  assert (F64.add (tokens b) (S754_zero s) = tokens b) as ->.
  { destruct Gt as (Nt & Fn & _). destruct (tokens b) as [s'|s'| |s' m e]; done. }
  rewrite Hc. destruct (of_Z_good cap) as [Gc Vc]; [lia|]. destruct (min_val _ _ Gt Gc) as (_ & V1 & _). split; [|exact V1].
  destruct (min_cases (tokens b) (F64.of_Z cap)) as [->| ->]; [exact Hge|]. rewrite one_of_Z.
  change (F64.leb (F64.of_Z 1) (F64.of_Z cap) = true). apply of_Z_leb; lia.
Qed.

(** A consumed token is gone, up to the rounding of the difference. *)
Lemma consume_real b : bucket_real cap rho b -> F64.geb (tokens b) F64.one = true ->
  let b' := consume_one (last_refill b) b in
  bucket_real cap rho b' /\ val (tokens b') + 1 <= val (tokens b) + 2 * pow2 (-20).
Proof.
  intros Hb Hge b'. destruct (refill_again b Hb Hge) as (Hr & Hger & Hle). unfold b', consume_one.
  set (c := refill (last_refill b) b) in *. pose proof (tokens_below c Hr) as Bt. destruct Hr as [Hc Gt Ft Gr Br Vr Hl].
  destruct one_val as (G1 & V1 & Hone). pose proof (leb_val _ _ G1 Gt Hger) as Hv.
  destruct (sub_good _ _ 91 Gt G1 Bt Hv ltac:(lia) Hone) as [Gs Vs]. rewrite V1 in *.
  destruct eps_small as [E0 E1]. destruct eps_facts as (_ & F2 & _). pose proof cap_real. pose proof eps_tokens.
  assert ((val (tokens c) - 1) * eps <= 4294967295 * eps) by (apply Rmult_le_compat_r; lra).
  assert (good (F64.max (F64.sub (tokens c) F64.one) F64.zero) /\
          val (F64.max (F64.sub (tokens c) F64.one) F64.zero) <= val (tokens c) - 1 + 4294967296 * eps) as [Gm Vm].
  { destruct (max_cases (F64.sub (tokens c) F64.one) F64.zero) as [->| ->]; [split; [exact Gs|lra]|]. split; [done|].
    change (val F64.zero) with 0. lra. }
  split; [|cbn [tokens]; lra]. split; try done. cbn [tokens].
  assert (eps * 4294967296 <= 1) by (pose proof (pow2_mono (-20) 0 ltac:(lia)); change (pow2 0) with 1 in *; lra). lra.
Qed.

End Bucket.

(* ------------------------------------------------------------------ *)
(** ** Runs of the limiter *)

(** The checks that ask the global bucket. *)
Definition uses_global (o : op) : bool := match o with CheckKey _ _ _ => false | _ => true end.

(** The requests the global bucket admitted in a run. *)
Fixpoint admitted (ops : list (Z * op)) (answers : list (option (result unit Z))) : Z :=
  match ops, answers with
  | (_, o) :: ops, a :: answers =>
      ((match a with Some (Ok _) => if uses_global o then 1 else 0 | _ => 0 end) + admitted ops answers)%Z
  | _, _ => 0%Z
  end.

(** The time the global bucket sees pass: instants are taken before the lock,
    and an instant before the last one counts for nothing but moves the bucket
    back. *)
Fixpoint forward (last : Z) (ops : list (Z * op)) : Z :=
  match ops with
  | [] => 0%Z
  | (now, o) :: ops => if uses_global o then (duration_since now last + forward now ops)%Z else forward last ops
  end.

(** Instants in order, from [last] to [until]. *)
Fixpoint in_order (last until : Z) (ops : list (Z * op)) : Prop :=
  match ops with [] => (last <= until)%Z | (now, _) :: ops => (last <= now)%Z /\ in_order now until ops end.

Lemma in_order_le last until ops : in_order last until ops -> (last <= until)%Z.
Proof. revert last. induction ops as [|[now o] ops IH]; intros last; [done|]. intros [H1 H2]. apply IH in H2. lia. Qed.

(** In order, the time that passes is the time between the ends. *)
Lemma forward_in_order last last' until ops : (last' <= last)%Z -> in_order last until ops ->
  (forward last' ops <= until - last')%Z.
Proof.
  revert last last'. induction ops as [|[now o] ops IH]; intros last last' Hl; cbn [in_order forward]; [lia|].
  intros [Hn Ho]. destruct (uses_global o).
  - unfold duration_since. pose proof (IH now now ltac:(lia) Ho). lia.
  - apply (IH now); [lia|done].
Qed.

Lemma in_order_app a b c ops ops' : in_order a b ops -> in_order b c ops' -> in_order a c (ops ++ ops').
Proof.
  revert a. induction ops as [|[t o] ops IH]; intros a; cbn [in_order app].
  - intros Hab Hbc. destruct ops' as [|[t o] ops']; cbn [in_order] in *; [lia|]. split; [lia|apply Hbc].
  - intros [H1 H2] H3. split; [done|]. by apply IH.
Qed.

(** The bound for fewer requests, more time and more checks. *)
Lemma bound_weaken a adm cap fwd fwd' rpm (n n' : nat) : is_u32 rpm ->
  IZR adm <= IZR cap + IZR fwd / 1000000000 * rate_of rpm * (1 + relative) + INR n * slack ->
  (a <= adm)%Z -> (fwd <= fwd')%Z -> (n <= n')%nat ->
  IZR a <= IZR cap + IZR fwd' / 1000000000 * rate_of rpm * (1 + relative) + INR n' * slack.
Proof.
  intros Hr Hb Ha%IZR_le Hf%IZR_le Hn%le_INR. pose proof (rate_of_range rpm Hr). assert (0 < slack) by apply pow2_pos.
  assert (0 < relative) by apply pow2_pos. pose proof (Rmult_le_compat_r slack _ _ ltac:(lra) Hn).
  assert (IZR fwd / 1000000000 * rate_of rpm * (1 + relative) <= IZR fwd' / 1000000000 * rate_of rpm * (1 + relative)); [|lra].
  apply Rmult_le_compat_r; [lra|]. apply Rmult_le_compat_r; lra.
Qed.

Lemma in_order_between a b ops : in_order a b ops -> Forall (fun p => a <= fst p <= b)%Z ops.
Proof.
  revert a. induction ops as [|[t o] ops IH]; intros a; [constructor|]. cbn [in_order]. intros [H1 H2].
  pose proof (in_order_le _ _ _ H2). constructor; [cbn; lia|]. eapply Forall_impl; [exact (IH t H2)|]. cbn. lia.
Qed.

Lemma admitted_app ops ops' answers answers' : length ops = length answers ->
  admitted (ops ++ ops') (answers ++ answers') = (admitted ops answers + admitted ops' answers')%Z.
Proof.
  revert answers. induction ops as [|[t o] ops IH]; intros [|a answers]; cbn [length app admitted]; try done. intros [= Hl].
  rewrite (IH answers Hl). lia.
Qed.

Lemma admitted_nonneg ops answers : (0 <= admitted ops answers)%Z.
Proof.
  revert answers. induction ops as [|[t o] ops IH]; intros [|a answers]; cbn [admitted]; try lia. specialize (IH answers).
  destruct a as [[]|]; [destruct (uses_global o)|..]; lia.
Qed.

Lemma run_app C `{!LruOps C} ops ops' l : run C (ops ++ ops') l =
  let '(l1, a1) := run C ops l in let '(l2, a2) := run C ops' l1 in (l2, (a1 ++ a2)%list).
Proof.
  revert l. induction ops as [|[t o] ops IH]; intros l; cbn [app run]; [by destruct (run C ops' l)|].
  destruct (step C t o l) as [l1 a]. rewrite IH. destruct (run C ops l1) as [l2 r]. by destruct (run C ops' l2).
Qed.

Lemma run_length C `{!LruOps C} ops l : length (snd (run C ops l)) = length ops.
Proof.
  revert l. induction ops as [|[t o] ops IH]; intros l; cbn [run]; [done|]. destruct (step C t o l) as [l1 a].
  specialize (IH l1). destruct (run C ops l1). cbn in *. by rewrite IH.
Qed.

Section Run.
Context (C : Type -> Type) `{!LruOps C, !LruLaws C} (cap : Z) (rho : R).
Hypothesis Hcap : (1 <= cap < 2 ^ 32)%Z.
Hypothesis Hrho : / 10 <= rho <= 100000000.

Definition live (g : RateLimiterState C) : RateLimiter C := Build_RateLimiter (Unpoisoned g).

(** One check and the global bucket. *)
Lemma step_global now o g : guard_ok C g -> exists g' r,
  step C now o (live g) = (live g', Some r) /\ guard_ok C g' /\
  if uses_global o then
    let b := refill now (global_bucket g) in
    (r = Ok tt /\ F64.geb (tokens b) F64.one = true /\ global_bucket g' = consume_one now b) \/
    ((exists n, r = Err n) /\ global_bucket g' = b)
  else global_bucket g' = global_bucket g.
Proof.
  intros Hok. unfold live. destruct o as [|k rpm burst|k]; cbn [step uses_global].
  - pose proof Hok as (Hg & Hrest). destruct (refill_ok now _ Hg) as [Hr _]. unfold check_global. cbn [lock state].
    destruct (wait_cases now _ Hg) as [[Ht ->]|(_ & d & -> & _)]; eexists _, _; (split; [reflexivity|]).
    + split; [split; [by apply consume_ok|exact Hrest]|]. by left.
    + split; [split; [exact Hr|exact Hrest]|]. right. split; [by eexists|done].
  - destruct (check_key_spec C now k rpm burst g Hok) as (g' & r & -> & Hok' & Hr). exists g', r. split; [done|]. split; [done|].
    by destruct (F64.geb (tokens (refill now (bucket_for C g k _))) F64.one); destruct Hr as [_ (Hg & _)].
  - destruct (check_spec C now k g Hok) as (g' & r & -> & Hok' & Hr). exists g', r. split; [done|]. split; [done|].
    destruct (F64.geb (tokens (refill now (global_bucket g))) F64.one) eqn:Et; cbn [andb] in Hr;
      [destruct (F64.geb (tokens (refill now (bucket_for C g k _))) F64.one); [left; by destruct Hr as [-> (Hg & _)]|]|];
      right; destruct Hr as [(n & -> & _) (Hg & _)]; (split; [by exists n|done]).
Qed.

(** The potential: what was admitted is paid for by the tokens there were and
    the tokens that came. *)
Lemma run_bound ops g : guard_ok C g -> bucket_real cap rho (global_bucket g) ->
  Forall (fun p => 0 <= fst p < horizon)%Z ops ->
  IZR (admitted ops (snd (run C ops (live g)))) <=
    val (tokens (global_bucket g))
    + IZR (forward (last_refill (global_bucket g)) ops) / 1000000000 * rho * (1 + relative) + INR (length ops) * slack.
Proof.
  revert g. induction ops as [|[now o] ops IH]; intros g Hok Hb Hall.
  { cbn [run snd admitted forward length INR]. pose proof (val_nonneg (tokens (global_bucket g))). lra. }
  apply Forall_cons_1 in Hall as [Hnow Hall]. cbn [fst] in Hnow.
  destruct (step_global now o g Hok) as (g' & r & Hstep & Hok' & Hg). cbn [run]. rewrite Hstep.
  specialize (IH g' Hok'). destruct (run C ops (live g')) as [l' answers]. cbn [snd admitted forward] in *.
  assert (0 < slack) by apply pow2_pos. pose proof slack_parts as Hslack. cbn [length]. rewrite S_INR, plus_IZR.
  destruct (uses_global o).
  - destruct (refill_real cap rho Hcap Hrho now _ Hb Hnow) as [Hr Vr]. rewrite plus_IZR.
    set (b := refill now (global_bucket g)) in *.
    destruct Hg as [(-> & Ht & Hg)|((n & ->) & Hg)]; rewrite Hg in IH.
    + destruct (consume_real cap rho Hcap Hrho b Hr Ht) as [Hc Vc]. specialize (IH Hc Hall). change (last_refill (consume_one _ b)) with now in IH.
      change (consume_one (last_refill b) b) with (consume_one now b) in Vc. lra.
    + specialize (IH Hr Hall). change (last_refill b) with now in IH. pose proof (pow2_pos (-20)). lra.
  - rewrite Hg in IH. specialize (IH Hb Hall). destruct r; lra.
Qed.

End Run.

Lemma new_bucket_real config t0 : is_u32 (Config.global_burst_size config) -> is_u32 (Config.global_requests_per_minute config) ->
  (0 <= t0 < horizon)%Z ->
  bucket_real (Z.max (Config.global_burst_size config) 1) (rate_of (Config.global_requests_per_minute config))
    (bucket_new (F64.of_Z (Config.global_burst_size config))
       (requests_per_minute_to_refill_rate (Config.global_requests_per_minute config)) t0).
Proof.
  intros Hb Hr Ht. unfold is_u32, u32_max in Hb. set (n := Config.global_burst_size config) in *.
  assert (F64.max (F64.of_Z n) F64.one = F64.of_Z (Z.max n 1)) as Hmax.
  { rewrite one_of_Z. apply max_of_Z; [lia..|]. intros Hn. replace n with 0%Z by lia. vm_compute. reflexivity. }
  destruct (of_Z_good (Z.max n 1)) as [G V]; [lia|]. destruct (rate_val _ Hr) as (Gr & Br & Vr).
  unfold bucket_new. rewrite Hmax. split; cbn [capacity tokens refill_per_second last_refill]; try done.
  rewrite V. apply Rle_refl.
Qed.

(** A limiter fresh from its configuration. *)
Lemma new_bound C `{!LruOps C, !LruLaws C} config t0 l ops :
  (1 <= Config.max_tracked_keys config)%Z -> is_u32 (Config.global_burst_size config) ->
  is_u32 (Config.global_requests_per_minute config) -> (0 <= t0 < horizon)%Z ->
  Forall (fun p => 0 <= fst p < horizon)%Z ops -> new (C:=C) config t0 = Some l ->
  IZR (admitted ops (snd (run C ops l))) <=
    IZR (Z.max (Config.global_burst_size config) 1)
    + IZR (forward t0 ops) / 1000000000 * rate_of (Config.global_requests_per_minute config) * (1 + relative)
    + INR (length ops) * slack.
Proof.
  intros Hm Hb Hr Ht Hops Hl. destruct (new_ok C config t0 l Hm Hl) as (g & Hg & Hok). pose proof (new_bucket_real config t0 Hb Hr Ht) as Hreal.
  assert (global_bucket g = bucket_new (F64.of_Z (Config.global_burst_size config))
     (requests_per_minute_to_refill_rate (Config.global_requests_per_minute config)) t0) as Eg.
  { revert Hl Hg. unfold new. case_match; [discriminate|]. by intros [= <-] [= <-]. }
  rewrite <-Eg in Hreal. assert (l = live C g) as -> by (destruct l; cbn [state] in Hg; by subst).
  assert (1 <= Z.max (Config.global_burst_size config) 1 < 2 ^ 32)%Z as Hcap by (unfold is_u32, u32_max in *; lia).
  eapply Rle_trans; [apply (run_bound C _ _ Hcap (rate_of_range _ Hr) ops g Hok Hreal Hops)|].
  rewrite Eg. cbn [bucket_new last_refill]. do 2 apply Rplus_le_compat_r. rewrite <-Eg. apply Hreal.
Qed.

(** C27: the rate limit holds in the long run: whatever checks run on a limiter
    started at [t0], at whatever instants, the requests its global bucket admits
    are at most the configured burst (at least 1), plus the configured rate (at
    least 6 per minute) times the time the bucket saw pass, up to a relative
    error of 2^-48 and 2^-18 of a token per check, the rounding of the binary64
    arithmetic.  When the checks take the lock in the order of their instants
    that time is at most the time from start to end. *)
Theorem admitted_within_rate C `{!LruOps C, !LruLaws C} config t0 until ops :
  (1 <= Config.max_tracked_keys config)%Z -> lru_fits (Config.max_tracked_keys config) = true ->
  is_u32 (Config.global_burst_size config) ->
  is_u32 (Config.global_requests_per_minute config) -> (0 <= t0 < horizon)%Z ->
  Forall (fun p => 0 <= fst p < horizon)%Z ops ->
  exists l, new (C:=C) config t0 = Some l /\
    IZR (admitted ops (snd (run C ops l))) <=
      IZR (Z.max (Config.global_burst_size config) 1)
      + IZR (forward t0 ops) / 1000000000 * rate_of (Config.global_requests_per_minute config) * (1 + relative)
      + INR (length ops) * slack /\
    (in_order t0 until ops -> (forward t0 ops <= until - t0)%Z).
Proof.
  intros Hm Hf Hb Hr Ht Hops. destruct (new_some C config t0 Hm Hf) as (l & Hl). exists l. split; [exact Hl|].
  split; [by apply new_bound|by apply forward_in_order].
Qed.

(** Four checks against a burst of two: two at the start, one too many, and one
    more after a second at 60 requests a minute. *)
Definition witness_config : Config.RateLimitConfig :=
  {| Config.rate_limit_backend := Config.Local_; Config.global_requests_per_minute := 60; Config.global_burst_size := 2;
     Config.per_key_requests_per_minute := 60; Config.per_key_burst_size := 2; Config.max_tracked_keys := 1;
     Config.redis_url_env := None; Config.redis_fallback_to_local := true |}.

Definition witness_ops : list (Z * op) :=
  [(0%Z, CheckGlobal); (0%Z, Check "k"); (0%Z, CheckGlobal); (from_secs 1, CheckGlobal)].

Lemma admitted_within_rate_witness : exists l, new (C:=ref_lru) witness_config 0 = Some l /\
  admitted witness_ops (snd (run ref_lru witness_ops l)) = 3%Z /\ (forward 0 witness_ops <= 1000000000)%Z /\
  3 <= 2 + IZR (forward 0 witness_ops) / 1000000000 * rate_of 60 * (1 + relative) + INR 4 * slack.
Proof.
  destruct (admitted_within_rate ref_lru witness_config 0 1000000000 witness_ops) as (l & Hl & Hadm & Hfwd).
  2: reflexivity. 1-4: unfold is_u32, u32_max, horizon; cbn [witness_config Config.max_tracked_keys Config.global_burst_size Config.global_requests_per_minute]; lia.
  { unfold witness_ops, horizon, from_secs. repeat constructor; cbn [fst]; lia. }
  exists l. split; [exact Hl|].
  assert (admitted witness_ops (snd (run ref_lru witness_ops l)) = 3%Z) as E by (injection Hl as <-; vm_compute; reflexivity).
  split; [exact E|]. split; [apply Z.le_trans with (1000000000 - 0)%Z; [apply Hfwd; vm_compute; by repeat split|lia]|].
  rewrite E in Hadm. exact Hadm.
Defined.

End RateBound.
