(* ===== verification/Gateway.v ===== *)
(** * The gateway end to end

    The parts put together: a request passes the middleware stack of
    app/router.rs, with the key store and rate limiter of the application
    state, and then the chat or the responses handler, which work on the same
    key store.  The rate limiter is the local one or the Redis backend, as the
    configuration says.  The theorems are about runs of requests, one after
    another. *)
From Stdlib Require Import Reals.
From S2P Require Import Prelude Str F64 Chat Config ModelPools Provider Admission Metrics Lru RateLimit Redis RequestLog Keys Cache MemoryCache PrefixFingerprint PrefixAffinity Strategy Resilience Middleware Fallback ChatRoute Responses RateBound Build.

Open Scope string_scope.
Open Scope list_scope.
Open Scope Z_scope.

Module Gateway.
Import ChatRoute.

(* ------------------------------------------------------------------ *)
(** ** What a request does to the world *)

Section Steady.
Context (C : Type -> Type) `{!LruOps C}.
Implicit Types (w : Fallback.World C).

(** The metrics mutex is not poisoned and the registry in it is sound. *)
Definition usable w : Prop := exists m, Fallback.metrics C w = Unpoisoned m /\ Metrics.registry_ok m.

(** From one world to a later one: the same policies, metrics that stay
    usable, and time that does not run backwards. *)
Record steady w w' : Prop := {
  st_policies : Fallback.same_policies C w w';
  st_usable : usable w -> usable w';
  st_now : Fallback.now C w <= Fallback.now C w'
}.

#[global] Instance steady_preorder : PreOrder steady.
Proof.
  split; [done|]. intros w1 w2 w3 [P1 U1 N1] [P2 U2 N2].
  split; [by eapply Fallback.same_policies_trans|auto|lia].
Qed.

(** An update of the metrics that keeps a sound registry sound. *)
Lemma set_metrics_steady (m : mutex Metrics.MetricsRegistry) w :
  (forall r, Fallback.metrics C w = Unpoisoned r -> Metrics.registry_ok r -> exists r', m = Unpoisoned r' /\ Metrics.registry_ok r') ->
  steady w (Fallback.set_metrics C m w).
Proof. intros Hm. split; [done| |done]. intros (r & Hr & Hok). exact (Hm r Hr Hok). Qed.

Lemma with_metrics_steady o f w : f = (fun m => Metrics.apply_op m o) -> steady w (Fallback.with_metrics C f w).
Proof.
  intros ->. unfold Fallback.with_metrics. destruct (Fallback.metrics C w) as [m|] eqn:E; [|done].
  apply set_metrics_steady. intros r. rewrite E. intros [= <-] Hok. eexists. split; [reflexivity|]. by apply Metrics.apply_op_ok.
Qed.

Lemma stream_finish_steady now o g w :
  steady w (Fallback.set_metrics C (fst (Metrics.stream_guard_finish now o (Fallback.metrics C w) g)) w).
Proof.
  apply set_metrics_steady. intros r -> Hok. unfold Metrics.stream_guard_finish.
  destruct (Metrics.stream_active g); cbn [fst]; eexists; (split; [reflexivity|]); [|done].
  by apply (Metrics.apply_op_ok r (Metrics.StreamDone _ _)).
Qed.

Lemma drop_in_flight_steady g w : steady w (Fallback.drop_in_flight C g w).
Proof.
  apply set_metrics_steady. intros r -> Hok. unfold Metrics.in_flight_guard_drop, Metrics.in_flight_guard_finish.
  destruct (Metrics.guard_active g); cbn [fst]; eexists; (split; [reflexivity|]); [|done].
  by apply (Metrics.apply_op_ok r (Metrics.EndProvider _ _)).
Qed.

Lemma steady_framed sleep : (forall d w, steady w (sleep d w)) -> framed C steady sleep.
Proof.
  intros Hs. split; [..|exact Hs].
  - intros n w. split; [apply Fallback.allow_same_policies| |]; unfold Fallback.allow_provider_call;
      by destruct (Resilience.allow_provider_call _ _ _).
  - intros n w. split; [apply Fallback.success_same_policies|done|done].
  - intros n w. split; [apply Fallback.failure_same_policies|done|done].
  - done.
  - done.
  - intros. by eapply (with_metrics_steady (Metrics.Routing _ _)).
  - intros. by eapply (with_metrics_steady (Metrics.Fingerprint _)).
  - intros. by eapply (with_metrics_steady (Metrics.Ttft _ _)).
  - intros n r w. apply set_metrics_steady. intros m -> Hok. eexists. split; [reflexivity|].
    by apply (Metrics.apply_op_ok m (Metrics.BeginProvider _ _)).
  - apply drop_in_flight_steady.
Qed.

End Steady.

(* ------------------------------------------------------------------ *)
(** ** The chat handler *)

Section Handler.
Context (C : Type -> Type) `{!LruOps C} (S K : Type) `{!Keys.KeyStore S, !Cache.ResponseCache K}.
Variables (prefix_to_vec : PrefixFingerprint.CanonicalPrefix -> option (list Z))
  (cache_to_vec : Cache.CanonicalChatRequest -> option (list Z))
  (sha256 : list Z -> list Z)
  (json_to_string : Chat.Value -> option string)
  (chunk_to_string : Chat.ChatCompletionChunkResponse -> option string)
  (error_to_string : Chat.Uuid -> string -> string).
Variables (unix : Z -> Z) (sleep : Z -> Fallback.World C -> Fallback.World C).
Variable chat_completion : nat -> Strategy.Entry -> Chat.ChatCompletionRequest -> Fallback.World C ->
  result Chat.ChatCompletionResponse Provider.ProviderError * Fallback.World C.
Variable Stream : Type.
Variable chat_completion_stream : nat -> Strategy.Entry -> Chat.ChatCompletionRequest -> Fallback.World C ->
  result (Provider.ProviderStreamContext * Stream) Provider.ProviderError * Fallback.World C.
Variable stream_next : Stream -> Fallback.World C ->
  option (result Provider.ProviderStreamEvent Provider.ProviderError) * Stream * Fallback.World C.
Variables (s : Settings) (key : Keys.AuthenticatedKey) (rid : Chat.Uuid) (route : string).
Notation App := (App C S K).
Notation world := (world C S K).
Implicit Types (a : App) (w : Fallback.World C).

(** While this request waits, the world stays steady. *)
Record steady_env : Prop := {
  se_sleep : forall d w, steady C w (sleep d w);
  se_call : forall k e r w, steady C w (snd (chat_completion k e r w));
  se_scall : forall k e r w, steady C w (snd (chat_completion_stream k e r w));
  se_next : forall st w, steady C w (snd (stream_next st w))
}.
Hypothesis He : steady_env.

Notation "a '↝' b" := (steady C (world a) (world b)) (at level 70).

Lemma on_metrics_steady o f a : f = (fun m => Metrics.apply_op m o) -> a ↝ on_metrics C S K f a.
Proof. intros Hf. by apply (with_metrics_steady C o). Qed.

Lemma metadata_world e a : world (record_request_metadata C S K s e a) = world a.
Proof. apply metadata_log. Qed.

Lemma report_failure_steady started r p u at_ cat a : a ↝ report_failure C S K unix s rid route started r p u at_ cat a.
Proof. unfold report_failure. rewrite metadata_world. by eapply (on_metrics_steady (Metrics.ChatFailure _ _ _)). Qed.

Lemma success_steady u c ms at_ a : a ↝ on_metrics C S K (Metrics.record_chat_success u c ms at_) a.
Proof. by apply (on_metrics_steady (Metrics.ChatSuccess u c ms at_)). Qed.

Lemma rejection_steady why a : a ↝ record_admission_rejection C S K why a.
Proof. by eapply (on_metrics_steady (Metrics.AdmissionRejection _)). Qed.

Lemma fallback_error_steady started r e a : a ↝ fst (on_fallback_error C S K unix s rid route started r e a).
Proof.
  destruct e; cbn [on_fallback_error fst]; try apply report_failure_steady.
  etrans; [apply rejection_steady|apply report_failure_steady].
Qed.

Lemma look_up_cache_steady r k a : a ↝ fst (look_up_cache C S K unix key r k a).
Proof.
  assert (forall o a, a ↝ record_cache_lookup C S K o a) as Hrec by (intros o a'; by apply (on_metrics_steady (Metrics.CacheLookup o))).
  unfold look_up_cache. destruct (response_cache C S K a) as [c|]; [|done].
  destruct (Keys.cache_enabled key); cbn [negb]; [|apply Hrec]. destruct k as [k|]; [|apply Hrec].
  destruct (Cache.cache_get _ k c) as [c' [resp|]]; cbn [fst]; exact (Hrec _ (set_cache C S K c' a)).
Qed.

Lemma answer_chat_steady started r a a' out :
  answer_chat C S K prefix_to_vec cache_to_vec sha256 unix sleep chat_completion Stream s key rid route started r a = (a', Some out) ->
  a ↝ a'.
Proof.
  unfold answer_chat. set (ck := Cache.cache_key_for_request cache_to_vec sha256 r).
  pose proof (look_up_cache_steady r ck a) as H1. destruct (look_up_cache C S K unix key r ck a) as [a1 [resp|]]; cbn [fst] in H1.
  { by intros [= <- _]. }
  destruct (routing_metrics_snapshot C S K a1) as [snap|]; [|done].
  pose proof (complete_chat_kept C (steady C) sleep (steady_framed C sleep (se_sleep He)) chat_completion (se_call He)
    prefix_to_vec sha256 (context_of s snap) r (world a1)) as H2.
  destruct (Fallback.complete_chat C _ _ _ _ _ _ _) as [w2 [[ok|e]|]]; cbn [fst] in H2; [| |done].
  - intros [= <- _]. rewrite store_world, usage_world, metadata_world. etrans; [exact H1|]. etrans; [exact H2|].
    exact (success_steady _ _ _ _ (set_world C S K w2 a1)).
  - pose proof (fallback_error_steady started r e (set_world C S K w2 a1)) as H3.
    destruct (on_fallback_error C S K unix s rid route started r e _) as [a3 err]. cbn [fst] in H3. intros [= <- _].
    etrans; [exact H1|]. etrans; [exact H2|exact H3].
Qed.

(** Dropping the guards of the request and the end of the request. *)
Lemma leave_steady guard a : a ↝ end_request C S K (drop_request_guard C S K guard a).
Proof. trans (world (drop_request_guard C S K guard a)); [done|]. by apply (on_metrics_steady Metrics.EndRequest). Qed.

Lemma start_stream_steady started r guard a a' out :
  start_stream C S K prefix_to_vec sha256 unix sleep Stream chat_completion_stream stream_next s rid route started r guard a = (a', Some out) ->
  a ↝ a'.
Proof.
  unfold start_stream. destruct (routing_metrics_snapshot C S K a) as [snap|]; [|done].
  pose proof (complete_chat_stream_kept C (steady C) sleep (steady_framed C sleep (se_sleep He)) Stream chat_completion_stream
    stream_next (se_scall He) (se_next He) prefix_to_vec sha256 (context_of s snap) r (world a)) as H2.
  destruct (Fallback.complete_chat_stream C _ _ _ _ _ _ _ _ _) as [w2 [[ok|e]|]]; cbn [fst] in H2; [| |done].
  - by intros [= <- _].
  - pose proof (fallback_error_steady started r e (set_world C S K w2 a)) as H3.
    destruct (on_fallback_error C S K unix s rid route started r e _) as [a3 err]. cbn [fst] in H3. intros [= <- _].
    etrans; [exact H2|]. etrans; [exact H3|apply leave_steady].
Qed.

(** ** The body of a streaming response *)

Definition steady_tick (tick : Fallback.World C -> Fallback.World C) : Prop := forall w, steady C w (tick w).

Lemma event_loop_steady started at_ items polls w :
  Forall (fun '(_, tick) => steady_tick tick) items -> Forall steady_tick polls ->
  steady C w (snd (fst (event_loop C chunk_to_string error_to_string rid started at_ items polls w))).
Proof.
  intros Hi. revert polls w. induction Hi as [|[item tick] items Ht _ IH]; intros polls w Hp; [done|].
  cbn [event_loop]. destruct (react C chunk_to_string error_to_string rid started at_ item) as [payload broken].
  destruct Hp as [|p polls Hp Hps]; [apply Ht|]. assert (steady C w (p (tick w))) as H1 by (etrans; [apply Ht|apply Hp]).
  destruct broken as [fin|]; [exact H1|]. specialize (IH polls (p (tick w)) Hps).
  destruct (event_loop C _ _ _ _ _ items polls _) as [[pl w'] e]. cbn [fst snd] in *. by etrans.
Qed.

Lemma finish_stream_steady ps started e g a : a ↝ fst (finish_stream C S K unix Stream s key rid route ps started e g a).
Proof.
  unfold finish_stream. destruct (end_usage e) as [u|]; [destruct (stream_failed e)|].
  all: match goal with |- context [Metrics.stream_guard_finish ?x ?o ?y ?z] =>
    pose proof (stream_finish_steady C x o z (world a)) as H1; destruct (Metrics.stream_guard_finish x o y z) as [m g'] end;
    cbn [fst] in *; set (a1 := set_world C S K (Fallback.set_metrics C m (world a)) a) in *.
  1, 3: etrans; [exact H1|exact (report_failure_steady started _ _ _ _ _ a1)].
  rewrite usage_world, metadata_world. etrans; [exact H1|]. exact (success_steady _ _ _ _ a1).
Qed.

Lemma drop_guards_steady ps g a : a ↝ drop_stream_guards C S K Stream ps g a.
Proof.
  unfold drop_stream_guards. etrans; [|apply leave_steady]. cbn [ChatRoute.world set_world].
  etrans; [exact (stream_finish_steady C (Fallback.now C (world a)) Metrics.Cancelled g (world a))|].
  etrans; [|apply drop_in_flight_steady]. done.
Qed.

Lemma event_stream_steady ps started answers polls a :
  Forall (fun '(_, tick) => steady_tick tick) answers -> Forall steady_tick polls ->
  a ↝ fst (fst (event_stream C S K chunk_to_string error_to_string unix Stream s key rid route ps started answers polls a)).
Proof.
  intros Ha Hp. unfold event_stream. set (items := _ :: _).
  assert (Forall (fun '(_, tick) => steady_tick tick) items) as Hi.
  { constructor; [done|]. apply Forall_map. eapply Forall_impl; [exact Ha|]. by intros [u tick]. }
  pose proof (event_loop_steady started (Fallback.str_attempts Stream (ps_success Stream ps)) items polls (world a) Hi Hp) as H1.
  destruct (event_loop C _ _ _ _ _ items polls _) as [[payloads w] [e|]]; cbn [fst snd] in *.
  - pose proof (finish_stream_steady ps started e (Metrics.stream_guard_new (Fallback.now C (world a))) (set_world C S K w a)) as H2.
    destruct (finish_stream C S K _ _ _ _ _ _ _ _ e _ _) as [a2 g2]. cbn [fst] in *.
    etrans; [exact H1|]. etrans; [exact H2|apply drop_guards_steady].
  - etrans; [exact H1|exact (drop_guards_steady ps _ (set_world C S K w a))].
Qed.

Notation serve_chat := (serve C S K prefix_to_vec cache_to_vec sha256 json_to_string chunk_to_string error_to_string unix sleep
  chat_completion Stream chat_completion_stream stream_next s key rid route).

Lemma begin_steady a : a ↝ begin_request C S K a.
Proof. by apply (on_metrics_steady Metrics.BeginRequest). Qed.

(** A request turned away before it is admitted. *)
Lemma turned_away_steady started r cat a : a ↝ end_request C S K (report_failure C S K unix s rid route started r None None [] cat a).
Proof. etrans; [apply report_failure_steady|]. by apply (on_metrics_steady Metrics.EndRequest). Qed.

Lemma chat_completions_steady body a a' out :
  chat_completions C S K prefix_to_vec cache_to_vec sha256 json_to_string unix sleep chat_completion Stream
    chat_completion_stream stream_next s key rid route body a = (a', Some out) -> a ↝ a'.
Proof.
  unfold chat_completions. cbv zeta. intros Hc. etrans; [apply begin_steady|]. revert Hc. generalize (begin_request C S K a) as b.
  generalize (Fallback.now C (world a)) as started. intros started b. destruct body as [r|]; [|by intros [= <- _]; apply turned_away_steady].
  destruct (Chat.validate _ _ _ _) as [?|err]; [|by intros [= <- _]; apply turned_away_steady].
  destruct (Admission.check_token_budget _ _) as [?|why];
    [|by intros [= <- _]; etrans; [apply rejection_steady|apply turned_away_steady]].
  destruct (Admission.try_acquire_request _ _) as [adm acquired]. set (b1 := set_world C S K (Fallback.set_admission C adm (world b)) b).
  assert (b ↝ b1) as H1 by done. destruct acquired as [guard|rej];
    [|by intros [= <- _]; etrans; [exact H1|]; etrans; [apply (rejection_steady (Admission.reason rej) b1)|apply turned_away_steady]].
  destruct (Chat.stream_enabled _).
  - intros Hc. etrans; [exact H1|]. exact (start_stream_steady _ _ _ b1 a' out Hc).
  - destruct (answer_chat C S K _ _ _ _ _ _ _ _ _ _ _ _ _ _) as [a2 [o|]] eqn:E; [|done]. intros [= <- _].
    etrans; [exact H1|]. etrans; [exact (answer_chat_steady _ _ _ _ _ E)|apply leave_steady].
Qed.

Lemma serve_steady body answers polls a a' o :
  Forall (fun '(_, tick) => steady_tick tick) answers -> Forall steady_tick polls ->
  serve_chat body answers polls a = (a', Some o) -> a ↝ a'.
Proof.
  intros Ha Hp. unfold serve. destruct (chat_completions C S K _ _ _ _ _ _ _ _ _ _ _ _ _ _ body a) as [a1 [out|]] eqn:E; [|done].
  pose proof (chat_completions_steady body a a1 out E) as H1.
  destruct out as [[r c|ps]|e]; [by intros [= <- _]| |by intros [= <- _]].
  pose proof (event_stream_steady ps (Fallback.now C (world a)) answers polls a1 Ha Hp) as H2.
  destruct (event_stream C S K _ _ _ _ _ _ _ _ ps _ answers polls a1) as [[a2 payloads] how]. cbn [fst] in H2.
  intros [= <- _]. by etrans.
Qed.

(** What a request leaves behind is fit for the next one. *)
Lemma fit_after st (a a' : App) : fit C S K a -> a ↝ a' ->
  Fallback.admission C (world a') = Fallback.admission C (world a) -> booked C S K s rid route st a a' -> fit C S K a'.
Proof.
  intros ((m & Hm & Hok & Hi) & Hwf & Hj) [Hpol Hu _] Hadm Hb. destruct Hu as (m' & Hm' & Hok'); [by exists m|].
  split; [|split; [by rewrite Hadm|]].
  - exists m'. split; [done|]. split; [done|]. destruct Hb as (i & t & su & f & Hc & Hc'). unfold counters_at in Hc, Hc'.
    rewrite Hm in Hc. rewrite Hm' in Hc'. injection Hc as <- <- <- <-.
    assert (Metrics.in_flight_requests m' = Metrics.in_flight_requests m) as ->; [|done].
    destruct st as [[]|]; destruct Hc' as [[= -> _ _ _] _]; done.
  - intros p. rewrite (Hpol p). apply Hj.
Qed.

End Handler.

(* ------------------------------------------------------------------ *)
(** ** The responses handler *)

Section ResponsesHandler.
Context (C : Type -> Type) `{!LruOps C} (S K : Type) `{!Keys.KeyStore S, !Cache.ResponseCache K}.
Variables (prefix_to_vec : PrefixFingerprint.CanonicalPrefix -> option (list Z))
  (cache_to_vec : Cache.CanonicalChatRequest -> option (list Z))
  (sha256 : list Z -> list Z)
  (json_to_string : Chat.Value -> option string)
  (delta_to_string : string -> Responses.ResponseTextDelta -> option string)
  (completed_to_string : string -> Responses.ResponseObject -> option string)
  (error_to_string : string -> string).
Variables (unix : Z -> Z) (sleep : Z -> Fallback.World C -> Fallback.World C).
Variable chat_completion : nat -> Strategy.Entry -> Chat.ChatCompletionRequest -> Fallback.World C ->
  result Chat.ChatCompletionResponse Provider.ProviderError * Fallback.World C.
Variable Stream : Type.
Variable chat_completion_stream : nat -> Strategy.Entry -> Chat.ChatCompletionRequest -> Fallback.World C ->
  result (Provider.ProviderStreamContext * Stream) Provider.ProviderError * Fallback.World C.
Variable stream_next : Stream -> Fallback.World C ->
  option (result Provider.ProviderStreamEvent Provider.ProviderError) * Stream * Fallback.World C.
Variables (s : Settings) (key : Keys.AuthenticatedKey) (rid : Chat.Uuid).
Hypothesis He : steady_env C sleep chat_completion Stream chat_completion_stream stream_next.
Notation App := (App C S K).
Notation world := (world C S K).
Notation "a '↝' b" := (steady C (world a) (world b)) (at level 70).
Implicit Types (a : App) (w : Fallback.World C).

Lemma answer_response_steady r a a' out :
  Responses.answer_response C S K prefix_to_vec cache_to_vec sha256 unix sleep chat_completion Stream s key rid r a = (a', Some out) ->
  a ↝ a'.
Proof.
  unfold Responses.answer_response. set (ck := Cache.cache_key_for_request cache_to_vec sha256 r).
  pose proof (look_up_cache_steady C S K unix key r ck a) as H1. destruct (look_up_cache C S K unix key r ck a) as [a1 [resp|]]; cbn [fst] in H1.
  { by intros [= <- _]. }
  destruct (routing_metrics_snapshot C S K a1) as [snap|]; [|done].
  pose proof (complete_chat_kept C (steady C) sleep (steady_framed C sleep (se_sleep _ _ _ _ _ _ He)) chat_completion (se_call _ _ _ _ _ _ He)
    prefix_to_vec sha256 (context_of s snap) r (world a1)) as H2.
  destruct (Fallback.complete_chat C _ _ _ _ _ _ _) as [w2 [[ok|[|rej|er at_]]|]]; cbn [fst] in H2; [..|done].
  - intros [= <- _]. rewrite store_world, usage_world. by etrans.
  - intros [= <- _]. by etrans.
  - intros [= <- _]. etrans; [exact H1|]. etrans; [exact H2|]. exact (rejection_steady C S K _ (set_world C S K w2 a1)).
  - intros [= <- _]. by etrans.
Qed.

Lemma send_deltas_steady choices text polls w : Forall (steady_tick C) polls ->
  let '(_, polls', w', _) := Responses.send_deltas C delta_to_string error_to_string rid choices text polls w in
  steady C w w' /\ Forall (steady_tick C) polls'.
Proof.
  revert text polls w. induction choices as [|c choices IH]; intros text polls w Hp; cbn [Responses.send_deltas]; [done|].
  destruct (Chat.delta_content _) as [d|]; [|by apply IH]. destruct Hp as [|p polls Hp Hps]; [done|].
  destruct (_ <? _); [by split; [apply Hp|]|]. specialize (IH (text ++ d)%string polls (p w) Hps).
  destruct (Responses.send_deltas C _ _ _ choices _ polls (p w)) as [[[es polls'] w'] o]. destruct IH as [H1 H2].
  split; [|done]. etrans; [apply Hp|exact H1].
Qed.

Lemma response_loop_steady started at_ items text polls w :
  Forall (fun '(_, tick) => steady_tick C tick) items -> Forall (steady_tick C) polls ->
  let '(_, polls', w', _) := Responses.response_loop C delta_to_string error_to_string rid started at_ items text polls w in
  steady C w w' /\ Forall (steady_tick C) polls'.
Proof.
  intros Hi. revert text polls w. induction Hi as [|[item tick] items Ht _ IH]; intros text polls w Hp; cbn [Responses.response_loop]; [done|].
  destruct item as [[chunk|u]|er| |]; cbn [Responses.closing].
  - pose proof (send_deltas_steady (Chat.chunk_choices chunk) text polls (tick w) Hp) as Hs.
    destruct (Responses.send_deltas C _ _ _ _ _ _ _) as [[[es polls'] w'] o]. destruct Hs as [H1 H2].
    assert (steady C w w') as H3 by (etrans; [apply Ht|exact H1]). destruct o as [| |text']; [done|done|].
    specialize (IH text' polls' w' H2). destruct (Responses.response_loop C _ _ _ _ _ items text' polls' w') as [[[es' p'] w''] r].
    destruct IH as [H4 H5]. split; [by etrans|done].
  - by split; [apply Ht|].
  - destruct Hp as [|p polls Hp Hps]; [by split; [apply Ht|]|]. split; [|done]. etrans; [apply Ht|apply Hp].
  - destruct Hp as [|p polls Hp Hps]; [by split; [apply Ht|]|]. split; [|done]. etrans; [apply Ht|apply Hp].
  - destruct Hp as [|p polls Hp Hps]; [by split; [apply Ht|]|]. split; [|done]. etrans; [apply Ht|apply Hp].
Qed.

Lemma final_events_steady r polls w : Forall (steady_tick C) polls ->
  steady C w (snd (Responses.final_events C completed_to_string r polls w)).
Proof.
  intros [|p polls' Hp Hps]; [done|]. cbn [Responses.final_events snd]. destruct Hps as [|q polls'' Hq _]; [apply Hp|].
  etrans; [apply Hp|apply Hq].
Qed.

Lemma response_stream_steady ps started answers polls a :
  Forall (fun '(_, tick) => steady_tick C tick) answers -> Forall (steady_tick C) polls ->
  a ↝ fst (fst (Responses.response_stream C S K delta_to_string completed_to_string error_to_string unix Stream s key rid
                 ps started answers polls a)).
Proof.
  intros Ha Hp. unfold Responses.response_stream. set (items := _ :: _).
  assert (Forall (fun '(_, tick) => steady_tick C tick) items) as Hi.
  { constructor; [done|]. apply Forall_map. eapply Forall_impl; [exact Ha|]. by intros [u tick]. }
  pose proof (response_loop_steady started (Fallback.str_attempts Stream (ps_success Stream ps)) items "" polls (world a) Hi Hp) as H1.
  destruct (Responses.response_loop C _ _ _ _ _ items "" polls _) as [[[es polls'] w] ended]. destruct H1 as [H1 H2].
  set (a1 := set_world C S K w a). assert (a ↝ a1) as H3 by exact H1.
  destruct ended as [[text e]|]; [|cbn [fst]; etrans; [exact H3|apply drop_guards_steady]].
  pose proof (finish_stream_steady C S K unix Stream s key rid Responses.RESPONSES_ROUTE ps started e
    (Metrics.stream_guard_new (Fallback.now C (world a))) a1) as H4.
  destruct (finish_stream C S K _ _ _ _ _ _ _ _ e _ a1) as [a2 g2]. cbn [fst] in H4.
  assert (a ↝ drop_stream_guards C S K Stream ps g2 a2) as H5 by (etrans; [exact H3|]; etrans; [exact H4|apply drop_guards_steady]).
  destruct (end_usage e) as [u|]; [|exact H5]. destruct (stream_failed e); [exact H5|].
  match goal with |- context [Responses.final_events C completed_to_string ?r polls' ?w'] =>
    pose proof (final_events_steady r polls' w' H2) as H6; destruct (Responses.final_events C completed_to_string r polls' w') as [es' w2] end.
  cbn [fst snd] in *. etrans; [exact H3|]. etrans; [exact H4|]. etrans; [exact H6|].
  exact (drop_guards_steady C S K Stream ps g2 (set_world C S K w2 a2)).
Qed.

Lemma responses_steady r a a' out :
  Responses.responses C S K prefix_to_vec cache_to_vec sha256 json_to_string unix sleep chat_completion Stream
    chat_completion_stream stream_next s key rid r a = (a', Some out) -> a ↝ a'.
Proof.
  unfold Responses.responses. cbv zeta. destruct (Chat.validate _ _ _ _) as [?|err]; [|by intros [= <- _]].
  destruct (Admission.check_token_budget _ _) as [?|why]; [|intros [= <- _]; apply rejection_steady].
  destruct (Admission.try_acquire_request _ _) as [adm acquired]. set (b1 := set_world C S K (Fallback.set_admission C adm (world a)) a).
  assert (a ↝ b1) as H1 by done. destruct acquired as [guard|rej];
    [|intros [= <- _]; etrans; [exact H1|apply (rejection_steady C S K (Admission.reason rej) b1)]].
  destruct (Responses.stream_enabled r).
  - unfold Responses.stream_response. destruct (start_stream C S K _ _ _ _ _ _ _ _ _ _ _ _ _ _) as [a2 [o|]] eqn:E; [|done].
    pose proof (start_stream_steady C S K prefix_to_vec sha256 unix sleep chat_completion Stream chat_completion_stream stream_next s rid
      Responses.RESPONSES_ROUTE He _ _ _ _ _ _ E) as H2.
    intros Hout. assert (a2 = a') as <- by (by injection Hout). etrans; [exact H1|]. etrans; [apply begin_steady|exact H2].
  - destruct (Responses.answer_response C S K _ _ _ _ _ _ _ _ _ _ _ _) as [a2 [o|]] eqn:E; [|done]. intros [= <- _].
    etrans; [exact H1|]. trans (world a2); [exact (answer_response_steady _ _ _ _ E)|done].
Qed.

Lemma responses_serve_steady r answers polls a a' o :
  Forall (fun '(_, tick) => steady_tick C tick) answers -> Forall (steady_tick C) polls ->
  Responses.serve C S K prefix_to_vec cache_to_vec sha256 json_to_string delta_to_string completed_to_string error_to_string unix sleep
    chat_completion Stream chat_completion_stream stream_next s key rid r answers polls a = (a', Some o) -> a ↝ a'.
Proof.
  intros Ha Hp. unfold Responses.serve. destruct (Responses.responses C S K _ _ _ _ _ _ _ _ _ _ _ _ _ r a) as [a1 [out|]] eqn:E; [|done].
  pose proof (responses_steady r a a1 out E) as H1.
  destruct out as [[rep c|ps]|e]; [by intros [= <- _]| |by intros [= <- _]].
  pose proof (response_stream_steady ps (Fallback.now C (world a)) answers polls a1 Ha Hp) as H2.
  destruct (Responses.response_stream C S K _ _ _ _ _ _ _ _ ps _ answers polls a1) as [[a2 es] how]. cbn [fst] in H2.
  intros [= <- _]. by etrans.
Qed.

(** Only an admitted streaming request gets a stream. *)
Lemma streamed_admitted r answers polls a a' es how :
  Responses.serve C S K prefix_to_vec cache_to_vec sha256 json_to_string delta_to_string completed_to_string error_to_string unix sleep
    chat_completion Stream chat_completion_stream stream_next s key rid r answers polls a = (a', Some (Responses.Streamed es how)) ->
  Responses.stream_enabled r && Responses.admitted C S K json_to_string s rid r a = true.
Proof.
  unfold Responses.serve, Responses.responses, Responses.admitted. cbv zeta. destruct (Chat.validate _ _ _ _) as [?|err]; [|done].
  destruct (Admission.check_token_budget _ _) as [?|why]; [|done].
  destruct (Admission.try_acquire_request _ _) as [adm [guard|rej]]; [|done]. cbn [snd]. destruct (Responses.stream_enabled r); [done|].
  unfold Responses.answer_response. destruct (look_up_cache C S K _ _ _ _ _) as [b1 [resp|]]; [done|].
  destruct (routing_metrics_snapshot C S K b1) as [snap|]; [|done].
  by destruct (Fallback.complete_chat C _ _ _ _ _ _ _) as [w2 [[ok|[|rej|er at_]]|]].
Qed.

End ResponsesHandler.

(* ------------------------------------------------------------------ *)
(** ** POST /v1/chat/completions and /v1/responses, from the socket to the last byte *)

Section Stack.
Context (C : Type -> Type) `{!LruOps C} (S K B : Type)
  `{!Keys.KeyStore S, !Cache.ResponseCache K, !RateLimit.RateLimitBackend B}.
Variables (prefix_to_vec : PrefixFingerprint.CanonicalPrefix -> option (list Z))
  (cache_to_vec : Cache.CanonicalChatRequest -> option (list Z))
  (sha256 : list Z -> list Z)
  (json_to_string : Chat.Value -> option string)
  (chunk_to_string : Chat.ChatCompletionChunkResponse -> option string)
  (error_to_string : Chat.Uuid -> string -> string)
  (delta_to_string : string -> Responses.ResponseTextDelta -> option string)
  (completed_to_string : string -> Responses.ResponseObject -> option string)
  (stream_error_to_string : string -> string)
  (parse_uuid : string -> option Chat.Uuid).
Variables (unix : Z -> Z) (sleep : Z -> Fallback.World C -> Fallback.World C).
Variable chat_completion : nat -> Strategy.Entry -> Chat.ChatCompletionRequest -> Fallback.World C ->
  result Chat.ChatCompletionResponse Provider.ProviderError * Fallback.World C.
Variable Stream : Type.
Variable chat_completion_stream : nat -> Strategy.Entry -> Chat.ChatCompletionRequest -> Fallback.World C ->
  result (Provider.ProviderStreamContext * Stream) Provider.ProviderError * Fallback.World C.
Variable stream_next : Stream -> Fallback.World C ->
  option (result Provider.ProviderStreamEvent Provider.ProviderError) * Stream * Fallback.World C.
Variable s : Settings.
Notation App := (App C S K).
Notation world := (world C S K).

Record Gateway := { app : App; backend : B }.

(** A body as its endpoint reads it: [None] if it is not a request. *)
Inductive Body :=
| ChatBody (b : option Chat.ChatCompletionRequest)
| ResponsesBody (b : option Responses.ResponseRequest).

(** One request: what arrives, what the outside does meanwhile, and the time
    that passes before it arrives. *)
Record Exchange := {
  ex_wait : Fallback.World C -> Fallback.World C;
  ex_request_id_header : option string;
  ex_authorization : option string;
  ex_fresh_id : Chat.Uuid;
  ex_body : Body;
  ex_answers : list (Upstream * (Fallback.World C -> Fallback.World C));
  ex_polls : list (Fallback.World C -> Fallback.World C)
}.

Definition path_of (b : Body) : string :=
  match b with ChatBody _ => CHAT_COMPLETIONS_ROUTE | ResponsesBody _ => Responses.RESPONSES_ROUTE end.

Definition request_of (x : Exchange) : Middleware.Request :=
  {| Middleware.path := path_of (ex_body x); Middleware.header_x_request_id := ex_request_id_header x;
     Middleware.header_authorization := ex_authorization x; Middleware.ext_request_id := None; Middleware.ext_key := None |}.

Inductive Result := ChatServed (o : Served) | ResponseServed (o : Responses.Served).

(** What the extractors and the handler come to: a refusal of a request without
    its extensions, of a body that cannot be read (the responses endpoint leaves
    that to its extractor), or the handler's result, [None] being a panic. *)
Inductive Ran := MissingExtension | Unreadable | Finished (a : App) (o : option Result).

Definition handler (x : Exchange) (a : App) (gate : Middleware.Gate S B) (r : Middleware.Request) : Middleware.Gate S B * Ran :=
  (gate,
   match Middleware.ext_key r, Middleware.ext_request_id r with
   | Some key, Some rid =>
       match ex_body x with
       | ChatBody body =>
           let '(a, o) := serve C S K prefix_to_vec cache_to_vec sha256 json_to_string chunk_to_string error_to_string unix sleep
             chat_completion Stream chat_completion_stream stream_next s key rid CHAT_COMPLETIONS_ROUTE
             body (ex_answers x) (ex_polls x) a in
           Finished a (ChatServed <$> o)
       | ResponsesBody (Some body) =>
           let '(a, o) := Responses.serve C S K prefix_to_vec cache_to_vec sha256 json_to_string delta_to_string completed_to_string
             stream_error_to_string unix sleep chat_completion Stream chat_completion_stream stream_next s key rid
             body (ex_answers x) (ex_polls x) a in
           Finished a (ResponseServed <$> o)
       | ResponsesBody None => Unreadable
       end
   | _, _ => MissingExtension
   end).

(** What the client gets; a panic is [None]. *)
Inductive Reply :=
| Turned (e : Chat.ErrorHttpResponse)
| NoExtension
| BadBody
| Answered (rid : Chat.Uuid) (o : Result).

Definition arrive (x : Exchange) (g : Gateway) : App := set_world C S K (ex_wait x (world (app g))) (app g).

Definition handle (x : Exchange) (g : Gateway) : Gateway * option Reply :=
  let a := arrive x g in
  let now := Fallback.now C (world a) in
  let '(gate, out) := Middleware.protected_routes parse_uuid (ex_fresh_id x) now (unix now) (handler x a)
    {| Middleware.key_store := key_store C S K a; Middleware.rate_limit_backend := backend g |} (request_of x) in
  let here a := {| app := a; backend := Middleware.rate_limit_backend gate |} in
  match out with
  | None => (here a, None)
  | Some (Middleware.Rejected e) => (here a, Some (Turned e))
  | Some (Middleware.Handled MissingExtension) => (here a, Some NoExtension)
  | Some (Middleware.Handled Unreadable) => (here a, Some BadBody)
  | Some (Middleware.Handled (Finished a' o)) =>
      (here a', Answered (default (ex_fresh_id x) (ex_request_id_header x ≫= parse_uuid)) <$> o)
  end.

Fixpoint run (xs : list Exchange) (g : Gateway) : Gateway * list (option Reply) :=
  match xs with
  | [] => (g, [])
  | x :: xs =>
      let '(g, r) := handle x g in
      let '(g, rest) := run xs g in (g, r :: rest)
  end.

End Stack.

(* ------------------------------------------------------------------ *)
(** ** What the requests ask of the rate limiter *)

Section Limits.
Context {B : Type} `{!RateLimit.RateLimitBackend B}.

(** A check: of the global limit, or of a key's. *)
Inductive Ask := AskGlobal | AskKey (k : string) (requests_per_minute burst_size : option Z).

Definition to_op (o : Ask) : RateLimit.op :=
  match o with AskGlobal => RateLimit.CheckGlobal | AskKey k rpm burst => RateLimit.CheckKey k rpm burst end.

Definition ask (t : Z) (o : Ask) (b : B) : B * option (result unit Z) :=
  match o with
  | AskGlobal => RateLimit.backend_check_global t b
  | AskKey k rpm burst => RateLimit.backend_check_key t k rpm burst b
  end.

Fixpoint asks (ops : list (Z * Ask)) (b : B) : B * list (option (result unit Z)) :=
  match ops with
  | [] => (b, [])
  | (t, o) :: ops =>
      let '(b, a) := ask t o b in
      let '(b, rest) := asks ops b in (b, a :: rest)
  end.

Definition timed_op (p : Z * Ask) : Z * RateLimit.op := (fst p, to_op (snd p)).

Lemma asks_app ops ops' b : asks (ops ++ ops') b =
  let '(b1, a1) := asks ops b in let '(b2, a2) := asks ops' b1 in (b2, a1 ++ a2).
Proof.
  revert b. induction ops as [|[t o] ops IH]; intros b; cbn [Datatypes.app asks]; [by destruct (asks ops' b)|].
  destruct (ask t o b) as [b1 a]. rewrite IH. destruct (asks ops b1) as [b2 a2]. by destruct (asks ops' b2).
Qed.

Lemma asks_length ops b : length (snd (asks ops b)) = length ops.
Proof.
  revert b. induction ops as [|[t o] ops IH]; intros b; cbn [asks]; [done|]. destruct (ask t o b) as [b1 a].
  specialize (IH b1). destruct (asks ops b1). cbn in *. by rewrite IH.
Qed.

Context `{!RateLimit.LimiterLaws B}.

Lemma ask_answers t o (b : B) : RateLimit.backend_ok b -> exists b' a, ask t o b = (b', Some a) /\ RateLimit.backend_ok b'.
Proof. intros Hb. destruct o; [exact (RateLimit.global_answers t b Hb)|exact (RateLimit.key_answers t k requests_per_minute burst_size b Hb)]. Qed.

End Limits.

(* ------------------------------------------------------------------ *)
(** ** Runs *)

Section Runs.
Context (C : Type -> Type) `{!LruOps C} (S K B : Type)
  `{!Keys.KeyStore S, !Cache.ResponseCache K, !RateLimit.RateLimitBackend B, !RateLimit.LimiterLaws B}.
Variables (prefix_to_vec : PrefixFingerprint.CanonicalPrefix -> option (list Z))
  (cache_to_vec : Cache.CanonicalChatRequest -> option (list Z))
  (sha256 : list Z -> list Z)
  (json_to_string : Chat.Value -> option string)
  (chunk_to_string : Chat.ChatCompletionChunkResponse -> option string)
  (error_to_string : Chat.Uuid -> string -> string)
  (delta_to_string : string -> Responses.ResponseTextDelta -> option string)
  (completed_to_string : string -> Responses.ResponseObject -> option string)
  (stream_error_to_string : string -> string)
  (parse_uuid : string -> option Chat.Uuid).
Variables (unix : Z -> Z) (sleep : Z -> Fallback.World C -> Fallback.World C).
Variable chat_completion : nat -> Strategy.Entry -> Chat.ChatCompletionRequest -> Fallback.World C ->
  result Chat.ChatCompletionResponse Provider.ProviderError * Fallback.World C.
Variable Stream : Type.
Variable chat_completion_stream : nat -> Strategy.Entry -> Chat.ChatCompletionRequest -> Fallback.World C ->
  result (Provider.ProviderStreamContext * Stream) Provider.ProviderError * Fallback.World C.
Variable stream_next : Stream -> Fallback.World C ->
  option (result Provider.ProviderStreamEvent Provider.ProviderError) * Stream * Fallback.World C.
Variable s : Settings.
Notation world := (world C S K).
Notation Gateway := (Gateway C S K B).
Notation Exchange := (Exchange C).
Notation handle := (handle C S K B prefix_to_vec cache_to_vec sha256 json_to_string chunk_to_string
  error_to_string delta_to_string completed_to_string stream_error_to_string parse_uuid unix sleep chat_completion Stream chat_completion_stream stream_next s).
Notation run := (run C S K B prefix_to_vec cache_to_vec sha256 json_to_string chunk_to_string
  error_to_string delta_to_string completed_to_string stream_error_to_string parse_uuid unix sleep chat_completion Stream chat_completion_stream stream_next s).
Notation app := (app C S K B).
Notation backend := (backend C S K B).
Implicit Types (g : Gateway) (x : Exchange).

(** The outside: it neither counts, admits nor reconfigures anything, leaves the
    metrics usable, and time goes on. *)
Definition gentle (tick : Fallback.World C -> Fallback.World C) : Prop := calm C tick /\ steady_tick C tick.

Record Outside : Prop := {
  out_quiet : quiet_env C sleep chat_completion Stream chat_completion_stream stream_next;
  out_steady : steady_env C sleep chat_completion Stream chat_completion_stream stream_next
}.

Definition gentle_exchange x : Prop :=
  gentle (ex_wait C x) /\ Forall (fun '(_, tick) => gentle tick) (ex_answers C x) /\ Forall gentle (ex_polls C x).

Hypothesis Hout : Outside.

(** A gateway that can take the next request. *)
Definition serving g : Prop := fit C S K (app g) /\ RateLimit.backend_ok (backend g).

(** The checks a request makes: the global bucket, and the key's if it gets that far. *)
Definition checks_at (t : Z) (ops : list (Z * Ask)) : Prop :=
  ops = [(t, AskGlobal)] \/ exists k rpm burst, ops = [(t, AskGlobal); (t, AskKey k rpm burst)].

(** A line in the books: the request id, the route and the outcome. *)
Definition Bill : Type := Chat.Uuid * string * RequestLog.RequestLogStatus.

(** What a reply is booked as.  The responses endpoint books nothing but its
    streams, and a refusal only once the stream was being set up. *)
Definition billed (r : Reply) (b : option Bill) : Prop :=
  match r with
  | Answered rid (ChatServed o) => b = pair (rid, CHAT_COMPLETIONS_ROUTE) <$> bill o
  | Answered rid (ResponseServed (Responses.Replied _ _)) => b = None
  | Answered rid (ResponseServed (Responses.Refused _)) =>
      b = None \/ b = Some (rid, Responses.RESPONSES_ROUTE, RequestLog.Failure)
  | Answered rid (ResponseServed (Responses.Streamed _ how)) => b = pair (rid, Responses.RESPONSES_ROUTE) <$> bill_stream how
  | _ => b = None
  end.

Definition tally (c : Z * Z * Z * Z) (b : Bill) : Z * Z * Z * Z :=
  let '(i, t, su, f) := c in
  match b.2 with
  | RequestLog.Success => (i, u64_add t 1, u64_add su 1, f)
  | RequestLog.Failure => (i, u64_add t 1, su, u64_add f 1)
  end.

Definition lines (bs : list (option Bill)) : list Bill := omap (fun b : option Bill => b) bs.

(** The counters moved by the bills, and the log has one entry for each of
    them, in order, if requests are logged. *)
Definition books_kept (bs : list (option Bill)) (a a' : App C S K) : Prop :=
  (exists c, counters_at (world a) = Some c /\ counters_at (world a') = Some (foldl tally c (lines bs))) /\
  if RequestLog.enabled (request_logging s)
  then exists es, request_log C S K a' = request_log C S K a ++ es /\
    Forall2 (fun b e => logged_as s b.1.1 b.1.2 b.2 e) (lines bs) es
  else request_log C S K a' = request_log C S K a.

(** From [g] to [g'] with reply [r], booked as [b]: the state is fit for the next
    request, the admission slots are back, and the limiter took the checks of
    one request. *)
Definition step_of g g' (r : Reply) (b : option Bill) : Prop :=
  serving g' /\ steady C (world (app g)) (world (app g')) /\
  Fallback.admission C (world (app g')) = Fallback.admission C (world (app g)) /\
  (exists t ops answers, checks_at t ops /\ Fallback.now C (world (app g)) <= t <= Fallback.now C (world (app g')) /\
     asks ops (backend g) = (backend g', answers) /\
     match r with Turned _ => True | _ => hd_error answers = Some (Some (Ok tt)) end) /\
  r <> NoExtension /\ billed r b /\ books_kept [b] (app g) (app g').

Lemma gentle_answers (answers : list (Upstream * (Fallback.World C -> Fallback.World C))) :
  Forall (fun '(_, tick) => gentle tick) answers ->
  Forall (fun '(_, tick) => calm C tick) answers /\ Forall (fun '(_, tick) => steady_tick C tick) answers.
Proof. intros Ha. split; (eapply Forall_impl; [exact Ha|]; by intros [u tick] []). Qed.

Lemma gentle_polls (polls : list (Fallback.World C -> Fallback.World C)) :
  Forall gentle polls -> Forall (calm C) polls /\ Forall (steady_tick C) polls.
Proof. intros Hp. split; (eapply Forall_impl; [exact Hp|]; by intros tick []). Qed.

Lemma wait_fit (tick : Fallback.World C -> Fallback.World C) (a : App C S K) : gentle tick -> fit C S K a ->
  fit C S K (set_world C S K (tick (world a)) a).
Proof.
  intros [Hc Hs] ((m & Hm & Hok & Hi) & Hwf & Hj). destruct (Hc (world a)) as (Hcnt & Hadm & Hpol).
  destruct (Hs (world a)) as [_ Hu _]. destruct Hu as (m' & Hm' & Hok'); [by exists m|].
  split; [|split; [cbn; by rewrite Hadm|intros p; cbn; rewrite (Hpol p); apply Hj]].
  exists m'. split; [done|]. split; [done|]. unfold counters_at in Hcnt. rewrite Hm, Hm' in Hcnt. by injection Hcnt as ->.
Qed.

Lemma books_of_same (a a' : App C S K) : fit C S K a -> same_books C S K a a' -> books_kept [None] a a'.
Proof.
  intros Hin [E1 E2]. destruct (fit_counters C S K a Hin) as (i & t & su & f & Hc & _).
  split; [exists (i, t, su, f); by rewrite E1|]. cbn [lines omap list_omap]. rewrite E2.
  destruct (RequestLog.enabled _); [|done]. exists []. by rewrite app_nil_r.
Qed.

Lemma books_of_booked rid route st (a0 a a' : App C S K) : same_books C S K a0 a -> booked C S K s rid route st a a' ->
  books_kept [pair (rid, route) <$> st] a0 a'.
Proof.
  intros Hs Hb. apply (booked_same C S K s rid route st a0 a a' a' Hs) in Hb; [|done].
  destruct Hb as (i & t & su & f & Hc & Hb). destruct st as [st|]; cbn [fmap option_fmap option_map lines omap list_omap].
  - destruct Hb as [Hc' Hl]. split; [exists (i, t, su, f); by destruct st|]. destruct (RequestLog.enabled _); [|done].
    destruct Hl as (e & -> & He). exists [e]. split; [done|]. by constructor.
  - destruct Hb as [Hc' Hl]. split; [by exists (i, t, su, f)|]. rewrite Hl. destruct (RequestLog.enabled _); [|done].
    exists []. by rewrite app_nil_r.
Qed.

Lemma books_trans b bs (a a1 a' : App C S K) : books_kept [b] a a1 -> books_kept bs a1 a' -> books_kept (b :: bs) a a'.
Proof.
  intros [(c & Hc & Hc1) Hl1] [(c1 & Hc1' & Hc') Hl]. rewrite Hc1 in Hc1'. injection Hc1' as <-.
  replace (lines (b :: bs)) with (lines [b] ++ lines bs) by (by destruct b). unfold books_kept.
  replace (lines (b :: bs)) with (lines [b] ++ lines bs) by (by destruct b). split.
  - exists c. split; [done|]. by rewrite foldl_app.
  - destruct (RequestLog.enabled _); [|by rewrite Hl].
    destruct Hl1 as (e1 & E1 & F1), Hl as (e2 & E2 & F2). exists (e1 ++ e2). split; [by rewrite E2, E1, app_assoc|].
    by apply Forall2_app.
Qed.

(** What a handler leaves, for the step of the whole gateway. *)
Lemma handled_step g (a a' : App C S K) l' rid route st r b t ops answers :
  same_books C S K (app g) a -> steady C (world (app g)) (world a) ->
  Fallback.admission C (world a) = Fallback.admission C (world (app g)) -> fit C S K a ->
  steady C (world a) (world a') -> Fallback.admission C (world a') = Fallback.admission C (world a) ->
  booked C S K s rid route st a a' -> b = pair (rid, route) <$> st -> billed r b -> r <> NoExtension ->
  RateLimit.backend_ok l' -> checks_at t ops -> t = Fallback.now C (world a) ->
  asks ops (backend g) = (l', answers) -> hd_error answers = Some (Some (Ok tt)) ->
  step_of g (Build_Gateway C S K _ a' l') r b.
Proof.
  intros Hsb Hst Hadm Hin Hst' Hadm' Hb -> Hr Hne Hl Hops -> Hrun Hok.
  split; [split; [by eapply fit_after|done]|]. split; [by etrans|]. split; [cbn; congruence|].
  split; [|split; [done|]; split; [done|by eapply books_of_booked]].
  exists (Fallback.now C (world a)), ops, answers. split; [done|]. split; [split; [apply Hst|apply Hst']|]. split; [done|]. by destruct r.
Qed.

(** The limiter's part of a request. *)
Lemma limiter_one t (l : B) : RateLimit.backend_ok l -> exists l1 a1, RateLimit.backend_check_global t l = (l1, Some a1) /\
  RateLimit.backend_ok l1 /\ asks [(t, AskGlobal)] l = (l1, [Some a1]).
Proof. intros Hl. destruct (RateLimit.global_answers t l Hl) as (l1 & a1 & E & Hl1). exists l1, a1. cbn. by rewrite E. Qed.

Lemma limiter_two t (l l1 : B) a1 k rpm burst : RateLimit.backend_ok l1 -> RateLimit.backend_check_global t l = (l1, Some a1) ->
  exists l2 a2, RateLimit.backend_check_key t k rpm burst l1 = (l2, Some a2) /\ RateLimit.backend_ok l2 /\
  asks [(t, AskGlobal); (t, AskKey k rpm burst)] l = (l2, [Some a1; Some a2]).
Proof. intros Hl Hg. destruct (RateLimit.key_answers t k rpm burst l1 Hl) as (l2 & a2 & E & Hl2). exists l2, a2. cbn. by rewrite Hg, E. Qed.

Lemma handle_step x g : serving g -> gentle_exchange x -> exists g' r b, handle x g = (g', Some r) /\ step_of g g' r b.
Proof.
  intros [Hin Hl] (Hw & Ha & Hp). unfold handle. set (a := arrive C S K _ x g).
  pose proof (wait_fit _ _ Hw Hin) as Hina. change (set_world C S K _ _) with a in Hina.
  destruct (proj1 Hw (world (app g))) as (Hcnt & Hadm & _). pose proof (proj2 Hw (world (app g))) as Hst.
  change (ex_wait C x (world (app g))) with (world a) in *. set (t := Fallback.now C (world a)).
  assert (same_books C S K (app g) a) as Hsb by (by split).
  assert (forall r l' ops answers, r <> NoExtension -> billed r None -> RateLimit.backend_ok l' -> checks_at t ops ->
    asks ops (backend g) = (l', answers) ->
    match r with Turned _ => True | _ => hd_error answers = Some (Some (Ok tt)) end ->
    step_of g (Build_Gateway C S K _ a l') r None) as Hturn.
  { intros r l' ops answers Hne Hr Hl' Hops Hrun Hok. split; [by split|]. split; [done|]. split; [done|].
    split; [|split; [done|]; split; [done|by apply books_of_same]].
    exists t, ops, answers. split; [done|]. split; [split; [apply Hst|done]|]. by split. }
  unfold Middleware.protected_routes, Middleware.request_id_middleware, Middleware.pre_auth_rate_limit_middleware, Middleware.reject.
  cbn [Middleware.rate_limit_backend].
  destruct (limiter_one t (backend g) Hl) as (l1 & a1 & E1 & Hl1 & R1). rewrite E1.
  destruct a1 as [[]|n]; [|eexists _, _, _; split; [reflexivity|]; by eapply Hturn; [..|left| |]].
  unfold Middleware.auth_middleware, Middleware.reject.
  destruct (Middleware.bearer_token _) as [token|]; [|eexists _, _, _; split; [reflexivity|]; by eapply Hturn; [..|left| |]].
  destruct (Keys.authenticate _ token) as [[key|]|er]; [|eexists _, _, _; split; [reflexivity|]; by eapply Hturn; [..|left| |]..].
  destruct (Middleware.role_allows_path _ _); cbn [negb]; [|eexists _, _, _; split; [reflexivity|]; by eapply Hturn; [..|left| |]].
  unfold Middleware.per_key_rate_limit_middleware, Middleware.reject.
  cbn [Middleware.ext_key Middleware.with_key Middleware.set_backend Middleware.rate_limit_backend].
  destruct (Keys.check_quota _ _ key) as [[]|q]; [|eexists _, _, _; split; [reflexivity|]; by eapply Hturn; [..|left| |]].
  destruct (limiter_two t (backend g) l1 _ (Keys.key_id key) (Keys.requests_per_minute (Keys.limits key)) (Middleware.burst_of key) Hl1 E1)
    as (l2 & a2 & E2 & Hl2 & R2). rewrite E2.
  destruct a2 as [[]|n]; [|eexists _, _, _; split; [reflexivity|]; by eapply Hturn; [..|right; eauto| |]].
  cbn [handler Middleware.with_key Middleware.with_request_id Middleware.ext_key Middleware.ext_request_id].
  cbn [Middleware.header_x_request_id request_of Middleware.rate_limit_backend].
  set (rid := default (ex_fresh_id C x) (ex_request_id_header C x ≫= parse_uuid)).
  destruct (gentle_answers _ Ha) as [Ha1 Ha2]. destruct (gentle_polls _ Hp) as [Hp1 Hp2].
  destruct (ex_body C x) as [body|[body|]].
  - destruct (serve_accounted C S K prefix_to_vec cache_to_vec sha256 json_to_string chunk_to_string error_to_string unix sleep
      chat_completion Stream chat_completion_stream stream_next s key rid CHAT_COMPLETIONS_ROUTE (out_quiet Hout) body (ex_answers C x)
      (ex_polls C x) a Hina Ha1 Hp1) as (a' & o & Hs & Hadm' & Hb).
    pose proof (serve_steady C S K prefix_to_vec cache_to_vec sha256 json_to_string chunk_to_string error_to_string unix sleep
      chat_completion Stream chat_completion_stream stream_next s key rid CHAT_COMPLETIONS_ROUTE (out_steady Hout) _ _ _ _ _ _ Ha2 Hp2 Hs) as Hst'.
    rewrite Hs. eexists _, _, _. split; [reflexivity|].
    eapply handled_step; [exact Hsb|exact Hst|exact Hadm|exact Hina|exact Hst'|exact Hadm'|exact Hb|reflexivity|reflexivity|done|exact Hl2
      |right; eauto|reflexivity|exact R2|reflexivity].
  - destruct (Responses.serve_booked C S K prefix_to_vec cache_to_vec sha256 json_to_string delta_to_string completed_to_string
      stream_error_to_string unix sleep chat_completion Stream chat_completion_stream stream_next s key rid (out_quiet Hout) body
      (ex_answers C x) (ex_polls C x) a Hina Ha1 Hp1) as (a' & o & Hs & Hadm' & Hb).
    pose proof (responses_serve_steady C S K prefix_to_vec cache_to_vec sha256 json_to_string delta_to_string completed_to_string
      stream_error_to_string unix sleep chat_completion Stream chat_completion_stream stream_next s key rid (out_steady Hout)
      _ _ _ _ _ _ Ha2 Hp2 Hs) as Hst'.
    rewrite Hs. eexists _, _, _. split; [reflexivity|].
    eapply handled_step; [exact Hsb|exact Hst|exact Hadm|exact Hina|exact Hst'|exact Hadm'|exact Hb|reflexivity| |done|exact Hl2
      |right; eauto|reflexivity|exact R2|reflexivity].
    destruct o as [rep c|e|es how]; cbn [billed].
    + unfold Responses.bill. by destruct (_ && _).
    + unfold Responses.bill. destruct (_ && _); [by right|by left].
    + unfold Responses.bill. apply streamed_admitted in Hs. by rewrite Hs.
  - eexists _, _, _. split; [reflexivity|]. by eapply Hturn; [..|right; eauto| |].
Qed.

(** The requests that got past the middleware. *)
Definition is_answered (r : Reply) : bool := match r with Turned _ => false | _ => true end.
Definition answered (rs : list Reply) : Z := Z.of_nat (length (filter is_answered rs)).

Lemma answered_cons r rs : answered (r :: rs) = (if is_answered r then 1 else 0) + answered rs.
Proof. unfold answered. rewrite filter_cons. case_decide as Hd; destruct (is_answered r); cbn [length]; try done; lia. Qed.

(** The checks of a request that passed the global one. *)
Lemma checks_admitted t ops answers : checks_at t ops -> hd_error answers = Some (Some (Ok tt)) -> 1 <= RateBound.admitted (map timed_op ops) answers.
Proof.
  intros Hch Hok. destruct answers as [|a1 answers]; [done|]. injection Hok as ->.
  destruct Hch as [->|(k & rpm & b & ->)]; cbn [map timed_op fst snd to_op RateBound.admitted RateBound.uses_global]; [lia|].
  destruct answers as [|[[]|] answers]; cbn; lia.
Qed.

Lemma run_spec xs g : serving g -> Forall gentle_exchange xs -> exists g' rs bs,
  run xs g = (g', map Some rs) /\ length rs = length xs /\ serving g' /\ steady C (world (app g)) (world (app g')) /\
  Fallback.admission C (world (app g')) = Fallback.admission C (world (app g)) /\
  Forall2 billed rs bs /\ books_kept bs (app g) (app g') /\
  exists ops, fst (asks ops (backend g)) = backend g' /\ (length ops <= 2 * length xs)%nat /\
    RateBound.in_order (Fallback.now C (world (app g))) (Fallback.now C (world (app g'))) (map timed_op ops) /\
    answered rs <= RateBound.admitted (map timed_op ops) (snd (asks ops (backend g))).
Proof.
  revert g. induction xs as [|x xs IH]; intros g Hg Hxs.
  { exists g, [], []. split; [done|]. split; [done|]. split; [done|]. split; [done|]. split; [done|]. split; [done|]. split.
    - destruct (fit_counters C S K (app g) (proj1 Hg)) as (i & t & su & f & Hc & _). split; [by exists (i, t, su, f)|].
      destruct (RequestLog.enabled _); [|done]. exists []. by rewrite app_nil_r.
    - exists []. cbn. split; [done|]. split; [lia|]. split; [lia|]. unfold answered. cbn. lia. }
  apply Forall_cons_1 in Hxs as [Hx Hxs]. destruct (handle_step x g Hg Hx) as (g1 & r & b & Hh & Hg1 & Hst1 & Hadm1 & Hlim & Hne & Hb1 & Hk1).
  destruct (IH g1 Hg1 Hxs) as (g' & rs & bs & Hrun & Hlen & Hg' & Hst & Hadm & Hb & Hk & ops & Hops & Hol & Hord & Hans).
  exists g', (r :: rs), (b :: bs). cbn [Gateway.run]. rewrite Hh, Hrun. split; [done|]. split; [cbn; lia|]. split; [done|].
  split; [by etrans|]. split; [congruence|]. split; [by constructor|]. split; [by eapply books_trans|].
  destruct Hlim as (t & ops1 & ans1 & Hch & Ht & Hrun1 & Hok). exists (ops1 ++ ops).
  pose proof (asks_app ops1 ops (backend g)) as Happ. rewrite Hrun1 in Happ.
  pose proof (asks_length ops1 (backend g)) as Hl1. rewrite Hrun1 in Hl1. cbn [snd] in Hl1.
  destruct (asks ops (backend g1)) as [l2 ans2]. cbn [fst snd] in *. rewrite Happ. cbn [fst snd].
  split; [done|]. rewrite length_app, map_app. assert (length ops1 <= 2)%nat by (destruct Hch as [->|(k & rpm & bu & ->)]; cbn; lia).
  split; [cbn [length]; lia|]. split.
  - eapply RateBound.in_order_app; [|exact Hord]. destruct Hch as [->|(k & rpm & bu & ->)]; cbn [map timed_op fst snd RateBound.in_order]; lia.
  - rewrite RateBound.admitted_app by (by rewrite length_map). rewrite answered_cons. pose proof (checks_admitted t ops1 ans1 Hch) as Hc.
    destruct r as [e| | |rid o]; cbn [is_answered]; [pose proof (RateBound.admitted_nonneg (map timed_op ops1) ans1); lia|specialize (Hc Hok); lia..].
Qed.

End Runs.

(* ------------------------------------------------------------------ *)
(** ** From a configuration *)

(** [Arc<dyn KeyStore>], [Arc<dyn ResponseCache>] and [Arc<dyn RateLimitBackend>]:
    the operations of what is behind them. *)
#[global] Instance AnyKeyStore_KeyStore (verify_password : string -> string -> option bool) : Keys.KeyStore Build.AnyKeyStore := {|
  Keys.authenticate := fun k => match k with
    | Build.StaticKeys st => Keys.authenticate st
    | Build.SqliteKeys st => @Keys.authenticate _ (Keys.SqliteKeyStore_KeyStore verify_password) st
    end;
  Keys.check_quota := fun now k => match k with
    | Build.StaticKeys st => Keys.check_quota now st
    | Build.SqliteKeys st => @Keys.check_quota _ (Keys.SqliteKeyStore_KeyStore verify_password) now st
    end;
  Keys.record_usage := fun now id tokens cost k => match k with
    | Build.StaticKeys st => let '(st, r) := Keys.record_usage now id tokens cost st in (Build.StaticKeys st, r)
    | Build.SqliteKeys st =>
        let '(st, r) := @Keys.record_usage _ (Keys.SqliteKeyStore_KeyStore verify_password) now id tokens cost st in
        (Build.SqliteKeys st, r)
    end
|}.

#[global] Instance AnyCache_ResponseCache (M : Type -> Type) `{!MemoryCache.MokaOps M} (instant : Z -> Z)
  (from_str : string -> option Chat.ChatCompletionResponse) (to_string : Chat.ChatCompletionResponse -> option string) :
  Cache.ResponseCache (Build.AnyCache M) := {|
  Cache.cache_get := fun now key c => match c with
    | Build.MemoryCache _ m => let '(m, r) := MemoryCache.get M (instant now) key m in (Build.MemoryCache M m, r)
    | Build.SqliteCache _ c => let '(c, r) := Cache.sqlite_get from_str now key c in (Build.SqliteCache M c, r)
    end;
  Cache.cache_put := fun now key response ttl c => match c with
    | Build.MemoryCache _ m => Build.MemoryCache M (MemoryCache.put M (instant now) key response ttl m)
    | Build.SqliteCache _ c => Build.SqliteCache M (Cache.sqlite_put to_string now key response ttl c)
    end
|}.

#[global] Instance AnyBackend_backend (C : Type -> Type) `{!LruOps C} (now_ms : Z -> Z) : RateLimit.RateLimitBackend (Build.AnyBackend C) := {|
  RateLimit.backend_check_global := fun now b => match b with
    | Build.LocalBackend _ l => let '(l, a) := RateLimit.check_global now l in (Build.LocalBackend C l, a)
    | Build.RedisBackend _ r => let '(r, a) := Redis.redis_check_global C now_ms now r in (Build.RedisBackend C r, a)
    end;
  RateLimit.backend_check_key := fun now k rpm burst b => match b with
    | Build.LocalBackend _ l => let '(l, a) := RateLimit.check_key_with_override now k rpm burst l in (Build.LocalBackend C l, a)
    | Build.RedisBackend _ r => let '(r, a) := Redis.redis_check_key C now_ms now k rpm burst r in (Build.RedisBackend C r, a)
    end
|}.

#[global] Instance AnyBackend_laws (C : Type -> Type) `{!LruOps C, !LruLaws C} (now_ms : Z -> Z) :
  RateLimit.LimiterLaws (Build.AnyBackend C) (RateLimitBackend0 := AnyBackend_backend C now_ms).
Proof.
  refine {| RateLimit.backend_ok := fun b => match b with
    | Build.LocalBackend _ l => @RateLimit.backend_ok _ _ (RateLimit.RateLimiter_laws C) l
    | Build.RedisBackend _ r => @RateLimit.backend_ok _ _ (Redis.Redis_laws C now_ms) r
    end |}.
  - intros now [l|r] Hb; cbn.
    + destruct (RateLimit.global_answers now l Hb) as (l' & a & E & Hl). cbn in E. rewrite E. by eexists _, a.
    + destruct (@RateLimit.global_answers _ _ (Redis.Redis_laws C now_ms) now r Hb) as (r' & a & E & Hr). cbn in E. rewrite E. by eexists _, a.
  - intros now k rpm burst [l|r] Hb; cbn.
    + destruct (RateLimit.key_answers now k rpm burst l Hb) as (l' & a & E & Hl). cbn in E. rewrite E. by eexists _, a.
    + destruct (@RateLimit.key_answers _ _ (Redis.Redis_laws C now_ms) now k rpm burst r Hb) as (r' & a & E & Hr). cbn in E. rewrite E.
      by eexists _, a.
Defined.

(** A local backend is asked as the limiter it is. *)
Lemma asks_local C `{!LruOps C} now_ms ops l : @asks _ (AnyBackend_backend C now_ms) ops (Build.LocalBackend C l) =
  let '(l', answers) := RateLimit.run C (map timed_op ops) l in (Build.LocalBackend C l', answers).
Proof.
  revert l. induction ops as [|[t o] ops IH]; intros l; [done|]. cbn [asks map timed_op fst snd RateLimit.run].
  destruct o as [|k rpm burst]; cbn [ask to_op RateLimit.step RateLimit.backend_check_global RateLimit.backend_check_key AnyBackend_backend].
  - destruct (RateLimit.check_global t l) as [l1 a]. rewrite IH. by destruct (RateLimit.run C _ l1).
  - destruct (RateLimit.check_key_with_override t k rpm burst l) as [l1 a]. rewrite IH. by destruct (RateLimit.run C _ l1).
Qed.

Section Start.
Context (C : Type -> Type) `{!LruOps C} (M : Type -> Type) `{MO : !MemoryCache.MokaOps M}.

Definition settings_of (st : Build.AppState C M) : Settings :=
  {| providers := map Build.provider_entry (Build.providers C M st); model_pools := Build.model_pools C M st;
     model_aliases := Build.model_aliases C M st; routing_policy := Build.routing_policy C M st;
     prefix_affinity := Build.prefix_affinity C M st; chat_validation_limits := Build.chat_validation_limits C M st;
     request_logging := Build.request_logging C M st; response_cache_ttl := Build.response_cache_ttl C M st |}.

(** The state the handlers share. *)
Definition app_of (st : Build.AppState C M) (now : Z) : App C Build.AnyKeyStore (Build.AnyCache M) :=
  {| world := {| Fallback.resilience := Build.resilience C M st; Fallback.admission := Build.admission C M st;
                 Fallback.metrics := Build.metrics C M st; Fallback.prefix_index := Build.prefix_affinity_index C M st;
                 Fallback.now := now |};
     key_store := Build.key_store C M st; response_cache := Build.response_cache C M st; request_log := [] |}.

(** The gateway [router_with_state] makes of it. *)
Definition start (st : Build.AppState C M) (now : Z) : Gateway C Build.AnyKeyStore (Build.AnyCache M) (Build.AnyBackend C) :=
  {| app := app_of st now; backend := Build.share_limiter C M st |}.

(** Integers of the configuration within the width of their types, and no
    jitter of [u64::MAX]. *)
Record in_width (config : Config.AppConfig) : Prop := {
  w_limits : Admission.limits_in_width (Admission.from_config (Config.admission (Config.gateway config))
               (Config.providers config) (Config.model_pools config));
  w_jitter : 0 <= Config.jitter_ms (Config.retry (Config.gateway config)) < u64_max;
  w_jitters : Forall (fun p => forall j, Config.retry_jitter_ms p = Some j -> 0 <= j < u64_max) (Config.providers config);
  w_tracked : 0 <= Config.max_tracked_keys (Config.rate_limit (Config.gateway config));
  w_burst : is_u32 (Config.global_burst_size (Config.rate_limit (Config.gateway config)));
  w_rpm : is_u32 (Config.global_requests_per_minute (Config.rate_limit (Config.gateway config)))
}.

Context `{!LruLaws C}.

Lemma start_serving now_ms out config now st : Config.validate_config config = Ok tt -> in_width config ->
  Build.from_config C M out config now = Build.Done st ->
  @serving C Build.AnyKeyStore (Build.AnyCache M) (Build.AnyBackend C) _ (AnyBackend_laws C now_ms) (start st now).
Proof.
  intros Hv Hw Hst. destruct (Build.built_parts C M out config now st Hst) as (Hm & Hl & Ha & (names & Hr) & Hshare).
  pose proof (Config.validate_config_ok_providers config Hv) as (_ & Hnd & _ & _).
  pose proof (Config.validate_config_ok_gateway config Hv) as (_ & _ & _ & (_ & _ & _ & _ & Hkeys & _) & _).
  split.
  - split; [|split]; cbn.
    + exists Metrics.MetricsRegistry_default. split; [exact Hm|]. split; [exact (Metrics.run_ok [])|]. cbn. unfold u64_max. lia.
    + rewrite Ha. assert (forall sl n, Admission.limit_of (Admission.limits (Admission.new (Admission.from_config
        (Config.admission (Config.gateway config)) (Config.providers config) (Config.model_pools config)))) sl = Some n -> n <= u64_max) as Hlim
        by (intros sl n Hn; apply (w_limits config Hw sl n Hn)).
      split; [split|split; [|split]].
      * intros p n. exact (Hlim (Admission.Prov p) n).
      * intros k [= <-]. apply map_Forall_empty.
      * intros n. exact (Hlim Admission.Global n).
      * intros p n. exact (Hlim (Admission.Pool p) n).
      * intros k [= <-]. split; [done|apply map_Forall_empty].
    + intros p. unfold Fallback.policy_of. cbn [Fallback.resilience]. rewrite Hr. unfold Resilience.policy_for.
      cbn [Resilience.new Resilience.provider_policies Resilience.default_policy].
      destruct (Build.policy_cases config p Hnd) as [(q & Hin & _ & ->)| -> ]; cbn; [|apply Hw].
      pose proof (w_jitters config Hw) as Hj. rewrite Forall_forall in Hj. specialize (Hj q Hin).
      destruct (Config.retry_jitter_ms q); cbn; [by apply Hj|apply Hw].
  - cbn [backend start]. assert (1 <= Config.max_tracked_keys (Config.rate_limit (Config.gateway config))) as Hk.
    { pose proof (w_tracked config Hw). lia. }
    pose proof (RateLimit.new_ok C _ now _ Hk Hl) as Hok. unfold Build.backend_for in Hshare.
    destruct (Config.rate_limit_backend _); [by rewrite Hshare|]. destruct Hshare as [server ->]. cbn.
    intros l. destruct (Config.redis_fallback_to_local _); [|done]. by intros [= <-].
Qed.

End Start.

(* ------------------------------------------------------------------ *)
(** ** Properties *)

Section Properties.
Context (C : Type -> Type) `{!LruOps C, !LruLaws C} (M : Type -> Type) `{MO : !MemoryCache.MokaOps M}
  (verify_password : string -> string -> option bool) (instant now_ms : Z -> Z)
  (from_str : string -> option Chat.ChatCompletionResponse) (to_string : Chat.ChatCompletionResponse -> option string).
Variables (prefix_to_vec : PrefixFingerprint.CanonicalPrefix -> option (list Z))
  (cache_to_vec : Cache.CanonicalChatRequest -> option (list Z))
  (sha256 : list Z -> list Z)
  (json_to_string : Chat.Value -> option string)
  (chunk_to_string : Chat.ChatCompletionChunkResponse -> option string)
  (error_to_string : Chat.Uuid -> string -> string)
  (delta_to_string : string -> Responses.ResponseTextDelta -> option string)
  (completed_to_string : string -> Responses.ResponseObject -> option string)
  (stream_error_to_string : string -> string)
  (parse_uuid : string -> option Chat.Uuid).
Variables (unix : Z -> Z) (sleep : Z -> Fallback.World C -> Fallback.World C).
Variable chat_completion : nat -> Strategy.Entry -> Chat.ChatCompletionRequest -> Fallback.World C ->
  result Chat.ChatCompletionResponse Provider.ProviderError * Fallback.World C.
Variable Stream : Type.
Variable chat_completion_stream : nat -> Strategy.Entry -> Chat.ChatCompletionRequest -> Fallback.World C ->
  result (Provider.ProviderStreamContext * Stream) Provider.ProviderError * Fallback.World C.
Variable stream_next : Stream -> Fallback.World C ->
  option (result Provider.ProviderStreamEvent Provider.ProviderError) * Stream * Fallback.World C.

(** A run of a gateway started from a configuration. *)
Definition run_from (st : Build.AppState C M) (g : Gateway C Build.AnyKeyStore (Build.AnyCache M) (Build.AnyBackend C))
  (xs : list (Exchange C)) :=
  @run C _ Build.AnyKeyStore (Build.AnyCache M) (Build.AnyBackend C) (AnyKeyStore_KeyStore verify_password)
    (AnyCache_ResponseCache M instant from_str to_string) (AnyBackend_backend C now_ms) prefix_to_vec cache_to_vec sha256 json_to_string chunk_to_string
    error_to_string delta_to_string completed_to_string stream_error_to_string parse_uuid unix sleep chat_completion Stream chat_completion_stream stream_next (settings_of C M st) xs g.

(** C3: a gateway keeps serving.  Take one started from a validated
    configuration whose integers fit their types and whose backoff jitters are
    below [u64::MAX] (at which the backoff panics), with its rate limits kept
    locally or by a Redis server, and requests to the chat and responses
    endpoints that arrive one after another, while nothing else moves the
    request counters, the admission counters or the retry policies or poisons
    the metrics, and time does not run backwards.  Whatever their headers and
    bodies, the answers of providers and the departures of clients, each
    request gets a reply and none a panic, and the gateway is as fit for the
    next request as before: all admission slots free, metrics and rate limiter
    usable.  Its books agree with its replies: the counters moved, and the log
    if on has one entry under its id and route, in order, for each reply that
    is booked (a chat request that was answered or failed, unless it was a
    cache hit or the client left the stream; of the responses endpoint only
    streams). *)
Theorem gateway_keeps_serving config out now st xs :
  Config.validate_config config = Ok tt -> in_width config -> Build.from_config C M out config now = Build.Done st ->
  Outside C sleep chat_completion Stream chat_completion_stream stream_next -> Forall (gentle_exchange C) xs ->
  exists g rs bs, run_from st (start C M st now) xs = (g, map Some rs) /\ length rs = length xs /\ Forall2 billed rs bs /\
    @serving C Build.AnyKeyStore (Build.AnyCache M) (Build.AnyBackend C) _ (AnyBackend_laws C now_ms) g /\
    Fallback.admission C (world _ _ _ (app _ _ _ _ g)) = Build.admission C M st /\
    counters_at (world _ _ _ (app _ _ _ _ g)) = Some (foldl tally (0, 0, 0, 0) (lines bs)) /\
    if RequestLog.enabled (Build.request_logging C M st)
    then Forall2 (fun b e => logged_as (settings_of C M st) b.1.1 b.1.2 b.2 e) (lines bs)
           (request_log _ _ _ (app _ _ _ _ g))
    else request_log _ _ _ (app _ _ _ _ g) = [].
Proof.
  intros Hv Hw Hst Ho Hx. pose proof (start_serving C M now_ms out config now st Hv Hw Hst) as Hs.
  destruct (@run_spec C _ Build.AnyKeyStore (Build.AnyCache M) (Build.AnyBackend C) (AnyKeyStore_KeyStore verify_password)
    (AnyCache_ResponseCache M instant from_str to_string) (AnyBackend_backend C now_ms) (AnyBackend_laws C now_ms) prefix_to_vec cache_to_vec sha256 json_to_string chunk_to_string
    error_to_string delta_to_string completed_to_string stream_error_to_string parse_uuid unix sleep chat_completion Stream chat_completion_stream stream_next (settings_of C M st) Ho xs
    (start C M st now) Hs Hx) as (g & rs & bs & Hrun & Hlen & Hg & _ & Hadm & Hb & [(c & Hc & Hc') Hlog] & _).
  exists g, rs, bs. split; [exact Hrun|]. split; [done|]. split; [done|]. split; [done|]. split; [done|]. split.
  - destruct (Build.built_parts C M out config now st Hst) as (Hm & _). unfold counters_at in Hc. cbn in Hc. rewrite Hm in Hc.
    injection Hc as <-. exact Hc'.
  - cbn [settings_of request_logging] in Hlog. destruct (RequestLog.enabled _); [|done]. by destruct Hlog as (es & -> & Hes).
Qed.

(** C4: a gateway never lets more requests through to its handlers than its
    global limit allows: over such a run of requests, of a gateway that keeps
    its rate limits locally, those that got past the middleware are at most the
    configured burst (at least 1), plus the configured rate (at least 6 per
    minute) times the time the run took, up to the rounding of the token
    bucket. *)
Theorem gateway_within_rate config out now st xs g rs :
  Config.validate_config config = Ok tt -> in_width config -> Build.from_config C M out config now = Build.Done st ->
  Config.rate_limit_backend (Config.rate_limit (Config.gateway config)) = Config.Local_ ->
  Outside C sleep chat_completion Stream chat_completion_stream stream_next -> Forall (gentle_exchange C) xs ->
  run_from st (start C M st now) xs = (g, map Some rs) -> 0 <= now ->
  let finish := Fallback.now C (world _ _ _ (app _ _ _ _ g)) in
  finish < RateBound.horizon ->
  (IZR (answered rs) <=
     IZR (Z.max (Config.global_burst_size (Config.rate_limit (Config.gateway config))) 1)
     + IZR (finish - now) / 1000000000
       * RateBound.rate_of (Config.global_requests_per_minute (Config.rate_limit (Config.gateway config))) * (1 + RateBound.relative)
     + INR (2 * length xs) * RateBound.slack)%R.
Proof.
  intros Hv Hw Hst Hlocal Ho Hx Hg H0 finish Hfin. pose proof (start_serving C M now_ms out config now st Hv Hw Hst) as Hs.
  destruct (@run_spec C _ Build.AnyKeyStore (Build.AnyCache M) (Build.AnyBackend C) (AnyKeyStore_KeyStore verify_password)
    (AnyCache_ResponseCache M instant from_str to_string) (AnyBackend_backend C now_ms) (AnyBackend_laws C now_ms) prefix_to_vec cache_to_vec sha256 json_to_string chunk_to_string
    error_to_string delta_to_string completed_to_string stream_error_to_string parse_uuid unix sleep chat_completion Stream chat_completion_stream stream_next (settings_of C M st) Ho xs
    (start C M st now) Hs Hx) as (g' & rs' & bs & Hrun & _ & _ & _ & _ & _ & _ & ops & _ & Hlen & Hord & Hans).
  change (run_from st (start C M st now) xs = (g', map Some rs')) in Hrun. rewrite Hg in Hrun. injection Hrun as <- Hrs.
  apply (inj (map Some)) in Hrs as <-. cbn [start app app_of world Fallback.now] in Hord.
  destruct (Build.built_parts C M out config now st Hst) as (_ & Hl & _ & _ & Hshare).
  unfold Build.backend_for in Hshare. rewrite Hlocal in Hshare. cbn [start backend] in Hans. rewrite Hshare, asks_local in Hans.
  rewrite <-(length_map timed_op) in Hlen. set (checks := map timed_op ops) in *.
  assert (answered rs <= RateBound.admitted checks (snd (RateLimit.run C checks (Build.rate_limiter C M st)))) as Hans'
    by (by destruct (RateLimit.run C checks _)). clear Hans. rename Hans' into Hans.
  pose proof (RateBound.in_order_le _ _ _ Hord) as Hle. fold finish in Hord, Hle.
  pose proof (RateBound.forward_in_order now now finish checks (Z.le_refl _) Hord) as Hfwd.
  assert (1 <= Config.max_tracked_keys (Config.rate_limit (Config.gateway config))) as Hk.
  { unfold RateLimit.new in Hl. destruct (Z.eqb_spec (Config.max_tracked_keys (Config.rate_limit (Config.gateway config))) 0); [done|].
    pose proof (w_tracked config Hw). lia. }
  assert (Forall (fun p : Z * RateLimit.op => 0 <= fst p < RateBound.horizon) checks) as Hops.
  { eapply Forall_impl; [exact (RateBound.in_order_between _ _ _ Hord)|]. cbn. lia. }
  pose proof (RateBound.new_bound C _ now _ checks Hk (w_burst config Hw) (w_rpm config Hw) ltac:(lia) Hops Hl) as Hbound.
  exact (RateBound.bound_weaken _ _ _ _ _ _ _ _ (w_rpm config Hw) Hbound Hans Hfwd Hlen).
Qed.

End Properties.

(* ------------------------------------------------------------------ *)
(** ** A concrete run *)

(** Sleeping passes time; the mock provider answers after 5 ms. *)
Definition demo_sleep (d : Z) (w : Fallback.World ref_lru) : Fallback.World ref_lru := Fallback.demo_sleep (Z.max 0 d) w.
Definition demo_call (k : nat) (e : Strategy.Entry) (r : Chat.ChatCompletionRequest) (w : Fallback.World ref_lru) :
  result Chat.ChatCompletionResponse Provider.ProviderError * Fallback.World ref_lru :=
  (Ok (Chat.placeholder 0 7 "m" (Strategy.pname e)), demo_sleep (from_millis 5) w).

Lemma demo_sleep_gentle d : gentle ref_lru (demo_sleep d).
Proof.
  split; intros w; [split; [done|]; by split|]. split; [done|done|]. unfold demo_sleep, Fallback.demo_sleep. cbn [Fallback.now]. lia.
Qed.

Lemma demo_outside_gentle : Outside ref_lru demo_sleep demo_call (list Provider.ProviderStreamEvent) Fallback.demo_stream_call Fallback.demo_next.
Proof.
  split; split; intros; try apply demo_sleep_gentle; try done; (split; [done|]; by split).
Qed.

Definition demo_question : Chat.ChatCompletionRequest :=
  {| Chat.req_model := Some "fast"; Chat.messages := Chat.messages (demo_body false); Chat.temperature := None; Chat.max_tokens := None;
     Chat.stream := None; Chat.tools := None; Chat.tool_choice := None; Chat.parallel_tool_calls := None; Chat.response_format := None |}.

Definition demo_response_request : Responses.ResponseRequest :=
  {| Responses.model := Some "fast"; Responses.input := Responses.InputText "hello"; Responses.instructions := Some "be brief";
     Responses.stream := Some true; Responses.temperature := None; Responses.max_output_tokens := None |}.

(** A chat request without a key, one with it, and a streamed response that
    is read to its end, a second apart. *)
Definition demo_exchange (auth : option string) (body : Body) : Exchange ref_lru :=
  {| ex_wait := demo_sleep (from_secs 1); ex_request_id_header := None; ex_authorization := auth; ex_fresh_id := 11;
     ex_body := body; ex_answers := []; ex_polls := repeat (demo_sleep 0) 8 |}.
Definition demo_exchanges : list (Exchange ref_lru) :=
  [demo_exchange None (ChatBody (Some demo_question)); demo_exchange (Some "Bearer secret") (ChatBody (Some demo_question));
   demo_exchange (Some "Bearer secret") (ResponsesBody (Some demo_response_request))].

Lemma demo_exchanges_gentle : Forall (gentle_exchange ref_lru) demo_exchanges.
Proof. repeat constructor; apply demo_sleep_gentle. Qed.

Definition demo_config : Config.AppConfig := Config.example_config ["mock"].

Lemma demo_config_valid : Config.validate_config demo_config = Ok tt.
Proof. by vm_compute. Qed.

Lemma demo_in_width : in_width demo_config.
Proof.
  split.
  - intros [|p|p] n; [done|..]; intros Hn; vm_compute in Hn; by destruct p.
  - vm_compute. by split.
  - constructor; [by intros j Hj|constructor].
  - vm_compute. discriminate.
  - vm_compute. by split.
  - vm_compute. by split.
Qed.

Definition demo_run (st : Build.AppState ref_lru MemoryCache.ref_moka)
  (g : Gateway ref_lru Build.AnyKeyStore (Build.AnyCache MemoryCache.ref_moka) (Build.AnyBackend ref_lru)) :=
  run_from ref_lru MemoryCache.ref_moka (fun _ _ => None) (fun t => t) (fun t => t) Cache.example_from_str Cache.example_to_string
    Fallback.demo_to_vec (fun _ => Some []) Strategy.example_sha256 (fun _ => Some "") (fun c => Some (Chat.chunk_id c))
    (fun _ m => m) (fun _ d => Some (Responses.delta d)) (fun _ _ => Some "") (fun m => m) (fun _ => None) (fun t => t) demo_sleep demo_call (list Provider.ProviderStreamEvent)
    Fallback.demo_stream_call Fallback.demo_next st g demo_exchanges.

(** It starts; the first request is turned away and the others are answered. *)
Lemma demo_runs : exists st, Build.from_config ref_lru MemoryCache.ref_moka Build.demo_outside demo_config 0 = Build.Done st /\
  Fallback.now ref_lru (world _ _ _ (app _ _ _ _ (fst (demo_run st (start ref_lru MemoryCache.ref_moka st 0))))) = from_millis 3005 /\
  map (fmap is_answered) (snd (demo_run st (start ref_lru MemoryCache.ref_moka st 0))) = [Some false; Some true; Some true].
Proof. eexists. split; [reflexivity|]. vm_compute. by split. Qed.

Lemma gateway_keeps_serving_witness : exists st g rs bs,
  Build.from_config ref_lru MemoryCache.ref_moka Build.demo_outside demo_config 0 = Build.Done st /\
  demo_run st (start ref_lru MemoryCache.ref_moka st 0) = (g, map Some rs) /\ map is_answered rs = [false; true; true] /\ Forall2 billed rs bs /\
  @serving ref_lru Build.AnyKeyStore (Build.AnyCache MemoryCache.ref_moka) _ _ (AnyBackend_laws ref_lru (fun t => t)) g /\
  counters_at (world _ _ _ (app _ _ _ _ g)) = Some (foldl tally (0, 0, 0, 0) (lines bs)).
Proof.
  destruct demo_runs as (st & Hst & _ & Hans).
  destruct (gateway_keeps_serving ref_lru MemoryCache.ref_moka (fun _ _ => None) (fun t => t) (fun t => t) Cache.example_from_str Cache.example_to_string
    Fallback.demo_to_vec (fun _ => Some []) Strategy.example_sha256 (fun _ => Some "") (fun c => Some (Chat.chunk_id c))
    (fun _ m => m) (fun _ d => Some (Responses.delta d)) (fun _ _ => Some "") (fun m => m) (fun _ => None) (fun t => t) demo_sleep demo_call (list Provider.ProviderStreamEvent)
    Fallback.demo_stream_call Fallback.demo_next demo_config Build.demo_outside 0 st demo_exchanges demo_config_valid demo_in_width
    Hst demo_outside_gentle demo_exchanges_gentle) as (g & rs & bs & Hrun & _ & Hb & Hs & _ & Hc & _).
  change (demo_run st (start ref_lru MemoryCache.ref_moka st 0) = (g, map Some rs)) in Hrun. exists st, g, rs, bs. split; [done|]. split; [done|].
  rewrite Hrun in Hans. cbn [snd] in Hans. split; [|by split; [|split]].
  rewrite map_map in Hans. apply (inj (map Some)). rewrite map_map. exact Hans.
Defined.

Lemma gateway_within_rate_witness : exists st g rs,
  Build.from_config ref_lru MemoryCache.ref_moka Build.demo_outside demo_config 0 = Build.Done st /\
  demo_run st (start ref_lru MemoryCache.ref_moka st 0) = (g, map Some rs) /\
  (IZR (answered rs) <= 30 + IZR (from_millis 3005 - 0) / 1000000000 * RateBound.rate_of 120 * (1 + RateBound.relative)
                        + INR 6 * RateBound.slack)%R.
Proof.
  destruct demo_runs as (st & Hst & Hnow & Hans). destruct (demo_run st (start ref_lru MemoryCache.ref_moka st 0)) as [g replies] eqn:Hrun. cbn [fst snd] in *.
  assert (exists rs, replies = map Some rs) as (rs & ->).
  { destruct replies as [|[r1|] [|[r2|] [|[r3|] [|? ?]]]]; try done. by exists [r1; r2; r3]. }
  exists st, g, rs. split; [done|]. split; [done|]. rewrite <-Hnow.
  apply (gateway_within_rate ref_lru MemoryCache.ref_moka (fun _ _ => None) (fun t => t) (fun t => t) Cache.example_from_str Cache.example_to_string
    Fallback.demo_to_vec (fun _ => Some []) Strategy.example_sha256 (fun _ => Some "") (fun c => Some (Chat.chunk_id c))
    (fun _ m => m) (fun _ d => Some (Responses.delta d)) (fun _ _ => Some "") (fun m => m) (fun _ => None) (fun t => t) demo_sleep demo_call (list Provider.ProviderStreamEvent)
    Fallback.demo_stream_call Fallback.demo_next demo_config Build.demo_outside 0 st demo_exchanges g rs demo_config_valid demo_in_width
    Hst eq_refl demo_outside_gentle demo_exchanges_gentle Hrun (Z.le_refl 0)).
  rewrite Hnow. vm_compute. reflexivity.
Defined.

End Gateway.
